(* ===== verification/_CoqProject ===== *)
-Q . S2P
Prelude.v
CInt.v
CFloat.v
Monad.v
CStdio.v
Zipf.v
Percentile.v
Dpdk.v
Sim.v
Arp.v
Exp.v
Server.v
Config.v
Packet.v
TcpPacket.v
Payload.v
ClientTx.v
ClientRx.v
ClientSetup.v
RoundTrip.v
Client.v
Latency.v
FlowRules.v
Main.v
ClientMain.v
