(* ===== verification/Prelude.v ===== *)
(** * Verification of dpdk-client-server

    A traffic generator and echo server over DPDK, in C (src/). [main] (main.c)
    reads the command line (config.c), brings up a port, and starts on every core
    one of three workers: the echo server (server.c), the load-generating client
    (client.c) with its receiver thread, or the latency client
    (latency_client.c). All of them use ARP (utils/arp.c) and the helpers of
    utils/exp.c; the load-generating client also builds its packets from the
    headers in include/client/, draws from Zipf distributions (utils/zipf.c) and
    files latencies in a histogram (utils/percentile.c).

    ** How the code is modelled

    A C function is a function of the same name from the state before to what it
    comes to and the state after (Monad.v). It returns, ends the process, fails
    an [assert], meets undefined behaviour, or runs out of fuel; these are values
    of [outcome], so a theorem says for each which of them can be. [wp] is the
    weakest precondition of a computation, with one postcondition for a return
    and one for every other outcome, and the file's tactic [wp_step] applies its
    rules. Integers are [Z] with the width of the C type written out (CInt.v),
    [float] and [double] are the standard library's executable IEEE 754
    (CFloat.v). A write out of an array, a division by 0, a conversion out of range
    and an [int] that overflows come to [Undef] where the code could do them.

    The state of a worker is a [machine] (Dpdk.v): the packet buffers it owns in a
    heap, so that aliasing, leaks and double frees can be stated; the state of the
    random numbers; the outside world; and the trace. The trace has what was
    received, sent, printed and asked of the card, and also what the outside world
    answered: every reading of the timer ([EvClock]), every look at the running flag
    ([EvPoll]), what the card refused of a burst ([EvTx]) and every bulk allocation
    that failed ([EvNoMbufs]). So a theorem about a run can say at which times its
    packets were built, which of them counted and what a measurement was measured
    from: it reads them off the trace of that run. (The time stamp counter of the busy
    waits and single allocations leave no event.) The header structures are bytes at
    the offsets of the wire formats, in network byte order.

    DPDK is not in the repository. It is a parameter: the classes [DpdkLib],
    [DpdkEnv] (Dpdk.v), [DpdkPort] (Main.v) and [DpdkFlow] (FlowRules.v) are its
    operations over an arbitrary outside world [W], and [DpdkLaws], [EnvLaws],
    [PortLaws] and [FlowLaws] its documented behaviour: byte swaps, what
    [rte_pktmbuf_append] does, that a poll gives at most the packets asked for,
    that at most the offered packets are taken, that a fresh buffer is empty.
    Checksums computed by DPDK are unspecified functions. [log], [pow] and [atof]
    of the C library are arguments; what is needed of [log] is [log_ok]
    (Percentile.v), of [pow] [pow_ok] (Zipf.v). Sim.v is an instance of the classes
    with a clock and scripts of events, on which the witnesses of the theorems run.

    ** Files

    Base: Prelude.v (lists, options, tactics, hint databases), CInt.v, CFloat.v,
    Monad.v, CStdio.v (the string functions of the C library that config.c and
    exp.c call), Dpdk.v, Sim.v.

    - Zipf.v, utils/zipf.c. [new_zipfgen] tabulates a sorted table of n + 1 entries;
      [number_from_zipf_distribution] finds the rank whose interval has the number
      drawn. [myrand] reads a table of 2^25 outputs of a congruential generator
      with the full period 2^32.
    - Percentile.v, utils/percentile.c. [add_number_to_p_hist] adds one to the bucket
      of a value, and buckets are ordered like values; [get_percentile] interpolates
      in the first bucket whose cumulative fraction reaches the percentile.
    - Arp.v, utils/arp.c. [send_arp] sends the reference encoding; [get_dst_mac]
      returns the address in the first reply to us, and frees what it polls.
    - Exp.v, utils/exp.c and include/exp.h. [struct context]; addresses as text;
      [check_eth_hdr], which accepts a packet or answers an ARP request.
    - Config.v, config.c and config.h. [parse_args]: an accepted command line gives a
      configuration that satisfies [config_ok]. Client and server configuration
      share memory, as the union of the source does.
    - Server.v, server.c. [process_pkt] handles a packet, [serve_burst] a burst,
      [server_iter] is a round of the main loop. [answers] is the abstract
      specification: the echo of every accepted packet, in order.
      [do_server] refines it under every behaviour of card and clock, at
      every moment of the run.
    - Packet.v, TcpPacket.v, Payload.v, include/client/. [prepare_udp] and
      [prepare_tcp] write the reference encodings [eth_bytes], [ipv4_bytes],
      [udp_bytes], [tcp_bytes]; a payload's number can be read back.
    - ClientSetup.v, ClientTx.v, ClientRx.v, Client.v, client.c. The set-up, an
      iteration of the transmit loop, one of the receiver, and both threads as a
      step relation [client_step] with the final report. [variant] is the choice of
      the Makefile's four builds (UDP or TCP, time stamp or number). [stepped] says
      exactly what an iteration of the transmit loop does, given what it read: the
      branch it takes, the packets it builds and their stamps, the locals it ends
      with. [tally_of] computes from the trace what the counters of a whole run must
      be. [counts_all] is the specification of a received burst.
    - RoundTrip.v. Composition: what the client builds the server echoes, and what
      comes back is counted and measured. [mb_data] is what the network carries.
    - Latency.v, latency_client.c. A burst of requests, the wait for answers with
      its time-out of a second, the measurements and the report. [polled], [round],
      [waits], [lat_effect] and [lat_run] are a grammar of its traces: when a wait
      goes on and when it may end, which reading of the clock stamps a request and
      which one measures an answer.
    - FlowRules.v, utils/flow_rules.c. The two rules, and the frames they select.
    - Main.v, main.c. Pools, port, contexts, launch, clean-up. [filled] is the
      specification of the contexts.
    - ClientMain.v. [main] in client mode up to the client's threads.

    ** The theorems

    Safety and invariants: no packet buffer is leaked or freed twice, counters equal
    what the trace shows was received, sent and refused, well-formed states stay well-formed, in every interleaving of the
    client's threads (Client.client_safe, ClientTx.tx_iter_correct,
    ClientRx.rx_iter_correct, Latency.lat_iter_correct). Refinement of an abstract
    specification: Server.server_echoes. Composition from an accepted command line on:
    Main.main_serves (server), ClientMain.client_from_command_line (client) and
    Main.main_measures (latency client). Equivalence with reference encoders, and
    round trips: Packet, TcpPacket, Payload, RoundTrip, Latency. Termination and
    progress: Server.server_gives_up (in silence the server ends by its deadlines),
    Latency.lat_wait_ends, Client.client_progress and Client.client_shuts_down. The
    functional behaviour of the rest, errors included. A few theorems state what
    the code does where that is not what it is meant to do, for instance
    Server.tx_buf_overrun, Main.second_worker_overrun, FlowRules.ipv4_flow_selects.

    ** Bounds and fuel

    Loops without a structural bound take fuel. A theorem about a loop that polls
    holds for every fuel, and what it says when the fuel is out is what holds at that
    moment of the run, so it speaks about runs that do not end. Where
    the code ends by itself it is proved that some explicit fuel suffices: the time
    left on the clock in Server.server_gives_up and Latency.lat_wait_ends (both under the
    hypothesis that the clock advances between readings), and more than 65536 for the
    16-bit loops of the client's set-up. The server is bounded by 64 packets times
    fuel <= [INT_MAX], because it counts in [int], and its bursts to the 64 packets
    its transmit buffer has room for ([small_bursts]). That is an assumption on the
    card, not documented behaviour of DPDK: the server asks for up to 1024 packets.
    Without it, Server.tx_buf_overrun. Server.server_echoes and Main.main_serves are
    under these two conditions. The latency client is fit for the configurations of
    [lat_config] (payload, encapsulation and burst sizes that fit its buffers). The client's runs are those in which the histogram's
    counters have room for another burst ([roomy]).

    ** Not modelled

    - Other cores are part of the environment of the one modelled; the flag that
      stops a worker is answered by the environment ([still_running]), at every
      poll. The client's two threads interleave by iterations of their loops:
      finer interleavings, and the data race on the receiver's flag, are not
      represented.
    - [main] takes the load-generating client as an argument, because its threads
      are the relation of Client.v; ClientMain.v puts the two together. Whether the
      8 GB [calloc] of the latency client succeeds is an argument too; its theorems
      are for the case that it does, since the code does not look.
    - What is printed is an event with the format and the numbers; text written to
      a worker's output buffer is such an event too. Warnings about NUMA nodes and
      the usage text are left out.
    - The C heap: a failing [malloc] and the release of histograms, tables, contexts
      and files. Packet buffers are modelled in full.
    - [print_stats] of percentile.c and utils/exponential.c, which nothing calls; the
      debugging variants _RX_JUST_DROP and _RX_PRINT_RESPONSE, which the Makefile
      never builds; test/zipf_test.c and the scripts, which state no property. *)
From Stdlib Require Export ZArith Lia Bool.
From stdpp Require Export base list gmap option tactics.

#[global] Open Scope Z_scope.

(** ** Automation

    [cnet] collects the facts the component files use without naming them:
    lengths of encoded fields, ranges of wrapped integers, buffer bounds. *)
Create HintDb cnet.
Create Rewrite HintDb cnet.

(** Reduces a boolean test in the goal or a hypothesis to its proposition. *)
Ltac bool_to_prop :=
  repeat match goal with
  | H : (_ && _)%bool = true |- _ => apply andb_true_iff in H as [? ?]
  | H : (_ || _)%bool = false |- _ => apply orb_false_iff in H as [? ?]
  | H : negb _ = true |- _ => apply negb_true_iff in H
  | H : negb _ = false |- _ => apply negb_false_iff in H
  | H : (_ =? _)%Z = true |- _ => apply Z.eqb_eq in H
  | H : (_ =? _)%Z = false |- _ => apply Z.eqb_neq in H
  | H : (_ <? _)%Z = true |- _ => apply Z.ltb_lt in H
  | H : (_ <? _)%Z = false |- _ => apply Z.ltb_ge in H
  | H : (_ <=? _)%Z = true |- _ => apply Z.leb_le in H
  | H : (_ <=? _)%Z = false |- _ => apply Z.leb_gt in H
  | H : (_ >? _)%Z = true |- _ => rewrite Z.gtb_ltb in H
  | H : (_ >? _)%Z = false |- _ => rewrite Z.gtb_ltb in H
  | H : (_ <=? _)%nat = true |- _ => apply Nat.leb_le in H
  | H : (_ <=? _)%nat = false |- _ => apply Nat.leb_gt in H
  | H : (_ <? _)%nat = true |- _ => apply Nat.ltb_lt in H
  | H : (_ <? _)%nat = false |- _ => apply Nat.ltb_ge in H
  | H : (_ =? _)%nat = true |- _ => apply Nat.eqb_eq in H
  | H : (_ =? _)%nat = false |- _ => apply Nat.eqb_neq in H
  end.

(** Case analysis on the first conditional of the goal, its test kept as a
    proposition. *)
Ltac case_if :=
  match goal with
  | |- context [if ?b then _ else _] => destruct b eqn:?; bool_to_prop
  end.

(** Adds a fact to the context once. *)
Tactic Notation "pose_new" constr(H) :=
  let T := type of H in
  match goal with
  | _ : T |- _ => fail 1
  | _ => pose proof H
  end.

(** Splits a list hypothesis [length l = k] (k a literal) into its elements. *)
Ltac explode_list l :=
  repeat match goal with
  | H : length l = 0%nat |- _ => apply nil_length_inv in H; subst l
  | H : length l = S _ |- _ =>
      let x := fresh "x" in let l' := fresh "l" in
      destruct l as [|x l']; [discriminate H | injection H as H; explode_list l']
  end.

(** ** Sub-lists at an offset

    A C structure access is a read or a write of a run of bytes at an offset
    of a buffer; both fail when the run is not inside the buffer. *)
Definition slice {A} (off n : nat) (l : list A) : option (list A) :=
  if (off + n <=? length l)%nat then Some (take n (drop off l)) else None.

Definition patch {A} (off : nat) (bs l : list A) : option (list A) :=
  if (off + length bs <=? length l)%nat
  then Some (take off l ++ bs ++ drop (off + length bs) l) else None.

Declare Scope bytes_scope.
Delimit Scope bytes_scope with bytes.
Notation "l .[ off , n ]" := (slice off n l)
  (at level 1, off at level 50, n at level 50, format "l .[ off ,  n ]") : bytes_scope.
Notation "l .[ off :<- bs ]" := (patch off bs l)
  (at level 1, off at level 50, bs at level 50, format "l .[ off  :<-  bs ]") : bytes_scope.
#[global] Open Scope bytes_scope.

Section slices.
Context {A : Type}.
Implicit Types a l m bs : list A.

Lemma slice_length off n l m : slice off n l = Some m -> length m = n.
Proof.
  unfold slice. case_if; intros; simplify_eq.
  rewrite length_take, length_drop. lia.
Qed.

Lemma slice_Some off n l :
  (off + n <= length l)%nat -> slice off n l = Some (take n (drop off l)).
Proof. intros. unfold slice. case_if; [done | lia]. Qed.

Lemma slice_None off n l : (length l < off + n)%nat -> slice off n l = None.
Proof. intros. unfold slice. case_if; [lia | done]. Qed.

Lemma slice_app_r a l o n : slice (length a + o) n (a ++ l) = slice o n l.
Proof.
  unfold slice. rewrite length_app, drop_app_add.
  do 2 case_if; done || lia.
Qed.

Lemma slice_app_l a l o n :
  (o + n <= length a)%nat -> slice o n (a ++ l) = slice o n a.
Proof.
  intros H. rewrite !slice_Some by (rewrite ?length_app; lia).
  rewrite drop_app_le by lia. rewrite take_app_le; [done|].
  rewrite length_drop. lia.
Qed.

Lemma slice_exact a m l n :
  length m = n -> slice (length a) n (a ++ m ++ l) = Some m.
Proof.
  intros <-. replace (length a) with (length a + 0)%nat by lia.
  rewrite slice_app_r, slice_app_l by lia.
  rewrite slice_Some by lia. by rewrite drop_0, firstn_all.
Qed.

Lemma patch_length off bs l l' : patch off bs l = Some l' -> length l' = length l.
Proof.
  unfold patch. case_if; intros; simplify_eq.
  rewrite !length_app, length_take, length_drop. lia.
Qed.

Lemma patch_is_Some off bs l :
  (off + length bs <= length l)%nat -> is_Some (patch off bs l).
Proof. intros. unfold patch. case_if; [eauto | lia]. Qed.

Lemma patch_app_r a l o bs : patch (length a + o) bs (a ++ l) = app a <$> patch o bs l.
Proof.
  unfold patch. rewrite length_app.
  rewrite take_app_add, <- Nat.add_assoc, drop_app_add.
  do 2 case_if; simpl; try lia; [by rewrite <- app_assoc | done].
Qed.

Lemma patch_app_l a l o bs :
  (o + length bs <= length a)%nat -> patch o bs (a ++ l) = (.++ l) <$> patch o bs a.
Proof.
  intros. unfold patch. rewrite length_app.
  do 2 case_if; try lia. simpl.
  rewrite take_app_le, drop_app_le by lia. by rewrite <- !app_assoc.
Qed.

Lemma patch_exact a m l bs :
  length m = length bs -> patch (length a) bs (a ++ m ++ l) = Some (a ++ bs ++ l).
Proof.
  intros H. replace (length a) with (length a + 0)%nat at 1 by lia.
  rewrite patch_app_r. unfold patch. rewrite length_app.
  case_if; [|lia]. simpl. by rewrite <- H, drop_app_length.
Qed.

(** Reading back what was written, and reading beside it. *)
Lemma slice_patch_same off bs l l' :
  patch off bs l = Some l' -> slice off (length bs) l' = Some bs.
Proof.
  unfold patch. case_if; intros; simplify_eq.
  replace off with (length (take off l)) at 1 by (rewrite length_take; lia).
  by apply slice_exact.
Qed.

Lemma slice_patch_before off bs l l' o n :
  patch off bs l = Some l' -> (o + n <= off)%nat -> slice o n l' = slice o n l.
Proof.
  unfold patch. case_if; intros; simplify_eq.
  rewrite slice_app_l by (rewrite length_take; lia).
  rewrite <- (take_drop off l) at 2. rewrite slice_app_l; [done|].
  rewrite length_take. lia.
Qed.

Lemma slice_patch_after off bs l l' o n :
  patch off bs l = Some l' -> (off + length bs <= o)%nat -> slice o n l' = slice o n l.
Proof.
  unfold patch. case_if; intros; simplify_eq.
  set (a := take off l ++ bs).
  assert (Ha : length a = (off + length bs)%nat)
    by (unfold a; rewrite length_app, length_take; lia).
  replace o with (length a + (o - length a))%nat by lia.
  rewrite app_assoc. fold a. rewrite slice_app_r.
  rewrite <- (take_drop (off + length bs) l) at 2.
  replace (length a + (o - length a))%nat
    with (length (take (off + length bs) l) + (o - length a))%nat
    by (rewrite length_take; lia).
  by rewrite slice_app_r.
Qed.
End slices.

#[export] Hint Resolve slice_length patch_length : cnet.

(** ** Counting and summing *)
Definition sum_Z (l : list Z) : Z := foldr Z.add 0 l.

Lemma sum_Z_app l k : sum_Z (l ++ k) = sum_Z l + sum_Z k.
Proof. induction l; simpl; lia. Qed.

Lemma sum_Z_insert (l : list Z) i x y :
  l !! i = Some x -> sum_Z (<[i:=y]> l) = sum_Z l - x + y.
Proof.
  revert i. induction l as [|z l IH]; intros [|i] H; simpl in *; simplify_eq.
  - lia.
  - rewrite IH by done. lia.
Qed.

Lemma sum_Z_replicate n x : sum_Z (replicate n x) = Z.of_nat n * x.
Proof. induction n; simpl; lia. Qed.

Lemma sum_Z_nonneg l : Forall (fun x => 0 <= x) l -> 0 <= sum_Z l.
Proof. induction 1; simpl; lia. Qed.

Lemma lookup_lt_is_Some_Z {A} (l : list A) (i : nat) :
  (i < length l)%nat -> exists x, l !! i = Some x.
Proof. intros. by apply lookup_lt_is_Some_2. Qed.

Lemma alter_at {A} (f : A -> A) (l : list A) i x : l !! i = Some x -> alter f i l = <[i := f x]> l.
Proof. revert i. induction l as [|y l IH]; intros [|i] Hi; cbn in *; simplify_eq; [done|]. by rewrite IH. Qed.

(** ** C arrays

    Indexing by a C integer: outside the array there is no element. *)
Definition lookupZ {A} (l : list A) (i : Z) : option A :=
  if i <? 0 then None else l !! Z.to_nat i.
Definition insertZ {A} (i : Z) (x : A) (l : list A) : option (list A) :=
  if (0 <=? i) && (i <? Z.of_nat (length l)) then Some (<[Z.to_nat i := x]> l) else None.

Lemma lookupZ_Some {A} (l : list A) i x :
  lookupZ l i = Some x <-> 0 <= i /\ l !! Z.to_nat i = Some x.
Proof. unfold lookupZ. case_if; naive_solver lia. Qed.

Lemma lookupZ_is_Some {A} (l : list A) i :
  0 <= i < Z.of_nat (length l) -> exists x, lookupZ l i = Some x.
Proof.
  intros. destruct (lookup_lt_is_Some_2 l (Z.to_nat i)) as [x Hx]; [lia|].
  exists x. apply lookupZ_Some. split; [lia|done].
Qed.

Lemma lookupZ_bound {A} (l : list A) i x :
  lookupZ l i = Some x -> 0 <= i < Z.of_nat (length l).
Proof. intros [? H%lookup_lt_Some]%lookupZ_Some. lia. Qed.

Lemma lookupZ_None {A} (l : list A) i :
  lookupZ l i = None <-> i < 0 \/ Z.of_nat (length l) <= i.
Proof.
  unfold lookupZ. case_if; [naive_solver|]. rewrite lookup_ge_None. lia.
Qed.

Lemma insertZ_Some {A} i (x : A) l l' :
  insertZ i x l = Some l' <->
  0 <= i < Z.of_nat (length l) /\ l' = <[Z.to_nat i := x]> l.
Proof. unfold insertZ. case_if; [naive_solver|]. apply andb_false_iff in Heqb. naive_solver lia. Qed.

Lemma insertZ_is_Some {A} i (x : A) l :
  0 <= i < Z.of_nat (length l) -> insertZ i x l = Some (<[Z.to_nat i := x]> l).
Proof. intros. by apply insertZ_Some. Qed.

Lemma lookupZ_insert {A} (l l' : list A) i j x :
  insertZ i x l = Some l' -> lookupZ l' j = if j =? i then Some x else lookupZ l j.
Proof.
  intros [Hi ->]%insertZ_Some. unfold lookupZ. repeat case_if; subst; try lia; try done.
  - apply list_lookup_insert_eq. lia.
  - apply list_lookup_insert_ne. lia.
Qed.

#[global] Arguments lookupZ : simpl never.
#[global] Arguments insertZ : simpl never.
#[global] Arguments slice : simpl never.
#[global] Arguments patch : simpl never.
