(* ===== verification/CInt.v ===== *)
(** * Machine integers and byte order

    C's fixed-width integers as [Z] with their wrap-around written out, the
    little-endian representation of a scalar in memory (the program targets
    x86-64), and the byte swap that the network byte order amounts to there. *)
From S2P Require Import Prelude.

(** ** Wrap-around *)
Definition wrap (w x : Z) : Z := x mod 2 ^ w.
Definition u8 (x : Z) : Z := wrap 8 x.
Definition u16 (x : Z) : Z := wrap 16 x.
Definition u32 (x : Z) : Z := wrap 32 x.
Definition u64 (x : Z) : Z := wrap 64 x.

(** Conversion to a signed type keeps the low bits (two's complement). *)
Definition swrap (w x : Z) : Z := wrap w (x + 2 ^ (w - 1)) - 2 ^ (w - 1).
Definition i16 (x : Z) : Z := swrap 16 x.
Definition i32 (x : Z) : Z := swrap 32 x.
Definition i64 (x : Z) : Z := swrap 64 x.

Definition INT_MAX : Z := 2 ^ 31 - 1.
Definition in_int (x : Z) : bool := (- 2 ^ 31 <=? x) && (x <=? INT_MAX).

(** Signed arithmetic that leaves [int] is undefined. *)
Definition int_chk (x : Z) : option Z := if in_int x then Some x else None.

(** ** Scalars in memory: little-endian bytes *)
Definition byte_ok (b : Z) : Prop := 0 <= b < 256.

Fixpoint le_split (n : nat) (z : Z) : list Z :=
  match n with
  | O => []
  | S n => z mod 256 :: le_split n (z / 256)
  end.

Fixpoint le_combine (l : list Z) : Z :=
  match l with
  | [] => 0
  | b :: l => b + 256 * le_combine l
  end.

(** Network byte order: most significant byte first. *)
Definition be_split (n : nat) (z : Z) : list Z := rev (le_split n z).
Definition be_combine (l : list Z) : Z := le_combine (rev l).

Definition bswap16 (x : Z) : Z :=
  Z.lor (Z.shiftl (Z.land x 255) 8) (Z.land (Z.shiftr x 8) 255).
Definition bswap32 (x : Z) : Z :=
  Z.lor (Z.shiftl (bswap16 (Z.land x 65535)) 16)
        (bswap16 (Z.land (Z.shiftr x 16) 65535)).

(** ** Ranges *)
Lemma wrap_range w x : 0 <= w -> 0 <= wrap w x < 2 ^ w.
Proof. intros. apply Z.mod_pos_bound. lia. Qed.

Lemma wrap_small w x : 0 <= x < 2 ^ w -> wrap w x = x.
Proof. intros. by apply Z.mod_small. Qed.

Lemma u8_range x : 0 <= u8 x < 256. Proof. by apply wrap_range. Qed.
Lemma u16_range x : 0 <= u16 x < 65536. Proof. by apply wrap_range. Qed.
Lemma u32_range x : 0 <= u32 x < 4294967296. Proof. by apply wrap_range. Qed.
Lemma u64_range x : 0 <= u64 x < 18446744073709551616. Proof. by apply wrap_range. Qed.

Lemma u8_small x : 0 <= x < 256 -> u8 x = x. Proof. apply (wrap_small 8). Qed.
Lemma u16_small x : 0 <= x < 65536 -> u16 x = x. Proof. apply (wrap_small 16). Qed.
Lemma u32_small x : 0 <= x < 4294967296 -> u32 x = x. Proof. apply (wrap_small 32). Qed.
Lemma u64_small x : 0 <= x < 18446744073709551616 -> u64 x = x.
Proof. apply (wrap_small 64). Qed.

Lemma wrap_add_l w x y : wrap w (wrap w x + y) = wrap w (x + y).
Proof. apply Zplus_mod_idemp_l. Qed.
Lemma u64_add_l x y : u64 (u64 x + y) = u64 (x + y). Proof. apply wrap_add_l. Qed.
Lemma u32_add_l x y : u32 (u32 x + y) = u32 (x + y). Proof. apply wrap_add_l. Qed.

Lemma u64_mul_l x y : u64 (u64 x * y) = u64 (x * y). Proof. apply Zmult_mod_idemp_l. Qed.

Lemma swrap_small w x : 0 < w -> - 2 ^ (w - 1) <= x < 2 ^ (w - 1) -> swrap w x = x.
Proof.
  intros Hw Hx. unfold swrap. rewrite wrap_small; [lia|].
  replace w with (w - 1 + 1) at 3 by lia. rewrite Z.pow_add_r by lia. lia.
Qed.
Lemma i32_small x : - 2147483648 <= x < 2147483648 -> i32 x = x.
Proof. intros. by apply swrap_small. Qed.
Lemma i16_small x : - 32768 <= x < 32768 -> i16 x = x.
Proof. intros. by apply swrap_small. Qed.

#[export] Hint Resolve u8_range u16_range u32_range u64_range : cnet.

(** Proves range goals about wrapped integers by exposing their bounds. *)
Ltac wrap_bounds :=
  repeat match goal with
  | |- context [u8 ?x] => pose_new (u8_range x)
  | |- context [u16 ?x] => pose_new (u16_range x)
  | |- context [u32 ?x] => pose_new (u32_range x)
  | |- context [u64 ?x] => pose_new (u64_range x)
  end; lia.

(** ** The little-endian representation *)
Lemma length_le_split n z : length (le_split n z) = n.
Proof. revert z. induction n; intros; simpl; auto. Qed.

Lemma length_be_split n z : length (be_split n z) = n.
Proof. unfold be_split. by rewrite length_rev, length_le_split. Qed.

Lemma le_split_bytes n z : Forall byte_ok (le_split n z).
Proof.
  revert z. induction n; intros; simpl; constructor; auto.
  apply Z.mod_pos_bound. lia.
Qed.

Lemma be_split_bytes n z : Forall byte_ok (be_split n z).
Proof. apply Forall_rev, le_split_bytes. Qed.

Lemma le_combine_split n z : le_combine (le_split n z) = z mod 256 ^ Z.of_nat n.
Proof.
  revert z. induction n as [|n IH]; intros z.
  - by rewrite Z.mod_1_r.
  - cbn [le_split le_combine]. rewrite IH, Nat2Z.inj_succ, Z.pow_succ_r by lia.
    rewrite Z.rem_mul_r by lia. done.
Qed.

Lemma le_split_combine l : Forall byte_ok l -> le_split (length l) (le_combine l) = l.
Proof.
  induction 1 as [|b l Hb Hl IH]; [done|].
  cbn [length le_split le_combine].
  rewrite (Z.mul_comm 256), Z.mod_add, Z.div_add by lia.
  rewrite Z.mod_small, Z.div_small by done. by rewrite Z.add_0_l, IH.
Qed.

Lemma le_combine_range l :
  Forall byte_ok l -> 0 <= le_combine l < 256 ^ Z.of_nat (length l).
Proof.
  induction 1 as [|b l Hb Hl IH]; [done|].
  cbn [length le_combine]. rewrite Nat2Z.inj_succ, Z.pow_succ_r by lia.
  unfold byte_ok in Hb. lia.
Qed.

Lemma be_combine_split n z : be_combine (be_split n z) = z mod 256 ^ Z.of_nat n.
Proof. unfold be_combine, be_split. by rewrite rev_involutive, le_combine_split. Qed.

Lemma be_split_combine l : Forall byte_ok l -> be_split (length l) (be_combine l) = l.
Proof.
  intros Hl. unfold be_combine, be_split.
  rewrite <- (length_rev l), le_split_combine by by apply Forall_rev.
  apply rev_involutive.
Qed.

Lemma be_combine_range l :
  Forall byte_ok l -> 0 <= be_combine l < 256 ^ Z.of_nat (length l).
Proof.
  intros. unfold be_combine. rewrite <- (length_rev l). by apply le_combine_range, Forall_rev.
Qed.

#[export] Hint Rewrite length_le_split length_be_split : cnet.
#[export] Hint Resolve le_split_bytes be_split_bytes : cnet.

(** ** Byte swapping is the change of byte order *)
Lemma land_255 x : Z.land x 255 = x mod 256.
Proof. change 255 with (Z.ones 8). by rewrite Z.land_ones. Qed.
Lemma land_65535 x : Z.land x 65535 = x mod 65536.
Proof. change 65535 with (Z.ones 16). by rewrite Z.land_ones. Qed.

Lemma land_shiftl_low a b n : 0 <= n -> 0 <= b < 2 ^ n -> Z.land (Z.shiftl a n) b = 0.
Proof.
  intros Hn Hb. apply Z.bits_inj'. intros i Hi. rewrite Z.land_spec, Z.bits_0.
  destruct (Z.lt_ge_cases i n).
  - by rewrite Z.shiftl_spec_low.
  - replace b with (b mod 2 ^ n) by (by apply Z.mod_small).
    rewrite Z.mod_pow2_bits_high by lia. apply andb_false_r.
Qed.

Lemma lor_shiftl_add a b n :
  0 <= n -> 0 <= b < 2 ^ n -> Z.lor (Z.shiftl a n) b = a * 2 ^ n + b.
Proof.
  intros Hn Hb. pose proof (land_shiftl_low a b n Hn Hb) as H.
  rewrite <- Z.lxor_lor, <- Z.add_nocarry_lxor by done.
  by rewrite Z.shiftl_mul_pow2.
Qed.

Lemma bswap16_eq x : bswap16 x = (x mod 256) * 256 + (x / 256) mod 256.
Proof.
  unfold bswap16. rewrite !land_255, Z.shiftr_div_pow2 by lia.
  apply (lor_shiftl_add _ _ 8); [lia|]. by apply Z.mod_pos_bound.
Qed.

Lemma bswap16_range x : 0 <= bswap16 x < 65536.
Proof.
  rewrite bswap16_eq.
  pose proof (Z.mod_pos_bound x 256). pose proof (Z.mod_pos_bound (x / 256) 256). lia.
Qed.

Lemma le_split_bswap16 x : le_split 2 (bswap16 x) = be_split 2 x.
Proof.
  rewrite bswap16_eq. unfold be_split. cbn [le_split rev app].
  pose proof (Z.mod_pos_bound x 256). pose proof (Z.mod_pos_bound (x / 256) 256).
  rewrite (Z.add_comm (_ * _)), Z.mod_add, Z.div_add by lia.
  rewrite Zmod_mod, (Z.div_small (_ mod _)) by lia. rewrite Z.add_0_l, Zmod_mod. done.
Qed.

Lemma bswap32_eq x :
  bswap32 x = bswap16 (x mod 65536) * 65536 + bswap16 ((x / 65536) mod 65536).
Proof.
  unfold bswap32. rewrite !land_65535, Z.shiftr_div_pow2 by lia.
  apply (lor_shiftl_add _ _ 16); [lia|]. apply bswap16_range.
Qed.

Lemma bswap32_range x : 0 <= bswap32 x < 4294967296.
Proof.
  rewrite bswap32_eq. pose proof (bswap16_range (x mod 65536)).
  pose proof (bswap16_range ((x / 65536) mod 65536)). lia.
Qed.

Lemma le_split_app n m z :
  le_split (n + m) z = le_split n z ++ le_split m (z / 256 ^ Z.of_nat n).
Proof.
  revert z. induction n as [|n IH]; intros z.
  - by rewrite Z.div_1_r.
  - cbn [Nat.add le_split app]. rewrite IH, Z.div_div by lia.
    rewrite Nat2Z.inj_succ, Z.pow_succ_r by lia. done.
Qed.

Lemma le_split_mod n z k :
  (n <= k)%nat -> le_split n (z mod 256 ^ Z.of_nat k) = le_split n z.
Proof.
  revert z k. induction n as [|n IH]; intros z [|k] Hk; try done; [lia|].
  cbn [le_split]. rewrite Nat2Z.inj_succ, Z.pow_succ_r by lia.
  pose proof (Z.pow_pos_nonneg 256 (Z.of_nat k)).
  rewrite Z.rem_mul_r by lia. f_equal.
  - rewrite (Z.mul_comm 256), Z.mod_add by lia. apply Zmod_mod.
  - rewrite (Z.mul_comm 256), Z.div_add by lia.
    rewrite Z.div_small by (apply Z.mod_pos_bound; lia). rewrite Z.add_0_l. apply IH. lia.
Qed.

Lemma le_split2_mod x : le_split 2 (x mod 65536) = le_split 2 x.
Proof. by apply (le_split_mod 2 x 2). Qed.

Lemma le_split_bswap32 x : le_split 4 (bswap32 x) = be_split 4 x.
Proof.
  rewrite bswap32_eq. unfold be_split.
  change 4%nat with (2 + 2)%nat.
  rewrite (le_split_app 2 2 x), (le_split_app 2 2 (_ + _)), rev_app_distr.
  change (256 ^ Z.of_nat 2) with 65536.
  fold (be_split 2 (x / 65536)) (be_split 2 x).
  pose proof (bswap16_range ((x / 65536) mod 65536)).
  rewrite Z.div_add_l by lia. rewrite (Z.div_small (bswap16 _)), Z.add_0_r by lia.
  rewrite <- (le_split2_mod (_ + _)).
  rewrite (Z.add_comm (_ * _)), Z.mod_add, Z.mod_small by lia.
  rewrite !le_split_bswap16. unfold be_split.
  by rewrite !le_split2_mod.
Qed.

Lemma le_split_inj n x y :
  0 <= x < 256 ^ Z.of_nat n -> 0 <= y < 256 ^ Z.of_nat n ->
  le_split n x = le_split n y -> x = y.
Proof.
  intros Hx Hy H. apply (f_equal le_combine) in H.
  by rewrite !le_combine_split, !Z.mod_small in H.
Qed.

Lemma bswap16_involutive x : 0 <= x < 65536 -> bswap16 (bswap16 x) = x.
Proof.
  intros. apply (le_split_inj 2); [apply bswap16_range | done |].
  rewrite le_split_bswap16. unfold be_split. rewrite le_split_bswap16.
  apply rev_involutive.
Qed.

Lemma bswap32_involutive x : 0 <= x < 4294967296 -> bswap32 (bswap32 x) = x.
Proof.
  intros. apply (le_split_inj 4); [apply bswap32_range | done |].
  rewrite le_split_bswap32. unfold be_split. rewrite le_split_bswap32.
  apply rev_involutive.
Qed.

(** Loading a little-endian scalar and swapping it reads a network-order field. *)
Lemma bswap16_le_combine l :
  length l = 2%nat -> Forall byte_ok l -> bswap16 (le_combine l) = be_combine l.
Proof.
  intros Hl Hb. apply (le_split_inj 2).
  - apply bswap16_range.
  - rewrite <- Hl. by apply be_combine_range.
  - rewrite le_split_bswap16. unfold be_split. rewrite <- Hl, le_split_combine by done.
    unfold be_combine. rewrite <- (length_rev l). symmetry. by apply le_split_combine, Forall_rev.
Qed.

Lemma bswap32_le_combine l :
  length l = 4%nat -> Forall byte_ok l -> bswap32 (le_combine l) = be_combine l.
Proof.
  intros Hl Hb. apply (le_split_inj 4).
  - apply bswap32_range.
  - rewrite <- Hl. by apply be_combine_range.
  - rewrite le_split_bswap32. unfold be_split. rewrite <- Hl, le_split_combine by done.
    unfold be_combine. rewrite <- (length_rev l). symmetry. by apply le_split_combine, Forall_rev.
Qed.

Lemma int_chk_Some x : - 2147483648 <= x <= 2147483647 -> int_chk x = Some x.
Proof.
  intros. unfold int_chk, in_int, INT_MAX. change (- 2 ^ 31) with (- 2147483648).
  change (2 ^ 31 - 1) with 2147483647.
  destruct (Z.leb_spec (-2147483648) x), (Z.leb_spec x 2147483647); done || lia.
Qed.

Lemma int_chk_inv x y : int_chk x = Some y -> y = x /\ - 2147483648 <= x <= 2147483647.
Proof.
  unfold int_chk, in_int, INT_MAX. change (- 2 ^ 31) with (- 2147483648).
  change (2 ^ 31 - 1) with 2147483647. case_if; intros; simplify_eq. bool_to_prop. lia.
Qed.

#[global] Arguments int_chk : simpl never.
#[global] Arguments wrap : simpl never.
#[global] Arguments u8 : simpl never.
#[global] Arguments u16 : simpl never.
#[global] Arguments u32 : simpl never.
#[global] Arguments u64 : simpl never.
#[global] Arguments bswap16 : simpl never.
#[global] Arguments bswap32 : simpl never.
