(* ===== verification/CFloat.v ===== *)
(** * IEEE 754 arithmetic of the C types [float] and [double]

    The statistics code computes with binary32 and binary64. Both are
    instances of the standard library's executable specification of IEEE 754
    (round to nearest, ties to even); this file names the operations and the
    C conversions the program uses, and bounds the conversions back to
    integers. *)
From Stdlib Require Export SpecFloat.
From S2P Require Import Prelude CInt.

(** ** Formats *)
Definition f64_round (x : spec_float) : spec_float :=
  match x with
  | S754_finite s m e => binary_normalize 53 1024 (cond_Zopp s (Zpos m)) e s
  | _ => x
  end.
Definition f32_round (x : spec_float) : spec_float :=
  match x with
  | S754_finite s m e => binary_normalize 24 128 (cond_Zopp s (Zpos m)) e s
  | _ => x
  end.

(** ** [double] *)
Definition f64_of_Z (z : Z) : spec_float := binary_normalize 53 1024 z 0 false.
Definition f64_add := SFadd 53 1024.
Definition f64_sub := SFsub 53 1024.
Definition f64_mul := SFmul 53 1024.
Definition f64_div := SFdiv 53 1024.

(** A decimal literal [p/q] with [p] and [q] below 2^53 is the correctly
    rounded quotient. *)
Definition f64_lit (p q : Z) : spec_float := f64_div (f64_of_Z p) (f64_of_Z q).

(** ** [float] *)
Definition f32_of_Z (z : Z) : spec_float := binary_normalize 24 128 z 0 false.
Definition f32_add := SFadd 24 128.
Definition f32_sub := SFsub 24 128.
Definition f32_mul := SFmul 24 128.
Definition f32_div := SFdiv 24 128.

(** ** Conversions

    [float] to [double] is exact; [double] to [float] rounds. *)
Definition f64_of_f32 (x : spec_float) : spec_float := f64_round x.
Definition f32_of_f64 (x : spec_float) : spec_float := f32_round x.

(** Truncation towards zero; infinities and NaN have no integer value. *)
Definition f_trunc (x : spec_float) : option Z :=
  match x with
  | S754_zero _ => Some 0
  | S754_finite s m e => Some (cond_Zopp s (Z.shiftl (Zpos m) e))
  | _ => None
  end.

(** Conversion to an integer type is undefined when the truncated value does
    not fit it. *)
Definition f_to_int (x : spec_float) : option Z :=
  match f_trunc x with
  | Some z => if in_int z then Some z else None
  | None => None
  end.
Definition f_to_u64 (x : spec_float) : option Z :=
  match f_trunc x with
  | Some z => if (0 <=? z) && (z <? 2 ^ 64) then Some z else None
  | None => None
  end.
Definition f_to_u16 (x : spec_float) : option Z :=
  match f_trunc x with
  | Some z => if (0 <=? z) && (z <? 2 ^ 16) then Some z else None
  | None => None
  end.

(** ** Rounding a product of positive numbers *)

Lemma iter_pos_iter {A} (f : A -> A) p x : SpecFloat.iter_pos f p x = Nat.iter (Pos.to_nat p) f x.
Proof.
  revert x. induction p as [p IH|p IH|]; intros x; cbn [SpecFloat.iter_pos].
  - rewrite !IH, <- Nat.iter_add, Pos2Nat.inj_xI.
    replace (S (2 * Pos.to_nat p)) with (Pos.to_nat p + Pos.to_nat p + 1)%nat by lia.
    by rewrite (Nat.iter_add _ 1).
  - rewrite !IH, <- Nat.iter_add, Pos2Nat.inj_xO. f_equal. lia.
  - done.
Qed.

(** Shifting right divides the mantissa. *)
Lemma shr_1_m mrs : 0 <= shr_m mrs -> shr_m (shr_1 mrs) = shr_m mrs / 2.
Proof.
  destruct mrs as [[|p|p] r s]; cbn [shr_m]; intros H; [done| |lia].
  rewrite <- Z.div2_div. by destruct p.
Qed.

Lemma shr_iter_m n mrs :
  0 <= shr_m mrs ->
  shr_m (Nat.iter n shr_1 mrs) = shr_m mrs / 2 ^ Z.of_nat n /\
  0 <= shr_m (Nat.iter n shr_1 mrs).
Proof.
  intros H. induction n as [|n [IH1 IH2]].
  - simpl. by rewrite Z.div_1_r.
  - rewrite Nat2Z.inj_succ, Z.pow_succ_r, (Z.mul_comm 2), <- Z.div_div by lia.
    simpl. rewrite shr_1_m, IH1 by done. split; [done|].
    apply Z.div_pos; [|lia]. by rewrite <- IH1.
Qed.

Lemma shr_spec mrs e n mrs' e' :
  0 <= shr_m mrs -> shr mrs e n = (mrs', e') ->
  let k := Z.max 0 n in
  shr_m mrs' = shr_m mrs / 2 ^ k /\ 0 <= shr_m mrs' /\ e' = e + k.
Proof.
  intros H. unfold shr. destruct n as [|p|p]; intros; simplify_eq; cbv zeta.
  - change (Z.max 0 0) with 0. rewrite Z.div_1_r. lia.
  - change (Z.max 0 (Zpos p)) with (Zpos p).
    rewrite iter_pos_iter. destruct (shr_iter_m (Pos.to_nat p) mrs H) as [E ?].
    rewrite positive_nat_Z in E. by rewrite <- E.
  - change (Z.max 0 (Zneg p)) with 0. rewrite Z.div_1_r. lia.
Qed.

Lemma digits2_bound p : Zpos p < 2 ^ Zpos (digits2_pos p).
Proof.
  induction p as [p IH|p IH|]; cbn [digits2_pos]; [| |done];
    rewrite Pos2Z.inj_succ, Z.pow_succ_r by lia.
  - rewrite Pos2Z.inj_xI. lia.
  - rewrite Pos2Z.inj_xO. lia.
Qed.

Lemma digits2_le_bound p k : 0 <= k -> Zpos p < 2 ^ k -> Zpos (digits2_pos p) <= k.
Proof.
  intros Hk. revert k Hk. induction p as [p IH|p IH|]; intros k Hk H; cbn [digits2_pos].
  1,2: rewrite Pos2Z.inj_succ.
  - destruct (decide (k = 0)) as [->|]; [simpl in H; lia|].
    replace k with (Z.succ (k - 1)) in H |- * by lia. rewrite Z.pow_succ_r in H by lia.
    rewrite Pos2Z.inj_xI in H. specialize (IH (k - 1)). lia.
  - destruct (decide (k = 0)) as [->|]; [simpl in H; lia|].
    replace k with (Z.succ (k - 1)) in H |- * by lia. rewrite Z.pow_succ_r in H by lia.
    rewrite Pos2Z.inj_xO in H. specialize (IH (k - 1)). lia.
  - destruct (decide (k = 0)) as [->|]; [simpl in H; lia|lia].
Qed.

(** *** What the shifted-out bits say about the remainder *)
Definition rem_spec (m0 : Z) (n : nat) (mrs : shr_record) : Prop :=
  let rm := m0 mod 2 ^ Z.of_nat n in
  (shr_r mrs || shr_s mrs = false -> rm = 0) /\
  (shr_r mrs || shr_s mrs = true -> 0 < rm) /\
  (shr_r mrs = false -> 2 * rm < 2 ^ Z.of_nat n) /\
  (shr_r mrs = true -> shr_s mrs = false -> 2 * rm = 2 ^ Z.of_nat n) /\
  (shr_r mrs = true -> shr_s mrs = true -> 2 * rm > 2 ^ Z.of_nat n).

Lemma shr_1_flags mrs :
  0 <= shr_m mrs ->
  shr_r (shr_1 mrs) = Z.odd (shr_m mrs) /\ shr_s (shr_1 mrs) = shr_r mrs || shr_s mrs.
Proof.
  destruct mrs as [[|p|p] r s]; cbn [shr_m]; intros H; [done| |lia]. by destruct p.
Qed.

Lemma mod_pow2_succ m0 n :
  m0 mod 2 ^ Z.of_nat (S n) =
  m0 mod 2 ^ Z.of_nat n + 2 ^ Z.of_nat n * (if Z.odd (m0 / 2 ^ Z.of_nat n) then 1 else 0).
Proof.
  rewrite Nat2Z.inj_succ, Z.pow_succ_r, (Z.mul_comm 2), Z.rem_mul_r by lia.
  by rewrite Zmod_odd.
Qed.

Lemma rem_spec_iter m0 n : 0 <= m0 ->
  rem_spec m0 n (Nat.iter n shr_1 {| shr_m := m0; shr_r := false; shr_s := false |}).
Proof.
  intros H0. induction n as [|n IH].
  - unfold rem_spec; simpl. rewrite Z.mod_1_r. repeat split; intros; done || lia.
  - destruct (shr_iter_m n {| shr_m := m0; shr_r := false; shr_s := false |} H0) as [Em Hm].
    simpl Nat.iter in *. set (mrs := Nat.iter n shr_1 _) in *.
    destruct (shr_1_flags mrs Hm) as [Er Es]. cbn [shr_m] in Em.
    destruct IH as (I1 & I2 & I3 & I4 & I5).
    unfold rem_spec. rewrite Er, Es, Em, mod_pow2_succ.
    pose proof (Z.mod_pos_bound m0 (2 ^ Z.of_nat n) ltac:(lia)) as Hb.
    rewrite Nat2Z.inj_succ, Z.pow_succ_r by lia.
    destruct (Z.odd (m0 / 2 ^ Z.of_nat n)), (shr_r mrs || shr_s mrs) eqn:E;
      [specialize (I2 eq_refl) | specialize (I1 eq_refl)
      |specialize (I2 eq_refl) | specialize (I1 eq_refl)];
      repeat split; intros; done || lia.
Qed.

(** ** Rounding to nearest

    [rounds_to F V q]: the multiple [q * 2^F] is a nearest one to the exact
    value [V], the even one of the two when [V] is half-way. *)
Definition rounds_to (F V q : Z) : Prop :=
  2 * Z.abs (q * 2 ^ F - V) <= 2 ^ F /\
  (2 * Z.abs (q * 2 ^ F - V) = 2 ^ F -> Z.even q = true).

Lemma rne_rounds m n mrs :
  0 <= m -> (mrs = Nat.iter n shr_1 {| shr_m := m; shr_r := false; shr_s := false |}) ->
  rounds_to (Z.of_nat n) m (round_nearest_even (shr_m mrs) (loc_of_shr_record mrs)).
Proof.
  intros Hm ->. pose proof (rem_spec_iter m n Hm) as (I1 & I2 & I3 & I4 & I5).
  destruct (shr_iter_m n {| shr_m := m; shr_r := false; shr_s := false |} Hm) as [Em _].
  set (mrs := Nat.iter n shr_1 _) in *. cbn [shr_m] in Em.
  pose proof (Z.div_mod m (2 ^ Z.of_nat n) ltac:(lia)) as Hdm. rewrite <- Em in Hdm.
  pose proof (Z.mod_pos_bound m (2 ^ Z.of_nat n) ltac:(lia)).
  unfold rounds_to. destruct mrs as [q r s]. cbn [shr_m shr_r shr_s] in *.
  assert (Ev : Z.even (q + 1) = negb (Z.even q)) by (by rewrite Z.add_1_r, Z.even_succ, Z.negb_even).
  destruct r, s; cbn [loc_of_shr_record round_nearest_even orb] in *.
  - specialize (I5 eq_refl eq_refl). split; [lia|]. intros; lia.
  - specialize (I4 eq_refl eq_refl). destruct (Z.even q) eqn:Eq; (split; [lia|]); intros; [done|].
    by rewrite Ev.
  - specialize (I3 eq_refl). split; [lia|]. intros; lia.
  - specialize (I1 eq_refl). split; [lia|]. intros; lia.
Qed.

Lemma rounds_to_nonneg F V q : 0 <= F -> 0 <= V -> rounds_to F V q -> 0 <= q.
Proof.
  intros HF HV [H _]. destruct (Z.le_gt_cases 0 q); [done|].
  pose proof (Z.pow_pos_nonneg 2 F). nia.
Qed.

Lemma rounds_to_mono_same F V1 V2 q1 q2 :
  0 <= F -> V1 <= V2 -> rounds_to F V1 q1 -> rounds_to F V2 q2 -> q1 <= q2.
Proof.
  intros HF HV [H1 E1] [H2 E2]. destruct (Z.le_gt_cases q1 q2) as [|Hgt]; [done|].
  pose proof (Z.pow_pos_nonneg 2 F ltac:(lia) HF) as HP. set (P := 2 ^ F) in *.
  assert (q1 = q2 + 1 /\ V1 = V2 /\ 2 * (q1 * P - V1) = P) as (-> & -> & Htie) by nia.
  assert (He2 : Z.even q2 = true) by (apply E2; nia).
  assert (He1 : Z.even (q2 + 1) = true) by (apply E1; nia).
  by rewrite Z.add_1_r, Z.even_succ, <- Z.negb_even, He2 in He1.
Qed.

(** A multiple of the unit bounds the rounded value when it bounds the exact one. *)
Lemma rounds_to_le F V q b : 0 <= F -> rounds_to F V q -> V <= b * 2 ^ F -> q <= b.
Proof.
  intros HF Hq Hb. apply (rounds_to_mono_same F V (b * 2 ^ F) q b); try done.
  pose proof (Z.pow_pos_nonneg 2 F). split; [lia|]. intros. lia.
Qed.
Lemma rounds_to_ge F V q b : 0 <= F -> rounds_to F V q -> b * 2 ^ F <= V -> b <= q.
Proof.
  intros HF Hq Hb. apply (rounds_to_mono_same F (b * 2 ^ F) V b q); try done.
  pose proof (Z.pow_pos_nonneg 2 F). split; [lia|]. intros. lia.
Qed.

Lemma rounds_to_scale n m q k :
  0 <= n -> 0 <= k -> rounds_to n m q -> rounds_to (n + k) (m * 2 ^ k) q.
Proof.
  intros Hn Hk [H E]. unfold rounds_to. rewrite Z.pow_add_r by lia.
  pose proof (Z.pow_pos_nonneg 2 k ltac:(lia) Hk).
  replace (q * (2 ^ n * 2 ^ k) - m * 2 ^ k) with ((q * 2 ^ n - m) * 2 ^ k) by ring.
  rewrite Z.abs_mul, (Z.abs_eq (2 ^ k)) by lia.
  split; [nia|]. intros. apply E. nia.
Qed.

(** ** The value of a rounded result

    Non-negative floats are compared through their value in units of [2^K],
    for some [K] below every exponent in play. *)
Definition fval (K : Z) (x : spec_float) : option Z :=
  match x with
  | S754_zero _ => Some 0
  | S754_finite false m e => Some (Zpos m * 2 ^ (e - K))
  | _ => None
  end.

Section round_value.
Context (prec emax K : Z).
Hypothesis Hprec : 1 < prec.
Hypothesis Hemax : 2 <= emax.
Hypothesis HK : K <= emin prec emax.
Let fe := fexp prec emax.

Lemma fexp_mono a b : a <= b -> fe a <= fe b.
Proof. unfold fe, fexp. lia. Qed.

Lemma digits2_ge p : 2 ^ (Zpos (digits2_pos p) - 1) <= Zpos p.
Proof.
  destruct (Z.le_gt_cases (2 ^ (Zpos (digits2_pos p) - 1)) (Zpos p)) as [|H]; [done|].
  apply digits2_le_bound in H; lia.
Qed.

(** The mantissa of the first shift is rounded, the second only renormalises. *)
Lemma second_shift q f mrs e'' :
  0 <= q -> emin prec emax <= f ->
  (q = 0 \/ fe (Zdigits2 q + f) <= f \/ (fe (Zdigits2 q + f) = f + 1 /\ Z.even q = true)) ->
  shr_fexp prec emax q f loc_Exact = (mrs, e'') ->
  shr_m mrs * 2 ^ (e'' - K) = q * 2 ^ (f - K) /\
  e'' = Z.max f (fe (Zdigits2 q + f)) /\ 0 <= shr_m mrs.
Proof.
  intros Hq Hf Hcase Hs. unfold shr_fexp in Hs. fold fe in Hs.
  apply shr_spec in Hs as (Hm & Hpos & ->); [|done]. cbn [shr_record_of_loc shr_m] in Hm.
  destruct Hcase as [->|[Hle|[Heq Hev]]].
  - rewrite Hm, Z.div_0_l by lia. cbn [Zdigits2] in *. rewrite Z.add_0_l.
    assert (fe f <= f) by (unfold fe, fexp; lia). rewrite !Z.max_l by lia. lia.
  - rewrite !Z.max_l by lia. rewrite Z.max_l in Hm by lia.
    rewrite Hm, Z.div_1_r, Z.add_0_r. lia.
  - rewrite Heq in *. replace (Z.max 0 (f + 1 - f)) with 1 in * by lia.
    rewrite Z.max_r by lia. rewrite Hm. replace (f + 1 - K) with (Z.succ (f - K)) by lia.
    rewrite Z.pow_succ_r by lia. apply Z.even_spec in Hev as [h ->].
    change (2 ^ 1) with 2. rewrite (Z.mul_comm 2 h), Z.div_mul by lia. split_and!; lia.
Qed.

(** After rounding to [f] the mantissa has at most one digit too many, and
    is then a power of two. *)
Definition brackets (m n q : Z) : Prop := m / 2 ^ n <= q <= m / 2 ^ n + 1.

Lemma Zdigits2_bound m : 0 <= m -> m < 2 ^ Zdigits2 m /\ 0 <= Zdigits2 m.
Proof. destruct m as [|p|p]; cbn [Zdigits2]; [done| |done]. pose proof (digits2_bound p). lia. Qed.
Lemma Zdigits2_ge m : 0 < m -> 2 ^ (Zdigits2 m - 1) <= m.
Proof. destruct m as [|p|p]; [done| |done]. intros _. apply digits2_ge. Qed.

Lemma rounded_digits m n q f :
  0 <= m -> 0 <= n -> brackets m n q -> fe (Zdigits2 m + (f - n)) = f ->
  0 <= q /\
  (q = 0 \/ fe (Zdigits2 q + f) <= f \/ (fe (Zdigits2 q + f) = f + 1 /\ Z.even q = true)).
Proof.
  intros Hm0 Hn [Hr1 Hr2] Hf. set (d := Zdigits2 m) in *.
  assert (Hq : 0 <= q) by (pose proof (Z.div_pos m (2 ^ n)); lia).
  split; [done|]. destruct (decide (q = 0)) as [|Hq0]; [by left|right].
  destruct (Zdigits2_bound m Hm0) as [Hm Hd]. fold d in Hm, Hd.
  destruct (Z.le_gt_cases d n) as [Hdn|Hdn].
  { pose proof (Z.pow_le_mono_r 2 d n). rewrite Z.div_small in Hr2 by lia.
    assert (q = 1) as -> by lia. left. cbn. unfold fe, fexp in *. lia. }
  assert (Hq2 : q <= 2 ^ (d - n)).
  { assert (m / 2 ^ n < 2 ^ (d - n)); [|lia]. apply Z.div_lt_upper_bound; [lia|].
    rewrite <- Z.pow_add_r by lia. by replace (n + (d - n)) with d by lia. }
  destruct (Z.le_gt_cases (2 ^ (d - n)) q) as [Hge|Hlt].
  - assert (q = 2 ^ (d - n)) as -> by lia.
    assert (Hdig : Zdigits2 (2 ^ (d - n)) = d - n + 1).
    { pose proof (Z.pow_pos_nonneg 2 (d - n) ltac:(lia) ltac:(lia)) as Hp.
      destruct (2 ^ (d - n)) as [|p|p] eqn:E; try lia. cbn [Zdigits2].
      pose proof (digits2_bound p) as H1. pose proof (digits2_ge p) as H2.
      rewrite <- E in H1, H2.
      apply Z.pow_lt_mono_r_iff in H1; [|lia..]. apply Z.pow_le_mono_r_iff in H2; lia. }
    rewrite Hdig. destruct (Z.le_gt_cases (fe (d - n + 1 + f)) f); [by left|right]. split.
    + unfold fe, fexp in *. lia.
    + replace (d - n) with (Z.succ (d - n - 1)) by lia.
      by rewrite Z.pow_succ_r, Z.even_mul by lia.
  - left. destruct q as [|p|p]; [lia| |lia]. cbn [Zdigits2].
    apply digits2_le_bound in Hlt; [|lia].
    rewrite <- Hf at 2. apply fexp_mono. lia.
Qed.

Definition result_is (r : spec_float) (R : Z) : Prop :=
  match r with
  | S754_zero false => R = 0
  | S754_finite false m e => Zpos m * 2 ^ (e - K) = R /\ bounded prec emax m e = true
  | S754_infinity false => 2 ^ (emax - K) <= R
  | _ => False
  end.

Lemma rounds_to_big F V q b : 0 <= F <= b -> rounds_to F V q -> 2 ^ b <= V -> 2 ^ b <= q * 2 ^ F.
Proof.
  intros HF Hr Hb. replace b with (b - F + F) in * by lia. rewrite Z.pow_add_r in * by lia.
  apply (rounds_to_ge _ _ _ (2 ^ (b - F))) in Hr; [|lia..].
  pose proof (Z.pow_pos_nonneg 2 F). nia.
Qed.
Lemma rounds_to_small F V q b : 0 <= F <= b -> rounds_to F V q -> V <= 2 ^ b -> q * 2 ^ F <= 2 ^ b.
Proof.
  intros HF Hr Hb. replace b with (b - F + F) in * by lia. rewrite Z.pow_add_r in * by lia.
  apply (rounds_to_le _ _ _ (2 ^ (b - F))) in Hr; [|lia..].
  pose proof (Z.pow_pos_nonneg 2 F). nia.
Qed.

Lemma value_ge m e : K <= e -> 2 ^ (Zpos (digits2_pos m) + e - K - 1) <= Zpos m * 2 ^ (e - K).
Proof.
  intros. pose proof (digits2_ge m).
  replace (Zpos (digits2_pos m) + e - K - 1)
    with (Zpos (digits2_pos m) - 1 + (e - K)) by lia.
  rewrite Z.pow_add_r by lia. pose proof (Z.pow_pos_nonneg 2 (e - K)). nia.
Qed.
Lemma value_lt m e : K <= e -> Zpos m * 2 ^ (e - K) < 2 ^ (Zpos (digits2_pos m) + e - K).
Proof.
  intros. pose proof (digits2_bound m).
  replace (Zpos (digits2_pos m) + e - K) with (Zpos (digits2_pos m) + (e - K)) by lia.
  rewrite Z.pow_add_r by lia. pose proof (Z.pow_pos_nonneg 2 (e - K)). nia.
Qed.

(** The rounded mantissa keeps enough digits for its exponent. *)
Lemma rounded_canonical m e q :
  let f := fe (Zdigits2 m + e) in
  0 <= m -> e <= f -> brackets m (f - e) q -> 0 < q -> f <= fe (Zdigits2 q + f).
Proof.
  intros f Hm Hef [Hr _] Hq. destruct (Z.le_gt_cases f (emin prec emax)) as [|Hf].
  { unfold fe, fexp in *. lia. }
  assert (Hfd : f = Zdigits2 m + e - prec) by (unfold f, fe, fexp in *; lia).
  assert (Hm1 : 0 < m) by (destruct (decide (m = 0)) as [->|]; [cbn in Hfd|]; lia).
  pose proof (Zdigits2_ge m Hm1) as Hv. pose proof (proj1 (Zdigits2_bound q ltac:(lia))) as Hp.
  assert (Hlt : 2 ^ (prec - 1) < 2 ^ Zdigits2 q).
  { eapply Z.le_lt_trans; [|apply Hp]. etrans; [|apply Hr].
    apply Z.div_le_lower_bound; [lia|]. rewrite <- Z.pow_add_r by lia.
    by replace (f - e + (prec - 1)) with (Zdigits2 m - 1) by lia. }
  pose proof (proj2 (Zdigits2_bound q ltac:(lia))).
  apply Z.pow_lt_mono_r_iff in Hlt; [|lia..]. unfold fe, fexp in *. lia.
Qed.

Lemma rne_brackets q l : q <= round_nearest_even q l <= q + 1.
Proof. destruct l as [|[]]; cbn; try lia. destruct (Z.even q); lia. Qed.

Lemma first_shift m e l mrs e1 :
  0 <= m -> shr_fexp prec emax m e l = (mrs, e1) ->
  let f := fe (Zdigits2 m + e) in
  e <= f ->
  let q := round_nearest_even (shr_m mrs) (loc_of_shr_record mrs) in
  e1 = f /\ brackets m (f - e) q /\ (l = loc_Exact -> rounds_to (f - e) m q).
Proof.
  intros Hm0 E1 f Hef q. unfold shr_fexp in E1. fold fe in E1. fold f in E1.
  assert (Hm : shr_m (shr_record_of_loc m l) = m) by (by destruct l as [|[]]).
  pose proof E1 as E2. apply shr_spec in E2 as (E2 & _ & ->); [|by rewrite Hm].
  rewrite Hm, Z.max_r in E2 by lia. split; [lia|]. split.
  - unfold brackets. rewrite <- E2. apply rne_brackets.
  - intros ->. replace (f - e) with (Z.of_nat (Z.to_nat (f - e))) by lia.
    apply rne_rounds; [done|]. unfold shr in E1. destruct (f - e) as [|p|p] eqn:Ed; [| |lia].
    + by inversion E1.
    + inversion E1. by rewrite iter_pos_iter.
Qed.

Lemma round_aux_spec m e l :
  let f := fe (Zdigits2 m + e) in
  0 <= m -> K <= e -> e <= f ->
  exists q, brackets m (f - e) q /\ 0 <= q /\
    (l = loc_Exact -> rounds_to (f - K) (m * 2 ^ (e - K)) q) /\
    result_is (binary_round_aux prec emax false m e l) (q * 2 ^ (f - K)).
Proof.
  intros f Hm0 He Hef. unfold binary_round_aux.
  destruct (shr_fexp prec emax m e l) as [mrs e1] eqn:E1.
  set (q := round_nearest_even (shr_m mrs) (loc_of_shr_record mrs)).
  destruct (first_shift m e l mrs e1 Hm0 E1 Hef) as (-> & Hbr & Hr). fold f q in Hbr, Hr |- *.
  assert (Hdig := Hbr). apply (rounded_digits m (f - e) q f) in Hdig as [Hq Hdig];
    [|lia.. | replace (f - (f - e)) with e by lia; done].
  destruct (shr_fexp prec emax q f loc_Exact) as [mrs2 e2] eqn:E2.
  apply second_shift in E2 as (Hval & He2 & Hpos); [|done| |done].
  2: { unfold f, fe, fexp. lia. }
  exists q. split_and!; [done..| |].
  { intros Hl. replace (f - K) with (f - e + (e - K)) by lia.
    apply rounds_to_scale; [lia..|]. by apply Hr. }
  rewrite <- Hval.
  destruct (shr_m mrs2) as [|p|p] eqn:Em; [by simpl| |lia].
  assert (Hcan : fe (Zpos (digits2_pos p) + e2) = e2).
  { assert (Hq0 : 0 < q) by (pose proof (Z.pow_pos_nonneg 2 (e2 - K)); nia).
    pose proof (rounded_canonical m e q Hm0 Hef Hbr Hq0) as Hge. fold f in Hge.
    rewrite Z.max_r in He2 by done.
    destruct Hdig as [?|[Hle|[Heq _]]]; [lia| |].
    - assert (e2 = f) as -> by lia. apply Z.mul_cancel_r in Hval; [|lia].
      rewrite <- Hval in Hge, Hle. cbn [Zdigits2] in *. lia.
    - assert (e2 = f + 1) as -> by lia.
      assert (q = Zpos (xO p)) as ->.
      { replace (f + 1 - K) with (Z.succ (f - K)) in Hval by lia.
        rewrite Z.pow_succ_r in Hval by lia. pose proof (Z.pow_pos_nonneg 2 (f - K)). nia. }
      cbn [Zdigits2 digits2_pos] in Heq. rewrite Pos2Z.inj_succ in Heq.
      rewrite <- Heq at 2. f_equal. lia. }
  destruct (Z.leb_spec e2 (emax - prec)) as [Hle|Hgt]; cbn [result_is].
  - split; [done|]. unfold bounded, canonical_mantissa. fold fe. rewrite Hcan, Z.eqb_refl.
    by apply Z.leb_le.
  - pose proof (value_ge p e2 ltac:(lia)) as Hv. etrans; [|exact Hv].
    apply Z.pow_le_mono_r; [done|]. unfold fe, fexp, emin in *. lia.
Qed.

(** Rounding is monotone in the exact value. *)
Lemma round_mono m1 e1 q1 m2 e2 q2 :
  K <= e1 -> K <= e2 ->
  let f1 := fe (Zpos (digits2_pos m1) + e1) in
  let f2 := fe (Zpos (digits2_pos m2) + e2) in
  rounds_to (f1 - K) (Zpos m1 * 2 ^ (e1 - K)) q1 ->
  rounds_to (f2 - K) (Zpos m2 * 2 ^ (e2 - K)) q2 ->
  Zpos m1 * 2 ^ (e1 - K) <= Zpos m2 * 2 ^ (e2 - K) ->
  q1 * 2 ^ (f1 - K) <= q2 * 2 ^ (f2 - K).
Proof.
  intros H1 H2 f1 f2 Hr1 Hr2 HV.
  pose proof (value_ge m1 e1 H1) as Hge1. pose proof (value_lt m1 e1 H1) as Hlt1.
  pose proof (value_ge m2 e2 H2) as Hge2. pose proof (value_lt m2 e2 H2) as Hlt2.
  assert (HD : Zpos (digits2_pos m1) + e1 <= Zpos (digits2_pos m2) + e2).
  { assert (Hp : 2 ^ (Zpos (digits2_pos m1) + e1 - K - 1) < 2 ^ (Zpos (digits2_pos m2) + e2 - K)) by lia.
    apply Z.pow_lt_mono_r_iff in Hp; lia. }
  assert (Hf : f1 <= f2) by by apply fexp_mono.
  assert (Hemin : emin prec emax <= f1) by (unfold f1, fe, fexp; lia).
  destruct (decide (f1 = f2)) as [E|Hne].
  - rewrite E in *. apply Z.mul_le_mono_nonneg_r; [lia|].
    apply (rounds_to_mono_same (f2 - K) _ _ _ _ ltac:(lia) HV Hr1 Hr2).
  - assert (Hf2 : f2 = Zpos (digits2_pos m2) + e2 - prec) by (unfold f1, f2, fe, fexp in *; lia).
    assert (Hlt : Zpos (digits2_pos m1) + e1 < Zpos (digits2_pos m2) + e2)
      by (unfold f1, f2, fe, fexp in *; lia).
    set (b := Zpos (digits2_pos m2) + e2 - K - 1) in *.
    trans (2 ^ b).
    + eapply rounds_to_small; [|exact Hr1|]; [lia|].
      pose proof (Z.pow_le_mono_r 2 (Zpos (digits2_pos m1) + e1 - K) b). lia.
    + eapply rounds_to_big; [|exact Hr2|]; lia.
Qed.

(** ** Non-negative floats and their order *)
Definition fv (x : spec_float) : Z :=
  match x with
  | S754_finite false m e => Zpos m * 2 ^ (e - K)
  | S754_infinity false => 2 ^ (emax - K)
  | _ => 0
  end.

(** Not negative, not NaN, and representable in units of [2^K]. *)
Definition nonneg (x : spec_float) : Prop :=
  match x with
  | S754_zero false | S754_infinity false => True
  | S754_finite false _ e => K <= e
  | _ => False
  end.
Definition nonneg_valid (x : spec_float) : Prop :=
  match x with
  | S754_zero false | S754_infinity false => True
  | S754_finite false m e => bounded prec emax m e = true
  | _ => False
  end.

Lemma bounded_exp m e : bounded prec emax m e = true ->
  fe (Zpos (digits2_pos m) + e) = e /\ e <= emax - prec /\ K <= e.
Proof.
  unfold bounded, canonical_mantissa. fold fe. intros H. bool_to_prop.
  split_and!; [done..|]. unfold fe, fexp in *. lia.
Qed.

Lemma nonneg_valid_nonneg x : nonneg_valid x -> nonneg x.
Proof. destruct x as [[]|[]| |[] m e]; try done. intros H. by apply bounded_exp in H as (_&_&?). Qed.

Lemma bounded_lt m e : bounded prec emax m e = true -> Zpos m * 2 ^ (e - K) < 2 ^ (emax - K).
Proof.
  intros (Hc & He & HKe)%bounded_exp. pose proof (value_lt m e HKe).
  pose proof (Z.pow_le_mono_r 2 (Zpos (digits2_pos m) + e - K) (emax - K)).
  unfold fe, fexp in *. lia.
Qed.

Lemma result_is_valid r R : result_is r R -> nonneg_valid r /\ fv r = Z.min R (2 ^ (emax - K)).
Proof.
  destruct r as [[]|[]| |[] m e]; cbn [result_is nonneg_valid fv]; try done.
  - intros ->. split; [done|]. pose proof (Z.pow_nonneg 2 (emax - K)). lia.
  - intros. split; [done|]. lia.
  - intros [<- Hb]. split; [done|]. apply bounded_lt in Hb. lia.
Qed.

Lemma fv_nonneg x : 0 <= fv x.
Proof. destruct x as [[]|[]| |[] m e]; cbn [fv]; lia. Qed.

(** *** Normalising a positive integer significand *)
Lemma iter_xO_spec m n :
  Zpos (Pos.iter xO m n) = Zpos m * 2 ^ Zpos n /\
  Zpos (digits2_pos (Pos.iter xO m n)) = Zpos (digits2_pos m) + Zpos n.
Proof.
  induction n as [|n [IH1 IH2]] using Pos.peano_ind; [cbn; lia|].
  rewrite Pos.iter_succ, Pos2Z.inj_succ, Z.pow_succ_r by lia.
  rewrite Pos2Z.inj_xO, IH1. cbn [digits2_pos]. rewrite Pos2Z.inj_succ, IH2. lia.
Qed.

Lemma binary_round_spec m e :
  K <= e ->
  let f := fe (Zpos (digits2_pos m) + e) in
  exists q, rounds_to (f - K) (Zpos m * 2 ^ (e - K)) q /\
    result_is (binary_round prec emax false m e) (q * 2 ^ (f - K)).
Proof.
  intros He f. unfold binary_round. fold fe. fold f. unfold shl_align.
  assert (Hf : emin prec emax <= f) by (unfold f, fe, fexp; lia).
  destruct (f - e) as [|d|d] eqn:Ed.
  1,2: destruct (round_aux_spec (Zpos m) e loc_Exact) as (q & _ & _ & ? & ?);
    [done | lia | cbn [Zdigits2]; fold f; lia | exists q; auto].
  destruct (iter_xO_spec m d) as [Hv Hd].
  assert (Hf2 : fe (Zpos (digits2_pos (Pos.iter xO m d)) + f) = f)
    by (unfold f at 2; f_equal; lia).
  destruct (round_aux_spec (Zpos (Pos.iter xO m d)) f loc_Exact) as (q & _ & _ & Hq & Hr);
    [done | lia | cbn [Zdigits2]; lia |].
  specialize (Hq eq_refl). cbn [Zdigits2] in Hq, Hr.
  rewrite Hf2, Hv in Hq. rewrite Hf2 in Hr. exists q. split; [|done].
  replace (e - K) with (Zpos d + (f - K)) by lia.
  by rewrite Z.pow_add_r, Z.mul_assoc by lia.
Qed.

(** *** Multiplication by a positive constant is monotone *)
Lemma digits2_mul m1 m2 :
  Zpos (digits2_pos m1) + Zpos (digits2_pos m2) - 1 <= Zpos (digits2_pos (m1 * m2)).
Proof.
  pose proof (digits2_ge m1) as H1. pose proof (digits2_ge m2) as H2.
  pose proof (digits2_bound (m1 * m2)) as H3. rewrite Pos2Z.inj_mul in H3.
  assert (H : 2 ^ (Zpos (digits2_pos m1) - 1 + (Zpos (digits2_pos m2) - 1))
              < 2 ^ Zpos (digits2_pos (m1 * m2))).
  { rewrite Z.pow_add_r by lia. eapply Z.le_lt_trans; [|exact H3].
    apply Z.mul_le_mono_nonneg; lia. }
  apply Z.pow_lt_mono_r_iff in H; lia.
Qed.

(** The order of two values does not depend on the unit. *)
Lemma value_le_unit m1 e1 m2 e2 k1 k2 :
  0 <= m1 -> 0 <= m2 -> k1 <= e1 -> k1 <= e2 -> k2 <= e1 -> k2 <= e2 ->
  m1 * 2 ^ (e1 - k1) <= m2 * 2 ^ (e2 - k1) -> m1 * 2 ^ (e1 - k2) <= m2 * 2 ^ (e2 - k2).
Proof.
  intros Hm1 Hm2 H1 H2 H3 H4 H.
  enough (Hk : forall k, k <= e1 -> k <= e2 ->
    m1 * 2 ^ (e1 - k) <= m2 * 2 ^ (e2 - k) <->
    m1 * 2 ^ (e1 - Z.min e1 e2) <= m2 * 2 ^ (e2 - Z.min e1 e2)) 
    by (apply Hk; [done..|]; apply Hk in H; done).
  clear H.
  intros k Hk1 Hk2.
  replace (e1 - k) with (e1 - Z.min e1 e2 + (Z.min e1 e2 - k)) by lia.
  replace (e2 - k) with (e2 - Z.min e1 e2 + (Z.min e1 e2 - k)) by lia.
  rewrite !(Z.pow_add_r 2 _ (Z.min e1 e2 - k)), !Z.mul_assoc by lia.
  symmetry. apply Z.mul_le_mono_pos_r. apply Z.pow_pos_nonneg; lia.
Qed.

Lemma digits2_mul_le m1 m2 :
  Zpos (digits2_pos (m1 * m2)) <= Zpos (digits2_pos m1) + Zpos (digits2_pos m2).
Proof.
  apply digits2_le_bound; [lia|]. rewrite Pos2Z.inj_mul, Z.pow_add_r by lia.
  pose proof (digits2_bound m1). pose proof (digits2_bound m2). nia.
Qed.

Context (Hemin : emin prec emax <= 0) (HK2 : K <= 2 * emin prec emax).

Lemma mul_spec m1 e1 m2 e2 :
  bounded prec emax m1 e1 = true -> bounded prec emax m2 e2 = true ->
  let f := fe (Zpos (digits2_pos (m1 * m2)) + (e1 + e2)) in
  K <= e1 + e2 /\ exists q, rounds_to (f - K) (Zpos (m1 * m2) * 2 ^ (e1 + e2 - K)) q /\
    result_is (SFmul prec emax (S754_finite false m1 e1) (S754_finite false m2 e2))
      (q * 2 ^ (f - K)).
Proof.
  intros (Hc1 & _ & ?)%bounded_exp (Hc2 & _ & ?)%bounded_exp f.
  pose proof (digits2_mul m1 m2).
  assert (K <= e1 + e2) by (unfold fe, fexp in *; lia). split; [done|].
  destruct (round_aux_spec (Zpos (m1 * m2)) (e1 + e2) loc_Exact) as (q & _ & _ & Hq & ?).
  - done.
  - done.
  - cbn [Zdigits2]. unfold fe, fexp in *. lia.
  - exists q. split; [by apply Hq|]. by cbn [SFmul xorb].
Qed.

Lemma SFmul_mono x y mc ec :
  nonneg_valid x -> nonneg_valid y -> bounded prec emax mc ec = true -> fv x <= fv y ->
  let c := S754_finite false mc ec in
  nonneg_valid (SFmul prec emax x c) /\
  fv (SFmul prec emax x c) <= fv (SFmul prec emax y c).
Proof.
  intros Hx Hy Hc Hxy c.
  destruct x as [[]|[]| |[] m1 e1]; try done.
  - split; [done|]. apply fv_nonneg.
  - split; [done|]. destruct y as [[]|[]| |[] m2 e2]; try done; cbn [fv] in *.
    cbn [nonneg_valid] in Hy. apply bounded_lt in Hy. lia.
  - destruct (mul_spec m1 e1 mc ec Hx Hc) as (HK1 & q1 & Hq1 & Hr1).
    fold c in Hr1. apply result_is_valid in Hr1 as [Hv1 Hf1]. split; [done|]. rewrite Hf1.
    destruct y as [[]|[]| |[] m2 e2]; try done.
    + cbn [fv] in *. pose proof (Z.pow_pos_nonneg 2 (e1 - K)).
      apply bounded_exp in Hx as (_ & _ & ?). lia.
    + cbn [SFmul c fv xorb]. lia.
    + destruct (mul_spec m2 e2 mc ec Hy Hc) as (HK3 & q2 & Hq2 & Hr2).
      fold c in Hr2. apply result_is_valid in Hr2 as [_ ->].
      apply Z.min_le_compat_r. eapply round_mono; [..|exact Hq1|exact Hq2|]; [done..|].
      cbn [fv] in Hxy. apply bounded_exp in Hx as (_ & _ & ?), Hy as (_ & _ & ?).
      rewrite !Pos2Z.inj_mul, !(Z.mul_comm _ (Zpos mc)), <- !Z.mul_assoc.
      apply Z.mul_le_mono_nonneg_l; [lia|].
      replace (e1 + ec - K) with (e1 - (K - ec)) by lia.
      replace (e2 + ec - K) with (e2 - (K - ec)) by lia.
      apply (value_le_unit _ _ _ _ K); lia.
Qed.

(** *** Adding a non-negative number does not decrease *)
Lemma fst_shl_align m e ez :
  ez <= e -> Zpos (fst (shl_align m e ez)) = Zpos m * 2 ^ (e - ez).
Proof.
  intros H. unfold shl_align. destruct (ez - e) as [|d|d] eqn:Ed; cbn [fst]; [|lia|].
  - replace (e - ez) with 0 by lia. lia.
  - rewrite (proj1 (iter_xO_spec m d)). repeat f_equal. lia.
Qed.

Lemma add_spec m1 e1 m2 e2 :
  K <= e1 -> K <= e2 ->
  exists m e q, K <= e /\
    Zpos m * 2 ^ (e - K) = Zpos m1 * 2 ^ (e1 - K) + Zpos m2 * 2 ^ (e2 - K) /\
    rounds_to (fe (Zpos (digits2_pos m) + e) - K) (Zpos m * 2 ^ (e - K)) q /\
    result_is (SFadd prec emax (S754_finite false m1 e1) (S754_finite false m2 e2))
      (q * 2 ^ (fe (Zpos (digits2_pos m) + e) - K)).
Proof.
  intros H1 H2. cbn [SFadd cond_Zopp]. set (ez := Z.min e1 e2).
  set (p1 := fst (shl_align m1 e1 ez)). set (p2 := fst (shl_align m2 e2 ez)).
  change (Zpos p1 + Zpos p2) with (Zpos (p1 + p2)). cbn [binary_normalize].
  destruct (binary_round_spec (p1 + p2) ez) as (q & Hq & Hr); [lia|].
  exists (p1 + p2)%positive, ez, q. split_and!; [lia| |done..].
  rewrite Pos2Z.inj_add. unfold p1, p2. rewrite !fst_shl_align by lia.
  rewrite Z.mul_add_distr_r, <- !Z.mul_assoc, <- !Z.pow_add_r by lia.
  do 3 f_equal; lia.
Qed.

Lemma SFadd_ge x y :
  nonneg_valid x -> nonneg_valid y ->
  nonneg_valid (SFadd prec emax x y) /\ fv x <= fv (SFadd prec emax x y).
Proof.
  intros Hx Hy. destruct x as [[]|[]| |[] m1 e1]; try done.
  - destruct y as [[]|[]| |[] m2 e2]; try done; (split; [done|apply fv_nonneg]).
  - by destruct y as [[]|[]| |[] m2 e2].
  - destruct y as [[]|[]| |[] m2 e2]; try done.
    + split; [done|]. apply bounded_lt in Hx. cbn [SFadd fv]. lia.
    + pose proof (bounded_exp _ _ Hx) as (Hcx & _ & Hx1).
      pose proof (bounded_exp _ _ Hy) as (_ & _ & Hy1).
      destruct (add_spec m1 e1 m2 e2 Hx1 Hy1) as (m & e & q & He & Hsum & Hq & Hr).
      apply result_is_valid in Hr as [Hv ->]. split; [done|].
      apply Z.min_glb; [|by apply bounded_lt in Hx; cbn [fv]; lia].
      cbn [fv]. pose proof (round_mono m1 e1 (Zpos m1) m e q Hx1 He) as Hmono.
      cbn zeta in Hmono. rewrite Hcx in Hmono. apply Hmono; [|done|].
      * split; [lia|]. intros. lia.
      * rewrite Hsum. pose proof (Z.pow_nonneg 2 (e2 - K)). lia.
Qed.

(** *** Canonical values are ordered by their exponents first *)
Lemma canonical_lt m1 e1 m2 e2 :
  bounded prec emax m1 e1 = true -> bounded prec emax m2 e2 = true -> e1 < e2 ->
  Zpos m1 * 2 ^ (e1 - K) < Zpos m2 * 2 ^ (e2 - K).
Proof.
  intros (Hc1 & _ & H1)%bounded_exp (Hc2 & _ & H2)%bounded_exp Hlt.
  pose proof (value_lt m1 e1 H1) as B1. pose proof (value_ge m2 e2 H2) as A2.
  assert (2 ^ (Zpos (digits2_pos m1) + e1 - K) <= 2 ^ (Zpos (digits2_pos m2) + e2 - K - 1)); [|lia].
  apply Z.pow_le_mono_r; [done|]. unfold fe, fexp in *. lia.
Qed.

(** A significand that fits the format is kept. *)
Lemma binary_round_exact m e :
  K <= e -> fe (Zpos (digits2_pos m) + e) <= e ->
  result_is (binary_round prec emax false m e) (Zpos m * 2 ^ (e - K)).
Proof.
  intros He Hf. destruct (binary_round_spec m e He) as (q & Hq & Hr).
  set (f := fe _) in *. assert (K <= f) by (unfold f, fe, fexp; lia).
  assert (Hmul : Zpos m * 2 ^ (e - K) = Zpos m * 2 ^ (e - f) * 2 ^ (f - K)).
  { rewrite <- Z.mul_assoc, <- Z.pow_add_r by lia. do 2 f_equal. lia. }
  rewrite Hmul in Hq |- *. replace q with (Zpos m * 2 ^ (e - f)) in Hr; [done|].
  apply Z.le_antisymm; [eapply rounds_to_ge|eapply rounds_to_le]; [|exact Hq| | |exact Hq|]; lia.
Qed.

(** *** A value has one representation *)
Lemma valid_unique x y : nonneg_valid x -> nonneg_valid y -> fv x = fv y -> x = y.
Proof.
  assert (Hpos : forall m e, K <= e -> 0 < Zpos m * 2 ^ (e - K))
    by (intros m e ?; pose proof (Z.pow_pos_nonneg 2 (e - K)); nia).
  assert (Hinf : 0 < 2 ^ (emax - K)) by (apply Z.pow_pos_nonneg; unfold emin in *; lia).
  intros Hx Hy. destruct x as [[]|[]| |[] m1 e1], y as [[]|[]| |[] m2 e2];
    try done; cbn [fv nonneg_valid] in *; intros E; try lia;
    try (apply bounded_exp in Hx as (_ & _ & Hk); specialize (Hpos m1 e1 Hk); lia);
    try (apply bounded_exp in Hy as (_ & _ & Hk); specialize (Hpos m2 e2 Hk); lia);
    try (apply bounded_lt in Hx; lia); try (apply bounded_lt in Hy; lia).
  apply bounded_exp in Hx as (Hc1 & _ & H1), Hy as (Hc2 & _ & H2).
  assert (HD : Zpos (digits2_pos m1) + e1 = Zpos (digits2_pos m2) + e2).
  { pose proof (value_ge m1 e1 H1) as A1. pose proof (value_lt m1 e1 H1) as B1.
    pose proof (value_ge m2 e2 H2) as A2. pose proof (value_lt m2 e2 H2) as B2.
    assert (L1 : 2 ^ (Zpos (digits2_pos m1) + e1 - K - 1) < 2 ^ (Zpos (digits2_pos m2) + e2 - K)) by lia.
    assert (L2 : 2 ^ (Zpos (digits2_pos m2) + e2 - K - 1) < 2 ^ (Zpos (digits2_pos m1) + e1 - K)) by lia.
    apply Z.pow_lt_mono_r_iff in L1; [|lia..]. apply Z.pow_lt_mono_r_iff in L2; lia. }
  assert (e1 = e2) as -> by congruence.
  apply Z.mul_cancel_r in E; [|lia]. congruence.
Qed.

(** Comparison is comparison of values. *)
Lemma SFcompare_fv x y :
  nonneg_valid x -> nonneg_valid y -> SFcompare x y = Some (fv x ?= fv y).
Proof.
  assert (Hpos : forall m e, bounded prec emax m e = true -> 0 < Zpos m * 2 ^ (e - K)).
  { intros m e (_ & _ & ?)%bounded_exp. pose proof (Z.pow_pos_nonneg 2 (e - K)). nia. }
  assert (Hinf : 0 < 2 ^ (emax - K)) by (apply Z.pow_pos_nonneg; unfold emin in *; lia).
  intros Hx Hy. destruct x as [[]|[]| |[] m1 e1], y as [[]|[]| |[] m2 e2];
    try done; cbn [fv nonneg_valid SFcompare] in *; f_equal; symmetry;
    rewrite ?Z.compare_lt_iff, ?Z.compare_gt_iff, ?Z.compare_refl; auto using bounded_lt.
  destruct (Z.compare_spec e1 e2) as [->|Hlt|Hgt].
  - apply bounded_exp in Hy as (_ & _ & ?).
    rewrite !(Z.mul_comm _ (2 ^ _)), <- Zmult_compare_compat_l; [done|].
    pose proof (Z.pow_pos_nonneg 2 (e2 - K)). lia.
  - apply Z.compare_lt_iff. by apply canonical_lt.
  - apply Z.compare_gt_iff. by apply canonical_lt.
Qed.

(** Adding two values whose sum is representable is exact. *)
Lemma SFadd_exact x y z :
  nonneg_valid x -> nonneg_valid y -> nonneg_valid z ->
  x <> S754_infinity false -> y <> S754_infinity false ->
  fv z = fv x + fv y -> z <> S754_infinity false -> SFadd prec emax x y = z.
Proof.
  intros Hx Hy Hz Nx Ny E Nz.
  destruct x as [[]|[]| |[] m1 e1]; try done.
  - cbn [fv] in E. destruct y as [[]|[]| |[] m2 e2]; try done; symmetry; by apply valid_unique.
  - destruct y as [[]|[]| |[] m2 e2]; try done.
    + cbn [fv] in E. cbn [SFadd]. symmetry. apply valid_unique; [done..|]. cbn [fv]. lia.
    + pose proof (bounded_exp _ _ Hx) as (_ & _ & H1).
      pose proof (bounded_exp _ _ Hy) as (_ & _ & H2).
      destruct (add_spec m1 e1 m2 e2 H1 H2) as (m & e & q & He & Hsum & Hq & Hr).
      apply result_is_valid in Hr as [Hv Hf]. apply valid_unique; [done..|].
      rewrite Hf. cbn [fv] in E. rewrite <- Hsum in E.
      destruct z as [[]|[]| |[] mz ez]; try done.
      { cbn [fv] in E. pose proof (Z.pow_pos_nonneg 2 (e - K)). nia. }
      pose proof (bounded_exp _ _ Hz) as (Hcz & _ & H3).
      pose proof (round_mono mz ez (Zpos mz) m e q H3 He) as M1.
      pose proof (round_mono m e q mz ez (Zpos mz) He H3) as M2.
      cbn zeta in M1, M2. rewrite Hcz in M1, M2. cbn [fv] in *.
      assert (Hself : rounds_to (ez - K) (Zpos mz * 2 ^ (ez - K)) (Zpos mz))
        by (split; [lia|intros; lia]).
      specialize (M1 Hself Hq ltac:(lia)). specialize (M2 Hq Hself ltac:(lia)).
      apply bounded_lt in Hz. lia.
Qed.

(** *** Quotients of non-negative numbers

    The quotient of the mantissas, its exponent, and how it is rounded. *)
Lemma div_spec m1 e1 m2 e2 :
  bounded prec emax m1 e1 = true -> bounded prec emax m2 e2 = true ->
  exists q e' r, let f := fe (Zdigits2 q + e') in
    q = Zpos m1 * 2 ^ (e1 - e2 - e') / Zpos m2 /\ K <= e' /\ e' <= e1 - e2 /\
    e' <= fe (Zpos (digits2_pos m1) + e1 - (Zpos (digits2_pos m2) + e2)) /\ e' <= f /\
    brackets q (f - e') r /\ 0 <= r /\
    result_is (SFdiv prec emax (S754_finite false m1 e1) (S754_finite false m2 e2)) (r * 2 ^ (f - K)).
Proof.
  intros (Hc1 & He1 & _)%bounded_exp (Hc2 & He2 & _)%bounded_exp.
  cbn [SFdiv xorb]. unfold SFdiv_core_binary. cbn [Zdigits2]. fold fe.
  set (d1 := Zpos (digits2_pos m1)) in *. set (d2 := Zpos (digits2_pos m2)) in *.
  set (e' := Z.min (fe (d1 + e1 - (d2 + e2))) (e1 - e2)).
  set (m' := match e1 - e2 - e' with
             | Z0 => Zpos m1 | Zpos _ => Z.shiftl (Zpos m1) (e1 - e2 - e') | Zneg _ => 0 end).
  assert (Hm' : m' = Zpos m1 * 2 ^ (e1 - e2 - e')).
  { unfold m'. destruct (e1 - e2 - e') as [|s|s] eqn:Es; [lia| |lia].
    by rewrite Z.shiftl_mul_pow2. }
  pose proof (Z_div_mod_eq_full m' (Zpos m2)) as Hdm.
  pose proof (Z.mod_pos_bound m' (Zpos m2) eq_refl) as Hrem.
  assert (HQ : Zpos m1 * 2 ^ (e1 - e2 - e') / Zpos m2 = m' / Zpos m2) by (by rewrite Hm').
  unfold Z.div in HQ at 2. unfold Z.div, Z.modulo in Hdm, Hrem. destruct (Z.div_eucl m' (Zpos m2)) as [q r].
  assert (HKe : K <= e') by (unfold e', fe, fexp, emin in *; lia).
  assert (Hef : e' <= fe (Zdigits2 q + e')).
  { assert (0 <= q) as Hq0 by nia. destruct (Zdigits2_bound q Hq0) as [Hq Hdq].
    assert (Hlt : 2 ^ (d1 - 1 + (e1 - e2 - e')) < 2 ^ (d2 + Zdigits2 q)).
    { rewrite !Z.pow_add_r by lia. eapply Z.le_lt_trans.
      - apply Z.mul_le_mono_nonneg_r; [lia|]. apply (digits2_ge m1).
      - rewrite <- Hm'. pose proof (digits2_bound m2) as Hb2. fold d2 in Hb2. nia. }
    apply Z.pow_lt_mono_r_iff in Hlt; [|lia..].
    assert (fe (d1 + e1 - (d2 + e2)) <= fe (Zdigits2 q + e')) by (apply fexp_mono; lia). lia. }
  destruct (round_aux_spec q e' (new_location (Zpos m2) r)) as (z & Hbr & Hz & _ & Hr); [nia|done|done|].
  exists q, e', z. cbn zeta. split_and!; try done; lia.
Qed.

Lemma SFdiv_valid m1 e1 y :
  bounded prec emax m1 e1 = true -> nonneg_valid y ->
  nonneg_valid (SFdiv prec emax (S754_finite false m1 e1) y).
Proof.
  intros Hx Hy. destruct y as [[]|[]| |[] m2 e2]; try done.
  destruct (div_spec m1 e1 m2 e2 Hx Hy) as (q & e' & r & _ & _ & _ & _ & _ & _ & _ & Hr).
  by apply result_is_valid in Hr as [? _].
Qed.
End round_value.

(** ** The same facts for [double] *)

(** Unit in which doubles and products of doubles are whole. *)
Definition K64 : Z := -2148.
Definition f64_valid (x : spec_float) : Prop := nonneg_valid 53 1024 x.
Definition f64_val (x : spec_float) : Z := fv 1024 K64 x.

Lemma f64_add_ge x y :
  f64_valid x -> f64_valid y -> f64_valid (f64_add x y) /\ f64_val x <= f64_val (f64_add x y).
Proof. by apply SFadd_ge. Qed.

Lemma f64_mul_mono x y c :
  f64_valid x -> f64_valid y -> (exists m e, c = S754_finite false m e) -> f64_valid c ->
  f64_val x <= f64_val y -> f64_val (f64_mul x c) <= f64_val (f64_mul y c).
Proof. intros Hx Hy (m & e & ->) Hc H. by apply SFmul_mono. Qed.

Lemma f64_mul_valid x c :
  f64_valid x -> (exists m e, c = S754_finite false m e) -> f64_valid c -> f64_valid (f64_mul x c).
Proof. intros Hx (m & e & ->) Hc. by apply (SFmul_mono 53 1024 K64 eq_refl ltac:(done) ltac:(done) ltac:(done) ltac:(done) x x). Qed.

Lemma f64_div_valid x y :
  (exists m e, x = S754_finite false m e) -> f64_valid x -> f64_valid y -> f64_valid (f64_div x y).
Proof. intros (m & e & ->) Hx Hy. by apply (SFdiv_valid 53 1024 K64). Qed.

(** Truncation of a non-negative double is its floor. *)
Lemma f_trunc_val x z :
  f64_valid x -> f_trunc x = Some z -> z = f64_val x / 2 ^ (- K64).
Proof.
  destruct x as [[]|s| |[] m e]; intros Hv Hz; try discriminate Hz; try (exfalso; exact Hv).
  { by injection Hz as <-. }
  cbn [f_trunc cond_Zopp] in Hz. injection Hz as <-.
  unfold f64_val, fv. apply (bounded_exp 53 1024 K64) in Hv as (_ & _ & HK); [|done..].
  destruct (Z.le_gt_cases 0 e).
  - rewrite Z.shiftl_mul_pow2 by lia. replace (e - K64) with (e + - K64) by lia.
    rewrite Z.pow_add_r by (unfold K64 in *; lia). by rewrite Z.mul_assoc, Z.div_mul by done.
  - replace (Z.shiftl (Zpos m) e) with (Zpos m / 2 ^ (- e))
      by (by rewrite <- Z.shiftr_div_pow2, Z.shiftr_opp_r by lia).
    replace (- K64) with (- e + (e - K64)) by lia.
    rewrite (Z.pow_add_r 2 (- e)) by lia. by rewrite Z.div_mul_cancel_r by lia.
Qed.

Lemma f_trunc_mono x y zx zy :
  f64_valid x -> f64_valid y -> f64_val x <= f64_val y ->
  f_trunc x = Some zx -> f_trunc y = Some zy -> zx <= zy.
Proof.
  intros Hx Hy Hxy Ex Ey. rewrite (f_trunc_val x zx), (f_trunc_val y zy) by done.
  apply Z.div_le_mono; [done|]. done.
Qed.

(** A product of positive doubles below [2^a] and [2^b] truncates to an
    integer of at most [a + b] bits. *)
Definition f64_lt_pow (x : spec_float) (a : Z) : Prop :=
  exists m e, x = S754_finite false m e /\ bounded 53 1024 m e = true /\
    Zpos (digits2_pos m) + e <= a.

Lemma f64_mul_trunc x y a b :
  0 <= a -> 0 <= b -> a + b < 1024 -> f64_lt_pow x a -> f64_lt_pow y b ->
  exists z, f_trunc (f64_mul x y) = Some z /\ 0 <= z <= 2 ^ (a + b).
Proof.
  intros Ha Hb Hab (m1 & e1 & -> & Hb1 & H1) (m2 & e2 & -> & Hb2 & H2).
  destruct (mul_spec 53 1024 K64 eq_refl ltac:(done) ltac:(done) ltac:(done) ltac:(done)
              m1 e1 m2 e2 Hb1 Hb2) as (HK & q & Hq & Hr).
  fold f64_mul in Hr. set (r := f64_mul _ _) in *.
  set (f := fexp 53 1024 _) in *.
  assert (HR : q * 2 ^ (f - K64) <= 2 ^ (a + b - K64)).
  { eapply rounds_to_small; [|exact Hq|].
    - pose proof (digits2_mul_le m1 m2). unfold f, fexp, emin, K64 in *. lia.
    - rewrite Pos2Z.inj_mul. pose proof (digits2_bound m1). pose proof (digits2_bound m2).
      trans (2 ^ (Zpos (digits2_pos m1) + Zpos (digits2_pos m2)) * 2 ^ (e1 + e2 - K64)).
      + apply Z.mul_le_mono_nonneg_r; [lia|]. rewrite Z.pow_add_r by lia. nia.
      + rewrite <- Z.pow_add_r by lia. apply Z.pow_le_mono_r; lia. }
  pose proof Hr as [Hv Hval]%result_is_valid; [|done..].
  assert (Hfin : exists z, f_trunc r = Some z).
  { destruct r as [[]|[]| |[] m e]; try done; try by eexists. cbn [result_is] in Hr.
    exfalso. assert (Hc : 2 ^ (1024 - K64) <= 2 ^ (a + b - K64)) by lia.
    apply Z.pow_le_mono_r_iff in Hc; [lia|lia|unfold K64; lia]. }
  destruct Hfin as [z Hz]. exists z. split; [done|].
  rewrite (f_trunc_val r z Hv Hz). fold (f64_val r) in Hval. split.
  - apply Z.div_pos; [apply fv_nonneg|done].
  - apply Z.div_le_upper_bound; [done|]. rewrite <- Z.pow_add_r by (unfold K64; lia).
    replace (- K64 + (a + b)) with (a + b - K64) by lia. lia.
Qed.

Definition f64_pos (x : spec_float) : Prop :=
  exists m e, x = S754_finite false m e /\ bounded 53 1024 m e = true.

Lemma f64_mul_valid_l c x : f64_pos c -> f64_valid x -> f64_valid (f64_mul c x).
Proof.
  intros (m & e & -> & Hc) Hx. destruct x as [[]|[]| |[] m2 e2]; try done.
  destruct (mul_spec 53 1024 K64 eq_refl ltac:(done) ltac:(done) ltac:(done) ltac:(done)
              m e m2 e2 Hc Hx) as (_ & q & _ & Hr).
  by apply result_is_valid in Hr as [? _].
Qed.

Lemma f64_inv_valid x : f64_valid x -> f64_valid (f64_div (f64_of_Z 1) x).
Proof. intros. apply f64_div_valid; [by do 2 eexists|done|done]. Qed.

(** ** Small integers as [float]s *)
Lemma f32_of_Z_spec n :
  0 <= n <= 2 ^ 24 ->
  nonneg_valid 24 128 (f32_of_Z n) /\ fv 128 K64 (f32_of_Z n) = n * 2 ^ (- K64) /\
  f32_of_Z n <> S754_infinity false.
Proof.
  intros Hn. unfold f32_of_Z. destruct n as [|p|p]; [by split_and!| |lia].
  cbn [binary_normalize].
  destruct (binary_round_spec 24 128 K64 eq_refl ltac:(done) ltac:(done) p 0) as (q & Hq & Hr); [done|].
  set (f := fexp 24 128 _) in *.
  assert (Hd : Zpos (digits2_pos p) <= 25) by (apply digits2_le_bound; [done|]; lia).
  assert (Hf : f <= 1) by (unfold f, fexp, emin; lia).
  assert (HR : q * 2 ^ (f - K64) = Zpos p * 2 ^ (0 - K64)).
  { assert (Hmul : exists c, Zpos p * 2 ^ (0 - K64) = c * 2 ^ (f - K64)).
    { destruct (Z.le_gt_cases f 0) as [Hle|Hgt].
      - exists (Zpos p * 2 ^ (0 - f)). rewrite <- Z.mul_assoc, <- Z.pow_add_r by (unfold K64, f, fexp, emin in *; lia).
        do 2 f_equal. lia.
      - assert (Hp : Zpos p = 2 ^ 24).
        { pose proof (digits2_ge p) as Hge.
          assert (Zpos (digits2_pos p) = 25) as E by (unfold f, fexp, emin in *; lia).
          rewrite E in Hge. change (25 - 1) with 24 in Hge. lia. }
        assert (f = 1) as -> by lia. rewrite Hp. exists (2 ^ 23). done. }
    destruct Hmul as [c Hc]. rewrite Hc in Hq |- *. f_equal.
    apply Z.le_antisymm; [eapply rounds_to_le|eapply rounds_to_ge]; [|exact Hq| | |exact Hq|];
      try lia; unfold f, fexp, emin, K64; lia. }
  rewrite HR in Hr. pose proof Hr as [Hv Hval]%result_is_valid; [|done..].
  change (0 - K64) with (- K64) in *.
  assert (Hlt : Zpos p * 2 ^ (- K64) < 2 ^ (128 - K64)).
  { change (128 - K64) with (128 + - K64). rewrite Z.pow_add_r by done.
    apply Z.mul_lt_mono_pos_r; [done|]. eapply Z.le_lt_trans; [apply Hn|done]. }
  split; [done|]. split; [rewrite Hval; apply Z.min_l; apply Z.lt_le_incl, Hlt|].
  intros E. rewrite E in Hr. cbn [result_is] in Hr.
  apply (Z.lt_irrefl (2 ^ (128 - K64))). by eapply Z.le_lt_trans.
Qed.

Lemma f32_add_of_Z a b :
  0 <= a -> 0 <= b -> a + b <= 2 ^ 24 -> f32_add (f32_of_Z a) (f32_of_Z b) = f32_of_Z (a + b).
Proof.
  intros Ha Hb Hab. unfold f32_add.
  destruct (f32_of_Z_spec a) as (Va & Ea & Na); [lia|].
  destruct (f32_of_Z_spec b) as (Vb & Eb & Nb); [lia|].
  destruct (f32_of_Z_spec (a + b)) as (Vc & Ec & Nc); [lia|].
  apply (SFadd_exact 24 128 K64); try done. rewrite Ea, Eb, Ec. apply Z.mul_add_distr_r.
Qed.

Lemma f32_div_self n : 0 < n <= 2 ^ 24 -> f32_div (f32_of_Z n) (f32_of_Z n) = f32_of_Z 1.
Proof.
  intros Hn. destruct (f32_of_Z_spec n) as (Hv & E & Hi); [lia|].
  destruct (f32_of_Z n) as [[]|[]| |[] m e]; try done.
  { cbn [fv] in E. assert (0 < n * 2 ^ (- K64)) by (apply Z.mul_pos_pos; [lia|done]). lia. }
  unfold f32_div. cbn [SFdiv xorb]. unfold SFdiv_core_binary. cbn [Zdigits2].
  rewrite !Z.sub_diag. change (fexp 24 128 0) with (-24). change (Z.min (-24) 0) with (-24).
  change (0 - -24) with 24. cbv iota beta zeta.
  rewrite Z.shiftl_mul_pow2 by done.
  pose proof (Z_div_mod_eq_full (Zpos m * 2 ^ 24) (Zpos m)) as Hdm.
  assert (Hq : Zpos m * 2 ^ 24 / Zpos m = 2 ^ 24) by (rewrite Z.mul_comm; by apply Z.div_mul).
  assert (Hr : (Zpos m * 2 ^ 24) mod Zpos m = 0) by (rewrite Z.mul_comm; by apply Z.mod_mul).
  unfold Z.div, Z.modulo in Hq, Hr. destruct (Z.div_eucl _ _) as [q r]. subst q r.
  assert (Hl : new_location (Zpos m) 0 = loc_Exact)
    by (unfold new_location, new_location_even, new_location_odd; by destruct (Z.even _)).
  rewrite Hl. done.
Qed.

(** ** Integers converted to [float] and then to [double] *)
Lemma f32_of_Z_ge n k :
  0 <= k -> 2 ^ k <= n -> n < 2 ^ 64 ->
  nonneg_valid 24 128 (f32_of_Z n) /\ f32_of_Z n <> S754_infinity false /\
  2 ^ (k - K64) <= fv 128 K64 (f32_of_Z n).
Proof.
  intros Hk Hn H64. pose proof (Z.pow_pos_nonneg 2 k ltac:(done) Hk).
  unfold f32_of_Z. destruct n as [|p|p]; [lia| |lia]. cbn [binary_normalize].
  destruct (binary_round_spec 24 128 K64 eq_refl ltac:(done) ltac:(done) p 0) as (q & Hq & Hr); [done|].
  set (f := fexp 24 128 _) in *.
  assert (Hd : Zpos (digits2_pos p) <= 64) by (apply digits2_le_bound; [done|]; lia).
  assert (Hd2 : k < Zpos (digits2_pos p)).
  { pose proof (digits2_bound p). apply (Z.pow_lt_mono_r_iff 2); lia. }
  assert (Hf : f <= 40 /\ K64 <= f) by (unfold f, fexp, emin, K64; lia).
  assert (Hup : q * 2 ^ (f - K64) <= 2 ^ (64 - K64)).
  { eapply rounds_to_small; [|exact Hq|]; [lia|].
    replace (64 - K64) with (64 + (0 - K64)) by lia. rewrite Z.pow_add_r by done.
    apply Z.mul_le_mono_nonneg_r; [done|]. lia. }
  assert (Hlo : 2 ^ (k - K64) <= q * 2 ^ (f - K64)).
  { pose proof Hr as Hr'. destruct (Z.le_gt_cases f k) as [Hle|Hgt].
    - eapply rounds_to_big; [|exact Hq|]; [lia|].
      replace (k - K64) with (k + (0 - K64)) by lia. rewrite Z.pow_add_r by (done || unfold K64; lia).
      apply Z.mul_le_mono_nonneg_r; [done|]. lia.
    - etrans; [apply (Z.pow_le_mono_r 2 _ (Zpos (digits2_pos p) + 0 - K64 - 1)); lia|].
      eapply rounds_to_big; [|exact Hq|apply value_ge; done].
      unfold f, fexp, emin, K64 in *. lia. }
  pose proof Hr as [Hv Hval]%result_is_valid; [|done..].
  assert (H128 : 2 ^ (64 - K64) < 2 ^ (128 - K64)) by (by apply Z.pow_lt_mono_r).
  split; [done|]. split.
  - intros E. rewrite E in Hr. cbn [result_is] in Hr. lia.
  - rewrite Hval, Z.min_l by lia. done.
Qed.

Lemma f64_of_f32_spec x :
  nonneg_valid 24 128 x -> x <> S754_infinity false ->
  f64_valid (f64_of_f32 x) /\ f64_val (f64_of_f32 x) = fv 128 K64 x.
Proof.
  intros Hx Nx. destruct x as [[]|[]| |[] m e]; try (exfalso; exact Hx); [by split|done|].
  cbn [f64_of_f32 f64_round cond_Zopp binary_normalize].
  apply (bounded_exp 24 128 K64) in Hx as (Hc & He & _); [|done..].
  pose proof (binary_round_exact 53 1024 K64 eq_refl ltac:(done) ltac:(done) m e) as Hr.
  pose proof Hr as Hr2. unfold fexp, emin, K64 in Hc, Hr.
  assert (Hk : -2148 <= e) by lia.
  specialize (Hr Hk ltac:(lia)). fold K64 in Hr.
  apply result_is_valid in Hr as [Hv Hval]; [|done..]. split; [exact Hv|].
  unfold f64_val. rewrite Hval. apply Z.min_l.
  pose proof (value_lt K64 m e Hk). etrans; [apply Z.lt_le_incl; eassumption|].
  apply Z.pow_le_mono_r; [done|]. lia.
Qed.

(** ** Quotients of small integers *)
Lemma f64_of_Z_spec n : 0 < n < 2 ^ 53 ->
  exists m e, f64_of_Z n = S754_finite false m e /\ bounded 53 1024 m e = true /\
    Zpos m * 2 ^ (e - K64) = n * 2 ^ (- K64).
Proof.
  intros Hn. unfold f64_of_Z. destruct n as [|p|p]; [lia| |lia]. cbn [binary_normalize].
  assert (Hd : Zpos (digits2_pos p) <= 53) by (apply digits2_le_bound; [done|]; lia).
  pose proof (binary_round_exact 53 1024 K64 eq_refl ltac:(done) ltac:(done) p 0 ltac:(done)) as Hr.
  specialize (Hr ltac:(unfold fexp, emin; lia)). change (0 - K64) with (- K64) in Hr.
  assert (Hlt : Zpos p * 2 ^ (- K64) < 2 ^ (1024 - K64)).
  { change (1024 - K64) with (1024 + - K64). rewrite Z.pow_add_r by done.
    apply Z.mul_lt_mono_pos_r; [done|]. eapply Z.lt_trans; [apply Hn|done]. }
  destruct (binary_round _ _ _ _ _) as [[]|[]| |[] m e]; cbn [result_is] in Hr; try done.
  - exfalso. lia.
  - destruct Hr as [Hr Hb]. by exists m, e.
Qed.

(** Scaling a quotient of integers. *)
Lemma div_cross A m C b : 0 < m -> 0 < b -> A * b = C * m -> A / m = C / b.
Proof.
  intros Hm Hb H. rewrite <- (Z.div_mul_cancel_r A m b), <- (Z.div_mul_cancel_r C b m) by lia.
  by rewrite H, (Z.mul_comm b m).
Qed.

(** A result rounded from the scaled quotient truncates to the quotient. *)
Lemma f64_quotient_trunc a b q e' r x :
  0 <= a < 2 ^ 20 -> 0 < b < 2 ^ 32 -> e' <= -34 -> q = a * 2 ^ (- e') / b ->
  let f := fexp 53 1024 (Zdigits2 q + e') in
  e' <= f -> brackets q (f - e') r -> result_is 53 1024 K64 x (r * 2 ^ (f - K64)) ->
  f_trunc x = Some (a / b).
Proof.
  intros Ha Hb Hneg Eq f Hf Hbr Hr. set (n := a / b).
  assert (Hn : 0 <= n /\ n * b <= a /\ a + 1 <= (n + 1) * b).
  { unfold n. pose proof (Z.div_mod a b). pose proof (Z.mod_pos_bound a b). pose proof (Z.div_pos a b). lia. }
  assert (Hq0 : 0 <= q) by (rewrite Eq; apply Z.div_pos; [apply Z.mul_nonneg_nonneg; lia|lia]).
  assert (Hf33 : f <= -33).
  { assert (Hlt : q < 2 ^ (20 - e')).
    { rewrite Eq. apply Z.div_lt_upper_bound; [lia|]. replace (20 - e') with (20 + - e') by lia.
      rewrite Z.pow_add_r by lia. pose proof (Z.pow_pos_nonneg 2 (- e')). nia. }
    destruct q as [|p|p]; [unfold f; cbn [Zdigits2]; unfold fexp, emin; lia| |lia].
    assert (Zdigits2 (Zpos p) <= 20 - e') by (apply digits2_le_bound; lia).
    unfold f, fexp, emin. lia. }
  assert (HKf : K64 <= f) by (unfold f, fexp, emin, K64; lia).
  assert (Ediv : q / 2 ^ (f - e') = a * 2 ^ (- f) / b).
  { rewrite Eq, Z.div_div by lia. apply div_cross; [lia|lia|].
    replace (- e') with (- f + (f - e')) by lia. rewrite Z.pow_add_r by lia. ring. }
  unfold brackets in Hbr. rewrite Ediv in Hbr. set (u := 2 ^ (- f)) in *.
  assert (Hu : 2 ^ 33 <= u) by (apply Z.pow_le_mono_r; lia).
  assert (Hlo : n * u <= r).
  { etrans; [|apply Hbr]. apply Z.div_le_lower_bound; [lia|]. nia. }
  assert (Hup : r < (n + 1) * u).
  { eapply Z.le_lt_trans; [apply Hbr|]. assert (a * u / b < (n + 1) * u - 1); [|lia].
    apply Z.div_lt_upper_bound; [lia|].
    assert ((a + 1) * u <= (n + 1) * b * u) by (apply Z.mul_le_mono_nonneg_r; lia). lia. }
  assert (Eu : 2 ^ (- K64) = u * 2 ^ (f - K64)) by (unfold u; rewrite <- Z.pow_add_r by lia; f_equal; lia).
  pose proof (Z.pow_pos_nonneg 2 (f - K64) ltac:(done) ltac:(lia)) as Hw.
  assert (HR : n * 2 ^ (- K64) <= r * 2 ^ (f - K64) < (n + 1) * 2 ^ (- K64)) by (rewrite Eu; nia).
  assert (Hn20 : n + 1 <= 2 ^ 20) by (assert (n <= a) by nia; lia).
  assert (Hbig : r * 2 ^ (f - K64) < 2 ^ (1024 - K64)).
  { eapply Z.lt_le_trans; [apply HR|]. trans (2 ^ 20 * 2 ^ (- K64)).
    - apply Z.mul_le_mono_nonneg_r; [done|lia].
    - rewrite <- Z.pow_add_r by done. by apply Z.pow_le_mono_r. }
  pose proof Hr as [Hv Hval]%result_is_valid; [|done..]. rewrite Z.min_l in Hval by lia.
  assert (Hz : exists z, f_trunc x = Some z).
  { destruct x as [[]|[]| |[] m e]; try done; try by eexists. cbn [result_is] in Hr. lia. }
  destruct Hz as [z Hz]. rewrite Hz. f_equal. apply f_trunc_val in Hz as ->; [|done].
  unfold f64_val. rewrite Hval. symmetry. apply Z.div_unique with (r * 2 ^ (f - K64) - 2 ^ (- K64) * n); [|lia].
  left. rewrite (Z.mul_comm _ n). lia.
Qed.

(** Converting the quotient of two small integers, computed in [double], to an
    integer gives the integer quotient: rounding does not reach the next one. *)
Lemma f64_div_trunc a b :
  0 <= a < 2 ^ 20 -> 0 < b < 2 ^ 32 -> f_trunc (f64_div (f64_of_Z a) (f64_of_Z b)) = Some (a / b).
Proof.
  intros Ha Hb.
  destruct (f64_of_Z_spec b) as (m2 & e2 & Eb & Bb & Vb); [lia|].
  destruct (decide (a = 0)) as [->|Hne].
  { rewrite Eb. change (f64_of_Z 0) with (S754_zero false). by rewrite Z.div_0_l by lia. }
  destruct (f64_of_Z_spec a) as (m1 & e1 & Ea & Ba & Va); [lia|]. rewrite Ea, Eb. unfold f64_div.
  destruct (div_spec 53 1024 K64 eq_refl ltac:(done) ltac:(done) ltac:(done) m1 e1 m2 e2 Ba Bb)
    as (q & e' & r & Hq & HK & He' & Hfe & Hf & Hbr & Hr0 & Hr).
  set (f := fexp 53 1024 (Zdigits2 q + e')) in *. set (x := SFdiv _ _ _ _) in *.
  apply (bounded_exp 53 1024 K64) in Ba as (_ & _ & HK1), Bb as (_ & _ & HK2); [|done..].
  assert (Hneg : e' <= -34).
  { pose proof (value_ge K64 m1 e1 HK1) as Hge. pose proof (value_lt K64 m2 e2 HK2) as Hlt.
    rewrite Va in Hge. rewrite Vb in Hlt.
    assert (H1 : 2 ^ (Zpos (digits2_pos m1) + e1 - K64 - 1) < 2 ^ (20 - K64)).
    { eapply Z.le_lt_trans; [exact Hge|]. change (20 - K64) with (20 + - K64). rewrite Z.pow_add_r by done.
      apply Z.mul_lt_mono_pos_r; [done|]. lia. }
    assert (H2 : 2 ^ (- K64) < 2 ^ (Zpos (digits2_pos m2) + e2 - K64)).
    { eapply Z.le_lt_trans; [|exact Hlt]. rewrite <- (Z.mul_1_l (2 ^ (- K64))) at 1.
      apply Z.mul_le_mono_nonneg_r; [done|lia]. }
    apply Z.pow_lt_mono_r_iff in H1; [|done|done]. apply Z.pow_lt_mono_r_iff in H2; [|done|lia].
    unfold fexp, emin in Hfe. lia. }
  (* the quotient of the mantissas is that of the numbers, scaled *)
  assert (Eq : q = a * 2 ^ (- e') / b).
  { rewrite Hq. apply div_cross; [lia|lia|].
    apply (Z.mul_cancel_r _ _ (2 ^ (- K64))); [done|].
    rewrite <- (Z.mul_assoc _ b), <- Vb.
    replace (a * 2 ^ (- e') * Zpos m2 * 2 ^ (- K64)) with (a * 2 ^ (- K64) * (Zpos m2 * 2 ^ (- e'))) by ring.
    rewrite <- Va.
    replace (Zpos m1 * 2 ^ (e1 - e2 - e') * (Zpos m2 * 2 ^ (e2 - K64)))
      with (Zpos m1 * Zpos m2 * (2 ^ (e1 - e2 - e') * 2 ^ (e2 - K64))) by ring.
    replace (Zpos m1 * 2 ^ (e1 - K64) * (Zpos m2 * 2 ^ (- e')))
      with (Zpos m1 * Zpos m2 * (2 ^ (e1 - K64) * 2 ^ (- e'))) by ring.
    rewrite <- !Z.pow_add_r by lia. do 2 f_equal. lia. }
  eapply f64_quotient_trunc; [exact Ha|exact Hb|exact Hneg|exact Eq|exact Hf|exact Hbr|exact Hr].
Qed.
