(* ===== verification/Monad.v ===== *)
(** * The effect model: C computations over an explicit state

    A C function is a function from the state before to what it comes to and
    the state then. Besides returning, a computation can end the process
    ([rte_exit]), fail an [assert], or meet undefined behaviour of C. Loops
    whose bound is not a structural one run on fuel; running out of it is an
    outcome of its own, so a statement about every fuel speaks about every
    prefix of a run that does not end. *)
From S2P Require Import Prelude.

(** ** Outcomes *)
Inductive reason : Type :=
| Exited (code : Z)      (* rte_exit *)
| Aborted                (* a failed assert *)
| Undef                  (* undefined behaviour of C *)
| OutOfFuel.             (* the loop bound of the model was reached *)

#[global] Instance reason_eq_dec : EqDecision reason.
Proof. solve_decision. Defined.

Inductive outcome (A : Type) : Type :=
| Ret (a : A)
| Stop (k : reason).
Arguments Ret {A} a.
Arguments Stop {A} k.

(** ** The monad *)
Definition M (S A : Type) : Type := S -> outcome A * S.

#[global] Instance M_ret S : MRet (M S) := fun A a s => (Ret a, s).
#[global] Instance M_bind S : MBind (M S) := fun A B f m s =>
  match m s with
  | (Ret a, s') => f a s'
  | (Stop k, s') => (Stop k, s')
  end.

Definition stop {S A} (k : reason) : M S A := fun s => (Stop k, s).
Definition get {S} : M S S := fun s => (Ret s, s).
Definition put {S} (s' : S) : M S unit := fun _ => (Ret tt, s').
Definition modify {S} (f : S -> S) : M S unit := fun s => (Ret tt, f s).

(** [None] is undefined behaviour (an access outside an object, a conversion
    out of range). *)
Definition demand {S A} (o : option A) : M S A :=
  match o with Some a => mret a | None => stop Undef end.
(** [assert(b)] and [if (!b) rte_exit(code)]. *)
Definition c_assert {S} (b : bool) : M S unit := if b then mret tt else stop Aborted.
Definition guard_exit {S} (b : bool) (code : Z) : M S unit :=
  if b then mret tt else stop (Exited code).
Definition when {S} (b : bool) (m : M S unit) : M S unit := if b then m else mret tt.

(** ** Loops

    The body of a [while] loop either goes round again with new values of the
    variables it keeps ([inl]) or leaves the loop ([inr]). *)
Fixpoint loop {S X R} (fuel : nat) (body : X -> M S (X + R)) (x : X) : M S R :=
  match fuel with
  | O => stop OutOfFuel
  | S n => r ← body x; match r with inl x' => loop n body x' | inr y => mret y end
  end.

(** [for (i = 0; i < length l; i++)] over an array, with loop-carried values. *)
Fixpoint forM {S A X} (l : list A) (body : A -> X -> M S X) (x : X) : M S X :=
  match l with
  | [] => mret x
  | a :: l => x' ← body a x; forM l body x'
  end.

(** Runs a computation on a component of the state. *)
Definition zoom {S T A} (g : S -> T) (p : T -> S -> S) (m : M T A) : M S A := fun s =>
  let '(o, t) := m (g s) in (o, p t s).

(** ** Postconditions

    [wp m Q E s]: started in [s], [m] either returns in a state and with a
    value satisfying [Q], or stops in a state satisfying [E]. *)
Definition wp {S A} (m : M S A) (Q : A -> S -> Prop)
    (E : reason -> S -> Prop) (s : S) : Prop :=
  match m s with
  | (Ret a, s') => Q a s'
  | (Stop k, s') => E k s'
  end.

Section wp_rules.
Context {S : Type}.
Implicit Types E : reason -> S -> Prop.

Lemma wp_ret {A} (a : A) Q E s : Q a s -> wp (mret a) Q E s.
Proof. done. Qed.

Lemma wp_bind {A B} (m : M S A) (f : A -> M S B) Q E s :
  wp m (fun a s' => wp (f a) Q E s') E s -> wp (m ≫= f) Q E s.
Proof. unfold wp, mbind, M_bind. destruct (m s) as [[a|k] s']; done. Qed.

Lemma wp_stop {A} k (Q : A -> S -> Prop) E s : E k s -> wp (stop k) Q E s.
Proof. done. Qed.

Lemma wp_mono {A} (m : M S A) (Q Q' : A -> S -> Prop) E E' s :
  wp m Q E s -> (forall a s', Q a s' -> Q' a s') -> (forall k s', E k s' -> E' k s') ->
  wp m Q' E' s.
Proof. unfold wp. destruct (m s) as [[a|k] s']; auto. Qed.

Lemma wp_conj {A} (m : M S A) (Q Q' : A -> S -> Prop) E E' s :
  wp m Q E s -> wp m Q' E' s ->
  wp m (fun a s' => Q a s' /\ Q' a s') (fun k s' => E k s' /\ E' k s') s.
Proof. unfold wp. destruct (m s) as [[a|k] s']; auto. Qed.

Lemma wp_demand {A} (o : option A) Q E s :
  (forall a, o = Some a -> Q a s) -> (o = None -> E Undef s) -> wp (demand o) Q E s.
Proof. destruct o; cbn; auto. Qed.

Lemma wp_assert b Q E s :
  (b = true -> Q tt s) -> (b = false -> E Aborted s) -> wp (c_assert b) Q E s.
Proof. destruct b; cbn; auto. Qed.

Lemma wp_guard b c Q E s :
  (b = true -> Q tt s) -> (b = false -> E (Exited c) s) -> wp (guard_exit b c) Q E s.
Proof. destruct b; cbn; auto. Qed.

Lemma wp_when b m Q E s :
  (b = true -> wp m Q E s) -> (b = false -> Q tt s) -> wp (when b m) Q E s.
Proof. destruct b; cbn; auto. Qed.

(** A loop invariant holds at the head of every iteration. *)
Lemma wp_loop {X R} (I : X -> S -> Prop) fuel (body : X -> M S (X + R)) x Q E s :
  I x s ->
  (forall x s, I x s -> wp (body x)
    (fun r s' => match r with inl x' => I x' s' | inr y => Q y s' end) E s) ->
  (forall x s, I x s -> E OutOfFuel s) ->
  wp (loop fuel body x) Q E s.
Proof.
  intros HI Hbody Hfuel. revert x s HI. induction fuel as [|n IH]; intros x s HI.
  - by apply (Hfuel x).
  - cbn [loop]. apply wp_bind. eapply wp_mono; [by apply Hbody| |done].
    intros [x'|y] s' H; [by apply IH | done].
Qed.

(** An invariant may speak of the fuel that is left. *)
Lemma wp_loop_fuel {X R} (I : nat -> X -> S -> Prop) fuel (body : X -> M S (X + R)) x Q E s :
  I fuel x s ->
  (forall n x s, I (Datatypes.S n) x s -> wp (body x)
    (fun r s' => match r with inl x' => I n x' s' | inr y => Q y s' end) E s) ->
  (forall x s, I 0%nat x s -> E OutOfFuel s) ->
  wp (loop fuel body x) Q E s.
Proof.
  intros HI Hbody Hfuel. revert x s HI. induction fuel as [|n IH]; intros x s HI.
  - by apply (Hfuel x).
  - cbn [loop]. apply wp_bind. eapply wp_mono; [by apply Hbody| |done].
    intros [x'|y] s' H; [by apply IH | done].
Qed.

(** A decreasing measure bounds the number of iterations. *)
Lemma wp_loop_measure {X R} (I : X -> S -> Prop) (mu : X -> S -> nat) fuel
    (body : X -> M S (X + R)) x Q E s :
  I x s -> (mu x s < fuel)%nat ->
  (forall x s, I x s -> wp (body x)
    (fun r s' => match r with
                 | inl x' => I x' s' /\ (mu x' s' < mu x s)%nat
                 | inr y => Q y s' end) E s) ->
  wp (loop fuel body x) Q E s.
Proof.
  intros HI Hmu Hbody. revert x s HI Hmu. induction fuel as [|n IH]; intros x s HI Hmu; [lia|].
  cbn [loop]. apply wp_bind. eapply wp_mono; [by apply Hbody| |done].
  intros [x'|y] s'; [|done]. intros [HI' Hlt]. apply IH; [done|lia].
Qed.

Lemma wp_forM {A X} (I : list A -> X -> S -> Prop) (l : list A)
    (body : A -> X -> M S X) x Q E s :
  I l x s ->
  (forall a l x s, I (a :: l) x s -> wp (body a x) (fun x' s' => I l x' s') E s) ->
  (forall x s, I [] x s -> Q x s) ->
  wp (forM l body x) Q E s.
Proof.
  intros HI Hbody Hend. revert x s HI. induction l as [|a l IH]; intros x s HI.
  - by apply wp_ret, Hend.
  - cbn [forM]. apply wp_bind. eapply wp_mono; [by apply Hbody| |done].
    intros x' s' H. by apply IH.
Qed.
End wp_rules.

Lemma wp_zoom {S T A} (g : S -> T) (p : T -> S -> S) (m : M T A) Q E s :
  wp m (fun a t => Q a (p t s)) (fun k t => E k (p t s)) (g s) -> wp (zoom g p m) Q E s.
Proof. unfold wp, zoom. destruct (m (g s)) as [[a|k] t]; done. Qed.

(** ** Running a computation: equations *)
Lemma run_bind {S A B} (m : M S A) (f : A -> M S B) s a s' :
  m s = (Ret a, s') -> (m ≫= f) s = f a s'.
Proof. unfold mbind, M_bind. by intros ->. Qed.

Lemma run_bind_stop {S A B} (m : M S A) (f : A -> M S B) s k s' :
  m s = (Stop k, s') -> (m ≫= f) s = (Stop k, s').
Proof. unfold mbind, M_bind. by intros ->. Qed.

Section run_eqs.
Context {S A B : Type}.
Implicit Types (f : A -> M S B) (s : S).

Lemma bind_ret (a : A) f s : (mret a ≫= f) s = f a s. Proof. done. Qed.
Lemma bind_demand (a : A) f s : (demand (Some a) ≫= f) s = f a s. Proof. done. Qed.
Lemma bind_stop k f s : (stop k ≫= f) s = (Stop k, s). Proof. done. Qed.
Lemma bind_demand_None f s : (demand None ≫= f) s = (Stop Undef, s). Proof. done. Qed.
Lemma bind_get (g : S -> M S B) s : (get ≫= g) s = g s s. Proof. done. Qed.
Lemma bind_put s' (g : unit -> M S B) s : (put s' ≫= g) s = g tt s'. Proof. done. Qed.
Lemma bind_modify h (g : unit -> M S B) s : (modify h ≫= g) s = g tt (h s). Proof. done. Qed.
Lemma bind_assert (g : unit -> M S B) s : (c_assert true ≫= g) s = g tt s. Proof. done. Qed.
Lemma bind_guard c (g : unit -> M S B) s : (guard_exit true c ≫= g) s = g tt s. Proof. done. Qed.
Lemma bind_guard_false c (g : unit -> M S B) s :
  (guard_exit false c ≫= g) s = (Stop (Exited c), s).
Proof. done. Qed.
Lemma bind_when_false m (g : unit -> M S B) s : (when false m ≫= g) s = g tt s.
Proof. done. Qed.
Lemma bind_when_true m (g : unit -> M S B) s : (when true m ≫= g) s = (m ≫= g) s.
Proof. done. Qed.
Lemma run_ret (a : A) s : mret (M := M S) a s = (Ret a, s). Proof. done. Qed.
End run_eqs.

Lemma bind_assoc {S A B C} (m : M S A) (f : A -> M S B) (g : B -> M S C) s :
  ((m ≫= f) ≫= g) s = (m ≫= (fun a => f a ≫= g)) s.
Proof. unfold mbind, M_bind. by destruct (m s) as [[a|k] s']. Qed.

(** [run] evaluates the head of a computation as far as it is determined. *)
Create Rewrite HintDb run.
#[export] Hint Rewrite @bind_ret @bind_demand @bind_stop @bind_demand_None @bind_get @bind_put
  @bind_modify @bind_assert @bind_guard @bind_guard_false @bind_when_false @bind_when_true
  @run_ret @bind_assoc : run.
Ltac run := autorewrite with run.

(** [wp] of a run whose result is known. *)
Lemma wp_run {S A} (m : M S A) s a s' Q E : m s = (Ret a, s') -> Q a s' -> wp m Q E s.
Proof. unfold wp. by intros ->. Qed.

Lemma wp_result {S A} (m : M S A) Q s :
  wp m Q (fun _ _ => False) s -> exists a s', m s = (Ret a, s') /\ Q a s'.
Proof. unfold wp. destruct (m s) as [[a|k] s']; [eauto | done]. Qed.

(** One step of symbolic execution: the primitives of the monad. *)
Ltac wp_step :=
  cbv beta;
  lazymatch goal with
  | |- wp (mbind _ _) _ _ _ => apply wp_bind
  | |- wp (mret _) _ _ _ => apply wp_ret
  | |- wp (stop _) _ _ _ => apply wp_stop
  | |- wp (demand _) _ _ _ => apply wp_demand; [let H := fresh "Hd" in intros ? H | let H := fresh "Hd" in intros H]
  | |- wp (c_assert _) _ _ _ => apply wp_assert; intros ?; bool_to_prop
  | |- wp (guard_exit _ _) _ _ _ => apply wp_guard; intros ?; bool_to_prop
  | |- wp (when _ _) _ _ _ => apply wp_when; intros ?; bool_to_prop
  end.

#[export] Hint Resolve wp_ret wp_stop : cnet.
