(* ===== verification/CStdio.v ===== *)
(** * The C library's string functions the program calls

    [atoi], [atol], [strtok] and the conversions of [sscanf] and [snprintf] that
    occur in the sources, on strings without the terminating NUL. *)
From stdpp Require Export strings.
From Stdlib Require Export Ascii.
From S2P Require Import Prelude CInt.
#[global] Open Scope Z_scope.

(** ** Characters *)
Definition code (c : ascii) : Z := Z.of_nat (nat_of_ascii c).
Definition chr (z : Z) : ascii := ascii_of_nat (Z.to_nat z).
Definition is_digit (c : ascii) : bool := (48 <=? code c) && (code c <=? 57).
Definition is_space (c : ascii) : bool := (code c =? 32) || ((9 <=? code c) && (code c <=? 13)).
Definition hex_value (c : ascii) : option Z :=
  let z := code c in
  if is_digit c then Some (z - 48)
  else if (97 <=? z) && (z <=? 102) then Some (z - 87)
  else if (65 <=? z) && (z <=? 70) then Some (z - 55)
  else None.

Fixpoint skip_space (s : string) : string :=
  match s with String c s' => if is_space c then skip_space s' else s | EmptyString => s end.

(** A sign, if there is one: [true] for minus. *)
Definition scan_sign (s : string) : bool * string :=
  match s with
  | String c s' =>
      if code c =? 45 then (true, s') else if code c =? 43 then (false, s') else (false, s)
  | EmptyString => (false, s)
  end.

(** The digits a string starts with, as a number; [None] when there are none. *)
Fixpoint scan_digits (s : string) (acc : option Z) : option Z * string :=
  match s with
  | String c s' =>
      if is_digit c
      then scan_digits s' (Some (match acc with Some a => a | None => 0 end * 10 + (code c - 48)))
      else (acc, s)
  | EmptyString => (acc, s)
  end.

(** ** Integers *)
Definition LONG_MAX : Z := 2 ^ 63 - 1.
Definition ULONG_MAX : Z := 2 ^ 64 - 1.

(** [strtol]: saturates at the limits of [long]; 0 when there is no number. *)
Definition strtol (s : string) : Z :=
  let '(neg, s) := scan_sign (skip_space s) in
  match scan_digits s None with
  | (Some n, _) =>
      if neg then (if n <=? LONG_MAX then - n else - LONG_MAX - 1) else Z.min n LONG_MAX
  | (None, _) => 0
  end.
Definition atoi (s : string) : Z := i32 (strtol s).
Definition atol (s : string) : Z := strtol s.

(** [%hhu]: [strtoul], then the low byte; the rest of the input. *)
Definition scan_hhu (s : string) : option (Z * string) :=
  let '(neg, s) := scan_sign (skip_space s) in
  match scan_digits s None with
  | (Some n, rest) =>
      Some (u8 (if ULONG_MAX <? n then ULONG_MAX else if neg then - n else n), rest)
  | (None, _) => None
  end.

(** [%d]. *)
Definition scan_d (s : string) : option Z :=
  let '(neg, s) := scan_sign (skip_space s) in
  match scan_digits s None with
  | (Some n, _) =>
      Some (i32 (if neg then (if n <=? LONG_MAX then - n else - LONG_MAX - 1) else Z.min n LONG_MAX))
  | (None, _) => None
  end.

(** A character of the format that stands for itself. *)
Definition scan_char (c : ascii) (s : string) : option string :=
  match s with
  | String c' s' => if bool_decide (c = c') then Some s' else None
  | EmptyString => None
  end.

(** [%2hhx]: at most two characters, counted from the sign; an incomplete
    "0x" is no number. *)
Definition scan_2hhx (s : string) : option Z :=
  match skip_space s with
  | EmptyString => None
  | String c s' =>
      if (code c =? 45) || (code c =? 43) then
        match s' with
        | String d _ => match hex_value d with
            | Some v => Some (u8 (if code c =? 45 then - v else v)) | None => None end
        | EmptyString => None
        end
      else match hex_value c with
        | None => None
        | Some v =>
            match s' with
            | EmptyString => Some v
            | String d _ =>
                match hex_value d with
                | Some w => Some (16 * v + w)
                | None => if (v =? 0) && ((code d =? 120) || (code d =? 88)) then None else Some v
                end
            end
        end
  end.

(** [%hhu] of [snprintf]. *)
Definition print_hhu (z : Z) : string :=
  let digit d := String (chr (48 + d)) EmptyString in
  if z <? 10 then digit z
  else if z <? 100 then (digit (z / 10) +:+ digit (z mod 10))
  else (digit (z / 100) +:+ digit (z / 10 mod 10) +:+ digit (z mod 10)).

(** [snprintf] into [size] bytes keeps [size - 1] characters. *)
Fixpoint truncate (n : nat) (s : string) : string :=
  match n, s with
  | S n, String c s => String c (truncate n s)
  | _, _ => EmptyString
  end.

(** ** Tokens *)
Fixpoint skip_delim (d : ascii) (s : string) : string :=
  match s with String c s' => if bool_decide (c = d) then skip_delim d s' else s | _ => s end.
(** The token up to the delimiter, and what follows the delimiter. *)
Fixpoint until_delim (d : ascii) (s : string) : string * string :=
  match s with
  | EmptyString => (EmptyString, EmptyString)
  | String c s' =>
      if bool_decide (c = d) then (EmptyString, s')
      else let '(t, r) := until_delim d s' in (String c t, r)
  end.
(** [strtok] with a delimiter string of one character: the token and the saved
    position; [None] is NULL. *)
Definition strtok (d : ascii) (s : string) : option (string * string) :=
  match skip_delim d s with
  | EmptyString => None
  | s' => Some (until_delim d s')
  end.
(** With no delimiters (["\0"] is the empty string) the rest is one token. *)
Definition strtok_rest (s : string) : option string :=
  match s with EmptyString => None | _ => Some s end.

(** ** Printing a byte and reading it back *)
Definition stops_digits (s : string) : Prop :=
  match s with String c _ => is_digit c = false | EmptyString => True end.

Lemma digit_cases (P : Z -> Prop) :
  P 0 -> P 1 -> P 2 -> P 3 -> P 4 -> P 5 -> P 6 -> P 7 -> P 8 -> P 9 ->
  forall d, 0 <= d < 10 -> P d.
Proof.
  intros. assert (d = 0 \/ d = 1 \/ d = 2 \/ d = 3 \/ d = 4 \/ d = 5 \/ d = 6 \/ d = 7 \/ d = 8 \/ d = 9)
    by lia. repeat match goal with Hd : _ \/ _ |- _ => destruct Hd as [->|Hd] end; by subst.
Qed.

Lemma scan_digits_stop s acc : stops_digits s -> scan_digits s acc = (acc, s).
Proof. destruct s as [|c s]; [done|]. cbn. by intros ->. Qed.

Lemma scan_digits_chr d s acc :
  0 <= d < 10 ->
  scan_digits (String (chr (48 + d)) s) acc =
    scan_digits s (Some (match acc with Some a => a | None => 0 end * 10 + d)).
Proof. revert d. apply digit_cases; done. Qed.

Lemma scan_hhu_chr d s :
  0 <= d < 10 ->
  scan_hhu (String (chr (48 + d)) s) =
    match scan_digits s (Some d) with
    | (Some n, rest) => Some (u8 (if ULONG_MAX <? n then ULONG_MAX else n), rest)
    | (None, _) => None
    end.
Proof. revert d. apply digit_cases; done. Qed.

Lemma append_cons c s t : String c s +:+ t = String c (s +:+ t).
Proof. done. Qed.
Lemma append_nil t : "" +:+ t = t.
Proof. done. Qed.

Lemma scan_hhu_print z rest :
  0 <= z < 256 -> stops_digits rest -> scan_hhu (print_hhu z +:+ rest) = Some (z, rest).
Proof.
  intros Hz Hrest. unfold print_hhu.
  assert (Hu : forall n, n = z -> u8 (if ULONG_MAX <? n then ULONG_MAX else n) = z).
  { intros n ->. destruct (Z.ltb_spec ULONG_MAX z) as [Hlt|]; [|by apply u8_small].
    exfalso. change ULONG_MAX with 18446744073709551615 in Hlt. lia. }
  repeat case_if; rewrite ?append_cons, ?append_nil, ?append_cons, ?append_nil;
    rewrite scan_hhu_chr, ?scan_digits_chr, scan_digits_stop by (done || (Z.to_euclidean_division_equations; lia));
    rewrite Hu; [done| |done| |done|]; Z.to_euclidean_division_equations; lia.
Qed.
