(* ===== verification/Zipf.v ===== *)
(** * The Zipf generator (utils/zipf.c, include/zipf.h)

    [new_zipfgen] tabulates the cumulative probabilities of ranks 1..n as
    integers scaled by [RAND_MAX]; [number_from_zipf_distribution] draws a
    pseudo-random integer and finds its rank by binary search. The
    pseudo-random integers come from a table of 2^25 outputs of a linear
    congruential generator, filled at the first draw and then read in a
    cycle.

    [pow] is the C library's, a parameter. The static variables of the file
    are the record [rng_state]. *)
From S2P Require Import Prelude CInt CFloat Monad.

(** ** Data *)
Record zipfgen := {
  c_probs : list Z;      (* int *c_probs, n + 1 entries *)
  zg_h : spec_float;     (* harmonic number *)
  zg_s : spec_float;     (* skewness *)
  zg_n : Z;              (* number of ranks *)
}.

(** The function-static and file-static variables. *)
Record rng_state := {
  rng_seed : Z;                (* seed of __myrand *)
  need_init : bool;            (* _need_init *)
  srendipity : list Z;         (* int srendipity[_sz] *)
  rng_ptr : Z;                 (* ptr of myrand *)
}.

Definition RAND_MAX : Z := 2147483647.
Definition _sz : Z := Z.shiftl 1 25.

(** The length of [srendipity] as a natural number. It is 2^25; the value is
    sealed so that no tactic tries to count up to it. *)
Lemma table_len_sig : { n : nat | Z.of_nat n = _sz }.
Proof. exists (Z.to_nat _sz). by rewrite Z2Nat.id. Qed.
Definition table_len : nat := proj1_sig table_len_sig.
Lemma table_len_Z : Z.of_nat table_len = _sz.
Proof. exact (proj2_sig table_len_sig). Qed.

(** ** Building the table *)
Section new_zipfgen.
Variable pow : spec_float -> spec_float -> spec_float.

(** [for (i = 1; i < n + 1; i++) h += 1.0 / pow((double)i, s);] *)
Fixpoint harmonic (s : spec_float) (k : nat) (i : Z) (h : spec_float) : spec_float :=
  match k with
  | O => h
  | S k => harmonic s k (i + 1)
             (f64_add h (f64_div (f64_of_Z 1) (pow (f64_of_Z i) s)))
  end.

(** The second loop: entry [i] from the running sum [c]. *)
Fixpoint cumulate (s h : spec_float) (k : nat) (i : Z) (c : spec_float) : option (list Z) :=
  match k with
  | O => Some []
  | S k =>
      let c' := f64_add c (f64_div (f64_of_Z 1) (f64_mul (pow (f64_of_Z i) s) h)) in
      match f_to_int (f64_mul c' (f64_of_Z RAND_MAX)) with
      | Some e => cons e <$> cumulate s h k (i + 1) c'
      | None => None
      end
  end.

Definition new_zipfgen (n : Z) (s : spec_float) : option zipfgen :=
  if (0 <=? n) && (n <? INT_MAX) then
    let h := harmonic s (Z.to_nat n) 1 (S754_zero false) in
    match cumulate s h (Z.to_nat n) 1 (S754_zero false) with
    | Some t => Some {| c_probs := 0 :: t; zg_h := h; zg_s := s; zg_n := n |}
    | None => None
    end
  else None.
End new_zipfgen.

(** ** The pseudo-random integers *)
Definition lcg (seed : Z) : Z := (u64 (u64 (1664525 * seed) + 1013904223)) mod 4294967296.

(** [__myrand]: one step of the generator; new seed and output. *)
Definition __myrand (seed : Z) : Z * Z :=
  let seed' := lcg seed in (seed' mod RAND_MAX, seed').

Fixpoint fill (k : nat) (seed : Z) : list Z * Z :=
  match k with
  | O => ([], seed)
  | S k => let '(r, seed') := __myrand seed in
           let '(l, seed'') := fill k seed' in (r :: l, seed'')
  end.

Definition init_table (s : rng_state) : rng_state :=
  if need_init s then
    {| rng_seed := (fill table_len (rng_seed s)).2; need_init := false;
       srendipity := (fill table_len (rng_seed s)).1; rng_ptr := rng_ptr s |}
  else s.

Definition myrand : M rng_state Z :=
  _ ← modify init_table;
  s ← get;
  r ← demand (lookupZ (srendipity s) (rng_ptr s));
  _ ← put {| rng_seed := rng_seed s; need_init := need_init s; srendipity := srendipity s;
             rng_ptr := (rng_ptr s + 1) mod _sz |};
  mret r.

(** The state at program start. *)
Definition rng_init : rng_state :=
  {| rng_seed := 1; need_init := true; srendipity := []; rng_ptr := 0 |}.

(** ** Drawing a rank *)

(** One iteration of the binary search, on [(low, high)]. *)
Definition zipf_step (t : list Z) (rnd : Z) (lh : Z * Z) : M rng_state ((Z * Z) + Z) :=
  let '(low, high) := lh in
  if low <=? high then
    sum ← demand (int_chk (low + high));
    let mid := Z.quot sum 2 in
    cm ← demand (lookupZ t mid);
    if cm <? rnd then mret (inl (mid + 1, high))
    else
      cm1 ← demand (lookupZ t (mid - 1));
      if rnd <=? cm1 then mret (inl (low, mid - 1)) else mret (inr mid)
  else mret (inr (-1)).

Definition number_from_zipf_distribution (z : zipfgen) : M rng_state Z :=
  rnd ← myrand;
  loop (S (S (Z.to_nat (zg_n z)))) (zipf_step (c_probs z) rnd) (1, zg_n z).

(** ** The contract of a table *)

(** What [number_from_zipf_distribution] relies on. *)
Record table_ok (z : zipfgen) : Prop := {
  tok_n : 1 <= zg_n z < 2 ^ 30;
  tok_len : Z.of_nat (length (c_probs z)) = zg_n z + 1;
  tok_zero : lookupZ (c_probs z) 0 = Some 0;
  tok_mono : forall i x y, 0 <= i -> lookupZ (c_probs z) i = Some x ->
    lookupZ (c_probs z) (i + 1) = Some y -> x <= y;
}.

(** The rank a draw belongs to: the cumulative count reaches it there first. *)
Definition has_rank (z : zipfgen) (rnd mid : Z) : Prop :=
  1 <= mid <= zg_n z /\
  exists lo hi, lookupZ (c_probs z) (mid - 1) = Some lo /\
    lookupZ (c_probs z) mid = Some hi /\ lo < rnd <= hi.

Section search.
Context (z : zipfgen) (Hz : table_ok z).

Lemma table_mono i j x y :
  0 <= i <= j -> lookupZ (c_probs z) i = Some x -> lookupZ (c_probs z) j = Some y -> x <= y.
Proof.
  intros [Hi Hij] Hx. revert y. replace j with (i + Z.of_nat (Z.to_nat (j - i))) by lia.
  induction (Z.to_nat (j - i)) as [|k IH]; intros y Hy.
  - rewrite Z.add_0_r in Hy. simplify_eq. lia.
  - rewrite Nat2Z.inj_succ, <- Z.add_1_r, Z.add_assoc in Hy.
    pose proof (lookupZ_bound _ _ _ Hy).
    destruct (lookupZ_is_Some (c_probs z) (i + Z.of_nat k)) as [w Hw]; [lia|].
    trans w; [by apply IH|]. eapply tok_mono; [done| |exact Hw|exact Hy]. lia.
Qed.

Lemma table_lookup i : 0 <= i <= zg_n z -> exists x, lookupZ (c_probs z) i = Some x.
Proof. intros. apply lookupZ_is_Some. rewrite (tok_len z Hz). lia. Qed.

Lemma has_rank_unique rnd a b : has_rank z rnd a -> has_rank z rnd b -> a = b.
Proof.
  intros (Ha & lo & hi & Hlo & Hhi & Hr) (Hb & lo' & hi' & Hlo' & Hhi' & Hr').
  destruct (Z.lt_trichotomy a b) as [H|[H|H]]; [exfalso|done|exfalso].
  - assert (hi <= lo') by (eapply (table_mono a (b - 1)); [lia|done..]). lia.
  - assert (hi' <= lo) by (eapply (table_mono b (a - 1)); [lia|done..]). lia.
Qed.

(** The draws below [low] and above [high] are excluded. *)
Definition search_inv (rnd : Z) (lh : Z * Z) : Prop :=
  let '(low, high) := lh in
  1 <= low <= zg_n z + 1 /\ 0 <= high <= zg_n z /\ low <= high + 1 /\
  (forall x, lookupZ (c_probs z) (low - 1) = Some x -> low = 1 \/ x < rnd) /\
  (forall x, lookupZ (c_probs z) high = Some x -> high = zg_n z \/ rnd <= x).

Lemma zipf_step_spec rnd low high s :
  search_inv rnd (low, high) ->
  exists r, zipf_step (c_probs z) rnd (low, high) s = (Ret r, s) /\
  match r with
  | inl (low', high') => search_inv rnd (low', high') /\ high' - low' < high - low
  | inr v => (high < low /\ v = -1) \/ has_rank z rnd v
  end.
Proof.
  intros (Hl & Hh & Hlh & Hlo & Hhi). pose proof (tok_n z Hz). unfold zipf_step.
  destruct (Z.leb_spec low high) as [Hle|Hgt]; [|eexists; split; [done|by left]].
  rewrite int_chk_Some by lia. run.
  set (mid := Z.quot (low + high) 2).
  assert (Hmid : low <= mid <= high)
    by (unfold mid; rewrite Z.quot_div_nonneg by lia; split;
        [apply Z.div_le_lower_bound | apply Z.div_le_upper_bound]; lia).
  destruct (table_lookup mid) as [cm Hcm]; [lia|]. rewrite Hcm. run.
  destruct (Z.ltb_spec cm rnd).
  - eexists. split; [done|]. cbn. repeat split; try lia; [|done].
    intros x. rewrite Z.add_simpl_r. intros. simplify_eq. auto.
  - destruct (table_lookup (mid - 1)) as [cm1 Hcm1]; [lia|]. rewrite Hcm1. run.
    destruct (Z.leb_spec rnd cm1); (eexists; split; [done|]); cbn.
    + repeat split; try lia; [done|]. intros x. intros. simplify_eq. auto.
    + right. split; [lia|]. eauto 10.
Qed.

(** The search returns the rank, or -1 exactly when the draw has none. *)
Lemma zipf_search rnd s :
  exists v, loop (S (S (Z.to_nat (zg_n z)))) (zipf_step (c_probs z) rnd) (1, zg_n z) s
            = (Ret v, s) /\
    (has_rank z rnd v \/ v = -1 /\ forall mid, ~ has_rank z rnd mid).
Proof.
  pose proof (tok_n z Hz) as Hn.
  assert (Hinit : search_inv rnd (1, zg_n z)) by (cbn; repeat split; auto; lia).
  cut (forall fuel low high, search_inv rnd (low, high) -> high - low + 1 < Z.of_nat fuel ->
    exists v, loop fuel (zipf_step (c_probs z) rnd) (low, high) s = (Ret v, s) /\
      (has_rank z rnd v \/ v = -1 /\ forall mid, ~ has_rank z rnd mid)).
  { intros H. apply H; [done|lia]. }
  induction fuel as [|f IH]; intros low high Hinv Hfuel.
  { cbn in Hinv. lia. }
  destruct (zipf_step_spec rnd low high s Hinv) as ([[l h]|v] & Hrun & Hr);
    cbn [loop]; rewrite (run_bind _ _ _ _ _ Hrun).
  - apply IH; [tauto|lia].
  - exists v. split; [done|]. destruct Hr as [[Hgt ->]|Hr]; [right|by left].
    split; [done|]. intros mid (Hm & lo & hi & Hlo & Hhi & Hrnd).
    destruct Hinv as (Hl & Hh & Hlh & HL & HH). assert (low = high + 1) as -> by lia.
    rewrite Z.add_simpl_r in HL. destruct (table_lookup high) as [ch Hch]; [lia|].
    specialize (HL _ Hch). specialize (HH _ Hch).
    destruct (Z.le_gt_cases mid high).
    + assert (hi <= ch) by (eapply (table_mono mid high); [lia|done..]).
      destruct HH as [?|?]; [|lia]. lia.
    + assert (ch <= lo) by (eapply (table_mono high (mid - 1)); [lia|done..]).
      destruct HL as [?|?]; lia.
Qed.
End search.

(** ** The period of the linear congruential generator

    The recurrence without its modulus, and its 2^k-fold iterates: they are
    affine maps [x -> A x + C] with [A] close to 1 and [C] an odd multiple of
    2^k, so no shorter iterate fixes a residue. *)
Definition lcg_Z (x : Z) : Z := 1664525 * x + 1013904223.

Lemma lcg_mod x : 0 <= x < 2 ^ 32 -> lcg x = lcg_Z x mod 2 ^ 32.
Proof.
  intros Hx. unfold lcg, lcg_Z. change 4294967296 with (2 ^ 32).
  change (2 ^ 32) with 4294967296 in *. by rewrite (u64_small (1664525 * x)), u64_small by lia.
Qed.

Lemma lcg_range x : 0 <= lcg x < 2 ^ 32.
Proof. unfold lcg. by apply Z.mod_pos_bound. Qed.

Lemma lcg_iter_range n x : 0 <= x < 2 ^ 32 -> 0 <= Nat.iter n lcg x < 2 ^ 32.
Proof. intros. destruct n; [done|]. apply lcg_range. Qed.

Lemma lcg_iter_mod n x : 0 <= x < 2 ^ 32 -> Nat.iter n lcg x = Nat.iter n lcg_Z x mod 2 ^ 32.
Proof.
  intros Hx. induction n as [|n IH]; [by rewrite Z.mod_small|].
  rewrite !Nat.iter_succ, lcg_mod, IH by by apply lcg_iter_range.
  unfold lcg_Z. rewrite Z.add_mod, Z.mul_mod, Z.mod_mod, <- Z.mul_mod, <- Z.add_mod by done. done.
Qed.

Lemma lcg_Z_pow2 (k : nat) : exists u w, forall x,
  Nat.iter (2 ^ k)%nat lcg_Z x
  = (1 + 2 ^ (Z.of_nat k + 2) * u) * x + 2 ^ Z.of_nat k * (2 * w + 1).
Proof.
  induction k as [|k (u & w & IH)].
  - exists 416131, 506952111. intros x. unfold lcg_Z. cbn. lia.
  - set (K := Z.of_nat k) in *. rewrite Nat2Z.inj_succ. fold K.
    assert (HK : 0 <= K) by lia.
    exists (u + 2 ^ (K + 1) * u * u), ((2 * w + 1) * 2 ^ K * u + w). intros x.
    replace (2 ^ S k)%nat with (2 ^ k + 2 ^ k)%nat by (simpl; lia).
    rewrite Nat.iter_add, !IH.
    replace (Z.succ K + 2) with (K + 3) by lia.
    rewrite !Z.pow_add_r, Z.pow_succ_r by lia. change (2 ^ 3) with 8. change (2 ^ 2) with 4.
    change (2 ^ 1) with 2. ring.
Qed.

Lemma lcg_Z_mult (k m : nat) x : exists t,
  Nat.iter (2 ^ k * m)%nat lcg_Z x
  = x + 2 ^ Z.of_nat k * Z.of_nat m + 2 ^ (Z.of_nat k + 1) * t.
Proof.
  destruct (lcg_Z_pow2 k) as (u & w & Hp). revert x. induction m as [|m IH]; intros x.
  - exists 0. rewrite Nat.mul_0_r. simpl. lia.
  - rewrite Nat.mul_succ_r, Nat.iter_add, Hp.
    destruct (IH ((1 + 2 ^ (Z.of_nat k + 2) * u) * x + 2 ^ Z.of_nat k * (2 * w + 1))) as [t ->].
    exists (t + w + 2 * u * x). rewrite Nat2Z.inj_succ.
    rewrite !Z.pow_add_r by lia. change (2 ^ 2) with 4. change (2 ^ 1) with 2. ring.
Qed.

Lemma odd_part (d : nat) : (0 < d)%nat -> exists k m, d = (2 ^ k * (2 * m + 1))%nat.
Proof.
  induction (lt_wf d) as [d _ IH]. intros Hd.
  destruct (Nat.Even_or_Odd d) as [[h ->]|[h ->]].
  - destruct (IH h) as (k & m & ->); [lia..|]. exists (S k), m. simpl. lia.
  - exists 0%nat, h. simpl. lia.
Qed.

(** Fewer than 2^N steps change the low N bits of the seed. *)
Lemma lcg_low_bits (N : nat) (d : nat) x :
  (N <= 32)%nat -> (0 < d)%nat -> Z.of_nat d < 2 ^ Z.of_nat N -> 0 <= x < 2 ^ 32 ->
  Nat.iter d lcg x mod 2 ^ Z.of_nat N <> x mod 2 ^ Z.of_nat N.
Proof.
  intros HN Hd Hlt Hx Heq. destruct (odd_part d Hd) as (k & m & ->).
  assert (Hk : (k < N)%nat).
  { rewrite Nat2Z.inj_mul, Nat2Z.inj_pow in Hlt.
    destruct (Nat.lt_ge_cases k N) as [|Hge]; [done|exfalso].
    pose proof (Z.pow_le_mono_r 2 (Z.of_nat N) (Z.of_nat k)). nia. }
  destruct (lcg_Z_mult k (2 * m + 1) x) as [t Ht].
  rewrite lcg_iter_mod, Ht in Heq by done.
  rewrite Z.mod_mod_divide in Heq.
  2: { exists (2 ^ (32 - Z.of_nat N)). rewrite <- Z.pow_add_r by lia. f_equal. lia. }
  assert (Hdiv : (2 ^ Z.of_nat N | 2 ^ Z.of_nat k * (2 * (Z.of_nat m + t) + 1))).
  { apply Z.mod_divide; [lia|].
    replace (2 ^ Z.of_nat k * (2 * (Z.of_nat m + t) + 1))
      with (x + 2 ^ Z.of_nat k * Z.of_nat (2 * m + 1) + 2 ^ (Z.of_nat k + 1) * t - x).
    - rewrite Zminus_mod, Heq, Z.sub_diag. by rewrite Z.mod_0_l by lia.
    - rewrite Z.pow_add_r by lia. change (2 ^ 1) with 2. lia. }
  destruct Hdiv as [q Hq].
  replace (Z.of_nat N) with (Z.of_nat k + 1 + (Z.of_nat N - Z.of_nat k - 1)) in Hq by lia.
  rewrite !Z.pow_add_r in Hq by lia. change (2 ^ 1) with 2 in Hq.
  assert (Hc : 2 * (Z.of_nat m + t) + 1 = 2 * (q * 2 ^ (Z.of_nat N - Z.of_nat k - 1))).
  { apply (Z.mul_cancel_l _ _ (2 ^ Z.of_nat k)); [lia|]. rewrite Hq. ring. }
  lia.
Qed.

(** *** Jumping ahead *)
Definition aff_app (ac : Z * Z) (x : Z) : Z := (ac.1 * x + ac.2) mod 2 ^ 32.
Definition aff_comp (f g : Z * Z) : Z * Z :=
  ((f.1 * g.1) mod 2 ^ 32, (f.1 * g.2 + f.2) mod 2 ^ 32).
Fixpoint aff_pow (p : positive) : Z * Z :=
  match p with
  | xH => (1664525, 1013904223)
  | xO p => let h := aff_pow p in aff_comp h h
  | xI p => let h := aff_pow p in aff_comp (1664525, 1013904223) (aff_comp h h)
  end.

Lemma aff_comp_app f g x : aff_app (aff_comp f g) x = aff_app f (aff_app g x).
Proof.
  unfold aff_app, aff_comp. cbn [fst snd].
  rewrite (Z.add_mod (f.1 * (_ mod _))), (Z.mul_mod f.1 (_ mod _)), Z.mod_mod by done.
  rewrite <- Z.mul_mod, <- Z.add_mod by done.
  rewrite Z.add_mod, Z.mul_mod, !Z.mod_mod, <- Z.mul_mod, <- Z.add_mod by done.
  f_equal. ring.
Qed.

Lemma lcg_jump p x : 0 <= x < 2 ^ 32 -> Nat.iter (Pos.to_nat p) lcg x = aff_app (aff_pow p) x.
Proof.
  revert x. induction p as [p IH|p IH|]; intros x Hx.
  - rewrite Pos2Nat.inj_xI. replace (S (2 * Pos.to_nat p)) with (1 + (Pos.to_nat p + Pos.to_nat p))%nat by lia.
    rewrite !Nat.iter_add, IH by (by apply lcg_iter_range). rewrite IH by done.
    cbn [aff_pow]. rewrite !aff_comp_app. cbn [Nat.iter].
    rewrite lcg_mod by (by apply Z.mod_pos_bound). done.
  - rewrite Pos2Nat.inj_xO. replace (2 * Pos.to_nat p)%nat with (Pos.to_nat p + Pos.to_nat p)%nat by lia.
    rewrite Nat.iter_add, IH by (by apply lcg_iter_range). rewrite IH by done.
    cbn [aff_pow]. by rewrite aff_comp_app.
  - cbn [aff_pow]. rewrite Pos2Nat.inj_1. cbn [Nat.iter]. by rewrite lcg_mod.
Qed.

(** ** The stream of draws *)
Lemma length_fill k seed : length (fill k seed).1 = k.
Proof.
  revert seed. induction k as [|k IH]; intros seed; [done|]. cbn [fill].
  destruct (fill k (lcg seed)) as [l s''] eqn:E. unfold __myrand. rewrite E. cbn.
  f_equal. specialize (IH (lcg seed)). by rewrite E in IH.
Qed.

Lemma fill_lookup k seed i : (i < k)%nat ->
  (fill k seed).1 !! i = Some (Nat.iter (S i) lcg seed mod RAND_MAX).
Proof.
  revert seed i. induction k as [|k IH]; intros seed i Hi; [lia|]. cbn [fill].
  unfold __myrand. destruct (fill k (lcg seed)) as [l s''] eqn:E. cbn [fst].
  destruct i as [|i]; [done|]. cbn [lookup list_lookup].
  specialize (IH (lcg seed) i). rewrite E in IH. cbn [fst] in IH.
  etrans; [apply IH; lia|]. by rewrite <- Nat.iter_succ_r.
Qed.

(** The k-th pseudo-random integer of the program (counting from 0). *)
Definition draw (k : nat) : Z := Nat.iter (S (k mod table_len)) lcg 1 mod RAND_MAX.

Definition rng_at (k : nat) (s : rng_state) : Prop :=
  (k = 0%nat /\ s = rng_init) \/
  (need_init s = false /\ srendipity s = (fill table_len 1).1 /\
   rng_ptr s = Z.of_nat (k mod table_len)).

(** The generator states of the running program. *)
Definition rng_ok (s : rng_state) : Prop := exists k, rng_at k s.

Lemma table_len_pos : (0 < table_len)%nat.
Proof. pose proof table_len_Z. unfold _sz in *. change (Z.shiftl 1 25) with 33554432 in *. lia. Qed.

Lemma init_table_at k s : rng_at k s ->
  need_init (init_table s) = false /\ srendipity (init_table s) = (fill table_len 1).1 /\
  rng_ptr (init_table s) = Z.of_nat (k mod table_len).
Proof.
  intros [[-> ->]|(Hn & Ht & Hp)]; unfold init_table.
  - cbn [need_init rng_init rng_seed rng_ptr srendipity]. split_and!; [reflexivity..|].
    by rewrite Nat.Div0.mod_0_l.
  - rewrite Hn. split; [exact Hn|split; [exact Ht|exact Hp]].
Qed.

Lemma myrand_at k s : rng_at k s ->
  exists s', myrand s = (Ret (draw k), s') /\ rng_at (S k) s'.
Proof.
  intros H. destruct (init_table_at k s H) as (Hn & Ht & Hp).
  pose proof table_len_pos as Hpos. pose proof table_len_Z as HZ.
  pose proof (Nat.mod_upper_bound k table_len ltac:(lia)) as Hlt.
  unfold myrand. run. rewrite Ht, Hp. unfold lookupZ.
  replace (Z.of_nat (k mod table_len) <? 0) with false by (symmetry; apply Z.ltb_ge; lia).
  rewrite Nat2Z.id, fill_lookup by exact Hlt. run. fold (draw k). eexists. split; [reflexivity|]. right.
  cbn [need_init srendipity rng_ptr]. split_and!; [done..|].
  rewrite <- HZ, Z.add_1_r, <- Nat2Z.inj_succ, <- Nat2Z.inj_mod.
  rewrite <- (Nat.add_1_r (k mod _)), <- (Nat.add_1_r k).
  by rewrite Nat.Div0.add_mod_idemp_l.
Qed.

(** No draw is 0: the three seeds that give 0 are not among the first 2^25. *)
Lemma lcg_seed_avoids i t : 
  (1 <= i)%nat -> Z.of_nat i <= 2 ^ 25 -> t = 0 \/ t = 2147483647 \/ t = 4294967294 ->
  Nat.iter i lcg 1 <> t.
Proof.
  intros Hi1 Hi2 Ht Heq.
  assert (Hex : exists p, Zpos p <= 2 ^ 25 /\ aff_app (aff_pow p) 1 <> t /\
    aff_app (aff_pow p) 1 mod 2 ^ 25 = t mod 2 ^ 25).
  { destruct Ht as [->|[->| ->]];
      [exists 10792485%positive | exists 17987270%positive | exists 19443843%positive];
      vm_compute; done. }
  destruct Hex as (p & Hp & Hne & Hmod). rewrite <- lcg_jump in Hne, Hmod by done.
  set (j := Pos.to_nat p) in *. assert (Hj : Z.of_nat j = Zpos p) by apply positive_nat_Z.
  rewrite <- Heq in Hmod, Hne.
  destruct (Nat.lt_trichotomy i j) as [H|[->|H]]; [|done|].
  - apply (lcg_low_bits 25 (j - i) (Nat.iter i lcg 1)); [lia|lia|lia|by apply lcg_iter_range|].
    rewrite <- Nat.iter_add. by replace (j - i + i)%nat with j by lia.
  - apply (lcg_low_bits 25 (i - j) (Nat.iter j lcg 1)); [lia|lia|lia|by apply lcg_iter_range|].
    rewrite <- Nat.iter_add. by replace (i - j + j)%nat with i by lia.
Qed.

Lemma draw_range k : 1 <= draw k < RAND_MAX.
Proof.
  unfold draw. pose proof table_len_pos. pose proof table_len_Z as HZ. unfold _sz in HZ.
  change (Z.shiftl 1 25) with (2 ^ 25) in HZ.
  pose proof (Nat.mod_upper_bound k table_len ltac:(lia)) as Hlt.
  set (i := S (k mod table_len)). pose proof (lcg_iter_range i 1 ltac:(done)) as Hr.
  change (2 ^ 32) with 4294967296 in Hr.
  assert (Hav : forall t, t = 0 \/ t = 2147483647 \/ t = 4294967294 -> Nat.iter i lcg 1 <> t)
    by (intros; apply lcg_seed_avoids; lia).
  pose proof (Hav 0 ltac:(auto)). pose proof (Hav 2147483647 ltac:(auto)).
  pose proof (Hav 4294967294 ltac:(auto)).
  pose proof (Z.mod_pos_bound (Nat.iter i lcg 1) RAND_MAX eq_refl).
  destruct (decide (Nat.iter i lcg 1 mod RAND_MAX = 0)) as [E|]; [exfalso|lia].
  apply Z.mod_divide in E as [q Hq]; [|done]. unfold RAND_MAX in Hq. lia.
Qed.

(** ** The table [new_zipfgen] builds *)
Section table.
Context (pow : spec_float -> spec_float -> spec_float) (s : spec_float).
Let pow_ok (i : Z) : Prop := f64_pos (pow (f64_of_Z i) s).

Lemma harmonic_valid k i h :
  (forall j, i <= j < i + Z.of_nat k -> pow_ok j) -> f64_valid h ->
  f64_valid (harmonic pow s k i h).
Proof.
  revert i h. induction k as [|k IH]; intros i h Hp Hh; [done|]. cbn [harmonic].
  apply IH; [intros; apply Hp; lia|]. apply f64_add_ge; [done|]. apply f64_inv_valid.
  destruct (Hp i) as (m & e & -> & Hb); [lia|]. exact Hb.
Qed.

Definition nondecreasing (l : list Z) : Prop :=
  forall k x y, l !! k = Some x -> l !! S k = Some y -> x <= y.

Lemma cumulate_spec h k i c e0 t :
  (forall j, i <= j < i + Z.of_nat k -> pow_ok j) -> f64_valid h -> f64_valid c ->
  f_trunc (f64_mul c (f64_of_Z RAND_MAX)) = Some e0 ->
  cumulate pow s h k i c = Some t -> nondecreasing (e0 :: t) /\ length t = k.
Proof.
  intros Hp Hh. revert i c e0 t Hp. induction k as [|k IH]; intros i c e0 t Hp Hc He0 Ht.
  { injection Ht as <-. split; [|done]. by intros [|k] x y. }
  cbn [cumulate] in Ht. set (d := f64_div _ _) in Ht.
  assert (Hd : f64_valid d).
  { apply f64_inv_valid, f64_mul_valid_l; [apply Hp; lia|done]. }
  destruct (f64_add_ge c d Hc Hd) as [Hc' Hge]. set (c' := f64_add c d) in *.
  unfold f_to_int in Ht. destruct (f_trunc (f64_mul c' _)) as [e1|] eqn:He1; [|done].
  destruct (in_int e1); [|done].
  destruct (cumulate pow s h k (i + 1) c') as [t'|] eqn:Et; [|done].
  injection Ht as <-.
  destruct (IH (i + 1) c' e1 t') as [Hnd Hlen]; [intros; apply Hp; lia|done..|].
  split; [|cbn; lia]. intros [|j] x y; cbn; [|apply Hnd].
  intros [= <-] [= <-].
  eapply (f_trunc_mono (f64_mul c (f64_of_Z RAND_MAX)) (f64_mul c' (f64_of_Z RAND_MAX)));
    [| | |exact He0|exact He1].
  - apply f64_mul_valid; [done|by do 2 eexists|done].
  - apply f64_mul_valid; [done|by do 2 eexists|done].
  - apply f64_mul_mono; [done..|by do 2 eexists|done|done].
Qed.

Lemma new_zipfgen_table n z :
  1 <= n < 2 ^ 30 -> (forall j, 1 <= j <= n -> pow_ok j) ->
  new_zipfgen pow n s = Some z -> table_ok z /\ zg_n z = n.
Proof.
  intros Hn Hp. unfold new_zipfgen. case_if; [|done].
  set (h := harmonic _ _ _ _ _). destruct (cumulate _ _ _ _ _ _) as [t|] eqn:Et; [|done].
  intros [= <-]. apply (cumulate_spec h _ 1 _ 0) in Et as [Hnd Hlen]; [|..|done].
  2: { intros. apply Hp. lia. }
  2: { apply harmonic_valid; [|done]. intros. apply Hp. lia. }
  2: done.
  split; [|done]. constructor; cbn [zg_n c_probs].
  - done.
  - cbn [length]. lia.
  - done.
  - intros i x y Hi [_ Hx]%lookupZ_Some [_ Hy]%lookupZ_Some.
    replace (Z.to_nat (i + 1)) with (S (Z.to_nat i)) in Hy by lia. by eapply Hnd.
Qed.
End table.

(** The generator answers every draw of the program. *)
Lemma zipf_draw z rs top :
  table_ok z -> lookupZ (c_probs z) (zg_n z) = Some top -> RAND_MAX - 1 <= top -> rng_ok rs ->
  exists v rs', number_from_zipf_distribution z rs = (Ret v, rs') /\
    1 <= v <= zg_n z /\ rng_ok rs'.
Proof.
  intros Hz Htop Hle [k Hk]. destruct (myrand_at k rs Hk) as (rs' & Hr & Hk').
  destruct (zipf_search z Hz (draw k) rs') as (v & Hv & Hcase). exists v, rs'.
  split; [by unfold number_from_zipf_distribution; rewrite (run_bind _ _ _ _ _ Hr)|].
  split; [|by exists (S k)]. destruct Hcase as [[? _]|[_ Hno]]; [done|exfalso].
  pose proof (draw_range k) as Hd. pose proof (tok_n z Hz).
  (* the draw lies in (c_probs[0], c_probs[n]]; an entry reaches it first *)
  assert (Hex : forall m, (Z.of_nat m <= zg_n z) -> forall lo,
    lookupZ (c_probs z) (Z.of_nat m) = Some lo -> lo < draw k).
  { induction m as [|m IH]; intros Hm lo Hlo.
    - change (Z.of_nat 0) with 0 in Hlo. rewrite (tok_zero z Hz) in Hlo. simplify_eq. lia.
    - destruct (table_lookup z Hz (Z.of_nat m)) as [p Hp]; [lia|].
      specialize (IH ltac:(lia) p Hp). destruct (Z.lt_ge_cases lo (draw k)); [done|exfalso].
      apply (Hno (Z.of_nat (S m))). split; [lia|]. exists p, lo.
      replace (Z.of_nat (S m) - 1) with (Z.of_nat m) by lia. auto. }
  specialize (Hex (Z.to_nat (zg_n z)) ltac:(lia) top). rewrite Z2Nat.id in Hex by lia.
  specialize (Hex Htop). lia.
Qed.

(** ** Properties *)

(** C29: A draw is answered with its rank: for a well-formed table,
    [number_from_zipf_distribution] terminates without undefined behaviour
    and returns the unique [mid] in 1..n with
    [c_probs[mid-1] < rnd <= c_probs[mid]], or -1 exactly when the drawn
    integer [rnd] belongs to no rank. *)
Theorem number_from_zipf_rank z rs rnd rs' :
  table_ok z -> myrand rs = (Ret rnd, rs') ->
  exists v, number_from_zipf_distribution z rs = (Ret v, rs') /\
    (v = -1 /\ (forall mid, ~ has_rank z rnd mid) \/
     has_rank z rnd v /\ forall mid, has_rank z rnd mid -> mid = v).
Proof.
  intros Hz Hr. destruct (zipf_search z Hz rnd rs') as (v & Hv & Hcase).
  exists v. split; [by unfold number_from_zipf_distribution; rewrite (run_bind _ _ _ _ _ Hr)|].
  destruct Hcase as [H|[-> H]]; [right|by left].
  split; [done|]. intros mid Hm. by apply (has_rank_unique z Hz rnd).
Qed.

(** In the running program the generator never takes its failure exit:
    from every state its static variables can reach, with a table whose last
    entry is at least [RAND_MAX - 1], it returns a rank in 1..n (no draw of the
    program is 0, the one value that has no rank). *)
Theorem gen_never_fails z rs top :
  table_ok z -> lookupZ (c_probs z) (zg_n z) = Some top -> RAND_MAX - 1 <= top -> rng_ok rs ->
  exists v rs', number_from_zipf_distribution z rs = (Ret v, rs') /\
    1 <= v <= zg_n z /\ rng_ok rs'.
Proof. apply zipf_draw. Qed.

(** The linear congruential generator has full period: no seed repeats
    in fewer than 2^32 steps, and 2^32 steps return to it. *)
Theorem lcg_full_period x d :
  0 <= x < 2 ^ 32 -> 0 < d <= 2 ^ 32 ->
  Nat.iter (Z.to_nat d) lcg x = x <-> d = 2 ^ 32.
Proof.
  intros Hx Hd. split.
  - intros Heq. destruct (decide (d = 2 ^ 32)) as [|Hne]; [done|exfalso].
    apply (lcg_low_bits 32 (Z.to_nat d) x); [lia..|done|]. by rewrite Heq.
  - intros ->. destruct (lcg_Z_mult 32 1 x) as [t Ht].
    replace (Z.to_nat (2 ^ 32)) with (2 ^ 32 * 1)%nat.
    + rewrite lcg_iter_mod, Ht by done. change (Z.of_nat 32) with 32.
      change (Z.of_nat 1) with 1. change (32 + 1) with 33.
      replace (x + 2 ^ 32 * 1 + 2 ^ 33 * t) with (x + (1 + 2 * t) * 2 ^ 32)
        by (change (2 ^ 33) with (2 * 2 ^ 32); ring).
      rewrite Z.mod_add by done. by apply Z.mod_small.
    + apply Nat2Z.inj. rewrite Nat.mul_1_r, Z2Nat.id by done.
      rewrite Nat2Z.inj_pow. done.
Qed.

(** C38: The table built by [new_zipfgen] is well formed whenever the
    computation is defined: one entry per rank and one for rank 0, starting at 0
    and never decreasing, in spite of the rounding of every floating-point step. *)
Theorem new_zipfgen_sorted pow n s z :
  1 <= n < 2 ^ 30 -> (forall i, 1 <= i <= n -> f64_pos (pow (f64_of_Z i) s)) ->
  new_zipfgen pow n s = Some z -> table_ok z /\ zg_n z = n.
Proof. apply new_zipfgen_table. Qed.

(** Random integers repeat the first 2^25 outputs of the generator: the
    k-th call of [myrand] (counting from 0) returns output [k mod 2^25], which is
    in 1..RAND_MAX-1. *)
Theorem myrand_stream k rs :
  rng_at k rs -> exists rs', myrand rs = (Ret (draw k), rs') /\ rng_at (S k) rs' /\
    draw k = draw (k mod table_len) /\ 1 <= draw k < RAND_MAX.
Proof.
  intros H. destruct (myrand_at k rs H) as (rs' & Hr & H').
  exists rs'. split_and!; [done..| |apply draw_range|apply draw_range].
  unfold draw. by rewrite Nat.Div0.mod_mod.
Qed.

(** ** Witnesses *)

(** [pow (x, 2)], correctly rounded. *)
Definition pow_2 (x _ : spec_float) : spec_float := f64_mul x x.

Definition zipf3 : zipfgen :=
  {| c_probs := [0; 1577743087; 1972178859; 2147483646]; zg_h := harmonic pow_2 (f64_of_Z 2) 3 1 (S754_zero false);
     zg_s := f64_of_Z 2; zg_n := 3 |}.

Example zipf3_built : new_zipfgen pow_2 3 (f64_of_Z 2) = Some zipf3.
Proof. vm_compute. reflexivity. Qed.

Lemma zipf3_pow i : 1 <= i <= 3 -> f64_pos (pow_2 (f64_of_Z i) (f64_of_Z 2)).
Proof.
  intros Hi. assert (i = 1 \/ i = 2 \/ i = 3) as [->|[->| ->]] by lia;
    (eexists _, _; split; [vm_compute; reflexivity|vm_compute; reflexivity]).
Qed.

Lemma zipf3_ok : table_ok zipf3.
Proof. by eapply new_zipfgen_table; [| apply zipf3_pow | apply zipf3_built]. Qed.

Lemma number_from_zipf_rank_witness :
  exists v, number_from_zipf_distribution zipf3
      {| rng_seed := 7; need_init := false; srendipity := [1600000000]; rng_ptr := 0 |}
    = (Ret v, {| rng_seed := 7; need_init := false; srendipity := [1600000000]; rng_ptr := 1 |}) /\
    (v = -1 /\ (forall mid, ~ has_rank zipf3 1600000000 mid) \/
     has_rank zipf3 1600000000 v /\ forall mid, has_rank zipf3 1600000000 mid -> mid = v).
Proof. apply number_from_zipf_rank; [apply zipf3_ok | vm_compute; reflexivity]. Defined.

Lemma gen_never_fails_witness :
  exists v rs', number_from_zipf_distribution zipf3 rng_init = (Ret v, rs') /\
    1 <= v <= zg_n zipf3 /\ rng_ok rs'.
Proof.
  apply (gen_never_fails zipf3 rng_init 2147483646);
    [apply zipf3_ok | reflexivity | reflexivity || lia | exists 0%nat; left; split; reflexivity].
Defined.

Lemma lcg_full_period_witness : Nat.iter (Z.to_nat 5) lcg 1 = 1 <-> 5 = 2 ^ 32.
Proof. apply lcg_full_period; lia. Defined.

Lemma new_zipfgen_sorted_witness : table_ok zipf3 /\ zg_n zipf3 = 3.
Proof.
  apply (new_zipfgen_sorted pow_2 3 (f64_of_Z 2)); [lia | apply zipf3_pow | apply zipf3_built].
Defined.

Lemma myrand_stream_witness : exists rs', myrand rng_init = (Ret (draw 0), rs') /\
  rng_at 1 rs' /\ draw 0 = draw (0 mod table_len) /\ 1 <= draw 0 < RAND_MAX.
Proof. apply myrand_stream. left. split; reflexivity. Defined.
