(* ===== verification/Percentile.v ===== *)
(** * The latency histogram (utils/percentile.c, include/percentile.h)

    Buckets of logarithmic width: bucket [i] counts the values between
    sqrt(2)^i and sqrt(2)^(i+1). [add_number_to_p_hist] files a value,
    [get_percentile] interpolates a percentile from the cumulative counts.
    [log] and [pow] are the C library's, parameters. *)
From S2P Require Import Prelude CInt CFloat.

Record p_hist := {
  count_bucket : Z;
  count_values : Z;
  buckets : list Z;
}.

(** The two macros of percentile.c. *)
Definition r2 : spec_float := f64_lit 14142 10000.
Definition inv_log_r2 : spec_float := f64_lit 2885390082 1000000000.

Section percentile.
Variable log : spec_float -> spec_float.
Variable pow : spec_float -> spec_float -> spec_float.

Definition new_p_hist (count : Z) : option p_hist :=
  if 0 <=? count
  then Some {| count_bucket := count; count_values := 0; buckets := replicate (Z.to_nat count) 0 |}
  else None.

(** [int count_bucket = (log(max_value) * inv_log_r2) + 1;] *)
Definition new_p_hist_from_max_value (max_value : spec_float) : option p_hist :=
  match f_to_int (f64_add (f64_mul (log (f64_of_f32 max_value)) inv_log_r2) (f64_of_Z 1)) with
  | Some count => new_p_hist count
  | None => None
  end.

(** The bucket of a value before it is clamped to the last one. *)
Definition bucket_index (value : spec_float) : option Z :=
  if SFltb (f64_of_f32 value) r2 then Some 0
  else f_to_int (f64_mul (log (f64_of_f32 value)) inv_log_r2).

Definition add_number_to_p_hist (h : p_hist) (value : spec_float) : option p_hist :=
  index ← bucket_index value;
  let index := if index >=? count_bucket h then count_bucket h - 1 else index in
  b ← lookupZ (buckets h) index;
  b' ← int_chk (b + 1);
  bs ← insertZ index b' (buckets h);
  n ← int_chk (count_values h + 1);
  Some {| count_bucket := count_bucket h; count_values := n; buckets := bs |}.

(** The loop of [get_percentile]: index of the bucket it stops at and the
    cumulative fractions below ([y0]) and up to ([y1]) that bucket. *)
Fixpoint scan (y total : spec_float) (bs : list Z) (i : Z) (tmp y0 y1 : spec_float)
    : Z * spec_float * spec_float :=
  match bs with
  | [] => (i, y0, y1)
  | b :: bs =>
      let y0 := y1 in
      let tmp := f32_add tmp (f32_of_Z b) in
      let y1 := f32_div tmp total in
      if SFleb y y1 then (i, y0, y1) else scan y total bs (i + 1) tmp y0 y1
  end.

Definition bucket_bounds (i : Z) : spec_float * spec_float :=
  if i =? 0 then (f32_of_Z 0, f32_of_f64 r2)
  else (f32_of_f64 (pow r2 (f64_of_Z i)), f32_of_f64 (pow r2 (f64_of_Z (i + 1)))).

Definition get_percentile (h : p_hist) (percentile : spec_float) : spec_float :=
  let y := percentile in
  let total := f32_of_Z (count_values h) in
  let '(i, y0, y1) :=
    scan y total (buckets h) 0 (f32_of_Z 0) (f32_of_Z 0) (f32_of_Z 0) in
  let '(x0, x1) := bucket_bounds i in
  let x1 := if SFltb total x1 then total else x1 in
  f32_add x0 (f32_mul (f32_sub x1 x0) (f32_div (f32_sub y y0) (f32_sub y1 y0))).

(** ** The histogram invariant *)
Record hist_ok (h : p_hist) : Prop := {
  hok_len : Z.of_nat (length (buckets h)) = count_bucket h;
  hok_pos : 1 <= count_bucket h;
  hok_nonneg : Forall (fun b => 0 <= b) (buckets h);
  hok_sum : sum_Z (buckets h) = count_values h;
}.

(** What the code relies on of [log]: on the [float]s nearest the integers
    2..2^64 it is positive, below 128 and non-decreasing. *)
Record log_ok : Prop := {
  log_range : forall n, 2 <= n < 2 ^ 64 -> f64_lt_pow (log (f64_of_f32 (f32_of_Z n))) 7;
  log_mono : forall m n, 2 <= m <= n -> n < 2 ^ 64 ->
    f64_val (log (f64_of_f32 (f32_of_Z m))) <= f64_val (log (f64_of_f32 (f32_of_Z n)));
}.
Context (Hlog : log_ok).

Lemma sum_lookup_le (l : list Z) i b :
  Forall (fun b => 0 <= b) l -> l !! i = Some b -> b <= sum_Z l.
Proof.
  intros Hl. revert i. induction Hl as [|x l Hx Hl IH]; intros [|i] Hi; simplify_eq; simpl in *.
  - simplify_eq. pose proof (sum_Z_nonneg l Hl). lia.
  - specialize (IH _ Hi). lia.
Qed.

Lemma inv_log_r2_lt : f64_lt_pow inv_log_r2 2.
Proof. eexists _, _. split; [vm_compute; reflexivity|]. split; [reflexivity|by apply Z.leb_le]. Qed.

Lemma bucket_index_small n : 0 <= n <= 1 -> bucket_index (f32_of_Z n) = Some 0.
Proof. intros. assert (n = 0 \/ n = 1) as [->| ->] by lia; reflexivity. Qed.

Lemma bucket_index_range n :
  0 <= n < 2 ^ 64 -> exists i, bucket_index (f32_of_Z n) = Some i /\ 0 <= i <= 512.
Proof.
  intros Hn. destruct (Z.le_gt_cases n 1) as [|H2].
  { exists 0. split; [apply bucket_index_small|]; lia. }
  unfold bucket_index. case_if; [by exists 0; split; [|lia]|].
  destruct (f64_mul_trunc (log (f64_of_f32 (f32_of_Z n))) inv_log_r2 7 2) as (z & Hz & Hr);
    [done..|apply log_range; lia || done|apply inv_log_r2_lt|].
  change (2 ^ (7 + 2)) with 512 in Hr. exists z. split; [|lia].
  unfold f_to_int. rewrite Hz. unfold in_int, INT_MAX.
  change (- 2 ^ 31) with (-2147483648). change (2 ^ 31 - 1) with 2147483647.
  destruct (Z.leb_spec (-2147483648) z), (Z.leb_spec z 2147483647); done || lia.
Qed.

Lemma f64_lt_pow_valid x a : f64_lt_pow x a -> f64_valid x.
Proof. intros (m & e & -> & Hb & _). exact Hb. Qed.

(** *** Filing a value *)
Lemma in_int_512 i : 0 <= i <= 512 -> in_int i = true.
Proof. intros. unfold in_int, INT_MAX. apply andb_true_iff. rewrite !Z.leb_le. lia. Qed.

Definition clamp (h : p_hist) (i : Z) : Z := Z.min i (count_bucket h - 1).

Lemma add_number_spec h n :
  hist_ok h -> count_values h < INT_MAX -> 0 <= n < 2 ^ 64 ->
  exists i b h', bucket_index (f32_of_Z n) = Some i /\
    buckets h !! Z.to_nat (clamp h i) = Some b /\
    add_number_to_p_hist h (f32_of_Z n) = Some h' /\
    count_bucket h' = count_bucket h /\ count_values h' = count_values h + 1 /\
    buckets h' = <[Z.to_nat (clamp h i) := b + 1]> (buckets h) /\
    0 <= clamp h i < count_bucket h.
Proof.
  intros [Hlen Hpos Hnn Hsum] Hmax Hn.
  destruct (bucket_index_range n Hn) as (i & Hi & Hr).
  assert (Hc : 0 <= clamp h i < count_bucket h) by (unfold clamp; lia).
  destruct (lookupZ_is_Some (buckets h) (clamp h i)) as [b Hb]; [lia|].
  pose proof Hb as [_ Hb']%lookupZ_Some.
  assert (0 <= b <= count_values h).
  { rewrite <- Hsum. split; [by eapply Forall_lookup_1 in Hnn|by eapply sum_lookup_le]. }
  eexists i, b, _. split; [done|]. split; [done|].
  unfold add_number_to_p_hist. rewrite Hi. cbn [mbind option_bind].
  replace (if i >=? count_bucket h then count_bucket h - 1 else i) with (clamp h i)
    by (unfold clamp; destruct (Z.geb_spec i (count_bucket h)); lia).
  change INT_MAX with 2147483647 in Hmax.
  rewrite Hb. cbn [mbind option_bind]. rewrite (int_chk_Some (b + 1)) by lia. cbn [mbind option_bind].
  assert (Hins : insertZ (clamp h i) (b + 1) (buckets h)
    = Some (<[Z.to_nat (clamp h i) := b + 1]> (buckets h))) by (apply insertZ_Some; split; [lia|done]).
  rewrite Hins. cbn [mbind option_bind]. rewrite int_chk_Some by (pose proof (sum_Z_nonneg _ Hnn); lia).
  cbn [mbind option_bind]. split_and!; done || lia.
Qed.

Lemma hist_ok_add h i b h' :
  hist_ok h -> 0 <= i < count_bucket h -> buckets h !! Z.to_nat i = Some b ->
  count_bucket h' = count_bucket h -> count_values h' = count_values h + 1 ->
  buckets h' = <[Z.to_nat i := b + 1]> (buckets h) -> hist_ok h'.
Proof.
  intros [Hlen Hpos Hnn Hsum] Hi Hb E1 E2 E3. constructor; rewrite ?E1, ?E2, ?E3.
  - by rewrite length_insert.
  - done.
  - apply Forall_insert; [done|]. eapply Forall_lookup_1 in Hnn; [|done]. lia.
  - rewrite (sum_Z_insert _ _ b) by done. lia.
Qed.

Lemma r2_below n : 2 <= n < 2 ^ 64 -> SFltb (f64_of_f32 (f32_of_Z n)) r2 = false.
Proof.
  intros Hn. destruct (f32_of_Z_ge n 1) as (Hv & Ni & Hge); [lia..|].
  destruct (f64_of_f32_spec _ Hv Ni) as [Hv2 Hval].
  unfold SFltb. rewrite (SFcompare_fv 53 1024 K64) by done.
  unfold f64_val in Hval. rewrite Hval.
  assert (Hr2 : fv 1024 K64 r2 < 2 ^ (1 - K64)) by (apply Z.ltb_lt; vm_compute; reflexivity).
  destruct (Z.compare_spec (fv 128 K64 (f32_of_Z n)) (fv 1024 K64 r2)); [done| |done].
  exfalso. lia.
Qed.

Lemma bucket_index_mono m n i j :
  0 <= m <= n -> n < 2 ^ 64 ->
  bucket_index (f32_of_Z m) = Some i -> bucket_index (f32_of_Z n) = Some j -> i <= j.
Proof.
  intros Hmn Hn Hi Hj.
  destruct (bucket_index_range n) as (j' & Hj' & Hr); [lia|]. simplify_eq.
  destruct (Z.le_gt_cases m 1); [rewrite bucket_index_small in Hi by lia; simplify_eq; lia|].
  unfold bucket_index in Hi, Hj. rewrite r2_below in Hi, Hj by lia.
  unfold f_to_int in Hi, Hj.
  destruct (f_trunc (f64_mul (log (f64_of_f32 (f32_of_Z m))) inv_log_r2)) as [zi|] eqn:Ei; [|done].
  destruct (f_trunc (f64_mul (log (f64_of_f32 (f32_of_Z n))) inv_log_r2)) as [zj|] eqn:Ej; [|done].
  destruct (in_int zi); [|done]. destruct (in_int zj); [|done]. simplify_eq.
  pose proof (f64_lt_pow_valid _ _ (log_range Hlog m ltac:(lia))) as Vm.
  pose proof (f64_lt_pow_valid _ _ (log_range Hlog n ltac:(lia))) as Vn.
  pose proof (f64_lt_pow_valid _ _ inv_log_r2_lt) as Vc.
  eapply f_trunc_mono; [| | |exact Ei|exact Ej].
  - apply f64_mul_valid; [done|by do 2 eexists|done].
  - apply f64_mul_valid; [done|by do 2 eexists|done].
  - apply f64_mul_mono; [done..|by do 2 eexists|done|]. apply log_mono; [done|lia|done].
Qed.

(** *** The cumulative scan *)
Lemma scan_spec y total bs i tmp y0 y1 :
  let '(k, lo, hi) := scan y total bs i tmp y0 y1 in
  i <= k <= i + Z.of_nat (length bs) /\
  (k < i + Z.of_nat (length bs) -> SFleb y hi = true).
Proof.
  revert i tmp y0 y1. induction bs as [|b bs IH]; intros i tmp y0 y1; cbn [scan length]; [lia|].
  case_if; [split; [lia|done]|].
  specialize (IH (i + 1) (f32_add tmp (f32_of_Z b)) y1 (f32_div (f32_add tmp (f32_of_Z b)) total)).
  destruct (scan _ _ _ _ _ _ _) as [[k lo] hi]. rewrite Nat2Z.inj_succ.
  split; [lia|]. intros. apply IH. lia.
Qed.

(** With the count below 2^24 the float sums are exact: entering bucket
    [i], [tmp] is the number of values below it, and the scan stops at the
    first bucket whose cumulative fraction reaches [y]. *)
Definition fraction (c n : Z) : spec_float := f32_div (f32_of_Z c) (f32_of_Z n).

Lemma scan_exact y n bs i c y0 y1 :
  0 <= c -> Forall (fun b => 0 <= b) bs -> c + sum_Z bs = n -> n <= 2 ^ 24 ->
  y1 = fraction c n ->
  let '(k, lo, hi) := scan y (f32_of_Z n) bs i (f32_of_Z c) y0 y1 in
  (forall j, (Z.of_nat j < k - i) ->
     SFleb y (fraction (c + sum_Z (take (S j) bs)) n) = false) /\
  (k < i + Z.of_nat (length bs) ->
     lo = fraction (c + sum_Z (take (Z.to_nat (k - i)) bs)) n /\
     hi = fraction (c + sum_Z (take (S (Z.to_nat (k - i))) bs)) n) /\
  (k = i + Z.of_nat (length bs) -> (0 < length bs)%nat -> SFleb y (fraction n n) = false).
Proof.
  intros Hc Hbs. revert i c y0 y1 Hc. induction Hbs as [|b bs Hb Hbs IH]; intros i c y0 y1 Hc Hsum Hn Hy1.
  - cbn [scan length]. split_and!; intros; simpl in *; lia.
  - cbn [scan length]. cbn [sum_Z foldr] in Hsum. fold (sum_Z bs) in Hsum.
    pose proof (sum_Z_nonneg bs Hbs) as Hs.
    rewrite f32_add_of_Z by lia. fold (fraction (c + b) n).
    destruct (SFleb y (fraction (c + b) n)) eqn:E.
    + split; [intros; lia|]. split; [|intros; lia]. intros _.
      rewrite Z.sub_diag. cbn. rewrite !Z.add_0_r. by rewrite Hy1.
    + specialize (IH (i + 1) (c + b) y1 (fraction (c + b) n) ltac:(lia) ltac:(lia) Hn eq_refl).
      pose proof (scan_spec y (f32_of_Z n) bs (i + 1) (f32_of_Z (c + b)) y1 (fraction (c + b) n)) as Hk.
      destruct (scan _ _ _ _ _ _ _) as [[k lo] hi]. destruct IH as (I1 & I2 & I3).
      rewrite Nat2Z.inj_succ. split_and!.
      * intros [|j] Hj; [cbn; by rewrite Z.add_0_r|].
        specialize (I1 j ltac:(lia)). rewrite <- Z.add_assoc in I1. exact I1.
      * intros Hlt. destruct (I2 ltac:(lia)) as [-> ->].
        replace (Z.to_nat (k - i)) with (S (Z.to_nat (k - (i + 1)))) by lia.
        by rewrite <- !Z.add_assoc.
      * intros Hk' _. destruct bs as [|b' bs].
        { cbn in Hsum. replace n with (c + b) at 1 by lia. by replace (c + b + 0) with n in * by lia. }
        apply I3; [lia|cbn; lia].
Qed.
Lemma fraction_0 n : 0 < n <= 2 ^ 24 -> f32_of_Z 0 = fraction 0 n.
Proof.
  intros Hn. destruct (f32_of_Z_spec n) as (Hv & E & Hi); [lia|]. unfold fraction.
  destruct (f32_of_Z n) as [[]|[]| |[] m e]; try done.
  cbn [fv] in E. assert (0 < n * 2 ^ (- K64)) by (apply Z.mul_pos_pos; [lia|done]). lia.
Qed.

(** ** Properties *)

(** C31: Filing a value keeps the histogram well formed: it is defined for
    every 64-bit latency, counts one value more, and increments exactly one
    bucket, the logarithmic one clamped to the last. *)
Theorem add_number_correct h n :
  hist_ok h -> count_values h < INT_MAX -> 0 <= n < 2 ^ 64 ->
  exists i b h', bucket_index (f32_of_Z n) = Some i /\
    add_number_to_p_hist h (f32_of_Z n) = Some h' /\ hist_ok h' /\
    count_values h' = count_values h + 1 /\ count_bucket h' = count_bucket h /\
    buckets h !! Z.to_nat (clamp h i) = Some b /\
    buckets h' = <[Z.to_nat (clamp h i) := b + 1]> (buckets h).
Proof.
  intros Hok Hmax Hn.
  destruct (add_number_spec h n Hok Hmax Hn) as (i & b & h' & ? & Hb & ? & Hc & Hv & Hbs & Hr).
  exists i, b, h'. split_and!; try done. by eapply hist_ok_add.
Qed.

(** Buckets respect the order of latencies: of two values, the larger
    never goes to a lower bucket, in spite of the rounding of every
    floating-point step. *)
Theorem bucket_index_ordered m n :
  0 <= m <= n -> n < 2 ^ 64 ->
  exists i j, bucket_index (f32_of_Z m) = Some i /\ bucket_index (f32_of_Z n) = Some j /\
    0 <= i <= j.
Proof.
  intros Hmn Hn. destruct (bucket_index_range m) as (i & Hi & ?); [lia|].
  destruct (bucket_index_range n) as (j & Hj & ?); [lia|]. exists i, j.
  pose proof (bucket_index_mono m n i j Hmn Hn Hi Hj). split_and!; done || lia.
Qed.

(** C30: [get_percentile] interpolates in the right bucket: for a non-empty
    histogram of at most 2^24 values and a requested fraction the float 1
    reaches, its loop stops inside the array at the first bucket whose cumulative
    fraction reaches the request, with the fractions below and up to that bucket
    as the interpolation bounds. *)
Theorem get_percentile_bucket h y :
  hist_ok h -> 0 < count_values h <= 2 ^ 24 -> SFleb y (f32_of_Z 1) = true ->
  exists k, 0 <= k < count_bucket h /\
    let n := count_values h in
    let below := fraction (sum_Z (take (Z.to_nat k) (buckets h))) n in
    let upto := fraction (sum_Z (take (S (Z.to_nat k)) (buckets h))) n in
    SFleb y upto = true /\
    (forall j, 0 <= j < k ->
      SFleb y (fraction (sum_Z (take (S (Z.to_nat j)) (buckets h))) n) = false) /\
    get_percentile h y =
      let '(x0, x1) := bucket_bounds k in
      let x1 := if SFltb (f32_of_Z n) x1 then f32_of_Z n else x1 in
      f32_add x0 (f32_mul (f32_sub x1 x0) (f32_div (f32_sub y below) (f32_sub upto below))).
Proof.
  intros [Hlen Hpos Hnn Hsum] Hn Hy. set (n := count_values h) in *.
  pose proof (scan_exact y n (buckets h) 0 0 (f32_of_Z 0) (f32_of_Z 0)
    ltac:(lia) Hnn Hsum ltac:(lia) (fraction_0 n Hn)) as Hex.
  pose proof (scan_spec y (f32_of_Z n) (buckets h) 0 (f32_of_Z 0) (f32_of_Z 0) (f32_of_Z 0)) as Hsc.
  unfold get_percentile. fold n.
  destruct (scan _ _ _ _ _ _ _) as [[k lo] hi]. destruct Hex as (H1 & H2 & H3), Hsc as [Hk Hs].
  assert (Hlt : k < count_bucket h).
  { destruct (Z.lt_ge_cases k (count_bucket h)); [done|exfalso].
    assert (Hf : SFleb y (fraction n n) = false) by (apply H3; lia).
    unfold fraction in Hf. rewrite (f32_div_self n Hn) in Hf. congruence. }
  destruct (H2 ltac:(lia)) as [-> ->]. rewrite !Z.sub_0_r in *.
  exists k. split; [lia|]. cbn zeta. split; [apply Hs; lia|]. split; [|done].
  intros j Hj. specialize (H1 (Z.to_nat j) ltac:(lia)). exact H1.
Qed.

(** C32: An empty histogram has no percentiles: [get_percentile] returns NaN. *)
Theorem get_percentile_empty count h y :
  1 <= count -> new_p_hist count = Some h -> get_percentile h y = S754_nan.
Proof.
  intros Hc Hh. unfold new_p_hist in Hh. destruct (Z.leb_spec 0 count); [|lia]. simplify_eq.
  unfold get_percentile. cbn [count_values buckets].
  assert (Hscan : forall m i y0 y1, (0 < m)%nat -> exists k,
    scan y (f32_of_Z 0) (replicate m 0) i (f32_of_Z 0) y0 y1
    = (k, S754_nan, S754_nan) \/ scan y (f32_of_Z 0) (replicate m 0) i (f32_of_Z 0) y0 y1
    = (k, y1, S754_nan)).
  { induction m as [|m IH]; intros i y0 y1 Hm; [lia|]. cbn [replicate scan].
    change (f32_div (f32_add (f32_of_Z 0) (f32_of_Z 0)) (f32_of_Z 0)) with S754_nan.
    change (f32_add (f32_of_Z 0) (f32_of_Z 0)) with (f32_of_Z 0).
    assert (SFleb y S754_nan = false) as -> by (by destruct y).
    destruct m as [|m]; [exists (i + 1); by right|].
    destruct (IH (i + 1) y1 S754_nan ltac:(lia)) as [k [->| ->]]; exists k; by left. }
  destruct (Hscan (Z.to_nat count) 0 (f32_of_Z 0) (f32_of_Z 0)) as [k Hk]; [lia|].
  assert (Hsub : forall v, f32_sub v S754_nan = S754_nan /\ f32_sub S754_nan v = S754_nan)
    by (intros [[]|[]| |[] ? ?]; done).
  assert (Hnan : forall v, f32_div v S754_nan = S754_nan /\ f32_mul v S754_nan = S754_nan
    /\ f32_add v S754_nan = S754_nan) by (intros [[]|[]| |[] ? ?]; done).
  destruct Hk as [-> | ->]; destruct (bucket_bounds k) as [x0 x1];
    repeat (rewrite (proj2 (Hsub _)) || rewrite (proj1 (Hsub _)) || rewrite (proj1 (Hnan _))
            || rewrite (proj1 (proj2 (Hnan _)))); apply Hnan.
Qed.
End percentile.

(** 1.4142^24 in single precision, about 4095.06. *)
Definition r2_24 : spec_float := f32_of_f64 (Nat.iter 24 (f64_mul r2) (f64_of_Z 1)).

(** C33: The clamp of the upper bound compares a latency with the number of
    values: a histogram that was given the single value 5000 (bucket 24, from
    4095 up) reports a 99th percentile below 42. *)
Theorem get_percentile_clamps_to_count log pow count h h' :
  25 <= count -> new_p_hist count = Some h ->
  bucket_index log (f32_of_Z 5000) = Some 24 ->
  f32_of_f64 (pow r2 (f64_of_Z 24)) = r2_24 ->
  SFltb (f32_of_Z 1) (f32_of_f64 (pow r2 (f64_of_Z 25))) = true ->
  add_number_to_p_hist log h (f32_of_Z 5000) = Some h' ->
  SFltb (get_percentile pow h' (f32_of_f64 (f64_lit 99 100))) (f32_of_Z 42) = true.
Proof.
  intros Hc Hh Hi Hx0 Hx1. unfold new_p_hist in Hh. destruct (Z.leb_spec 0 count); [|lia]. injection Hh as <-.
  unfold add_number_to_p_hist. rewrite Hi. cbn [mbind option_bind count_bucket count_values buckets].
  destruct (Z.geb_spec 24 count); [lia|].
  replace (Z.to_nat count) with (24 + S (Z.to_nat count - 25))%nat by lia.
  rewrite replicate_add, (replicate_S (Z.to_nat count - 25)).
  assert (Hl : forall rest : list Z, lookupZ (replicate 24 0 ++ 0 :: rest) 24 = Some 0
    /\ insertZ 24 1 (replicate 24 0 ++ 0 :: rest) = Some (replicate 24 0 ++ 1 :: rest)).
  { intros rest. split; [apply lookupZ_Some|apply insertZ_Some].
    - by split.
    - split; [|done]. rewrite length_app, length_replicate. simpl length. lia. }
  destruct (Hl (replicate (Z.to_nat count - 25) 0)) as [-> Hins]. cbn [mbind option_bind].
  change (int_chk (0 + 1)) with (Some 1). cbn [mbind option_bind]. rewrite Hins. cbn [mbind option_bind].
  intros [= <-]. unfold get_percentile. cbn [count_values buckets].
  assert (Hscan : forall rest, scan (f32_of_f64 (f64_lit 99 100)) (f32_of_Z 1)
    (replicate 24 0 ++ 1 :: rest) 0 (f32_of_Z 0) (f32_of_Z 0) (f32_of_Z 0)
    = (24, f32_of_Z 0, f32_of_Z 1)) by (intros; vm_compute; reflexivity).
  cbn [app replicate] in Hscan |- *. rewrite Hscan. unfold bucket_bounds. change (24 =? 0) with false. change (24 + 1) with 25. cbv iota.
  rewrite Hx0, Hx1. vm_compute. reflexivity.
Qed.

(** ** Witnesses

    A logarithm for evaluation: the laws allow a constant. *)
Definition log_const (x : spec_float) : spec_float := f64_of_Z 1.

Lemma log_const_ok : log_ok log_const.
Proof.
  constructor; [|by intros]. intros n _. unfold log_const.
  eexists _, _. split; [vm_compute; reflexivity|]. split; [reflexivity|by apply Z.leb_le].
Qed.

Definition hist3 : p_hist := {| count_bucket := 3; count_values := 4; buckets := [1; 2; 1] |}.

Lemma hist3_ok : hist_ok hist3.
Proof. constructor; [done|by apply Z.leb_le| |done]. repeat constructor; by apply Z.leb_le. Qed.

Lemma add_number_correct_witness : exists i b h', bucket_index log_const (f32_of_Z 5) = Some i /\
  add_number_to_p_hist log_const hist3 (f32_of_Z 5) = Some h' /\ hist_ok h' /\
  count_values h' = count_values hist3 + 1 /\ count_bucket h' = count_bucket hist3 /\
  buckets hist3 !! Z.to_nat (clamp hist3 i) = Some b /\
  buckets h' = <[Z.to_nat (clamp hist3 i) := b + 1]> (buckets hist3).
Proof. apply (add_number_correct log_const log_const_ok); [apply hist3_ok|done|done]. Defined.

Lemma bucket_index_ordered_witness : exists i j, bucket_index log_const (f32_of_Z 1) = Some i /\
  bucket_index log_const (f32_of_Z 5) = Some j /\ 0 <= i <= j.
Proof. apply (bucket_index_ordered log_const log_const_ok); done. Defined.

Lemma get_percentile_bucket_witness : exists k, 0 <= k < 3 /\
  SFleb (f32_of_f64 (f64_lit 1 2)) (fraction (sum_Z (take (S (Z.to_nat k)) [1; 2; 1])) 4) = true.
Proof.
  destruct (get_percentile_bucket (fun _ => id) hist3 (f32_of_f64 (f64_lit 1 2)))
    as (k & Hk & Hy & _); [apply hist3_ok|done|reflexivity|]. exists k. split; [exact Hk|exact Hy].
Defined.

Lemma get_percentile_empty_witness :
  get_percentile (fun _ => id) {| count_bucket := 2; count_values := 0; buckets := [0; 0] |}
    (f32_of_Z 1) = S754_nan.
Proof. apply (get_percentile_empty _ 2); done. Defined.

(** Powers of 1.4142 by repeated multiplication, and a logarithm that is right
    at 5000. *)
Definition pow_iter (x i : spec_float) : spec_float :=
  match f_to_int i with Some k => Nat.iter (Z.to_nat k) (f64_mul x) (f64_of_Z 1) | None => S754_nan end.
Definition log_5000 (x : spec_float) : spec_float := f64_lit 8517193 1000000.

Lemma get_percentile_clamps_to_count_witness : exists h h', new_p_hist 40 = Some h /\
  add_number_to_p_hist log_5000 h (f32_of_Z 5000) = Some h' /\
  SFltb (get_percentile pow_iter h' (f32_of_f64 (f64_lit 99 100))) (f32_of_Z 42) = true.
Proof.
  eexists _, _. split; [reflexivity|]. split; [vm_compute; reflexivity|].
  eapply (get_percentile_clamps_to_count log_5000 pow_iter 40);
    [done|reflexivity|vm_compute; reflexivity..].
Defined.
