(* ===== verification/Dpdk.v ===== *)
(** * The machine: DPDK, its buffers and the outside world

    The sources call DPDK for packet buffers, queues and clocks. DPDK itself is
    not part of the repository, so it is a parameter: [DpdkLib] holds the pure
    functions and constants, [DpdkEnv] what depends on the outside world (the
    clock, the queues of the network card, the memory pools, the flag another
    thread clears). [DpdkLaws] and [EnvLaws] state the documented behaviour the
    sources rely on. [machine] is the state of a program over them: the buffers
    it owns, its random numbers, and the trace of what it received, sent and
    printed and of what it read of the clock and of the flag.

    Header structures are the wire formats of Ethernet, IEEE 802.1Q, RFC 791,
    768, 793 and 826, which DPDK's packed structures follow; a field is named by
    its offset. The processor is little-endian. *)
From stdpp Require Export strings.
From S2P Require Import Prelude CInt Monad Zipf.
#[global] Open Scope Z_scope.

(** ** Header layouts (offsets and sizes in bytes) *)
Definition RTE_ETHER_ADDR_LEN : Z := 6.
Definition RTE_ETHER_HDR_LEN : Z := 14.
Definition sizeof_vlan_hdr : Z := 4.
Definition sizeof_ipv4_hdr : Z := 20.
Definition sizeof_udp_hdr : Z := 8.
Definition sizeof_tcp_hdr : Z := 20.
Definition sizeof_arp_hdr : Z := 28.
Definition eth_dst : Z := 0.
Definition eth_src : Z := 6.
Definition eth_type : Z := 12.
Definition ip_total_length : Z := 2.
Definition ip_proto : Z := 9.
Definition ip_cksum : Z := 10.
Definition ip_src : Z := 12.
Definition ip_dst : Z := 16.
Definition l4_src_port : Z := 0.
Definition l4_dst_port : Z := 2.
Definition udp_len : Z := 4.
Definition udp_cksum : Z := 6.
Definition arp_hardware : Z := 0.
Definition arp_protocol : Z := 2.
Definition arp_hlen : Z := 4.
Definition arp_plen : Z := 5.
Definition arp_opcode : Z := 6.
Definition arp_sha : Z := 8.
Definition arp_sip : Z := 14.
Definition arp_tha : Z := 18.
Definition arp_tip : Z := 24.

Definition RTE_ETHER_TYPE_IPV4 : Z := 0x0800.
Definition RTE_ETHER_TYPE_ARP : Z := 0x0806.
Definition RTE_ETHER_TYPE_VLAN : Z := 0x8100.
Definition RTE_ARP_HRD_ETHER : Z := 1.
Definition RTE_ARP_OP_REQUEST : Z := 1.
Definition RTE_ARP_OP_REPLY : Z := 2.
Definition IPPROTO_IPIP : Z := 4.
Definition IPPROTO_TCP : Z := 6.
Definition IPPROTO_UDP : Z := 17.
Definition RTE_TCP_PSH_FLAG : Z := 0x08.
Definition RTE_TCP_ACK_FLAG : Z := 0x10.

(** ** Packet buffers

    [mb_room] is the memory of the buffer from its data start to its end (data
    and tailroom), [data_len] how much of it is packet data. *)
Notation ether_addr := (list Z) (only parsing).

Record mbuf := Mbuf {
  mb_room : list Z;
  data_len : Z;
  l2_len : Z;
  l3_len : Z;
  ol_flags : Z;
}.
#[global] Instance mbuf_eq_dec : EqDecision mbuf.
Proof. solve_decision. Defined.

Definition set_room (r : list Z) (b : mbuf) : mbuf :=
  Mbuf r (data_len b) (l2_len b) (l3_len b) (ol_flags b).

(** What is on the wire. *)
Definition mb_data (b : mbuf) : list Z := take (Z.to_nat (data_len b)) (mb_room b).

(** ** Interfaces *)
Class DpdkLib := {
  rte_cpu_to_be_16 : Z -> Z;
  rte_cpu_to_be_32 : Z -> Z;
  rte_be_to_cpu_16 : Z -> Z;
  rte_be_to_cpu_32 : Z -> Z;
  rte_is_same_ether_addr : ether_addr -> ether_addr -> bool;
  rte_is_broadcast_ether_addr : ether_addr -> bool;
  (* offset of the appended bytes, [None] for NULL *)
  mbuf_append : Z -> mbuf -> option Z * mbuf;
  rte_ipv4_cksum : list Z -> Z;            (* of an IPv4 header *)
  rte_ipv4_udptcp_cksum : list Z -> list Z -> Z;  (* of a datagram *)
  RTE_MBUF_F_TX_IP_CKSUM : Z;
  RTE_MBUF_F_TX_IPV4 : Z;
  RTE_MBUF_F_TX_UDP_CKSUM : Z;
  RTE_MBUF_F_TX_TCP_CKSUM : Z;
}.

Class DpdkLaws `{DpdkLib} : Prop := {
  cpu_to_be_16_spec : forall x, rte_cpu_to_be_16 x = bswap16 x;
  cpu_to_be_32_spec : forall x, rte_cpu_to_be_32 x = bswap32 x;
  be_to_cpu_16_spec : forall x, rte_be_to_cpu_16 x = bswap16 x;
  be_to_cpu_32_spec : forall x, rte_be_to_cpu_32 x = bswap32 x;
  is_same_ether_addr_spec : forall a b, rte_is_same_ether_addr a b = bool_decide (a = b);
  is_broadcast_spec : forall a, rte_is_broadcast_ether_addr a = bool_decide (a = replicate 6 255);
  mbuf_append_spec : forall n b, 0 <= n ->
    mbuf_append n b =
      if data_len b + n <=? Z.of_nat (length (mb_room b))
      then (Some (data_len b), Mbuf (mb_room b) (data_len b + n) (l2_len b) (l3_len b) (ol_flags b))
      else (None, b);
}.

(** [W] is the state of the outside world; every call moves it on. *)
Class DpdkEnv (W : Type) := {
  timer_hz : Z;
  timer_cycles : W -> Z * W;
  tsc_cycles : W -> Z * W;
  rx_burst : Z -> Z -> Z -> W -> list mbuf * W;     (* port, queue, at most so many *)
  tx_burst : Z -> Z -> list mbuf -> W -> Z * W;     (* how many of them were taken *)
  pool_alloc : Z -> W -> option mbuf * W;
  pool_alloc_bulk : Z -> Z -> W -> option (list mbuf) * W;
  macaddr : Z -> ether_addr;
  still_running : W -> bool * W;                    (* the flag other threads clear *)
}.

(** The data room of a buffer from a pool made with RTE_MBUF_DEFAULT_BUF_SIZE. *)
Definition RTE_MBUF_DEFAULT_DATAROOM : Z := 2048.

Definition room_ok (b : mbuf) : Prop :=
  Z.of_nat (length (mb_room b)) = RTE_MBUF_DEFAULT_DATAROOM /\ Forall byte_ok (mb_room b).
Definition fresh_ok (b : mbuf) : Prop := room_ok b /\ data_len b = 0.

Class EnvLaws W `{DpdkEnv W} : Prop := {
  hz_pos : 0 < timer_hz < 2 ^ 40;
  timer_range : forall w, 0 <= (timer_cycles w).1 < 2 ^ 64;
  rx_count : forall p q n w, Z.of_nat (length (rx_burst p q n w).1) <= Z.max 0 n;
  rx_ok : forall p q n w, Forall room_ok (rx_burst p q n w).1;
  tx_count : forall p q bs w, 0 <= (tx_burst p q bs w).1 <= Z.of_nat (length bs);
  alloc_ok : forall pool w b, (pool_alloc pool w).1 = Some b -> fresh_ok b;
  alloc_bulk_ok : forall pool n w bs, (pool_alloc_bulk pool n w).1 = Some bs ->
    Z.of_nat (length bs) = n /\ Forall fresh_ok bs;
  macaddr_ok : forall p, length (macaddr p) = 6%nat /\ Forall byte_ok (macaddr p);
}.

(** ** The machine *)

(** What the program did and what the outside world answered it: a theorem reads
    the clock, the flag and the card off the trace of the run it is about. *)
Inductive event :=
| EvRx (port queue : Z) (pkts : list mbuf)
| EvTx (port queue : Z) (pkts refused : list mbuf)   (* what the card took, and what it did not *)
| EvClock (cycles : Z)                               (* a reading of the timer *)
| EvPoll (run : bool)                                (* a look at the flag *)
| EvNoMbufs (pool n : Z)                             (* a pool that did not have [n] buffers *)
| EvSleep (seconds : Z)
| EvPrint (what : string) (args : list Z)
| EvPort (call : string) (args : list Z).         (* configuration of the card, launching workers *)

Record machine (W : Type) := Machine {
  world : W;
  heap : gmap nat mbuf;     (* the buffers the program owns *)
  next : nat;               (* the next fresh buffer *)
  rng : rng_state;          (* the statics of zipf.c *)
  trace : list event;       (* oldest first *)
}.
Arguments Machine {W}. Arguments world {W}. Arguments heap {W}.
Arguments next {W}. Arguments rng {W}. Arguments trace {W}.

Definition with_world {W} (w : W) (s : machine W) :=
  Machine w (heap s) (next s) (rng s) (trace s).
Definition with_heap {W} (h : gmap nat mbuf) (s : machine W) :=
  Machine (world s) h (next s) (rng s) (trace s).
Definition with_rng {W} (r : rng_state) (s : machine W) :=
  Machine (world s) (heap s) (next s) r (trace s).
Definition log_events {W} (evs : list event) (s : machine W) :=
  Machine (world s) (heap s) (next s) (rng s) (trace s ++ evs).
Definition log_event {W} (e : event) : machine W -> machine W := log_events [e].

(** Buffers numbered from [n]. *)
Fixpoint insert_from (n : nat) (bs : list mbuf) (h : gmap nat mbuf) : gmap nat mbuf :=
  match bs with [] => h | b :: bs => <[n := b]> (insert_from (S n) bs h) end.
Definition delete_all (ps : list nat) (h : gmap nat mbuf) : gmap nat mbuf :=
  foldr delete h ps.
Definition receive_bufs {W} (bs : list mbuf) (s : machine W) :=
  Machine (world s) (insert_from (next s) bs (heap s)) (next s + length bs) (rng s) (trace s).

(** ** One buffer: reads, writes, appending *)
Definition mread (off n : Z) : M mbuf (list Z) :=
  b ← get;
  demand (if 0 <=? off then (mb_room b).[Z.to_nat off, Z.to_nat n] else None).
Definition mwrite (off : Z) (bs : list Z) : M mbuf unit :=
  b ← get;
  r ← demand (if 0 <=? off then (mb_room b).[Z.to_nat off :<- bs] else None);
  put (set_room r b).
(** A field of [n] bytes in the byte order of the processor. *)
Definition mload (n off : Z) : M mbuf Z := bs ← mread off n; mret (le_combine bs).
Definition mstore (n off v : Z) : M mbuf unit := mwrite off (le_split (Z.to_nat n) v).

Definition set_l2_len (v : Z) : M mbuf unit :=
  modify (fun b => Mbuf (mb_room b) (data_len b) v (l3_len b) (ol_flags b)).
Definition set_l3_len (v : Z) : M mbuf unit :=
  modify (fun b => Mbuf (mb_room b) (data_len b) (l2_len b) v (ol_flags b)).
Definition set_ol_flags (v : Z) : M mbuf unit :=
  modify (fun b => Mbuf (mb_room b) (data_len b) (l2_len b) (l3_len b) v).

Definition rte_pktmbuf_append `{DpdkLib} (n : Z) : M mbuf (option Z) := fun b =>
  let '(off, b') := mbuf_append n b in (Ret off, b').

(** ** The calls of the program, over the whole machine *)
Section operations.
Context {W : Type} `{DpdkEnv W}.

(** A buffer that is not owned (freed, or given to the card) must not be
    touched. *)
Definition owned (p : nat) : M (machine W) mbuf := s ← get; demand (heap s !! p).
Definition on_mbuf {A} (p : nat) (m : M mbuf A) : M (machine W) A := fun s =>
  match heap s !! p with
  | Some b => let '(o, b') := m b in (o, with_heap (<[p := b']> (heap s)) s)
  | None => (Stop Undef, s)
  end.

Definition on_world {A} (f : W -> A * W) : M (machine W) A := fun s =>
  let '(a, w) := f (world s) in (Ret a, with_world w s).
Definition rte_get_timer_hz : Z := timer_hz.
Definition rte_get_timer_cycles : M (machine W) Z :=
  t ← on_world timer_cycles; _ ← modify (log_event (EvClock t)); mret t.
Definition rte_get_tsc_cycles : M (machine W) Z := on_world tsc_cycles.
Definition poll_running : M (machine W) bool :=
  run ← on_world still_running; _ ← modify (log_event (EvPoll run)); mret run.
Definition printf (what : string) (args : list Z) : M (machine W) unit :=
  modify (log_event (EvPrint what args)).
Definition sleep (n : Z) : M (machine W) unit := modify (log_event (EvSleep n)).
Definition rte_eth_macaddr_get (port : Z) : ether_addr := macaddr port.

(** The pointers of the received buffers. *)
Definition rte_eth_rx_burst (port queue n : Z) : M (machine W) (list nat) :=
  bs ← on_world (rx_burst port queue n);
  s ← get;
  _ ← put (log_event (EvRx port queue bs) (receive_bufs bs s));
  mret (seq (next s) (length bs)).

(** The card takes a prefix of the burst; the rest stays with the caller. *)
Definition rte_eth_tx_burst (port queue : Z) (ps : list nat) : M (machine W) Z :=
  s ← get;
  bs ← demand (mapM (fun p => heap s !! p) ps);
  n ← on_world (tx_burst port queue bs);
  _ ← modify (fun s => log_event (EvTx port queue (take (Z.to_nat n) bs) (drop (Z.to_nat n) bs))
    (with_heap (delete_all (take (Z.to_nat n) ps) (heap s)) s));
  mret n.

Definition rte_pktmbuf_free (p : nat) : M (machine W) unit :=
  _ ← owned p; modify (fun s => with_heap (delete p (heap s)) s).

(** [None] is NULL. *)
Definition rte_pktmbuf_alloc (pool : Z) : M (machine W) (option nat) :=
  r ← on_world (pool_alloc pool);
  match r with
  | None => mret None
  | Some b => s ← get; _ ← put (receive_bufs [b] s); mret (Some (next s))
  end.
(** [None] is a non-zero return: nothing was allocated. *)
Definition rte_pktmbuf_alloc_bulk (pool n : Z) : M (machine W) (option (list nat)) :=
  r ← on_world (pool_alloc_bulk pool n);
  match r with
  | None => _ ← modify (log_event (EvNoMbufs pool n)); mret None
  | Some bs => s ← get; _ ← put (receive_bufs bs s); mret (Some (seq (next s) (length bs)))
  end.

(** [myrand] and the samplers keep their state in zipf.c. *)
Definition on_rng {A} (m : M rng_state A) : M (machine W) A := zoom rng with_rng m.
End operations.

(** ** The heap *)

(** Pointers are never reused: every owned buffer is older than [next]. *)
Definition heap_ok {W} (s : machine W) : Prop :=
  forall p, is_Some (heap s !! p) -> (p < next s)%nat.

Lemma heap_fresh {W} (s : machine W) : heap_ok s -> heap s !! next s = None.
Proof.
  intros Hs. destruct (heap s !! next s) eqn:E; [|done].
  specialize (Hs (next s) ltac:(by eexists)). lia.
Qed.

Lemma lookup_insert_from n bs h p :
  insert_from n bs h !! p =
    if (n <=? p)%nat then match bs !! (p - n)%nat with Some b => Some b | None => h !! p end
    else h !! p.
Proof.
  revert n. induction bs as [|b bs IH]; intros n; cbn [insert_from].
  - rewrite lookup_nil. by case_if.
  - destruct (decide (p = n)) as [->|Hne].
    + rewrite lookup_insert_eq, Nat.sub_diag. case_if; [done|lia].
    + rewrite lookup_insert_ne, IH by done. repeat case_if; try lia; try done.
      replace (p - n)%nat with (S (p - S n)) by lia. done.
Qed.

Lemma insert_from_bound n bs h p m :
  (forall q, is_Some (h !! q) -> (q < n)%nat) -> (n + length bs <= m)%nat ->
  is_Some (insert_from n bs h !! p) -> (p < m)%nat.
Proof.
  intros Hh Hm [b Hb]. rewrite lookup_insert_from in Hb. destruct (Nat.leb_spec n p).
  - destruct (bs !! (p - n)%nat) eqn:E; [apply lookup_lt_Some in E; lia|]. specialize (Hh p ltac:(by eexists)). lia.
  - specialize (Hh p ltac:(by eexists)). lia.
Qed.

Lemma delete_all_lookup ps h p :
  delete_all ps h !! p = if decide (p ∈ ps) then None else h !! p.
Proof.
  induction ps as [|q ps IH]; [done|]. cbn [delete_all foldr]. fold (delete_all ps h).
  destruct (decide (p = q)) as [->|Hne].
  - rewrite lookup_delete_eq, decide_True; [done|set_solver].
  - rewrite lookup_delete_ne, IH by done.
    by repeat case_decide; set_solver.
Qed.

Lemma delete_all_app ps qs h : delete_all (ps ++ qs) h = delete_all ps (delete_all qs h).
Proof. by unfold delete_all; rewrite foldr_app. Qed.

(** Receiving and giving all of it back leaves the heap as it was. *)
Lemma delete_insert_from n bs h :
  (forall p, is_Some (h !! p) -> (p < n)%nat) ->
  delete_all (seq n (length bs)) (insert_from n bs h) = h.
Proof.
  intros Hh. apply map_eq. intros p. rewrite delete_all_lookup. case_decide as Hp.
  - rewrite elem_of_seq in Hp. destruct (h !! p) eqn:E; [|done].
    specialize (Hh p ltac:(by eexists)). lia.
  - rewrite lookup_insert_from. case_if; [|done].
    rewrite lookup_ge_None_2; [done|]. rewrite elem_of_seq in Hp. lia.
Qed.

Lemma delete_insert_from_1 k b bs h :
  (forall p, is_Some (h !! p) -> (p < k)%nat) ->
  delete k (insert_from k (b :: bs) h) = insert_from (S k) bs h.
Proof.
  intros Hh. cbn [insert_from]. apply delete_insert_id. rewrite lookup_insert_from.
  case_if; [lia|]. destruct (h !! k) eqn:E; [|done]. specialize (Hh k ltac:(by eexists)). lia.
Qed.

Lemma insert_from_keep k b b' bs h :
  <[k := b']> (insert_from k (b :: bs) h) = insert_from (S k) bs (<[k := b']> h).
Proof.
  apply map_eq. intros p. cbn [insert_from]. rewrite insert_insert_eq.
  destruct (decide (p = k)) as [->|Hne].
  - rewrite lookup_insert_eq, lookup_insert_from. case_if; [lia|]. by rewrite lookup_insert_eq.
  - rewrite lookup_insert_ne, !lookup_insert_from, lookup_insert_ne by done. done.
Qed.

(** Changing one of the buffers received. *)
Lemma insert_from_update k i b bs h :
  (i < length bs)%nat -> <[(k + i)%nat := b]> (insert_from k bs h) = insert_from k (<[i := b]> bs) h.
Proof.
  intros Hi. apply map_eq. intros p. destruct (decide (p = k + i)%nat) as [->|Hne].
  - rewrite lookup_insert_eq, lookup_insert_from. case_if; [|lia].
    replace (k + i - k)%nat with i by lia. by rewrite list_lookup_insert_eq.
  - rewrite lookup_insert_ne, !lookup_insert_from by done. case_if; [|done].
    by rewrite list_lookup_insert_ne by lia.
Qed.

(** The buffers [kb] are held at the pointers [kp], over the heap [h0]. *)
Definition points_to (h : gmap nat mbuf) (p : nat) (b : mbuf) : Prop := h !! p = Some b.
Definition holds (kp : list nat) (kb : list mbuf) (h h0 : gmap nat mbuf) : Prop :=
  NoDup kp /\ Forall2 (points_to h) kp kb /\ delete_all kp h = h0.

Lemma points_to_ext h h' kp kb :
  (forall p, p ∈ kp -> h' !! p = h !! p) -> Forall2 (points_to h) kp kb -> Forall2 (points_to h') kp kb.
Proof.
  intros Hext. induction 1 as [|p b kp kb Hp _ IH]; constructor.
  - unfold points_to in *. rewrite Hext; [done|left].
  - apply IH. intros q Hq. apply Hext. by right.
Qed.

Lemma holds_nil h : holds [] [] h h.
Proof. split_and!; [constructor|constructor|done]. Qed.

Lemma holds_lookup kp kb h h0 p : holds kp kb h h0 -> p ∈ kp -> is_Some (h !! p).
Proof.
  intros (_ & Hm & _) Hp. apply list_elem_of_lookup in Hp as [i Hi].
  destruct (Forall2_lookup_l _ _ _ _ _ Hm Hi) as (b & _ & Hb). by exists b.
Qed.

Lemma holds_mapM kp kb h h0 : holds kp kb h h0 -> mapM (fun p => h !! p) kp = Some kb.
Proof. intros (_ & Hm & _). by apply mapM_Some. Qed.

Lemma holds_snoc kp kb h h0 p b :
  holds kp kb h h0 -> h !! p = None -> holds (kp ++ [p]) (kb ++ [b]) (<[p := b]> h) h0.
Proof.
  intros Hh Hp. assert (Hni : p ∉ kp).
  { intros Hin. destruct (holds_lookup _ _ _ _ _ Hh Hin). congruence. }
  destruct Hh as (Hnd & Hm & Hd). split_and!.
  - apply list.NoDup_app. split_and!; [done| |apply NoDup_singleton].
    intros q Hq ->%list_elem_of_singleton. done.
  - apply Forall2_app; [|constructor; [apply lookup_insert_eq|constructor]].
    eapply points_to_ext; [|exact Hm]. intros q Hq. apply lookup_insert_ne. by intros ->.
  - rewrite delete_all_app. cbn [delete_all foldr]. by rewrite delete_insert_id.
Qed.

Lemma delete_all_comm ps qs h : delete_all ps (delete_all qs h) = delete_all qs (delete_all ps h).
Proof.
  apply map_eq. intros p. rewrite !delete_all_lookup. by repeat case_decide.
Qed.

Lemma holds_drop n kp kb h h0 :
  holds kp kb h h0 -> holds (drop n kp) (drop n kb) (delete_all (take n kp) h) h0.
Proof.
  intros (Hnd & Hm & Hd). rewrite <- (take_drop n kp) in Hnd. apply list.NoDup_app in Hnd as (_ & Hdisj & Hnd).
  split_and!; [done| |].
  - eapply points_to_ext; [|by apply Forall2_drop].
    intros p Hp. rewrite delete_all_lookup. case_decide; [|done]. exfalso. by eapply Hdisj.
  - rewrite delete_all_comm, <- delete_all_app, take_drop. exact Hd.
Qed.

Lemma holds_length kp kb h h0 : holds kp kb h h0 -> length kp = length kb.
Proof. intros (_ & Hm & _). by eapply Forall2_length. Qed.

(** What is received is held over the heap before. *)
Lemma holds_receive n bs h :
  (forall p, is_Some (h !! p) -> (p < n)%nat) ->
  holds (seq n (length bs)) bs (insert_from n bs h) h.
Proof.
  intros Hh. split_and!; [apply NoDup_seq| |by apply delete_insert_from].
  apply Forall2_same_length_lookup_2; [by rewrite length_seq|]. intros i p b Hp Hb.
  apply lookup_seq in Hp as [-> Hi]. unfold points_to. rewrite lookup_insert_from.
  case_if; [|lia]. by replace (n + i - n)%nat with i by lia; rewrite Hb.
Qed.

Lemma heap_ok_receive {W} (bs : list mbuf) (s : machine W) : heap_ok s -> heap_ok (receive_bufs bs s).
Proof.
  intros Hs p. by apply insert_from_bound.
Qed.

Lemma heap_ok_sub {W} (s s' : machine W) :
  heap_ok s -> (next s <= next s')%nat -> dom (heap s') ⊆ dom (heap s) -> heap_ok s'.
Proof.
  intros Hs Hn Hd p Hp. apply elem_of_dom in Hp. specialize (Hs p).
  rewrite <- elem_of_dom in Hs. specialize (Hs (Hd _ Hp)). lia.
Qed.

(** ** Evaluating buffer code *)
Lemma bind_mwrite {A} off bs (f : unit -> M mbuf A) b r :
  0 <= off -> (mb_room b).[Z.to_nat off :<- bs] = Some r ->
  (mwrite off bs ≫= f) b = f tt (set_room r b).
Proof.
  intros Hoff Hr. unfold mwrite. run. apply Z.leb_le in Hoff. rewrite Hoff, Hr. by run.
Qed.

Lemma bind_mread {A} off n (f : list Z -> M mbuf A) b bs :
  0 <= off -> (mb_room b).[Z.to_nat off, Z.to_nat n] = Some bs ->
  (mread off n ≫= f) b = f bs b.
Proof.
  intros Hoff Hr. unfold mread. run. apply Z.leb_le in Hoff. rewrite Hoff, Hr. by run.
Qed.

(** With the bytes in question named. *)
Lemma bind_mwrite_at {A} a m l off bs (f : unit -> M mbuf A) b :
  mb_room b = a ++ m ++ l -> off = Z.of_nat (length a) -> length m = length bs ->
  (mwrite off bs ≫= f) b = f tt (set_room (a ++ bs ++ l) b).
Proof. intros Hr -> Hm. apply bind_mwrite; [lia|]. rewrite Hr, Nat2Z.id. by apply patch_exact. Qed.

Lemma bind_mread_at {A} a m l off n (f : list Z -> M mbuf A) b :
  mb_room b = a ++ m ++ l -> off = Z.of_nat (length a) -> n = Z.of_nat (length m) ->
  (mread off n ≫= f) b = f m b.
Proof. intros Hr -> ->. apply bind_mread; [lia|]. rewrite Hr, !Nat2Z.id. by apply slice_exact. Qed.

Lemma bind_mload {A} n off (f : Z -> M mbuf A) b bs :
  0 <= off -> (mb_room b).[Z.to_nat off, Z.to_nat n] = Some bs ->
  (mload n off ≫= f) b = f (le_combine bs) b.
Proof. intros. unfold mload. rewrite bind_assoc. by rewrite (bind_mread _ _ _ _ bs). Qed.

Lemma bind_append `{DpdkLaws} {A} n (f : option Z -> M mbuf A) b :
  0 <= n -> data_len b + n <= Z.of_nat (length (mb_room b)) ->
  (rte_pktmbuf_append n ≫= f) b =
    f (Some (data_len b)) (Mbuf (mb_room b) (data_len b + n) (l2_len b) (l3_len b) (ol_flags b)).
Proof.
  intros Hn Hfit. unfold mbind, M_bind, rte_pktmbuf_append. rewrite mbuf_append_spec by done.
  apply Z.leb_le in Hfit. by rewrite Hfit.
Qed.

(** Storing a swapped field stores it in network byte order. *)
Section stores.
Context `{DpdkLaws}.

Lemma mstore_be16 off v : mstore 2 off (rte_cpu_to_be_16 v) = mwrite off (be_split 2 v).
Proof. unfold mstore. rewrite cpu_to_be_16_spec. by rewrite <- le_split_bswap16. Qed.
Lemma mstore_be32 off v : mstore 4 off (rte_cpu_to_be_32 v) = mwrite off (be_split 4 v).
Proof. unfold mstore. rewrite cpu_to_be_32_spec. by rewrite <- le_split_bswap32. Qed.

Lemma bind_mstore_be16 {A} off v (f : unit -> M mbuf A) b r :
  0 <= off -> (mb_room b).[Z.to_nat off :<- be_split 2 v] = Some r ->
  (mstore 2 off (rte_cpu_to_be_16 v) ≫= f) b = f tt (set_room r b).
Proof. rewrite mstore_be16. apply bind_mwrite. Qed.
Lemma bind_mstore_be32 {A} off v (f : unit -> M mbuf A) b r :
  0 <= off -> (mb_room b).[Z.to_nat off :<- be_split 4 v] = Some r ->
  (mstore 4 off (rte_cpu_to_be_32 v) ≫= f) b = f tt (set_room r b).
Proof. rewrite mstore_be32. apply bind_mwrite. Qed.
Lemma bind_mstore {A} n off v (f : unit -> M mbuf A) b r :
  0 <= off -> (mb_room b).[Z.to_nat off :<- le_split (Z.to_nat n) v] = Some r ->
  (mstore n off v ≫= f) b = f tt (set_room r b).
Proof. apply bind_mwrite. Qed.
End stores.

(** Storing a loaded field copies its bytes. *)
Lemma mstore_raw n off bs :
  Z.of_nat (length bs) = n -> Forall byte_ok bs -> mstore n off (le_combine bs) = mwrite off bs.
Proof. intros <- Hbs. unfold mstore. rewrite Nat2Z.id. by rewrite le_split_combine. Qed.

(** The last operation of a block, too, is followed by something. *)
Lemma run_tail {A} (m : M mbuf A) b : m b = (m ≫= mret) b.
Proof. unfold mbind, M_bind. by destruct (m b) as [[]]. Qed.

(** The memory of a buffer as [n] named bytes and the rest. *)
Lemma room_split n (r : list Z) :
  (n <= length r)%nat -> exists hd tl, r = hd ++ tl /\ length hd = n /\ length tl = (length r - n)%nat.
Proof.
  intros Hn. exists (take n r), (drop n r).
  rewrite take_drop, length_take, length_drop. split_and!; lia || done.
Qed.

(** Evaluates a straight line of appends, reads and writes on a buffer whose
    first bytes are named. *)
Ltac layout :=
  cbv delta [RTE_ETHER_ADDR_LEN RTE_ETHER_HDR_LEN sizeof_vlan_hdr sizeof_ipv4_hdr sizeof_udp_hdr
    sizeof_tcp_hdr sizeof_arp_hdr eth_dst eth_src eth_type ip_total_length ip_proto ip_cksum ip_src
    ip_dst l4_src_port l4_dst_port udp_len udp_cksum arp_hardware arp_protocol arp_hlen arp_plen
    arp_opcode arp_sha arp_sip arp_tha arp_tip RTE_MBUF_DEFAULT_DATAROOM] in *.
Ltac ground_offsets :=
  repeat match goal with
  | |- context [Z.to_nat ?z] =>
      let v := eval vm_compute in (Z.to_nat z) in
      lazymatch v with O => idtac | S _ => idtac end; change (Z.to_nat z) with v
  end.
Ltac buf_room := cbn [mb_room set_room]; ground_offsets; unfold patch, slice; cbn; reflexivity.
Ltac buf_fit := cbn [data_len mb_room set_room]; rewrite ?length_app, ?drop_0; cbn [length app]; lia.
Ltac buf_step :=
  first
  [ rewrite bind_demand | rewrite bind_modify | rewrite bind_ret | rewrite run_ret | rewrite bind_assoc
  | rewrite bind_append; [|cbn; lia|buf_fit]
  | erewrite bind_mstore_be16; [|cbn; lia|buf_room]
  | erewrite bind_mstore_be32; [|cbn; lia|buf_room]
  | erewrite bind_mstore; [|cbn; lia|buf_room]
  | erewrite bind_mwrite; [|cbn; lia|buf_room]
  | erewrite bind_mread; [|cbn; lia|buf_room]
  | erewrite bind_mload; [|cbn; lia|buf_room]
  | rewrite (run_tail (mwrite _ _)) | rewrite (run_tail (mstore _ _ _)) ];
  cbn [data_len mb_room set_room l2_len l3_len ol_flags].

(** ** Postconditions of the calls *)
Section rules.
Context {W : Type} `{EnvLaws W}.
Implicit Types (s : machine W) (E : reason -> machine W -> Prop).

Lemma with_heap_id s : with_heap (heap s) s = s.
Proof. by destruct s. Qed.

Lemma wp_on_world {A} (f : W -> A * W) Q E s :
  Q (f (world s)).1 (with_world (f (world s)).2 s) -> wp (on_world f) Q E s.
Proof. unfold wp, on_world. by destruct (f (world s)). Qed.

(** The rules for the clock and the flag tell what was read and leave it in the
    trace. *)
Lemma wp_get_timer_cycles Q E s :
  (forall t w, 0 <= t < 2 ^ 64 -> timer_cycles (world s) = (t, w) -> Q t (log_event (EvClock t) (with_world w s))) ->
  wp rte_get_timer_cycles Q E s.
Proof.
  intros HQ. unfold rte_get_timer_cycles. apply wp_bind, wp_on_world.
  pose proof (timer_range (world s)) as Ht. destruct (timer_cycles (world s)) as [t w]. by apply wp_bind, HQ.
Qed.

Lemma wp_poll_running Q E s :
  (forall b w, still_running (world s) = (b, w) -> Q b (log_event (EvPoll b) (with_world w s))) -> wp poll_running Q E s.
Proof.
  intros HQ. unfold poll_running. apply wp_bind, wp_on_world. destruct (still_running (world s)) as [b w].
  by apply wp_bind, HQ.
Qed.

Lemma wp_printf what args Q E s :
  Q tt (log_event (EvPrint what args) s) -> wp (printf what args) Q E s.
Proof. done. Qed.
Lemma wp_sleep n Q E s : Q tt (log_event (EvSleep n) s) -> wp (sleep n) Q E s.
Proof. done. Qed.

Lemma wp_on_mbuf {A} p (m : M mbuf A) b a b' Q E s :
  heap s !! p = Some b -> m b = (Ret a, b') ->
  Q a (with_heap (<[p := b']> (heap s)) s) -> wp (on_mbuf p m) Q E s.
Proof. intros Hp Hm HQ. unfold wp, on_mbuf. by rewrite Hp, Hm. Qed.

Lemma log_events_nil s : log_events [] s = s.
Proof. destruct s. unfold log_events. cbn. by rewrite app_nil_r. Qed.
Lemma log_events_app e1 e2 s : log_events e2 (log_events e1 s) = log_events (e1 ++ e2) s.
Proof. unfold log_events. cbn. by rewrite app_assoc. Qed.

(** Reading a buffer changes nothing. *)
Lemma wp_on_mbuf_read {A} p (m : M mbuf A) b a Q E s :
  heap s !! p = Some b -> m b = (Ret a, b) -> Q a s -> wp (on_mbuf p m) Q E s.
Proof.
  intros Hp Hm HQ. eapply wp_on_mbuf; [done..|]. by rewrite insert_id, with_heap_id by done.
Qed.

Lemma wp_free p b Q E s :
  heap s !! p = Some b -> Q tt (with_heap (delete p (heap s)) s) ->
  wp (rte_pktmbuf_free p) Q E s.
Proof.
  intros Hp HQ. unfold rte_pktmbuf_free, owned. apply wp_bind, wp_bind. unfold wp, get.
  by rewrite Hp.
Qed.

(** Freeing every buffer that is held. *)
Lemma wp_free_all kp kb h0 Q E s :
  holds kp kb (heap s) h0 -> Q tt (with_heap h0 s) ->
  wp (forM kp (fun p _ => rte_pktmbuf_free p) tt) Q E s.
Proof.
  revert kb s. induction kp as [|p kp IH]; intros kb s Hh HQ.
  - destruct Hh as (_ & _ & Hh). cbn in Hh. apply wp_ret. rewrite <- Hh, with_heap_id in HQ. exact HQ.
  - destruct kb as [|b kb]; [by apply holds_length in Hh|]. cbn [forM]. wp_step.
    pose proof Hh as (_ & Hm & _). inversion_clear Hm as [|? ? ? ? Hp].
    eapply wp_free; [exact Hp|]. apply (holds_drop 1) in Hh. cbn in Hh.
    by apply (IH kb).
Qed.

Lemma wp_alloc pool Q E s :
  (forall w, Q None (with_world w s)) ->
  (forall w b, fresh_ok b -> Q (Some (next s)) (receive_bufs [b] (with_world w s))) ->
  wp (rte_pktmbuf_alloc pool) Q E s.
Proof.
  intros HN HS. unfold rte_pktmbuf_alloc, on_world. apply wp_bind. unfold wp at 1.
  pose proof (alloc_ok pool (world s)) as Hok.
  destruct (pool_alloc pool (world s)) as [[b|] w]; [|apply HN]. cbn in Hok.
  apply (HS w b). by apply Hok.
Qed.

Lemma wp_alloc_bulk pool n Q E s :
  (forall w, Q None (log_event (EvNoMbufs pool n) (with_world w s))) ->
  (forall w bs, Z.of_nat (length bs) = n -> Forall fresh_ok bs ->
    Q (Some (seq (next s) (length bs))) (receive_bufs bs (with_world w s))) ->
  wp (rte_pktmbuf_alloc_bulk pool n) Q E s.
Proof.
  intros HN HS. unfold rte_pktmbuf_alloc_bulk, on_world. apply wp_bind. unfold wp at 1.
  pose proof (alloc_bulk_ok pool n (world s)) as Hok.
  destruct (pool_alloc_bulk pool n (world s)) as [[bs|] w]; [|by apply wp_bind, wp_ret, HN]. cbn in Hok.
  destruct (Hok bs eq_refl). by apply (HS w bs).
Qed.

Lemma wp_rx port queue n Q E s :
  (forall w bs, Z.of_nat (length bs) <= Z.max 0 n -> Forall room_ok bs ->
    rx_burst port queue n (world s) = (bs, w) ->
    Q (seq (next s) (length bs))
      (log_event (EvRx port queue bs) (receive_bufs bs (with_world w s)))) ->
  wp (rte_eth_rx_burst port queue n) Q E s.
Proof.
  intros HQ. unfold rte_eth_rx_burst, on_world. apply wp_bind. unfold wp at 1.
  pose proof (rx_count port queue n (world s)). pose proof (rx_ok port queue n (world s)).
  destruct (rx_burst port queue n (world s)) as [bs w] eqn:E2. by apply (HQ w bs).
Qed.

Lemma wp_tx port queue ps bs Q E s :
  mapM (fun p => heap s !! p) ps = Some bs ->
  (forall w n, 0 <= n <= Z.of_nat (length bs) ->
    Q n (log_event (EvTx port queue (take (Z.to_nat n) bs) (drop (Z.to_nat n) bs))
          (with_heap (delete_all (take (Z.to_nat n) ps) (heap s)) (with_world w s)))) ->
  wp (rte_eth_tx_burst port queue ps) Q E s.
Proof.
  intros Hbs HQ. unfold rte_eth_tx_burst, on_world. apply wp_bind. unfold wp at 1, get.
  rewrite Hbs. apply wp_bind, wp_ret, wp_bind. unfold wp at 1.
  pose proof (tx_count port queue bs (world s)).
  destruct (tx_burst port queue bs (world s)) as [n w]. by apply (HQ w n).
Qed.

(** A loop over a received burst whose body frees the buffer it is given. [I]
    says what the loop-carried value and the events are after a prefix of the
    burst. *)
Lemma wp_each_freed {X} (body : nat -> X -> M (machine W) X) (I : list mbuf -> list event -> X -> Prop)
    bs k0 h0 x0 (Q : X -> machine W -> Prop) E s :
  Forall room_ok bs -> heap s = insert_from k0 bs h0 -> (forall p, is_Some (h0 !! p) -> (p < k0)%nat) ->
  (k0 + length bs <= next s)%nat -> I [] [] x0 ->
  (forall pre b post evs p x s1, bs = pre ++ b :: post -> heap_ok s1 -> heap s1 !! p = Some b -> room_ok b ->
    I pre evs x -> trace s1 = trace s ++ evs ->
    wp (body p x) (fun x' s' => (next s1 <= next s')%nat /\ heap s' = delete p (heap s1) /\
      rng s' = rng s1 /\ exists e, trace s' = trace s1 ++ e /\ I (pre ++ [b]) (evs ++ e) x') E s1) ->
  (forall x s' evs, I bs evs x -> heap s' = h0 -> (next s <= next s')%nat -> rng s' = rng s ->
    trace s' = trace s ++ evs -> Q x s') ->
  wp (forM (seq k0 (length bs)) body x0) Q E s.
Proof.
  intros Hrooms Hheap Hh0 Hnext HI Hbody HQ.
  apply (wp_forM (fun lst x s1 => exists pre post evs, bs = pre ++ post /\
    lst = seq (k0 + length pre) (length post) /\ heap s1 = insert_from (k0 + length pre) post h0 /\
    (next s <= next s1)%nat /\ rng s1 = rng s /\ trace s1 = trace s ++ evs /\ I pre evs x)).
  - exists [], bs, []. rewrite !Nat.add_0_r, app_nil_r. by split_and!.
  - intros p lst x s1 (pre & [|b post] & evs & Hbs & Hlst & Hs1 & Hn1 & Hr1 & Ht1 & HI1); [done|].
    cbn [length seq] in Hlst. injection Hlst as -> ->. rewrite Hbs, length_app in Hnext. cbn [length] in Hnext.
    assert (Hfresh : forall q, is_Some (h0 !! q) -> (q < k0 + length pre)%nat) by (intros q Hq; specialize (Hh0 q Hq); lia).
    eapply wp_mono; [eapply (Hbody pre b post evs); try done| |done].
    + intros q. rewrite Hs1. apply insert_from_bound; [done|cbn; lia].
    + rewrite Hs1. apply lookup_insert_eq.
    + rewrite Hbs in Hrooms. apply Forall_app in Hrooms as [_ Hrooms]. by inversion Hrooms.
    + intros x' s2 (En & Eh & Er & e & Et & HI2). exists (pre ++ [b]), post, (evs ++ e).
      rewrite length_app, Nat.add_1_r, Nat.add_succ_r, Et, Ht1, Eh, Hs1, Er, <- !app_assoc.
      split_and!; try done; [by apply delete_insert_from_1|lia].
  - intros x s1 (pre & [|b post] & evs & Hbs & Hlst & Hs1 & Hn1 & Hr1 & Ht1 & HI1); [|done].
    rewrite app_nil_r in Hbs. subst pre. eapply HQ; done.
Qed.
End rules.

(** ** What a run received and sent *)
Definition received (tr : list event) : list mbuf :=
  tr ≫= fun e => match e with EvRx _ _ bs => bs | _ => [] end.
Definition sent (tr : list event) : list mbuf :=
  tr ≫= fun e => match e with EvTx _ _ bs _ => bs | _ => [] end.
(** What was offered to the card: what it took and what it did not. *)
Definition offered (tr : list event) : list mbuf :=
  tr ≫= fun e => match e with EvTx _ _ bs rs => bs ++ rs | _ => [] end.
(** The readings of the timer, and what the flag said. *)
Definition clocks (tr : list event) : list Z := omap (fun e => match e with EvClock t => Some t | _ => None end) tr.
Definition polls (tr : list event) : list bool := omap (fun e => match e with EvPoll b => Some b | _ => None end) tr.
(** Neither the timer nor the flag was read. *)
Definition untimed (tr : list event) : Prop := clocks tr = [] /\ polls tr = [].

Lemma received_app t1 t2 : received (t1 ++ t2) = received t1 ++ received t2.
Proof. apply bind_app. Qed.
Lemma sent_app t1 t2 : sent (t1 ++ t2) = sent t1 ++ sent t2.
Proof. apply bind_app. Qed.
Lemma received_one e : received [e] = match e with EvRx _ _ bs => bs | _ => [] end.
Proof. destruct e; cbn; by rewrite ?app_nil_r. Qed.
Lemma sent_one e : sent [e] = match e with EvTx _ _ bs _ => bs | _ => [] end.
Proof. destruct e; cbn; by rewrite ?app_nil_r. Qed.
Lemma offered_app t1 t2 : offered (t1 ++ t2) = offered t1 ++ offered t2.
Proof. apply bind_app. Qed.
Lemma offered_one e : offered [e] = match e with EvTx _ _ bs rs => bs ++ rs | _ => [] end.
Proof. destruct e; cbn; by rewrite ?app_nil_r. Qed.
Lemma clocks_app t1 t2 : clocks (t1 ++ t2) = clocks t1 ++ clocks t2.
Proof. apply omap_app. Qed.
Lemma polls_app t1 t2 : polls (t1 ++ t2) = polls t1 ++ polls t2.
Proof. apply omap_app. Qed.
#[export] Hint Rewrite received_app sent_app received_one sent_one offered_app offered_one clocks_app polls_app : cnet.

Lemma untimed_app t1 t2 : untimed t1 -> untimed t2 -> untimed (t1 ++ t2).
Proof. intros [C1 P1] [C2 P2]. split; autorewrite with cnet; [by rewrite C1, C2|by rewrite P1, P2]. Qed.

(** ** Fields of a received packet *)
Definition field (off n : nat) (r : list Z) : list Z := take n (drop off r).
(** A field in network byte order. *)
Definition be (off n : nat) (r : list Z) : Z := be_combine (field off n r).

Lemma length_field off n r : (off + n <= length r)%nat -> length (field off n r) = n.
Proof. intros. unfold field. rewrite length_take, length_drop. lia. Qed.

Lemma field_app_r a l o n : field (length a + o) n (a ++ l) = field o n l.
Proof. unfold field. by rewrite drop_app_add. Qed.
Lemma field_app_l a l o n : (o + n <= length a)%nat -> field o n (a ++ l) = field o n a.
Proof.
  intros. unfold field. rewrite drop_app_le by lia. apply take_app_le. rewrite length_drop. lia.
Qed.

Lemma field_bytes off n r : Forall byte_ok r -> Forall byte_ok (field off n r).
Proof. intros. by apply Forall_take, Forall_drop. Qed.

Section fields.
Context `{DpdkLaws}.
Variable b : mbuf.
Hypothesis Hb : room_ok b.

Lemma mread_run off n :
  0 <= off -> 0 <= n -> off + n <= RTE_MBUF_DEFAULT_DATAROOM ->
  mread off n b = (Ret (field (Z.to_nat off) (Z.to_nat n) (mb_room b)), b).
Proof.
  intros Hoff Hn Hfit. destruct Hb as [Hlen _]. rewrite <- Hlen in Hfit.
  rewrite (run_tail (mread off n)). rewrite (bind_mread off n mret b (field (Z.to_nat off) (Z.to_nat n) (mb_room b)));
    [done|done|]. apply slice_Some. lia.
Qed.

Lemma mload_run n off :
  0 <= off -> 0 <= n -> off + n <= RTE_MBUF_DEFAULT_DATAROOM ->
  mload n off b = (Ret (le_combine (field (Z.to_nat off) (Z.to_nat n) (mb_room b))), b).
Proof.
  intros. unfold mload. erewrite run_bind by (by apply mread_run). done.
Qed.

Lemma field_length off n : Z.of_nat (off + n) <= RTE_MBUF_DEFAULT_DATAROOM ->
  length (field off n (mb_room b)) = n.
Proof. intros. destruct Hb as [Hlen _]. apply length_field. lia. Qed.

Lemma be_to_cpu_16_field off : Z.of_nat (off + 2) <= RTE_MBUF_DEFAULT_DATAROOM ->
  rte_be_to_cpu_16 (le_combine (field off 2 (mb_room b))) = be off 2 (mb_room b).
Proof.
  intros. rewrite be_to_cpu_16_spec. apply bswap16_le_combine; [by apply field_length|].
  apply field_bytes, Hb.
Qed.
Lemma be_to_cpu_32_field off : Z.of_nat (off + 4) <= RTE_MBUF_DEFAULT_DATAROOM ->
  rte_be_to_cpu_32 (le_combine (field off 4 (mb_room b))) = be off 4 (mb_room b).
Proof.
  intros. rewrite be_to_cpu_32_spec. apply bswap32_le_combine; [by apply field_length|].
  apply field_bytes, Hb.
Qed.

(** Comparing a loaded field with a swapped constant compares the field. *)
Lemma le_field_eq_16 off v : Z.of_nat (off + 2) <= RTE_MBUF_DEFAULT_DATAROOM -> 0 <= v < 65536 ->
  (le_combine (field off 2 (mb_room b)) =? rte_cpu_to_be_16 v) = (be off 2 (mb_room b) =? v).
Proof.
  intros Hoff Hv. rewrite cpu_to_be_16_spec.
  apply Bool.eq_iff_eq_true. rewrite !Z.eqb_eq. unfold be.
  rewrite <- bswap16_le_combine by (by apply field_length || apply field_bytes, Hb).
  split; [intros ->; by apply bswap16_involutive|intros <-; symmetry; apply bswap16_involutive].
  pose proof (le_combine_range (field off 2 (mb_room b)) (field_bytes _ _ _ (proj2 Hb))) as Hr.
  rewrite field_length in Hr by done. exact Hr.
Qed.
Lemma le_field_eq_32 off v : Z.of_nat (off + 4) <= RTE_MBUF_DEFAULT_DATAROOM -> 0 <= v < 2 ^ 32 ->
  (le_combine (field off 4 (mb_room b)) =? rte_cpu_to_be_32 v) = (be off 4 (mb_room b) =? v).
Proof.
  intros Hoff Hv. rewrite cpu_to_be_32_spec.
  apply Bool.eq_iff_eq_true. rewrite !Z.eqb_eq. unfold be.
  rewrite <- bswap32_le_combine by (by apply field_length || apply field_bytes, Hb).
  split; [intros ->; by apply bswap32_involutive|intros <-; symmetry; apply bswap32_involutive].
  pose proof (le_combine_range (field off 4 (mb_room b)) (field_bytes _ _ _ (proj2 Hb))) as Hr.
  rewrite field_length in Hr by done. exact Hr.
Qed.
End fields.

Section field_rules.
Context `{DpdkLaws} {W : Type}.

Lemma wp_mread p (o k : nat) off n b (Q : list Z -> machine W -> Prop) E s :
  heap s !! p = Some b -> room_ok b -> off = Z.of_nat o -> n = Z.of_nat k ->
  Z.of_nat (o + k) <= RTE_MBUF_DEFAULT_DATAROOM ->
  Q (field o k (mb_room b)) s -> wp (on_mbuf p (mread off n)) Q E s.
Proof.
  intros Hp Hb -> -> Hfit HQ. eapply wp_on_mbuf_read; [done| |exact HQ].
  rewrite mread_run by (done || lia). by rewrite !Nat2Z.id.
Qed.

Lemma wp_mload p (o k : nat) off n b (Q : Z -> machine W -> Prop) E s :
  heap s !! p = Some b -> room_ok b -> off = Z.of_nat o -> n = Z.of_nat k ->
  Z.of_nat (o + k) <= RTE_MBUF_DEFAULT_DATAROOM ->
  Q (le_combine (field o k (mb_room b))) s -> wp (on_mbuf p (mload n off)) Q E s.
Proof.
  intros Hp Hb -> -> Hfit HQ. eapply wp_on_mbuf_read; [done| |exact HQ].
  rewrite mload_run by (done || lia). by rewrite !Nat2Z.id.
Qed.
End field_rules.

(** Reads the field at byte [o], of [k] bytes, of the buffer the goal asks for. *)
Ltac read_field o k :=
  first [eapply (wp_mread _ o k) | eapply (wp_mload _ o k)];
  [eassumption|eassumption|reflexivity|reflexivity|by apply Z.leb_le|].
