(* ===== verification/Sim.v ===== *)
(** * A simulated card

    An executable instance of the interfaces of Dpdk.v, on which the witnesses
    of the other files run: a clock that advances by a fixed step (1 to 2^40) at
    every reading, a script of received bursts (of at most 64
    packets), a script of how many packets the card
    takes, and pools that never run out before their script says so. *)
From S2P Require Import Prelude CInt Monad Zipf Dpdk.

#[export] Instance sim_lib : DpdkLib := {
  rte_cpu_to_be_16 := bswap16;
  rte_cpu_to_be_32 := bswap32;
  rte_be_to_cpu_16 := bswap16;
  rte_be_to_cpu_32 := bswap32;
  rte_is_same_ether_addr a b := bool_decide (a = b);
  rte_is_broadcast_ether_addr a := bool_decide (a = replicate 6 255);
  mbuf_append n b :=
    if data_len b + n <=? Z.of_nat (length (mb_room b))
    then (Some (data_len b), Mbuf (mb_room b) (data_len b + n) (l2_len b) (l3_len b) (ol_flags b))
    else (None, b);
  rte_ipv4_cksum _ := 0;
  rte_ipv4_udptcp_cksum _ _ := 0;
  RTE_MBUF_F_TX_IP_CKSUM := 2 ^ 54;
  RTE_MBUF_F_TX_IPV4 := 2 ^ 55;
  RTE_MBUF_F_TX_UDP_CKSUM := 3 * 2 ^ 52;
  RTE_MBUF_F_TX_TCP_CKSUM := 2 ^ 52;
}.

#[export] Instance sim_lib_laws : DpdkLaws.
Proof. by constructor. Qed.

Record sim := Sim {
  clock : Z;
  clock_step : Z;
  rx_script : list (list (list Z));   (* bursts of packets, as bytes *)
  tx_script : list Z;                 (* how many are taken; then all *)
  run_script : list bool;             (* the running flag; then true *)
}.

(** A buffer of the default size that holds [bytes]. *)
Definition pad_room (bytes : list Z) : list Z :=
  take 2048 ((u8 <$> bytes) ++ replicate 2048 0).
Definition packet (bytes : list Z) : mbuf :=
  Mbuf (pad_room bytes) (Z.of_nat (length bytes)) 0 0 0.

Definition sim_tick (w : sim) : Z * sim :=
  (u64 (clock w), Sim (clock w + Z.max 1 (Z.min (clock_step w) (2 ^ 40))) (clock_step w)
    (rx_script w) (tx_script w) (run_script w)).

(** Until it wraps, the clock advances. *)
Lemma sim_tick_advances w :
  (sim_tick w).1 < 2 ^ 63 -> (sim_tick w).1 < (sim_tick (sim_tick w).2).1.
Proof.
  cbn. set (d := Z.max 1 _). assert (Hd : 1 <= d <= 2 ^ 40) by lia. intros Hlt.
  unfold u64, wrap in *. rewrite <- Z.add_mod_idemp_l by done.
  pose proof (Z.mod_pos_bound (clock w) (2 ^ 64)) as Hr. rewrite (Z.mod_small (_ + d)); lia.
Qed.

#[export] Instance sim_env : DpdkEnv sim := {
  timer_hz := 1000;
  timer_cycles := sim_tick;
  tsc_cycles := sim_tick;
  rx_burst _ _ n w :=
    match rx_script w with
    | [] => ([], w)
    | bs :: rest => (packet <$> take (Z.to_nat (Z.min n 64)) bs,
        Sim (clock w) (clock_step w) rest (tx_script w) (run_script w))
    end;
  tx_burst _ _ bs w :=
    match tx_script w with
    | [] => (Z.of_nat (length bs), w)
    | n :: rest => (Z.max 0 (Z.min n (Z.of_nat (length bs))),
        Sim (clock w) (clock_step w) (rx_script w) rest (run_script w))
    end;
  pool_alloc _ w := (Some (Mbuf (replicate 2048 0) 0 0 0 0), w);
  pool_alloc_bulk _ n w :=
    ((if 0 <=? n then Some (replicate (Z.to_nat n) (Mbuf (replicate 2048 0) 0 0 0 0)) else None), w);
  macaddr _ := [2; 0; 0; 0; 0; 1];
  still_running w :=
    match run_script w with
    | [] => (true, w)
    | b :: rest => (b, Sim (clock w) (clock_step w) (rx_script w) (tx_script w) rest)
    end;
}.

Lemma packet_ok bytes : room_ok (packet bytes).
Proof.
  split; cbn [packet mb_room]; unfold pad_room, RTE_MBUF_DEFAULT_DATAROOM.
  - rewrite length_take, length_app, length_replicate. lia.
  - apply Forall_take, Forall_app. split.
    + apply Forall_fmap, Forall_true. intros x. apply u8_range.
    + by apply Forall_replicate.
Qed.

Lemma zero_buf_ok : fresh_ok (Mbuf (replicate 2048 0) 0 0 0 0).
Proof.
  split; [split|done]; cbn [mb_room].
  - by rewrite length_replicate.
  - by apply Forall_replicate.
Qed.

#[export] Instance sim_laws : EnvLaws sim.
Proof.
  constructor.
  - done.
  - intros w. apply (wrap_range 64). done.
  - intros p q n w. cbn. destruct (rx_script w); cbn; [lia|].
    rewrite length_fmap, length_take. lia.
  - intros p q n w. cbn. destruct (rx_script w); cbn; [done|].
    apply Forall_fmap, Forall_true. intros. apply packet_ok.
  - intros p q bs w. cbn. destruct (tx_script w); cbn; lia.
  - intros pool w b [= <-]. apply zero_buf_ok.
  - intros pool n w bs. cbn. case_if; [|done]. intros [= <-].
    rewrite length_replicate. split; [lia|]. apply Forall_replicate, zero_buf_ok.
  - intros p. split; [done|]. repeat constructor; by apply Z.leb_le || done.
Qed.

(** A machine that owns nothing yet, and one that owns a packet. *)
Definition boot (w : sim) : machine sim := Machine w ∅ 0 rng_init [].
Definition holding (w : sim) (bytes : list Z) : machine sim :=
  Machine w {[0%nat := packet bytes]} 1 rng_init [].

Lemma boot_ok w : heap_ok (boot w).
Proof. intros p [b Hb]. done. Qed.

Lemma holding_ok w bytes : heap_ok (holding w bytes).
Proof.
  intros p [b Hb]. change (({[0%nat := packet bytes]} : gmap nat mbuf) !! p = Some b) in Hb.
  apply lookup_singleton_Some in Hb as [<- _]. cbn. lia.
Qed.

Lemma holding_lookup w bytes : heap (holding w bytes) !! 0%nat = Some (packet bytes).
Proof. apply (lookup_singleton_eq (M := gmap nat)). Qed.

(** A machine that owns several buffers and nothing else. *)
Definition holding_all (w : sim) (bs : list mbuf) : machine sim :=
  Machine w (insert_from 0 bs ∅) (length bs) rng_init [].

Lemma no_heap p : is_Some ((∅ : gmap nat mbuf) !! p) -> (p < 0)%nat.
Proof. intros [b Hb]. done. Qed.
