(* ===== verification/Arp.v ===== *)
(** * ARP (utils/arp.c, include/arp.h)

    Building an ARP packet, sending it, and resolving the hardware address of a
    peer by asking until a reply arrives. *)
From S2P Require Import Prelude CInt Monad Dpdk Sim.

Section arp.
Context `{DpdkLib}.

Definition _prepare_arp_pkt (op : Z) (src_mac : ether_addr) (src_ip : Z)
    (dst_eth : ether_addr) (dst_ip : Z) : M mbuf unit :=
  (* ethernet header *)
  buf_ptr ← rte_pktmbuf_append RTE_ETHER_HDR_LEN;
  eth_hdr ← demand buf_ptr;
  _ ← mwrite (eth_hdr + eth_src) src_mac;
  _ ← mwrite (eth_hdr + eth_dst) dst_eth;
  _ ← mstore 2 (eth_hdr + eth_type) (rte_cpu_to_be_16 RTE_ETHER_TYPE_ARP);
  (* arp header *)
  buf_ptr ← rte_pktmbuf_append sizeof_arp_hdr;
  a_hdr ← demand buf_ptr;
  _ ← mstore 2 (a_hdr + arp_hardware) (rte_cpu_to_be_16 RTE_ARP_HRD_ETHER);
  _ ← mstore 2 (a_hdr + arp_protocol) (rte_cpu_to_be_16 RTE_ETHER_TYPE_IPV4);
  _ ← mstore 1 (a_hdr + arp_hlen) RTE_ETHER_ADDR_LEN;
  _ ← mstore 1 (a_hdr + arp_plen) 4;
  _ ← mstore 2 (a_hdr + arp_opcode) (rte_cpu_to_be_16 op);
  _ ← mwrite (a_hdr + arp_sha) src_mac;
  _ ← mstore 4 (a_hdr + arp_sip) (rte_cpu_to_be_32 src_ip);
  _ ← mwrite (a_hdr + arp_tha) dst_eth;
  mstore 4 (a_hdr + arp_tip) (rte_cpu_to_be_32 dst_ip).

Context {W : Type} `{DpdkEnv W}.

Definition send_arp (op src_ip : Z) (dst_eth : ether_addr) (dst_ip tx_mbuf_pool cdq : Z)
    : M (machine W) unit :=
  let qid := if cdq =? 0 then 0 else 1 in
  let src_eth := rte_eth_macaddr_get 0 in
  buf ← rte_pktmbuf_alloc tx_mbuf_pool;
  match buf with
  | None => printf "error allocating arp mbuf" []
  | Some buf =>
      _ ← on_mbuf buf (_prepare_arp_pkt op src_eth src_ip dst_eth dst_ip);
      nb_tx ← rte_eth_tx_burst 0 qid [buf];
      when (negb (nb_tx =? 1))
        (_ ← printf "error: could not send arp packet" []; rte_pktmbuf_free buf)
  end.

(** One received buffer of [get_dst_mac]; [found] is the address once it is
    known. The buffer is freed on every path. *)
Definition arp_check_buf (src_ip : Z) (src_mac : ether_addr) (buf : nat)
    (found : option ether_addr) : M (machine W) (option ether_addr) :=
  match found with
  | Some mac => _ ← rte_pktmbuf_free buf; mret (Some mac)
  | None =>
      dst_addr ← on_mbuf buf (mread eth_dst RTE_ETHER_ADDR_LEN);
      if negb (rte_is_same_ether_addr dst_addr src_mac)
      then _ ← rte_pktmbuf_free buf; mret None
      else
        ether_type ← on_mbuf buf (mload 2 eth_type);
        found ← (if rte_be_to_cpu_16 ether_type =? RTE_ETHER_TYPE_ARP then
          opcode ← on_mbuf buf (mload 2 (RTE_ETHER_HDR_LEN + arp_opcode));
          tha ← on_mbuf buf (mread (RTE_ETHER_HDR_LEN + arp_tha) RTE_ETHER_ADDR_LEN);
          tip ← on_mbuf buf (mload 4 (RTE_ETHER_HDR_LEN + arp_tip));
          if (opcode =? rte_cpu_to_be_16 RTE_ARP_OP_REPLY) &&
             rte_is_same_ether_addr tha src_mac &&
             (tip =? rte_cpu_to_be_32 src_ip)
          then sha ← on_mbuf buf (mread (RTE_ETHER_HDR_LEN + arp_sha) RTE_ETHER_ADDR_LEN);
            mret (Some sha)
          else mret None
        else mret None);
        _ ← rte_pktmbuf_free buf;
        mret found
  end.

(** The queues of a round, up to the one an answer is found in. *)
Definition arp_poll_queues (port src_ip : Z) (src_mac : ether_addr) (count_queue : Z)
    : M (machine W) (option ether_addr) :=
  forM (seqZ 0 count_queue) (fun rx_q found =>
    match found with
    | Some mac => mret (Some mac)
    | None =>
        bufs ← rte_eth_rx_burst port rx_q 32;
        forM bufs (arp_check_buf src_ip src_mac) None
    end) None.

Definition get_dst_mac (fuel : nat) (port src_ip : Z) (src_mac : ether_addr) (dst_ip : Z)
    (broadcast_mac : ether_addr) (tx_mbuf_pool cdq count_queue : Z) : M (machine W) ether_addr :=
  loop fuel (fun _ : unit =>
    _ ← send_arp RTE_ARP_OP_REQUEST src_ip broadcast_mac dst_ip tx_mbuf_pool cdq;
    _ ← sleep 1;
    found ← arp_poll_queues port src_ip src_mac count_queue;
    mret match found with None => inl tt | Some mac => inr mac end) tt.
End arp.

(** ** Reference encoder *)
Definition arp_frame (op : Z) (src_mac : ether_addr) (src_ip : Z) (dst_eth : ether_addr)
    (dst_ip : Z) : list Z :=
  dst_eth ++ src_mac ++ be_split 2 RTE_ETHER_TYPE_ARP ++
  be_split 2 RTE_ARP_HRD_ETHER ++ be_split 2 RTE_ETHER_TYPE_IPV4 ++ [6; 4] ++ be_split 2 op ++
  src_mac ++ be_split 4 src_ip ++ dst_eth ++ be_split 4 dst_ip.

Lemma length_arp_frame op sm sip de dip :
  length sm = 6%nat -> length de = 6%nat -> length (arp_frame op sm sip de dip) = 42%nat.
Proof. intros H1 H2. unfold arp_frame. rewrite !length_app, !length_be_split. cbn. lia. Qed.

Lemma prepare_arp_run `{DpdkLaws} op sm sip de dip b :
  fresh_ok b -> length sm = 6%nat -> length de = 6%nat ->
  _prepare_arp_pkt op sm sip de dip b =
    (Ret tt, Mbuf (arp_frame op sm sip de dip ++ drop 42 (mb_room b)) 42 (l2_len b) (l3_len b) (ol_flags b)).
Proof.
  intros [[Hlen Hb] Hd] Hsm Hde. destruct b as [room dl l2 l3 ol]. cbn [mb_room data_len l2_len l3_len ol_flags] in *. subst dl.
  unfold RTE_MBUF_DEFAULT_DATAROOM in Hlen.
  destruct (room_split 42 room) as (hd & tl & -> & Hhd & Htl); [lia|].
  rewrite length_app in Hlen.
  rewrite <- Hhd at 1. rewrite drop_app_length.
  explode_list sm. explode_list de. explode_list hd. clear Hb Htl.
  unfold _prepare_arp_pkt. layout. cbn [length] in Hlen.
  repeat buf_step. reflexivity.
Qed.

Section arp_proofs.
Context `{DpdkLaws} {W : Type} `{EnvLaws W}.
Implicit Types (s : machine W) (E : reason -> machine W -> Prop).

(** What a call that sends one ARP packet adds to the trace. *)
Definition arp_events (op sip : Z) (de : ether_addr) (dip : Z) (evs : list event) : Prop :=
  received evs = [] /\ untimed evs /\
  Forall (fun b => mb_data b = arp_frame op (macaddr 0) sip de dip) (offered evs) /\
  (sent evs = [] \/
   exists b, sent evs = [b] /\ mb_data b = arp_frame op (macaddr 0) sip de dip).

(** [send_arp] keeps nothing: its buffer is sent or freed. *)
Lemma wp_send_arp op sip de dip pool cdq Q E s :
  heap_ok s -> length de = 6%nat ->
  (forall s', heap s' = heap s -> (next s <= next s')%nat -> rng s' = rng s ->
    (exists evs, trace s' = trace s ++ evs /\ arp_events op sip de dip evs) -> Q tt s') ->
  wp (send_arp op sip de dip pool cdq) Q E s.
Proof.
  intros Hs Hde HQ. unfold send_arp. wp_step. apply wp_alloc.
  - intros w. apply wp_printf, HQ; cbn; [done|done|done|]. eexists. split; [done|].
    split_and!; [done..|by left].
  - intros w b Hb. wp_step. destruct (macaddr_ok 0) as [Hmac _].
    eapply wp_on_mbuf; [cbn; by rewrite lookup_insert_eq|by apply prepare_arp_run|].
    set (b' := Mbuf _ _ _ _ _). assert (Hd : mb_data b' = arp_frame op (macaddr 0) sip de dip).
    { unfold mb_data, b'. cbn [data_len mb_room]. rewrite take_app_le by (rewrite length_arp_frame; done || lia).
      apply take_ge. by rewrite length_arp_frame. }
    wp_step. eapply wp_tx; [cbn; by rewrite lookup_insert_eq|].
    intros w' n Hn. cbn in Hn. wp_step.
    + assert (n = 0) as -> by lia. change (Z.to_nat 0) with 0%nat. wp_step. apply wp_printf.
      eapply wp_free; [cbn; by rewrite lookup_insert_eq|]. apply HQ; cbn.
      * by rewrite insert_insert_eq, delete_insert_id by (by apply heap_fresh).
      * lia.
      * done.
      * eexists. rewrite <- app_assoc. split; [done|]. split_and!; [done|done|by apply Forall_singleton|by left].
    + assert (n = 1) as -> by lia. change (Z.to_nat 1) with 1%nat. apply HQ; cbn.
      * by rewrite insert_insert_eq, delete_insert_id by (by apply heap_fresh).
      * lia.
      * done.
      * eexists. split; [done|]. split_and!; [done|done|by apply Forall_singleton|]. right. by exists b'.
Qed.
(** The address a received packet gives as an answer: an ARP reply for us,
    whoever sent it. *)
Definition arp_answer (src_ip : Z) (src_mac : ether_addr) (r : list Z) : option ether_addr :=
  if bool_decide (field 0 6 r = src_mac) && (be 12 2 r =? RTE_ETHER_TYPE_ARP) &&
     ((be 20 2 r =? RTE_ARP_OP_REPLY) && bool_decide (field 32 6 r = src_mac) &&
      (be 38 4 r =? src_ip))
  then Some (field 22 6 r) else None.

Lemma wp_arp_check_buf src_ip src_mac p b found (Q : option ether_addr -> machine W -> Prop) E s :
  heap s !! p = Some b -> room_ok b -> 0 <= src_ip < 2 ^ 32 ->
  Q (match found with Some m => Some m | None => arp_answer src_ip src_mac (mb_room b) end)
    (with_heap (delete p (heap s)) s) ->
  wp (arp_check_buf src_ip src_mac p found) Q E s.
Proof.
  intros Hp Hb Hip HQ. unfold arp_check_buf. destruct found as [m|].
  { wp_step. eapply wp_free; [done|]. by wp_step. }
  unfold arp_answer in HQ. wp_step. read_field 0%nat 6%nat. rewrite is_same_ether_addr_spec.
  case_bool_decide as Hdst; cbn [negb andb] in HQ |- *.
  2:{ wp_step. eapply wp_free; [done|]. by wp_step. }
  wp_step. read_field 12%nat 2%nat. rewrite be_to_cpu_16_field by (done || by apply Z.leb_le).
  wp_step. destruct (be 12 2 (mb_room b) =? RTE_ETHER_TYPE_ARP); cbn [andb] in HQ.
  2:{ wp_step. wp_step. eapply wp_free; [done|]. by wp_step. }
  wp_step. read_field 20%nat 2%nat. wp_step. read_field 32%nat 6%nat.
  wp_step. read_field 38%nat 4%nat.
  rewrite le_field_eq_16, le_field_eq_32 by (done || by apply Z.leb_le).
  rewrite is_same_ether_addr_spec. destruct (_ && _ && _).
  - wp_step. read_field 22%nat 6%nat. do 2 wp_step. eapply wp_free; [done|]. by wp_step.
  - do 2 wp_step. eapply wp_free; [done|]. by wp_step.
Qed.
(** A run that keeps no buffer and draws no random number. *)
Definition frees_all (s s' : machine W) (evs : list event) : Prop :=
  heap s' = heap s /\ (next s <= next s')%nat /\ rng s' = rng s /\ trace s' = trace s ++ evs.

Lemma frees_all_refl s : frees_all s s [].
Proof. unfold frees_all. by rewrite app_nil_r. Qed.

Lemma frees_all_log s e : frees_all s (log_event e s) [e].
Proof. by split_and!. Qed.

Lemma frees_all_ok s s' evs : heap_ok s -> frees_all s s' evs -> heap_ok s'.
Proof. intros Hs (Hh & Hn & _). eapply heap_ok_sub; [done..|]. by rewrite Hh. Qed.

Lemma frees_all_trans s1 s2 s3 e1 e2 :
  frees_all s1 s2 e1 -> frees_all s2 s3 e2 -> frees_all s1 s3 (e1 ++ e2).
Proof.
  intros (? & ? & ? & E1) (? & ? & ? & E2). unfold frees_all. rewrite E2, E1, app_assoc.
  split_and!; [congruence|lia|congruence|done].
Qed.

Definition first_answer (src_ip : Z) (src_mac : ether_addr) (bs : list mbuf) : option ether_addr :=
  head (omap (fun b => arp_answer src_ip src_mac (mb_room b)) bs).

Lemma first_answer_app src_ip src_mac bs bs' :
  first_answer src_ip src_mac (bs ++ bs') =
    match first_answer src_ip src_mac bs with
    | Some m => Some m | None => first_answer src_ip src_mac bs' end.
Proof.
  unfold first_answer. rewrite omap_app. by destruct (omap _ bs).
Qed.

Lemma wp_arp_scan src_ip src_mac bs k h nx r tr (Q : option ether_addr -> machine W -> Prop) E s :
  0 <= src_ip < 2 ^ 32 -> Forall room_ok bs ->
  (forall p, is_Some (h !! p) -> (p < k)%nat) ->
  heap s = insert_from k bs h -> next s = nx -> rng s = r -> trace s = tr ->
  (forall s', heap s' = h -> next s' = nx -> rng s' = r -> trace s' = tr ->
    Q (first_answer src_ip src_mac bs) s') ->
  wp (forM (seq k (length bs)) (arp_check_buf src_ip src_mac) None) Q E s.
Proof.
  intros Hip Hbs Hh Hheap Hnx Hr Htr HQ.
  apply (wp_forM (fun l found s' => exists k' bs', l = seq k' (length bs') /\ Forall room_ok bs' /\
    (k <= k')%nat /\ heap s' = insert_from k' bs' h /\ next s' = nx /\ rng s' = r /\ trace s' = tr /\
    match found with Some m => Some m | None => first_answer src_ip src_mac bs' end
      = first_answer src_ip src_mac bs)).
  - exists k, bs. split_and!; done || lia.
  - intros p l found s' (k' & [|b bs'] & Hl & Hok & Hk & Hs' & ? & ? & ? & Ha); [done|].
    cbn [length seq] in Hl. simplify_eq. inversion Hok; subst.
    eapply wp_arp_check_buf; [|done|done|].
    { rewrite Hs'. cbn. apply lookup_insert_eq. }
    exists (S k'), bs'. rewrite Hs', delete_insert_from_1 by (intros q Hq; specialize (Hh q Hq); lia).
    split_and!; try done; [lia|]. rewrite <- Ha. unfold first_answer. cbn [omap list_omap].
    destruct found; [done|]. by destruct (arp_answer _ _ _).
  - intros found s' (k' & [|b bs'] & Hl & _ & Hk & Hs' & ? & ? & ? & Ha); [|done].
    assert (found = first_answer src_ip src_mac bs) as -> by (by destruct found).
    by apply HQ.
Qed.
Lemma wp_arp_poll_queues port src_ip src_mac nq (Q : option ether_addr -> machine W -> Prop) E s :
  0 <= src_ip < 2 ^ 32 -> heap_ok s ->
  (forall s' evs, frees_all s s' evs -> sent evs = [] -> Forall room_ok (received evs) ->
    Q (first_answer src_ip src_mac (received evs)) s') ->
  wp (arp_poll_queues port src_ip src_mac nq) Q E s.
Proof.
  intros Hip Hs HQ.
  apply (wp_forM (fun _ found s' => exists evs, frees_all s s' evs /\ sent evs = [] /\
    Forall room_ok (received evs) /\ found = first_answer src_ip src_mac (received evs))).
  - exists []. split_and!; try done. apply frees_all_refl.
  - intros q l found s1 (evs & Hf & Hsent & Hrooms & Ha). destruct found as [m|].
    { wp_step. by exists evs. }
    wp_step. apply wp_rx. intros w bs _ Hok Hrx. pose proof (frees_all_ok _ _ _ Hs Hf) as Hs1.
    eapply wp_arp_scan; [done|done|exact Hs1|done..|].
    intros s2 Eh En Er Et. exists (evs ++ [EvRx port q bs]).
    autorewrite with cnet. rewrite Hsent, first_answer_app, <- Ha.
    split_and!; try done; [|by apply Forall_app]. eapply frees_all_trans; [done|].
    unfold frees_all. rewrite Eh, En, Er, Et. cbn. split_and!; done || lia.
  - intros found s1 (evs & Hf & Hsent & Hrooms & ->). by apply HQ.
Qed.

(** The requests of [get_dst_mac], and what it has received so far. *)
Definition asked (sip dip : Z) (bmac : ether_addr) (evs : list event) : Prop :=
  Forall (fun b => mb_data b = arp_frame RTE_ARP_OP_REQUEST (macaddr 0) sip bmac dip) (sent evs) /\
  Forall room_ok (received evs).

Lemma asked_app sip dip bmac e1 e2 : asked sip dip bmac e1 -> asked sip dip bmac e2 -> asked sip dip bmac (e1 ++ e2).
Proof. intros [? ?] [? ?]. unfold asked. autorewrite with cnet. by rewrite !Forall_app. Qed.

(** An answer is a hardware address. *)
Lemma first_answer_length sip smac bs mac :
  Forall room_ok bs -> first_answer sip smac bs = Some mac -> length mac = 6%nat.
Proof.
  intros Hrooms Ha. apply head_Some in Ha as [rest Ha].
  assert (Hin : mac ∈ omap (fun b => arp_answer sip smac (mb_room b)) bs) by (rewrite Ha; left).
  apply list_elem_of_omap in Hin as (b & Hb & Ha2). unfold arp_answer in Ha2.
  rewrite Forall_forall in Hrooms. specialize (Hrooms b Hb).
  case_match; [|done]. injection Ha2 as <-. by apply field_length, Z.leb_le.
Qed.

Lemma wp_get_dst_mac fuel port sip smac dip bmac pool cdq nq
    (Q : ether_addr -> machine W -> Prop) (E : reason -> machine W -> Prop) s :
  heap_ok s -> 0 <= sip < 2 ^ 32 -> length bmac = 6%nat ->
  (forall mac s' evs, frees_all s s' evs -> asked sip dip bmac evs ->
    first_answer sip smac (received evs) = Some mac -> Q mac s') ->
  (forall s' evs, frees_all s s' evs -> asked sip dip bmac evs ->
    first_answer sip smac (received evs) = None -> E OutOfFuel s') ->
  wp (get_dst_mac fuel port sip smac dip bmac pool cdq nq) Q E s.
Proof.
  intros Hs Hip Hb HQ HE.
  apply (wp_loop (fun _ s1 => exists evs, frees_all s s1 evs /\ asked sip dip bmac evs /\
    first_answer sip smac (received evs) = None)).
  - exists []. by split; [apply frees_all_refl|].
  - intros [] s1 (e1 & Hf & Has & Ha). pose proof (frees_all_ok _ _ _ Hs Hf) as Hs1.
    wp_step. apply wp_send_arp; [done..|]. intros s2 E1 E2 E3 (e2 & E4 & Hr2 & _ & _ & Hse2).
    wp_step. apply wp_sleep. wp_step.
    assert (Hf2 : frees_all s (log_event (EvSleep 1) s2) ((e1 ++ e2) ++ [EvSleep 1])).
    { eapply frees_all_trans; [|apply frees_all_log].
      eapply frees_all_trans; [done|]. by split_and!. }
    assert (Has2 : asked sip dip bmac ((e1 ++ e2) ++ [EvSleep 1])).
    { apply asked_app; [apply asked_app; [done|]|by split]. split; [|by rewrite Hr2].
      destruct Hse2 as [->|(b & -> & Hb2)]; [done|by apply Forall_singleton]. }
    assert (Ha2 : first_answer sip smac (received ((e1 ++ e2) ++ [EvSleep 1])) = None).
    { autorewrite with cnet. by rewrite Hr2, !app_nil_r. }
    apply wp_arp_poll_queues; [done|exact (frees_all_ok _ _ _ Hs Hf2)|]. intros s3 e3 Hf3 Hse3 Hrooms3.
    pose proof (frees_all_trans _ _ _ _ _ Hf2 Hf3) as Hf4. wp_step.
    assert (Has4 : asked sip dip bmac (((e1 ++ e2) ++ [EvSleep 1]) ++ e3))
      by (apply asked_app; [done|split; [by rewrite Hse3|done]]).
    assert (E5 : first_answer sip smac (received (((e1 ++ e2) ++ [EvSleep 1]) ++ e3))
      = first_answer sip smac (received e3))
      by (rewrite received_app, first_answer_app; by rewrite Ha2).
    destruct (first_answer sip smac (received e3)) eqn:Ea; [by eapply HQ; [..|by rewrite E5]|].
    eexists. split; [exact Hf4|]. split; [done|]. by rewrite E5.
  - intros [] s1 (evs & Hf & Has & Ha). by eapply HE.
Qed.

(** ** Properties *)

(** [send_arp] leaves the heap as it found it, whether the pool is
    empty, the card refuses the packet or takes it; what it sends is at most the
    one ARP frame it was asked for, in the wire format of RFC 826. *)
Theorem send_arp_correct op sip de dip pool cdq s :
  heap_ok s -> length de = 6%nat ->
  wp (send_arp op sip de dip pool cdq)
    (fun _ s' => exists evs, frees_all s s' evs /\ received evs = [] /\
      (sent evs = [] \/ exists b, sent evs = [b] /\
        mb_data b = arp_frame op (macaddr 0) sip de dip))
    (fun _ _ => False) s.
Proof.
  intros Hs Hde. apply wp_send_arp; [done..|]. intros s' ? ? ? (evs & ? & ? & _ & _ & ?). by exists evs.
Qed.

(** C27: [get_dst_mac] returns the hardware address of the first ARP reply
    addressed to us among everything it received, and goes on asking as long as
    there was none; every buffer it received or allocated is freed or sent by
    then, and nothing undefined happens. *)
Theorem get_dst_mac_correct fuel port sip smac dip bmac pool cdq nq s :
  heap_ok s -> 0 <= sip < 2 ^ 32 -> length bmac = 6%nat ->
  wp (get_dst_mac fuel port sip smac dip bmac pool cdq nq)
    (fun mac s' => exists evs, frees_all s s' evs /\
      first_answer sip smac (received evs) = Some mac)
    (fun k s' => k = OutOfFuel /\ exists evs, frees_all s s' evs /\
      first_answer sip smac (received evs) = None) s.
Proof.
  intros. apply wp_get_dst_mac; [done..| |].
  - intros mac s' evs Hf _ Ha. by exists evs.
  - intros s' evs Hf _ Ha. split; [done|]. by exists evs.
Qed.

(** C39: The sender of a reply is not looked at: [get_dst_mac] takes the
    address of any well-formed ARP reply addressed to us for the peer's, whatever
    protocol address [any_ip] the reply is for. *)
Theorem get_dst_mac_any_sender sip smac sha any_ip rest p l2 l3 fl s :
  heap_ok s -> 0 <= sip < 2 ^ 32 -> length smac = 6%nat -> length sha = 6%nat ->
  let b := Mbuf (arp_frame RTE_ARP_OP_REPLY sha any_ip smac sip ++ rest) 42 l2 l3 fl in
  heap s !! p = Some b -> room_ok b ->
  wp (arp_check_buf sip smac p None) (fun found s' => found = Some sha) (fun _ _ => False) s.
Proof.
  intros Hs Hip Hsm Hsh b Hp Hb. eapply wp_arp_check_buf; [done..|]. clear Hp Hb.
  unfold b, arp_answer. cbn [mb_room].
  assert (E : be 38 4 (arp_frame RTE_ARP_OP_REPLY sha any_ip smac sip ++ rest) = sip).
  { explode_list smac. explode_list sha. change (be_combine (be_split 4 sip) = sip).
    rewrite be_combine_split. by apply Z.mod_small. }
  rewrite E, Z.eqb_refl. clear E. explode_list smac. explode_list sha. cbn.
  by rewrite bool_decide_eq_true_2.
Qed.
End arp_proofs.

(** ** Witnesses *)
Definition quiet : sim := Sim 0 1 [] [] [].
Definition mac_a : ether_addr := [2; 0; 0; 0; 0; 1].
Definition mac_b : ether_addr := [2; 0; 0; 0; 0; 2].

Lemma send_arp_correct_witness :
  wp (send_arp RTE_ARP_OP_REQUEST 1 mac_b 2 0 0)
    (fun _ s' => exists evs, frees_all (boot quiet) s' evs /\ received evs = [] /\
      (sent evs = [] \/ exists b, sent evs = [b] /\
        mb_data b = arp_frame RTE_ARP_OP_REQUEST (macaddr 0) 1 mac_b 2))
    (fun _ _ => False) (boot quiet).
Proof. apply send_arp_correct; [apply boot_ok|reflexivity]. Defined.

(** The answer of 10.0.0.2 to 10.0.0.1, as the second packet received. *)
Definition answered : sim :=
  Sim 0 1 [[repeat 0 60; arp_frame RTE_ARP_OP_REPLY mac_b 167772162 mac_a 167772161]] [] [].

Lemma get_dst_mac_correct_witness :
  exists mac s' evs, get_dst_mac 2 0 167772161 mac_a 167772162 (repeat 255 6) 0 0 1 (boot answered)
    = (Ret mac, s') /\ frees_all (boot answered) s' evs /\
    first_answer 167772161 mac_a (received evs) = Some mac /\ mac = mac_b.
Proof.
  pose proof (get_dst_mac_correct 2 0 167772161 mac_a 167772162 (repeat 255 6) 0 0 1 (boot answered)
    (boot_ok _) ltac:(split; [by apply Z.leb_le|by apply Z.ltb_lt]) eq_refl) as Hw.
  assert (Hrun : exists s', get_dst_mac 2 0 167772161 mac_a 167772162 (repeat 255 6) 0 0 1 (boot answered)
    = (Ret mac_b, s')) by (eexists; vm_compute; reflexivity).
  destruct Hrun as [s' Hrun]. unfold wp in Hw. rewrite Hrun in Hw. destruct Hw as (evs & Hf & Ha).
  exists mac_b, s', evs. by split_and!.
Defined.

Lemma get_dst_mac_any_sender_witness :
  let bytes := arp_frame RTE_ARP_OP_REPLY mac_b 4242 mac_a 167772161 in
  wp (arp_check_buf 167772161 mac_a 0 None) (fun found s' => found = Some mac_b) (fun _ _ => False)
    (holding quiet bytes).
Proof.
  apply (get_dst_mac_any_sender 167772161 mac_a mac_b 4242 (replicate 2006 0) 0 0 0 0);
    [apply holding_ok|split; [by apply Z.leb_le|by apply Z.ltb_lt]|reflexivity|reflexivity| |].
  - rewrite holding_lookup. vm_compute. reflexivity.
  - split; cbn [mb_room]; [reflexivity|]. apply Forall_app. split.
    + repeat constructor; by apply Z.leb_le || by apply Z.ltb_lt.
    + by apply Forall_replicate.
Defined.
