(* ===== verification/Exp.v ===== *)
(** * Shared helpers (utils/exp.c, include/exp.h)

    The context handed to a worker, IP addresses as text, the check every
    received packet goes through (it also answers ARP requests), and the two busy
    waits. *)
From S2P Require Import Prelude CInt CFloat CStdio Monad Dpdk Sim Arp.

Definition DIST_UNIFORM : Z := 0.
Definition DIST_ZIPF : Z := 1.

(** [struct context]; pools are handles, [running] is polled through the
    environment. *)
Record context := Context_ {
  mode : Z;
  rx_mem_pool : Z;
  tx_mem_pool : Z;
  worker_id : Z;
  dpdk_port_id : Z;
  default_qid : Z;
  my_eth : ether_addr;
  src_ip : Z;
  src_port : Z;
  count_queues : Z;
  use_vlan : Z;
  bidi : Z;
  do_arp : Z;
  delay_us : Z;
  delay_cycles : Z;
  managed_queues : list Z;
  duration : Z;
  dst_ips : list Z;
  count_dst_ip : Z;
  dst_port : Z;
  payload_length : Z;
  running : Z;
  count_flow : Z;
  base_port_number : Z;
  destination_distribution : Z;
  queue_selection_distribution : Z;
  rate_limit : Z;
  rate : Z;
  batch : Z;
}.

Definition broadcast_mac : ether_addr := [0xFF; 0xFF; 0xFF; 0xFF; 0xFF; 0xFF].

Definition MAKE_IP_ADDR (a b c d : Z) : Z :=
  Z.lor (Z.lor (Z.lor (u32 (Z.shiftl a 24)) (Z.shiftl b 16)) (Z.shiftl c 8)) d.

(** [None] is the return value -1. *)
Definition str_to_ip (str : string) : option Z :=
  '(a, s) ← scan_hhu str; s ← scan_char "." s;
  '(b, s) ← scan_hhu s; s ← scan_char "." s;
  '(c, s) ← scan_hhu s; s ← scan_char "." s;
  '(d, _) ← scan_hhu s;
  Some (MAKE_IP_ADDR a b c d).

(** The text left in the buffer of [size] bytes. *)
Definition ip_to_str (addr size : Z) : string :=
  let bytes := le_split 4 addr in
  let byte i := nth i bytes 0 in
  truncate (Z.to_nat (size - 1))
    (print_hhu (byte 3%nat) +:+ "." +:+ print_hhu (byte 2%nat) +:+ "." +:+
     print_hhu (byte 1%nat) +:+ "." +:+ print_hhu (byte 0%nat)).

Section exp.
Context `{DpdkLib} {W : Type} `{DpdkEnv W}.

Definition print_mac (addr : ether_addr) : M (machine W) unit :=
  printf "addr: %x:%x:%x:%x:%x:%x" addr.

(** [true] is the return value 1: the packet is for the caller to process. *)
Definition check_eth_hdr (my_ip : Z) (host_mac : ether_addr) (buf : nat)
    (tx_mbuf_pool cdq : Z) : M (machine W) bool :=
  dst_addr ← on_mbuf buf (mread eth_dst RTE_ETHER_ADDR_LEN);
  if negb (rte_is_same_ether_addr dst_addr host_mac) && negb (rte_is_broadcast_ether_addr dst_addr)
  then
    _ ← printf "not our ether, here" [];
    _ ← print_mac dst_addr;
    mret false
  else
    ether_type ← on_mbuf buf (mload 2 eth_type);
    if rte_be_to_cpu_16 ether_type =? RTE_ETHER_TYPE_ARP then
      opcode ← on_mbuf buf (mload 2 (RTE_ETHER_HDR_LEN + arp_opcode));
      tip ← on_mbuf buf (mload 4 (RTE_ETHER_HDR_LEN + arp_tip));
      _ ← when ((opcode =? rte_cpu_to_be_16 RTE_ARP_OP_REQUEST) && (tip =? rte_cpu_to_be_32 my_ip))
        (sha ← on_mbuf buf (mread (RTE_ETHER_HDR_LEN + arp_sha) RTE_ETHER_ADDR_LEN);
         sip ← on_mbuf buf (mload 4 (RTE_ETHER_HDR_LEN + arp_sip));
         _ ← send_arp RTE_ARP_OP_REPLY my_ip sha (rte_be_to_cpu_32 sip) tx_mbuf_pool cdq;
         printf "answering arp " []);
      _ ← printf "it is arp! opcode: %d, T ip: %x" [opcode; rte_cpu_to_be_32 tip];
      mret false
    else mret true.

(** Spins until [ns] nanoseconds have passed; the elapsed time is computed in
    [double] and truncated. *)
Definition elapsed_ns (start now : Z) : option Z :=
  f_to_u64 (f64_mul (f64_of_Z (u64 (now - start)))
    (f64_div (f64_of_Z 1000000000) (f64_of_Z rte_get_timer_hz))).
Definition wait (fuel : nat) (ns : Z) : M (machine W) unit :=
  start ← rte_get_timer_cycles;
  d ← demand (elapsed_ns start start);
  loop fuel (fun d =>
    if d <? ns then
      now ← rte_get_timer_cycles;
      d ← demand (elapsed_ns start now);
      mret (inl d)
    else mret (inr tt)) d.

Definition apply_delay_cycles (fuel : nat) (delay_cycles m : Z) : M (machine W) unit :=
  now ← rte_get_tsc_cycles;
  t ← rte_get_tsc_cycles;
  let end_ := u64 (t + u64 (delay_cycles * m)) in
  loop fuel (fun now =>
    if now <? end_ then now ← rte_get_tsc_cycles; mret (inl now) else mret (inr tt)) now.
End exp.

(** ** Addresses as text *)
Lemma MAKE_IP_ADDR_combine a b c d :
  byte_ok a -> byte_ok b -> byte_ok c -> byte_ok d ->
  MAKE_IP_ADDR a b c d = be_combine [a; b; c; d].
Proof.
  unfold byte_ok. intros. unfold MAKE_IP_ADDR.
  assert (Hs : forall x k, 0 <= k -> Z.shiftl x k = x * 2 ^ k) by (intros; by apply Z.shiftl_mul_pow2).
  rewrite u32_small by (rewrite Hs by done; change (2 ^ 24) with 16777216; lia).
  replace (Z.lor (Z.shiftl a 24) (Z.shiftl b 16)) with (Z.shiftl (a * 256 + b) 16).
  2:{ replace (Z.shiftl a 24) with (Z.shiftl (Z.shiftl a 8) 16) by (by rewrite Z.shiftl_shiftl by done).
      rewrite <- Z.shiftl_lor. f_equal. rewrite lor_shiftl_add by (change (2 ^ 8) with 256; lia).
      reflexivity. }
  replace (Z.lor (Z.shiftl (a * 256 + b) 16) (Z.shiftl c 8)) with (Z.shiftl ((a * 256 + b) * 256 + c) 8).
  2:{ replace (Z.shiftl (a * 256 + b) 16) with (Z.shiftl (Z.shiftl (a * 256 + b) 8) 8)
        by (by rewrite Z.shiftl_shiftl by done).
      rewrite <- Z.shiftl_lor. f_equal. rewrite lor_shiftl_add by (change (2 ^ 8) with 256; lia).
      reflexivity. }
  rewrite lor_shiftl_add by (change (2 ^ 8) with 256; lia).
  unfold be_combine. cbn [rev app le_combine]. change (2 ^ 8) with 256. lia.
Qed.

Lemma truncate_ge n s : (String.length s <= n)%nat -> truncate n s = s.
Proof. revert n. induction s as [|c s IH]; intros [|n] Hn; cbn in *; try done; [lia|]. by rewrite IH by lia. Qed.

Lemma length_append s t : String.length (s +:+ t) = (String.length s + String.length t)%nat.
Proof. induction s as [|c s IH]; [done|]. rewrite append_cons. cbn. by rewrite IH. Qed.

Lemma length_print_hhu z : (1 <= String.length (print_hhu z) <= 3)%nat.
Proof. unfold print_hhu. repeat case_if; rewrite ?length_append; cbn [String.length]; lia. Qed.

(** ** The decision about a received packet *)
Definition for_us (host : ether_addr) (r : list Z) : bool :=
  bool_decide (field 0 6 r = host) || bool_decide (field 0 6 r = replicate 6 255).
Definition is_arp (r : list Z) : bool := be 12 2 r =? RTE_ETHER_TYPE_ARP.
Definition asks_for (ip : Z) (r : list Z) : bool :=
  (be 20 2 r =? RTE_ARP_OP_REQUEST) && (be 38 4 r =? ip).
Definition valid_eth (host : ether_addr) (r : list Z) : bool := for_us host r && negb (is_arp r).

Section exp_proofs.
Context `{DpdkLaws} {W : Type} `{EnvLaws W}.
Implicit Types (s : machine W) (E : reason -> machine W -> Prop).

(** Sent while a packet was checked: nothing, or the answer to a request for
    our hardware address. *)
Definition hdr_events (my_ip : Z) (host : ether_addr) (r : list Z) (evs : list event) : Prop :=
  received evs = [] /\ untimed evs /\
  Forall (fun f => mb_data f = arp_frame RTE_ARP_OP_REPLY (macaddr 0) my_ip (field 22 6 r) (be 28 4 r)) (offered evs) /\
  (sent evs = [] \/
   for_us host r && is_arp r && asks_for my_ip r = true /\
   exists f, sent evs = [f] /\
     mb_data f = arp_frame RTE_ARP_OP_REPLY (macaddr 0) my_ip (field 22 6 r) (be 28 4 r)).

Lemma wp_check_eth_hdr my_ip host p b pool cdq (Q : bool -> machine W -> Prop) E s :
  heap_ok s -> heap s !! p = Some b -> room_ok b -> 0 <= my_ip < 2 ^ 32 ->
  (forall s' evs, frees_all s s' evs -> hdr_events my_ip host (mb_room b) evs ->
    Q (valid_eth host (mb_room b)) s') ->
  wp (check_eth_hdr my_ip host p pool cdq) Q E s.
Proof.
  intros Hs Hp Hb Hip HQ. unfold check_eth_hdr, print_mac. unfold valid_eth, hdr_events in HQ.
  wp_step. read_field 0%nat 6%nat. rewrite is_same_ether_addr_spec, is_broadcast_spec.
  fold (for_us host (mb_room b)). rewrite <- negb_orb. fold (for_us host (mb_room b)).
  destruct (for_us host (mb_room b)); cbn [negb andb] in HQ |- *.
  2:{ do 2 (wp_step; apply wp_printf). wp_step.
      apply (HQ _ [EvPrint "not our ether, here" []; EvPrint "addr: %x:%x:%x:%x:%x:%x" (field 0 6 (mb_room b))]);
        [|by split_and!; [..|left]].
      split_and!; try done. cbn. by rewrite <- app_assoc. }
  wp_step. read_field 12%nat 2%nat. rewrite be_to_cpu_16_field by (done || by apply Z.leb_le).
  fold (is_arp (mb_room b)). destruct (is_arp (mb_room b)); cbn [negb andb] in HQ |- *.
  2:{ wp_step. apply (HQ _ []); [apply frees_all_refl|by split_and!; [..|left]]. }
  wp_step. read_field 20%nat 2%nat. wp_step. read_field 38%nat 4%nat.
  rewrite le_field_eq_16, le_field_eq_32 by (done || by apply Z.leb_le).
  fold (asks_for my_ip (mb_room b)). wp_step.
  destruct (asks_for my_ip (mb_room b)); cbn [when].
  - wp_step. read_field 22%nat 6%nat. wp_step. read_field 28%nat 4%nat.
    wp_step. rewrite be_to_cpu_32_field by (done || by apply Z.leb_le).
    apply wp_send_arp; [done|by apply field_length, Z.leb_le|].
    intros s1 E1 E2 E3 (evs & Ht & Hr & Hun & Hoff & Hsent). apply wp_printf. wp_step. apply wp_printf. wp_step.
    eapply (HQ _ (evs ++ [_; _])); [split_and!; try done; cbn; rewrite Ht, <- !app_assoc; done|].
    change [?x; ?y] with ([x] ++ [y]). autorewrite with cnet. rewrite Hr. cbn [app].
    split; [done|]. split; [by repeat apply untimed_app|]. rewrite !app_nil_r. split; [done|]. destruct Hsent as [->|(f & -> & Hf)]; [by left|right].
    split; [done|]. by exists f.
  - wp_step. wp_step. apply wp_printf. wp_step. eapply (HQ _ [_]); [apply frees_all_log|].
    by split_and!; [..|left].
Qed.

(** Waiting changes nothing but the time. *)
Lemma wp_apply_delay fuel delay m (Q : unit -> machine W -> Prop) (E : reason -> machine W -> Prop) s :
  (forall w, Q tt (with_world w s)) -> (forall w, E OutOfFuel (with_world w s)) ->
  wp (apply_delay_cycles fuel delay m) Q E s.
Proof.
  intros HQ HE. unfold apply_delay_cycles, rte_get_tsc_cycles. do 2 (wp_step; apply wp_on_world).
  apply (wp_loop (fun _ s' => exists w, s' = with_world w s)).
  - by eexists.
  - intros now s' [w ->]. case_if; [|wp_step; apply HQ].
    wp_step. apply wp_on_world. wp_step. by eexists.
  - intros now s' [w ->]. apply HE.
Qed.

(** ** Properties *)

(** C26: [check_eth_hdr] accepts exactly the packets addressed to our hardware
    address or to all, ARP excepted; while doing so it sends at most one packet,
    the RFC 826 reply to the asker, and only to an ARP request for our address;
    the packet itself and every other buffer are left alone. *)
Theorem check_eth_hdr_correct my_ip host p b pool cdq s :
  heap_ok s -> heap s !! p = Some b -> room_ok b -> 0 <= my_ip < 2 ^ 32 ->
  wp (check_eth_hdr my_ip host p pool cdq)
    (fun r s' => r = for_us host (mb_room b) && negb (is_arp (mb_room b)) /\
      exists evs, frees_all s s' evs /\ hdr_events my_ip host (mb_room b) evs)
    (fun _ _ => False) s.
Proof. intros. eapply wp_check_eth_hdr; [done..|]. intros s' evs ? ?. split; [done|]. by exists evs. Qed.

(** The time stamp counter advances, at least while below 2^63. *)
Definition tsc_advances : Prop :=
  forall w, (tsc_cycles w).1 < 2 ^ 63 -> (tsc_cycles w).1 < (tsc_cycles (tsc_cycles w).2).1.

(** [apply_delay_cycles] waits and comes back: with a counter that advances,
    it returns after finitely many readings, the last of which is at least
    [delay_cycles * m] cycles past the one it started from; nothing else
    changes. *)
Theorem apply_delay_cycles_waits fuel delay m s :
  tsc_advances -> 0 <= delay * m ->
  let r1 := tsc_cycles (world s) in
  let r2 := tsc_cycles r1.2 in
  0 <= r1.1 < 2 ^ 63 -> r2.1 + delay * m < 2 ^ 63 ->
  (Z.to_nat (r2.1 + delay * m - r1.1) < fuel)%nat ->
  exists w, apply_delay_cycles fuel delay m s = (Ret tt, with_world (tsc_cycles w).2 s) /\
    r2.1 + delay * m <= (tsc_cycles w).1.
Proof.
  intros Hadv Hd r1 r2 Hr2 Hov Hfuel.
  pose proof (Hadv (world s) ltac:(apply Hr2)) as H12. fold r1 r2 in H12.
  assert (Hend : u64 (r2.1 + u64 (delay * m)) = r2.1 + delay * m)
    by (rewrite (u64_small (delay * m)) by lia; apply u64_small; lia).
  cut (wp (apply_delay_cycles fuel delay m)
    (fun _ s' => exists w, s' = with_world (tsc_cycles w).2 s /\ r2.1 + delay * m <= (tsc_cycles w).1)
    (fun _ _ => False) s).
  { intros (? & ? & Hrun & w & -> & Hw)%wp_result. exists w. rewrite Hrun. by destruct x. }
  unfold apply_delay_cycles, rte_get_tsc_cycles. do 2 (wp_step; apply wp_on_world).
  cbn [world with_world]. fold r1. fold r2. rewrite Hend. set (e := r2.1 + delay * m) in *.
  apply (wp_loop_measure (fun now s' => exists w, s' = with_world (tsc_cycles w).2 s /\
      now <= (tsc_cycles w).1 /\ (now < e /\ (tsc_cycles w).1 < 2 ^ 63 \/ now = (tsc_cycles w).1))
    (fun now _ => Z.to_nat (e - now))).
  - exists r1.2. fold r2. split_and!; [done|lia|]. unfold e. lia.
  - done.
  - intros now s' (w & -> & Hle & Hnow). case_if; cycle 1.
    + wp_step. exists w. split; [done|lia].
    + wp_step. apply wp_on_world. wp_step. cbn [world with_world].
      pose proof (Hadv w ltac:(lia)). split; [|lia]. exists (tsc_cycles w).2. split; [done|lia].
Qed.
End exp_proofs.


(** Reading back a printed address gives the address: [str_to_ip] inverts
    [ip_to_str] on every 32-bit address, the buffer of 16 bytes or more. *)
Theorem str_to_ip_to_str addr size :
  0 <= addr < 2 ^ 32 -> 16 <= size -> str_to_ip (ip_to_str addr size) = Some addr.
Proof.
  intros Ha Hsize.
  assert (Hbytes : Forall byte_ok (le_split 4 addr)) by apply le_split_bytes.
  assert (Hl : be_combine (rev (le_split 4 addr)) = addr).
  { change (rev (le_split 4 addr)) with (be_split 4 addr). rewrite be_combine_split. by apply Z.mod_small. }
  unfold ip_to_str. pose proof (length_le_split 4 addr) as Hlen.
  destruct (le_split 4 addr) as [|d [|c [|b [|a []]]]]; try done. cbn [nth].
  rewrite truncate_ge.
  2:{ rewrite !length_append. cbn [String.length].
      pose proof (length_print_hhu a). pose proof (length_print_hhu b).
      pose proof (length_print_hhu c). pose proof (length_print_hhu d). lia. }
  inversion Hbytes as [|? ? Bd Hb1]; inversion Hb1 as [|? ? Bc Hb2]; inversion Hb2 as [|? ? Bb Hb3];
    inversion Hb3 as [|? ? Ba _]; subst.
  assert (Hdot : forall t, stops_digits ("." +:+ t)) by done.
  assert (Hsc : forall t, scan_char "." ("." +:+ t) = Some t) by done.
  replace (print_hhu d) with (print_hhu d +:+ "")
    by (clear; induction (print_hhu d) as [|x y IH]; [done|rewrite append_cons, IH; done]).
  unfold str_to_ip.
  do 3 (rewrite scan_hhu_print by done; cbn [mbind option_bind]; rewrite Hsc; cbn [mbind option_bind]).
  rewrite scan_hhu_print by done. cbn [mbind option_bind].
  rewrite MAKE_IP_ADDR_combine by done. by f_equal.
Qed.

(** ** Witnesses *)
Lemma check_eth_hdr_correct_witness :
  let bytes := arp_frame RTE_ARP_OP_REQUEST mac_b 167772162 (repeat 255 6) 167772161 in
  wp (check_eth_hdr 167772161 mac_a 0 0 0)
    (fun r s' => r = false /\ exists evs, frees_all (holding quiet bytes) s' evs)
    (fun _ _ => False) (holding quiet bytes).
Proof.
  intros bytes. eapply wp_mono.
  - apply (check_eth_hdr_correct 167772161 mac_a 0 (packet bytes));
      [apply holding_ok|apply holding_lookup|apply packet_ok|split; [by apply Z.leb_le|by apply Z.ltb_lt]].
  - intros r s' (-> & evs & Hf & _). split; [vm_compute; reflexivity|by exists evs].
  - done.
Defined.

Lemma apply_delay_cycles_waits_witness :
  exists w, apply_delay_cycles 20 5 2 (boot quiet) = (Ret tt, with_world (tsc_cycles w).2 (boot quiet)) /\
    (tsc_cycles (tsc_cycles (world (boot quiet))).2).1 + 5 * 2 <= (tsc_cycles w).1.
Proof.
  apply (apply_delay_cycles_waits 20 5 2 (boot quiet));
    [exact sim_tick_advances|by apply Z.leb_le|by split; [apply Z.leb_le|apply Z.ltb_lt]
    |by apply Z.ltb_lt|by apply Nat.ltb_lt].
Defined.

Lemma str_to_ip_to_str_witness : str_to_ip (ip_to_str 167772161 20) = Some 167772161.
Proof. apply str_to_ip_to_str; [split; [by apply Z.leb_le|by apply Z.ltb_lt]|by apply Z.leb_le]. Defined.
