(* ===== verification/Server.v ===== *)
(** * The echo server (server.c)

    A worker polls its queues in turn. A packet that is for this host goes back
    to its sender with addresses and ports exchanged; every other buffer is freed.
    A queue rests for a number of cycles proportional to the packets it gave, and
    the worker stops when no client shows up for 60 seconds, or 2 seconds after
    the last packet. *)
From S2P Require Import Prelude CInt CFloat Monad Dpdk Sim Arp Exp.

Definition BURST_SIZE : Z := 1024.

(** The locals of [do_server] that live across iterations; [k] and
    [nb_pkts_process] are reset at every burst. *)
Record locals := Locals {
  q_index : Z;
  first_pkt : bool;
  throughput : Z;
  empty_burst : Z;
  start_time : Z;
  last_pkt_time : Z;
  sum_nb_rx : Z;
  count_rx : Z;
  queue_status : list Z;
  tx_buf : list nat;             (* 64 slots *)
  k : Z;
  nb_pkts_process : Z;
}.

Section server.
Context `{DpdkLib} {W : Type} `{DpdkEnv W}.
Variable cntx : context.

Definition my_ip : Z := src_ip cntx.
(** [uint32_t delay_cycles = cntx->delay_cycles]. *)
Definition delay32 : Z := u32 (delay_cycles cntx).

Definition free_and {A} (buf : nat) (a : A) : M (machine W) A :=
  _ ← rte_pktmbuf_free buf; mret a.

(** Exchanges source and destination at each layer; [ipv4_hdr] is the offset
    of the IPv4 header. *)
Definition swap_headers (ipv4_hdr : Z) : M mbuf unit :=
  let udp_hdr := ipv4_hdr + sizeof_ipv4_hdr in
  (* swap mac address *)
  tmp_addr ← mread eth_src RTE_ETHER_ADDR_LEN;
  dst_addr ← mread eth_dst RTE_ETHER_ADDR_LEN;
  _ ← mwrite eth_src dst_addr;
  _ ← mwrite eth_dst tmp_addr;
  (* swap ip address *)
  tmp_ip ← mload 4 (ipv4_hdr + ip_src);
  dst ← mload 4 (ipv4_hdr + ip_dst);
  _ ← mstore 4 (ipv4_hdr + ip_src) dst;
  _ ← mstore 4 (ipv4_hdr + ip_dst) tmp_ip;
  (* swap port *)
  tmp ← mload 2 (udp_hdr + l4_src_port);
  port ← mload 2 (udp_hdr + l4_dst_port);
  _ ← mstore 2 (udp_hdr + l4_src_port) port;
  mstore 2 (udp_hdr + l4_dst_port) tmp.

Definition ipv4_offset : Z :=
  if use_vlan cntx =? 0 then RTE_ETHER_HDR_LEN else RTE_ETHER_HDR_LEN + sizeof_vlan_hdr.
Definition wanted_type : Z :=
  if use_vlan cntx =? 0 then RTE_ETHER_TYPE_IPV4 else RTE_ETHER_TYPE_VLAN.

(** A valid packet was seen: the time, and the counters. *)
Definition count_packet (current_time : Z) (l : locals) : locals :=
  {| q_index := q_index l; first_pkt := true;
     throughput := u64 (throughput l + 1); empty_burst := empty_burst l;
     start_time := if first_pkt l then start_time l else current_time;
     last_pkt_time := current_time;
     sum_nb_rx := sum_nb_rx l; count_rx := count_rx l; queue_status := queue_status l;
     tx_buf := tx_buf l; k := k l; nb_pkts_process := u32 (nb_pkts_process l + 1) |}.
Definition add_echo (tb : list nat) (l : locals) : locals :=
  {| q_index := q_index l; first_pkt := first_pkt l; throughput := throughput l;
     empty_burst := empty_burst l; start_time := start_time l; last_pkt_time := last_pkt_time l;
     sum_nb_rx := sum_nb_rx l; count_rx := count_rx l; queue_status := queue_status l;
     tx_buf := tb; k := u64 (k l + 1); nb_pkts_process := nb_pkts_process l |}.

(** The body of the [for] loop over a received burst, after the check of the
    hardware address. *)
Definition handle_valid (current_time : Z) (buf : nat) (l : locals) : M (machine W) locals :=
  ether_type ← on_mbuf buf (mload 2 eth_type);
  if negb (rte_be_to_cpu_16 ether_type =? wanted_type) then free_and buf l else
  dst_addr ← on_mbuf buf (mload 4 (ipv4_offset + ip_dst));
  if negb (rte_be_to_cpu_32 dst_addr =? my_ip) then
    _ ← printf "ip address does not match" [];
    free_and buf l
  else
  let l := count_packet current_time l in
  if bidi cntx =? 0 then free_and buf l else
  _ ← on_mbuf buf (swap_headers ipv4_offset);
  tb ← demand (insertZ (k l) buf (tx_buf l));
  mret (add_echo tb l).

(** The body of the [for] loop over a received burst. *)
Definition process_pkt (current_time : Z) (buf : nat) (l : locals) : M (machine W) locals :=
  if do_arp cntx =? 0 then handle_valid current_time buf l else
  valid_pkt ← check_eth_hdr my_ip (my_eth cntx) buf (tx_mem_pool cntx) 0;
  if negb valid_pkt then
    _ ← printf "invalid packet" [];
    free_and buf l
  else handle_valid current_time buf l.

(** [for (i = nb_tx; i < k; i++) tx_buf[i - nb_tx] = tx_buf[i];] *)
Fixpoint move_front (idx : list Z) (nb_tx : Z) (tb : list nat) : option (list nat) :=
  match idx with
  | [] => Some tb
  | i :: idx => b ← lookupZ tb i; tb ← insertZ (i - nb_tx) b tb; move_front idx nb_tx tb
  end.

(** [while (k > 0)]: sends until the card has taken everything. *)
Definition tx_drain (fuel : nat) (qid : Z) : Z * list nat -> M (machine W) (list nat) :=
  loop fuel (fun '(k, tb) =>
    if 0 <? k then
      ps ← demand (if k <=? Z.of_nat (length tb) then Some (take (Z.to_nat (u16 k)) tb) else None);
      nb_tx ← rte_eth_tx_burst (dpdk_port_id cntx) qid ps;
      tb ← demand (move_front (seqZ nb_tx (k - nb_tx)) nb_tx tb);
      mret (inl (u64 (k - nb_tx), tb))
    else mret (inr tb)).

(** Once a second the throughput is printed and the counters are cleared. *)
Definition report (current_time delta_time : Z) (l : locals) : M (machine W) locals :=
  if rte_get_timer_hz <? delta_time then
    _ ← printf "TP: %lu" [throughput l];
    _ ← printf "Average burst size: %.2f" [sum_nb_rx l; count_rx l];
    mret {| q_index := q_index l; first_pkt := first_pkt l; throughput := 0;
            empty_burst := 0; start_time := current_time; last_pkt_time := last_pkt_time l;
            sum_nb_rx := 0; count_rx := 0; queue_status := queue_status l;
            tx_buf := tx_buf l; k := k l; nb_pkts_process := nb_pkts_process l |}
  else mret l.

(** The two parameters that are not read from the command line. The window
    is a conversion that may be out of range; its value is only looked at when
    the limit is on. *)
Definition token_limit : Z := 3000000.
Definition rate_limited : bool := false.
Definition limit_window (delta_time : Z) : option Z :=
  f_to_u64 (f64_mul (f64_of_Z token_limit)
    (f64_div (f64_of_Z delta_time) (f64_of_Z rte_get_timer_hz))).
Definition over_limit (delta_time : Z) (l : locals) : M (machine W) bool :=
  if rate_limited then w ← demand (limit_window delta_time); mret (w <=? throughput l)
  else mret false.

Definition next_queue (l : locals) (qi : Z) : locals :=
  {| q_index := qi; first_pkt := first_pkt l; throughput := throughput l;
     empty_burst := empty_burst l; start_time := start_time l; last_pkt_time := last_pkt_time l;
     sum_nb_rx := sum_nb_rx l; count_rx := count_rx l; queue_status := queue_status l;
     tx_buf := tx_buf l; k := k l; nb_pkts_process := nb_pkts_process l |}.
Definition count_empty (l : locals) : locals :=
  {| q_index := q_index l; first_pkt := first_pkt l; throughput := throughput l;
     empty_burst := u64 (empty_burst l + 1); start_time := start_time l;
     last_pkt_time := last_pkt_time l;
     sum_nb_rx := sum_nb_rx l; count_rx := count_rx l; queue_status := queue_status l;
     tx_buf := tx_buf l; k := k l; nb_pkts_process := nb_pkts_process l |}.
Definition begin_burst (sum cnt : Z) (l : locals) : locals :=
  {| q_index := q_index l; first_pkt := first_pkt l; throughput := throughput l;
     empty_burst := empty_burst l; start_time := start_time l; last_pkt_time := last_pkt_time l;
     sum_nb_rx := sum; count_rx := cnt; queue_status := queue_status l;
     tx_buf := tx_buf l; k := 0; nb_pkts_process := 0 |}.
Definition end_burst (qs : list Z) (tb : list nat) (l : locals) : locals :=
  {| q_index := q_index l; first_pkt := first_pkt l; throughput := throughput l;
     empty_burst := empty_burst l; start_time := start_time l; last_pkt_time := last_pkt_time l;
     sum_nb_rx := sum_nb_rx l; count_rx := count_rx l; queue_status := qs;
     tx_buf := tb; k := 0; nb_pkts_process := nb_pkts_process l |}.

(** What is done with a non-empty burst. *)
Definition serve_burst (fuel : nat) (qid current_time : Z) (rx_bufs : list nat) (l : locals)
    : M (machine W) locals :=
  sum ← demand (int_chk (sum_nb_rx l + Z.of_nat (length rx_bufs)));
  cnt ← demand (int_chk (count_rx l + 1));
  l ← forM rx_bufs (process_pkt current_time) (begin_burst sum cnt l);
  if bidi cntx =? 0 then mret l else
  t ← rte_get_timer_cycles;
  qs ← demand (insertZ qid (u64 (t + u32 (nb_pkts_process l * delay32))) (queue_status l));
  tb ← tx_drain fuel qid (k l, tx_buf l);
  mret (end_burst qs tb l).

(** The body of the main loop; [inr] leaves it. *)
Definition server_iter (fuel : nat) (exp_begin : Z) (l : locals) : M (machine W) (locals + locals) :=
  let hz := rte_get_timer_hz in
  run ← poll_running;
  if negb run then mret (inr l) else
  q ← demand (lookupZ (managed_queues cntx) (q_index l));
  let qid := u16 q in
  qi ← demand (if count_queues cntx =? 0 then None
               else Some (u32 (q_index l + 1) mod count_queues cntx));
  let l := next_queue l qi in
  current_time ← rte_get_timer_cycles;
  if negb (first_pkt l) && (u64 (60 * hz) <? u64 (current_time - exp_begin)) then mret (inr l) else
  let delta_time := u64 (current_time - start_time l) in
  l ← report current_time delta_time l;
  limited ← over_limit delta_time l;
  if (limited : bool) then mret (inl l) else
  st ← demand (lookupZ (queue_status l) qid);
  if current_time <? st then mret (inl l) else
  rx_bufs ← rte_eth_rx_burst (dpdk_port_id cntx) qid BURST_SIZE;
  if bool_decide (rx_bufs = []) then
    let l := count_empty l in
    if first_pkt l && (u64 (2 * hz) <? u64 (current_time - last_pkt_time l))
    then mret (inr l) else mret (inl l)
  else
    l ← serve_burst fuel qid current_time rx_bufs l;
    mret (inl l).

(** [cntx->running] is cleared at the end. *)
Definition stopped : context :=
  Context_ (mode cntx) (rx_mem_pool cntx) (tx_mem_pool cntx) (worker_id cntx) (dpdk_port_id cntx)
    (default_qid cntx) (my_eth cntx) (src_ip cntx) (src_port cntx) (count_queues cntx)
    (use_vlan cntx) (bidi cntx) (do_arp cntx) (delay_us cntx) (delay_cycles cntx)
    (managed_queues cntx) (duration cntx) (dst_ips cntx) (count_dst_ip cntx) (dst_port cntx)
    (payload_length cntx) 0 (count_flow cntx) (base_port_number cntx)
    (destination_distribution cntx) (queue_selection_distribution cntx) (rate_limit cntx)
    (rate cntx) (batch cntx).

Definition initial_locals (exp_begin : Z) : locals :=
  {| q_index := 0; first_pkt := false; throughput := 0; empty_burst := 0;
     start_time := exp_begin; last_pkt_time := 0; sum_nb_rx := 0; count_rx := 0;
     queue_status := replicate (Z.to_nat (count_queues cntx)) 0;
     tx_buf := replicate 64 0%nat; k := 0; nb_pkts_process := 0 |}.

(** Printing the managed queues reads the first [count_queues] of them. *)
Definition print_queues : M (machine W) unit :=
  forM (seqZ 0 (count_queues cntx)) (fun i _ =>
    q ← demand (lookupZ (managed_queues cntx) i); printf "%d " [q]) tt.

Definition do_server (fuel : nat) : M (machine W) (Z * context) :=
  _ ← printf "managed queues: " [];
  _ ← print_queues;
  _ ← printf "Running server" [];
  exp_begin ← rte_get_timer_cycles;
  l ← loop fuel (server_iter fuel exp_begin) (initial_locals exp_begin);
  _ ← printf "failed to push %ld" [0];
  _ ← printf "average cycles error %f" [0];
  mret (0, stopped).
End server.

(** ** What the server is meant to do *)

(** The packet sent back, with the IPv4 header at offset [o]. *)
Definition echo_room (o : nat) (r : list Z) : list Z :=
  field 6 6 r ++ field 0 6 r ++ field 12 o r ++ field (o + 16) 4 r ++ field (o + 12) 4 r ++
  field (o + 22) 2 r ++ field (o + 20) 2 r ++ drop (o + 24) r.

Lemma swap_headers_run (o : nat) b :
  o = 14%nat \/ o = 18%nat -> room_ok b ->
  swap_headers (Z.of_nat o) b = (Ret tt, set_room (echo_room o (mb_room b)) b).
Proof.
  intros Ho [Hlen Hbytes]. destruct b as [r dl l2 l3 fl]. cbn [mb_room] in *.
  unfold RTE_MBUF_DEFAULT_DATAROOM in Hlen.
  destruct (room_split 42 r) as (hd & tl & -> & Hhd & Htl); [lia|].
  apply Forall_app in Hbytes as [Hbytes _]. rewrite length_app, Hhd in Hlen. clear Htl.
  explode_list hd. decompose_Forall_hyps.
  assert (Hb : forall a b, byte_ok a -> byte_ok b -> Forall byte_ok [a; b]) by (intros; by rewrite !Forall_cons).
  assert (Hb4 : forall a b c d, byte_ok a -> byte_ok b -> byte_ok c -> byte_ok d -> Forall byte_ok [a; b; c; d]) by (intros; by rewrite !Forall_cons).
  destruct Ho as [-> | ->]; unfold swap_headers; layout.
  all: repeat first [rewrite (mstore_raw 4) by auto | rewrite (mstore_raw 2) by auto | buf_step]; reflexivity.
Qed.

(** The sum a ones'-complement checksum is computed from: 16-bit words in
    network order, an odd last byte padded. *)
Fixpoint sum16 (l : list Z) : Z :=
  match l with
  | a :: b :: l => a * 256 + b + sum16 l
  | [a] => a * 256
  | [] => 0
  end.

Lemma echo_room_spec (o : nat) r :
  o = 14%nat \/ o = 18%nat -> (42 <= length r)%nat ->
  length (echo_room o r) = length r /\ echo_room o (echo_room o r) = r /\
  field 0 6 (echo_room o r) = field 6 6 r /\ field 6 6 (echo_room o r) = field 0 6 r /\
  field 12 (o + 0) (echo_room o r) = field 12 (o + 0) r /\
  field (o + 12) 4 (echo_room o r) = field (o + 16) 4 r /\
  field (o + 16) 4 (echo_room o r) = field (o + 12) 4 r /\
  field (o + 20) 2 (echo_room o r) = field (o + 22) 2 r /\
  field (o + 22) 2 (echo_room o r) = field (o + 20) 2 r /\
  drop (o + 24) (echo_room o r) = drop (o + 24) r.
Proof.
  intros Ho Hlen. destruct (room_split 42 r) as (hd & tl & -> & Hhd & _); [lia|]. clear Hlen.
  explode_list hd. destruct Ho as [-> | ->]; split_and!; reflexivity.
Qed.

Lemma echo_room_sums (o : nat) r m :
  o = 14%nat \/ o = 18%nat -> (42 <= length r)%nat ->
  sum16 (field o 20 (echo_room o r)) = sum16 (field o 20 r) /\
  sum16 (field (o + 12) (12 + m) (echo_room o r)) = sum16 (field (o + 12) (12 + m) r).
Proof.
  intros Ho Hlen. destruct (room_split 42 r) as (hd & tl & -> & Hhd & _); [lia|]. clear Hlen.
  explode_list hd. destruct Ho as [-> | ->]; split; unfold field; cbn -[Z.mul Z.add];
    rewrite ?take_0, ?drop_0; cbn -[Z.mul Z.add]; ring.
Qed.

Lemma echo_room_ok (o : nat) b :
  o = 14%nat \/ o = 18%nat -> room_ok b -> room_ok (set_room (echo_room o (mb_room b)) b).
Proof.
  intros Ho [Hlen Hb]. destruct (echo_room_spec o (mb_room b) Ho) as [Hl _].
  { unfold RTE_MBUF_DEFAULT_DATAROOM in Hlen. lia. }
  split; cbn [mb_room set_room]; [by rewrite Hl|]. unfold echo_room.
  repeat (apply Forall_app; split); try (by apply field_bytes); by apply Forall_drop.
Qed.

(** [move_front] shifts the unsent pointers to the front. *)
Lemma move_front_spec m i n tb :
  (n <= i)%nat -> (i + m <= length tb)%nat ->
  exists tb', move_front (seqZ (Z.of_nat i) (Z.of_nat m)) (Z.of_nat n) tb = Some tb' /\
    length tb' = length tb /\
    forall p, tb' !! p =
      if decide (i - n <= p < i - n + m)%nat then tb !! (p + n)%nat else tb !! p.
Proof.
  revert i tb. induction m as [|m IH]; intros i tb Hni Hlen.
  - exists tb. split_and!; [done|done|]. intros p. by rewrite decide_False by lia.
  - rewrite seqZ_cons by lia. replace (Z.succ (Z.of_nat i)) with (Z.of_nat (S i)) by lia.
    replace (Z.pred (Z.of_nat (S m))) with (Z.of_nat m) by lia. cbn [move_front].
    destruct (lookup_lt_is_Some_2 tb i) as [b Hb]; [lia|].
    assert (Hl : lookupZ tb (Z.of_nat i) = Some b) by (apply lookupZ_Some; rewrite Nat2Z.id; split; [lia|done]).
    rewrite Hl. cbn [mbind option_bind].
    assert (Hins : insertZ (Z.of_nat i - Z.of_nat n) b tb = Some (<[(i - n)%nat := b]> tb)).
    { apply insertZ_Some. replace (Z.to_nat (Z.of_nat i - Z.of_nat n)) with (i - n)%nat by lia. split; [lia|done]. }
    rewrite Hins. cbn [mbind option_bind].
    destruct (IH (S i) (<[(i - n)%nat := b]> tb)) as (tb' & Hm & Hl' & Hp); [lia|by rewrite length_insert; lia|].
    exists tb'. split; [done|]. split; [by rewrite Hl', length_insert|]. intros p. rewrite Hp.
    destruct (decide (p = (i - n)%nat)) as [->|Hne].
    + rewrite decide_False, decide_True, list_lookup_insert_eq by lia. by replace (i - n + n)%nat with i by lia.
    + repeat case_decide; try lia; rewrite list_lookup_insert_ne by lia; done.
Qed.

Lemma move_front_take n k tb :
  (n <= k <= length tb)%nat ->
  exists tb', move_front (seqZ (Z.of_nat n) (Z.of_nat k - Z.of_nat n)) (Z.of_nat n) tb = Some tb' /\
    length tb' = length tb /\ take (k - n) tb' = drop n (take k tb).
Proof.
  intros Hn. replace (Z.of_nat k - Z.of_nat n) with (Z.of_nat (k - n)) by lia.
  destruct (move_front_spec (k - n) n n tb) as (tb' & Hm & Hl & Hp); [lia..|].
  exists tb'. split_and!; [done..|]. apply list_eq. intros p. rewrite lookup_drop.
  destruct (decide (p < k - n)%nat).
  - rewrite !lookup_take_lt, Hp by lia. rewrite decide_True by lia. by rewrite Nat.add_comm.
  - by rewrite !lookup_take_ge by lia.
Qed.

Section server_proofs.
Context `{DpdkLaws} {W : Type} `{EnvLaws W}.
Variable cntx : context.
Implicit Types (s : machine W) (E : reason -> machine W -> Prop) (l : locals).

Definition ipo : nat := if use_vlan cntx =? 0 then 14 else 18.
(** A packet for this server: the hardware address check (when ARP is used),
    the type, the address. *)
Definition accepts (r : list Z) : bool :=
  ((do_arp cntx =? 0) || valid_eth (my_eth cntx) r) &&
  ((be 12 2 r =? wanted_type cntx) && (be (ipo + 16) 4 r =? my_ip cntx)).
Definition echo (b : mbuf) : mbuf := set_room (echo_room ipo (mb_room b)) b.
(** The packets a worker owes for the packets it got. *)
Definition answers (bs : list mbuf) : list mbuf :=
  if bidi cntx =? 0 then [] else echo <$> filter (fun b => accepts (mb_room b) = true) bs.
Definition accepted (bs : list mbuf) : Z :=
  Z.of_nat (length (filter (fun b => accepts (mb_room b) = true) bs)).

Definition is_data (b : mbuf) : Prop := is_arp (mb_room b) = false.
#[export] Instance is_data_dec b : Decision (is_data b).
Proof. unfold is_data. apply _. Defined.

Lemma answers_app bs bs' : answers (bs ++ bs') = answers bs ++ answers bs'.
Proof. unfold answers. case_if; [done|]. by rewrite filter_app, fmap_app. Qed.

Lemma accepted_snoc bs b :
  accepted (bs ++ [b]) = accepted bs + (if accepts (mb_room b) then 1 else 0).
Proof.
  unfold accepted. rewrite filter_app, length_app. destruct (accepts (mb_room b)) eqn:E1.
  - rewrite filter_cons_True by done. cbn. lia.
  - rewrite filter_cons_False by congruence. cbn. lia.
Qed.

Lemma answers_one b :
  answers [b] = if accepts (mb_room b) && negb (bidi cntx =? 0) then [echo b] else [].
Proof.
  unfold answers. destruct (bidi cntx =? 0); [by rewrite andb_false_r|]. rewrite andb_true_r.
  destruct (accepts (mb_room b)) eqn:E1; [by rewrite filter_cons_True by done|].
  by rewrite filter_cons_False by congruence.
Qed.

Lemma length_answers bs : bidi cntx <> 0 -> Z.of_nat (length (answers bs)) = accepted bs.
Proof.
  intros Hb. unfold answers, accepted. apply Z.eqb_neq in Hb. rewrite Hb. by rewrite length_fmap.
Qed.

(** ARP replies are the only other packets a server sends. *)
Definition replies (evs : list event) : Prop :=
  received evs = [] /\ Forall (fun b => ~ is_data b) (sent evs) /\ untimed evs /\
  Forall (fun b => ~ is_data b) (offered evs).

Lemma replies_app e1 e2 : replies e1 -> replies e2 -> replies (e1 ++ e2).
Proof.
  intros (R1 & S1 & U1 & O1) (R2 & S2 & U2 & O2). unfold replies. autorewrite with cnet.
  rewrite R1, R2, !Forall_app. by split_and!; [..|apply untimed_app| |].
Qed.
Lemma replies_print evs what args : replies evs -> replies (evs ++ [EvPrint what args]).
Proof. intros Hr. by apply replies_app. Qed.

Lemma arp_frame_not_data op sm sip de dip f :
  length sm = 6%nat -> length de = 6%nat -> mb_data f = arp_frame op sm sip de dip -> ~ is_data f.
Proof.
  intros H1' H2' Hf. unfold is_data, is_arp.
  assert (Hr : mb_room f = mb_data f ++ drop (Z.to_nat (data_len f)) (mb_room f))
    by (unfold mb_data; by rewrite take_drop).
  rewrite Hr, Hf. explode_list sm. explode_list de. done.
Qed.

Lemma hdr_events_replies ip host r evs :
  (length (field 22 6 r) = 6)%nat -> hdr_events ip host r evs -> replies evs.
Proof.
  intros Hr (Hrec & Hun & Hoff & Hs).
  assert (Hnd : forall f, mb_data f = arp_frame RTE_ARP_OP_REPLY (macaddr 0) ip (field 22 6 r) (be 28 4 r) -> ~ is_data f)
    by (intros f Hf; eapply arp_frame_not_data; [apply macaddr_ok|exact Hr|exact Hf]).
  split_and!; [done| |done|by eapply Forall_impl].
  destruct Hs as [->|(_ & f & -> & Hf)]; [done|]. by apply Forall_singleton, Hnd.
Qed.

(** The locals and the heap after a packet that is ([acc]) or is not accepted. *)
Definition after_pkt (acc : bool) (now : Z) (p : nat) (l : locals) : locals :=
  if acc then
    if bidi cntx =? 0 then count_packet now l
    else add_echo (<[Z.to_nat (k l) := p]> (tx_buf l)) (count_packet now l)
  else l.
Definition kept (acc : bool) : bool := acc && negb (bidi cntx =? 0).
Definition heap_after (acc : bool) (p : nat) (b : mbuf) (h : gmap nat mbuf) : gmap nat mbuf :=
  if kept acc then <[p := echo b]> h else delete p h.

(** The effect of the loop body on one packet: echoed when it is accepted,
    freed otherwise; a full [tx_buf] is overrun. *)
Definition pkt_post (acc : bool) now p b l s (Q : locals -> machine W -> Prop) E : Prop :=
  (kept acc = true -> 64 <= k l -> forall s', E Undef s') /\
  (forall s' evs, (kept acc = true -> k l < 64) ->
    heap s' = heap_after acc p b (heap s) -> (next s <= next s')%nat -> rng s' = rng s ->
    trace s' = trace s ++ evs -> replies evs -> Q (after_pkt acc now p l) s').

Lemma ipv4_offset_nat : ipv4_offset cntx = Z.of_nat ipo.
Proof. unfold ipv4_offset, ipo. by case_if. Qed.
Lemma ipo_cases : ipo = 14%nat \/ ipo = 18%nat.
Proof. unfold ipo. case_if; auto. Qed.

Lemma pkt_post_drop now p b l s evs s1 Q E :
  pkt_post false now p b l s Q E -> heap s1 = heap s -> (next s <= next s1)%nat -> rng s1 = rng s ->
  trace s1 = trace s ++ evs -> replies evs -> Q l (with_heap (delete p (heap s1)) s1).
Proof. intros [_ HQ] E1 E2 E3 E4 Hr. apply (HQ _ evs); cbn; [done|by rewrite E1|done..]. Qed.

Lemma wp_free_and {A} p b (a : A) (Q : A -> machine W -> Prop) E s :
  heap s !! p = Some b -> Q a (with_heap (delete p (heap s)) s) -> wp (free_and p a) Q E s.
Proof. intros. unfold free_and. wp_step. eapply wp_free; [done|]. by wp_step. Qed.

Lemma wp_handle_valid now p b l Q E s evs s0 :
  heap s !! p = Some b -> room_ok b -> 0 <= k l -> length (tx_buf l) = 64%nat ->
  heap s = heap s0 -> (next s0 <= next s)%nat -> rng s = rng s0 -> trace s = trace s0 ++ evs ->
  replies evs ->
  pkt_post ((be 12 2 (mb_room b) =? wanted_type cntx) && (be (ipo + 16) 4 (mb_room b) =? my_ip cntx))
    now p b l s0 Q E ->
  wp (handle_valid cntx now p l) Q E s.
Proof.
  intros Hp Hb Hk Htb E1 E2 E3 E4 Hr HQ. unfold handle_valid.
  wp_step. read_field 12%nat 2%nat. rewrite be_to_cpu_16_field by (done || by apply Z.leb_le).
  destruct (be 12 2 (mb_room b) =? wanted_type cntx); cbn [negb andb] in HQ |- *.
  2:{ eapply wp_free_and; [done|]. by eapply pkt_post_drop. }
  wp_step. rewrite ipv4_offset_nat. pose proof ipo_cases as Hipo.
  eapply (wp_mload _ (ipo + 16) 4); [done|done|unfold ip_dst; lia|done|unfold RTE_MBUF_DEFAULT_DATAROOM; lia|].
  rewrite be_to_cpu_32_field by (done || unfold RTE_MBUF_DEFAULT_DATAROOM; lia).
  destruct (be (ipo + 16) 4 (mb_room b) =? my_ip cntx); cbn [negb] in HQ |- *.
  2:{ wp_step. apply wp_printf. eapply wp_free_and; [done|].
      eapply (pkt_post_drop _ _ _ _ _ (evs ++ [_])); cbn; try done; [by rewrite E4, <- app_assoc|].
      by apply replies_print. }
  destruct HQ as [HE HQ]. unfold kept, heap_after, after_pkt in HE, HQ. unfold kept in HQ.
  cbn [andb] in HE, HQ.
  destruct (bidi cntx =? 0); cbn [negb] in HE, HQ.
  { eapply wp_free_and; [done|]. by apply (HQ _ evs); cbn; [|rewrite E1| | | |]. }
  wp_step. eapply wp_on_mbuf; [done|by apply swap_headers_run|]. fold (echo b).
  do 2 wp_step.
  { wp_step. apply insertZ_Some in Hd as [Hlt ->]. cbn in Hlt. rewrite Htb in Hlt.
    apply (HQ _ evs); cbn; [lia|by rewrite E1|done..]. }
  apply HE; [done|]. destruct (Z.le_gt_cases 64 (k l)) as [|Hlt]; [done|exfalso].
  assert (Hins : insertZ (k l) p (tx_buf l) = Some (<[Z.to_nat (k l) := p]> (tx_buf l)))
    by (apply insertZ_Some; split; [rewrite Htb; lia|done]).
  cbn in Hd. congruence.
Qed.

Lemma wp_process_pkt now p b l Q E s :
  heap_ok s -> heap s !! p = Some b -> room_ok b -> 0 <= my_ip cntx < 2 ^ 32 ->
  0 <= k l -> length (tx_buf l) = 64%nat ->
  pkt_post (accepts (mb_room b)) now p b l s Q E ->
  wp (process_pkt cntx now p l) Q E s.
Proof.
  intros Hs Hp Hb Hip Hk Htb HQ. unfold process_pkt. unfold accepts in HQ.
  destruct (do_arp cntx =? 0); cbn [orb andb] in HQ.
  { eapply (wp_handle_valid _ _ _ _ _ _ _ []); try done. by rewrite app_nil_r. }
  wp_step. eapply wp_check_eth_hdr; [done..|]. intros s1 evs (E1 & E2 & E3 & E4) Hev.
  apply hdr_events_replies in Hev; [|by apply field_length, Z.leb_le].
  destruct (valid_eth (my_eth cntx) (mb_room b)); cbn [negb andb] in HQ |- *.
  { eapply wp_handle_valid; try done. by rewrite E1. }
  wp_step. apply wp_printf. eapply wp_free_and; [cbn; by rewrite E1|].
  eapply (pkt_post_drop _ _ _ _ _ (evs ++ [_])); cbn; try done; [by rewrite E4, <- app_assoc|].
  by apply replies_print.
Qed.

(** *** A whole burst *)

(** The locals [l] after the packets [pre] of a burst that began with [l0];
    [kp] are the slots of [tx_buf] in use. *)
Record burst_locals (now : Z) (l0 : locals) (pre : list mbuf) (kp : list nat) (l : locals) : Prop := {
  bl_k : k l = Z.of_nat (length kp);
  bl_tx : take (length kp) (tx_buf l) = kp;
  bl_len : length (tx_buf l) = 64%nat;
  bl_same : (q_index l, empty_burst l, sum_nb_rx l, count_rx l, queue_status l) =
            (q_index l0, empty_burst l0, sum_nb_rx l0, count_rx l0, queue_status l0);
  bl_throughput : throughput l = u64 (throughput l0 + accepted pre);
  bl_nb : nb_pkts_process l = u32 (accepted pre);
  bl_first : first_pkt l = first_pkt l0 || (0 <? accepted pre);
  bl_last : last_pkt_time l = if 0 <? accepted pre then now else last_pkt_time l0;
  bl_start : start_time l =
    (if negb (first_pkt l0) && (0 <? accepted pre) then now else start_time l0);
}.

Lemma accepted_nonneg pre : 0 <= accepted pre.
Proof. unfold accepted. lia. Qed.

Lemma burst_locals_nil now l :
  k l = 0 -> nb_pkts_process l = 0 -> length (tx_buf l) = 64%nat -> 0 <= throughput l < 2 ^ 64 ->
  burst_locals now l [] [] l.
Proof.
  intros Hk Hnb Htb Ht. constructor; try done.
  - change (accepted []) with 0. by rewrite Z.add_0_r, u64_small.
  - by rewrite orb_false_r.
  - by rewrite andb_false_r.
Qed.

Lemma burst_locals_step now l0 pre kp l b p :
  let acc := accepts (mb_room b) in
  burst_locals now l0 pre kp l -> (kept acc = true -> k l < 64) ->
  burst_locals now l0 (pre ++ [b]) (if kept acc then kp ++ [p] else kp) (after_pkt acc now p l).
Proof.
  intros acc Hl Hk. pose proof (accepted_nonneg pre) as Hn.
  destruct Hl as [B1 B2 B3 B4 B5 B6 B7 B8 B9]. unfold kept, after_pkt in *.
  destruct acc eqn:Eacc; unfold acc in Eacc; cbn [andb] in *.
  2:{ constructor; rewrite ?accepted_snoc, ?Eacc, ?Z.add_0_r; done. }
  assert (Hpos : (0 <? accepted pre + 1) = true) by (apply Z.ltb_lt; lia).
  destruct (bidi cntx =? 0); cbn [negb] in *; constructor; cbn;
    rewrite ?accepted_snoc, ?Eacc, ?Hpos, ?B5, ?B6, ?u64_add_l, ?u32_add_l, ?orb_true_r, ?andb_true_r;
    try done; try (by rewrite Z.add_assoc).
  all: try (rewrite B7, B9; destruct (first_pkt l0), (0 <? accepted pre); done).
  - specialize (Hk eq_refl). rewrite length_app. cbn. rewrite u64_small; lia.
  - specialize (Hk eq_refl). rewrite length_app, B1, Nat2Z.id. cbn. rewrite Nat.add_1_r.
    erewrite take_S_r by (apply list_lookup_insert_eq; lia). rewrite take_insert_ge by lia. by rewrite B2.
  - by rewrite length_insert.
Qed.
Lemma answers_kept b : answers [b] = if kept (accepts (mb_room b)) then [echo b] else [].
Proof. apply answers_one. Qed.

Lemma wp_process_burst now k0 bs h0 l0 (Q : locals -> machine W -> Prop) E s :
  Forall room_ok bs -> 0 <= my_ip cntx < 2 ^ 32 ->
  heap s = insert_from k0 bs h0 -> (forall p, is_Some (h0 !! p) -> (p < k0)%nat) ->
  (k0 + length bs <= next s)%nat -> burst_locals now l0 [] [] l0 ->
  ((64 < length (answers bs))%nat -> forall s', E Undef s') ->
  (forall l' s' evs kp, burst_locals now l0 bs kp l' -> holds kp (answers bs) (heap s') h0 ->
    (length kp <= 64)%nat -> (forall p, is_Some (heap s' !! p) -> (p < k0 + length bs)%nat) ->
    (next s <= next s')%nat -> rng s' = rng s -> trace s' = trace s ++ evs -> replies evs -> Q l' s') ->
  wp (forM (seq k0 (length bs)) (process_pkt cntx now) l0) Q E s.
Proof.
  intros Hok Hip Hheap Hh0 Hnext Hl0 HE HQ.
  apply (wp_forM (fun lst l s1 => exists pre post kp h evs, bs = pre ++ post /\
    lst = seq (k0 + length pre) (length post) /\ heap s1 = insert_from (k0 + length pre) post h /\
    (forall p, is_Some (h !! p) -> (p < k0 + length pre)%nat) /\ holds kp (answers pre) h h0 /\
    (length kp <= 64)%nat /\ burst_locals now l0 pre kp l /\ (next s <= next s1)%nat /\
    rng s1 = rng s /\ trace s1 = trace s ++ evs /\ replies evs)).
  - exists [], bs, [], h0, []. rewrite !Nat.add_0_r, app_nil_r.
    unfold answers. cbn. split_and!; try done; [|lia]. case_if; apply holds_nil.
  - intros p lst l s1 (pre & [|b post] & kp & h & evs & Hbs & Hlst & Hs1 & Hh & Hk & Hkp & Hl & Hn1 & Hr1 & Ht1 & Hrep);
      [done|]. cbn [length seq] in Hlst. injection Hlst as -> ->.
    rewrite Hbs in Hok. apply Forall_app in Hok as [_ Hok]. inversion Hok as [|? ? Hb _]; subst.
    pose proof (bl_k _ _ _ _ _ Hl) as Hkl. pose proof (holds_length _ _ _ _ Hk) as Hka.
    apply (wp_process_pkt _ _ b); [| |done|done|lia|by eapply bl_len|].
    { rewrite length_app in Hnext. intros q. rewrite Hs1. apply insert_from_bound; [done|cbn in *; lia]. }
    { rewrite Hs1. apply lookup_insert_eq. }
    split.
    { intros Hacc H64. apply HE. rewrite (app_assoc pre [b] post : pre ++ b :: post = _), !answers_app.
      rewrite answers_kept, Hacc, !length_app. cbn. lia. }
    intros s2 e2 Hlt Hs2 Hn2 Hr2 Ht2 Hrep2.
    exists (pre ++ [b]), post, (if kept (accepts (mb_room b)) then kp ++ [(k0 + length pre)%nat] else kp),
      (if kept (accepts (mb_room b)) then <[(k0 + length pre)%nat := echo b]> h else h), (evs ++ e2).
    rewrite length_app, Nat.add_1_r, Nat.add_succ_r, answers_app, answers_kept. rewrite <- app_assoc.
    split_and!; [done|done| | | | |by apply burst_locals_step|lia|congruence|by rewrite Ht2, Ht1, app_assoc|].
    + rewrite Hs2, Hs1. unfold heap_after. destruct (kept _); [apply insert_from_keep|].
      by apply delete_insert_from_1.
    + intros q Hq. destruct (kept _); [|specialize (Hh q Hq); lia].
      destruct (decide (q = (k0 + length pre)%nat)) as [->|Hne]; [lia|].
      rewrite lookup_insert_ne in Hq by done. specialize (Hh q Hq). lia.
    + destruct (kept _); [|by rewrite app_nil_r]. apply holds_snoc; [done|].
      destruct (h !! _) eqn:Eh; [|done]. specialize (Hh _ ltac:(by eexists)). lia.
    + destruct (kept _); [|done]. rewrite length_app. specialize (Hlt eq_refl). cbn. lia.
    + by apply replies_app.
  - intros l s1 (pre & [|b post] & kp & h & evs & Hbs & Hlst & Hs1 & Hh & Hk & Hkp & Hl & Hn1 & Hr1 & Ht1 & Hrep);
      [|done]. rewrite app_nil_r in Hbs. subst pre. cbn in Hs1. subst h. eapply HQ; done.
Qed.

(** *** Sending *)
Lemma wp_tx_drain fuel qid tb kp kb h0 (Q : list nat -> machine W -> Prop) E s :
  length tb = 64%nat -> (length kp <= 64)%nat -> take (length kp) tb = kp -> holds kp kb (heap s) h0 ->
  (forall tb' s' evs, length tb' = 64%nat -> heap s' = h0 -> next s' = next s -> rng s' = rng s ->
    trace s' = trace s ++ evs -> received evs = [] -> sent evs = kb -> Q tb' s') ->
  (forall s' evs n, trace s' = trace s ++ evs -> received evs = [] -> sent evs = take n kb ->
    holds (drop n kp) (drop n kb) (heap s') h0 -> E OutOfFuel s') ->
  wp (tx_drain cntx fuel qid (Z.of_nat (length kp), tb)) Q E s.
Proof.
  intros Htb Hkp Htake Hh HQ HE.
  apply (wp_loop (fun '(k, tb) s1 => exists n evs, (n <= length kp)%nat /\
    k = Z.of_nat (length (drop n kp)) /\ length tb = 64%nat /\
    take (length (drop n kp)) tb = drop n kp /\ holds (drop n kp) (drop n kb) (heap s1) h0 /\
    next s1 = next s /\ rng s1 = rng s /\ trace s1 = trace s ++ evs /\ received evs = [] /\
    sent evs = take n kb)).
  - exists 0%nat, []. rewrite !drop_0, app_nil_r. split_and!; done || lia.
  - intros [k tb1] s1 (n & evs & Hn & -> & Hl1 & Ht1 & Hh1 & Hn1 & Hr1 & Htr & Hrec & Hsent).
    set (kp1 := drop n kp) in *. set (kb1 := drop n kb) in *.
    assert (Hk1 : (length kp1 <= 64)%nat) by (unfold kp1; rewrite length_drop; lia).
    pose proof (holds_length _ _ _ _ Hh1) as Hkb1.
    destruct (Z.ltb_spec 0 (Z.of_nat (length kp1))); cycle 1.
    { wp_step. apply (HQ _ _ evs); try done.
      - destruct kp1; [|cbn in *; lia]. by destruct Hh1 as (_ & _ & <-).
      - rewrite Hsent. apply take_ge. unfold kp1 in *. rewrite length_drop in *.
        rewrite <- (holds_length _ _ _ _ Hh). lia. }
    wp_step. rewrite Hl1. change (Z.of_nat 64) with 64.
    replace (Z.of_nat (length kp1) <=? 64) with true by (symmetry; apply Z.leb_le; lia).
    rewrite u16_small, Nat2Z.id, Ht1 by lia. wp_step; [|done]. injection Hd as <-.
    wp_step. eapply wp_tx; [by eapply holds_mapM|]. intros w c Hc.
    destruct (move_front_take (Z.to_nat c) (length kp1) tb1) as (tb2 & Hm & Hl2 & Ht2); [lia|].
    rewrite !Z2Nat.id in Hm by lia.
    do 2 wp_step; [|congruence]. assert (a = tb2) as -> by congruence. wp_step.
    exists (n + Z.to_nat c)%nat, (evs ++ [EvTx (dpdk_port_id cntx) qid (take (Z.to_nat c) kb1) (drop (Z.to_nat c) kb1)]).
    rewrite <- !drop_drop. fold kp1. fold kb1. rewrite length_drop.
    split_and!; cbn; try done; try congruence.
    + unfold kp1 in *. rewrite length_drop in *. lia.
    + rewrite u64_small by lia. lia.
    + by apply holds_drop.
    + by rewrite Htr, app_assoc.
    + autorewrite with cnet. by rewrite Hrec.
    + autorewrite with cnet. rewrite Hsent. unfold kb1. by rewrite take_take_drop.
  - intros [k tb1] s1 (n & evs & ? & ? & ? & ? & ? & ? & ? & ? & ? & ?). by eapply HE.
Qed.

(** *** One burst, from reception to the last packet sent *)
Lemma answers_data bs : Forall room_ok bs -> Forall is_data (answers bs).
Proof.
  intros Hok. unfold answers. case_if; [done|]. apply Forall_fmap, Forall_forall.
  intros b [Hacc Hb]%list_elem_of_filter. rewrite Forall_forall in Hok. specialize (Hok _ Hb).
  unfold accepts in Hacc. apply andb_true_iff in Hacc as [_ [Ht _]%andb_true_iff].
  apply Z.eqb_eq in Ht. cbn. unfold is_data, is_arp, echo. cbn [mb_room set_room].
  assert (Hf : be 12 2 (echo_room ipo (mb_room b)) = be 12 2 (mb_room b)).
  { unfold be. f_equal. unfold echo_room, field at 1.
    rewrite app_assoc, drop_app_length' by
      (rewrite length_app, !field_length by (done || by apply Z.leb_le); done).
    rewrite take_app_le by (rewrite field_length by (done || pose proof ipo_cases; unfold RTE_MBUF_DEFAULT_DATAROOM; lia);
      pose proof ipo_cases; lia).
    unfold field. rewrite take_take. f_equal. pose proof ipo_cases. lia. }
  rewrite Hf, Ht. unfold wanted_type. by case_if.
Qed.

Lemma filter_replies evs : replies evs -> filter is_data (sent evs) = [].
Proof.
  intros (_ & Hs & _). induction Hs as [|b l Hb _ IH]; [done|]. by rewrite filter_cons_False.
Qed.

Lemma filter_all (bs : list mbuf) : Forall is_data bs -> filter is_data bs = bs.
Proof. induction 1 as [|b bs Hb _ IH]; [done|]. rewrite filter_cons_True by done. by rewrite IH. Qed.

(** The locals after a burst: one more second's worth of counters. *)
Record burst_done (now : Z) (bs : list mbuf) (l l' : locals) : Prop := {
  bd_index : q_index l' = q_index l;
  bd_status : length (queue_status l') = length (queue_status l);
  bd_tx : length (tx_buf l') = 64%nat;
  bd_sum : sum_nb_rx l' = sum_nb_rx l + Z.of_nat (length bs);
  bd_count : count_rx l' = count_rx l + 1;
  bd_throughput : throughput l' = u64 (throughput l + accepted bs);
  bd_first : first_pkt l' = first_pkt l || (0 <? accepted bs);
  bd_last : last_pkt_time l' = if 0 <? accepted bs then now else last_pkt_time l;
}.

Lemma wp_serve_burst fuel qid now k0 bs h0 l (Q : locals -> machine W -> Prop) E s :
  Forall room_ok bs -> 0 <= my_ip cntx < 2 ^ 32 -> length (tx_buf l) = 64%nat ->
  0 <= throughput l < 2 ^ 64 -> 0 <= qid < Z.of_nat (length (queue_status l)) ->
  0 <= sum_nb_rx l <= INT_MAX - Z.of_nat (length bs) -> 0 <= count_rx l <= INT_MAX - 1 ->
  heap s = insert_from k0 bs h0 -> (forall p, is_Some (h0 !! p) -> (p < k0)%nat) ->
  (k0 + length bs <= next s)%nat ->
  ((64 < length (answers bs))%nat -> forall s', E Undef s') ->
  (forall l' s' evs, burst_done now bs l l' -> heap s' = h0 -> (next s <= next s')%nat ->
    rng s' = rng s -> trace s' = trace s ++ evs -> received evs = [] ->
    filter is_data (sent evs) = answers bs -> Q l' s') ->
  (forall s' evs, trace s' = trace s ++ evs -> received evs = [] ->
    filter is_data (sent evs) `prefix_of` answers bs -> E OutOfFuel s') ->
  wp (serve_burst cntx fuel qid now (seq k0 (length bs)) l) Q E s.
Proof.
  intros Hok Hip Htb Htp Hqid Hsum Hcnt Hheap Hh0 Hnext HU HQ HE. change INT_MAX with 2147483647 in *.
  unfold serve_burst. rewrite length_seq, !int_chk_Some by lia.
  do 2 (do 2 wp_step; [|done]). injection Hd as <-. injection Hd0 as <-. wp_step.
  eapply wp_process_burst; [done..|by apply burst_locals_nil|done|].
  intros l1 s1 e1 kp [B1 B2 B3 B4 B5 B6 B7 B8 B9] Hh Hkp _ Hn1 Hr1 Ht1 Hrep.
  cbn in B4, B5, B7, B8. injection B4 as C1 C2 C3 C4 C5. pose proof Hrep as [Hrec _].
  destruct (Z.eqb_spec (bidi cntx) 0) as [Hbidi|Hbidi].
  { assert (Ha : answers bs = []) by (unfold answers; by rewrite Hbidi).
    rewrite Ha in Hh. pose proof (holds_length _ _ _ _ Hh) as Hk0. destruct kp; [|done].
    wp_step. apply (HQ _ _ e1); try done; [|by destruct Hh as (_ & _ & <-)|].
    - constructor; congruence.
    - by rewrite Ha, filter_replies. }
  wp_step. apply wp_get_timer_cycles. intros t w _ _.
  assert (Hins : insertZ qid (u64 (t + u32 (nb_pkts_process l1 * delay32 cntx))) (queue_status l1) =
    Some (<[Z.to_nat qid := u64 (t + u32 (nb_pkts_process l1 * delay32 cntx))]> (queue_status l1)))
    by (apply insertZ_Some; rewrite C5; done).
  rewrite Hins. do 2 wp_step; [|done]. injection Hd as <-. wp_step. rewrite B1.
  eapply wp_tx_drain; [done|done|done|exact Hh|..].
  - intros tb' s2 e2 Htb' Hs2 Hn2 Hr2 Ht2 Hrec2 Hsent2. wp_step. cbn in Hn2, Hr2, Ht2.
    apply (HQ _ _ (e1 ++ [EvClock t] ++ e2)); try done; [|lia|congruence|by rewrite Ht2, Ht1, <- !app_assoc| |].
    + constructor; cbn; try congruence. rewrite length_insert. congruence.
    + autorewrite with cnet. by rewrite Hrec, Hrec2.
    + autorewrite with cnet. rewrite filter_app, filter_replies, Hsent2 by done.
      by apply filter_all, answers_data.
  - intros s2 e2 n Ht2 Hrec2 Hsent2 _. cbn in Ht2. apply (HE _ (e1 ++ [EvClock t] ++ e2)); [by rewrite Ht2, Ht1, <- !app_assoc| |].
    + autorewrite with cnet. by rewrite Hrec, Hrec2.
    + autorewrite with cnet. rewrite filter_app, filter_replies, Hsent2 by done. cbn [app].
      rewrite filter_all by (by apply Forall_take, answers_data). apply prefix_take.
Qed.

(** *** The worker *)

(** What main.c gives a worker; queue numbers index [queue_status]. *)
Record worker_ok : Prop := {
  wo_ip : 0 <= src_ip cntx < 2 ^ 32;
  wo_queues : 0 < count_queues cntx < 2 ^ 32;
  wo_managed : Z.of_nat (length (managed_queues cntx)) = count_queues cntx;
  wo_ids : Forall (fun q => 0 <= q < Z.min (count_queues cntx) 65536) (managed_queues cntx);
}.

(** The card hands out at most 64 packets at a time. *)
Definition small_bursts : Prop :=
  forall port q w, (length (rx_burst port q BURST_SIZE w).1 <= 64)%nat.

(** Before each of [n] further iterations. *)
Record locals_ok (n : nat) (l : locals) : Prop := {
  lo_index : 0 <= q_index l < count_queues cntx;
  lo_status : Z.of_nat (length (queue_status l)) = count_queues cntx;
  lo_tx : length (tx_buf l) = 64%nat;
  lo_sum : 0 <= sum_nb_rx l <= INT_MAX - 64 * Z.of_nat n;
  lo_count : 0 <= count_rx l <= INT_MAX - Z.of_nat n;
  lo_throughput : 0 <= throughput l < 2 ^ 64;
}.

Definition caught_up s0 s (rel : list mbuf -> list mbuf -> Prop) : Prop :=
  exists evs, trace s = trace s0 ++ evs /\ rel (filter is_data (sent evs)) (answers (received evs)).
Definition idle s0 s : Prop :=
  heap s = heap s0 /\ (next s0 <= next s)%nat /\ rng s = rng s0 /\ caught_up s0 s eq.

Lemma idle_ok s0 s : heap_ok s0 -> idle s0 s -> heap_ok s.
Proof. intros H0' (Hh & Hn & _). eapply heap_ok_sub; [done..|]. by rewrite Hh. Qed.

Lemma idle_log s0 s e : received [e] = [] -> sent [e] = [] -> idle s0 s -> idle s0 (log_event e s).
Proof.
  intros He1 He2 (? & ? & ? & evs & Ht & Hc). split_and!; try done. exists (evs ++ [e]).
  cbn. rewrite Ht, app_assoc, received_app, sent_app, He1, He2, !app_nil_r. done.
Qed.


Lemma locals_ok_le n l : locals_ok (S n) l -> locals_ok n l.
Proof. intros []. constructor; try done; lia. Qed.

Lemma wp_over_limit delta l (Q : bool -> machine W -> Prop) E s :
  Q false s -> wp (over_limit delta l) Q E s.
Proof. done. Qed.

Lemma wp_report now delta n l (Q : locals -> machine W -> Prop) E s s0 :
  locals_ok n l -> 64 * Z.of_nat n <= INT_MAX -> idle s0 s ->
  (forall l' s', locals_ok n l' -> idle s0 s' -> world s' = world s -> first_pkt l' = first_pkt l ->
    last_pkt_time l' = last_pkt_time l -> queue_status l' = queue_status l -> Q l' s') ->
  wp (report now delta l) Q E s.
Proof.
  intros [L1 L2 L3 L4 L5 L6] Hn Hi HQ. unfold report. case_if.
  - do 2 (wp_step; apply wp_printf). wp_step. apply HQ; try done; [constructor; cbn; try done; lia|].
    by do 2 (apply idle_log; [done..|]).
  - wp_step. by apply HQ.
Qed.

(** The queue whose turn it is; the first one when the last had it. *)
Lemma wp_pick_queue {B} (f : Z -> Z -> M (machine W) B) l (Q : B -> machine W -> Prop) E s :
  worker_ok -> 0 <= q_index l < count_queues cntx ->
  (forall q qi, 0 <= q < count_queues cntx -> u16 q = q -> 0 <= qi < count_queues cntx -> wp (f q qi) Q E s) ->
  wp (q ← demand (lookupZ (managed_queues cntx) (q_index l));
      qi ← demand (if count_queues cntx =? 0 then None else Some (u32 (q_index l + 1) mod count_queues cntx));
      f q qi) Q E s.
Proof.
  intros [_ Wq Wm Wids] Hl HQ. destruct (lookupZ_is_Some (managed_queues cntx) (q_index l)) as [q Hq]; [lia|].
  rewrite Hq. wp_step. wp_step; [|done]. injection Hd as <-. pose proof Hq as [_ Hq']%lookupZ_Some.
  assert (Hqr : 0 <= q < Z.min (count_queues cntx) 65536) by (by eapply Forall_lookup_1 in Wids).
  replace (count_queues cntx =? 0) with false by (symmetry; apply Z.eqb_neq; lia).
  wp_step. wp_step; [|done]. injection Hd as <-. apply HQ; [lia|apply u16_small; lia|apply Z.mod_pos_bound; lia].
Qed.

(** When a queue may be polled again. *)
Lemma wp_queue_status {B} (f : Z -> M (machine W) B) (l : locals) q (Q : B -> machine W -> Prop) E s :
  Z.of_nat (length (queue_status l)) = count_queues cntx -> 0 <= q < count_queues cntx ->
  (forall st, st ∈ queue_status l -> wp (f st) Q E s) ->
  wp (st ← demand (lookupZ (queue_status l) q); f st) Q E s.
Proof.
  intros Hlen Hq HQ. destruct (lookupZ_is_Some (queue_status l) q) as [st Hst]; [lia|].
  rewrite Hst. wp_step. wp_step; [|done]. injection Hd as <-. apply lookupZ_Some in Hst as [_ Hst]. by eapply HQ, list_elem_of_lookup_2.
Qed.

Lemma wp_server_iter fuel exp_begin n l s0 s :
  worker_ok -> small_bursts -> 64 * Z.of_nat (S n) <= INT_MAX -> heap_ok s0 ->
  locals_ok (S n) l -> idle s0 s ->
  wp (server_iter cntx fuel exp_begin l)
    (fun r s' => match r with inl l' => locals_ok n l' /\ idle s0 s' | inr l' => idle s0 s' end)
    (fun r s' => r = OutOfFuel /\ caught_up s0 s' prefix) s.
Proof.
  intros Hok Hsmall Hn Hs0 Hl Hi. unfold server_iter. pose proof (wo_ip Hok) as Wip.
  wp_step. apply wp_poll_running. intros run w0 _.
  assert (Hi1 : idle s0 (log_event (EvPoll run) (with_world w0 s))) by (by apply idle_log).
  destruct run; cbn [negb]; [|by wp_step].
  apply wp_pick_queue; [done|apply Hl|]. intros q qi Hq -> Hqi. pose proof Hl as [L1 L2 L3 L4 L5 L6].
  set (l1 := next_queue l qi). assert (Hl1 : locals_ok (S n) l1) by (by constructor).
  wp_step. apply wp_get_timer_cycles. intros now w1 Hnow _.
  assert (Hi1' : idle s0 (log_event (EvClock now) (with_world w1 (log_event (EvPoll true) (with_world w0 s)))))
    by (by apply idle_log). case_if; [by wp_step|].
  wp_step. eapply (wp_report _ _ (S n)); [done|lia|exact Hi1'|].
  intros l2 s2 Hl2 Hi2 Hw2 Hf2 Hp2 Hst2. wp_step. apply wp_over_limit.
  pose proof Hl2 as [L1' L2' L3' L4' L5' L6'].
  apply wp_queue_status; [done|done|]. intros st _.
  case_if; [wp_step; by split; [apply locals_ok_le|]|].
  wp_step. apply wp_rx. intros w3 bs _ Hrooms Hrx.
  pose proof (Hsmall (dpdk_port_id cntx) q (world s2)) as Hlen. rewrite Hrx in Hlen. cbn in Hlen.
  pose proof (idle_ok _ _ Hs0 Hi2) as Hs2. destruct Hi2 as (E1 & E2 & E3 & evs & E4 & E5).
  case_bool_decide as Hempty.
  { destruct bs; [|done]. assert (Hi3 : idle s0 (log_event (EvRx (dpdk_port_id cntx) q [])
      (receive_bufs [] (with_world w3 s2)))).
    { split_and!; cbn; [done|lia|done|]. exists (evs ++ [EvRx (dpdk_port_id cntx) q []]). cbn.
      rewrite E4, app_assoc. split; [done|]. autorewrite with cnet. by rewrite !app_nil_r. }
    case_if; wp_step; [done|]. split; [|done].
    constructor; cbn; try done; lia. }
  wp_step. apply (wp_serve_burst _ _ _ _ _ (heap s0)); cbn; try done; try lia.
  - rewrite E1. done.
  - intros p Hp. rewrite <- E1 in Hp. by apply Hs2.
  - intros Hover. exfalso. unfold answers in Hover. destruct (bidi cntx =? 0); [cbn in Hover; lia|].
    rewrite length_fmap in Hover. pose proof (length_filter (fun b => accepts (mb_room b) = true) bs). lia.
  - intros l3 s3 e3 [D1 D2 D3 D4 D5 D6 D7 D8] F1 F2 F3 F4 F5 F6. split.
    + constructor; rewrite ?D1, ?D2, ?D3, ?D4, ?D5, ?D6; try done; try lia. apply (wrap_range 64); lia.
    + split_and!; [done|lia|congruence|]. exists (evs ++ [EvRx (dpdk_port_id cntx) q bs] ++ e3).
      rewrite F4, E4, <- !app_assoc. split; [done|].
      autorewrite with cnet. rewrite filter_app. cbn [app]. rewrite F5, F6, E5, app_nil_r.
      by rewrite answers_app.
  - intros s3 e3 F4 F5 F6. split; [done|]. exists (evs ++ [EvRx (dpdk_port_id cntx) q bs] ++ e3).
    rewrite F4, E4, <- !app_assoc. split; [done|].
    autorewrite with cnet. rewrite filter_app. cbn [app]. rewrite F5, E5, app_nil_r, answers_app.
    by apply prefix_app.
Qed.

Lemma wp_print_queues (Q : unit -> machine W -> Prop) E s s0 :
  worker_ok -> idle s0 s -> (forall s', idle s0 s' -> Q tt s') -> wp (print_queues cntx) Q E s.
Proof.
  intros [_ Wq Wm _] Hi HQ.
  apply (wp_forM (fun ids _ s1 => Forall (fun i => 0 <= i < count_queues cntx) ids /\ idle s0 s1)).
  - split; [|done]. apply Forall_forall. intros i Hin%elem_of_seqZ. lia.
  - intros i ids [] s1 [Hl Hs1]. inversion Hl; subst. do 2 wp_step.
    + apply wp_printf. split; [done|]. by apply idle_log.
    + apply lookupZ_None in Hd. lia.
  - intros [] s1 [_ Hs1]. by apply HQ.
Qed.

(** *** Termination *)

(** From [P] on the network is silent, and each reading of the clock is later
    than the one before. *)
Definition reading (w : W) : Z := (timer_cycles w).1.
Record silence (P : W -> Prop) : Prop := {
  sil_timer : forall w, P w -> P (timer_cycles w).2 /\
    (reading w < 2 ^ 63 -> reading w < reading (timer_cycles w).2);
  sil_run : forall w, P w -> P (still_running w).2 /\ reading w <= reading (still_running w).2;
  sil_rx : forall p q n w, P w ->
    (rx_burst p q n w).1 = [] /\ P (rx_burst p q n w).2 /\ reading w <= reading (rx_burst p q n w).2;
}.

(** When a worker in state [l] gives up at the latest. *)
Definition deadline (exp_begin : Z) (l : locals) (latest : Z) : Z :=
  Z.max latest (if first_pkt l then last_pkt_time l + 2 * timer_hz else exp_begin + 60 * timer_hz).

Record waiting (exp_begin latest : Z) (l : locals) (s : machine W) : Prop := {
  wt_index : 0 <= q_index l < count_queues cntx;
  wt_status : Z.of_nat (length (queue_status l)) = count_queues cntx;
  wt_latest : Forall (fun t => t <= latest) (queue_status l);
  wt_begin : 0 <= exp_begin <= reading (world s);
  wt_last : 0 <= last_pkt_time l <= reading (world s);
}.

Lemma wp_report_keeps now delta l (Q : locals -> machine W -> Prop) E s :
  (forall l' s', world s' = world s -> q_index l' = q_index l -> first_pkt l' = first_pkt l ->
    last_pkt_time l' = last_pkt_time l -> queue_status l' = queue_status l -> Q l' s') ->
  wp (report now delta l) Q E s.
Proof.
  intros HQ. unfold report. case_if; [|wp_step; by apply HQ].
  do 2 (wp_step; apply wp_printf). wp_step. by apply HQ.
Qed.

(** While the deadline has not passed, the wait goes on. *)
Lemma waiting_goes_on P exp_begin latest l qi s now w :
  waiting exp_begin latest l s -> 0 <= qi < count_queues cntx -> reading (world s) <= now ->
  deadline exp_begin l latest < 2 ^ 63 -> (now < 2 ^ 63 -> now < reading w) ->
  forall l' s', now <= deadline exp_begin l latest -> P (world s') -> reading w <= reading (world s') ->
    q_index l' = qi -> first_pkt l' = first_pkt l -> last_pkt_time l' = last_pkt_time l -> queue_status l' = queue_status l ->
  P (world s') /\ waiting exp_begin latest l' s' /\ deadline exp_begin l' latest = deadline exp_begin l latest /\
  reading (world s) < reading (world s') /\ reading (world s) <= deadline exp_begin l latest.
Proof.
  intros [T1 T2 T3 T4 T5] Hqi Hr1 HD Hadv l' s' Hnow HP' Hr' Eqi Eqf Eql Eqs. specialize (Hadv ltac:(lia)).
  split; [done|]. split; [|split; [unfold deadline; by rewrite Eqf, Eql|lia]].
  constructor; rewrite ?Eqi, ?Eql, ?Eqs; try done; lia.
Qed.

Lemma wp_iter_waits P fuel exp_begin latest l E s :
  worker_ok -> silence P -> P (world s) -> waiting exp_begin latest l s ->
  deadline exp_begin l latest < 2 ^ 63 ->
  wp (server_iter cntx fuel exp_begin l)
    (fun r s' => match r with
      | inl l' => P (world s') /\ waiting exp_begin latest l' s' /\
          deadline exp_begin l' latest = deadline exp_begin l latest /\
          reading (world s) < reading (world s') /\ reading (world s) <= deadline exp_begin l latest
      | inr _ => True end) E s.
Proof.
  intros Hok [Stimer Srun Srx] HP Hw HD. pose proof Hw as [T1 T2 T3 T4 T5].
  unfold server_iter. change (rte_get_timer_hz) with timer_hz.
  pose proof hz_pos as Hhz. change (2 ^ 40) with 1099511627776 in Hhz.
  change (2 ^ 63) with 9223372036854775808 in *.
  wp_step. apply wp_poll_running. intros run w1 Erun. destruct (Srun _ HP) as [HP1 Hr1]. rewrite Erun in HP1, Hr1. cbn [snd] in *.
  destruct run; cbn [negb]; [|by wp_step].
  apply wp_pick_queue; [done|done|]. intros q qi Hq -> Hqi. set (l1 := next_queue l qi).
  wp_step. apply wp_get_timer_cycles. intros now w2 Hnow Enow. cbn [world with_world log_event log_events] in Enow.
  change (2 ^ 64) with 18446744073709551616 in Hnow.
  assert (Hrd : reading w1 = now) by (unfold reading; by rewrite Enow). rewrite Hrd in Hr1.
  destruct (Stimer w1 HP1) as [HP2 Hadv]. rewrite Hrd, Enow in Hadv. rewrite Enow in HP2. cbn [snd] in HP2, Hadv.
  change (first_pkt l1) with (first_pkt l).
  rewrite (u64_small (60 * timer_hz)), (u64_small (now - exp_begin)) by lia.
  destruct (negb (first_pkt l) && (60 * timer_hz <? now - exp_begin)) eqn:Ebrk; [by wp_step|].
  wp_step. apply wp_report_keeps. intros l2 s2 Ew Eq Ef El Es.
  change (world s2 = w2) in Ew. change (queue_status l2 = queue_status l) in Es.
  wp_step. apply wp_over_limit. cbv beta iota. apply wp_queue_status; [by rewrite Es|done|].
  rewrite Es. intros st Hst. rewrite Forall_forall in T3. apply T3 in Hst as Hle. cbn in Hle.
  pose proof (waiting_goes_on P exp_begin latest l qi s now w2 Hw Hqi Hr1 HD Hadv) as Hgo.
  case_if.
  { wp_step. apply Hgo; try done; [unfold deadline; lia|by rewrite Ew..]. }
  rewrite <- Ew in HP2. wp_step. apply wp_rx. intros w3 bs _ _ Hrx.
  destruct (Srx (dpdk_port_id cntx) q BURST_SIZE _ HP2) as (Hempty & HP3 & Hr3).
  rewrite Hrx in Hempty, HP3, Hr3. cbn in Hempty, HP3, Hr3. subst bs. rewrite Ew in Hr3.
  rewrite bool_decide_eq_true_2 by done. change (first_pkt (count_empty l2)) with (first_pkt l2).
  change (last_pkt_time (count_empty l2)) with (last_pkt_time l2). rewrite Ef, El.
  change (first_pkt l1) with (first_pkt l). change (last_pkt_time l1) with (last_pkt_time l).
  rewrite (u64_small (2 * timer_hz)), (u64_small (now - last_pkt_time l)) by lia.
  case_if; wp_step; [done|]. apply Hgo; try done. unfold deadline.
  destruct (first_pkt l); cbn [negb andb] in *; bool_to_prop; lia.
Qed.

(** *** The whole run *)
Lemma wp_do_server fuel (Q : Z * context -> machine W -> Prop) (E : reason -> machine W -> Prop) s :
  worker_ok -> small_bursts -> 64 * Z.of_nat fuel <= INT_MAX -> heap_ok s ->
  (forall s', idle s s' -> Q (0, stopped cntx) s') ->
  (forall s', caught_up s s' prefix -> E OutOfFuel s') ->
  wp (do_server cntx fuel) Q E s.
Proof.
  intros Hok Hsmall Hfuel Hs HQ HE.
  assert (Hidle : idle s s).
  { split_and!; try done. exists []. rewrite app_nil_r. split; [done|]. unfold answers. by case_if. }
  unfold do_server. wp_step. apply wp_printf. wp_step.
  eapply wp_print_queues; [done|by apply idle_log|]. intros s1 Hs1.
  wp_step. apply wp_printf. apply (idle_log _ _ (EvPrint "Running server" [])) in Hs1; [|done..].
  wp_step. apply wp_get_timer_cycles. intros t w _ _. apply (idle_log _ _ (EvClock t)) in Hs1; [|done..]. wp_step.
  apply (wp_loop_fuel (fun n l s' => (n <= fuel)%nat /\ locals_ok n l /\ idle s s')).
  - split_and!; [done| |done]. pose proof (wo_queues Hok). constructor; cbn; try done; try lia.
    rewrite length_replicate. lia.
  - intros n l s2 (Hn & Hl & Hs2). eapply wp_mono.
    + eapply (wp_server_iter _ _ _ _ s); try done. lia.
    + intros [l'|l'] s3; [intros [? ?]; split_and!; done || lia|]. intros Hs3.
      do 2 (eapply (idle_log _ _ (EvPrint _ _)) in Hs3; [|done..]).
      do 2 (wp_step; apply wp_printf). wp_step. by apply HQ.
    + intros r s3 [-> Hc]. by apply HE.
  - intros l s2 (_ & _ & _ & _ & _ & evs & Ht & Hc). apply HE. exists evs. split; [done|]. by rewrite Hc.
Qed.

(** ** Properties *)

(** C3: The server is a correct echo server. However the card behaves, a
    worker that returns has sent back, in order and without loss or duplication,
    exactly the packets it accepted with their headers exchanged (none in
    unidirectional mode), and owns the buffers it owned at the start: none is
    leaked. If it is still busy (the fuel stands for any moment of the run), what
    was sent so far is a prefix of that. Besides these packets it only sends ARP
    replies, and it meets no undefined behaviour, when bursts have at most 64
    packets and its queue numbers are below its number of queues. *)
Theorem server_echoes fuel s :
  worker_ok -> small_bursts -> 64 * Z.of_nat fuel <= INT_MAX -> heap_ok s ->
  wp (do_server cntx fuel)
    (fun '(code, c) s' => code = 0 /\ running c = 0 /\ heap s' = heap s /\
      exists evs, trace s' = trace s ++ evs /\
        filter is_data (sent evs) = answers (received evs))
    (fun r s' => r = OutOfFuel /\ exists evs, trace s' = trace s ++ evs /\
        filter is_data (sent evs) `prefix_of` answers (received evs)) s.
Proof.
  intros Hok Hsmall Hfuel Hs. apply wp_do_server; [done..| |].
  - intros s' (E1 & _ & _ & Hc). by split_and!.
  - intros s' Hc. by split.
Qed.

(** C11: A worker comes to an end by itself. Once the network is silent, and the
    clock advances with every reading, its main loop is left after finitely many
    iterations: 60 seconds after the start if no client ever showed up, 2 seconds
    after the last valid packet otherwise, a resting queue waited for in either
    case. *)
Theorem server_gives_up P fuel exp_begin latest l s :
  worker_ok -> silence P -> P (world s) -> waiting exp_begin latest l s ->
  deadline exp_begin l latest < 2 ^ 63 ->
  (Z.to_nat (deadline exp_begin l latest + 1 - reading (world s)) < fuel)%nat ->
  exists l' s', loop fuel (server_iter cntx fuel exp_begin) l s = (Ret l', s').
Proof.
  intros Hok Hsil HP Hw HD Hfuel.
  cut (wp (loop fuel (server_iter cntx fuel exp_begin) l) (fun _ _ => True) (fun _ _ => False) s).
  { intros (l' & s' & Hrun & _)%wp_result. by exists l', s'. }
  set (D := deadline exp_begin l latest) in *.
  apply (wp_loop_measure (fun l s => P (world s) /\ waiting exp_begin latest l s /\
    deadline exp_begin l latest = D) (fun _ s => Z.to_nat (D + 1 - reading (world s)))); [done|done|].
  intros l1 s1 (HP1 & Hw1 & HD1). eapply (wp_mono _ _ _ (fun _ _ => False)).
  - eapply wp_iter_waits; [done..|]. by rewrite HD1.
  - intros [l2|l2] s2; [|done]. rewrite HD1. intros (? & ? & ? & ? & ?). split; [done|]. lia.
  - done.
Qed.

(** C22: Nothing bounds the burst by the 64 slots of [tx_buf]: a received burst
    of up to 1024 packets with more than 64 acceptable ones writes past the end of
    the array (in the default, bidirectional mode). *)
Theorem tx_buf_overrun fuel qid now k0 bs h0 l s :
  Forall room_ok bs -> 0 <= my_ip cntx < 2 ^ 32 -> length (tx_buf l) = 64%nat ->
  0 <= throughput l < 2 ^ 64 -> 0 <= sum_nb_rx l <= INT_MAX - Z.of_nat (length bs) ->
  0 <= count_rx l <= INT_MAX - 1 -> heap s = insert_from k0 bs h0 ->
  (forall p, is_Some (h0 !! p) -> (p < k0)%nat) -> (k0 + length bs <= next s)%nat ->
  bidi cntx <> 0 -> 64 < accepted bs ->
  wp (serve_burst cntx fuel qid now (seq k0 (length bs)) l) (fun _ _ => False)
    (fun r _ => r = Undef) s.
Proof.
  intros Hok Hip Htb Htp Hsum Hcnt Hheap Hh0 Hnext Hbidi Hover. change INT_MAX with 2147483647 in *.
  rewrite <- length_answers in Hover by done.
  unfold serve_burst. rewrite length_seq, !int_chk_Some by lia.
  do 2 (do 2 wp_step; [|done]). wp_step.
  eapply wp_process_burst; [done..|by apply burst_locals_nil|done|].
  intros l1 s1 e1 kp _ Hh Hkp _ _ _ _ _. exfalso. apply holds_length in Hh. lia.
Qed.

(** C20: A burst with partial acceptance is retried to the end: whatever number
    of packets the card takes at each call, [tx_drain] sends the queued packets in
    order, each once, and gives up the buffers; if the card never takes them all it
    never ends, having sent a prefix. *)
Theorem tx_drain_in_order fuel qid tb kp kb h0 s :
  length tb = 64%nat -> (length kp <= 64)%nat -> take (length kp) tb = kp -> holds kp kb (heap s) h0 ->
  wp (tx_drain cntx fuel qid (Z.of_nat (length kp), tb))
    (fun _ s' => heap s' = h0 /\ exists evs, trace s' = trace s ++ evs /\ sent evs = kb)
    (fun r s' => r = OutOfFuel /\ exists evs n, trace s' = trace s ++ evs /\ sent evs = take n kb /\
      holds (drop n kp) (drop n kb) (heap s') h0) s.
Proof.
  intros. apply (wp_tx_drain _ _ _ _ kb h0); [done..| |].
  - intros tb' s' evs. intros. split; [done|]. by exists evs.
  - intros s' evs n. intros. split; [done|]. by exists evs, n.
Qed.

(** The counters of a served burst are exact: the burst size and the number
    of bursts, one unit of throughput per accepted packet, and the time and
    presence of the last valid packet; the array sizes stay. *)
Theorem serve_burst_counts fuel qid now k0 bs h0 l s :
  Forall room_ok bs -> 0 <= my_ip cntx < 2 ^ 32 -> length (tx_buf l) = 64%nat ->
  0 <= throughput l < 2 ^ 64 -> 0 <= qid < Z.of_nat (length (queue_status l)) ->
  0 <= sum_nb_rx l <= INT_MAX - Z.of_nat (length bs) -> 0 <= count_rx l <= INT_MAX - 1 ->
  heap s = insert_from k0 bs h0 -> (forall p, is_Some (h0 !! p) -> (p < k0)%nat) ->
  (k0 + length bs <= next s)%nat -> accepted bs <= 64 ->
  wp (serve_burst cntx fuel qid now (seq k0 (length bs)) l)
    (fun l' s' => burst_done now bs l l' /\ heap s' = h0) (fun r _ => r = OutOfFuel) s.
Proof.
  intros. eapply wp_serve_burst; [done..| | |].
  - intros Hover. exfalso. unfold answers in Hover. destruct (bidi cntx =? 0); [cbn in Hover; lia|].
    rewrite length_fmap in Hover. unfold accepted in *. lia.
  - done.
  - done.
Qed.
End server_proofs.

(** C18: Echoing needs no checksum update and is undone by echoing again. The
    headers are exchanged at every layer, nothing else changes, the sums the IPv4
    and the UDP checksum are computed from (header; addresses, UDP header and
    data) are those of the received packet, and echoing the echo gives the original
    back. *)
Theorem swap_headers_correct `{DpdkLaws} (o : nat) b m :
  o = 14%nat \/ o = 18%nat -> room_ok b ->
  exists b', swap_headers (Z.of_nat o) b = (Ret tt, b') /\
    swap_headers (Z.of_nat o) b' = (Ret tt, b) /\ data_len b' = data_len b /\
    let r := mb_room b in let r' := mb_room b' in
    field 0 6 r' = field 6 6 r /\ field 6 6 r' = field 0 6 r /\
    field 12 (o + 0) r' = field 12 (o + 0) r /\
    field (o + 12) 4 r' = field (o + 16) 4 r /\ field (o + 16) 4 r' = field (o + 12) 4 r /\
    field (o + 20) 2 r' = field (o + 22) 2 r /\ field (o + 22) 2 r' = field (o + 20) 2 r /\
    drop (o + 24) r' = drop (o + 24) r /\
    sum16 (field o 20 r') = sum16 (field o 20 r) /\
    sum16 (field (o + 12) (12 + m) r') = sum16 (field (o + 12) (12 + m) r).
Proof.
  intros Ho Hb. assert (Hlen : (42 <= length (mb_room b))%nat).
  { destruct Hb as [Hlen _]. unfold RTE_MBUF_DEFAULT_DATAROOM in Hlen. lia. }
  eexists. split; [by apply swap_headers_run|].
  destruct (echo_room_spec o (mb_room b) Ho Hlen) as (_ & Hinv & Hrest).
  rewrite swap_headers_run by (done || by apply echo_room_ok). cbn [mb_room set_room data_len].
  rewrite Hinv. split; [by destruct b|]. split; [done|].
  destruct (echo_room_sums o (mb_room b) m Ho Hlen). tauto.
Qed.

(** ** Witnesses *)
Definition ip_a : Z := MAKE_IP_ADDR 10 0 0 1.
Definition ip_b : Z := MAKE_IP_ADDR 10 0 0 2.
Definition server_cntx : context :=
  Context_ 2 0 0 0 0 0 mac_a ip_a 8080 1 0 1 1 0 0 [0] 0 [] 0 0 0 1 0 0 0 0 0 0 0.

(** A datagram of two bytes from [ip_b], port 3000, to the server. *)
Definition datagram : list Z :=
  mac_a ++ mac_b ++ [8; 0] ++ [69; 0; 0; 30; 0; 0; 0; 0; 64; 17; 0; 0] ++ be_split 4 ip_b ++
  be_split 4 ip_a ++ be_split 2 3000 ++ be_split 2 8080 ++ [0; 10; 0; 0; 170; 187].

Lemma server_cntx_ok : worker_ok server_cntx.
Proof.
  constructor; [split; [by apply Z.leb_le|by apply Z.ltb_lt]|by split; apply Z.ltb_lt|done|].
  repeat constructor; by apply Z.leb_le || by apply Z.ltb_lt.
Qed.

Lemma sim_small_bursts : small_bursts (W := sim).
Proof.
  intros port q w. cbn. destruct (rx_script w); cbn; [lia|].
  rewrite length_fmap, length_take. change (Z.to_nat (Z.min BURST_SIZE 64)) with 64%nat. lia.
Qed.

(** A client's datagram and a stray packet; the card refuses the echo once. *)
Definition client_comes : sim :=
  Sim 0 1 [[datagram; replicate 60 7]] [0] [true; true; false].

Lemma server_echoes_witness :
  exists s', (do_server server_cntx 5 (boot client_comes)).2 = s' /\ heap s' = heap (boot client_comes) /\
    exists evs, trace s' = [] ++ evs /\ filter is_data (sent evs) = answers server_cntx (received evs) /\
      length (sent evs) = 1%nat.
Proof.
  pose proof (server_echoes server_cntx 5 (boot client_comes) server_cntx_ok sim_small_bursts
    ltac:(by apply Z.leb_le) (boot_ok _)) as Hw.
  unfold wp in Hw.
  assert (Hrun : (do_server server_cntx 5 (boot client_comes)).1 = Ret (0, stopped server_cntx))
    by (vm_compute; reflexivity).
  assert (Hsent : length (sent (trace (do_server server_cntx 5 (boot client_comes)).2)) = 1%nat)
    by (vm_compute; reflexivity).
  destruct (do_server server_cntx 5 (boot client_comes)) as [o s']. cbn [fst snd] in *. subst o.
  destruct Hw as (_ & _ & Hh & evs & Ht & Ha). exists s'. split_and!; [done|done|].
  exists evs. split_and!; [exact Ht|exact Ha|]. rewrite Ht in Hsent. exact Hsent.
Defined.

Definition silent (w : sim) : Prop := rx_script w = [].

Lemma sim_silence : silence silent.
Proof.
  constructor.
  - intros w Hw. split; [exact Hw|]. apply sim_tick_advances.
  - intros w Hw. cbn. destruct (run_script w); (split; [exact Hw|]); cbn; lia.
  - intros p q n w Hw. cbn. unfold silent in Hw. rewrite Hw. by split_and!.
Qed.

Lemma server_gives_up_witness :
  exists l' s', loop (Z.to_nat 60010) (server_iter server_cntx (Z.to_nat 60010) 0)
    (initial_locals server_cntx 0) (boot quiet) = (Ret l', s').
Proof.
  apply (server_gives_up server_cntx silent _ 0 0); [apply server_cntx_ok|apply sim_silence|done| | |].
  - constructor; [split; [by apply Z.leb_le|by apply Z.ltb_lt]|done|by repeat constructor
      |split; by apply Z.leb_le|split; by apply Z.leb_le].
  - by apply Z.ltb_lt.
  - apply Z2Nat.inj_lt; [by apply Z.leb_le|by apply Z.leb_le|by apply Z.ltb_lt].
Defined.

Definition full_burst : list mbuf := replicate 65 (packet datagram).
Lemma tx_buf_overrun_witness :
  wp (serve_burst server_cntx 5 0 0 (seq 0 (length full_burst)) (initial_locals server_cntx 0))
    (fun _ _ => False) (fun r _ => r = Undef) (holding_all quiet full_burst).
Proof.
  apply (tx_buf_overrun server_cntx 5 0 0 0 full_burst ∅);
    [apply Forall_replicate, packet_ok|split; [by apply Z.leb_le|by apply Z.ltb_lt]|done|done|
     split; by apply Z.leb_le|split; by apply Z.leb_le|done|apply no_heap|done|done|].
  apply Z.ltb_lt. vm_compute. reflexivity.
Defined.

Lemma tx_drain_in_order_witness :
  let bs := [packet datagram; packet [1]; packet [2]] in
  wp (tx_drain server_cntx 5 0 (3, [0%nat; 1%nat; 2%nat] ++ replicate 61 0%nat))
    (fun _ s' => heap s' = ∅ /\ exists evs, trace s' = [] ++ evs /\ sent evs = bs)
    (fun r s' => r = OutOfFuel /\ exists evs n, trace s' = [] ++ evs /\ sent evs = take n bs /\
      holds (drop n [0%nat; 1%nat; 2%nat]) (drop n bs) (heap s') ∅) (holding_all quiet bs).
Proof.
  intros bs. apply (tx_drain_in_order server_cntx 5 0 _ [0%nat; 1%nat; 2%nat] bs);
    [done|cbn; lia|done|]. apply (holds_receive 0 bs ∅). apply no_heap.
Defined.

Lemma serve_burst_counts_witness :
  wp (serve_burst server_cntx 5 0 7 (seq 0 2) (initial_locals server_cntx 0))
    (fun l' s' => burst_done server_cntx 7 [packet datagram; packet [1]] (initial_locals server_cntx 0) l'
      /\ heap s' = ∅) (fun r _ => r = OutOfFuel) (holding_all quiet [packet datagram; packet [1]]).
Proof.
  apply (serve_burst_counts server_cntx 5 0 7 0 [packet datagram; packet [1]] ∅);
    [repeat apply Forall_cons_2; [apply packet_ok|apply packet_ok|done]
    |split; [by apply Z.leb_le|by apply Z.ltb_lt]|done|done|by split|
     split; by apply Z.leb_le|split; by apply Z.leb_le|done|apply no_heap|done|].
  apply Z.leb_le. vm_compute. reflexivity.
Defined.

Lemma swap_headers_correct_witness :
  exists b', swap_headers 14 (packet datagram) = (Ret tt, b') /\
    swap_headers 14 b' = (Ret tt, packet datagram) /\
    sum16 (field 14 20 (mb_room b')) = sum16 (field 14 20 (mb_room (packet datagram))).
Proof.
  destruct (swap_headers_correct 14 (packet datagram) 0) as (b' & H1 & H2 & _ & _ & _ & _ & _ & _ & _ & _ & _ & H3 & _);
    [by left|apply packet_ok|]. exists b'. split_and!; [exact H1|exact H2|exact H3].
Defined.
