(* ===== verification/Config.v ===== *)
(** * Command line (config.c, config.h)

    [parse_args] over what [getopt_long] makes of the command line: the list of
    options in order, each with its argument. The client's and the server's
    configuration are a union: the server's delay occupies the bytes of the
    client's port and the two padding bytes after it. [atof] is a parameter. *)
From S2P Require Import Prelude CInt CFloat CStdio Monad Dpdk Sim Arp Exp.

Definition MAX_SERVER_IP_DEST : Z := 32.
Definition MAX_BATCH_SIZE : Z := 64.
Definition mode_undefined : Z := 0.
Definition mode_client : Z := 1.
Definition mode_server : Z := 2.
Definition mode_latency_clinet : Z := 3.
Definition EXIT_SUCCESS : Z := 0.
Definition EXIT_FAILURE : Z := 1.

(** [struct client_config]; [port_pad] are the two bytes between [client_port]
    and [count_server_ips]. *)
Record client_config := ClientConfig {
  client_port : Z;
  port_pad : Z;
  count_server_ips : Z;
  server_ips : list (option Z);   (* malloc: None is indeterminate *)
  cfg_count_flow : Z;
  cfg_duration : Z;
  cfg_rate_limit : Z;
  cfg_rate : Z;
  cfg_delay_cycles : Z;
  cfg_batch : Z;
  hdr_encp_sz : Z;
  select_src_ip : bool;
  unique_client_addresses : Z;
  unique_client_ports : Z;
  zipf_arg : spec_float;
  add_katran_opt : Z;
  max_num : Z;
}.

Record app_config := AppConfig {
  cfg_bidi : Z;
  cfg_use_vlan : Z;
  cfg_do_arp : Z;
  source_ip : Z;
  num_queues : Z;
  cfg_mode : Z;
  payload_size : Z;
  server_port : Z;
  client : client_config;
  dest_mac : list Z;
}.

(** The other view of the union. *)
Definition server_delay (c : app_config) : Z := client_port (client c) + 65536 * port_pad (client c).

(** *** Field updates *)
Definition set_client (f : client_config -> client_config) (c : app_config) : app_config :=
  AppConfig (cfg_bidi c) (cfg_use_vlan c) (cfg_do_arp c) (source_ip c) (num_queues c) (cfg_mode c)
    (payload_size c) (server_port c) (f (client c)) (dest_mac c).
Definition set_mode (v : Z) (c : app_config) : app_config :=
  AppConfig (cfg_bidi c) (cfg_use_vlan c) (cfg_do_arp c) (source_ip c) (num_queues c) v
    (payload_size c) (server_port c) (client c) (dest_mac c).
Definition set_bidi (v : Z) (c : app_config) : app_config :=
  AppConfig v (cfg_use_vlan c) (cfg_do_arp c) (source_ip c) (num_queues c) (cfg_mode c)
    (payload_size c) (server_port c) (client c) (dest_mac c).
Definition set_do_arp (v : Z) (c : app_config) : app_config :=
  AppConfig (cfg_bidi c) (cfg_use_vlan c) v (source_ip c) (num_queues c) (cfg_mode c)
    (payload_size c) (server_port c) (client c) (dest_mac c).
Definition set_source_ip (v : Z) (c : app_config) : app_config :=
  AppConfig (cfg_bidi c) (cfg_use_vlan c) (cfg_do_arp c) v (num_queues c) (cfg_mode c)
    (payload_size c) (server_port c) (client c) (dest_mac c).
Definition set_num_queues (v : Z) (c : app_config) : app_config :=
  AppConfig (cfg_bidi c) (cfg_use_vlan c) (cfg_do_arp c) (source_ip c) v (cfg_mode c)
    (payload_size c) (server_port c) (client c) (dest_mac c).
Definition set_payload_size (v : Z) (c : app_config) : app_config :=
  AppConfig (cfg_bidi c) (cfg_use_vlan c) (cfg_do_arp c) (source_ip c) (num_queues c) (cfg_mode c)
    v (server_port c) (client c) (dest_mac c).
Definition set_server_port (v : Z) (c : app_config) : app_config :=
  AppConfig (cfg_bidi c) (cfg_use_vlan c) (cfg_do_arp c) (source_ip c) (num_queues c) (cfg_mode c)
    (payload_size c) v (client c) (dest_mac c).
Definition set_dest_mac (v : list Z) (c : app_config) : app_config :=
  AppConfig (cfg_bidi c) (cfg_use_vlan c) (cfg_do_arp c) (source_ip c) (num_queues c) (cfg_mode c)
    (payload_size c) (server_port c) (client c) v.

Definition set_port (v : Z) (c : client_config) : client_config :=
  ClientConfig v (port_pad c) (count_server_ips c) (server_ips c) (cfg_count_flow c) (cfg_duration c)
    (cfg_rate_limit c) (cfg_rate c) (cfg_delay_cycles c) (cfg_batch c) (hdr_encp_sz c)
    (select_src_ip c) (unique_client_addresses c) (unique_client_ports c) (zipf_arg c)
    (add_katran_opt c) (max_num c).
(** Writing the other member of the union. *)
Definition set_server_delay (v : Z) (c : client_config) : client_config :=
  ClientConfig (v mod 65536) (v / 65536) (count_server_ips c) (server_ips c) (cfg_count_flow c)
    (cfg_duration c) (cfg_rate_limit c) (cfg_rate c) (cfg_delay_cycles c) (cfg_batch c) (hdr_encp_sz c)
    (select_src_ip c) (unique_client_addresses c) (unique_client_ports c) (zipf_arg c)
    (add_katran_opt c) (max_num c).
Definition set_ips (n : Z) (ips : list (option Z)) (c : client_config) : client_config :=
  ClientConfig (client_port c) (port_pad c) n ips (cfg_count_flow c) (cfg_duration c)
    (cfg_rate_limit c) (cfg_rate c) (cfg_delay_cycles c) (cfg_batch c) (hdr_encp_sz c)
    (select_src_ip c) (unique_client_addresses c) (unique_client_ports c) (zipf_arg c)
    (add_katran_opt c) (max_num c).
Definition set_count_flow (v : Z) (c : client_config) : client_config :=
  ClientConfig (client_port c) (port_pad c) (count_server_ips c) (server_ips c) v (cfg_duration c)
    (cfg_rate_limit c) (cfg_rate c) (cfg_delay_cycles c) (cfg_batch c) (hdr_encp_sz c)
    (select_src_ip c) (unique_client_addresses c) (unique_client_ports c) (zipf_arg c)
    (add_katran_opt c) (max_num c).
Definition set_duration (v : Z) (c : client_config) : client_config :=
  ClientConfig (client_port c) (port_pad c) (count_server_ips c) (server_ips c) (cfg_count_flow c) v
    (cfg_rate_limit c) (cfg_rate c) (cfg_delay_cycles c) (cfg_batch c) (hdr_encp_sz c)
    (select_src_ip c) (unique_client_addresses c) (unique_client_ports c) (zipf_arg c)
    (add_katran_opt c) (max_num c).
Definition set_rate (lim v : Z) (c : client_config) : client_config :=
  ClientConfig (client_port c) (port_pad c) (count_server_ips c) (server_ips c) (cfg_count_flow c)
    (cfg_duration c) lim v (cfg_delay_cycles c) (cfg_batch c) (hdr_encp_sz c)
    (select_src_ip c) (unique_client_addresses c) (unique_client_ports c) (zipf_arg c)
    (add_katran_opt c) (max_num c).
Definition set_delay_cycles (v : Z) (c : client_config) : client_config :=
  ClientConfig (client_port c) (port_pad c) (count_server_ips c) (server_ips c) (cfg_count_flow c)
    (cfg_duration c) (cfg_rate_limit c) (cfg_rate c) v (cfg_batch c) (hdr_encp_sz c)
    (select_src_ip c) (unique_client_addresses c) (unique_client_ports c) (zipf_arg c)
    (add_katran_opt c) (max_num c).
Definition set_batch (v : Z) (c : client_config) : client_config :=
  ClientConfig (client_port c) (port_pad c) (count_server_ips c) (server_ips c) (cfg_count_flow c)
    (cfg_duration c) (cfg_rate_limit c) (cfg_rate c) (cfg_delay_cycles c) v (hdr_encp_sz c)
    (select_src_ip c) (unique_client_addresses c) (unique_client_ports c) (zipf_arg c)
    (add_katran_opt c) (max_num c).
Definition set_hdr_encp_sz (v : Z) (c : client_config) : client_config :=
  ClientConfig (client_port c) (port_pad c) (count_server_ips c) (server_ips c) (cfg_count_flow c)
    (cfg_duration c) (cfg_rate_limit c) (cfg_rate c) (cfg_delay_cycles c) (cfg_batch c) v
    (select_src_ip c) (unique_client_addresses c) (unique_client_ports c) (zipf_arg c)
    (add_katran_opt c) (max_num c).
Definition set_zipf (sel : bool) (addrs ports : Z) (z : spec_float) (c : client_config) : client_config :=
  ClientConfig (client_port c) (port_pad c) (count_server_ips c) (server_ips c) (cfg_count_flow c)
    (cfg_duration c) (cfg_rate_limit c) (cfg_rate c) (cfg_delay_cycles c) (cfg_batch c) (hdr_encp_sz c)
    sel addrs ports z (add_katran_opt c) (max_num c).
Definition set_katran (v : Z) (c : client_config) : client_config :=
  ClientConfig (client_port c) (port_pad c) (count_server_ips c) (server_ips c) (cfg_count_flow c)
    (cfg_duration c) (cfg_rate_limit c) (cfg_rate c) (cfg_delay_cycles c) (cfg_batch c) (hdr_encp_sz c)
    (select_src_ip c) (unique_client_addresses c) (unique_client_ports c) (zipf_arg c) v (max_num c).
Definition set_max_num (v : Z) (c : client_config) : client_config :=
  ClientConfig (client_port c) (port_pad c) (count_server_ips c) (server_ips c) (cfg_count_flow c)
    (cfg_duration c) (cfg_rate_limit c) (cfg_rate c) (cfg_delay_cycles c) (cfg_batch c) (hdr_encp_sz c)
    (select_src_ip c) (unique_client_addresses c) (unique_client_ports c) (zipf_arg c)
    (add_katran_opt c) v.

(** The options of [long_opts]; [UNKNOWN] is any other return of [getopt_long]
    but -1. *)
Inductive opt :=
| HELP | NUM_QUEUE | CLIENT | SERVER | LATENCY_CLIENT | IP_LOCAL | IP_DEST | PORT | DEST_PORT
| NUM_FLOW | DURATION | DELAY | RATE | BATCH_SIZE | PAYLOAD_LENGTH | UNIDIR | NO_ARP | HDR_ENCP_SZ
| ZIPF_CLIENT_ADDR | MAX_NUM | ADD_KATRAN_OPT | UNKNOWN.
#[global] Instance opt_eq_dec : EqDecision opt.
Proof. solve_decision. Defined.

(** ** Parsing *)
Section parse.
(** [atof] of the C library, a [double]. *)
Variable atof : string -> spec_float.

Definition rte_exit {A} (code : Z) : M app_config A := stop (Exited code).

(** Printing the usage text; an unknown mode exits. *)
Definition usage : M app_config unit :=
  c ← get;
  if (cfg_mode c =? mode_undefined) || (cfg_mode c =? mode_client) || (cfg_mode c =? mode_server) ||
     (cfg_mode c =? mode_latency_clinet)
  then mret tt else rte_exit EXIT_FAILURE.

(** [eal_init] is the return value of [rte_eal_init]. *)
Definition dpdk_init (eal_init : Z) : M app_config Z :=
  if eal_init <? 0 then _ ← usage; rte_exit EXIT_FAILURE else mret eal_init.

Definition check_only_one_mode : M app_config unit :=
  c ← get; guard_exit (cfg_mode c =? mode_undefined) EXIT_FAILURE.
Definition check_client_mode : M app_config unit :=
  c ← get;
  guard_exit (negb (negb (cfg_mode c =? mode_client) && negb (cfg_mode c =? mode_latency_clinet)))
    EXIT_FAILURE.

Definition modify_client (f : client_config -> client_config) : M app_config unit :=
  modify (set_client f).
Definition need {A} (o : option A) : M app_config A :=
  match o with Some a => mret a | None => rte_exit EXIT_FAILURE end.

(** total-addresses/count-ports/zipf-arg *)
Definition _parse_zipf_client_addr_arg (optarg : string) : M app_config unit :=
  c ← get;
  let cl := client c in
  _ ← modify_client (set_zipf true (unique_client_addresses cl) (unique_client_ports cl) (zipf_arg cl));
  '(tmp, rest) ← need (strtok "/" optarg);
  let addrs := u32 (atoi tmp) in
  _ ← modify_client (set_zipf true addrs (unique_client_ports cl) (zipf_arg cl));
  '(tmp, rest) ← need (strtok "/" rest);
  let ports := u32 (atoi tmp) in
  _ ← modify_client (set_zipf true addrs ports (zipf_arg cl));
  tmp ← need (strtok_rest rest);
  _ ← modify_client (set_zipf true addrs ports (f32_of_f64 (atof tmp)));
  guard_exit (negb (addrs <? ports)) EXIT_FAILURE.

(** One byte of the address; a token that is no number leaves the byte. *)
Definition scan_mac_byte (i : nat) (tmp : string) : M app_config unit :=
  modify (fun c => match scan_2hhx tmp with
                   | Some v => set_dest_mac (<[i := v]> (dest_mac c)) c
                   | None => c
                   end).
Definition _parse_no_arp_arg (optarg : string) : M app_config unit :=
  rest ← forM (seq 0 5) (fun i input =>
    '(tmp, rest) ← need (strtok ":" input);
    _ ← scan_mac_byte i tmp;
    mret rest) optarg;
  tmp ← need (strtok_rest rest);
  scan_mac_byte 5 tmp.

(** The defaults, after [memset]. *)
Definition default_client : client_config :=
  {| client_port := 3000; port_pad := 0; count_server_ips := 0;
     server_ips := replicate 32 None; cfg_count_flow := 1; cfg_duration := 0; cfg_rate_limit := 0;
     cfg_rate := 0; cfg_delay_cycles := 0; cfg_batch := 0; hdr_encp_sz := 0;
     select_src_ip := false; unique_client_addresses := 1; unique_client_ports := 1;
     zipf_arg := S754_zero false; add_katran_opt := 0; max_num := 2000000 |}.
Definition default_config : app_config :=
  {| cfg_bidi := 1; cfg_use_vlan := 0; cfg_do_arp := 1; source_ip := 0; num_queues := 1;
     cfg_mode := mode_undefined; payload_size := 64; server_port := 8080;
     client := default_client; dest_mac := replicate 6 0 |}.

(** The [switch] over an option and its argument. *)
Definition parse_opt (o : opt) (optarg : string) : M app_config unit :=
  match o with
  | NUM_QUEUE =>
      let ret := atoi optarg in
      _ ← guard_exit (negb (ret <? 1)) EXIT_FAILURE;
      modify (set_num_queues (u16 ret))
  | CLIENT => _ ← check_only_one_mode; modify (set_mode mode_client)
  | SERVER => _ ← check_only_one_mode; modify (set_mode mode_server)
  | LATENCY_CLIENT => _ ← check_only_one_mode; modify (set_mode mode_latency_clinet)
  | IP_LOCAL => ip ← need (str_to_ip optarg); modify (set_source_ip ip)
  | IP_DEST =>
      _ ← check_client_mode;
      c ← get;
      let i := i32 (count_server_ips (client c)) in
      _ ← guard_exit (negb (MAX_SERVER_IP_DEST <=? i)) EXIT_FAILURE;
      _ ← modify_client (set_ips (u32 (count_server_ips (client c) + 1)) (server_ips (client c)));
      ip ← need (str_to_ip optarg);
      ips ← demand (insertZ i (Some ip) (server_ips (client c)));
      modify_client (fun cl => set_ips (count_server_ips cl) ips cl)
  | PORT =>
      let ret := atoi optarg in
      _ ← guard_exit (negb (ret <=? 0)) EXIT_FAILURE;
      c ← get;
      _ ← guard_exit (negb (cfg_mode c =? mode_undefined)) EXIT_FAILURE;
      if cfg_mode c =? mode_server then modify (set_server_port (u16 ret))
      else modify_client (set_port (u16 ret))
  | DEST_PORT =>
      _ ← check_client_mode;
      let ret := atoi optarg in
      _ ← guard_exit (negb (ret <=? 0)) EXIT_FAILURE;
      modify (set_server_port (u16 ret))
  | NUM_FLOW => modify_client (set_count_flow (atoi optarg))
  | DURATION => modify_client (set_duration (atoi optarg))
  | DELAY =>
      c ← get;
      _ ← guard_exit (negb (cfg_mode c =? mode_undefined)) EXIT_FAILURE;
      let ret := i32 (atol optarg) in
      if cfg_mode c =? mode_server then modify_client (set_server_delay (u32 ret))
      else modify_client (set_delay_cycles (u64 ret))
  | RATE => modify_client (set_rate 1 (u64 (atol optarg)))
  | BATCH_SIZE =>
      c ← get;
      _ ← guard_exit (negb (negb (cfg_mode c =? mode_latency_clinet) && negb (cfg_mode c =? mode_client)))
            EXIT_FAILURE;
      let ret := atoi optarg in
      _ ← guard_exit (negb (ret <? 1)) EXIT_FAILURE;
      modify_client (set_batch (u16 ret))
  | PAYLOAD_LENGTH =>
      _ ← check_client_mode;
      let ret := atoi optarg in
      _ ← guard_exit (negb (ret <? 1)) EXIT_FAILURE;
      modify (set_payload_size (u32 ret))
  | UNIDIR => modify (set_bidi 0)
  | NO_ARP => _ ← modify (set_do_arp 0); _parse_no_arp_arg optarg
  | HDR_ENCP_SZ =>
      c ← get;
      _ ← guard_exit (cfg_mode c =? mode_latency_clinet) EXIT_FAILURE;
      modify_client (set_hdr_encp_sz (i16 (atoi optarg)))
  | ZIPF_CLIENT_ADDR =>
      c ← get;
      _ ← guard_exit (cfg_mode c =? mode_client) EXIT_FAILURE;
      _parse_zipf_client_addr_arg optarg
  | MAX_NUM =>
      match scan_d optarg with
      | Some v => modify_client (set_max_num v)
      | None => mret tt
      end
  | ADD_KATRAN_OPT => modify_client (set_katran (u32 (atoi optarg)))
  | HELP => _ ← usage; rte_exit EXIT_SUCCESS
  | UNKNOWN => _ ← usage; rte_exit EXIT_FAILURE
  end.

(** The checks after the options. *)
Definition check_config : M app_config unit :=
  c ← get;
  _ ← when (cfg_mode c =? mode_undefined) (_ ← usage; rte_exit EXIT_FAILURE);
  _ ← when (cfg_batch (client c) =? 0)
    (if cfg_mode c =? mode_client then modify_client (set_batch 32)
     else if cfg_mode c =? mode_latency_clinet then modify_client (set_batch 1)
     else mret tt);
  _ ← guard_exit (negb (source_ip c =? 0)) EXIT_FAILURE;
  guard_exit (negb ((count_server_ips (client c) =? 0) &&
    ((cfg_mode c =? mode_client) || (cfg_mode c =? mode_latency_clinet)))) EXIT_FAILURE.

Definition parse_args (eal_init : Z) (opts : list (opt * string)) : M app_config unit :=
  _ ← put default_config;
  _ ← dpdk_init eal_init;
  _ ← forM opts (fun '(o, optarg) _ => parse_opt o optarg) tt;
  check_config.
End parse.

(** ** What a parsed configuration satisfies *)
Definition ip_ok (ip : Z) : Prop := 0 <= ip < 2 ^ 32.
Definition u16_ok (v : Z) : Prop := 0 <= v < 65536.
Definition u32_ok (v : Z) : Prop := 0 <= v < 2 ^ 32.

Record client_ok (c : client_config) : Prop := {
  co_port : u16_ok (client_port c);
  co_pad : u16_ok (port_pad c);
  co_count : 0 <= count_server_ips c <= MAX_SERVER_IP_DEST;
  co_length : length (server_ips c) = 32%nat;
  co_ips : forall i, 0 <= i < count_server_ips c ->
    exists ip, lookupZ (server_ips c) i = Some (Some ip) /\ ip_ok ip;
  co_batch : u16_ok (cfg_batch c);
  co_addrs : u32_ok (unique_client_addresses c);
  co_ports : u32_ok (unique_client_ports c);
  co_zipf : select_src_ip c = true -> unique_client_ports c <= unique_client_addresses c;
  co_katran : u32_ok (add_katran_opt c);
}.

Record config_ok (c : app_config) : Prop := {
  cg_mode : 0 <= cfg_mode c <= 3;
  cg_queues : u16_ok (num_queues c);
  cg_source : ip_ok (source_ip c);
  cg_payload : 1 <= payload_size c <= INT_MAX;
  cg_server_port : u16_ok (server_port c);
  cg_mac : length (dest_mac c) = 6%nat /\ Forall byte_ok (dest_mac c);
  cg_client : client_ok (client c);
}.

(** The mode an option selects. *)
Definition opt_mode (o : opt) : option Z :=
  match o with
  | CLIENT => Some mode_client
  | SERVER => Some mode_server
  | LATENCY_CLIENT => Some mode_latency_clinet
  | _ => None
  end.
Definition modes (m : Z) : list Z := if m =? mode_undefined then [] else [m].

Lemma u16_is_ok x : u16_ok (u16 x). Proof. apply u16_range. Qed.
Lemma u32_is_ok x : u32_ok (u32 x). Proof. apply u32_range. Qed.
#[export] Hint Resolve u16_is_ok u32_is_ok : cnet.

Lemma scan_hhu_range s v r : scan_hhu s = Some (v, r) -> byte_ok v.
Proof.
  unfold scan_hhu. destruct (scan_sign _) as [neg s']. destruct (scan_digits _ _) as [[n|] rest]; [|done].
  intros [= <- _]. apply u8_range.
Qed.

Lemma str_to_ip_range s ip : str_to_ip s = Some ip -> ip_ok ip.
Proof.
  unfold str_to_ip. intros H.
  repeat match type of H with
  | (scan_hhu ?x ≫= _) = _ => let E := fresh "E" in destruct (scan_hhu x) as [[? ?]|] eqn:E; [|done];
      apply scan_hhu_range in E; cbn [mbind option_bind] in H
  | (scan_char ?c ?x ≫= _) = _ => destruct (scan_char c x); [|done]; cbn [mbind option_bind] in H
  end.
  injection H as <-. rewrite MAKE_IP_ADDR_combine by done.
  apply (be_combine_range [_; _; _; _]). by rewrite !Forall_cons.
Qed.

Lemma hex_value_range c v : hex_value c = Some v -> 0 <= v < 16.
Proof.
  unfold hex_value, is_digit. repeat case_if; intros [= <-]; bool_to_prop; try lia.
Qed.

Lemma scan_2hhx_range s v : scan_2hhx s = Some v -> byte_ok v.
Proof.
  unfold scan_2hhx. destruct (skip_space s) as [|c s']; [done|]. case_if.
  - destruct s' as [|d s']; [done|]. destruct (hex_value d); [|done]. intros [= <-]. apply u8_range.
  - destruct (hex_value c) as [x|] eqn:Ex; [|done]. apply hex_value_range in Ex.
    destruct s' as [|d s']; [intros [= <-]; unfold byte_ok; lia|].
    destruct (hex_value d) as [y|] eqn:Ey.
    + apply hex_value_range in Ey. intros [= <-]. unfold byte_ok. lia.
    + case_if; [done|]. intros [= <-]. unfold byte_ok. lia.
Qed.

Lemma atoi_range s : - 2 ^ 31 <= atoi s < 2 ^ 31.
Proof. unfold atoi, i32, swrap. pose proof (wrap_range 32 (strtol s + 2 ^ (32 - 1))). lia. Qed.

(** Exits of the parser: with 1, or with 0 after the help text. *)
Definition exits (help : Prop) (r : reason) (c : app_config) : Prop :=
  r = Exited EXIT_FAILURE \/ r = Exited EXIT_SUCCESS /\ help.

Section parse_proofs.
Variable atof : string -> spec_float.
Implicit Types (c : app_config) (Q : unit -> app_config -> Prop).

Lemma wp_usage Q help c :
  config_ok c -> Q tt c -> wp usage Q (exits help) c.
Proof.
  intros Hc HQ. unfold usage. apply wp_bind. unfold wp, get.
  destruct (cg_mode _ Hc). assert (cfg_mode c = 0 \/ cfg_mode c = 1 \/ cfg_mode c = 2 \/ cfg_mode c = 3)
    as [->|[->|[->| ->]]] by lia; done.
Qed.

Lemma wp_get {S} (Q : S -> S -> Prop) E s : Q s s -> wp get Q E s.
Proof. done. Qed.
Lemma wp_modify {S} (f : S -> S) (Q : unit -> S -> Prop) E s : Q tt (f s) -> wp (modify f) Q E s.
Proof. done. Qed.
Lemma wp_need {A} (o : option A) (Q : A -> app_config -> Prop) help c :
  (forall a, o = Some a -> Q a c) -> wp (need o) Q (exits help) c.
Proof. intros HQ. destruct o; [by apply HQ|]. by left. Qed.
Lemma wp_exit_guard b Q help c :
  (b = true -> Q tt c) -> wp (guard_exit b EXIT_FAILURE) Q (exits help) c.
Proof. intros HQ. destruct b; [by apply HQ|]. by left. Qed.
End parse_proofs.

(** One step through the parser. *)
Ltac parse_step :=
  cbv beta;
  lazymatch goal with
  | |- wp (mbind _ _) _ _ _ => apply wp_bind
  | |- wp get _ _ _ => apply wp_get
  | |- wp (modify _) _ _ _ => apply wp_modify
  | |- wp (modify_client _) _ _ _ => apply wp_modify
  | |- wp (need _) _ _ _ => apply wp_need; intros ? ?
  | |- wp (guard_exit _ _) _ _ _ => apply wp_exit_guard; intros ?; bool_to_prop
  | |- wp (mret _) _ _ _ => apply wp_ret
  | |- wp check_only_one_mode _ _ _ => unfold check_only_one_mode
  | |- wp check_client_mode _ _ _ => unfold check_client_mode
  | |- wp (rte_exit EXIT_FAILURE) _ _ _ => left; reflexivity
  | |- wp (let '(_, _) := ?p in _) _ _ _ => destruct p
  end.

Section parse_theorems.
Variable atof : string -> spec_float.
Implicit Types (c : app_config) (Q : unit -> app_config -> Prop).

(** The effect of one option on what the later theorems speak of. *)
Record opt_effect (o : opt) (c c' : app_config) : Prop := {
  oe_ok : config_ok c';
  oe_modes : modes (cfg_mode c') = modes (cfg_mode c) ++ option_list (opt_mode o);
  oe_union : o <> DELAY -> cfg_mode c' <> mode_client -> cfg_mode c' <> mode_latency_clinet ->
    server_delay c' = server_delay c;
}.

Lemma opt_effect_client f o c :
  config_ok c -> client_ok (f (client c)) -> opt_mode o = None ->
  (o <> DELAY -> cfg_mode c <> mode_client -> cfg_mode c <> mode_latency_clinet ->
    client_port (f (client c)) = client_port (client c) /\ port_pad (f (client c)) = port_pad (client c)) ->
  opt_effect o c (set_client f c).
Proof.
  intros [] Hf Hm Hu. constructor; cbn; [by constructor|by rewrite Hm, app_nil_r|].
  intros H1 H2 H3. destruct (Hu H1 H2 H3) as [E1 E2]. unfold server_delay. cbn. by rewrite E1, E2.
Qed.

Lemma opt_effect_app o c c' :
  config_ok c' -> client c' = client c -> cfg_mode c' = cfg_mode c -> opt_mode o = None ->
  opt_effect o c c'.
Proof.
  intros H1 H2 H3 Hm. constructor; [done|by rewrite H3, Hm, app_nil_r|].
  intros. unfold server_delay. by rewrite H2.
Qed.

Lemma set_ips_ok cl i ip ips :
  client_ok cl -> i = count_server_ips cl -> i < MAX_SERVER_IP_DEST -> ip_ok ip ->
  insertZ i (Some ip) (server_ips cl) = Some ips -> client_ok (set_ips (i + 1) ips cl).
Proof.
  intros [] -> Hi Hip Hins. pose proof Hins as [Hr Hl]%insertZ_Some.
  constructor; cbn; try done; [lia|by rewrite Hl, length_insert|].
  intros j Hj. rewrite (lookupZ_insert _ _ _ _ _ Hins). case_if; [subst; by exists ip|].
  apply co_ips0. lia.
Qed.

Lemma wp_scan_mac_byte i tmp Q E c :
  config_ok c -> (i < 6)%nat ->
  (forall mac, config_ok (set_dest_mac mac c) -> Q tt (set_dest_mac mac c)) ->
  wp (scan_mac_byte i tmp) Q E c.
Proof.
  intros [] Hi HQ. unfold scan_mac_byte. apply wp_modify.
  destruct (scan_2hhx tmp) as [v|] eqn:Ev.
  - apply HQ. constructor; cbn; try done. destruct cg_mac0 as [Hl Hb].
    rewrite length_insert. split; [done|]. apply Forall_insert; [done|]. by eapply scan_2hhx_range.
  - assert (E1 : c = set_dest_mac (dest_mac c) c) by (by destruct c). rewrite E1 at 1. by apply HQ.
Qed.

Lemma wp_parse_no_arp arg Q help c :
  config_ok c ->
  (forall mac, config_ok (set_dest_mac mac c) -> Q tt (set_dest_mac mac c)) ->
  wp (_parse_no_arp_arg arg) Q (exits help) c.
Proof.
  intros Hc HQ. unfold _parse_no_arp_arg. parse_step.
  apply (wp_forM (fun l _ c1 => Forall (fun i => (i < 6)%nat) l /\
    exists mac, c1 = set_dest_mac mac c /\ config_ok c1)).
  - split; [apply Forall_forall; intros i Hi%elem_of_seq; lia|].
    exists (dest_mac c). split; [by destruct c|done].
  - intros i l input c1 [Hl (mac & -> & Hc1)]. inversion Hl; subst.
    do 4 parse_step. apply wp_scan_mac_byte; [done..|]. intros mac2 Hc2. parse_step.
    split; [done|]. by exists mac2.
  - intros input c1 [_ (mac & -> & Hc1)]. do 2 parse_step. apply wp_scan_mac_byte; [done|lia|].
    intros mac2 Hc2. by apply (HQ mac2).
Qed.

Lemma wp_parse_zipf arg Q help c :
  config_ok c ->
  (forall addrs ports z, u32_ok addrs -> u32_ok ports -> ports <= addrs ->
    Q tt (set_client (set_zipf true addrs ports z) c)) ->
  wp (_parse_zipf_client_addr_arg atof arg) Q (exits help) c.
Proof.
  intros Hc HQ. unfold _parse_zipf_client_addr_arg. repeat parse_step.
  lazymatch goal with |- Q _ (set_client (set_zipf true ?x ?y ?z) _) =>
    change (Q tt (set_client (set_zipf true x y z) c)) end.
  apply HQ; auto with cnet.
Qed.

Lemma wp_parse_opt o arg Q c :
  config_ok c -> (forall c', opt_effect o c c' -> Q tt c') ->
  wp (parse_opt atof o arg) Q (exits (o = HELP)) c.
Proof.
  intros Hc HQ. pose proof Hc as [Cm Cq Cs Cp Csp Cmac Ccl]. pose proof Ccl as [].
  pose proof (atoi_range arg) as Hrange. change (2 ^ 31) with 2147483648 in Hrange.
  change INT_MAX with 2147483647 in *.
  destruct o; cbn [parse_opt].
  - (* help *) parse_step. eapply wp_usage; [done|]. right. done.
  - (* num-queue *) repeat parse_step. apply HQ, opt_effect_app; try done.
    constructor; try done. apply u16_is_ok.
  - (* client *) repeat parse_step. apply HQ. constructor; cbn; [by constructor| |by intros].
    rewrite H. done.
  - (* server *) repeat parse_step. apply HQ. constructor; cbn; [by constructor| |done].
    rewrite H. done.
  - (* latency-client *) repeat parse_step. apply HQ. constructor; cbn; [by constructor| |by intros].
    rewrite H. done.
  - (* ip-local *) repeat parse_step. apply HQ, opt_effect_app; try done.
    constructor; try done. by eapply str_to_ip_range.
  - (* ip-dest *) parse_step. parse_step. parse_step. parse_step. parse_step.
    repeat parse_step. rewrite i32_small in * by (unfold MAX_SERVER_IP_DEST in *; lia).
    assert (Hlt : count_server_ips (client c) < MAX_SERVER_IP_DEST) by lia.
    apply wp_demand; [intros ips Hd|intros Hd].
    2:{ exfalso. rewrite insertZ_is_Some in Hd; [done|].
        rewrite co_length0. unfold MAX_SERVER_IP_DEST in *. lia. }
    parse_step. rewrite u32_small by (unfold MAX_SERVER_IP_DEST in *; lia).
    change (Q tt (set_client (set_ips (count_server_ips (client c) + 1) ips) c)).
    apply HQ, opt_effect_client; try done.
    eapply set_ips_ok; [done|done|done|by eapply str_to_ip_range|done].
  - (* port *) repeat parse_step. case_if; parse_step; apply HQ.
    + apply opt_effect_app; try done. constructor; try done. apply u16_is_ok.
    + apply opt_effect_client; try done; [constructor; try done; apply u16_is_ok|].
      intros _ H1 H2. exfalso. unfold mode_undefined, mode_client, mode_server, mode_latency_clinet in *. lia.
  - (* port-dest *) repeat parse_step. apply HQ, opt_effect_app; try done.
    constructor; try done. apply u16_is_ok.
  - (* num-flow *) repeat parse_step. apply HQ, opt_effect_client; done.
  - (* duration *) repeat parse_step. apply HQ, opt_effect_client; done.
  - (* delay *) repeat parse_step. case_if; parse_step; apply HQ, opt_effect_client; try done.
    pose proof (u32_range (i32 (atol arg))) as Hv. set (v := u32 _) in *.
    constructor; cbn; try done; unfold u16_ok; Z.to_euclidean_division_equations; lia.
  - (* rate *) repeat parse_step. apply HQ, opt_effect_client; done.
  - (* batch *) repeat parse_step. apply HQ, opt_effect_client; try done.
    constructor; try done. apply u16_is_ok.
  - (* payload *) repeat parse_step. apply HQ, opt_effect_app; try done.
    constructor; try done. cbn. rewrite u32_small by lia. change INT_MAX with 2147483647. lia.
  - (* unidir *) repeat parse_step. apply HQ, opt_effect_app; done.
  - (* no-arp *) repeat parse_step. apply wp_parse_no_arp; [by constructor|].
    intros mac Hmac. apply HQ, opt_effect_app; done.
  - (* hdr-encap-sz *) repeat parse_step. apply HQ, opt_effect_client; done.
  - (* zipf *) do 4 parse_step. apply wp_parse_zipf; [done|].
    intros addrs ports z Ha Hp Hle. apply HQ, opt_effect_client; done.
  - (* max-num *) destruct (scan_d arg); parse_step; apply HQ; [by apply opt_effect_client|].
    by apply opt_effect_app.
  - (* katran *) repeat parse_step. apply HQ, opt_effect_client; try done.
    constructor; try done. apply u32_is_ok.
  - (* unknown *) parse_step. eapply wp_usage; [done|]. by left.
Qed.

Lemma default_config_ok : config_ok default_config.
Proof.
  constructor; cbn; try (split; by apply Z.leb_le || by apply Z.ltb_lt).
  - split; [done|]. by repeat (constructor; [by split|]).
  - constructor; cbn; try (split; by apply Z.leb_le || by apply Z.ltb_lt); try done. lia.
Qed.

(** The options of a command line, in order, as mode selections. *)
Definition selected (opts : list (opt * string)) : list Z := omap opt_mode opts.*1.

Lemma wp_parse_opts opts Q c :
  config_ok c ->
  (forall c', config_ok c' -> modes (cfg_mode c') = modes (cfg_mode c) ++ selected opts ->
    (Forall (fun o => o <> DELAY) opts.*1 -> cfg_mode c' = mode_server ->
      server_delay c' = server_delay c) -> Q tt c') ->
  wp (forM opts (fun '(o, optarg) _ => parse_opt atof o optarg) tt) Q (exits (HELP ∈ opts.*1)) c.
Proof.
  intros Hc HQ.
  apply (wp_forM (fun l _ c1 => exists pre, opts = pre ++ l /\ config_ok c1 /\
    modes (cfg_mode c1) = modes (cfg_mode c) ++ selected pre /\
    (Forall (fun o => o <> DELAY) pre.*1 -> cfg_mode c1 <> mode_client -> cfg_mode c1 <> mode_latency_clinet ->
      server_delay c1 = server_delay c))).
  - exists []. by rewrite app_nil_r.
  - intros [o arg] l [] c1 (pre & -> & Hc1 & Hm & Hd).
    eapply wp_mono; [apply (wp_parse_opt o arg (fun _ c2 => opt_effect o c1 c2)); [done|by intros]| |].
    + intros [] c2 [E1 E2 E3]. exists (pre ++ [(o, arg)]). rewrite <- app_assoc. split; [done|]. split; [done|].
      unfold selected in *. rewrite E2, Hm, fmap_app, omap_app, app_assoc. split; [cbn; by destruct (opt_mode o)|].
      intros [F1 F2]%Forall_app N1 N2. apply Forall_inv in F2. cbn in F2. rewrite E3 by done. apply Hd; [done|..].
      all: intros N; unfold modes in E2; rewrite N in E2; cbn in E2; destruct (cfg_mode c2 =? _); [done|].
      all: injection E2 as E2 _; congruence.
    + intros r c2 [->|[-> ->]]; [by left|right]. split; [done|].
      rewrite fmap_app, elem_of_app. right. left.
  - intros [] c1 (pre & Hpre & Hc1 & Hm & Hd). rewrite app_nil_r in Hpre. subst pre.
    apply HQ; try done. intros F1 F2. apply Hd; [done|by rewrite F2..].
Qed.

Lemma wp_check_config Q help c :
  config_ok c ->
  (forall c', config_ok c' -> cfg_mode c' = cfg_mode c -> server_delay c' = server_delay c ->
    cfg_mode c <> mode_undefined -> source_ip c' <> 0 ->
    (cfg_mode c = mode_client \/ cfg_mode c = mode_latency_clinet ->
      1 <= count_server_ips (client c') /\ 1 <= cfg_batch (client c')) -> Q tt c') ->
  wp check_config Q (exits help) c.
Proof.
  intros Hc HQ. pose proof Hc as [Cm _ _ _ _ _ Ccl]. pose proof Ccl as [_ _ Cn _ _ Cb _ _ _ _].
  unfold check_config. do 3 parse_step.
  destruct (Z.eqb_spec (cfg_mode c) mode_undefined) as [|Hm]; cbn [when].
  { parse_step. eapply wp_usage; [done|]. by left. }
  parse_step.
  assert (Hend : forall b, u16_ok b -> (cfg_mode c = mode_client \/ cfg_mode c = mode_latency_clinet -> 1 <= b) ->
    wp (_ ← guard_exit (negb (source_ip c =? 0)) EXIT_FAILURE;
        guard_exit (negb ((count_server_ips (client c) =? 0) &&
          ((cfg_mode c =? mode_client) || (cfg_mode c =? mode_latency_clinet)))) EXIT_FAILURE)
      Q (exits help) (set_client (set_batch b) c)).
  { intros b Hb Hb1. repeat parse_step. apply HQ; try done.
    - destruct Hc. constructor; try done. by destruct Ccl.
    - intros Hmode. split; [|by apply Hb1]. cbn.
      destruct (Z.eqb_spec (count_server_ips (client c)) 0); [|lia].
      cbn [andb] in *. bool_to_prop. lia. }
  assert (Hsame : c = set_client (set_batch (cfg_batch (client c))) c) by (by destruct c as [? ? ? ? ? ? ? ? [] ?]).
  parse_step. destruct (Z.eqb_spec (cfg_batch (client c)) 0) as [Hz|Hz]; cbn [when].
  - destruct (Z.eqb_spec (cfg_mode c) mode_client); [parse_step; apply Hend; [done|lia]|].
    destruct (Z.eqb_spec (cfg_mode c) mode_latency_clinet); [parse_step; apply Hend; [done|lia]|].
    parse_step. rewrite Hsame. apply Hend; [done|]. by intros [|].
  - parse_step. specialize (Hend (cfg_batch (client c)) Cb). rewrite <- Hsame in Hend.
    apply Hend. unfold u16_ok in Cb. lia.
Qed.

Lemma wp_parse_args eal_init opts Q c0 :
  (forall c c', config_ok c -> modes (cfg_mode c) = selected opts ->
    (Forall (fun o => o <> DELAY) opts.*1 -> cfg_mode c = mode_server -> server_delay c = 3000) ->
    config_ok c' -> cfg_mode c' = cfg_mode c -> server_delay c' = server_delay c ->
    cfg_mode c <> mode_undefined -> source_ip c' <> 0 ->
    (cfg_mode c = mode_client \/ cfg_mode c = mode_latency_clinet ->
      1 <= count_server_ips (client c') /\ 1 <= cfg_batch (client c')) -> Q tt c') ->
  wp (parse_args atof eal_init opts) Q (exits (HELP ∈ opts.*1)) c0.
Proof.
  intros HQ. unfold parse_args. apply wp_bind. unfold wp at 1, put.
  pose proof default_config_ok as Hd. apply wp_bind. unfold dpdk_init. case_if.
  - parse_step. apply wp_usage; [done|]. by left.
  - parse_step. parse_step. apply wp_parse_opts; [done|]. intros c1 Hc1 Hm Hsd.
    eapply wp_check_config; [done|]. intros c2. intros. by apply (HQ c1 c2).
Qed.

(** ** Properties *)

(** C28: A command line is either rejected with an error message and exit code
    1 (0 after --help) or parsed into a configuration that is fit for use: exactly
    one mode was selected, the local address is set, a client has between 1 and 32
    destinations, all of them set, and a batch of at least one packet; every field
    is in range, and no array is written out of bounds, whatever the options and
    their order. *)
Theorem parse_args_correct eal_init opts c0 :
  wp (parse_args atof eal_init opts)
    (fun _ c => config_ok c /\ selected opts = [cfg_mode c] /\ cfg_mode c <> mode_undefined /\
      source_ip c <> 0 /\
      (cfg_mode c = mode_client \/ cfg_mode c = mode_latency_clinet ->
        1 <= count_server_ips (client c) /\ 1 <= cfg_batch (client c)))
    (exits (HELP ∈ opts.*1)) c0.
Proof.
  apply wp_parse_args. intros c c' _ Hm _ Hc' Hmode _ Hne Hsrc Hcl.
  rewrite <- Hm. unfold modes. rewrite Hmode. apply Z.eqb_neq in Hne. rewrite Hne.
  split_and!; try done. by apply Z.eqb_neq.
Qed.

(** C40: The server's delay defaults to 3000 (cycles per packet), not to the 0
    the usage text promises: the field shares its bytes with the client's port,
    whose default 3000 is stored before the mode is known. Every accepted command
    line that selects the server and gives no --delay ends with it. *)
Theorem server_delay_default eal_init opts c0 :
  Forall (fun o => o <> DELAY) opts.*1 ->
  wp (parse_args atof eal_init opts)
    (fun _ c => cfg_mode c = mode_server -> server_delay c = 3000)
    (exits (HELP ∈ opts.*1)) c0.
Proof.
  intros Hno. apply wp_parse_args. intros c c' _ _ Hsd _ Hmode Hd _ _ _ Hsrv.
  rewrite Hd. apply Hsd; [done|]. by rewrite <- Hmode.
Qed.
End parse_theorems.

(** *** Hardware addresses as text *)
Definition print_nibble (d : Z) : ascii := if d <? 10 then chr (48 + d) else chr (87 + d).
(** [%x] of a byte. *)
Definition print_x (b : Z) : string :=
  if b <? 16 then String (print_nibble b) "" else
  String (print_nibble (b / 16)) (String (print_nibble (b mod 16)) "").

(** The text [print_mac] writes. *)
Fixpoint mac_to_str (mac : list Z) : string :=
  match mac with
  | [] => ""
  | [b] => print_x b
  | b :: mac => print_x b +:+ ":" +:+ mac_to_str mac
  end.

Lemma bytes_checked (P : Z -> bool) :
  forallb (fun n => P (Z.of_nat n)) (seq 0 256) = true -> forall b, byte_ok b -> P b = true.
Proof.
  intros Hall b Hb. rewrite forallb_forall in Hall. specialize (Hall (Z.to_nat b)).
  rewrite Z2Nat.id in Hall by (unfold byte_ok in Hb; lia). apply Hall.
  apply in_seq. unfold byte_ok in Hb. lia.
Qed.

Lemma scan_print_x b : byte_ok b -> scan_2hhx (print_x b) = Some b.
Proof.
  intros Hb. apply (bytes_checked (fun b => bool_decide (scan_2hhx (print_x b) = Some b))) in Hb;
    [by apply bool_decide_eq_true in Hb|vm_compute; reflexivity].
Qed.

(** No digit is a colon. *)
Lemma print_x_shape b : byte_ok b ->
  exists c s, print_x b = String c s /\ c <> ":"%char /\ (s = EmptyString \/ exists d, s = String d EmptyString /\ d <> ":"%char).
Proof.
  intros Hb. apply (bytes_checked (fun b => match print_x b with
    | String c EmptyString => negb (bool_decide (c = ":"%char))
    | String c (String d EmptyString) => negb (bool_decide (c = ":"%char)) && negb (bool_decide (d = ":"%char))
    | _ => false end)) in Hb; [|vm_compute; reflexivity].
  destruct (print_x b) as [|c [|d [|]]]; try done; bool_to_prop;
    repeat match goal with H : bool_decide _ = false |- _ => apply bool_decide_eq_false in H end.
  - exists c, ""%string. auto.
  - exists c, (String d ""). eauto 6.
Qed.

Lemma strtok_print_x b rest :
  byte_ok b -> strtok ":" (print_x b +:+ ":" +:+ rest) = Some (print_x b, rest).
Proof.
  intros Hb. destruct (print_x_shape b Hb) as (c & s & -> & Hc & Hs).
  unfold strtok. rewrite append_cons. cbn [skip_delim]. rewrite bool_decide_eq_false_2 by done.
  cbn [until_delim]. rewrite bool_decide_eq_false_2 by done.
  destruct Hs as [->|(d & -> & Hd)]; rewrite ?append_cons, ?append_nil.
  - reflexivity.
  - cbn [until_delim]. rewrite bool_decide_eq_false_2 by done. reflexivity.
Qed.

(** Parsing inverts printing of hardware addresses: the argument of --no-arp
    in the form [print_mac] prints sets the destination address to its six bytes,
    and nothing else. *)
Theorem no_arp_roundtrip mac c :
  length mac = 6%nat -> Forall byte_ok mac -> length (dest_mac c) = 6%nat ->
  _parse_no_arp_arg (mac_to_str mac) c = (Ret tt, set_dest_mac mac c).
Proof.
  intros Hl Hb Hd. explode_list mac. decompose_Forall_hyps.
  destruct c as [a1 a2 a3 a4 a5 a6 a7 a8 a9 dm]. cbn [dest_mac] in Hd. explode_list dm.
  cbn [mac_to_str]. unfold _parse_no_arp_arg, scan_mac_byte. cbn [seq forM].
  do 5 (run; rewrite strtok_print_x by done; cbn [need]; run; rewrite scan_print_x by done;
    unfold set_dest_mac at 1; cbn [dest_mac]).
  run. destruct (print_x_shape x4) as (ch & s & Ex & _); [done|]. rewrite Ex. cbn [strtok_rest need].
  run. rewrite <- Ex. unfold modify. rewrite scan_print_x by done. reflexivity.
Qed.

(** ** Witnesses *)
Definition no_float (_ : string) : spec_float := S754_zero false.
Definition server_line : list (opt * string) := [(SERVER, ""%string); (IP_LOCAL, "10.0.0.1"%string)].

Lemma server_delay_default_witness :
  exists c, parse_args no_float 0 server_line default_config = (Ret tt, c) /\
    cfg_mode c = mode_server /\ server_delay c = 3000.
Proof.
  pose proof (server_delay_default no_float 0 server_line default_config
    ltac:(repeat constructor; discriminate)) as Hw.
  assert (Hrun : exists c, parse_args no_float 0 server_line default_config = (Ret tt, c) /\
    cfg_mode c = mode_server) by (eexists; split; vm_compute; reflexivity).
  destruct Hrun as (c & Hrun & Hm). unfold wp in Hw. rewrite Hrun in Hw.
  exists c. split_and!; [done|done|by apply Hw].
Defined.

Lemma no_arp_roundtrip_witness :
  _parse_no_arp_arg "2:0:0:0:a:ff" default_config = (Ret tt, set_dest_mac [2; 0; 0; 0; 10; 255] default_config).
Proof.
  apply (no_arp_roundtrip [2; 0; 0; 0; 10; 255] default_config); [done| |done].
  repeat (constructor; [split; [by apply Z.leb_le|by apply Z.ltb_lt]|]). constructor.
Defined.
