(* ===== verification/Packet.v ===== *)
(** * Building packets (include/client/prepare_packet.h)

    Ethernet, optional VLAN, IPv4 and UDP headers of an outgoing packet, with
    the choice of the client's address. The [info] structure is modified by the
    choice, as in the source, so it is part of the state. *)
From S2P Require Import Prelude CInt Monad Zipf Dpdk Sim.

Definition FIX_CLIENT_ADDR : Z := 0.
Definition ZIPF_CLIENT_ADDR : Z := 1.

Record zipf_client_addr := { src_zipf : zipfgen; count_port : Z }.

Record prepare_packet_info := PacketInfo {
  pi_use_vlan : bool;
  client_address_selection : Z;
  pi_src_mac : ether_addr;
  pi_dst_mac : ether_addr;
  pi_src_ip : Z;
  pi_dst_ip : Z;
  pi_src_port : Z;
  pi_dst_port : Z;
  tci : Z;
  pi_payload_length : Z;
  client_addr_select_info : option zipf_client_addr;   (* None: NULL *)
}.

(** The buffer, the [info] structure and the random numbers. *)
Record pkt := Pkt { pbuf : mbuf; pinfo : prepare_packet_info; prng : rng_state }.

Definition on_buf {A} (m : M mbuf A) : M pkt A :=
  zoom pbuf (fun b p => Pkt b (pinfo p) (prng p)) m.
Definition draw_rank (z : zipfgen) : M pkt Z :=
  zoom prng (fun r p => Pkt (pbuf p) (pinfo p) r) (number_from_zipf_distribution z).

(** [info->src_ip += ip; info->src_port += port;] *)
Definition add_src (ip port : Z) (i : prepare_packet_info) : prepare_packet_info :=
  PacketInfo (pi_use_vlan i) (client_address_selection i) (pi_src_mac i) (pi_dst_mac i)
    (u32 (pi_src_ip i + ip)) (pi_dst_ip i) (u16 (pi_src_port i + port)) (pi_dst_port i) (tci i)
    (pi_payload_length i) (client_addr_select_info i).

Section packet.
Context `{DpdkLib}.

Definition _ethernet_header (eth_hdr : Z) (src dst : ether_addr) (ether_type : Z) : M mbuf unit :=
  _ ← mwrite (eth_hdr + eth_src) src;
  _ ← mwrite (eth_hdr + eth_dst) dst;
  mstore 2 (eth_hdr + eth_type) (rte_cpu_to_be_16 ether_type).

Definition _ipv4_header (ipv4_hdr src_ip dst_ip : Z) : M mbuf unit :=
  _ ← mstore 1 ipv4_hdr 0x45;
  _ ← mstore 1 (ipv4_hdr + 1) 0;
  _ ← mstore 2 (ipv4_hdr + 4) 0;
  _ ← mstore 2 (ipv4_hdr + 6) 0;
  _ ← mstore 1 (ipv4_hdr + 8) 64;
  _ ← mstore 2 (ipv4_hdr + ip_cksum) 0;
  _ ← mstore 4 (ipv4_hdr + ip_src) (rte_cpu_to_be_32 src_ip);
  mstore 4 (ipv4_hdr + ip_dst) (rte_cpu_to_be_32 dst_ip).

(** The Ethernet and VLAN headers. *)
Definition eth_vlan_part (info : prepare_packet_info) : M mbuf unit :=
  p ← rte_pktmbuf_append RTE_ETHER_HDR_LEN;
  eth_hdr ← demand p;
  if negb (pi_use_vlan info) then
    _ ← _ethernet_header eth_hdr (pi_src_mac info) (pi_dst_mac info) RTE_ETHER_TYPE_IPV4;
    set_l2_len RTE_ETHER_HDR_LEN
  else
    _ ← _ethernet_header eth_hdr (pi_src_mac info) (pi_dst_mac info) RTE_ETHER_TYPE_VLAN;
    p ← rte_pktmbuf_append sizeof_vlan_hdr;
    vlan_hdr ← demand p;
    _ ← mstore 2 vlan_hdr (rte_cpu_to_be_16 (tci info));
    _ ← mstore 2 (vlan_hdr + 2) (rte_cpu_to_be_16 RTE_ETHER_TYPE_IPV4);
    set_l2_len (RTE_ETHER_HDR_LEN + sizeof_vlan_hdr).

(** The choice of the source address: the [switch]. *)
Definition select_client_addr : M pkt unit :=
  s ← get;
  let sel := client_address_selection (pinfo s) in
  if sel =? FIX_CLIENT_ADDR then mret tt
  else if sel =? ZIPF_CLIENT_ADDR then
    t ← demand (client_addr_select_info (pinfo s));
    rank ← draw_rank (src_zipf t);
    let src_idx := u32 (rank - 1) in
    _ ← demand (if count_port t =? 0 then None else Some tt);
    let ip_offset := u32 (src_idx / count_port t) in
    let port_offset := u32 (src_idx mod count_port t) in
    modify (fun s => Pkt (pbuf s) (add_src ip_offset port_offset (pinfo s)) (prng s))
  else stop (Exited 1).

(** The IPv4 header; its offset. *)
Definition ipv4_part (info : prepare_packet_info) : M mbuf Z :=
  p ← rte_pktmbuf_append sizeof_ipv4_hdr;
  ipv4_hdr ← demand p;
  _ ← _ipv4_header ipv4_hdr (pi_src_ip info) (pi_dst_ip info);
  _ ← set_l3_len sizeof_ipv4_hdr;
  mret ipv4_hdr.

Definition _prepare_eth_vlan_ip : M pkt Z :=
  s ← get;
  _ ← on_buf (eth_vlan_part (pinfo s));
  _ ← select_client_addr;
  s ← get;
  on_buf (ipv4_part (pinfo s)).

Definition udp_part (info : prepare_packet_info) (ipv4_hdr : Z) : M mbuf (option Z) :=
  let dgram_len := u16 (sizeof_udp_hdr + pi_payload_length info) in
  let total_length := u16 (sizeof_ipv4_hdr + dgram_len) in
  _ ← mstore 1 (ipv4_hdr + ip_proto) IPPROTO_UDP;
  _ ← mstore 2 (ipv4_hdr + ip_total_length) (rte_cpu_to_be_16 total_length);
  p ← rte_pktmbuf_append sizeof_udp_hdr;
  udp_hdr ← demand p;
  _ ← mstore 2 (udp_hdr + l4_src_port) (rte_cpu_to_be_16 (pi_src_port info));
  _ ← mstore 2 (udp_hdr + l4_dst_port) (rte_cpu_to_be_16 (pi_dst_port info));
  _ ← mstore 2 (udp_hdr + udp_len) (rte_cpu_to_be_16 dgram_len);
  _ ← mstore 2 (udp_hdr + udp_cksum) 0;
  out_payload ← rte_pktmbuf_append (pi_payload_length info);
  _ ← set_ol_flags (Z.lor (Z.lor RTE_MBUF_F_TX_IP_CKSUM RTE_MBUF_F_TX_IPV4) RTE_MBUF_F_TX_UDP_CKSUM);
  mret out_payload.

(** The result is the payload's offset, [None] for NULL. *)
Definition prepare_udp : M pkt (option Z) :=
  ipv4_hdr ← _prepare_eth_vlan_ip;
  s ← get;
  on_buf (udp_part (pinfo s) ipv4_hdr).
End packet.

(** ** Reference encoders *)
Definition eth_bytes (i : prepare_packet_info) : list Z :=
  pi_dst_mac i ++ pi_src_mac i ++
  (if pi_use_vlan i then be_split 2 RTE_ETHER_TYPE_VLAN ++ be_split 2 (tci i) ++ be_split 2 RTE_ETHER_TYPE_IPV4
   else be_split 2 RTE_ETHER_TYPE_IPV4).
Definition ipv4_bytes (total_length proto src dst : Z) : list Z :=
  [0x45; 0] ++ be_split 2 total_length ++ [0; 0; 0; 0; 64; proto; 0; 0] ++ be_split 4 src ++ be_split 4 dst.
Definition udp_bytes (src dst len : Z) : list Z :=
  be_split 2 src ++ be_split 2 dst ++ be_split 2 len ++ [0; 0].
Definition l2_size (i : prepare_packet_info) : nat := if pi_use_vlan i then 18 else 14.
Definition udp_header (i : prepare_packet_info) : list Z :=
  eth_bytes i ++
  ipv4_bytes (28 + pi_payload_length i) IPPROTO_UDP (pi_src_ip i) (pi_dst_ip i) ++
  udp_bytes (pi_src_port i) (pi_dst_port i) (8 + pi_payload_length i).

Record info_ok (i : prepare_packet_info) : Prop := {
  io_src : length (pi_src_mac i) = 6%nat;
  io_dst : length (pi_dst_mac i) = 6%nat;
  io_payload : 0 <= pi_payload_length i < 65536;
}.

Lemma on_buf_run {A} (m : M mbuf A) p a b :
  m (pbuf p) = (Ret a, b) -> on_buf m p = (Ret a, Pkt b (pinfo p) (prng p)).
Proof. unfold on_buf, zoom. by intros ->. Qed.

Section packet_proofs.
Context `{DpdkLaws}.

Lemma eth_vlan_run i b hd tl :
  info_ok i -> data_len b = 0 -> mb_room b = hd ++ tl -> length hd = l2_size i ->
  Z.of_nat (length (mb_room b)) = RTE_MBUF_DEFAULT_DATAROOM ->
  eth_vlan_part i b =
    (Ret tt, Mbuf (eth_bytes i ++ tl) (Z.of_nat (l2_size i)) (Z.of_nat (l2_size i)) (l3_len b) (ol_flags b)).
Proof.
  intros [Hs Hd _] Hdl Hr Hhd Hlen. destruct b as [r dl l2 l3 fl]. cbn in Hdl, Hr, Hlen. subst dl r.
  destruct i as [vlan sel smac dmac sip dip sp dp tc pl ci]. unfold l2_size, eth_bytes in *. cbn in *.
  rewrite length_app in Hlen. unfold RTE_MBUF_DEFAULT_DATAROOM in Hlen.
  explode_list smac. explode_list dmac.
  destruct vlan; explode_list hd; cbn [length] in Hlen;
    unfold eth_vlan_part, _ethernet_header, set_l2_len; cbn [pi_use_vlan negb pi_src_mac pi_dst_mac tci]; layout;
    repeat buf_step; reflexivity.
Qed.

(** The IPv4 header before its protocol and its total length are set. *)
Definition ipv4_partial (i : prepare_packet_info) (hd : list Z) : list Z :=
  [0x45; 0] ++ field 2 2 hd ++ [0; 0; 0; 0; 64] ++ field 9 1 hd ++ [0; 0] ++
  be_split 4 (pi_src_ip i) ++ be_split 4 (pi_dst_ip i).

Lemma ipv4_run i pre hd tl l2 l3 fl :
  length pre = 14%nat \/ length pre = 18%nat -> length hd = 20%nat ->
  ipv4_part i (Mbuf (pre ++ hd ++ tl) (Z.of_nat (length pre)) l2 l3 fl) =
    (Ret (Z.of_nat (length pre)),
     Mbuf (pre ++ ipv4_partial i hd ++ tl) (Z.of_nat (length pre + 20)) l2 20 fl).
Proof.
  intros Hpre Hhd. destruct i as [vlan sel smac dmac sip dip sp dp tc pl ci].
  explode_list hd. unfold ipv4_part, _ipv4_header, set_l3_len, ipv4_partial, field.
  destruct Hpre as [Hpre|Hpre]; explode_list pre; cbn [pi_src_ip pi_dst_ip length]; layout;
    repeat buf_step; reflexivity.
Qed.

Lemma udp_run i pre hd hd2 tl l2 l3 fl :
  length pre = 14%nat \/ length pre = 18%nat -> length hd = 20%nat -> length hd2 = 8%nat ->
  0 <= pi_payload_length i <= Z.of_nat (length tl) -> pi_payload_length i <= 2048 ->
  udp_part i (Z.of_nat (length pre))
      (Mbuf (pre ++ ipv4_partial i hd ++ hd2 ++ tl) (Z.of_nat (length pre + 20)) l2 l3 fl) =
    (Ret (Some (Z.of_nat (length pre + 28))),
     Mbuf (pre ++ (ipv4_bytes (28 + pi_payload_length i) IPPROTO_UDP (pi_src_ip i) (pi_dst_ip i) ++
             udp_bytes (pi_src_port i) (pi_dst_port i) (8 + pi_payload_length i)) ++ tl)
       (Z.of_nat (length pre + 28) + pi_payload_length i) l2 l3
       (Z.lor (Z.lor RTE_MBUF_F_TX_IP_CKSUM RTE_MBUF_F_TX_IPV4) RTE_MBUF_F_TX_UDP_CKSUM)).
Proof.
  intros Hpre Hhd Hhd2 Hpl Hmax. destruct i as [vlan sel smac dmac sip dip sp dp tc pl ci].
  cbn [pi_payload_length] in *.
  unfold udp_part, set_ol_flags. cbn [pi_src_ip pi_dst_ip pi_src_port pi_dst_port pi_payload_length].
  replace (u16 (sizeof_udp_hdr + pl)) with (8 + pl) by (symmetry; apply u16_small; unfold sizeof_udp_hdr; lia).
  replace (u16 (sizeof_ipv4_hdr + (8 + pl))) with (28 + pl)
    by (unfold sizeof_ipv4_hdr; rewrite u16_small by lia; lia).
  explode_list hd. explode_list hd2. unfold ipv4_partial, ipv4_bytes, udp_bytes, field. 
  cbn [pi_src_ip pi_dst_ip].
  destruct Hpre as [Hpre|Hpre]; explode_list pre; cbn [length]; layout; repeat buf_step; reflexivity.
Qed.

(** What the choice of the client's address makes of [info]. *)
Definition selects (i : prepare_packet_info) (r : rng_state) (i' : prepare_packet_info) (r' : rng_state) : Prop :=
  forall b, select_client_addr (Pkt b i r) = (Ret tt, Pkt b i' r').

Lemma select_fix i r : client_address_selection i = FIX_CLIENT_ADDR -> selects i r i r.
Proof. intros Hi b. unfold select_client_addr. run. cbn [pinfo]. by rewrite Hi. Qed.

Lemma select_zipf i r t rank r' :
  client_address_selection i = ZIPF_CLIENT_ADDR -> client_addr_select_info i = Some t ->
  count_port t <> 0 -> number_from_zipf_distribution (src_zipf t) r = (Ret rank, r') ->
  selects i r (add_src (u32 (u32 (rank - 1) / count_port t)) (u32 (u32 (rank - 1) mod count_port t)) i) r'.
Proof.
  intros Hi Ht Hc Hr b. unfold select_client_addr. run. cbn [pinfo]. rewrite Hi, Ht.
  change (ZIPF_CLIENT_ADDR =? FIX_CLIENT_ADDR) with false. change (ZIPF_CLIENT_ADDR =? ZIPF_CLIENT_ADDR) with true.
  cbv beta iota. run.
  erewrite run_bind; [|unfold draw_rank, zoom; cbn [prng]; by rewrite Hr].
  apply Z.eqb_neq in Hc. rewrite Hc. by run.
Qed.

Lemma selects_inv i r i' r' : selects i r i' r' ->
  i' = i \/ exists ip port, i' = add_src ip port i.
Proof.
  intros Hs. specialize (Hs (Mbuf [] 0 0 0 0)). unfold select_client_addr in Hs. revert Hs. run.
  cbn [pinfo]. repeat case_if; [by run; intros [= -> _]; left| |done].
  destruct (client_addr_select_info i) as [t|]; [|done]. run.
  unfold draw_rank, zoom. cbn [prng pbuf pinfo]. unfold mbind at 1, M_bind at 1.
  destruct (number_from_zipf_distribution _ _) as [[rank|] r1]; [|done].
  case_if; [done|]. run. intros [= <- _]. right. by do 2 eexists.
Qed.

(** Only the source address and port differ. *)
Lemma selects_rest i r i' r' : selects i r i' r' ->
  eth_bytes i' = eth_bytes i /\ l2_size i' = l2_size i /\
  pi_payload_length i' = pi_payload_length i /\ pi_dst_ip i' = pi_dst_ip i /\
  pi_dst_port i' = pi_dst_port i /\ pi_use_vlan i' = pi_use_vlan i.
Proof. by intros [-> |(ip & port & ->)]%selects_inv. Qed.

Lemma eth_bytes_length i : info_ok i -> length (eth_bytes i) = l2_size i.
Proof.
  intros [Hs Hd _]. unfold eth_bytes, l2_size. rewrite !length_app, Hs, Hd. by destruct (pi_use_vlan i).
Qed.

Lemma l2_size_cases i : l2_size i = 14%nat \/ l2_size i = 18%nat.
Proof. unfold l2_size. destruct (pi_use_vlan i); auto. Qed.

(** The headers up to IPv4. *)
Lemma prepare_ip_run i r i' r' b :
  fresh_ok b -> info_ok i -> selects i r i' r' ->
  exists hd, length hd = 20%nat /\
    _prepare_eth_vlan_ip (Pkt b i r) = (Ret (Z.of_nat (l2_size i)),
      Pkt (Mbuf (eth_bytes i ++ ipv4_partial i' hd ++ drop (l2_size i + 20) (mb_room b))
        (Z.of_nat (l2_size i + 20)) (Z.of_nat (l2_size i)) 20 (ol_flags b)) i' r').
Proof.
  intros [[Hlen Hbytes] Hdl] Hi Hsel. pose proof (l2_size_cases i) as Hl2.
  pose proof (eth_bytes_length i Hi) as He. pose proof Hlen as Hlen'.
  unfold RTE_MBUF_DEFAULT_DATAROOM in Hlen'.
  destruct (room_split (l2_size i) (mb_room b)) as (hd0 & tl0 & Hr0 & Hh0 & Ht0); [lia|].
  destruct (room_split 20 tl0) as (hd & tl & -> & Hh & Ht); [lia|].
  exists hd. split; [done|]. unfold _prepare_eth_vlan_ip. run. cbn [pinfo].
  rewrite (run_bind _ _ _ _ _ (on_buf_run _ (Pkt b i r) _ _ (eth_vlan_run i b hd0 _ Hi Hdl Hr0 Hh0 Hlen))).
  cbn [pinfo prng]. rewrite (run_bind _ _ _ _ _ (Hsel _)). run. cbn [pinfo].
  eapply on_buf_run. cbn [pbuf]. rewrite <- He at 1.
  rewrite ipv4_run by (rewrite ?He; done). rewrite He. do 2 f_equal.
  by rewrite Hr0, <- Hh0, drop_app_add, <- Hh, drop_app_length.
Qed.

Definition udp_flags : Z :=
  Z.lor (Z.lor RTE_MBUF_F_TX_IP_CKSUM RTE_MBUF_F_TX_IPV4) RTE_MBUF_F_TX_UDP_CKSUM.

Lemma udp_header_length i : info_ok i -> length (udp_header i) = (l2_size i + 28)%nat.
Proof.
  intros Hi. unfold udp_header, ipv4_bytes, udp_bytes. rewrite !length_app, !length_be_split, eth_bytes_length by done.
  cbn [length]. lia.
Qed.

Lemma selects_info_ok i r i' r' : info_ok i -> selects i r i' r' -> info_ok i'.
Proof. intros [] [-> |(ip & port & ->)]%selects_inv; by constructor. Qed.

Lemma prepare_udp_run i r i' r' b :
  fresh_ok b -> info_ok i -> selects i r i' r' ->
  Z.of_nat (l2_size i + 28) + pi_payload_length i <= RTE_MBUF_DEFAULT_DATAROOM ->
  prepare_udp (Pkt b i r) = (Ret (Some (Z.of_nat (l2_size i + 28))),
    Pkt (Mbuf (udp_header i' ++ drop (l2_size i + 28) (mb_room b))
      (Z.of_nat (l2_size i + 28) + pi_payload_length i) (Z.of_nat (l2_size i)) 20 udp_flags) i' r').
Proof.
  intros Hb Hi Hsel Hfit. pose proof (io_payload _ Hi) as Hpl.
  destruct (prepare_ip_run i r i' r' b Hb Hi Hsel) as (hd & Hhd & Hrun).
  destruct Hb as [[Hlen _] _]. rewrite <- Hlen in Hfit.
  pose proof (l2_size_cases i). pose proof (eth_bytes_length i Hi) as He.
  destruct (selects_rest _ _ _ _ Hsel) as (He' & _ & Hpl' & _).
  unfold prepare_udp. rewrite (run_bind _ _ _ _ _ Hrun). run. cbn [pinfo].
  eapply on_buf_run. cbn [pbuf].
  destruct (room_split 8 (drop (l2_size i + 20) (mb_room b))) as (hd2 & tl & Hd & Hhd2 & Htl);
    [rewrite length_drop; lia|]. rewrite Hd, <- He.
  rewrite udp_run; rewrite ?He, ?Hpl'; [|done|done|done| |].
  2:{ rewrite Htl, length_drop. lia. }
  2:{ unfold RTE_MBUF_DEFAULT_DATAROOM in Hlen. lia. }
  assert (Htl' : drop (l2_size i + 28) (mb_room b) = tl).
  { replace (l2_size i + 28)%nat with (l2_size i + 20 + 8)%nat by lia.
    by rewrite <- drop_drop, Hd, <- Hhd2, drop_app_length. }
  unfold udp_header. rewrite He', Hpl', Htl'. by rewrite <- !app_assoc.
Qed.

(** ** Properties *)

(** C19: [prepare_udp] builds the packet it is asked for. In a fresh buffer with
    enough room it writes the Ethernet, optional 802.1Q, IPv4 and UDP headers of
    their standards, with consistent lengths and the source address that was
    selected; returns the payload's place right behind them, sets the buffer's
    lengths and offload flags, and touches no other byte. *)
Theorem prepare_udp_correct i r i' r' b :
  fresh_ok b -> info_ok i -> selects i r i' r' ->
  Z.of_nat (l2_size i + 28) + pi_payload_length i <= RTE_MBUF_DEFAULT_DATAROOM ->
  prepare_udp (Pkt b i r) = (Ret (Some (Z.of_nat (l2_size i + 28))),
    Pkt (Mbuf (udp_header i' ++ drop (l2_size i + 28) (mb_room b))
      (Z.of_nat (l2_size i + 28) + pi_payload_length i) (Z.of_nat (l2_size i)) 20 udp_flags) i' r').
Proof. apply prepare_udp_run. Qed.

(** The client's address is chosen by its Zipf rank: with a well-formed
    table over all addresses, the selection never fails and rank [v] gives the
    source at distance [(v - 1) / count_port] from the base address and
    [(v - 1) mod count_port] from the base port, so different ranks get
    different offsets; nothing else of [info] changes. *)
Theorem zipf_client_addr_selected i r t top b :
  client_address_selection i = ZIPF_CLIENT_ADDR -> client_addr_select_info i = Some t ->
  table_ok (src_zipf t) -> lookupZ (c_probs (src_zipf t)) (zg_n (src_zipf t)) = Some top ->
  RAND_MAX - 1 <= top -> rng_ok r -> 0 < count_port t ->
  exists ip port r', select_client_addr (Pkt b i r) = (Ret tt, Pkt b (add_src ip port i) r') /\
    rng_ok r' /\ 0 <= port < count_port t /\ 0 <= ip /\
    exists v, number_from_zipf_distribution (src_zipf t) r = (Ret v, r') /\
      1 <= v <= zg_n (src_zipf t) /\ v - 1 = ip * count_port t + port.
Proof.
  intros Hi Ht Htab Htop Hle Hr Hc. pose proof (tok_n _ Htab) as Hn.
  destruct (zipf_draw (src_zipf t) r top Htab Htop Hle Hr) as (v & r' & Hv & Hrange & Hr').
  do 3 eexists. split; [by apply (select_zipf i r t v r'); [| |lia|]|]. split; [done|].
  rewrite (u32_small (v - 1)) by lia.
  pose proof (Z.mod_pos_bound (v - 1) (count_port t) Hc). pose proof (Z.mod_le (v - 1) (count_port t)).
  pose proof (Z.div_pos (v - 1) (count_port t)). pose proof (Z.div_le_upper_bound (v - 1) (count_port t) (v - 1)).
  rewrite !u32_small by nia. split; [lia|]. split; [lia|]. exists v. split; [done|]. split; [lia|].
  rewrite (Z.div_mod (v - 1) (count_port t)) at 1 by lia. lia.
Qed.
End packet_proofs.

(** ** Witnesses *)
Definition zero_buf : mbuf := Mbuf (replicate 2048 0) 0 0 0 0.

(** Addresses drawn by a table of three ranks, with two ports to an address. *)
Definition some_clients : zipf_client_addr := {| src_zipf := zipf3; count_port := 2 |}.
Definition some_info (vlan : bool) (selection : Z) : prepare_packet_info :=
  PacketInfo vlan selection [2; 0; 0; 0; 0; 1] [2; 0; 0; 0; 0; 2] 167772161 167772162 3000 8080 24676 64
    (Some some_clients).

Lemma some_info_ok vlan selection : info_ok (some_info vlan selection).
Proof. constructor; [done|done|]. by split; [apply Z.leb_le|apply Z.ltb_lt]. Qed.

Lemma prepare_udp_correct_witness :
  prepare_udp (Pkt zero_buf (some_info true FIX_CLIENT_ADDR) rng_init) =
    (Ret (Some 46), Pkt (Mbuf (udp_header (some_info true FIX_CLIENT_ADDR) ++ replicate 2002 0) 110 18 20
       udp_flags) (some_info true FIX_CLIENT_ADDR) rng_init).
Proof.
  apply (prepare_udp_correct (some_info true FIX_CLIENT_ADDR) rng_init _ _ zero_buf);
    [apply zero_buf_ok|apply some_info_ok|by apply select_fix|by apply Z.leb_le].
Defined.

Lemma zipf_client_addr_selected_witness :
  exists ip port r', select_client_addr (Pkt zero_buf (some_info false ZIPF_CLIENT_ADDR) rng_init)
    = (Ret tt, Pkt zero_buf (add_src ip port (some_info false ZIPF_CLIENT_ADDR)) r') /\
    rng_ok r' /\ 0 <= port < 2 /\ 0 <= ip /\
    exists v, number_from_zipf_distribution zipf3 rng_init = (Ret v, r') /\ 1 <= v <= 3 /\ v - 1 = ip * 2 + port.
Proof.
  apply (zipf_client_addr_selected (some_info false ZIPF_CLIENT_ADDR) rng_init some_clients 2147483646);
    [reflexivity|reflexivity|apply zipf3_ok|reflexivity|by apply Z.leb_le
    |exists 0%nat; left; by split|by apply Z.ltb_lt].
Defined.
