(* ===== verification/TcpPacket.v ===== *)
(** * TCP packets (include/client/prepare_tcp_pkt.h)

    The headers of Packet.v followed by a TCP header and, when asked for, the TCP
    option in which Katran finds the number of the server. *)
From S2P Require Import Prelude CInt Monad Zipf Dpdk Sim Packet.

Definition KATRAN_TCP_HDR_OPT_KIND_TPR : Z := 0xB7.
Definition KATRAN_TCP_HDR_OPT_LEN_TPR : Z := 6.
Definition TCP_NOP_OPT : Z := 0x01.

(** The TCP header: offsets. *)
Definition tcp_sent_seq : Z := 4.
Definition tcp_recv_ack : Z := 8.
Definition tcp_data_off : Z := 12.
Definition tcp_flags : Z := 13.
Definition tcp_rx_win : Z := 14.
Definition tcp_cksum : Z := 16.
Definition tcp_urp : Z := 18.

(** [struct katran_srv_opt], packed. *)
Definition opt_kind : Z := 0.
Definition opt_len : Z := 1.
Definition opt_srv_id : Z := 2.

Section tcp.
Context `{DpdkLib}.

Definition draw_int : M pkt Z := zoom prng (fun r p => Pkt (pbuf p) (pinfo p) r) myrand.

(** The protocol fields of the IPv4 header and the TCP header. *)
Definition tcp_part (info : prepare_packet_info) (hdr_size ipv4_hdr : Z) : M mbuf unit :=
  _ ← mstore 1 (ipv4_hdr + ip_proto) IPPROTO_TCP;
  _ ← mstore 2 (ipv4_hdr + ip_total_length)
        (rte_cpu_to_be_16 (u16 (sizeof_ipv4_hdr + hdr_size + pi_payload_length info)));
  p ← rte_pktmbuf_append sizeof_tcp_hdr;
  tcp_hdr ← demand p;
  _ ← mstore 2 (tcp_hdr + l4_src_port) (rte_cpu_to_be_16 (pi_src_port info));
  _ ← mstore 2 (tcp_hdr + l4_dst_port) (rte_cpu_to_be_16 (pi_dst_port info));
  _ ← mstore 4 (tcp_hdr + tcp_sent_seq) 123;
  _ ← mstore 4 (tcp_hdr + tcp_recv_ack) 321;
  _ ← mstore 1 (tcp_hdr + tcp_data_off) (Z.shiftl (Z.land (hdr_size / 4) 0xf) 4);
  _ ← mstore 1 (tcp_hdr + tcp_flags) (Z.lor RTE_TCP_ACK_FLAG RTE_TCP_PSH_FLAG);
  _ ← mstore 2 (tcp_hdr + tcp_rx_win) 256;
  _ ← mstore 2 (tcp_hdr + tcp_cksum) 0;
  mstore 2 (tcp_hdr + tcp_urp) 0.

(** [*buf_ptr = TCP_NOP_OPT; buf_ptr++], [count] times. *)
Definition write_nops (count : Z) (buf_ptr : Z) : M mbuf Z :=
  forM (seqZ 0 count) (fun _ buf_ptr => _ ← mstore 1 buf_ptr TCP_NOP_OPT; mret (buf_ptr + 1)) buf_ptr.

(** The server number is read back from the buffer; 0 is replaced by 1. *)
Definition store_srv_id (opt id : Z) : M mbuf unit :=
  _ ← mstore 4 (opt + opt_srv_id) id;
  v ← mload 4 (opt + opt_srv_id);
  if v =? 0 then mstore 4 (opt + opt_srv_id) 1 else mret tt.

Definition katran_begin (size_tcp_opts count_noop_opt : Z) : M mbuf Z :=
  p ← rte_pktmbuf_append size_tcp_opts;
  buf_ptr ← demand p;
  opt ← write_nops count_noop_opt buf_ptr;
  _ ← mstore 1 (opt + opt_kind) KATRAN_TCP_HDR_OPT_KIND_TPR;
  _ ← mstore 1 (opt + opt_len) KATRAN_TCP_HDR_OPT_LEN_TPR;
  mret opt.

Definition katran_part (add_katran_option size_tcp_opts count_noop_opt : Z) : M pkt unit :=
  opt ← on_buf (katran_begin size_tcp_opts count_noop_opt);
  rnd ← draw_int;
  on_buf (store_srv_id opt (u32 rnd mod add_katran_option)).

Definition tcp_payload (info : prepare_packet_info) : M mbuf (option Z) :=
  out_payload ← rte_pktmbuf_append (pi_payload_length info);
  _ ← set_ol_flags (Z.lor (Z.lor RTE_MBUF_F_TX_IP_CKSUM RTE_MBUF_F_TX_IPV4) RTE_MBUF_F_TX_TCP_CKSUM);
  mret out_payload.

(** The argument is [tcp_info->add_katran_option]. *)
Definition prepare_tcp (add_katran_option : Z) : M pkt (option Z) :=
  ipv4_hdr ← _prepare_eth_vlan_ip;
  let with_opt := 0 <? add_katran_option in
  let count_noop_opt := if with_opt then 2 else 0 in
  let size_tcp_opts := if with_opt then KATRAN_TCP_HDR_OPT_LEN_TPR + count_noop_opt else 0 in
  _ ← when with_opt (c_assert (size_tcp_opts mod 4 =? 0));
  let hdr_size := sizeof_tcp_hdr + size_tcp_opts in
  s ← get;
  _ ← on_buf (tcp_part (pinfo s) hdr_size ipv4_hdr);
  _ ← when with_opt (katran_part add_katran_option size_tcp_opts count_noop_opt);
  on_buf (tcp_payload (pinfo s)).
End tcp.

(** ** Reference encoder *)

(** The option area: two no-ops, then kind, length and server number. *)
Definition katran_bytes (srv_id : Z) : list Z := [1; 1; 0xB7; 6] ++ le_split 4 srv_id.
(** The sequence, acknowledgment and window fields are constants nobody reads. *)
Definition tcp_bytes (src dst rows : Z) : list Z :=
  be_split 2 src ++ be_split 2 dst ++ [123; 0; 0; 0; 65; 1; 0; 0] ++ [rows * 16; 0x18; 0; 1; 0; 0; 0; 0].
Definition tcp_header (i : prepare_packet_info) (opts : list Z) : list Z :=
  let rows := 5 + Z.of_nat (length opts) / 4 in
  eth_bytes i ++
  ipv4_bytes (20 + 4 * rows + pi_payload_length i) IPPROTO_TCP (pi_src_ip i) (pi_dst_ip i) ++
  tcp_bytes (pi_src_port i) (pi_dst_port i) rows ++ opts.

(** The number Katran reads: never 0, the invalid one. *)
Definition srv_id (rnd add_katran_option : Z) : Z :=
  let v := rnd mod add_katran_option in if v =? 0 then 1 else v.

(** What the option adds: bytes, and a draw. *)
Definition katran_adds (opt : Z) (r : rng_state) (bytes : list Z) (r' : rng_state) : Prop :=
  if 0 <? opt
  then exists rnd, myrand r = (Ret rnd, r') /\ bytes = katran_bytes (srv_id (u32 rnd) opt)
  else bytes = [] /\ r' = r.

Definition tcp_flags_tx `{DpdkLib} : Z :=
  Z.lor (Z.lor RTE_MBUF_F_TX_IP_CKSUM RTE_MBUF_F_TX_IPV4) RTE_MBUF_F_TX_TCP_CKSUM.

Lemma srv_id_range rnd opt : 0 < opt -> 1 <= srv_id rnd opt <= Z.max 1 (opt - 1).
Proof.
  intros Ho. unfold srv_id. pose proof (Z.mod_pos_bound rnd opt Ho). case_if; lia.
Qed.

Lemma le_combine_split4 v : 0 <= v < 2 ^ 32 -> le_combine (le_split 4 v) = v.
Proof. intros. rewrite le_combine_split. by apply Z.mod_small. Qed.

Section tcp_proofs.
Context `{DpdkLaws}.

Lemma tcp_run i hdr_size rows pre hd hd2 tl l2 l3 fl :
  length pre = 14%nat \/ length pre = 18%nat -> length hd = 20%nat -> length hd2 = 20%nat ->
  hdr_size = 4 * rows -> rows = 5 \/ rows = 7 -> 0 <= pi_payload_length i <= 2048 ->
  tcp_part i hdr_size (Z.of_nat (length pre))
      (Mbuf (pre ++ ipv4_partial i hd ++ hd2 ++ tl) (Z.of_nat (length pre + 20)) l2 l3 fl) =
    (Ret tt, Mbuf (pre ++ (ipv4_bytes (20 + 4 * rows + pi_payload_length i) IPPROTO_TCP (pi_src_ip i) (pi_dst_ip i) ++
        tcp_bytes (pi_src_port i) (pi_dst_port i) rows) ++ tl)
      (Z.of_nat (length pre + 40)) l2 l3 fl).
Proof.
  intros Hpre Hhd Hhd2 -> Hrows Hpl. destruct i as [vlan sel smac dmac sip dip sp dp tc pl ci].
  cbn [pi_payload_length] in *. unfold tcp_part.
  cbn [pi_src_ip pi_dst_ip pi_src_port pi_dst_port pi_payload_length].
  replace (u16 (sizeof_ipv4_hdr + 4 * rows + pl)) with (20 + 4 * rows + pl)
    by (unfold sizeof_ipv4_hdr; rewrite u16_small by lia; lia).
  explode_list hd. explode_list hd2. unfold ipv4_partial, ipv4_bytes, tcp_bytes, field.
  cbn [pi_src_ip pi_dst_ip].
  unfold tcp_sent_seq, tcp_recv_ack, tcp_data_off, tcp_flags, tcp_rx_win, tcp_cksum, tcp_urp.
  destruct Hpre as [Hpre|Hpre]; explode_list pre; cbn [length]; layout;
    destruct Hrows as [->| ->]; repeat buf_step; reflexivity.
Qed.

(** The option area, behind any prefix. *)
Lemma katran_begin_run pre hd tl l2 l3 fl :
  length hd = 8%nat ->
  katran_begin 8 2 (Mbuf (pre ++ hd ++ tl) (Z.of_nat (length pre)) l2 l3 fl) =
    (Ret (Z.of_nat (length pre) + 2),
     Mbuf (pre ++ [1; 1; 0xB7; 6] ++ drop 4 hd ++ tl) (Z.of_nat (length pre) + 8) l2 l3 fl).
Proof.
  intros Hhd. explode_list hd. unfold katran_begin, write_nops.
  assert (Hw : forall o v (f : unit -> M mbuf Z) a b dl bs z, Z.of_nat o = z ->
    (o + 1 <= length bs)%nat ->
    (mstore 1 (Z.of_nat (length pre) + z) v ≫= f) (Mbuf (pre ++ bs) dl a l3 b) =
      f tt (Mbuf (pre ++ <[o := v mod 256]> bs) dl a l3 b)).
  { intros o v f a b dl bs z <- Ho. rewrite (bind_mstore 1 _ _ _ _ (pre ++ <[o := v mod 256]> bs)); [done|lia|].
    cbn [mb_room]. replace (Z.to_nat (Z.of_nat (length pre) + Z.of_nat o)) with (length pre + o)%nat by lia.
    rewrite patch_app_r. change (le_split (Z.to_nat 1) v) with [v mod 256]. unfold patch. cbn [length].
    case_if; [|lia]. cbn. do 2 f_equal. rewrite insert_take_drop by lia.
    by replace (o + 1)%nat with (S o) by lia. }
  rewrite bind_append; [|lia|cbn [data_len mb_room]; rewrite !length_app; cbn [length]; lia].
  cbn [data_len mb_room l2_len l3_len ol_flags]. rewrite bind_demand. change (seqZ 0 2) with [0; 1].
  cbn [forM]. rewrite !bind_assoc.
  rewrite <- (Z.add_0_r (Z.of_nat (length pre))) at 1.
  rewrite (Hw 0%nat) by (done || cbn; lia). run.
  rewrite (Hw 1%nat) by (done || cbn; lia). run.
  unfold opt_kind, opt_len. rewrite <- !Z.add_assoc.
  rewrite (Hw 2%nat) by (done || cbn; lia). rewrite (Hw 3%nat) by (done || cbn; lia). run.
  done.
Qed.

(** A whole field behind a prefix. *)
Lemma bind_mstore_at {A} n pre hd tl off v dl l2 l3 fl (f : unit -> M mbuf A) :
  off = Z.of_nat (length pre) -> 0 <= n -> length hd = Z.to_nat n ->
  (mstore n off v ≫= f) (Mbuf (pre ++ hd ++ tl) dl l2 l3 fl) =
    f tt (Mbuf (pre ++ le_split (Z.to_nat n) v ++ tl) dl l2 l3 fl).
Proof.
  intros -> Hn Hhd. rewrite (bind_mstore n _ _ _ _ (pre ++ le_split (Z.to_nat n) v ++ tl)); [done|lia|].
  cbn [mb_room]. rewrite Nat2Z.id. apply patch_exact. by rewrite length_le_split.
Qed.

Lemma store_srv_id_run pre hd tl off rnd opt dl l2 l3 fl :
  length hd = 4%nat -> off + 2 = Z.of_nat (length pre) -> 0 < opt < 2 ^ 32 ->
  store_srv_id off (rnd mod opt) (Mbuf (pre ++ hd ++ tl) dl l2 l3 fl) =
    (Ret tt, Mbuf (pre ++ le_split 4 (srv_id rnd opt) ++ tl) dl l2 l3 fl).
Proof.
  intros Hhd Hoff Hopt. unfold store_srv_id, opt_srv_id, srv_id.
  pose proof (Z.mod_pos_bound rnd opt ltac:(lia)) as Hr.
  rewrite (bind_mstore_at 4 pre hd tl) by done. change (Z.to_nat 4) with 4%nat.
  rewrite (bind_mload _ _ _ _ (le_split 4 (rnd mod opt))); [|lia|].
  2:{ cbn [mb_room]. rewrite Hoff, Nat2Z.id. by apply slice_exact. }
  rewrite le_combine_split4 by lia. case_if; [|done]. rewrite (run_tail (mstore _ _ _)).
  by rewrite (bind_mstore_at 4 pre _ tl).
Qed.

Lemma katran_run opt pre hd tl l2 l3 fl i r :
  length hd = 8%nat -> 0 < opt < 2 ^ 32 -> forall rnd r', myrand r = (Ret rnd, r') ->
  katran_part opt 8 2 (Pkt (Mbuf (pre ++ hd ++ tl) (Z.of_nat (length pre)) l2 l3 fl) i r) =
    (Ret tt, Pkt (Mbuf (pre ++ katran_bytes (srv_id (u32 rnd) opt) ++ tl)
      (Z.of_nat (length pre) + 8) l2 l3 fl) i r').
Proof.
  intros Hhd Hopt rnd r' Hr. unfold katran_part.
  rewrite (run_bind _ _ _ _ _ (on_buf_run _ (Pkt _ i r) _ _ (katran_begin_run pre hd tl l2 l3 fl Hhd))).
  cbn [pinfo prng]. erewrite run_bind; [|unfold draw_int, zoom; cbn [prng]; by rewrite Hr].
  cbn [pbuf pinfo]. eapply on_buf_run. cbn [pbuf]. unfold katran_bytes. rewrite <- !app_assoc.
  rewrite (app_assoc pre). rewrite store_srv_id_run; [|by rewrite length_drop, Hhd| |done].
  - by rewrite <- !app_assoc.
  - rewrite length_app. cbn [length]. lia.
Qed.

Lemma tcp_payload_run i b :
  0 <= pi_payload_length i -> data_len b + pi_payload_length i <= Z.of_nat (length (mb_room b)) ->
  tcp_payload i b = (Ret (Some (data_len b)),
    Mbuf (mb_room b) (data_len b + pi_payload_length i) (l2_len b) (l3_len b) tcp_flags_tx).
Proof. intros. unfold tcp_payload. rewrite bind_append by done. done. Qed.

Lemma tcp_bytes_length src dst rows : length (tcp_bytes src dst rows) = 20%nat.
Proof. unfold tcp_bytes. by rewrite !length_app, !length_be_split. Qed.
Lemma ipv4_bytes_length len proto src dst : length (ipv4_bytes len proto src dst) = 20%nat.
Proof. unfold ipv4_bytes. by rewrite !length_app, !length_be_split. Qed.

(** All headers up to TCP. *)
Definition tcp_prefix (i : prepare_packet_info) (rows : Z) : list Z :=
  eth_bytes i ++ ipv4_bytes (20 + 4 * rows + pi_payload_length i) IPPROTO_TCP (pi_src_ip i) (pi_dst_ip i) ++
  tcp_bytes (pi_src_port i) (pi_dst_port i) rows.

Lemma tcp_prefix_length i rows : info_ok i -> length (tcp_prefix i rows) = (l2_size i + 40)%nat.
Proof.
  intros Hi. unfold tcp_prefix.
  rewrite !length_app, ipv4_bytes_length, tcp_bytes_length, eth_bytes_length by done. lia.
Qed.

Lemma tcp_header_prefix i rows bytes :
  rows = 5 + Z.of_nat (length bytes) / 4 -> tcp_header i bytes = tcp_prefix i rows ++ bytes.
Proof. intros ->. unfold tcp_header, tcp_prefix. by rewrite <- !app_assoc. Qed.

(** The headers up to TCP in a fresh buffer. *)
Lemma tcp_prefix_run i r i' r1 b rows :
  fresh_ok b -> info_ok i -> selects i r i' r1 -> rows = 5 \/ rows = 7 -> pi_payload_length i <= 2048 ->
  exists h b1, _prepare_eth_vlan_ip (Pkt b i r) = (Ret h, Pkt b1 i' r1) /\
    tcp_part i' (4 * rows) h b1 =
      (Ret tt, Mbuf (tcp_prefix i' rows ++ drop (l2_size i + 40) (mb_room b))
        (Z.of_nat (length (tcp_prefix i' rows))) (Z.of_nat (l2_size i)) 20 (ol_flags b)).
Proof.
  intros Hb Hi Hsel Hrows Hmax. pose proof (io_payload _ Hi) as Hpl.
  destruct (prepare_ip_run i r i' r1 b Hb Hi Hsel) as (hd & Hhd & Hrun).
  destruct Hb as [[Hlen _] _]. assert (Hlen' : Z.of_nat (length (mb_room b)) = 2048) by exact Hlen.
  pose proof (l2_size_cases i). pose proof (eth_bytes_length i Hi) as He.
  destruct (selects_rest _ _ _ _ Hsel) as (He' & Hl' & Hpl' & _).
  do 2 eexists. split; [exact Hrun|].
  rewrite tcp_prefix_length, Hl' by (by eapply selects_info_ok).
  destruct (room_split 20 (drop (l2_size i + 20) (mb_room b))) as (hd2 & tl & Hd & Hhd2 & _);
    [rewrite length_drop; lia|].
  assert (Htl : drop (l2_size i + 40) (mb_room b) = tl).
  { replace (l2_size i + 40)%nat with (l2_size i + 20 + 20)%nat by lia.
    by rewrite <- drop_drop, Hd, <- Hhd2, drop_app_length. }
  rewrite Hd, Htl, <- He. rewrite (tcp_run i' _ rows) by (done || lia || by rewrite He).
  unfold tcp_prefix. by rewrite He', <- !app_assoc.
Qed.

Lemma prepare_tcp_run i r i' r1 r' opt bytes b :
  fresh_ok b -> info_ok i -> selects i r i' r1 -> 0 <= opt < 2 ^ 32 -> katran_adds opt r1 bytes r' ->
  let n := (l2_size i + 40 + length bytes)%nat in
  Z.of_nat n + pi_payload_length i <= RTE_MBUF_DEFAULT_DATAROOM ->
  prepare_tcp opt (Pkt b i r) = (Ret (Some (Z.of_nat n)),
    Pkt (Mbuf (tcp_header i' bytes ++ drop n (mb_room b))
      (Z.of_nat n + pi_payload_length i) (Z.of_nat (l2_size i)) 20 tcp_flags_tx) i' r').
Proof.
  intros Hb Hi Hsel Hopt Hk n Hfit. pose proof (io_payload _ Hi) as Hpl.
  pose proof (tcp_prefix_length i' (5 + Z.of_nat (length bytes) / 4) ltac:(by eapply selects_info_ok)) as Hh.
  destruct (selects_rest _ _ _ _ Hsel) as (_ & Hl' & Hpl' & _). rewrite Hl' in Hh.
  assert (Hlen : Z.of_nat (length (mb_room b)) = 2048) by apply Hb.
  unfold RTE_MBUF_DEFAULT_DATAROOM in Hfit. unfold prepare_tcp. rewrite (tcp_header_prefix _ _ _ eq_refl).
  set (hdr := tcp_prefix i' _) in *. unfold katran_adds in Hk. destruct (Z.ltb_spec 0 opt) as [Ho|Ho].
  - destruct Hk as (rnd & Hr & ->). change (length (katran_bytes _)) with 8%nat in n, hdr, Hh |- *.
    destruct (tcp_prefix_run i r i' r1 b 7 Hb Hi Hsel) as (h & b1 & Hip & Htcp); [by right|lia|].
    change (5 + Z.of_nat 8 / 4) with 7 in hdr. fold hdr in Htcp.
    destruct (room_split 8 (drop (l2_size i + 40) (mb_room b))) as (hd & tl & Hd & Hhd & Htl);
      [rewrite length_drop; lia|]. rewrite length_drop in Htl.
    assert (Hn : drop n (mb_room b) = tl) by (unfold n; by rewrite <- drop_drop, Hd, <- Hhd, drop_app_length).
    rewrite (run_bind _ _ _ _ _ Hip). run. cbn [pinfo].
    rewrite (run_bind _ _ _ _ _ (on_buf_run _ (Pkt b1 i' r1) _ _ Htcp)). cbn [pinfo prng]. run.
    rewrite Hd. rewrite (run_bind _ _ _ _ _ (katran_run opt hdr hd tl _ _ _ i' r1 Hhd ltac:(lia) rnd r' Hr)).
    eapply on_buf_run. cbn [pbuf]. rewrite tcp_payload_run; cbn [mb_room data_len l2_len l3_len]; rewrite ?Hpl'; [|lia|].
    2:{ rewrite !length_app, Hh. change (length (katran_bytes _)) with 8%nat. lia. }
    rewrite Hn, Hh, <- app_assoc. unfold n. by rewrite !Nat2Z.inj_add.
  - destruct Hk as [-> ->]. change (5 + Z.of_nat (length (@nil Z)) / 4) with 5 in hdr. cbn [length] in n.
    destruct (tcp_prefix_run i r i' r1 b 5 Hb Hi Hsel) as (h & b1 & Hip & Htcp); [by left|lia|]. fold hdr in Htcp.
    rewrite (run_bind _ _ _ _ _ Hip). run. cbn [pinfo].
    rewrite (run_bind _ _ _ _ _ (on_buf_run _ (Pkt b1 i' r1) _ _ Htcp)). cbn [pinfo prng]. run.
    eapply on_buf_run. cbn [pbuf]. rewrite tcp_payload_run; cbn [mb_room data_len l2_len l3_len]; rewrite ?Hpl'; [|lia|].
    2:{ rewrite !length_app, Hh, length_drop. lia. }
    rewrite app_nil_r, Hh. unfold n. by rewrite Nat.add_0_r.
Qed.

(** ** Properties *)

(** C25: [prepare_tcp] builds the packet it is asked for. In a fresh buffer with
    enough room it writes the Ethernet, optional 802.1Q, IPv4 and TCP headers, with
    consistent lengths (the data offset counts the options); with the Katran
    option, two no-ops and the option of kind 0xB7 with a server number drawn
    below the bound it was given, 1 in place of 0. The payload's place is right
    behind, and no other byte is touched. *)
Theorem prepare_tcp_correct i r i' r1 r' opt bytes b :
  fresh_ok b -> info_ok i -> selects i r i' r1 -> 0 <= opt < 2 ^ 32 -> katran_adds opt r1 bytes r' ->
  let n := (l2_size i + 40 + length bytes)%nat in
  Z.of_nat n + pi_payload_length i <= RTE_MBUF_DEFAULT_DATAROOM ->
  prepare_tcp opt (Pkt b i r) = (Ret (Some (Z.of_nat n)),
    Pkt (Mbuf (tcp_header i' bytes ++ drop n (mb_room b))
      (Z.of_nat n + pi_payload_length i) (Z.of_nat (l2_size i)) 20 tcp_flags_tx) i' r').
Proof. apply prepare_tcp_run. Qed.

(** The Katran option always names a server. From every state the random
    generator can reach, a packet with the option carries, four bytes into the
    option area, a number in 1..N-1 (1 when N is 1), never the invalid 0. *)
Theorem katran_id_valid i r opt b :
  fresh_ok b -> info_ok i -> client_address_selection i = FIX_CLIENT_ADDR -> rng_ok r ->
  0 < opt < 2 ^ 32 ->
  Z.of_nat (l2_size i + 48) + pi_payload_length i <= RTE_MBUF_DEFAULT_DATAROOM ->
  exists off b' r', prepare_tcp opt (Pkt b i r) = (Ret (Some off), Pkt b' i r') /\ rng_ok r' /\
    field (l2_size i + 40) 4 (mb_room b') = [1; 1; 0xB7; 6] /\
    1 <= le_combine (field (l2_size i + 44) 4 (mb_room b')) <= Z.max 1 (opt - 1).
Proof.
  intros Hb Hi Hfix [k Hk] Hopt Hfit. destruct (myrand_at k r Hk) as (r' & Hr & Hk').
  pose proof (srv_id_range (u32 (draw k)) opt ltac:(lia)) as Hid. set (id := srv_id _ _) in *.
  assert (Hadds : katran_adds opt r (katran_bytes id) r').
  { unfold katran_adds. destruct (Z.ltb_spec 0 opt); [by exists (draw k)|lia]. }
  do 3 eexists. split; [|split; [by exists (S k)|]].
  - eapply prepare_tcp_run; [done|done|by apply select_fix|lia|exact Hadds|].
    change (length (katran_bytes id)) with 8%nat. lia.
  - cbn [mb_room]. rewrite (tcp_header_prefix _ 7) by done.
    rewrite <- (tcp_prefix_length i 7 Hi), <- (Nat.add_0_r (length (tcp_prefix i 7))) at 1.
    replace (l2_size i + 44)%nat with (length (tcp_prefix i 7) + 4)%nat by (rewrite tcp_prefix_length; done || lia).
    rewrite <- !app_assoc, !field_app_r. split; [done|].
    rewrite field_app_l by (cbn; lia). change (field 4 4 (katran_bytes id)) with (le_split 4 id).
    rewrite le_combine_split4 by lia. lia.
Qed.
End tcp_proofs.

(** ** Witnesses *)
Lemma prepare_tcp_correct_witness :
  prepare_tcp 0 (Pkt zero_buf (some_info true FIX_CLIENT_ADDR) rng_init) =
    (Ret (Some 58), Pkt (Mbuf (tcp_header (some_info true FIX_CLIENT_ADDR) [] ++ drop 58 (mb_room zero_buf))
      122 18 20 tcp_flags_tx) (some_info true FIX_CLIENT_ADDR) rng_init).
Proof.
  apply (prepare_tcp_correct (some_info true FIX_CLIENT_ADDR) rng_init _ rng_init rng_init 0 [] zero_buf);
    [apply zero_buf_ok|apply some_info_ok|by apply select_fix|lia|by split|by apply Z.leb_le].
Defined.

Lemma katran_id_valid_witness :
  exists off b' r', prepare_tcp 1000 (Pkt zero_buf (some_info true FIX_CLIENT_ADDR) rng_init)
      = (Ret (Some off), Pkt b' (some_info true FIX_CLIENT_ADDR) r') /\ rng_ok r' /\
    field 58 4 (mb_room b') = [1; 1; 0xB7; 6] /\
    1 <= le_combine (field 62 4 (mb_room b')) <= 999.
Proof.
  apply (katran_id_valid (some_info true FIX_CLIENT_ADDR) rng_init 1000 zero_buf);
    [apply zero_buf_ok|apply some_info_ok|done|exists 0%nat; left; by split|lia|by apply Z.leb_le].
Defined.
