(* ===== verification/Payload.v ===== *)
(** * Payloads (include/client/write_payload.h)

    A number of eight bytes, in the byte order of the processor, followed by
    letters of a constant text: the time the packet was built, from which the
    latency is computed when it comes back, or a random number. *)
From S2P Require Import Prelude CInt CFloat CStdio Monad Zipf Dpdk Sim Packet.

Definition PAYLOAD : string :=
  "rtqeijsuiggqlxkuuvsoerdzvgbphgpyrkecwbsynngpruiubtgzcwtfltjmmnpwapcbyioboiqdbxebcrqyehebezbdwyrvdbhx" +:+
  "fsbearajfmmscsinujutdqcftxchgzptyfypojbmnpjovoartkwupbfowfvxhfimrltocjoousmumwrqvjxukjtztcyahxfoldfl" +:+
  "yquyixahobffjawyzzaawghbjgfhpajqevfflpgoiiotkqjbajhhvyhmnydmkxbrgpbavcdaanjopmnsewoebkqgqcbvxsblfgul" +:+
  "cogxeqkaxnytevmpwobljlxtjhygawmbhktewhbiytjlmjxxtfmwytlogigvpfsgihyxgkmskppxikspqmnrarxbzihzwqufsltx" +:+
  "iioyvcsrhjiqlcfqcavtxsrbqnogyxwerqlpiwextpuxvmflwbazjynzeiprcttniqtmdusjxwqfdzfocowaywwnmedqjfizajdq" +:+
  "betslgjqzsvadscxbdwrywffiwlgybupukobjpjlspaofjkmhszxzskirdieshmpfqsggjnhyiiadaumiisuontoomswlyhiyuwa" +:+
  "upjwfjdeulymoqvmrwlncncqdaobnfmbiknxwadgbrpsfixqhnbbgnacuoivmlyxzflqnoobpqffnmkpxkzcyvoqnjvibphoxueq" +:+
  "kjqhvgjurnxchlbncxvvbeettppluoxtzewefcaktcupcqueeymcyietauqtgycceyhfqpawsnydcuehnjfpkpnsvmpieauhoawc" +:+
  "hmpiymzirhvfxcnrtdsgmxoblqycfzfsgzvtdwdhcqtakezphfntfsxagkrtwofqsaipibbzqydlcvlungidzgqmkkreznoutrcl" +:+
  "ipksaaefpokubbycpkpfddceydjxjmdpryujwqqpeohbmyhwrgeqtsirfykynkelarbjdfycjzjfuzcitiaadbfvwlwteefdsqvz" +:+
  "arxhrtbsjeppkpszjrdfvkufynwvihygfykpvitpaqnxdedkytwlkcbttogfaqdsveqrtymflcxhvbumcifjklzpcqhfbpbwhyoa" +:+
  "ekjpcisswegubzcyjdwzyqxsshkpdsynfofowakfmasnudmzazgdxvvtajatwxskuitxjoewuvbhhhjdhqozoqfvquyioizhlqwq" +:+
  "yaidvokcfbcsgnhfmthsmktbntvoleaeznatmmuawslyinilsvefdizgnbnayaxhzxxphuyzyfycmrsmidqlglknsxchkqstcsqa" +:+
  "ofvxgscfqsqlfvcwvbnhrxdclzxwettbkpsfyaafowvhlgmglesaehsionovcshwkxfxtaczcxpgzevwrbclqtkfhfbuztqhcyly" +:+
  "ufuhbcjodlxyssvvikfalxdxadvllbhyxelqsadeuxpjnochcxdlgxgjzderdhnwahmuzbqtwpnsuwhhxfwcbuahkgctljjqvqct".

(** The object the literal names: its characters and the terminating 0. *)
Fixpoint bytes_of (s : string) : list Z :=
  match s with
  | EmptyString => []
  | String c s => code c :: bytes_of s
  end.
Definition PAYLOAD_bytes : list Z := bytes_of PAYLOAD ++ [0].

(** [payload_length - sizeof(uint64_t)] is computed in [size_t]; copying more than
    the literal holds is undefined. *)
Definition payload_constant_num (payload payload_length num : Z) : M mbuf unit :=
  _ ← mstore 8 payload num;
  let n := u64 (payload_length - 8) in
  bs ← demand (if n <=? Z.of_nat (length PAYLOAD_bytes) then Some (take (Z.to_nat n) PAYLOAD_bytes) else None);
  mwrite (payload + 8) bs.

(** [zgen], static; NULL before [initialize_num_gen]. *)
Definition initialize_num_gen (pow : spec_float -> spec_float -> spec_float) (max : Z) (s : spec_float)
    : option zipfgen := new_zipfgen pow max s.

Section payload.
Context {W : Type} `{DpdkEnv W}.

(** A NULL payload (the buffer had no room) is written through. *)
Definition payload_timestamp (buf : nat) (payload : option Z) (payload_length : Z) : M (machine W) unit :=
  timestamp ← rte_get_timer_cycles;
  p ← demand payload;
  on_mbuf buf (payload_constant_num p payload_length timestamp).

Definition payload_random_num (zgen : option zipfgen) (buf : nat) (payload : option Z) (payload_length : Z)
    : M (machine W) unit :=
  match zgen with
  | None => printf "Failed to initialize! @payload_random_num" []
  | Some zgen =>
      v ← on_rng (number_from_zipf_distribution zgen);
      let num := u64 (v - 1) in
      p ← demand payload;
      on_mbuf buf (payload_constant_num p payload_length num)
  end.
End payload.

(** ** Reference encoder *)
Definition payload_bytes (len : nat) (num : Z) : list Z := le_split 8 num ++ take (len - 8) PAYLOAD_bytes.

Lemma length_PAYLOAD_bytes : length PAYLOAD_bytes = 1501%nat.
Proof. vm_compute. reflexivity. Qed.

Lemma length_payload_bytes len num : (8 <= len <= 1509)%nat -> length (payload_bytes len num) = len.
Proof.
  intros. unfold payload_bytes. rewrite length_app, length_le_split, length_take, length_PAYLOAD_bytes. lia.
Qed.

Lemma payload_run (pre hd tl : list Z) off len num dl l2 l3 fl :
  off = Z.of_nat (length pre) -> (8 <= length hd <= 1509)%nat -> len = Z.of_nat (length hd) ->
  payload_constant_num off len num (Mbuf (pre ++ hd ++ tl) dl l2 l3 fl) =
    (Ret tt, Mbuf (pre ++ payload_bytes (length hd) num ++ tl) dl l2 l3 fl).
Proof.
  intros -> Hlen ->. unfold payload_constant_num.
  replace (pre ++ hd ++ tl) with (pre ++ take 8 hd ++ drop 8 hd ++ tl)
    by (by rewrite (app_assoc (take 8 hd)), take_drop).
  assert (Ht : length (take 8 hd) = 8%nat) by (rewrite length_take; lia).
  rewrite (bind_mstore _ _ _ _ _ (pre ++ le_split 8 num ++ drop 8 hd ++ tl)); [|lia|].
  2:{ cbn [mb_room]. rewrite Nat2Z.id. apply patch_exact. by rewrite Ht, length_le_split. }
  cbn [set_room data_len l2_len l3_len ol_flags]. rewrite u64_small by lia.
  rewrite length_PAYLOAD_bytes. destruct (Z.leb_spec (Z.of_nat (length hd) - 8) (Z.of_nat 1501)); [|lia].
  run. rewrite (run_tail (mwrite _ _)).
  replace (Z.to_nat (Z.of_nat (length hd) - 8)) with (length hd - 8)%nat by lia.
  rewrite (bind_mwrite _ _ _ _ (pre ++ le_split 8 num ++ take (length hd - 8) PAYLOAD_bytes ++ tl)); [|lia|].
  - unfold payload_bytes. by rewrite <- app_assoc.
  - cbn [mb_room]. rewrite !(app_assoc pre).
    replace (Z.to_nat (Z.of_nat (length pre) + 8)) with (length (pre ++ le_split 8 num))
      by (rewrite length_app, length_le_split; lia).
    apply patch_exact. rewrite length_drop, length_take, length_PAYLOAD_bytes. lia.
Qed.

(** What both writers do to the machine: the buffer's payload is replaced. *)
Section payload_rules.
Context {W : Type} `{EnvLaws W}.
Implicit Types (s : machine W).

(** The payload area of a buffer: [len] bytes at [off]. *)
Record has_payload (b : mbuf) (off : nat) (len : Z) : Prop := {
  hp_len : 8 <= len <= 1509;
  hp_room : Z.of_nat off + len <= Z.of_nat (length (mb_room b));
}.
Definition with_payload (b : mbuf) (off : nat) (len num : Z) : mbuf :=
  set_room (take off (mb_room b) ++ payload_bytes (Z.to_nat len) num ++ drop (off + Z.to_nat len) (mb_room b)) b.

Lemma payload_run_at b off len num :
  has_payload b off len -> payload_constant_num (Z.of_nat off) len num b = (Ret tt, with_payload b off len num).
Proof.
  intros [Hlen Hroom]. destruct b as [r dl l2 l3 fl]. cbn [mb_room] in Hroom.
  set (hd := take (Z.to_nat len) (drop off r)).
  assert (Hhd : length hd = Z.to_nat len) by (unfold hd; rewrite length_take, length_drop; lia).
  assert (Hr : r = take off r ++ hd ++ drop (off + Z.to_nat len) r).
  { unfold hd. rewrite <- drop_drop, take_drop. by rewrite take_drop. }
  rewrite Hr at 1. rewrite payload_run; [|rewrite length_take; lia|lia|lia].
  unfold with_payload. cbn [mb_room set_room data_len l2_len l3_len ol_flags]. by rewrite Hhd.
Qed.

(** What is sent of a buffer with headers and a payload. *)
Lemma with_payload_data hdr rest len num l2 l3 fl :
  8 <= len <= 1509 ->
  mb_data (with_payload (Mbuf (hdr ++ rest) (Z.of_nat (length hdr) + len) l2 l3 fl) (length hdr) len num) =
    hdr ++ payload_bytes (Z.to_nat len) num.
Proof.
  intros Hlen. unfold mb_data, with_payload. cbn [mb_room set_room data_len].
  rewrite take_app_length, app_assoc.
  assert (Hl : length (hdr ++ payload_bytes (Z.to_nat len) num) = (length hdr + Z.to_nat len)%nat)
    by (rewrite length_app, length_payload_bytes by lia; done).
  rewrite take_app_le by lia. apply take_ge. lia.
Qed.

Lemma wp_payload_timestamp p b off len (Q : unit -> machine W -> Prop) E s :
  heap s !! p = Some b -> has_payload b off len ->
  (forall t w, 0 <= t < 2 ^ 64 ->
    Q tt (with_heap (<[p := with_payload b off len t]> (heap s)) (log_event (EvClock t) (with_world w s)))) ->
  wp (payload_timestamp p (Some (Z.of_nat off)) len) Q E s.
Proof.
  intros Hp Hb HQ. unfold payload_timestamp. wp_step. apply wp_get_timer_cycles. intros t w Ht _.
  wp_step. wp_step; [injection Hd as <-|done].
  eapply wp_on_mbuf; [exact Hp|by apply payload_run_at|by apply HQ].
Qed.

Lemma wp_payload_random_num z top p b off len (Q : unit -> machine W -> Prop) E s :
  heap s !! p = Some b -> has_payload b off len ->
  table_ok z -> lookupZ (c_probs z) (zg_n z) = Some top -> RAND_MAX - 1 <= top -> rng_ok (rng s) ->
  (forall v r, 0 <= v < zg_n z -> rng_ok r ->
    Q tt (with_heap (<[p := with_payload b off len v]> (heap s)) (with_rng r s))) ->
  wp (payload_random_num (Some z) p (Some (Z.of_nat off)) len) Q E s.
Proof.
  intros Hp Hb Hz Htop Hle Hr HQ. unfold payload_random_num. wp_step.
  destruct (zipf_draw z (rng s) top Hz Htop Hle Hr) as (v & r' & Hv & Hrange & Hr').
  pose proof (tok_n z Hz). apply wp_zoom. eapply wp_run; [exact Hv|].
  wp_step. wp_step; [injection Hd as <-|done]. rewrite u64_small by lia.
  eapply wp_on_mbuf; [exact Hp|by apply payload_run_at|]. apply HQ; [lia|done].
Qed.
End payload_rules.

(** ** Properties *)

(** C34: A timestamp comes back as it was written: for payloads of 8 to 1509 bytes
    inside the buffer, [payload_constant_num] writes exactly the payload, and the
    eight bytes read at its start give the number. *)
Theorem payload_roundtrip (pre hd tl : list Z) num dl l2 l3 fl :
  (8 <= length hd <= 1509)%nat -> 0 <= num < 2 ^ 64 ->
  let off := Z.of_nat (length pre) in
  exists b', payload_constant_num off (Z.of_nat (length hd)) num (Mbuf (pre ++ hd ++ tl) dl l2 l3 fl) = (Ret tt, b') /\
    mb_room b' = pre ++ payload_bytes (length hd) num ++ tl /\ length (mb_room b') = length (pre ++ hd ++ tl) /\
    mload 8 off b' = (Ret num, b').
Proof.
  intros Hlen Hnum off. eexists. split; [by apply payload_run|]. cbn [mb_room]. split; [done|]. split.
  - by rewrite !length_app, length_payload_bytes.
  - unfold mload. rewrite (bind_mread _ _ _ _ (le_split 8 num)).
    + rewrite le_combine_split. change (256 ^ Z.of_nat 8) with (2 ^ 64). rewrite Z.mod_small by done. done.
    + unfold off. lia.
    + cbn [mb_room]. unfold off, payload_bytes. rewrite Nat2Z.id, <- app_assoc. by apply slice_exact.
Qed.

(** Nothing guards the length of the payload: below 8 bytes (which the command
    line accepts) the number of bytes to copy wraps around, and above 1509 the
    text is read past its end; both are undefined. *)
Theorem payload_length_unchecked off len num b :
  0 <= off -> off + 8 <= Z.of_nat (length (mb_room b)) -> 0 <= len < 8 \/ 1509 < len < 2 ^ 31 ->
  exists b', payload_constant_num off len num b = (Stop Undef, b').
Proof.
  intros Hoff Hroom Hlen. unfold payload_constant_num.
  destruct (patch_is_Some (Z.to_nat off) (le_split 8 num) (mb_room b)) as [r Hr];
    [rewrite length_le_split; lia|].
  rewrite (bind_mstore _ _ _ _ _ r) by done. rewrite length_PAYLOAD_bytes.
  assert (Hn : Z.of_nat 1501 < u64 (len - 8)).
  { destruct Hlen as [Hl|Hl]; [|rewrite u64_small by lia; lia].
    unfold u64, wrap. rewrite <- (Z_mod_plus_full (len - 8) 1 (2 ^ 64)), Z.mod_small by lia. lia. }
  apply Z.leb_gt in Hn. rewrite Hn. run. by eexists.
Qed.

(** A random payload carries a number below the bound: from every state the
    random generator can reach, with a table over [n] ranks, [payload_random_num]
    fills the payload with a number in 0..n-1 (its rank less one) and changes
    nothing else but the generator; before [initialize_num_gen] it only
    complains. *)
Theorem payload_random_num_range {W} `{EnvLaws W} z top p b off len (s : machine W) :
  heap s !! p = Some b -> has_payload b off len ->
  table_ok z -> lookupZ (c_probs z) (zg_n z) = Some top -> RAND_MAX - 1 <= top -> rng_ok (rng s) ->
  wp (payload_random_num (Some z) p (Some (Z.of_nat off)) len)
    (fun _ s' => exists v r, 0 <= v < zg_n z /\ rng_ok r /\
      s' = with_heap (<[p := with_payload b off len v]> (heap s)) (with_rng r s)) (fun _ _ => False) s /\
  heap (payload_random_num None p (Some (Z.of_nat off)) len s).2 = heap s.
Proof.
  intros. split; [|done]. eapply wp_payload_random_num; [done..|]. intros v r ? ?. by exists v, r.
Qed.

(** ** Witnesses *)
Lemma payload_roundtrip_witness :
  exists b', payload_constant_num 2 10 123456789 (Mbuf ([1; 2] ++ replicate 10 0 ++ [3]) 13 0 0 0) = (Ret tt, b') /\
    mb_room b' = [1; 2] ++ payload_bytes 10 123456789 ++ [3] /\ length (mb_room b') = 13%nat /\
    mload 8 2 b' = (Ret 123456789, b').
Proof.
  apply (payload_roundtrip [1; 2] (replicate 10 0) [3]); [by split; apply Nat.leb_le|].
  by split; [apply Z.leb_le|apply Z.ltb_lt].
Defined.

Lemma payload_length_unchecked_witness :
  exists b', payload_constant_num 42 1 5 zero_buf = (Stop Undef, b').
Proof. apply payload_length_unchecked; [by apply Z.leb_le|by apply Z.leb_le|left; by split; [apply Z.leb_le|apply Z.ltb_lt]]. Defined.

Lemma payload_random_num_range_witness :
  let s := holding (Sim 0 1 [] [] []) (repeat 0 100) in
  wp (payload_random_num (Some zipf3) 0 (Some 42) 58)
    (fun _ s' => exists v r, 0 <= v < 3 /\ rng_ok r /\
      s' = with_heap (<[0%nat := with_payload (packet (repeat 0 100)) 42 58 v]> (heap s)) (with_rng r s))
    (fun _ _ => False) s /\
  heap (payload_random_num None 0 (Some 42) 58 s).2 = heap s.
Proof.
  apply (payload_random_num_range zipf3 2147483646 0 (packet (repeat 0 100)) 42 58);
    [apply holding_lookup|by constructor; [split|]; apply Z.leb_le|apply zipf3_ok|reflexivity|by apply Z.leb_le
    |exists 0%nat; left; by split].
Defined.
