(* ===== verification/ClientTx.v ===== *)
(** * The load-generating client: sending (client.c)

    One iteration of the transmit loop of [do_client]: the end of the experiment,
    the choice of destination, port, flow and queue, the rate limit, building and
    sending a burst, and the accounting. The compile-time variants of the
    Makefile, UDP or TCP and timestamp or random number, are the flags of
    [variant]. *)
From S2P Require Import Prelude CInt CFloat Monad Zipf Dpdk Sim Arp Exp Packet TcpPacket Payload.

Definition MAX_BURST_SIZE : Z := 512.

(** [_USE_TCP] and [_PAYLOAD_NUMBER]. *)
Record variant := Variant { use_tcp : bool; payload_number : bool }.

Definition get_tci (prio dei vlan_id : Z) : Z :=
  u16 (Z.lor (Z.lor (Z.shiftl prio 13) (Z.shiftl dei 12)) vlan_id).

(** What [do_client] computes once before its loop. [add_katran_opt] is read from
    the global configuration; [zgen] is the static of write_payload.h. *)
Record tx_setup := TxSetup {
  flow_q : list Z;
  server_eths : list ether_addr;
  prio : list Z;
  burst_sizes : list Z;
  dst_zipf : zipfgen;
  queue_zipf : zipfgen;
  select_client_addr_info : option zipf_client_addr;
  num_zgen : option zipfgen;
  katran_opt : Z;
}.

(** The locals that live across iterations. *)
Record tx_locals := TxLocals {
  l_start_time : Z;
  l_duration : Z;
  l_can_send : bool;
  l_selected_dst : Z;
  l_flow : Z;
  l_dst_port : Z;
  l_tp_start_ts : Z;
  l_throughput : list Z;
  l_total_sent_pkts : list Z;
  l_failed_to_push : list Z;
}.

(** The end of the experiment: what was sent may still come back for a while. *)
Definition stop_sending (now duration : Z) (l : tx_locals) : tx_locals :=
  TxLocals now duration false (l_selected_dst l) (l_flow l) (l_dst_port l) (l_tp_start_ts l)
    (l_throughput l) (l_total_sent_pkts l) (l_failed_to_push l).
Definition select_next (dst flow port : Z) (l : tx_locals) : tx_locals :=
  TxLocals (l_start_time l) (l_duration l) (l_can_send l) dst flow port (l_tp_start_ts l)
    (l_throughput l) (l_total_sent_pkts l) (l_failed_to_push l).
Definition clear_throughput (ts : Z) (tp : list Z) (l : tx_locals) : tx_locals :=
  TxLocals (l_start_time l) (l_duration l) (l_can_send l) (l_selected_dst l) (l_flow l) (l_dst_port l) ts
    tp (l_total_sent_pkts l) (l_failed_to_push l).
Definition account (sent failed tp : list Z) (l : tx_locals) : tx_locals :=
  TxLocals (l_start_time l) (l_duration l) (l_can_send l) (l_selected_dst l) (l_flow l) (l_dst_port l)
    (l_tp_start_ts l) tp sent failed.

(** [a[i] += n] on 64-bit counters. *)
Definition add_at (i n : Z) (a : list Z) : option (list Z) :=
  v ← lookupZ a i; insertZ i (u64 (v + n)) a.

(** What an iteration has chosen before it sends. *)
Record choice := Choice {
  ch_dst_ip : Z;
  ch_queue : Z;
  ch_server_eth : ether_addr;
  ch_tci : Z;
  ch_k : Z;
  ch_burst : Z;
  ch_cur_flow : Z;
}.

Section client_tx.
Context `{DpdkLib} {W : Type} `{DpdkEnv W}.
Variable flags : variant.
Variable cntx : context.

Definition count_flows : Z := u32 (count_dst_ip cntx * count_flow cntx).

(** A computation on an owned buffer, with [info] and the random numbers. *)
Definition on_pkt {A} (p : nat) (info : prepare_packet_info) (m : M pkt A)
    : M (machine W) (A * prepare_packet_info) := fun s =>
  match heap s !! p with
  | Some b =>
      let '(o, k) := m (Pkt b info (rng s)) in
      (match o with Ret a => Ret (a, pinfo k) | Stop r => Stop r end,
       with_rng (prng k) (with_heap (<[p := pbuf k]> (heap s)) s))
  | None => (Stop Undef, s)
  end.

(** The end of the loop over a burst: [info] is set back. *)
Definition reset_info (src_ip src_port dst_ip dst_port : Z) (i : prepare_packet_info) : prepare_packet_info :=
  PacketInfo (pi_use_vlan i) (client_address_selection i) (pi_src_mac i) (pi_dst_mac i)
    src_ip dst_ip (u16 src_port) (u16 dst_port) (tci i) (pi_payload_length i) (client_addr_select_info i).

Definition pkt_info (st : tx_setup) (ch : choice) (dst_port : Z) : prepare_packet_info :=
  PacketInfo (negb (use_vlan cntx =? 0))
    (match select_client_addr_info st with Some _ => ZIPF_CLIENT_ADDR | None => FIX_CLIENT_ADDR end)
    (my_eth cntx) (ch_server_eth ch) (src_ip cntx) (ch_dst_ip ch) (u16 (src_port cntx)) (u16 dst_port)
    (ch_tci ch) (u16 (payload_length cntx)) (select_client_addr_info st).

(** One packet of a burst. [size_t] conversion of the length included. *)
Definition build_packet (st : tx_setup) (ch : choice) (dst_port : Z) (buf : nat) (info : prepare_packet_info)
    : M (machine W) prepare_packet_info :=
  '(payload, info) ← on_pkt buf info
    (if use_tcp flags then prepare_tcp (katran_opt st) else prepare_udp);
  _ ← (if payload_number flags
       then payload_random_num (num_zgen st) buf payload (u64 (payload_length cntx))
       else payload_timestamp buf payload (u64 (payload_length cntx)));
  mret (reset_info (src_ip cntx) (src_port cntx) (ch_dst_ip ch) dst_port info).

(** Destination, queue and flow of the next burst. The selection is advanced
    before the current flow is looked at. *)
Definition choose (st : tx_setup) (l : tx_locals) : M (machine W) (choice * tx_locals) :=
  dst_ip ← demand (lookupZ (dst_ips cntx) (l_selected_dst l));
  selected_q ← (if queue_selection_distribution cntx =? DIST_ZIPF
    then v ← on_rng (number_from_zipf_distribution (queue_zipf st)); mret (u16 (v - 1))
    else demand (lookupZ (flow_q st) (l_flow l)));
  _ ← c_assert (l_selected_dst l =? 0);
  server_eth ← demand (lookupZ (server_eths st) (l_selected_dst l));
  pr ← demand (lookupZ (prio st) (l_selected_dst l));
  let port := u32 (l_dst_port l + 1) in
  let port := if u32 (base_port_number cntx + count_flow cntx) <=? port then base_port_number cntx else port in
  burst ← demand (lookupZ (burst_sizes st) (l_selected_dst l));
  next_dst ← (if destination_distribution cntx =? DIST_ZIPF
    then v ← on_rng (number_from_zipf_distribution (dst_zipf st)); mret (v - 1)
    else if destination_distribution cntx =? DIST_UNIFORM
    then n ← demand (int_chk (l_selected_dst l + 1));
      demand (if count_dst_ip cntx =? 0 then None else Some (Z.rem n (count_dst_ip cntx)))
    else mret (l_selected_dst l));
  let flow := i32 (u32 (u32 (next_dst * count_flow cntx) + u32 (port - base_port_number cntx))) in
  mret (Choice dst_ip selected_q server_eth (get_tci pr 0 100) (l_selected_dst l) burst (l_flow l),
        select_next next_dst flow port l).

(** Once a second the throughput of every flow is printed and cleared. *)
Definition report_throughput (ts : Z) (delta_time : spec_float) (l : tx_locals) : M (machine W) tx_locals :=
  if SFltb (f64_of_Z rte_get_timer_hz) delta_time then
    tp ← forM (seqZ 0 count_flows) (fun i tp =>
      v ← demand (lookupZ tp i);
      _ ← printf "tp[%2d]: flow-id(%d): %ld" [default_qid cntx; i; v];
      demand (insertZ i 0 tp)) (l_throughput l);
    _ ← printf "..." [];
    mret (clear_throughput ts tp l)
  else mret l.

Definition over_rate (delta_time : spec_float) (cur_flow : Z) (l : tx_locals) : M (machine W) bool :=
  let limit_window := f64_mul (f64_of_Z (rate cntx)) (f64_div delta_time (f64_of_Z rte_get_timer_hz)) in
  if rate_limit cntx =? 0 then mret false
  else tp ← demand (lookupZ (l_throughput l) cur_flow); mret (SFltb limit_window (f64_of_Z tp)).

(** [ignore_result_duration] is 0. *)
Definition ignore_result_duration : Z := 0.

(** Sending a burst of built packets: the card takes a prefix, the rest is
    freed, and the counters follow. *)
Definition send_burst (ch : choice) (end_time : Z) (bufs : list nat) (l : tx_locals) : M (machine W) tx_locals :=
  nb_tx ← rte_eth_tx_burst (dpdk_port_id cntx) (ch_queue ch) bufs;
  '(sent, failed) ←
    (if u64 (l_start_time l + u64 (ignore_result_duration * rte_get_timer_hz)) <? end_time then
       sent ← demand (add_at (ch_k ch) nb_tx (l_total_sent_pkts l));
       failed ← demand (add_at (ch_k ch) (ch_burst ch - nb_tx) (l_failed_to_push l));
       mret (sent, failed)
     else mret (l_total_sent_pkts l, l_failed_to_push l));
  _ ← when (nb_tx <? ch_burst ch)
    (forM (drop (Z.to_nat nb_tx) bufs) (fun buf _ => rte_pktmbuf_free buf) tt);
  tp ← demand (add_at (ch_cur_flow ch) nb_tx (l_throughput l));
  mret (account sent failed tp l).

(** Inter-arrival time: the number of delays is converted to 16 bits, which
    drops its fraction. *)
Definition inter_arrival (fuel : nat) (burst : Z) : M (machine W) unit :=
  when (0 <? delay_cycles cntx)
    (m ← demand (f_to_u16 (f64_div (f64_of_Z burst) (f64_of_Z (count_flow cntx))));
     apply_delay_cycles fuel (delay_cycles cntx) m).

(** [if (can_send)]; the result is the locals after the iteration. *)
Definition send_iter (fuel : nat) (st : tx_setup) (end_time : Z) (l : tx_locals) : M (machine W) tx_locals :=
  '(ch, l) ← choose st l;
  let delta_time := f64_of_Z (u64 (end_time - l_tp_start_ts l)) in
  l ← report_throughput end_time delta_time l;
  over ← over_rate delta_time (ch_cur_flow ch) l;
  if (over : bool) then mret l else
  bufs ← rte_pktmbuf_alloc_bulk (tx_mem_pool cntx) (ch_burst ch);
  match bufs with
  | None => mret l
  | Some bufs =>
      _ ← forM bufs (build_packet st ch (l_dst_port l)) (pkt_info st ch (l_dst_port l));
      l ← send_burst ch end_time bufs l;
      _ ← inter_arrival fuel (ch_burst ch);
      mret l
  end.

(** The time check at the head of the loop; [inr] leaves it. *)
Definition check_time (end_time : Z) (l : tx_locals) : M (machine W) (tx_locals + tx_locals) :=
  if (0 <? l_duration l) && (u64 (l_start_time l + l_duration l) <? end_time) then
    if l_can_send l then
      t ← rte_get_timer_cycles;
      mret (inl (stop_sending t (u64 (2 * rte_get_timer_hz)) l))
    else mret (inr l)
  else mret (inl l).

(** The body of the main loop. *)
Definition tx_iter (fuel : nat) (st : tx_setup) (l : tx_locals) : M (machine W) (tx_locals + tx_locals) :=
  run ← poll_running;
  if negb run then mret (inr l) else
  end_time ← rte_get_timer_cycles;
  r ← check_time end_time l;
  match r with
  | inr l => mret (inr l)
  | inl l => if l_can_send l then l ← send_iter fuel st end_time l; mret (inl l) else mret (inl l)
  end.
End client_tx.

(** ** What is sent *)

(** The selection may have moved the source. *)
Definition source_of (i i' : prepare_packet_info) : Prop :=
  i' = i \/ client_address_selection i = ZIPF_CLIENT_ADDR /\ exists ip port, i' = add_src ip port i.

(** The headers of a packet in either variant. *)
Definition header_for (flags : variant) (opt : Z) (i : prepare_packet_info) (hdr : list Z) : Prop :=
  if use_tcp flags then
    exists bytes, hdr = tcp_header i bytes /\
      (opt = 0 /\ bytes = [] \/ 0 < opt /\ exists id, 1 <= id <= Z.max 1 (opt - 1) /\ bytes = katran_bytes id)
  else hdr = udp_header i.

(** A packet whose payload starts with [num]. *)
Definition is_packet (flags : variant) (opt len : Z) (i : prepare_packet_info) (num : Z) (b : mbuf) : Prop :=
  exists i' hdr, source_of i i' /\ header_for flags opt i' hdr /\ 0 <= num < 2 ^ 64 /\
    mb_data b = hdr ++ payload_bytes (Z.to_nat len) num.

(** A table that answers every draw of the program. *)
Definition full_table (z : zipfgen) : Prop :=
  table_ok z /\ exists top, lookupZ (c_probs z) (zg_n z) = Some top /\ RAND_MAX - 1 <= top.

Lemma full_table_draw z r : full_table z -> rng_ok r ->
  exists v r', number_from_zipf_distribution z r = (Ret v, r') /\ 1 <= v <= zg_n z /\ rng_ok r'.
Proof. intros (Hz & top & Htop & Hle) Hr. by apply (zipf_draw z r top). Qed.

Section tx_proofs.
Context `{DpdkLaws} {W : Type} `{EnvLaws W}.
Variable flags : variant.
Variable cntx : context.
Implicit Types (s : machine W) (E : reason -> machine W -> Prop) (l : tx_locals).

(** What the loop relies on: the configuration of one destination, as
    [main] and [do_client] set it up. *)
Record tx_ok (st : tx_setup) : Prop := {
  to_dst : count_dst_ip cntx = 1;
  to_ip : exists ip, lookupZ (dst_ips cntx) 0 = Some ip;
  to_uniform : destination_distribution cntx = DIST_UNIFORM /\ queue_selection_distribution cntx = DIST_UNIFORM;
  to_flows : 1 <= count_flow cntx;
  to_ports : 0 <= base_port_number cntx /\ base_port_number cntx + count_flow cntx <= 65536;
  to_flow_q : Z.of_nat (length (flow_q st)) = count_flow cntx;
  to_eth : exists mac, server_eths st = [mac] /\ length mac = 6%nat;
  to_my_eth : length (my_eth cntx) = 6%nat;
  to_prio : exists pr, prio st = [pr];
  to_burst : exists burst, burst_sizes st = [burst] /\ 0 <= burst <= MAX_BURST_SIZE;
  to_payload : 8 <= payload_length cntx <= 1509;
  to_katran : 0 <= katran_opt st < 2 ^ 32;
  to_select : match select_client_addr_info st with
              | Some t => full_table (src_zipf t) /\ 0 < count_port t
              | None => True
              end;
  to_number : payload_number flags = true -> exists z, num_zgen st = Some z /\ full_table z;
}.

Lemma wp_on_pkt {A} p i (m : M pkt A) b a b' i' r' Q E s :
  heap s !! p = Some b -> m (Pkt b i (rng s)) = (Ret a, Pkt b' i' r') ->
  Q (a, i') (with_rng r' (with_heap (<[p := b']> (heap s)) s)) -> wp (on_pkt p i m) Q E s.
Proof. intros Hp Hm HQ. unfold wp, on_pkt. by rewrite Hp, Hm. Qed.

(** Every selection of an address succeeds. *)
Lemma selects_any st ch port r : tx_ok st -> rng_ok r ->
  exists i' r', selects (pkt_info cntx st ch port) r i' r' /\ source_of (pkt_info cntx st ch port) i' /\ rng_ok r'.
Proof.
  intros Hst Hr. pose proof (to_select st Hst) as Hsel. unfold pkt_info.
  destruct (select_client_addr_info st) as [t|] eqn:Et.
  - destruct Hsel as [Hz Hc]. destruct (full_table_draw _ r Hz Hr) as (v & r' & Hv & _ & Hr').
    do 2 eexists. split; [by apply (select_zipf _ r t v r'); [| |lia|]|]. split; [|done]. right. split; [done|]. by do 2 eexists.
  - do 2 eexists. split; [by apply select_fix|]. split; [by left|done].
Qed.

(** Setting [info] back undoes the selection. *)
Lemma reset_pkt_info st ch port i' :
  source_of (pkt_info cntx st ch port) i' ->
  reset_info (src_ip cntx) (src_port cntx) (ch_dst_ip ch) port i' = pkt_info cntx st ch port.
Proof. by intros [-> |(_ & ip & sp & ->)]. Qed.

Lemma pkt_info_ok st ch port :
  tx_ok st -> length (ch_server_eth ch) = 6%nat -> info_ok (pkt_info cntx st ch port).
Proof. intros Hst Hmac. constructor; [apply Hst|done|apply u16_range]. Qed.

(** The headers are those of the variant, at the start of the buffer. *)
Lemma headers_run st i i' r r1 b :
  0 <= katran_opt st < 2 ^ 32 -> info_ok i -> pi_payload_length i <= 1509 -> fresh_ok b -> rng_ok r1 ->
  selects i r i' r1 ->
  exists hdr r2, header_for flags (katran_opt st) i' hdr /\ rng_ok r2 /\ Z.of_nat (length hdr) <= 66 /\
    (if use_tcp flags then prepare_tcp (katran_opt st) else prepare_udp) (Pkt b i r) =
      (Ret (Some (Z.of_nat (length hdr))),
       Pkt (Mbuf (hdr ++ drop (length hdr) (mb_room b)) (Z.of_nat (length hdr) + pi_payload_length i)
         (Z.of_nat (l2_size i)) 20 (if use_tcp flags then tcp_flags_tx else udp_flags)) i' r2).
Proof.
  intros Hopt Hi Hpl Hb Hr1 Hsel. pose proof (selects_info_ok _ _ _ _ Hi Hsel) as Hi'.
  destruct (selects_rest _ _ _ _ Hsel) as (_ & Hl2 & _). pose proof (l2_size_cases i) as Hcases.
  unfold header_for. destruct (use_tcp flags).
  - assert (Hk : exists bytes r2, katran_adds (katran_opt st) r1 bytes r2 /\ rng_ok r2 /\ (length bytes <= 8)%nat /\
      (katran_opt st = 0 /\ bytes = [] \/
       0 < katran_opt st /\ exists id, 1 <= id <= Z.max 1 (katran_opt st - 1) /\ bytes = katran_bytes id)).
    { unfold katran_adds. destruct (Z.ltb_spec 0 (katran_opt st)).
      - destruct Hr1 as [k Hk]. destruct (myrand_at k r1 Hk) as (r2 & Hr2 & Hk2).
        do 2 eexists. split; [by eexists|]. split; [by exists (S k)|]. split; [done|]. right. split; [done|].
        eexists. split; [|done]. by apply srv_id_range.
      - exists [], r1. split_and!; try done; [cbn; lia|]. left. split; [lia|done]. }
    destruct Hk as (bytes & r2 & Hadds & Hr2 & Hlen & Hform).
    exists (tcp_header i' bytes), r2. split; [by exists bytes|]. split; [done|].
    assert (Hn : length (tcp_header i' bytes) = (l2_size i + 40 + length bytes)%nat)
      by (by rewrite (tcp_header_prefix _ _ _ eq_refl), length_app, tcp_prefix_length, Hl2).
    rewrite Hn. split; [lia|]. eapply prepare_tcp_run; try done. unfold RTE_MBUF_DEFAULT_DATAROOM. lia.
  - exists (udp_header i'), r1. split; [done|]. split; [done|].
    rewrite udp_header_length, Hl2 by done. split; [lia|]. apply prepare_udp_run; try done.
    unfold RTE_MBUF_DEFAULT_DATAROOM. lia.
Qed.

(** The number in a payload: a reading of the timer, which the trace shows, or a
    random number. *)
Definition stamps (nums : list Z) : list event := if payload_number flags then [] else EvClock <$> nums.
Definition number_ok (st : tx_setup) (num : Z) : Prop :=
  payload_number flags = true -> exists z, num_zgen st = Some z /\ 0 <= num < zg_n z.

Lemma stamps_app n1 n2 : stamps (n1 ++ n2) = stamps n1 ++ stamps n2.
Proof. unfold stamps. case_if; [done|]. apply fmap_app. Qed.

(** One packet of a burst is built; [info] is as before. *)
Lemma wp_build_packet st ch port p b Q E s :
  tx_ok st -> length (ch_server_eth ch) = 6%nat -> heap s !! p = Some b -> fresh_ok b -> rng_ok (rng s) ->
  (forall b' num s', is_packet flags (katran_opt st) (payload_length cntx) (pkt_info cntx st ch port) num b' ->
    number_ok st num -> heap s' = <[p := b']> (heap s) -> next s' = next s -> rng_ok (rng s') ->
    trace s' = trace s ++ stamps [num] -> Q (pkt_info cntx st ch port) s') ->
  wp (build_packet flags cntx st ch port p (pkt_info cntx st ch port)) Q E s.
Proof.
  intros Hst Hmac Hp Hb Hr HQ. pose proof (pkt_info_ok st ch port Hst Hmac) as Hi.
  set (i := pkt_info cntx st ch port) in *. pose proof (to_payload st Hst) as Hlen.
  assert (Hpl : pi_payload_length i = payload_length cntx) by (apply u16_small; lia).
  destruct (selects_any st ch port (rng s) Hst Hr) as (i' & r1 & Hsel & Hsrc & Hr1).
  assert (Hreset : reset_info (src_ip cntx) (src_port cntx) (ch_dst_ip ch) port i' = i)
    by exact (reset_pkt_info st ch port i' Hsrc).
  destruct (headers_run st i i' (rng s) r1 b) as (hdr & r2 & Hhdr & Hr2 & Hsmall & Hrun);
    [apply Hst|done|lia|done|done|done|]. rewrite Hpl in Hrun.
  unfold build_packet. wp_step.
  eapply wp_on_pkt; [exact Hp|exact Hrun|]. rewrite (u64_small (payload_length cntx)) by lia.
  set (b1 := Mbuf _ _ _ _ _).
  assert (Hroom : Z.of_nat (length (mb_room b)) = 2048) by apply Hb.
  assert (Hb1 : has_payload b1 (length hdr) (payload_length cntx)).
  { constructor; [lia|]. cbn [b1 mb_room]. rewrite length_app, length_drop. lia. }
  assert (Hpkt : forall num, 0 <= num < 2 ^ 64 ->
    is_packet flags (katran_opt st) (payload_length cntx) i num (with_payload b1 (length hdr) (payload_length cntx) num)).
  { intros num Hnum. exists i', hdr. do 3 (split; [done|]). by apply with_payload_data. }
  wp_step. destruct (payload_number flags) eqn:Epn.
  - destruct (to_number st Hst Epn) as (z & Ez & Hz & top & Htop & Hle). rewrite Ez.
    eapply (wp_payload_random_num z top); [cbn; apply lookup_insert_eq|exact Hb1|done..|].
    intros v r3 Hv Hr3. wp_step. rewrite Hreset. pose proof (tok_n z Hz).
    apply (HQ (with_payload b1 (length hdr) (payload_length cntx) v) v); [apply Hpkt; lia|intros _; exists z; split; [exact Ez|lia]| | |done|].
    + cbn [heap with_heap with_rng]. apply insert_insert_eq.
    + done.
    + unfold stamps. rewrite Epn. by rewrite app_nil_r.
  - eapply wp_payload_timestamp; [cbn; apply lookup_insert_eq|exact Hb1|].
    intros t w Ht. wp_step. rewrite Hreset.
    apply (HQ (with_payload b1 (length hdr) (payload_length cntx) t) t); [by apply Hpkt|intros Hx; congruence| | |done|].
    + cbn [heap with_heap with_rng with_world log_event log_events]. apply insert_insert_eq.
    + done.
    + unfold stamps. by rewrite Epn.
Qed.

(** The buffers [bs] at [seq k (length bs)] become packets. *)
Lemma wp_build_burst st ch port bs k h0 (Q : prepare_packet_info -> machine W -> Prop) E s :
  let pkt := is_packet flags (katran_opt st) (payload_length cntx) (pkt_info cntx st ch port) in
  tx_ok st -> length (ch_server_eth ch) = 6%nat -> Forall fresh_ok bs ->
  heap s = insert_from k bs h0 -> rng_ok (rng s) ->
  (forall bs' nums s', length bs' = length bs -> Forall2 pkt nums bs' -> Forall (number_ok st) nums ->
    heap s' = insert_from k bs' h0 -> next s' = next s -> rng_ok (rng s') -> trace s' = trace s ++ stamps nums ->
    Q (pkt_info cntx st ch port) s') ->
  wp (forM (seq k (length bs)) (build_packet flags cntx st ch port) (pkt_info cntx st ch port)) Q E s.
Proof.
  intros pkt Hst Hmac Hbs Hheap Hr HQ. set (i := pkt_info cntx st ch port) in *.
  apply (wp_forM (fun (ps : list nat) x s1 => x = i /\ exists ready todo nums,
    ps = seq (k + length ready) (length todo) /\ (length ready + length todo = length bs)%nat /\
    Forall2 pkt nums ready /\ Forall (number_ok st) nums /\ Forall fresh_ok todo /\
    heap s1 = insert_from k (ready ++ todo) h0 /\ next s1 = next s /\ rng_ok (rng s1) /\
    trace s1 = trace s ++ stamps nums)).
  - split; [done|]. exists [], bs, []. cbn [length app]. rewrite Nat.add_0_r, <- Hheap.
    split_and!; try done. unfold stamps. by case_if; rewrite app_nil_r.
  - intros p ps x s1 (-> & ready & [|b todo] & nums & Hl & Hn & Hready & Hnums & Htodo & Eh & En & Hr1 & Et); [done|].
    cbn [length seq] in Hl. simplify_eq. inversion_clear Htodo as [|? ? Hb Htodo'].
    assert (Hlook : insert_from k (ready ++ b :: todo) h0 !! (k + length ready)%nat = Some b).
    { rewrite lookup_insert_from. case_if; [|lia].
      replace (k + length ready - k)%nat with (length ready) by lia. by rewrite list_lookup_middle. }
    rewrite <- Eh in Hlook. eapply wp_build_packet; [done..|exact Hlook|done|done|].
    intros b' num s' Hb' Hnum Eh' En' Hr' Et'. split; [done|]. exists (ready ++ [b']), todo, (nums ++ [num]).
    rewrite length_app, Nat.add_1_r, Nat.add_succ_r, stamps_app. cbn [length] in Hn |- *.
    split; [done|]. split; [lia|]. split; [by apply Forall2_app; [|constructor]|].
    split; [by apply Forall_app; split; [|apply Forall_singleton]|]. split; [done|].
    split; [|split; [congruence|split; [done|by rewrite Et', Et, app_assoc]]].
    rewrite Eh', Eh, insert_from_update by (rewrite length_app; cbn; lia).
    rewrite <- (Nat.add_0_r (length ready)), insert_app_r. cbn. by rewrite <- app_assoc.
  - intros x s1 (-> & ready & [|b todo] & nums & Hl & Hn & Hready & Hnums & _ & Eh & En & Hr1 & Et); [|done].
    rewrite app_nil_r in Eh. eapply (HQ ready nums); try done. cbn in Hn. lia.
Qed.

(** *** The invariant of the locals *)
Record tx_inv (l : tx_locals) : Prop := {
  ti_sel : l_selected_dst l = 0;
  ti_flow : l_flow l = l_dst_port l - base_port_number cntx;
  ti_port : base_port_number cntx <= l_dst_port l < base_port_number cntx + count_flow cntx;
  ti_tp : Z.of_nat (length (l_throughput l)) = count_flow cntx;
  ti_sent : length (l_total_sent_pkts l) = 1%nat;
  ti_failed : length (l_failed_to_push l) = 1%nat;
}.

(** A step that keeps no buffer. *)
Definition keeps (s s' : machine W) (evs : list event) : Prop :=
  heap s' = heap s /\ (next s <= next s')%nat /\ rng_ok (rng s') /\ trace s' = trace s ++ evs.

(** The packets of this client for a port. *)
Definition packet_with (st : tx_setup) (port num : Z) (b : mbuf) : Prop :=
  exists ch pr, lookupZ (dst_ips cntx) 0 = Some (ch_dst_ip ch) /\ server_eths st = [ch_server_eth ch] /\
    prio st = [pr] /\ ch_tci ch = get_tci pr 0 100 /\
    is_packet flags (katran_opt st) (payload_length cntx) (pkt_info cntx st ch port) num b.
Definition packet_for (st : tx_setup) (port : Z) (b : mbuf) : Prop := exists num, packet_with st port num b.
Definition our_packet (st : tx_setup) (b : mbuf) : Prop :=
  exists port, base_port_number cntx <= port < base_port_number cntx + count_flow cntx /\ packet_for st port b.

(** What the client does in between. *)
Definition tx_events (st : tx_setup) (evs : list event) : Prop :=
  received evs = [] /\ Forall (our_packet st) (sent evs).

Lemma keeps_refl s : rng_ok (rng s) -> keeps s s [].
Proof. intros. unfold keeps. by rewrite app_nil_r. Qed.
Lemma keeps_trans s1 s2 s3 e1 e2 : keeps s1 s2 e1 -> keeps s2 s3 e2 -> keeps s1 s3 (e1 ++ e2).
Proof.
  intros (? & ? & ? & E1) (? & ? & ? & E2). unfold keeps. rewrite E2, E1, app_assoc.
  split_and!; [congruence|lia|done|done].
Qed.
Lemma keeps_ok s s' evs : heap_ok s -> keeps s s' evs -> heap_ok s'.
Proof. intros Hs (Hh & Hn & _). eapply heap_ok_sub; [done..|]. by rewrite Hh. Qed.
Lemma keeps_log s s' evs e : keeps s s' evs -> keeps s (log_event e s') (evs ++ [e]).
Proof. intros (? & ? & ? & E1). unfold keeps. cbn. by rewrite E1, app_assoc. Qed.

Lemma tx_events_app st e1 e2 : tx_events st e1 -> tx_events st e2 -> tx_events st (e1 ++ e2).
Proof.
  intros [R1 S1] [R2 S2]. split; autorewrite with cnet; [by rewrite R1, R2|by apply Forall_app].
Qed.

Lemma lookupZ_singleton {A} (x : A) : lookupZ [x] 0 = Some x.
Proof. done. Qed.

Lemma length_1 {A} (xs : list A) : length xs = 1%nat -> exists x, xs = [x].
Proof. destruct xs as [|x []]; [done|by exists x|done]. Qed.

(** The next burst: the ports are used in turn. *)
Definition next_port (port : Z) : Z :=
  if base_port_number cntx + count_flow cntx <=? port + 1 then base_port_number cntx else port + 1.

Lemma choose_run st l s :
  tx_ok st -> tx_inv l ->
  exists ch, choose cntx st l s = (Ret (ch, select_next 0 (next_port (l_dst_port l) - base_port_number cntx)
      (next_port (l_dst_port l)) l), s) /\
    lookupZ (dst_ips cntx) 0 = Some (ch_dst_ip ch) /\ lookupZ (flow_q st) (l_flow l) = Some (ch_queue ch) /\
    server_eths st = [ch_server_eth ch] /\ (exists pr, prio st = [pr] /\ ch_tci ch = get_tci pr 0 100) /\
    ch_k ch = 0 /\ burst_sizes st = [ch_burst ch] /\ ch_cur_flow ch = l_flow l.
Proof.
  intros Hst Hl. destruct Hst as [Hdst [ip Hip] [Hdd Hqd] Hcf [Hb0 Hb1] Hfq (mac & Hmac & Hml) _ (pr & Hpr) (bu & Hbu & _) _ _ _ _].
  destruct Hl as [Hsel Hflow Hport _ _ _].
  destruct (lookupZ_is_Some (flow_q st) (l_flow l)) as [q Hq]; [lia|].
  unfold choose. rewrite Hsel, Hip, Hdd, Hqd, Hq, Hmac, Hpr, Hbu, Hdst. rewrite !lookupZ_singleton.
  change (DIST_UNIFORM =? DIST_ZIPF) with false. change (DIST_UNIFORM =? DIST_UNIFORM) with true.
  change (int_chk (0 + 1)) with (Some 1). cbv beta iota. run.
  change (1 =? 0) with false. change (Z.rem 1 1) with 0. cbv beta iota. run.
  rewrite (u32_small (l_dst_port l + 1)), (u32_small (base_port_number cntx + count_flow cntx)) by lia.
  fold (next_port (l_dst_port l)).
  assert (Hn : 0 <= next_port (l_dst_port l) - base_port_number cntx < 65536) by (unfold next_port; case_if; lia).
  rewrite Z.mul_0_l, (u32_small 0), Z.add_0_l, (u32_small (_ - _)), u32_small, i32_small by lia.
  eexists. split; [reflexivity|]. cbn. split_and!; try done. by exists pr.
Qed.

Lemma count_flows_eq st : tx_ok st -> count_flows cntx = count_flow cntx.
Proof.
  intros Hst. unfold count_flows. rewrite (to_dst st Hst), Z.mul_1_l. apply u32_small.
  destruct (to_ports st Hst). pose proof (to_flows st Hst). lia.
Qed.

(** *** Exactly what the steps of an iteration do *)

(** The report of the throughput: once a second has passed. *)
Definition window (now : Z) (l : tx_locals) : spec_float := f64_of_Z (u64 (now - l_tp_start_ts l)).
Definition second_over (now : Z) (l : tx_locals) : bool := SFltb (f64_of_Z timer_hz) (window now l).
Definition reported (now : Z) (l : tx_locals) : tx_locals :=
  if second_over now l then clear_throughput now (replicate (length (l_throughput l)) 0) l else l.
Definition throughput_line (i : nat) (v : Z) : event :=
  EvPrint "tp[%2d]: flow-id(%d): %ld" [default_qid cntx; Z.of_nat i; v].
Definition report_lines (now : Z) (l : tx_locals) : list event :=
  if second_over now l then imap throughput_line (l_throughput l) ++ [EvPrint "..." []] else [].

Lemma wp_report_throughput st now l (Q : tx_locals -> machine W -> Prop) E s :
  tx_ok st -> tx_inv l -> Q (reported now l) (log_events (report_lines now l) s) ->
  wp (report_throughput cntx now (window now l) l) Q E s.
Proof.
  intros Hst Hl HQ. unfold report_throughput. change rte_get_timer_hz with timer_hz. fold (second_over now l).
  unfold reported, report_lines in HQ. destruct (second_over now l); [|rewrite log_events_nil in HQ; by wp_step].
  wp_step. rewrite (count_flows_eq st), <- (ti_tp l Hl) by done.
  apply (wp_forM (fun ix tp s1 => exists pre post, l_throughput l = pre ++ post /\
    ix = seqZ (Z.of_nat (length pre)) (Z.of_nat (length post)) /\ tp = replicate (length pre) 0 ++ post /\
    s1 = log_events (imap throughput_line pre) s)).
  - exists [], (l_throughput l). split_and!; try done. cbn. by rewrite log_events_nil.
  - intros i ix tp s1 (pre & [|v post] & Htp & Hix & -> & ->); [done|].
    cbn [length] in Hix. rewrite seqZ_cons in Hix by lia. injection Hix as -> ->.
    assert (Hv : lookupZ (replicate (length pre) 0 ++ v :: post) (Z.of_nat (length pre)) = Some v).
    { apply lookupZ_Some. split; [lia|]. rewrite Nat2Z.id. apply list_lookup_middle. by rewrite length_replicate. }
    rewrite Hv. wp_step. wp_step; [|done]. injection Hd as <-. wp_step. apply wp_printf.
    rewrite insertZ_is_Some by (rewrite length_app, length_replicate; cbn; lia). wp_step; [|done]. injection Hd as <-.
    exists (pre ++ [v]), post. rewrite <- app_assoc, length_app, Nat.add_1_r. split_and!; [done|f_equal; cbn; lia| |].
    + rewrite Nat2Z.id. rewrite <- (length_replicate (length pre) 0) at 1.
      rewrite <- (Nat.add_0_r (length (replicate _ _))), insert_app_r, replicate_S_end, <- app_assoc. done.
    + rewrite imap_app. cbn. rewrite Nat.add_0_r. unfold log_event. by rewrite log_events_app.
  - intros tp s1 (pre & [|v post] & Htp & Hix & -> & ->); [|by rewrite seqZ_cons in Hix by (cbn; lia)].
    rewrite app_nil_r in Htp |- *. wp_step. apply wp_printf. wp_step. unfold log_event.
    by rewrite log_events_app, <- Htp.
Qed.

(** The rate limit: what the flow has sent in its window is more than its rate
    allows. *)
Definition rate_exceeded (now : Z) (l : tx_locals) (tp : list Z) : bool :=
  negb (rate_limit cntx =? 0) &&
  match lookupZ tp (l_flow l) with
  | Some v => SFltb (f64_mul (f64_of_Z (rate cntx)) (f64_div (window now l) (f64_of_Z timer_hz))) (f64_of_Z v)
  | None => false
  end.

Lemma wp_over_rate now l l2 (Q : bool -> machine W -> Prop) E s :
  Z.of_nat (length (l_throughput l2)) = count_flow cntx -> 0 <= l_flow l < count_flow cntx ->
  Q (rate_exceeded now l (l_throughput l2)) s -> wp (over_rate cntx (window now l) (l_flow l) l2) Q E s.
Proof.
  intros Hl Hf HQ. unfold over_rate. unfold rate_exceeded in HQ. case_if; cbn [negb andb] in HQ; [by wp_step|].
  destruct (lookupZ_is_Some (l_throughput l2) (l_flow l)) as [v Hv]; [lia|]. rewrite Hv in HQ |- *.
  wp_step. wp_step; [|done]. injection Hd as <-. by wp_step.
Qed.

(** The number of delays between bursts: the integer part of their quotient. *)
Lemma delays_of_burst burst flows :
  0 <= burst <= MAX_BURST_SIZE -> 0 < flows < 2 ^ 32 ->
  f_to_u16 (f64_div (f64_of_Z burst) (f64_of_Z flows)) = Some (burst / flows).
Proof.
  intros Hb Hf. unfold MAX_BURST_SIZE in Hb. unfold f_to_u16. rewrite f64_div_trunc by lia.
  assert (0 <= burst / flows <= burst).
  { split; [apply Z.div_pos; lia|]. apply Z.div_le_upper_bound; [lia|]. nia. }
  case_if; [done|]. apply andb_false_iff in Heqb as [?|?]; bool_to_prop; lia.
Qed.

Lemma wp_inter_arrival fuel st burst (Q : unit -> machine W -> Prop) (E : reason -> machine W -> Prop) s :
  tx_ok st -> 0 <= burst <= MAX_BURST_SIZE ->
  (forall w, Q tt (with_world w s)) -> (0 < delay_cycles cntx -> forall w, E OutOfFuel (with_world w s)) ->
  wp (inter_arrival cntx fuel burst) Q E s.
Proof.
  intros Hst Hb HQ HE. unfold inter_arrival. wp_step.
  - destruct (to_ports st Hst). pose proof (to_flows st Hst).
    rewrite delays_of_burst by (done || lia). wp_step. wp_step; [|done]. apply wp_apply_delay; [done|by apply HE].
  - specialize (HQ (world s)). by destruct s.
Qed.

(** *** Sending a burst *)

(** The counters after the card took [n] packets and refused [refused]: past the
    start of the experiment they count, and the throughput always does. *)
Definition bump (now n : Z) (l : tx_locals) (counters : list Z) : list Z :=
  (fun v => if u64 (l_start_time l) <? now then u64 (v + n) else v) <$> counters.
Definition accounted (now flow n refused : Z) (l : tx_locals) : tx_locals :=
  account (bump now n l (l_total_sent_pkts l)) (bump now refused l (l_failed_to_push l))
    (alter (fun v => u64 (v + n)) (Z.to_nat flow) (l_throughput l)) l.

Lemma accounted_inv now flow n refused l : tx_inv l -> tx_inv (accounted now flow n refused l).
Proof. intros []. constructor; cbn; unfold bump; by rewrite ?length_fmap, ?length_alter. Qed.

Lemma wp_send_burst ch now kp kb h0 l (Q : tx_locals -> machine W -> Prop) E s :
  tx_inv l -> holds kp kb (heap s) h0 -> ch_k ch = 0 -> ch_burst ch = Z.of_nat (length kp) ->
  0 <= ch_cur_flow ch < count_flow cntx ->
  (forall s' n, 0 <= n <= Z.of_nat (length kb) -> heap s' = h0 -> next s' = next s -> rng s' = rng s ->
    trace s' = trace s ++ [EvTx (dpdk_port_id cntx) (ch_queue ch) (take (Z.to_nat n) kb) (drop (Z.to_nat n) kb)] ->
    Q (accounted now (ch_cur_flow ch) n (ch_burst ch - n) l) s') ->
  wp (send_burst cntx ch now kp l) Q E s.
Proof.
  intros Hl Hh Hk Hbu Hf HQ. unfold send_burst. wp_step.
  eapply wp_tx; [by eapply holds_mapM|]. intros w n Hn. set (ev := EvTx _ _ _ _).
  pose proof (holds_length _ _ _ _ Hh) as Hlen.
  destruct (length_1 _ (ti_sent l Hl)) as [v1 E1], (length_1 _ (ti_failed l Hl)) as [v2 E2]. rewrite E1, E2.
  unfold ignore_result_duration. rewrite Z.mul_0_l, (u64_small 0), Z.add_0_r by done. rewrite Hk.
  unfold add_at at 1 2. rewrite !lookupZ_singleton. cbn [mbind option_bind].
  change (insertZ 0 ?x [_]) with (Some [x]).
  wp_step. apply (wp_run _ _ (bump now n l [v1], bump now (ch_burst ch - n) l [v2])
    (log_event ev (with_heap (delete_all (take (Z.to_nat n) kp) (heap s)) (with_world w s)))).
  { unfold bump. cbn. case_if; by run. }
  cbv beta iota.
  destruct (lookupZ_is_Some (l_throughput l) (ch_cur_flow ch)) as [v Hv]; [rewrite (ti_tp l Hl); lia|].
  assert (Hadd : add_at (ch_cur_flow ch) n (l_throughput l) =
    Some (alter (fun v => u64 (v + n)) (Z.to_nat (ch_cur_flow ch)) (l_throughput l))).
  { unfold add_at. rewrite Hv. cbn [mbind option_bind]. rewrite insertZ_is_Some by (rewrite (ti_tp l Hl); lia).
    apply lookupZ_Some in Hv as [_ Hv]. by rewrite (alter_at _ _ _ _ Hv). }
  rewrite Hbu, Hlen in HQ |- *.
  assert (Hend : forall s3, s3 = log_event ev (with_heap h0 (with_world w s)) ->
    wp (tp ← demand (add_at (ch_cur_flow ch) n (l_throughput l));
      mret (account (bump now n l [v1]) (bump now (Z.of_nat (length kb) - n) l [v2]) tp l)) Q E s3).
  { intros s3 ->. rewrite Hadd. wp_step. wp_step; [|done]. injection Hd as <-. wp_step.
    rewrite <- E1, <- E2. by apply (HQ _ n). }
  wp_step. wp_step.
  - eapply wp_free_all; [apply holds_drop, Hh|]. by apply Hend.
  - apply Hend. f_equal. f_equal. rewrite take_ge by lia. apply Hh.
Qed.

(** *** An iteration *)

Lemma next_port_range l :
  tx_inv l -> base_port_number cntx <= next_port (l_dst_port l) < base_port_number cntx + count_flow cntx.
Proof. intros [_ _ Hp _ _ _]. unfold next_port. case_if; lia. Qed.

(** The flow that is next in turn. *)
Definition next_flow (l : tx_locals) : tx_locals :=
  select_next 0 (next_port (l_dst_port l) - base_port_number cntx) (next_port (l_dst_port l)) l.

Lemma next_flow_inv l : tx_inv l -> tx_inv (next_flow l).
Proof. intros Hl. pose proof (next_port_range l Hl). destruct Hl. by constructor. Qed.
Lemma reported_inv now l : tx_inv l -> tx_inv (reported now l).
Proof. intros Hl. unfold reported. case_if; [|done]. destruct Hl. constructor; try done. cbn. by rewrite length_replicate. Qed.
Lemma reported_port now l : l_dst_port (reported now l) = l_dst_port l.
Proof. unfold reported. by case_if. Qed.

(** A burst of [burst] packets for [port] was built, in the events [evs], and
    offered on queue [q] to the card, which took the first ones. *)
Record pushed (st : tx_setup) (port q burst : Z) (taken refused : list mbuf) (evs : list event) : Prop := {
  pu_count : Z.of_nat (length (taken ++ refused)) = burst;
  pu_packets : exists nums, Forall2 (packet_with st port) nums (taken ++ refused) /\ Forall (number_ok st) nums /\
    evs = stamps nums ++ [EvTx (dpdk_port_id cntx) q taken refused];
}.

(** What an iteration at time [now] does once the experiment is running: the turn
    passes to the next flow, the throughput is reported, and unless the flow is
    over its rate or there are no buffers one burst is sent and counted. *)
Inductive iterated (st : tx_setup) (now : Z) (l : tx_locals) : tx_locals -> list event -> Prop :=
| ItLimited :
    rate_exceeded now l (l_throughput (reported now l)) = true ->
    iterated st now l (reported now (next_flow l)) (report_lines now l)
| ItNoMbufs burst :
    rate_exceeded now l (l_throughput (reported now l)) = false -> burst_sizes st = [burst] ->
    iterated st now l (reported now (next_flow l)) (report_lines now l ++ [EvNoMbufs (tx_mem_pool cntx) burst])
| ItSent q burst taken refused evs :
    rate_exceeded now l (l_throughput (reported now l)) = false -> burst_sizes st = [burst] ->
    lookupZ (flow_q st) (l_flow l) = Some q ->
    pushed st (next_port (l_dst_port l)) q burst taken refused evs ->
    iterated st now l
      (accounted now (l_flow l) (Z.of_nat (length taken)) (Z.of_nat (length refused)) (reported now (next_flow l)))
      (report_lines now l ++ evs).

Lemma report_lines_quiet now l : received (report_lines now l) = [] /\ offered (report_lines now l) = [] /\
  sent (report_lines now l) = [] /\ untimed (report_lines now l).
Proof.
  unfold report_lines. case_if; [|done]. generalize (l_throughput l) as tp. intros tp. induction tp as [|v tp IH] using rev_ind; [done|].
  rewrite imap_app. unfold untimed in *. autorewrite with cnet in IH |- *. cbn. rewrite !app_nil_r in *. exact IH.
Qed.
Lemma stamps_quiet nums :
  received (stamps nums) = [] /\ offered (stamps nums) = [] /\ sent (stamps nums) = [] /\ polls (stamps nums) = [].
Proof. unfold stamps. case_if; [done|]. induction nums as [|n nums IH]; [done|]. exact IH. Qed.

Lemma pushed_events st port q burst taken refused evs :
  base_port_number cntx <= port < base_port_number cntx + count_flow cntx ->
  pushed st port q burst taken refused evs ->
  received evs = [] /\ sent evs = taken /\ offered evs = taken ++ refused /\ Forall (our_packet st) (taken ++ refused).
Proof.
  intros Hp [_ (nums & Hpk & _ & ->)]. destruct (stamps_quiet nums) as (R & O & S & _).
  autorewrite with cnet. rewrite R, O, S. split_and!; try done.
  eapply Forall2_Forall_r; [exact Hpk|]. apply Forall_true. intros num b Hb. exists port. split; [done|]. by exists num.
Qed.

Lemma iterated_inv st now l l' evs : tx_inv l -> iterated st now l l' evs -> tx_inv l'.
Proof.
  intros Hl Hit. pose proof (reported_inv now _ (next_flow_inv l Hl)).
  destruct Hit; [done|done|]. by apply accounted_inv.
Qed.
Lemma iterated_events st now l l' evs : tx_inv l -> iterated st now l l' evs -> tx_events st evs.
Proof.
  intros Hl Hit. destruct (report_lines_quiet now l) as (R & _ & S & _).
  destruct Hit as [_|burst _ _|q burst taken refused evs _ _ _ Hpu]; unfold tx_events; autorewrite with cnet; rewrite R, S.
  - done.
  - done.
  - destruct (pushed_events _ _ _ _ _ _ _ (next_port_range l Hl) Hpu) as (-> & -> & _ & Hall). split; [done|].
    apply Forall_app in Hall. apply Hall.
Qed.

(** The allocated buffers are built, sent or freed, and counted. *)
Lemma wp_burst fuel st ch port now l bs w s (Q : tx_locals -> machine W -> Prop) (E : reason -> machine W -> Prop) :
  tx_ok st -> tx_inv l -> heap_ok s -> rng_ok (rng s) -> Forall fresh_ok bs ->
  lookupZ (dst_ips cntx) 0 = Some (ch_dst_ip ch) ->
  server_eths st = [ch_server_eth ch] -> (exists pr, prio st = [pr] /\ ch_tci ch = get_tci pr 0 100) -> ch_k ch = 0 ->
  ch_burst ch = Z.of_nat (length bs) -> burst_sizes st = [ch_burst ch] -> 0 <= ch_cur_flow ch < count_flow cntx ->
  (forall s' evs taken refused, pushed st port (ch_queue ch) (ch_burst ch) taken refused evs -> keeps s s' evs ->
    Q (accounted now (ch_cur_flow ch) (Z.of_nat (length taken)) (Z.of_nat (length refused)) l) s') ->
  (0 < delay_cycles cntx -> forall s' evs taken refused, pushed st port (ch_queue ch) (ch_burst ch) taken refused evs ->
    keeps s s' evs -> E OutOfFuel s') ->
  wp (_ ← forM (seq (next s) (length bs)) (build_packet flags cntx st ch port) (pkt_info cntx st ch port);
      l ← send_burst cntx ch now (seq (next s) (length bs)) l;
      _ ← inter_arrival cntx fuel (ch_burst ch);
      mret l) Q E (receive_bufs bs (with_world w s)).
Proof.
  intros Hst Hl Hs Hr Hbs Hip Hmac (pr & Hpr & Htci) Hk Hbu Hbsz Hcf HQ HE.
  assert (Hmac6 : length (ch_server_eth ch) = 6%nat).
  { destruct (to_eth st Hst) as (mac & Hm & Hm6). by replace (ch_server_eth ch) with mac by congruence. }
  assert (Hmax : 0 <= ch_burst ch <= MAX_BURST_SIZE).
  { destruct (to_burst st Hst) as (x & Hx & Hx'). by replace (ch_burst ch) with x by congruence. }
  wp_step. apply (wp_build_burst st ch _ bs (next s) (heap s)); [done..|].
  intros bs' nums s2 Hlen Hpkt Hnums Eh En Hr' Et. rewrite <- Hlen in *. cbn in En, Et.
  wp_step. eapply (wp_send_burst ch now _ bs' (heap s)); [done| |done|by rewrite length_seq|done|].
  { rewrite Eh. by apply holds_receive. }
  intros s' n Hn Hheap Hnext Hrng Htrace.
  set (taken := take (Z.to_nat n) bs') in *. set (refused := drop (Z.to_nat n) bs') in *.
  set (evs := stamps nums ++ [EvTx (dpdk_port_id cntx) (ch_queue ch) taken refused]).
  assert (Hpu : pushed st port (ch_queue ch) (ch_burst ch) taken refused evs).
  { constructor; unfold taken, refused; rewrite take_drop; [done|]. exists nums. split_and!; [|done|done].
    eapply Forall2_impl; [exact Hpkt|]. intros num b Hb. by exists ch, pr. }
  assert (Hkeeps : forall w, keeps s (with_world w s') evs).
  { intros w2. unfold keeps. cbn. rewrite Hheap, Hnext, Hrng, Htrace, Et, En. split_and!; [done|lia|done|].
    unfold evs. by rewrite app_assoc. }
  assert (Ht : Z.of_nat (length taken) = n /\ Z.of_nat (length refused) = ch_burst ch - n).
  { unfold taken, refused. rewrite length_take, length_drop. lia. }
  destruct Ht as [Ht1 Ht2]. wp_step. apply (wp_inter_arrival fuel st); [done|done| |].
  - intros w2. wp_step. rewrite <- Ht2, <- Ht1. by eapply HQ.
  - intros Hd w2. by eapply HE.
Qed.

Lemma keeps_events s evs : rng_ok (rng s) -> keeps s (log_events evs s) evs.
Proof. done. Qed.

Lemma wp_send_iter fuel st now l (Q : tx_locals -> machine W -> Prop) (E : reason -> machine W -> Prop) s :
  tx_ok st -> tx_inv l -> heap_ok s -> rng_ok (rng s) ->
  (forall l' s' evs, iterated st now l l' evs -> keeps s s' evs -> Q l' s') ->
  (0 < delay_cycles cntx -> forall s' evs, tx_events st evs -> keeps s s' evs -> E OutOfFuel s') ->
  wp (send_iter flags cntx fuel st now l) Q E s.
Proof.
  intros Hst Hl Hs Hr HQ HE. unfold send_iter. wp_step.
  destruct (choose_run st l s Hst Hl) as (ch & Hch & Hip & Hq & Hmac & Hpr & Hk & Hbu & Hcf).
  eapply wp_run; [exact Hch|]. cbv beta iota. fold (next_flow l).
  pose proof (reported_inv now _ (next_flow_inv l Hl)) as Hl2.
  assert (Htp : l_throughput (reported now (next_flow l)) = l_throughput (reported now l)).
  { unfold reported. change (second_over now (next_flow l)) with (second_over now l). by case_if. }
  change (f64_of_Z (u64 (now - l_tp_start_ts (next_flow l)))) with (window now l).
  wp_step. change (window now l) with (window now (next_flow l)) at 1.
  apply (wp_report_throughput st); [done|by apply next_flow_inv|].
  change (report_lines now (next_flow l)) with (report_lines now l). set (s2 := log_events _ s).
  set (l2 := reported now (next_flow l)) in *.
  assert (Hk2 : keeps s s2 (report_lines now l)) by (by apply keeps_events).
  wp_step. rewrite Hcf. apply wp_over_rate; [apply Hl2|destruct Hl; lia|]. rewrite Htp.
  destruct (rate_exceeded _ _ _) eqn:Erate; [wp_step; eapply HQ; [by apply ItLimited|exact Hk2]|].
  wp_step. apply wp_alloc_bulk; [intros w; wp_step; eapply HQ; [by apply ItNoMbufs|by apply keeps_log]|].
  intros w bs Hbs Hfresh. cbv beta iota.
  replace (l_dst_port l2) with (next_port (l_dst_port l)) by (unfold l2; by rewrite reported_port).
  apply (wp_burst fuel st ch _ now l2 bs w s2); try done.
  - rewrite Hcf. destruct Hl. lia.
  - intros s' evs taken refused Hpu Hks. rewrite Hcf. eapply HQ; [by eapply ItSent|by eapply keeps_trans].
  - intros Hd s' evs taken refused Hpu Hks. eapply (HE Hd s'); [|by eapply keeps_trans].
    eapply (iterated_events st now l); [done|by eapply ItSent].
Qed.

(** *** The loop body *)

(** The experiment, or the time granted for answers after it, is over. *)
Definition timed_out (now : Z) (l : tx_locals) : bool :=
  (0 <? l_duration l) && (u64 (l_start_time l + l_duration l) <? now).

(** An iteration of the loop, with what it read: the flag, then the clock; at the
    end of the experiment the clock once more. *)
Inductive stepped (st : tx_setup) (l : tx_locals) : list event -> tx_locals + tx_locals -> Prop :=
| StStopped : stepped st l [EvPoll false] (inr l)
| StOver now : timed_out now l = true -> l_can_send l = false ->
    stepped st l [EvPoll true; EvClock now] (inr l)
| StLastSent now t : timed_out now l = true -> l_can_send l = true ->
    stepped st l [EvPoll true; EvClock now; EvClock t] (inl (stop_sending t (u64 (2 * timer_hz)) l))
| StDrains now : timed_out now l = false -> l_can_send l = false ->
    stepped st l [EvPoll true; EvClock now] (inl l)
| StSends now l' evs : timed_out now l = false -> l_can_send l = true -> iterated st now l l' evs ->
    stepped st l (EvPoll true :: EvClock now :: evs) (inl l').

Definition either {A} (r : A + A) : A := match r with inl x | inr x => x end.

Lemma stepped_inv st l evs r : tx_inv l -> stepped st l evs r -> tx_inv (either r).
Proof.
  intros Hl. destruct 1 as [| |now t| |now l' evs _ _ Hit]; try done; [by destruct Hl|by eapply iterated_inv].
Qed.
Lemma stepped_events st l evs r : tx_inv l -> stepped st l evs r -> tx_events st evs.
Proof. intros Hl. destruct 1 as [| | | |now l' evs _ _ Hit]; try done. exact (iterated_events _ _ _ _ _ Hl Hit). Qed.

Lemma wp_tx_iter fuel st l (Q : tx_locals + tx_locals -> machine W -> Prop) (E : reason -> machine W -> Prop) s :
  tx_ok st -> tx_inv l -> heap_ok s -> rng_ok (rng s) ->
  (forall r s' evs, stepped st l evs r -> keeps s s' evs -> Q r s') ->
  (0 < delay_cycles cntx -> forall s' evs, tx_events st evs -> keeps s s' evs -> E OutOfFuel s') ->
  wp (tx_iter flags cntx fuel st l) Q E s.
Proof.
  intros Hst Hl Hs Hr HQ HE. unfold tx_iter.
  wp_step. apply wp_poll_running. intros run w1 _.
  assert (Hk1 : keeps s (log_event (EvPoll run) (with_world w1 s)) [EvPoll run]) by done.
  destruct run; cbn [negb]; [|wp_step; eapply HQ; [apply StStopped|exact Hk1]].
  wp_step. apply wp_get_timer_cycles. intros now w2 _ _. set (s2 := log_event (EvClock now) _).
  assert (Hk2 : keeps s s2 [EvPoll true; EvClock now]) by exact (keeps_log s (with_world w2 _) _ (EvClock now) Hk1).
  assert (Hgo : timed_out now l = false ->
    wp (if l_can_send l then l ← send_iter flags cntx fuel st now l; mret (inl l) else mret (inl l)) Q E s2).
  { intros Hto. destruct (l_can_send l) eqn:Ecs; [|wp_step; eapply HQ; [by apply StDrains|exact Hk2]].
    wp_step. apply (wp_send_iter fuel st now); [done..| |].
    - intros l' s' evs Hit Hk. wp_step. eapply HQ; [by apply StSends|exact (keeps_trans _ _ _ _ _ Hk2 Hk)].
    - intros Hd s' evs Hev Hk. eapply (HE Hd); [|exact (keeps_trans _ _ _ _ _ Hk2 Hk)]. by apply tx_events_app. }
  wp_step. unfold check_time. fold (timed_out now l). destruct (timed_out now l) eqn:Hto; [|wp_step; by apply Hgo].
  destruct (l_can_send l) eqn:Ecs; [|wp_step; cbv beta iota; wp_step; eapply HQ; [by apply StOver|exact Hk2]].
  wp_step. apply wp_get_timer_cycles. intros t w3 _ _. wp_step. cbv beta iota. cbn [l_can_send stop_sending].
  wp_step. eapply HQ; [by apply StLastSent|]. exact (keeps_log s (with_world w3 s2) _ (EvClock t) Hk2).
Qed.

(** A choice that was made was for destination 0, and moved on to the next. *)
Lemma choose_inv st l l' ch s s' :
  destination_distribution cntx = DIST_UNIFORM -> queue_selection_distribution cntx = DIST_UNIFORM ->
  count_dst_ip cntx <> 0 -> choose cntx st l s = (Ret (ch, l'), s') ->
  l_selected_dst l = 0 /\ exists n, int_chk (l_selected_dst l + 1) = Some n /\
    l_selected_dst l' = Z.rem n (count_dst_ip cntx).
Proof.
  intros Hdd Hqd Hc Hrun. unfold choose in Hrun. rewrite Hdd, Hqd in Hrun.
  change (DIST_UNIFORM =? DIST_ZIPF) with false in Hrun. change (DIST_UNIFORM =? DIST_UNIFORM) with true in Hrun.
  apply Z.eqb_neq in Hc. rewrite Hc in Hrun. cbv beta iota in Hrun.
  destruct (lookupZ (dst_ips cntx) _) as [ip|]; [|done].
  destruct (lookupZ (flow_q st) _) as [q|]; [|done].
  autorewrite with run in Hrun. destruct (Z.eqb_spec (l_selected_dst l) 0) as [Hsel|]; [|done]. split; [done|].
  autorewrite with run in Hrun.
  destruct (lookupZ (server_eths st) _) as [mac|]; [|done]. destruct (lookupZ (prio st) _) as [pr|]; [|done].
  destruct (lookupZ (burst_sizes st) _) as [bu|]; [|done].
  destruct (int_chk _) as [n|]; [|done]. autorewrite with run in Hrun. injection Hrun as _ <- _. by exists n.
Qed.

(** *** The turn of the flows *)
Fixpoint choose_n (st : tx_setup) (n : nat) (l : tx_locals) : M (machine W) tx_locals :=
  match n with
  | O => mret l
  | S n => '(_, l) ← choose cntx st l; choose_n st n l
  end.

Lemma next_port_mod port :
  0 < count_flow cntx -> 0 <= port - base_port_number cntx < count_flow cntx ->
  next_port port - base_port_number cntx = (port - base_port_number cntx + 1) mod count_flow cntx.
Proof.
  intros Hc Hp. unfold next_port. case_if; bool_to_prop.
  - replace (port - base_port_number cntx + 1) with (count_flow cntx) by lia. rewrite Z.mod_same by lia. lia.
  - rewrite Z.mod_small by lia. lia.
Qed.

Lemma choose_n_run st n l s :
  tx_ok st -> tx_inv l ->
  exists l', choose_n st n l s = (Ret l', s) /\ tx_inv l' /\
    l_dst_port l' = base_port_number cntx + (l_dst_port l - base_port_number cntx + Z.of_nat n) mod count_flow cntx.
Proof.
  intros Hst. pose proof (to_flows st Hst) as Hc. revert l. induction n as [|n IH]; intros l Hl.
  - exists l. split; [done|]. split; [done|]. destruct Hl. rewrite Z.mod_small by lia. lia.
  - destruct (choose_run st l s Hst Hl) as (ch & Hch & _). cbn [choose_n]. rewrite (run_bind _ _ _ _ _ Hch).
    cbv beta iota. pose proof (next_flow_inv l Hl) as Hl1. destruct (IH _ Hl1) as (l' & Hrun & Hl' & Hp).
    exists l'. split; [exact Hrun|]. split; [done|]. rewrite Hp. change (l_dst_port (next_flow l)) with (next_port (l_dst_port l)).
    rewrite next_port_mod by (destruct Hl; lia). rewrite Zplus_mod_idemp_l. do 2 f_equal. lia.
Qed.

(** ** Properties *)

(** C4: An iteration of the transmit loop is correct. Whatever the card, the
    clock and the pool do, it frees or hands over every buffer it took, and it does
    exactly what its flag, its clock and the card tell it ([stepped], over the events
    it adds to the trace). It leaves the loop if the flag is cleared or if [now], the
    time read after the flag, is past the end and sending is over; it ends the
    sending at the first time past the end; and before that it sends one burst of
    the configured size, unless the flow is over its rate or the pool has no
    buffers. The packets are for the next port in turn and carry the standard headers
    of this client, a payload of the configured length and, in the time stamp
    variant, the reading of the clock made for that packet. The locals it ends with
    are determined: if [now] is past the start, the counters of sent and failed
    packets advance by what the card took and refused of this burst, and otherwise
    they stay. Only the inter-arrival wait can fail to end. *)
Theorem tx_iter_correct fuel st l s :
  tx_ok st -> tx_inv l -> heap_ok s -> rng_ok (rng s) ->
  wp (tx_iter flags cntx fuel st l)
    (fun r s' => exists evs, stepped st l evs r /\ keeps s s' evs)
    (fun k s' => k = OutOfFuel /\ 0 < delay_cycles cntx /\ heap s' = heap s) s.
Proof.
  intros. apply wp_tx_iter; [done..| |].
  - intros r s' evs Hstep Hk. by exists evs.
  - by intros Hd s' evs _ (Hh & _).
Qed.

(** The flows take turns. After [n] choices the destination port is the one
    [n] places further among the [count_flow] ports from the base port, wrapping
    around; choosing has no other effect and never fails. *)
Theorem flows_take_turns st n l s :
  tx_ok st -> tx_inv l ->
  exists l', choose_n st n l s = (Ret l', s) /\ tx_inv l' /\
    l_dst_port l' = base_port_number cntx + (l_dst_port l - base_port_number cntx + Z.of_nat n) mod count_flow cntx.
Proof. apply choose_n_run. Qed.

(** C37: The wait between bursts is a whole number of delays: the quotient of
    burst and flows loses its fraction, so a burst smaller than the number of
    flows is followed by a wait of no cycles at all, however long the delay. *)
Theorem inter_arrival_whole fuel burst s :
  0 <= burst <= MAX_BURST_SIZE -> 0 < count_flow cntx < 2 ^ 32 ->
  inter_arrival cntx fuel burst s =
    when (0 <? delay_cycles cntx) (apply_delay_cycles fuel (delay_cycles cntx)
      (if burst <? count_flow cntx then 0 else burst / count_flow cntx)) s.
Proof.
  intros Hb Hf. unfold inter_arrival. rewrite delays_of_burst by done.
  case_if; [|done]. by rewrite Z.div_small by lia.
Qed.

(** C36: A second destination ends the program. With the destinations chosen in
    turn, the choice that follows one for destination 0 fails its assertion:
    only configurations of one destination can send more than one burst. *)
Theorem second_destination_aborts st l l' ch s s' s2 :
  destination_distribution cntx = DIST_UNIFORM -> queue_selection_distribution cntx = DIST_UNIFORM ->
  2 <= count_dst_ip cntx <= Z.of_nat (length (dst_ips cntx)) ->
  choose cntx st l s = (Ret (ch, l'), s') -> 0 <= l_flow l' < Z.of_nat (length (flow_q st)) ->
  choose cntx st l' s2 = (Stop Aborted, s2).
Proof.
  intros Hdd Hqd Hc Hrun Hflow. assert (Hsel : l_selected_dst l' = 1).
  { apply choose_inv in Hrun as (Hsel & n & Hn & ->); [|done|done|lia]. rewrite Hsel in Hn. injection Hn as <-. apply Z.rem_small. lia. }
  destruct (lookupZ_is_Some (dst_ips cntx) 1) as [ip Hip]; [lia|].
  destruct (lookupZ_is_Some (flow_q st) (l_flow l')) as [q Hq]; [lia|].
  unfold choose. rewrite Hsel, Hip, Hqd, Hq. change (DIST_UNIFORM =? DIST_ZIPF) with false. cbv beta iota. by run.
Qed.
End tx_proofs.

(** ** Witnesses *)

(** Two flows to one server, with a delay and bursts of four. *)
Definition some_client : context :=
  Context_ 1 0 0 0 0 0 mac_a 167772161 3000 1 0 1 0 0 3 [0] 10 [167772162] 1 0 64 1 2 8080 DIST_UNIFORM DIST_UNIFORM
    1 100 4.
Definition two_destinations : context :=
  Context_ 1 0 0 0 0 0 mac_a 167772161 3000 1 0 1 0 0 3 [0] 10 [167772162; 167772163] 2 0 64 1 2 8080 DIST_UNIFORM
    DIST_UNIFORM 1 100 4.
Definition some_setup : tx_setup := {|
  flow_q := [0; 0]; server_eths := [mac_b]; prio := [3]; burst_sizes := [4]; dst_zipf := zipf3; queue_zipf := zipf3;
  select_client_addr_info := Some some_clients; num_zgen := None; katran_opt := 5 |}.
Definition two_setup : tx_setup := {|
  flow_q := [0; 0; 0; 0]; server_eths := [mac_b; mac_b]; prio := [3; 3]; burst_sizes := [4; 4]; dst_zipf := zipf3;
  queue_zipf := zipf3; select_client_addr_info := None; num_zgen := None; katran_opt := 0 |}.
Definition some_locals : tx_locals := TxLocals 0 10000 true 0 0 8080 0 [0; 0] [0] [0].

Lemma zipf3_full : full_table zipf3.
Proof. split; [apply zipf3_ok|]. exists 2147483646. split; [done|by apply Z.leb_le]. Qed.

Lemma some_setup_ok flags : payload_number flags = false -> tx_ok flags some_client some_setup.
Proof.
  intros Hnum. constructor.
  - done.
  - by eexists.
  - done.
  - by apply Z.leb_le.
  - by split; apply Z.leb_le.
  - done.
  - by exists mac_b.
  - done.
  - by eexists.
  - exists 4. split; [done|]. by split; apply Z.leb_le.
  - by split; apply Z.leb_le.
  - by split; [apply Z.leb_le|apply Z.ltb_lt].
  - split; [apply zipf3_full|done].
  - by rewrite Hnum.
Qed.
Lemma some_locals_ok : tx_inv some_client some_locals.
Proof. by constructor. Qed.

Lemma rng_init_ok : rng_ok rng_init.
Proof. exists 0%nat. by left. Qed.

Lemma tx_iter_correct_witness :
  wp (tx_iter (Variant true false) some_client 50 some_setup some_locals)
    (fun r s' => exists evs, stepped (Variant true false) some_client some_setup some_locals evs r /\
      keeps (boot quiet) s' evs)
    (fun k s' => k = OutOfFuel /\ 0 < delay_cycles some_client /\ heap s' = heap (boot quiet)) (boot quiet).
Proof.
  apply (tx_iter_correct (Variant true false) some_client);
    [by apply some_setup_ok|apply some_locals_ok|apply boot_ok|apply rng_init_ok].
Defined.

Lemma flows_take_turns_witness :
  exists l', choose_n some_client some_setup 3 some_locals (boot quiet) = (Ret l', boot quiet) /\
    tx_inv some_client l' /\ l_dst_port l' = 8081.
Proof.
  apply (flows_take_turns (Variant false false) some_client some_setup 3 some_locals (boot quiet));
    [by apply some_setup_ok|apply some_locals_ok].
Defined.

Lemma inter_arrival_whole_witness :
  inter_arrival some_client 50 1 (boot quiet) = apply_delay_cycles 50 3 0 (boot quiet).
Proof.
  apply (inter_arrival_whole some_client 50 1 (boot quiet));
    split; first [by apply Z.leb_le|by apply Z.ltb_lt].
Defined.

Lemma second_destination_aborts_witness :
  exists l', choose two_destinations two_setup l' (boot quiet) = (Stop Aborted, boot quiet).
Proof.
  destruct (choose two_destinations two_setup some_locals (boot quiet)) as [[[ch l']|] s'] eqn:E; [|done].
  exists l'. apply (second_destination_aborts two_destinations two_setup some_locals l' ch (boot quiet) s'); try done.
  assert (El : l' = select_next 1 3 8081 some_locals) by (vm_compute in E; injection E; intros; by subst). subst l'.
  split; [by apply Z.leb_le|by apply Z.ltb_lt].
Defined.
