(* ===== verification/ClientRx.v ===== *)
(** * The load-generating client: receiving (client.c)

    The body of [_run_receiver_thread]: the queues are polled in turn until one
    has packets; a packet that comes from a destination is counted, and for one
    of the flows its latency is filed in the destination's histogram. Every
    buffer is freed. [log] is the C library's. *)
From S2P Require Import Prelude CInt CFloat Monad Zipf Percentile Dpdk Sim Arp Exp Server ClientTx.

(** The locals of the thread that live across iterations, and the two arrays it
    shares with [do_client], which reads them after joining the thread. *)
Record rx_locals := RxLocals {
  r_pkts : Z;
  r_last_report : Z;
  r_hist : list p_hist;
  r_total_received : list Z;
}.

Definition set_report (pkts last_report : Z) (l : rx_locals) : rx_locals :=
  RxLocals pkts last_report (r_hist l) (r_total_received l).
Definition set_counts (hist : list p_hist) (total : list Z) (l : rx_locals) : rx_locals :=
  RxLocals (r_pkts l) (r_last_report l) hist total.

Section client_rx.
Context `{DpdkLib} {W : Type} `{DpdkEnv W}.
Variable log : spec_float -> spec_float.
Variable flags : variant.
Variable cntx : context.

(** Polls the queues until one has packets. *)
Definition poll_queues : M (machine W) (list nat) :=
  forM (seqZ (default_qid cntx) (count_queues cntx)) (fun rx_q bufs =>
    if bool_decide (bufs = []) then rte_eth_rx_burst (dpdk_port_id cntx) (u16 rx_q) MAX_BURST_SIZE
    else mret bufs) [].

(** IP in IP packets are answers of a load balancer; their rate is printed
    every two seconds. *)
Definition count_ipip (end_time : Z) (l : rx_locals) : M (machine W) rx_locals :=
  let pkts := u64 (r_pkts l + 1) in
  let delta := u64 (end_time - r_last_report l) in
  if u64 (2 * rte_get_timer_hz) <? delta then
    _ ← printf "recv[%2d]: %.2f" [default_qid cntx; u64 (pkts * rte_get_timer_hz); delta];
    mret (set_report 0 end_time l)
  else mret (set_report pkts (r_last_report l) l).

(** The index of the destination with this address. *)
Definition find_ip (recv_ip : Z) : M (machine W) (option Z) :=
  forM (seqZ 0 (count_dst_ip cntx)) (fun k found =>
    match found with
    | Some _ => mret found
    | None => ip ← demand (lookupZ (dst_ips cntx) k); mret (if recv_ip =? ip then Some k else None)
    end) None.

(** In microseconds. *)
Definition latency_us (now timestamp : Z) : option Z :=
  if rte_get_timer_hz =? 0 then None
  else Some (u64 (u64 (u64 (now - timestamp) * 1000) * 1000) / rte_get_timer_hz).

Definition record_latency (buf : nat) (ipv4_hdr k : Z) (l : rx_locals) : M (machine W) rx_locals :=
  timestamp ← on_mbuf buf (mload 8 (ipv4_hdr + sizeof_ipv4_hdr + sizeof_udp_hdr));
  now ← rte_get_timer_cycles;
  latency ← demand (latency_us now timestamp);
  port ← on_mbuf buf (mload 2 (ipv4_hdr + sizeof_ipv4_hdr + l4_src_port));
  hist ← (if rte_be_to_cpu_16 port =? base_port_number cntx then
      h ← demand (lookupZ (r_hist l) k);
      h ← demand (add_number_to_p_hist log h (f32_of_Z latency));
      demand (insertZ k h (r_hist l))
    else mret (r_hist l));
  total ← demand (add_at k 1 (r_total_received l));
  mret (set_counts hist total l).

(** The body of the loop over a received burst. *)
Definition receive_pkt (end_time : Z) (buf : nat) (l : rx_locals) : M (machine W) rx_locals :=
  valid_pkt ← check_eth_hdr (src_ip cntx) (my_eth cntx) buf (tx_mem_pool cntx) 0;
  if negb valid_pkt then _ ← printf "invalid packet" []; free_and buf l else
  ether_type ← on_mbuf buf (mload 2 eth_type);
  if negb (rte_be_to_cpu_16 ether_type =? wanted_type cntx) then free_and buf l else
  let ipv4_hdr := ipv4_offset cntx in
  proto ← on_mbuf buf (mload 1 (ipv4_hdr + ip_proto));
  l ← (if proto =? IPPROTO_IPIP then count_ipip end_time l else mret l);
  src_addr ← on_mbuf buf (mload 4 (ipv4_hdr + ip_src));
  found ← find_ip (rte_be_to_cpu_32 src_addr);
  match found with
  | None => free_and buf l
  | Some k =>
      l ← (if payload_number flags then mret l else record_latency buf ipv4_hdr k l);
      free_and buf l
  end.

(** The body of [while (arg->running)]. *)
Definition rx_iter (l : rx_locals) : M (machine W) rx_locals :=
  end_time ← rte_get_timer_cycles;
  bufs ← poll_queues;
  forM bufs (receive_pkt end_time) l.
End client_rx.

(** ** What a received packet counts for *)
Section rx_spec.
Context `{DpdkLib} {W : Type} `{DpdkEnv W}.
Variable log : spec_float -> spec_float.
Variable flags : variant.
Variable cntx : context.

(** The destination whose packet this is. *)
Definition rx_match (r : list Z) : option nat :=
  if valid_eth (my_eth cntx) r && (be 12 2 r =? wanted_type cntx)
  then fst <$> list_find (fun ip => ip = be (ipo cntx + 12) 4 r) (dst_ips cntx)
  else None.

Definition timestamp_of (r : list Z) : Z := le_combine (field (ipo cntx + 28) 8 r).
Definition flow_measured (r : list Z) : bool := be (ipo cntx + 20) 2 r =? base_port_number cntx.

(** The two arrays after a packet [r] seen at time [now]. [counts] lists the
    readings of the clock that went into them: one for a packet that is counted,
    none for any other. *)
Definition measure (now : Z) (r : list Z) (hist : list p_hist) (k : nat) : option (list p_hist) :=
  if flow_measured r then
    h ← hist !! k;
    h' ← add_number_to_p_hist log h (f32_of_Z (u64 ((now - timestamp_of r) * 1000000) / timer_hz));
    Some (<[k := h']> hist)
  else Some hist.

Inductive counts (r : list Z) (l l' : rx_locals) : list Z -> Prop :=
| CountNone : rx_match r = None \/ payload_number flags = true ->
    r_hist l' = r_hist l -> r_total_received l' = r_total_received l -> counts r l l' []
| CountOne k v now : rx_match r = Some k -> payload_number flags = false ->
    r_total_received l !! k = Some v ->
    r_total_received l' = <[k := u64 (v + 1)]> (r_total_received l) ->
    0 <= now < 2 ^ 64 -> measure now r (r_hist l) k = Some (r_hist l') -> counts r l l' [now].

(** A burst is counted packet by packet, each at its own reading of the clock. *)
Inductive counts_all : list mbuf -> rx_locals -> rx_locals -> list Z -> Prop :=
| counts_nil l : counts_all [] l l []
| counts_snoc bs b l l1 l2 ts ts' : counts_all bs l l1 ts -> counts (mb_room b) l1 l2 ts' ->
    counts_all (bs ++ [b]) l l2 (ts ++ ts').

(** How many of the packets are for destination [k]. *)
Definition count_of (k : nat) (bs : list mbuf) : Z :=
  Z.of_nat (length (filter (fun b => rx_match (mb_room b) = Some k) bs)).

Lemma count_of_snoc k bs b :
  count_of k (bs ++ [b]) = count_of k bs + (if bool_decide (rx_match (mb_room b) = Some k) then 1 else 0).
Proof.
  unfold count_of. rewrite filter_app, length_app. case_bool_decide.
  - rewrite filter_cons_True by done. cbn. lia.
  - rewrite filter_cons_False by done. cbn. lia.
Qed.

(** The counters advance by the packets of their destinations, but for the
    variant that sends numbers, where nothing is counted. *)
Lemma counts_all_total bs l l' ts k v :
  counts_all bs l l' ts -> r_total_received l !! k = Some v -> 0 <= v < 2 ^ 64 ->
  r_total_received l' !! k = Some (if payload_number flags then v else u64 (v + count_of k bs)).
Proof.
  intros Hc Hv Hr. induction Hc as [l|bs b l l1 l2 ts ts' Hc IH Hb].
  - rewrite Hv. unfold count_of. cbn. rewrite Z.add_0_r, u64_small by done. by destruct (payload_number flags).
  - specialize (IH Hv). rewrite count_of_snoc.
    destruct Hb as [Hm Eh Et|j u now Hm Hpn Hu Et _ _]; rewrite Et.
    + rewrite IH. destruct (payload_number flags) eqn:Epn; [done|]. destruct Hm as [Hm|]; [|done].
      rewrite bool_decide_false by (by rewrite Hm). by rewrite Z.add_0_r.
    + rewrite Hpn in IH |- *. destruct (decide (j = k)) as [->|Hne].
      * rewrite list_lookup_insert_eq by (by eapply lookup_lt_Some). rewrite bool_decide_true by done.
        rewrite IH in Hu. injection Hu as <-. f_equal. rewrite u64_add_l. f_equal. lia.
      * rewrite list_lookup_insert_ne by done. rewrite bool_decide_false by congruence. by rewrite Z.add_0_r.
Qed.
End rx_spec.

Section rx_proofs.
Context `{DpdkLaws} {W : Type} `{EnvLaws W}.
Variable log : spec_float -> spec_float.
Hypothesis Hlog : log_ok log.
Variable flags : variant.
Variable cntx : context.
Implicit Types (s : machine W) (E : reason -> machine W -> Prop) (l : rx_locals).

(** The configuration the thread runs with. *)
Record rx_ok : Prop := {
  ro_ip : 0 <= src_ip cntx < 2 ^ 32;
  ro_dst : count_dst_ip cntx = Z.of_nat (length (dst_ips cntx));
}.

(** The arrays are as long as the destinations, the histograms well formed and
    with room for [n] more values, which are counted in an [int]. *)
Record rx_inv (n : Z) (l : rx_locals) : Prop := {
  ri_hist : length (r_hist l) = length (dst_ips cntx);
  ri_total : length (r_total_received l) = length (dst_ips cntx);
  ri_hists : Forall (fun h => hist_ok h /\ count_values h + n <= INT_MAX) (r_hist l);
}.

Lemma wp_find_ip ip (Q : option Z -> machine W -> Prop) E s :
  rx_ok -> Q (Z.of_nat <$> (fst <$> list_find (fun x => x = ip) (dst_ips cntx))) s ->
  wp (find_ip cntx ip) Q E s.
Proof.
  intros Hok HQ. unfold find_ip. rewrite (ro_dst Hok).
  apply (wp_forM (fun ks found s1 => s1 = s /\ exists pre post, dst_ips cntx = pre ++ post /\
    ks = seqZ (Z.of_nat (length pre)) (Z.of_nat (length post)) /\
    found = Z.of_nat <$> (fst <$> list_find (fun x => x = ip) pre))).
  - split; [done|]. by exists [], (dst_ips cntx).
  - intros k ks found s1 (-> & pre & [|x post] & Hd & Hks & ->); [done|].
    cbn [length] in Hks. rewrite seqZ_cons in Hks by lia. injection Hks as -> ->.
    assert (Hgo : forall found', found' = Z.of_nat <$> (fst <$> list_find (fun x => x = ip) (pre ++ [x])) ->
      s = s /\ exists pre' post', dst_ips cntx = pre' ++ post' /\
        seqZ (Z.succ (Z.of_nat (length pre))) (Z.pred (Z.of_nat (S (length post)))) =
          seqZ (Z.of_nat (length pre')) (Z.of_nat (length post')) /\
        found' = Z.of_nat <$> (fst <$> list_find (fun x => x = ip) pre')).
    { intros found' ->. split; [done|]. exists (pre ++ [x]), post. rewrite Hd, <- app_assoc, length_app.
      split; [done|]. split; [cbn [length]; f_equal; lia|done]. }
    destruct (list_find (fun x => x = ip) pre) as [[i y]|] eqn:Ef; cbn [fmap option_fmap option_map].
    + wp_step. apply Hgo. by rewrite (list_find_app_l _ _ _ _ _ Ef).
    + assert (Hx : lookupZ (dst_ips cntx) (Z.of_nat (length pre)) = Some x).
      { apply lookupZ_Some. rewrite Nat2Z.id, Hd. split; [lia|by apply list_lookup_middle]. }
      wp_step. rewrite Hx. wp_step; [|done]. injection Hd0 as <-. wp_step. apply Hgo.
      rewrite (list_find_app_r _ _ _ Ef). cbn [list_find]. rewrite (Z.eqb_sym ip x).
      case_decide as Hxi; [apply Z.eqb_eq in Hxi; by rewrite Hxi|]. apply Z.eqb_neq in Hxi. by rewrite Hxi.
  - intros found s1 (-> & pre & [|x post] & Hd & Hks & ->); [|by rewrite seqZ_cons in Hks by (cbn; lia)].
    rewrite app_nil_r in Hd. by rewrite <- Hd.
Qed.

Lemma latency_us_eq now ts :
  latency_us now ts = Some (u64 ((now - ts) * 1000000) / timer_hz).
Proof.
  unfold latency_us, rte_get_timer_hz. pose proof hz_pos. case_if; [lia|].
  by rewrite u64_mul_l, <- Z.mul_assoc, u64_mul_l.
Qed.

(** A histogram with room takes any latency. *)
Lemma add_latency h x n :
  hist_ok h -> count_values h + n <= INT_MAX -> 1 <= n -> 0 <= x < 2 ^ 64 ->
  exists h', add_number_to_p_hist log h (f32_of_Z x) = Some h' /\ hist_ok h' /\
    count_values h' = count_values h + 1 /\ count_bucket h' = count_bucket h.
Proof.
  intros Hh Hn H1n Hx.
  destruct (add_number_spec log Hlog h x) as (i & b & h' & _ & Hb & Hadd & E1 & E2 & E3 & Hr); [done|lia|done|].
  exists h'. split; [done|]. split; [by eapply hist_ok_add|done].
Qed.

Lemma measure_total now r l n k :
  rx_inv n l -> 1 <= n -> (k < length (dst_ips cntx))%nat ->
  exists hist', measure log cntx now r (r_hist l) k = Some hist' /\ length hist' = length (dst_ips cntx) /\
    Forall (fun h => hist_ok h /\ count_values h + (n - 1) <= INT_MAX) hist'.
Proof.
  intros [Hlen _ Hall] Hn Hk. unfold measure.
  assert (Hall' : Forall (fun h => hist_ok h /\ count_values h + (n - 1) <= INT_MAX) (r_hist l)).
  { eapply Forall_impl; [exact Hall|]. cbn. intros h [? ?]. split; [done|lia]. }
  destruct (flow_measured cntx r); [|by exists (r_hist l)].
  destruct (lookup_lt_is_Some_2 (r_hist l) k) as [h Hh]; [lia|]. rewrite Hh. cbn [mbind option_bind].
  destruct (Forall_lookup_1 _ _ _ _ Hall Hh) as [Hok Hcv]. cbn beta in Hcv.
  set (x := u64 _ / _). assert (Hx : 0 <= x < 2 ^ 64).
  { unfold x. pose proof hz_pos. pose proof (u64_range ((now - timestamp_of cntx r) * 1000000)) as Hu.
    split; [apply Z.div_pos; lia|]. apply Z.div_lt_upper_bound; [lia|]. nia. }
  destruct (add_latency h x n) as (h' & -> & Hok' & Hcv' & _); [done..|]. cbn [mbind option_bind].
  eexists. split; [done|]. rewrite length_insert. split; [done|]. apply Forall_insert; [done|]. split; [done|lia].
Qed.

Lemma wp_record_latency p b (k : nat) l n (Q : rx_locals -> machine W -> Prop) E s :
  rx_inv n l -> 1 <= n -> (k < length (dst_ips cntx))%nat -> heap s !! p = Some b -> room_ok b ->
  (forall l' v now w, r_total_received l !! k = Some v ->
    r_total_received l' = <[k := u64 (v + 1)]> (r_total_received l) -> 0 <= now < 2 ^ 64 ->
    measure log cntx now (mb_room b) (r_hist l) k = Some (r_hist l') -> rx_inv (n - 1) l' ->
    Q l' (log_event (EvClock now) (with_world w s))) ->
  wp (record_latency log cntx p (Z.of_nat (ipo cntx)) (Z.of_nat k) l) Q E s.
Proof.
  intros Hl Hn Hk Hp Hb HQ. unfold record_latency. pose proof (ipo_cases cntx) as Hipo.
  wp_step. eapply (wp_mload _ (ipo cntx + 28) 8); [done|done|unfold sizeof_ipv4_hdr, sizeof_udp_hdr; lia|done
    |unfold RTE_MBUF_DEFAULT_DATAROOM; lia|].
  fold (timestamp_of cntx (mb_room b)).
  wp_step. apply wp_get_timer_cycles. intros now w Hnow _.
  wp_step. rewrite latency_us_eq. wp_step; [|done]. injection Hd as <-.
  wp_step. eapply (wp_mload _ (ipo cntx + 20) 2); [done|done|unfold sizeof_ipv4_hdr, l4_src_port; lia|done
    |unfold RTE_MBUF_DEFAULT_DATAROOM; lia|].
  rewrite be_to_cpu_16_field by (done || unfold RTE_MBUF_DEFAULT_DATAROOM; lia).
  fold (flow_measured cntx (mb_room b)).
  destruct (measure_total now (mb_room b) l n k Hl Hn Hk) as (hist' & Hm & Hlen & Hall).
  destruct Hl as [Hlh Hlt _]. destruct (lookup_lt_is_Some_2 (r_total_received l) k) as [v Hv]; [lia|].
  wp_step. apply (wp_run _ _ hist' (log_event (EvClock now) (with_world w s))).
  { unfold measure in Hm. destruct (flow_measured _ _); [|by injection Hm as ->].
    destruct (r_hist l !! k) as [h|] eqn:Eh; [|done]. cbn [mbind option_bind] in Hm.
    assert (Hz : lookupZ (r_hist l) (Z.of_nat k) = Some h) by (apply lookupZ_Some; rewrite Nat2Z.id; split; [lia|done]).
    rewrite Hz. run. destruct (add_number_to_p_hist _ _ _) as [h'|]; [|done]. cbn [mbind option_bind] in Hm.
    injection Hm as <-. run. apply lookup_lt_Some in Eh. rewrite insertZ_is_Some by lia. by rewrite Nat2Z.id. }
  assert (Hadd : add_at (Z.of_nat k) 1 (r_total_received l) = Some (<[k := u64 (v + 1)]> (r_total_received l))).
  { unfold add_at. assert (Hz : lookupZ (r_total_received l) (Z.of_nat k) = Some v)
      by (apply lookupZ_Some; rewrite Nat2Z.id; split; [lia|done]).
    rewrite Hz. cbn [mbind option_bind]. rewrite insertZ_is_Some by lia. by rewrite Nat2Z.id. }
  wp_step. rewrite Hadd. wp_step; [|done]. injection Hd as <-. wp_step.
  apply (HQ _ v now w); [done..|]. constructor; [done|by cbn; rewrite length_insert|done].
Qed.

(** *** One packet *)
(** While packets are looked at, only prints, replies and the readings [ts] of
    the clock are added. *)
Record looked_at (ts : list Z) (evs : list event) : Prop := {
  la_received : received evs = [];
  la_sent : Forall (fun b => ~ is_data b) (sent evs);
  la_offered : Forall (fun b => ~ is_data b) (offered evs);
  la_clocks : clocks evs = ts;
  la_polls : polls evs = [];
}.
Lemma looked_replies evs : replies evs -> looked_at [] evs.
Proof. by intros (? & ? & [? ?] & ?). Qed.
Lemma looked_app t1 t2 e1 e2 : looked_at t1 e1 -> looked_at t2 e2 -> looked_at (t1 ++ t2) (e1 ++ e2).
Proof.
  intros [R1 S1 O1 C1 P1] [R2 S2 O2 C2 P2]. constructor; autorewrite with cnet; rewrite ?Forall_app.
  - by rewrite R1, R2.
  - done.
  - done.
  - by rewrite C1, C2.
  - by rewrite P1, P2.
Qed.

(** Before the clock is read. *)
Definition looked (s s' : machine W) (evs : list event) : Prop := frees_all s s' evs /\ replies evs.

Lemma wp_count_ipip proto now l (Q : rx_locals -> machine W -> Prop) E s0 s evs :
  looked s0 s evs ->
  (forall l' s' evs', r_hist l' = r_hist l -> r_total_received l' = r_total_received l ->
    heap s' = heap s -> looked s0 s' evs' -> Q l' s') ->
  wp (if proto =? IPPROTO_IPIP then count_ipip cntx now l else mret l) Q E s.
Proof.
  intros [Hf Hr] HQ. case_if; [|wp_step; by eapply (HQ l s evs)].
  unfold count_ipip. case_if; [|wp_step; by eapply (HQ _ s evs)].
  wp_step. apply wp_printf. wp_step. eapply (HQ _ _ (evs ++ [_])); [done..|].
  split; [|by apply replies_print]. eapply frees_all_trans; [done|apply frees_all_log].
Qed.

(** The effect of a packet on the arrays, with room for [n] more values. *)
Definition counted_in (n : Z) (r : list Z) (l l' : rx_locals) (ts : list Z) : Prop :=
  counts log flags cntx r l l' ts /\ rx_inv (n - 1) l'.

Lemma rx_inv_le n m l : rx_inv n l -> m <= n -> rx_inv m l.
Proof.
  intros [Hh Ht Ha] Hm. constructor; [done..|]. eapply Forall_impl; [exact Ha|]. cbn. intros h [? ?]. split; [done|lia].
Qed.
Lemma rx_inv_same n l l' : rx_inv n l -> r_hist l' = r_hist l -> r_total_received l' = r_total_received l -> rx_inv n l'.
Proof. intros [Hh Ht Ha] E1 E2. constructor; by rewrite ?E1, ?E2. Qed.

Lemma wp_receive_pkt now p b l n (Q : rx_locals -> machine W -> Prop) E s :
  rx_ok -> rx_inv n l -> 1 <= n -> heap_ok s -> heap s !! p = Some b -> room_ok b ->
  (forall l' s' ts evs, counted_in n (mb_room b) l l' ts -> heap s' = delete p (heap s) ->
    (next s <= next s')%nat -> rng s' = rng s -> trace s' = trace s ++ evs -> looked_at ts evs -> Q l' s') ->
  wp (receive_pkt log flags cntx now p l) Q E s.
Proof.
  intros Hok Hl Hn Hs Hp Hb HQ. unfold receive_pkt. pose proof (ipo_cases cntx) as Hipo.
  assert (Hdrop : forall l' s' evs, rx_match cntx (mb_room b) = None \/ payload_number flags = true ->
      r_hist l' = r_hist l -> r_total_received l' = r_total_received l -> looked s s' evs ->
      wp (free_and p l') Q E s').
  { intros l' s' evs Hm E1 E2 [(Eh & En & Er & Et) Hrep]. eapply wp_free_and; [by rewrite Eh|].
    eapply (HQ _ _ [] evs); try done; [|cbn; by rewrite Eh|by apply looked_replies]. split; [by apply CountNone|].
    eapply rx_inv_same; [|done..]. eapply rx_inv_le; [done|lia]. }
  wp_step. eapply wp_check_eth_hdr; [done..|apply Hok|]. intros s1 e1 Hf1 Hev1.
  assert (Hlk : looked s s1 e1).
  { split; [done|]. eapply hdr_events_replies; [|exact Hev1]. by apply field_length, Z.leb_le. }
  assert (Hp1 : heap s1 !! p = Some b) by (by rewrite (proj1 Hf1)).
  destruct (valid_eth (my_eth cntx) (mb_room b)) eqn:Ev; cbn [negb].
  2:{ wp_step. apply wp_printf. eapply Hdrop; [left; unfold rx_match; by rewrite Ev|done|done|].
      destruct Hlk as [Hf Hr]. split; [eapply frees_all_trans; [done|apply frees_all_log]|by apply replies_print]. }
  wp_step. read_field 12%nat 2%nat. rewrite be_to_cpu_16_field by (done || by apply Z.leb_le).
  destruct (be 12 2 (mb_room b) =? wanted_type cntx) eqn:Et; cbn [negb].
  2:{ eapply Hdrop; [left; unfold rx_match; by rewrite Ev, Et|done..]. }
  rewrite (ipv4_offset_nat cntx).
  wp_step. eapply (wp_mload _ (ipo cntx + 9) 1); [done|done|unfold ip_proto; lia|done
    |unfold RTE_MBUF_DEFAULT_DATAROOM; lia|].
  wp_step. eapply wp_count_ipip; [exact Hlk|]. intros l2 s2 e2 E1 E2 Eh Hlk2.
  wp_step. eapply (wp_mload _ (ipo cntx + 12) 4); [by rewrite Eh|done|unfold ip_src; lia|done
    |unfold RTE_MBUF_DEFAULT_DATAROOM; lia|].
  rewrite be_to_cpu_32_field by (done || unfold RTE_MBUF_DEFAULT_DATAROOM; lia).
  wp_step. apply wp_find_ip; [done|].
  assert (Hm : rx_match cntx (mb_room b) =
    fst <$> list_find (fun x => x = be (ipo cntx + 12) 4 (mb_room b)) (dst_ips cntx)) by (unfold rx_match; by rewrite Ev, Et).
  rewrite <- Hm. destruct (rx_match cntx (mb_room b)) as [k|] eqn:Ek; cbn [fmap option_fmap option_map].
  2:{ eapply Hdrop; [by left|done..]. }
  wp_step. destruct (payload_number flags) eqn:Epn; [wp_step; eapply Hdrop; [by right|done..]|].
  assert (Hk : (k < length (dst_ips cntx))%nat).
  { symmetry in Hm. apply fmap_Some in Hm as ([i x] & Hi & ->). apply list_find_Some in Hi as [Hi _].
    by apply lookup_lt_Some in Hi. }
  eapply (wp_record_latency p b k l2 n); [by eapply rx_inv_same|done|done|by rewrite Eh|done|].
  intros l3 v t w Hv Htot Ht Hmeas Hl3. destruct Hlk2 as [(Eh2 & En2 & Er2 & Et2) Hrep2].
  eapply wp_free_and; [cbn; by rewrite Eh2|]. rewrite E2 in Hv, Htot. rewrite E1 in Hmeas.
  eapply (HQ _ _ [t] (e2 ++ [EvClock t])); [| |done|done| |].
  - split; [|exact Hl3]. by eapply CountOne.
  - cbn. by rewrite Eh2.
  - cbn. by rewrite Et2, app_assoc.
  - apply (looked_app [] [t]); [by apply looked_replies|]. by constructor.
Qed.

(** *** A burst *)
Lemma wp_receive_burst now bs k0 h0 l0 n (Q : rx_locals -> machine W -> Prop) E s :
  rx_ok -> rx_inv n l0 -> Z.of_nat (length bs) <= n -> Forall room_ok bs ->
  heap s = insert_from k0 bs h0 -> (forall p, is_Some (h0 !! p) -> (p < k0)%nat) ->
  (k0 + length bs <= next s)%nat ->
  (forall l' s' ts evs, counts_all log flags cntx bs l0 l' ts -> rx_inv (n - Z.of_nat (length bs)) l' -> heap s' = h0 ->
    (next s <= next s')%nat -> rng s' = rng s -> trace s' = trace s ++ evs -> looked_at ts evs -> Q l' s') ->
  wp (forM (seq k0 (length bs)) (receive_pkt log flags cntx now) l0) Q E s.
Proof.
  intros Hok Hl0 Hn Hrooms Hheap Hh0 Hnext HQ.
  eapply (wp_each_freed _ (fun pre evs l => (exists ts, looked_at ts evs /\ counts_all log flags cntx pre l0 l ts) /\
    rx_inv (n - Z.of_nat (length pre)) l)); [done..| | |].
  - split; [exists []; by split; constructor|]. cbn [length]. by rewrite Z.sub_0_r.
  - intros pre b post evs p l s1 -> Hs1 Hp Hb ((ts & Hlk & Hc) & Hl) Ht1. rewrite length_app in Hn. cbn [length] in Hn.
    eapply (wp_receive_pkt now p b l (n - Z.of_nat (length pre))); [done|done|lia|done..|].
    intros l' s' ts2 e2 [Hcnt Hl'] Eh En Er Et Hlk2. do 3 (split; [done|]). exists e2. rewrite length_app, Nat.add_1_r.
    split_and!; [done|exists (ts ++ ts2); split; [by apply looked_app|by eapply counts_snoc]|].
    by replace (n - Z.of_nat (S (length pre))) with (n - Z.of_nat (length pre) - 1) by lia.
  - intros l s1 evs ((ts & Hlk & Hc) & Hl) Hs1 Hn1 Hr1 Ht1. by eapply HQ.
Qed.

Lemma wp_poll_queues (Q : list nat -> machine W -> Prop) E s :
  heap_ok s ->
  (forall bs s' evs, Z.of_nat (length bs) <= MAX_BURST_SIZE -> Forall room_ok bs ->
    heap s' = insert_from (next s) bs (heap s) -> next s' = (next s + length bs)%nat -> rng s' = rng s ->
    trace s' = trace s ++ evs -> received evs = bs -> offered evs = [] -> sent evs = [] -> untimed evs ->
    Q (seq (next s) (length bs)) s') ->
  wp (poll_queues cntx) Q E s.
Proof.
  intros Hs HQ. unfold poll_queues.
  apply (wp_forM (fun _ ps s1 => exists bs evs, ps = seq (next s) (length bs) /\
    Z.of_nat (length bs) <= MAX_BURST_SIZE /\ Forall room_ok bs /\
    heap s1 = insert_from (next s) bs (heap s) /\ next s1 = (next s + length bs)%nat /\ rng s1 = rng s /\
    trace s1 = trace s ++ evs /\ received evs = bs /\ offered evs = [] /\ sent evs = [] /\ untimed evs)).
  - exists [], []. rewrite app_nil_r, Nat.add_0_r. by split_and!.
  - intros q qs ps s1 (bs & evs & -> & Hlen & Hrooms & Eh & En & Er & Et & Hrc & Hof & Hst & Hun). destruct bs as [|b bs].
    + rewrite bool_decide_true by done. apply wp_rx. intros w bs' Hlen' Hrooms' _. cbn [length] in En, Eh.
      rewrite Nat.add_0_r in En. exists bs', (evs ++ [EvRx (dpdk_port_id cntx) (u16 q) bs']).
      cbn. rewrite En, Eh, Er, Et, <- app_assoc. autorewrite with cnet. rewrite Hrc, Hof, Hst. split_and!; try done. by apply untimed_app.
    + rewrite bool_decide_false by done. wp_step. by exists (b :: bs), evs.
  - intros ps s1 (bs & evs & -> & Hlen & Hrooms & Eh & En & Er & Et & Hrc & Hof & Hst & Hun). by eapply HQ.
Qed.

(** What an iteration of the thread did, with the packets it received: it read
    the clock when it began and then once for each packet it counted. *)
Record rx_effect (l l' : rx_locals) (evs : list event) : Prop := {
  re_counts : exists began ts, clocks evs = began :: ts /\ counts_all log flags cntx (received evs) l l' ts;
  re_burst : Z.of_nat (length (received evs)) <= MAX_BURST_SIZE;
  re_sent : Forall (fun b => ~ is_data b) (sent evs);
  re_offered : Forall (fun b => ~ is_data b) (offered evs);
  re_polls : polls evs = [];
}.

Lemma wp_rx_iter n l (Q : rx_locals -> machine W -> Prop) E s :
  rx_ok -> rx_inv n l -> MAX_BURST_SIZE <= n -> heap_ok s ->
  (forall l' s' evs, rx_effect l l' evs -> rx_inv (n - Z.of_nat (length (received evs))) l' -> frees_all s s' evs ->
    Q l' s') ->
  wp (rx_iter log flags cntx l) Q E s.
Proof.
  intros Hok Hl Hn Hs HQ. unfold rx_iter. wp_step. apply wp_get_timer_cycles. intros now w _ _.
  wp_step. apply wp_poll_queues; [done|]. intros bs s1 evs Hlen Hrooms Eh En Er Et Hrc Hof Hst [Hck Hpo]. cbn in Eh, En, Er, Et.
  eapply (wp_receive_burst now bs (next s) (heap s) l n); [done|done|lia|done|done|done|cbn; lia|].
  intros l' s2 ts e2 Hc Hl' Eh2 En2 Er2 Et2 [Hrc2 Hst2 Hof2 Hck2 Hpo2].
  assert (Hall : received (EvClock now :: evs ++ e2) = bs).
  { change (EvClock now :: evs ++ e2) with ([EvClock now] ++ evs ++ e2). autorewrite with cnet. by rewrite Hrc, Hrc2, app_nil_r. }
  eapply (HQ l' s2 (EvClock now :: evs ++ e2)).
  - constructor; rewrite ?Hall; try done; change (EvClock now :: evs ++ e2) with ([EvClock now] ++ evs ++ e2);
      autorewrite with cnet; rewrite ?Hst, ?Hof, ?Hck, ?Hpo; try done. exists now, ts. by rewrite Hck2.
  - by rewrite Hall.
  - split_and!; [done|cbn in En2; lia|congruence|]. by rewrite Et2, Et, <- !app_assoc.
Qed.

(** ** Properties *)

(** C9: An iteration of the receiver thread is correct. It takes at most one
    burst, frees every buffer of it, and never fails while the histograms have
    room; each packet that passes the checks advances the counter of the
    destination it came from by one (but not in the variant that sends numbers,
    where the counters stay as they are) and, for the measured flow, files the
    latency from the time stamp in it to the reading of the clock that was made for
    it; the only packets sent are ARP replies. *)
Theorem rx_iter_correct n l s :
  rx_ok -> rx_inv n l -> MAX_BURST_SIZE <= n -> heap_ok s ->
  wp (rx_iter log flags cntx l)
    (fun l' s' => exists evs, frees_all s s' evs /\ Z.of_nat (length (received evs)) <= MAX_BURST_SIZE /\
      Forall (fun b => ~ is_data b) (sent evs) /\
      (exists began ts, clocks evs = began :: ts /\ counts_all log flags cntx (received evs) l l' ts) /\ rx_inv (n - Z.of_nat (length (received evs))) l' /\
      forall k v, r_total_received l !! k = Some v -> 0 <= v < 2 ^ 64 ->
        r_total_received l' !! k =
          Some (if payload_number flags then v else u64 (v + count_of cntx k (received evs))))
    (fun _ _ => False) s.
Proof.
  intros Hok Hl Hn Hs. eapply wp_rx_iter; [done..|]. intros l' s' evs [Hc Hlen Hst _ _] Hl' Hf.
  exists evs. do 5 (split; [done|]). intros k v Hv Hr. destruct Hc as (began & ts & _ & Hc). by eapply counts_all_total.
Qed.

(** Latencies are whole microseconds. For a time stamp taken before the
    packet came back, the filed value is the elapsed time in microseconds, rounded
    down, as long as the product of cycles and 10^6 fits 64 bits. *)
Theorem latency_us_exact now ts :
  0 <= ts <= now -> (now - ts) * 1000000 < 2 ^ 64 ->
  exists us, latency_us now ts = Some us /\ us * timer_hz <= (now - ts) * 1000000 < (us + 1) * timer_hz.
Proof.
  intros Hts Hfit. rewrite latency_us_eq, u64_small by lia. eexists. split; [done|]. pose proof (hz_pos (W := W)) as Hhz. set (h := timer_hz) in *.
  pose proof (Z.div_mod ((now - ts) * 1000000) h ltac:(lia)) as Hd.
  pose proof (Z.mod_pos_bound ((now - ts) * 1000000) h ltac:(lia)). split; lia.
Qed.
End rx_proofs.

(** ** Witnesses *)
Definition some_rx : rx_locals := RxLocals 0 0 [hist3] [7].

(** A burst of a packet from the server, one from elsewhere and one that is
    not for us. *)
Definition data_frame (dst : ether_addr) (src_ip_bytes : list Z) : list Z :=
  dst ++ mac_b ++ [8; 0] ++ repeat 0 9 ++ [17] ++ repeat 0 2 ++ src_ip_bytes ++ [10; 0; 0; 1] ++
  [31; 145; 11; 184] ++ repeat 0 40.
Definition rx_world : sim :=
  Sim 1000 1 [[data_frame mac_a [10; 0; 0; 2]; data_frame mac_a [10; 0; 0; 9]; data_frame mac_b [10; 0; 0; 2]]] [] [].

Lemma some_rx_ok : rx_ok some_client.
Proof. constructor; [by split; [apply Z.leb_le|apply Z.ltb_lt]|done]. Qed.
Lemma some_rx_inv : rx_inv some_client 512 some_rx.
Proof.
  constructor; [done|done|]. apply Forall_singleton. split; [apply hist3_ok|by apply Z.leb_le].
Qed.

Lemma rx_iter_correct_witness :
  wp (rx_iter log_const (Variant false false) some_client some_rx)
    (fun l' s' => r_total_received l' = [8] /\ exists evs, frees_all (boot rx_world) s' evs)
    (fun _ _ => False) (boot rx_world).
Proof.
  assert (Hr : exists s' l', rx_iter log_const (Variant false false) some_client some_rx (boot rx_world) = (Ret l', s')
    /\ r_total_received l' = [8]) by (vm_compute; by do 2 eexists).
  destruct Hr as (s' & l' & Hrun & Htot).
  pose proof (rx_iter_correct log_const log_const_ok (Variant false false) some_client 512 some_rx (boot rx_world)
    some_rx_ok some_rx_inv (Z.le_refl 512) (boot_ok rx_world)) as Hwp.
  unfold wp in *. rewrite Hrun in *. destruct Hwp as (evs & Hf & _). split; [done|]. by exists evs.
Defined.

Lemma latency_us_exact_witness :
  exists us, latency_us 1500 1000 = Some us /\ us * timer_hz <= 500 * 1000000 < (us + 1) * timer_hz.
Proof. apply (latency_us_exact 1500 1000); [by split; apply Z.leb_le|by apply Z.ltb_lt]. Defined.
