(* ===== verification/ClientSetup.v ===== *)
(** * The load-generating client: before the loop (client.c)

    What [do_client] does up to its main loop: the histograms, the queue of every
    flow, the Zipf tables, the hardware addresses of the destinations (asked for
    by ARP or configured), and the initial values of the locals of both threads.
    The first two loops count in 16 bits. *)
From S2P Require Import Prelude CInt CFloat Monad Zipf Percentile Dpdk Sim Arp Exp Config Packet Payload Server.
From S2P Require Import ClientTx ClientRx.

Definition MAX_EXPECTED_LATENCY : Z := 10000.

(** What a worker starts its loops with. *)
Record client_start := ClientStart {
  c_setup : tx_setup;
  c_tx : tx_locals;
  c_rx : rx_locals;
}.

Section client_setup.
Context `{DpdkLib} {W : Type} `{DpdkEnv W}.
Variable log : spec_float -> spec_float.
Variable pow : spec_float -> spec_float -> spec_float.
Variable flags : variant.
Variable config : app_config.
Variable cntx : context.

(** [for (i = 0; i < n; i++)] with a [uint16_t i]. *)
Definition for_u16 {X} (fuel : nat) (n : Z) (body : Z -> X -> M (machine W) X) (x : X) : M (machine W) X :=
  loop fuel (fun '(i, x) =>
    if i <? n then x ← body i x; mret (inl (u16 (i + 1), x)) else mret (inr x)) (0, x).

Definition c_count_queues : Z := u16 (count_queues cntx).

(** A histogram and the burst size for each destination. The entries of the
    arrays are indeterminate until they are written. *)
Definition init_dst (i : Z) : list p_hist * list Z -> M (machine W) (list p_hist * list Z) := fun '(hist, bursts) =>
  h ← demand (new_p_hist_from_max_value log (f32_of_Z MAX_EXPECTED_LATENCY));
  hist ← demand (insertZ i h hist);
  bursts ← demand (insertZ i (batch cntx) bursts);
  mret (hist, bursts).

(** The queue of each flow. *)
Definition init_flow (i : Z) : list Z * list Z -> M (machine W) (list Z * list Z) := fun '(fq, tp) =>
  r ← demand (if c_count_queues =? 0 then None else Some (i mod c_count_queues));
  fq ← demand (insertZ i (u16 (default_qid cntx + r)) fq);
  tp ← demand (insertZ i 0 tp);
  mret (fq, tp).

Definition init_select : M (machine W) (option zipf_client_addr) :=
  if select_src_ip (client config) then
    z ← demand (new_zipfgen pow (i32 (unique_client_addresses (client config))) (f64_of_f32 (zipf_arg (client config))));
    mret (Some {| src_zipf := z; count_port := unique_client_ports (client config) |})
  else mret None.

Definition init_num : M (machine W) (option zipfgen) :=
  if payload_number flags then
    _ ← printf "Generating payload in range 0 .. %d (uniformly)" [max_num (client config)];
    z ← demand (initialize_num_gen pow (max_num (client config)) (f64_of_Z 0));
    mret (Some z)
  else mret None.

(** The hardware address of destination [i]: by ARP, or the six bytes from
    [&config.dest_mac[i]]. *)
Definition dst_eth (fuel : nat) (i : Z) (eths : list ether_addr) : M (machine W) (list ether_addr) :=
  ip ← demand (lookupZ (dst_ips cntx) i);
  mac ← (if do_arp cntx =? 0 then demand ((dest_mac config).[Z.to_nat i, 6])
         else get_dst_mac fuel (dpdk_port_id cntx) (src_ip cntx) (my_eth cntx) ip broadcast_mac (tx_mem_pool cntx) 0
                c_count_queues);
  _ ← printf "mac address for server %s received: " [ip];
  _ ← printf "%x:%x:%x:%x:%x:%x" mac;
  mret (eths ++ [mac]).

Definition client_duration : Z := if duration cntx <? 0 then 0 else u64 (duration cntx * rte_get_timer_hz).

Definition client_setup (fuel : nat) : M (machine W) client_start :=
  let n := count_dst_ip cntx in
  let nf := count_flows cntx in
  _ ← printf "delay cycles: %ld" [delay_cycles cntx];
  _ ← c_assert (1 <=? n);
  (* variable-length arrays have at least one element *)
  _ ← demand (if 0 <? nf then Some tt else None);
  '(hist, bursts) ← for_u16 fuel n init_dst
    (replicate (Z.to_nat n) {| count_bucket := 0; count_values := 0; buckets := [] |}, replicate (Z.to_nat n) 0);
  burst ← demand (lookupZ bursts 0);
  _ ← guard_exit (burst <=? MAX_BURST_SIZE) EXIT_FAILURE;
  _ ← printf "sending on queues: [%d, %d]" [default_qid cntx; default_qid cntx + c_count_queues - 1];
  '(fq, tp) ← for_u16 fuel nf init_flow (replicate (Z.to_nat nf) 0, replicate (Z.to_nat nf) 0);
  dst_z ← demand (new_zipfgen pow n (f64_of_Z 2));
  queue_z ← demand (new_zipfgen pow c_count_queues (f64_of_Z 2));
  sel ← init_select;
  num ← init_num;
  _ ← printf "Client src port %d" [src_port cntx];
  eths ← forM (seqZ 0 n) (dst_eth fuel) [];
  start_time ← rte_get_timer_cycles;
  let zeros := replicate (Z.to_nat n) 0 in
  mret (ClientStart
    (TxSetup fq eths (replicate (Z.to_nat n) 3) bursts dst_z queue_z sel num (add_katran_opt (client config)))
    (TxLocals start_time client_duration true 0 0 (base_port_number cntx) start_time tp zeros zeros)
    (RxLocals 0 0 hist zeros)).
End client_setup.

(** ** Loops that count in 16 bits *)
Section u16_loops.
Context {W X : Type}.
Implicit Types (s : machine W).

(** They end for bounds that 16 bits can hold. *)
Lemma wp_for_u16 (I : Z -> X -> machine W -> Prop) fuel n body x (Q : X -> machine W -> Prop) E s :
  0 <= n < 65536 -> (Z.to_nat n < fuel)%nat -> I 0 x s ->
  (forall i x s, 0 <= i < n -> I i x s -> wp (body i x) (fun x' s' => I (i + 1) x' s') E s) ->
  (forall x s, I n x s -> Q x s) ->
  wp (for_u16 fuel n body x) Q E s.
Proof.
  intros Hn Hfuel HI Hbody HQ. unfold for_u16.
  apply (wp_loop_measure (fun '(i, x) s => 0 <= i <= n /\ I i x s) (fun '(i, _) _ => Z.to_nat (n - i))).
  - split; [lia|done].
  - lia.
  - intros [i y] s1 [Hi HI1]. case_if.
    + wp_step. eapply wp_mono; [apply Hbody; [lia|done]| |done]. intros y' s2 HI2. wp_step.
      rewrite u16_small by lia. split; [split; [lia|done]|lia].
    + wp_step. apply HQ. by replace n with i by lia.
Qed.

(** With a larger bound the counter wraps around before it gets there. *)
Lemma for_u16_endless (I : X -> machine W -> Prop) fuel n body x (Q : X -> machine W -> Prop) E s :
  65536 <= n -> I x s ->
  (forall i x s, 0 <= i < 65536 -> I x s -> wp (body i x) I E s) ->
  (forall x s, I x s -> E OutOfFuel s) ->
  wp (for_u16 fuel n body x) Q E s.
Proof.
  intros Hn HI Hbody HE. unfold for_u16.
  apply (wp_loop (fun '(i, x) s => 0 <= i < 65536 /\ I x s)).
  - split; [lia|done].
  - intros [i y] s1 [Hi HI1]. case_if; [|lia].
    wp_step. eapply wp_mono; [by apply Hbody| |done]. intros y' s2 HI2. wp_step. split; [apply u16_range|done].
  - intros [i y] s1 [_ HI1]. by apply (HE y).
Qed.
End u16_loops.

Section setup_proofs.
Context `{DpdkLaws} {W : Type} `{EnvLaws W}.
Variable log : spec_float -> spec_float.
Variable pow : spec_float -> spec_float -> spec_float.
Variable flags : variant.
Variable config : app_config.
Variable cntx : context.
Implicit Types (s : machine W) (E : reason -> machine W -> Prop).

(** The configuration of a run: one destination, and tables the C library's
    [pow] and [log] can build. *)
Record setup_ok : Prop := {
  so_dst : count_dst_ip cntx = 1;
  so_ip : exists ip, dst_ips cntx = [ip];
  so_src_ip : 0 <= src_ip cntx < 2 ^ 32;
  so_dist : destination_distribution cntx = DIST_UNIFORM /\ queue_selection_distribution cntx = DIST_UNIFORM;
  so_flows : 1 <= count_flow cntx < 65536;
  so_ports : 0 <= base_port_number cntx /\ base_port_number cntx + count_flow cntx <= 65536;
  so_queues : 1 <= c_count_queues cntx;
  so_batch : 0 <= batch cntx <= MAX_BURST_SIZE;
  so_my_eth : length (my_eth cntx) = 6%nat;
  so_payload : 8 <= payload_length cntx <= 1509;
  so_katran : 0 <= add_katran_opt (client config) < 2 ^ 32;
  so_mac : length (dest_mac config) = 6%nat;
  so_hist : exists h, new_p_hist_from_max_value log (f32_of_Z MAX_EXPECTED_LATENCY) = Some h /\ 1 <= count_bucket h;
  so_dst_zipf : is_Some (new_zipfgen pow 1 (f64_of_Z 2));
  so_queue_zipf : is_Some (new_zipfgen pow (c_count_queues cntx) (f64_of_Z 2));
  so_select : select_src_ip (client config) = true -> 0 < unique_client_ports (client config) /\
    exists z, new_zipfgen pow (i32 (unique_client_addresses (client config)))
      (f64_of_f32 (zipf_arg (client config))) = Some z /\ full_table z;
  so_num : payload_number flags = true ->
    exists z, new_zipfgen pow (max_num (client config)) (f64_of_Z 0) = Some z /\ full_table z;
}.

Lemma new_p_hist_ok x h : new_p_hist_from_max_value log x = Some h -> 1 <= count_bucket h ->
  hist_ok h /\ count_values h = 0.
Proof.
  unfold new_p_hist_from_max_value, new_p_hist. destruct (f_to_int _) as [c|]; [|done]. case_if; [|done].
  intros [= <-] Hc. split; [|done]. constructor; cbn [buckets count_bucket count_values] in *.
  - rewrite length_replicate. lia.
  - done.
  - by apply Forall_replicate.
  - rewrite sum_Z_replicate. lia.
Qed.
Lemma wp_init_dsts fuel hist0 (Q : list p_hist * list Z -> machine W -> Prop) E s :
  setup_ok -> (1 < fuel)%nat -> length hist0 = 1%nat ->
  (forall h, hist_ok h -> count_values h = 0 -> Q ([h], [batch cntx]) s) ->
  wp (for_u16 fuel 1 (init_dst log cntx) (hist0, [0])) Q E s.
Proof.
  intros Hok Hfuel Hlen HQ. destruct (so_hist Hok) as (h & Hh & Hc). destruct (new_p_hist_ok _ _ Hh Hc) as [Hho Hcv].
  destruct hist0 as [|h0 [|]]; [done| |done].
  apply (wp_for_u16 (fun i x s' => s' = s /\ (i = 0 -> x = ([h0], [0])) /\ (i = 1 -> x = ([h], [batch cntx])))).
  - lia.
  - lia.
  - by split_and!.
  - intros i [hs bs] s' Hi (-> & Hx & _). assert (i = 0) as -> by lia. specialize (Hx eq_refl). injection Hx as -> ->.
    unfold init_dst. rewrite Hh. change (insertZ 0 ?x [?y]) with (Some [x]).
    do 3 (wp_step; wp_step; [|done]; simplify_eq). wp_step. by split_and!.
  - intros x s' (-> & _ & Hx). rewrite (Hx eq_refl). by apply HQ.
Qed.

(** The flows take the worker's queues in turn. *)
Definition flow_queues (fq : list Z) : Prop :=
  Z.of_nat (length fq) = count_flow cntx /\
  forall i, 0 <= i < count_flow cntx ->
    lookupZ fq i = Some (u16 (default_qid cntx + i mod c_count_queues cntx)).

Lemma wp_init_flow i fq tp (Q : list Z * list Z -> machine W -> Prop) E s :
  c_count_queues cntx <> 0 -> 0 <= i < Z.of_nat (length fq) -> length tp = length fq ->
  Q (<[Z.to_nat i := u16 (default_qid cntx + i mod c_count_queues cntx)]> fq, <[Z.to_nat i := 0]> tp) s ->
  wp (init_flow cntx i (fq, tp)) Q E s.
Proof.
  intros Hq Hi Hlen HQ. unfold init_flow. apply Z.eqb_neq in Hq. rewrite Hq. cbv beta iota.
  do 3 (wp_step; rewrite ?insertZ_is_Some by lia; wp_step; [|done]; simplify_eq). by wp_step.
Qed.

Lemma wp_init_flows fuel fq0 tp0 (Q : list Z * list Z -> machine W -> Prop) E s :
  setup_ok -> 65536 < Z.of_nat fuel -> Z.of_nat (length fq0) = count_flow cntx -> length tp0 = length fq0 ->
  (forall fq tp, flow_queues fq -> Z.of_nat (length tp) = count_flow cntx -> Q (fq, tp) s) ->
  wp (for_u16 fuel (count_flow cntx) (init_flow cntx) (fq0, tp0)) Q E s.
Proof.
  intros Hok Hfuel Hlen Htp HQ. pose proof (so_flows Hok) as Hcf. pose proof (so_queues Hok) as Hcq.
  apply (wp_for_u16 (fun i '(fq, tp) s' => s' = s /\ length fq = length fq0 /\ length tp = length fq0 /\
    forall j, 0 <= j < i -> lookupZ fq j = Some (u16 (default_qid cntx + j mod c_count_queues cntx)))).
  - lia.
  - lia.
  - split_and!; try done. intros j Hj. lia.
  - intros i [fq tp] s' Hi (-> & Hl1 & Hl2 & Hall). apply wp_init_flow; [lia|lia|lia|].
    rewrite !length_insert. split_and!; try done. intros j Hj.
    rewrite (lookupZ_insert fq _ i j (u16 (default_qid cntx + i mod c_count_queues cntx)))
      by (apply insertZ_is_Some; lia).
    case_if; [by replace j with i by lia|]. apply Hall. lia.
  - intros [fq tp] s' (-> & Hl1 & Hl2 & Hall). apply HQ; [split; [lia|done]|lia].
Qed.

Lemma wp_dst_eth fuel ip (Q : list ether_addr -> machine W -> Prop) (E : reason -> machine W -> Prop) s :
  setup_ok -> heap_ok s -> dst_ips cntx = [ip] ->
  (forall mac s' evs, length mac = 6%nat -> frees_all s s' evs -> Forall (fun b => ~ is_data b) (sent evs) ->
    Q [mac] s') ->
  (do_arp cntx <> 0 -> forall s' evs, frees_all s s' evs -> Forall (fun b => ~ is_data b) (sent evs) ->
    E OutOfFuel s') ->
  wp (forM (seqZ 0 1) (dst_eth config cntx fuel) []) Q E s.
Proof.
  intros Hok Hs Hip HQ HE. change (seqZ 0 1) with [0]. cbn [forM]. wp_step. unfold dst_eth. rewrite Hip, lookupZ_singleton.
  wp_step. wp_step; [|done]. injection Hd as <-.
  assert (Hend : forall mac s1 evs, length mac = 6%nat -> frees_all s s1 evs ->
    Forall (fun b => ~ is_data b) (sent evs) ->
    wp (_ ← printf "mac address for server %s received: " [ip]; _ ← printf "%x:%x:%x:%x:%x:%x" mac; mret ([] ++ [mac]))
      (fun a s' => wp (mret a) Q E s') E s1).
  { intros mac s1 evs Hmac Hf Hs1. do 2 (wp_step; apply wp_printf). do 2 wp_step.
    eapply (HQ mac _ ((evs ++ [_]) ++ [_])); [done|eapply frees_all_trans; [|apply frees_all_log];
      eapply frees_all_trans; [done|apply frees_all_log]|]. autorewrite with cnet. by rewrite !app_nil_r. }
  wp_step. case_if.
  - rewrite (slice_Some _ _ (dest_mac config)) by (rewrite (so_mac Hok); done). wp_step; [|done]. simplify_eq.
    eapply (Hend _ _ []); [|apply frees_all_refl|done]. rewrite length_take, length_drop, (so_mac Hok). done.
  - assert (Hreqs : forall evs, asked (src_ip cntx) ip broadcast_mac evs -> Forall (fun b => ~ is_data b) (sent evs)).
    { intros evs [Hreq _]. eapply Forall_impl; [exact Hreq|]. cbv beta. intros b Hb.
      eapply arp_frame_not_data; [| |exact Hb]; [|done]. apply macaddr_ok. }
    apply wp_get_dst_mac; [done|apply Hok|done| |].
    + intros mac s1 evs Hf Has Ha. eapply Hend; [|exact Hf|by apply Hreqs]. by eapply first_answer_length; [apply Has|].
    + intros s1 evs Hf Has _. eapply HE; [done|exact Hf|by apply Hreqs].
Qed.

Lemma wp_init_select (Q : option zipf_client_addr -> machine W -> Prop) E s :
  setup_ok ->
  (forall sel, match sel with Some t => full_table (src_zipf t) /\ 0 < count_port t | None => True end -> Q sel s) ->
  wp (init_select pow config) Q E s.
Proof.
  intros Hok HQ. unfold init_select. destruct (select_src_ip _) eqn:Esel; [|wp_step; by apply HQ].
  destruct (so_select Hok Esel) as (Hp & z & -> & Hz). wp_step. wp_step; [|done]. injection Hd as <-.
  wp_step. by apply HQ.
Qed.

Lemma wp_init_num (Q : option zipfgen -> machine W -> Prop) E s :
  setup_ok -> rng_ok (rng s) ->
  (forall num s' evs, (payload_number flags = true -> exists z, num = Some z /\ full_table z) ->
    frees_all s s' evs -> sent evs = [] -> Q num s') ->
  wp (init_num pow flags config) Q E s.
Proof.
  intros Hok Hr HQ. unfold init_num. destruct (payload_number flags) eqn:Epn.
  2:{ wp_step. by apply (HQ _ _ []); [|apply frees_all_refl|]. }
  destruct (so_num Hok Epn) as (z & Hz & Hfull). wp_step. apply wp_printf. unfold initialize_num_gen. rewrite Hz.
  wp_step. wp_step; [|done]. injection Hd as <-. wp_step.
  eapply HQ; [|apply frees_all_log|done]. intros _. by exists z.
Qed.

(** What the set-up leaves behind. *)
Record started (c : client_start) : Prop := {
  st_tx : tx_ok flags cntx (c_setup c);
  st_locals : tx_inv cntx (c_tx c);
  st_rx : rx_inv cntx INT_MAX (c_rx c);
  st_total : r_total_received (c_rx c) = [0];
  st_sent : l_total_sent_pkts (c_tx c) = [0] /\ l_failed_to_push (c_tx c) = [0];
  st_queues : flow_queues (flow_q (c_setup c));
}.

(** Prints and ARP requests. *)
Definition set_up (s s' : machine W) : Prop :=
  exists evs, frees_all s s' evs /\ Forall (fun b => ~ is_data b) (sent evs).

Lemma set_up_log s s' e : set_up s s' -> sent [e] = [] -> set_up s (log_event e s').
Proof.
  intros (evs & Hf & Hs) He. exists (evs ++ [e]). split; [eapply frees_all_trans; [done|apply frees_all_log]|].
  rewrite sent_app, He. by rewrite app_nil_r.
Qed.
Lemma set_up_frees s s1 s2 evs : set_up s s1 -> frees_all s1 s2 evs -> Forall (fun b => ~ is_data b) (sent evs) -> set_up s s2.
Proof.
  intros (e1 & Hf & Hs) Hf2 Hs2. exists (e1 ++ evs). split; [by eapply frees_all_trans|].
  rewrite sent_app. by apply Forall_app.
Qed.
Lemma set_up_ok s s' : heap_ok s -> set_up s s' -> heap_ok s'.
Proof. intros Hs (evs & Hf & _). by eapply frees_all_ok. Qed.

Lemma wp_client_setup fuel (Q : client_start -> machine W -> Prop) (E : reason -> machine W -> Prop) s :
  setup_ok -> heap_ok s -> rng_ok (rng s) -> 65536 < Z.of_nat fuel ->
  (forall c s', started c -> set_up s s' -> Q c s') ->
  (do_arp cntx <> 0 -> forall s', set_up s s' -> E OutOfFuel s') ->
  wp (client_setup log pow flags config cntx fuel) Q E s.
Proof.
  intros Hok Hs Hr Hfuel HQ HE. unfold client_setup. destruct (so_ip Hok) as [ip Hip].
  pose proof (so_flows Hok) as Hcf. pose proof (so_batch Hok) as Hbatch.
  assert (Hnf : count_flows cntx = count_flow cntx).
  { unfold count_flows. rewrite (so_dst Hok), Z.mul_1_l. apply u32_small. lia. }
  rewrite Hnf, (so_dst Hok).
  wp_step. apply wp_printf. assert (H1s : set_up s (log_event (EvPrint "delay cycles: %ld" [delay_cycles cntx]) s))
    by (apply set_up_log; [exists []; by split; [apply frees_all_refl|]|done]).
  wp_step. wp_step; [|done]. wp_step. case_if; [|lia]. wp_step; [|done]. clear a Hd.
  wp_step. change (Z.to_nat 1) with 1%nat. cbn [replicate].
  apply wp_init_dsts; [done|lia|done|]. intros h Hh Hcv. wp_step. rewrite lookupZ_singleton. wp_step; [|done].
  injection Hd as <-. wp_step. wp_step; [|lia].
  wp_step. apply wp_printf. apply (set_up_log _ _ (EvPrint "sending on queues: [%d, %d]"
    [default_qid cntx; default_qid cntx + c_count_queues cntx - 1])) in H1s; [|done].
  wp_step. apply wp_init_flows; [done|done|by rewrite length_replicate; lia|by rewrite !length_replicate|].
  intros fq tp Hfq Htp. destruct (so_dst_zipf Hok) as [dz Hdz], (so_queue_zipf Hok) as [qz Hqz]. rewrite Hdz.
  wp_step. wp_step; [|done]. injection Hd as <-. rewrite Hqz. wp_step. wp_step; [|done]. injection Hd as <-.
  wp_step. apply wp_init_select; [done|]. intros sel Hsel. wp_step.
  apply wp_init_num; [done|done|]. intros num s2 e2 Hnum Hf2 Hse2.
  apply (set_up_frees s _ s2 e2) in H1s; [|done|by rewrite Hse2].
  wp_step. apply wp_printf. apply (set_up_log _ _ (EvPrint "Client src port %d" [src_port cntx])) in H1s; [|done].
  wp_step. eapply wp_dst_eth; [done|exact (set_up_ok _ _ Hs H1s)|exact Hip| |].
  2:{ intros Harp s3 e3 Hf3 Hse3. apply HE; [done|]. by eapply set_up_frees. }
  intros mac s3 e3 Hmac Hf3 Hse3. wp_step. apply wp_get_timer_cycles. intros t w _ _. wp_step.
  apply HQ; [|by apply set_up_log; [eapply set_up_frees|]].
  pose proof (so_ports Hok). destruct (so_dist Hok). destruct Hfq as [Hfql Hfqs].
  constructor; cbn [c_setup c_tx c_rx r_total_received l_total_sent_pkts l_failed_to_push flow_q]; try done.
  - constructor; cbn; try done; try apply Hok; try lia.
    + rewrite Hip. by exists ip.
    + by exists mac.
    + by exists 3.
    + by exists (batch cntx).
  - constructor; cbn; lia || done.
  - constructor; cbn; rewrite ?Hip; try done. apply Forall_singleton. split; [done|lia].
Qed.

(** ** Properties *)

(** C12: The set-up is correct. For a configuration of one destination whose
    tables can be built, and at most 65535 flows, it terminates (unless nobody
    answers its ARP requests) with everything the two loops rely on in place:
    the invariants of their locals, histograms and counters at zero, the flows on
    the worker's queues in turn, and the server's address known; it keeps no
    buffer and sends only ARP requests. *)
Theorem client_setup_correct fuel s :
  setup_ok -> heap_ok s -> rng_ok (rng s) -> 65536 < Z.of_nat fuel ->
  wp (client_setup log pow flags config cntx fuel)
    (fun c s' => started c /\ set_up s s')
    (fun k s' => k = OutOfFuel /\ do_arp cntx <> 0 /\ set_up s s') s.
Proof. intros. by apply wp_client_setup. Qed.

(** C23: With 65536 flows or more the set-up never ends: the loop over the flows
    counts in 16 bits and starts again at 0 before it gets to its bound, which
    the configuration does not limit. *)
Theorem flow_loop_endless fuel tp fq s :
  65536 <= count_flows cntx -> c_count_queues cntx <> 0 ->
  Z.of_nat (length fq) = count_flows cntx -> length tp = length fq ->
  wp (for_u16 fuel (count_flows cntx) (init_flow cntx) (fq, tp)) (fun _ _ => False) (fun k _ => k = OutOfFuel) s.
Proof.
  intros Hn Hq Hfq Htp.
  apply (for_u16_endless (fun '(fq', tp') _ => Z.of_nat (length fq') = count_flows cntx /\ length tp' = length fq'));
    [done|done| |done].
  intros i [fq' tp'] s1 Hi [Hl1 Hl2]. apply wp_init_flow; [done|lia|done|]. by rewrite !length_insert.
Qed.
End setup_proofs.

(** ** Witnesses *)

(** Client addresses drawn from three, and the server's hardware address given. *)
Definition some_config : app_config :=
  AppConfig 1 0 0 167772161 1 mode_client 64 8080
    (ClientConfig 3000 0 1 [Some 167772162] 2 10 1 100 3 4 0 true 3 2 (f32_of_Z 2) 5 0) mac_b.

Lemma some_config_ok flags : payload_number flags = false -> setup_ok log_const pow_2 flags some_config some_client.
Proof.
  intros Hnum. constructor.
  - reflexivity.
  - by eexists.
  - by split; [apply Z.leb_le|apply Z.ltb_lt].
  - by split.
  - by split; [apply Z.leb_le|apply Z.ltb_lt].
  - by split; apply Z.leb_le.
  - by apply Z.leb_le.
  - by split; apply Z.leb_le.
  - reflexivity.
  - by split; apply Z.leb_le.
  - by split; [apply Z.leb_le|apply Z.ltb_lt].
  - reflexivity.
  - eexists. split; [vm_compute; reflexivity|by apply Z.leb_le].
  - eexists. vm_compute. reflexivity.
  - eexists. vm_compute. reflexivity.
  - intros _. split; [by apply Z.ltb_lt|]. exists zipf3. split; [vm_compute; reflexivity|apply zipf3_full].
  - by rewrite Hnum.
Qed.

Lemma client_setup_correct_witness :
  let fuel := Z.to_nat 70000 in
  wp (client_setup log_const pow_2 (Variant true false) some_config some_client fuel)
    (fun c s' => started (Variant true false) some_client c /\ set_up (boot quiet) s')
    (fun k s' => k = OutOfFuel /\ do_arp some_client <> 0 /\ set_up (boot quiet) s') (boot quiet).
Proof.
  intros fuel. apply (client_setup_correct log_const pow_2 (Variant true false) some_config some_client fuel);
    [by apply some_config_ok|apply boot_ok|apply rng_init_ok|].
  unfold fuel. rewrite Z2Nat.id; [by apply Z.ltb_lt|by apply Z.leb_le].
Defined.

(** As many flows as there are ports. *)
Definition too_many_flows : context :=
  Context_ 1 0 0 0 0 0 mac_a 167772161 3000 1 0 1 0 0 3 [0] 10 [167772162] 1 0 64 1 65536 0 DIST_UNIFORM DIST_UNIFORM
    1 100 4.

Lemma flow_loop_endless_witness :
  let zeros := replicate (Z.to_nat 65536) 0 in
  wp (for_u16 (Z.to_nat 70000) 65536 (init_flow too_many_flows) (zeros, zeros)) (fun _ _ => False)
    (fun k _ => k = OutOfFuel) (boot quiet).
Proof.
  intros zeros. apply (flow_loop_endless too_many_flows (Z.to_nat 70000) zeros zeros (boot quiet));
    [by apply Z.leb_le|by apply Z.eqb_neq| |reflexivity].
  unfold zeros. rewrite length_replicate. rewrite Z2Nat.id; [reflexivity|by apply Z.leb_le].
Defined.
