(* ===== verification/RoundTrip.v ===== *)
(** * From the client to the server and back

    How the packets of the client (Packet.v, TcpPacket.v, Payload.v), the echo of
    the server (Server.v) and the receiver of the client (ClientRx.v) fit
    together. A network carries the bytes of a packet, [mb_data], to another
    buffer. *)
From S2P Require Import Prelude CInt CFloat Monad Zipf Percentile Dpdk Sim Arp Exp Packet TcpPacket Payload Server.
From S2P Require Import ClientTx ClientRx.

(** A packet as far as the server looks at it: everything up to the ports, and
    the rest. *)
Definition frame (i : prepare_packet_info) (total_length proto : Z) (rest : list Z) : list Z :=
  eth_bytes i ++ ipv4_bytes total_length proto (pi_src_ip i) (pi_dst_ip i) ++
  be_split 2 (pi_src_port i) ++ be_split 2 (pi_dst_port i) ++ rest.

(** Addresses and ports exchanged. *)
Definition reversed (i : prepare_packet_info) : prepare_packet_info :=
  PacketInfo (pi_use_vlan i) (client_address_selection i) (pi_dst_mac i) (pi_src_mac i) (pi_dst_ip i) (pi_src_ip i)
    (pi_dst_port i) (pi_src_port i) (tci i) (pi_payload_length i) (client_addr_select_info i).

(** What follows the ports. *)
Definition udp_rest (i : prepare_packet_info) (payload : list Z) : list Z :=
  be_split 2 (8 + pi_payload_length i) ++ [0; 0] ++ payload.
Definition tcp_rest (rows : Z) (opts payload : list Z) : list Z :=
  [123; 0; 0; 0; 65; 1; 0; 0; rows * 16; 0x18; 0; 1; 0; 0; 0; 0] ++ opts ++ payload.

Lemma udp_frame i payload :
  udp_header i ++ payload = frame i (28 + pi_payload_length i) IPPROTO_UDP (udp_rest i payload).
Proof. unfold udp_header, frame, udp_bytes, udp_rest. by rewrite <- !app_assoc. Qed.
Lemma tcp_frame i opts payload :
  let rows := 5 + Z.of_nat (length opts) / 4 in
  tcp_header i opts ++ payload =
    frame i (20 + 4 * rows + pi_payload_length i) IPPROTO_TCP (tcp_rest rows opts payload).
Proof. unfold tcp_header, frame, tcp_bytes, tcp_rest. by rewrite <- !app_assoc. Qed.

Section frames.
Variables (i : prepare_packet_info) (tl proto : Z) (rest t : list Z).
Hypothesis Hi : info_ok i.

(** The fields of a frame at the start of a buffer. *)
Lemma frame_fields :
  let r := frame i tl proto rest ++ t in
  let o := l2_size i in
  field 0 6 r = pi_dst_mac i /\ field 6 6 r = pi_src_mac i /\
  be 12 2 r = (if pi_use_vlan i then RTE_ETHER_TYPE_VLAN else RTE_ETHER_TYPE_IPV4) /\
  be (o + 12) 4 r = pi_src_ip i mod 2 ^ 32 /\ be (o + 16) 4 r = pi_dst_ip i mod 2 ^ 32 /\
  be (o + 20) 2 r = pi_src_port i mod 2 ^ 16 /\ be (o + 22) 2 r = pi_dst_port i mod 2 ^ 16 /\
  drop (o + 24) r = rest ++ t.
Proof.
  destruct Hi as [Hs Hd _]. destruct i as [vlan sel src dst sip dip sp dp tc pl sinfo]. cbn in Hs, Hd.
  explode_list src. explode_list dst. unfold be.
  change (2 ^ 32) with (256 ^ Z.of_nat 4). change (2 ^ 16) with (256 ^ Z.of_nat 2). rewrite <- !be_combine_split.
  unfold frame, eth_bytes, l2_size.
  cbn [pi_use_vlan pi_dst_mac pi_src_mac pi_src_ip pi_dst_ip pi_src_port pi_dst_port].
  destruct vlan; split_and!; reflexivity.
Qed.

(** Echoing a frame reverses it. *)
Lemma echo_frame :
  echo_room (l2_size i) (frame i tl proto rest ++ t) = frame (reversed i) tl proto rest ++ t.
Proof.
  destruct Hi as [Hs Hd _]. destruct i as [vlan sel src dst sip dip sp dp tc pl sinfo]. cbn in Hs, Hd.
  explode_list src. explode_list dst. destruct vlan; reflexivity.
Qed.
End frames.

Lemma reversed_ok i : info_ok i -> info_ok (reversed i).
Proof. by intros [? ? ?]. Qed.

Lemma data_room b d : mb_data b = d -> exists t, mb_room b = d ++ t.
Proof. intros <-. exists (drop (Z.to_nat (data_len b)) (mb_room b)). unfold mb_data. by rewrite take_drop. Qed.

Lemma frame_length i tl proto rest : info_ok i -> length (frame i tl proto rest) = (l2_size i + 24 + length rest)%nat.
Proof.
  intros Hi. unfold frame. rewrite !length_app, ipv4_bytes_length, eth_bytes_length by done. cbn. lia.
Qed.

Section round_trip.
Context `{DpdkLib} {W : Type} `{DpdkEnv W}.
Variable flags : variant.
Variables (cntx sc : context).
Variable st : tx_setup.

(** The server the client is set up for. *)
Record peers : Prop := {
  pe_dst : exists ip, dst_ips cntx = [ip] /\ src_ip sc = ip /\ 0 <= ip < 2 ^ 32;
  pe_eth : server_eths st = [my_eth sc];
  pe_macs : length (my_eth cntx) = 6%nat /\ length (my_eth sc) = 6%nat;
  pe_vlan : (use_vlan sc =? 0) = (use_vlan cntx =? 0);
}.

(** A packet of the client as a frame for a port: its sender may be any of the
    client's addresses. *)
Record our_frame (port : Z) (i : prepare_packet_info) : Prop := {
  of_ok : info_ok i;
  of_vlan : pi_use_vlan i = negb (use_vlan cntx =? 0);
  of_macs : pi_src_mac i = my_eth cntx /\ pi_dst_mac i = my_eth sc;
  of_ip : [pi_dst_ip i] = dst_ips cntx;
  of_port : pi_dst_port i = u16 port;
}.

(** The echo carries the bytes of the reversed frame. *)
Lemma echo_data b i tl proto rest :
  info_ok i -> ipo sc = l2_size i -> mb_data b = frame i tl proto rest ->
  mb_data (echo sc b) = frame (reversed i) tl proto rest.
Proof.
  intros Hi Hipo Hd. pose proof (frame_length i tl proto rest Hi) as L1.
  pose proof (frame_length (reversed i) tl proto rest (reversed_ok i Hi)) as L2.
  change (l2_size (reversed i)) with (l2_size i) in L2.
  set (n := Z.to_nat (data_len b)). assert (Hr : mb_room b = frame i tl proto rest ++ drop n (mb_room b))
    by (rewrite <- Hd; unfold mb_data; by rewrite take_drop).
  unfold echo, mb_data. cbn [mb_room set_room data_len]. fold n. rewrite Hr, Hipo, echo_frame by done.
  assert (Hlen : length (frame i tl proto rest) = Nat.min n (length (mb_room b)))
    by (rewrite <- Hd; unfold mb_data; by rewrite length_take).
  destruct (Nat.le_gt_cases n (length (mb_room b))).
  - apply take_app_length'. lia.
  - rewrite (drop_ge (mb_room b)) by lia. rewrite app_nil_r. apply take_ge. lia.
Qed.

Lemma ipo_vlan c i : pi_use_vlan i = negb (use_vlan c =? 0) -> ipo c = l2_size i.
Proof. unfold ipo, l2_size. intros ->. by destruct (use_vlan c =? 0). Qed.
Lemma wanted_vlan c i : pi_use_vlan i = negb (use_vlan c =? 0) ->
  wanted_type c = if pi_use_vlan i then RTE_ETHER_TYPE_VLAN else RTE_ETHER_TYPE_IPV4.
Proof. unfold wanted_type. intros ->. by destruct (use_vlan c =? 0). Qed.

Lemma peer_offset port i : peers -> our_frame port i -> ipo sc = l2_size i.
Proof. intros Hpe Hof. apply ipo_vlan. by rewrite (pe_vlan Hpe), (of_vlan _ _ Hof). Qed.

(** A frame to a host with our hardware address is not an ARP packet, and for us. *)
Lemma frame_valid i tl proto rest t : info_ok i -> valid_eth (pi_dst_mac i) (frame i tl proto rest ++ t) = true.
Proof.
  intros Hi. destruct (frame_fields i tl proto rest t Hi) as (F1 & _ & F3 & _).
  unfold valid_eth, for_us, is_arp. rewrite F1, F3. rewrite bool_decide_true by done. by destruct (pi_use_vlan i).
Qed.

Lemma frame_accepted port i tl proto rest b :
  peers -> our_frame port i -> mb_data b = frame i tl proto rest -> accepts sc (mb_room b) = true.
Proof.
  intros [(ip & Hips & Hsrc & Hip) _ _ Hv] [Hi Hvl [_ Hmac] Hdst _] Hd. rewrite <- Hv in Hvl.
  destruct (data_room b _ Hd) as [t ->]. destruct (frame_fields i tl proto rest t Hi) as (_ & _ & F3 & _ & F5 & _).
  unfold accepts, my_ip. rewrite <- Hmac, frame_valid, orb_true_r by done.
  rewrite F3, (wanted_vlan sc i Hvl), (ipo_vlan sc i Hvl), F5, Z.eqb_refl, Hsrc.
  rewrite Hips in Hdst. injection Hdst as ->. rewrite Z.mod_small by done. by rewrite Z.eqb_refl.
Qed.

(** What the receiver sees in the echo. *)
Lemma frame_measured port i tl proto rest b :
  peers -> our_frame port i -> 0 <= port < 65536 -> mb_data b = frame (reversed i) tl proto rest ->
  (12 <= length rest)%nat ->
  rx_match cntx (mb_room b) = Some 0%nat /\ flow_measured cntx (mb_room b) = (port =? base_port_number cntx) /\
  timestamp_of cntx (mb_room b) = le_combine (field 4 8 rest).
Proof.
  intros [(ip & Hips & Hsrc & Hip) _ _ Hv] [Hi Hvl [Hmac _] Hdst Hport] Hp Hd Hrest.
  destruct (data_room b _ Hd) as [t ->].
  destruct (frame_fields (reversed i) tl proto rest t (reversed_ok i Hi)) as (_ & _ & F3 & F4 & _ & F6 & _ & F8).
  change (l2_size (reversed i)) with (l2_size i) in *.
  cbn [reversed pi_use_vlan pi_src_ip pi_src_port] in F3, F4, F6.
  unfold rx_match, flow_measured, timestamp_of. rewrite (ipo_vlan cntx i Hvl). split; [|split].
  - rewrite <- Hmac. change (pi_src_mac i) with (pi_dst_mac (reversed i)). rewrite frame_valid by (by apply reversed_ok).
    rewrite F3, (wanted_vlan cntx i Hvl), Z.eqb_refl, F4. cbn [andb].
    rewrite Hips in Hdst. injection Hdst as ->. rewrite Z.mod_small, Hips by done. cbn [list_find].
    by rewrite decide_True by done.
  - rewrite F6, Hport, u16_small by done. by rewrite Z.mod_small.
  - f_equal. unfold field at 1. replace (l2_size i + 28)%nat with (l2_size i + 24 + 4)%nat by lia.
    rewrite <- drop_drop, F8. unfold field. rewrite drop_app_le by lia. apply take_app_le. rewrite length_drop. lia.
Qed.

(** The packets of the client are such frames. *)
Lemma packet_frame port num b : peers -> tx_ok flags cntx st -> packet_with flags cntx st port num b ->
  exists i, our_frame port i /\ 0 <= num < 2 ^ 64 /\
    let len := Z.to_nat (payload_length cntx) in
    (use_tcp flags = false /\
       mb_data b = frame i (28 + pi_payload_length i) IPPROTO_UDP (udp_rest i (payload_bytes len num)) \/
     use_tcp flags = true /\ exists rows opts, (rows = 5 \/ rows = 7) /\
       mb_data b = frame i (20 + 4 * rows + pi_payload_length i) IPPROTO_TCP (tcp_rest rows opts (payload_bytes len num))).
Proof.
  intros Hpe Hst (ch & pr & Hip & Hmac & _ & _ & i & hdr & Hsrc & Hhdr & Hnum & Hd).
  destruct Hpe as [(ip & Hips & _) Heth [M1 M2] _]. rewrite Hips in Hip. injection Hip as Hip.
  rewrite Heth in Hmac. injection Hmac as Hmac.
  assert (Hof : our_frame port i).
  { assert (Hio : info_ok (pkt_info cntx st ch port)) by (constructor; cbn; [done|by rewrite <- Hmac|apply u16_range]).
    destruct Hsrc as [->|(_ & a & p & ->)]; constructor; cbn; try done; try (by rewrite Hips, Hip).
    destruct Hio. by constructor. }
  exists i. do 2 (split; [done|]). unfold header_for in Hhdr. cbv zeta.
  destruct (use_tcp flags); [right|left]; (split; [done|]); rewrite Hd.
  - destruct Hhdr as (opts & -> & Hopts). exists (5 + Z.of_nat (length opts) / 4), opts.
    rewrite tcp_frame. split; [|done]. destruct Hopts as [[_ ->]|(_ & id & _ & ->)]; [by left|by right].
  - rewrite Hhdr. apply udp_frame.
Qed.

End round_trip.

(** ** Properties *)
Section round_trip_code.
Context `{DpdkLaws} {W : Type} `{EnvLaws W}.
Variable log : spec_float -> spec_float.
Hypothesis Hlog : log_ok log.
Variable flags : variant.
Variables (cntx sc : context).
Variable st : tx_setup.
Hypothesis Hpe : peers cntx sc st.
Hypothesis Hst : tx_ok flags cntx st.
Hypothesis Hrx : rx_ok cntx.
Hypothesis Hbidi : bidi sc <> 0.

(** The locals of a server that can queue another packet. *)
Definition can_queue (l : locals) : Prop := 0 <= k l < 64 /\ length (tx_buf l) = 64%nat.

(** The server echoes a packet it accepts: it is queued, with its bytes turned
    around, and stays owned. *)
Lemma wp_server_echo now p b l i tl proto rest port (Q : locals -> machine W -> Prop) E s :
  our_frame cntx sc port i -> mb_data b = frame i tl proto rest ->
  heap_ok s -> heap s !! p = Some b -> room_ok b -> can_queue l ->
  (forall l' s', tx_buf l' !! Z.to_nat (k l) = Some p -> k l' = k l + 1 -> heap s' !! p = Some (echo sc b) ->
    mb_data (echo sc b) = frame (reversed i) tl proto rest -> Q l' s') ->
  wp (process_pkt sc now p l) Q E s.
Proof.
  intros Hof Hd Hs Hp Hb [Hk Htb] HQ. pose proof (frame_accepted cntx sc st port i tl proto rest b Hpe Hof Hd) as Hacc.
  pose proof Hbidi as Hbi. apply Z.eqb_neq in Hbi.
  apply (wp_process_pkt sc now p b); try done; [| |].
  - destruct (pe_dst _ _ _ Hpe) as (ip & _ & Hsrc & Hip). unfold my_ip. by rewrite Hsrc.
  - lia.
  - rewrite Hacc. split; [intros _ Hge; lia|]. intros s' evs _ Hh _ _ _ _. unfold heap_after, after_pkt, kept in *.
    rewrite Hbi in Hh |- *. cbn [andb negb] in Hh. apply HQ.
    + cbn [add_echo tx_buf]. apply list_lookup_insert_eq. lia.
    + cbn. apply u64_small. lia.
    + rewrite Hh. apply lookup_insert_eq.
    + apply echo_data; [apply Hof|by eapply peer_offset|exact Hd].
Qed.

(** The receiver counts what comes back from the destination. *)
Lemma wp_receive_echo now p b l n i tl proto rest port (Q : rx_locals -> machine W -> Prop) E s :
  our_frame cntx sc port i -> 0 <= port < 65536 -> mb_data b = frame (reversed i) tl proto rest ->
  (12 <= length rest)%nat -> payload_number flags = false ->
  heap_ok s -> heap s !! p = Some b -> room_ok b -> rx_inv cntx n l -> 1 <= n ->
  (forall l' s' v t evs, r_total_received l !! 0%nat = Some v -> trace s' = trace s ++ evs -> clocks evs = [t] ->
    r_total_received l' = <[0%nat := u64 (v + 1)]> (r_total_received l) ->
    (if port =? base_port_number cntx then
       exists h h', r_hist l !! 0%nat = Some h /\
         add_number_to_p_hist log h (f32_of_Z (u64 ((t - le_combine (field 4 8 rest)) * 1000000) / timer_hz)) = Some h' /\
         r_hist l' = <[0%nat := h']> (r_hist l)
     else r_hist l' = r_hist l) -> heap s' = delete p (heap s) -> Q l' s') ->
  wp (receive_pkt log flags cntx now p l) Q E s.
Proof.
  intros Hof Hport Hd Hrest Hnum Hs Hp Hb Hl Hn HQ.
  destruct (frame_measured cntx sc st port i tl proto rest b Hpe Hof Hport Hd Hrest) as (Hm & Hfl & Hts).
  apply (wp_receive_pkt log Hlog flags cntx now p b l n); try done.
  intros l' s' ts evs [Hc _] Hh _ _ Htr Hlk. destruct Hc as [[Hc|Hc] _ _|k v t Hk _ Hv Htot _ Hmeas]; [congruence..|].
  rewrite Hm in Hk. injection Hk as <-. apply (HQ l' s' v t evs); [done|done|apply Hlk|done| |done].
  unfold measure in Hmeas. rewrite Hfl, Hts in Hmeas. case_if; [|by injection Hmeas].
  destruct (r_hist l !! 0%nat) as [h|]; [|done]. cbn [mbind option_bind] in Hmeas.
  destruct (add_number_to_p_hist log h _) as [h'|] eqn:Ea; [|done]. cbn [mbind option_bind] in Hmeas.
  injection Hmeas as <-. by exists h, h'.
Qed.

(** C2: A request makes the round trip. Whatever buffer the server receives a
    UDP packet of the client into, its handler queues it for sending; whatever
    buffer the client receives the echo into, its handler counts it for the
    destination and frees it; and for the flow of the base port it files the time
    from [num], the number in the packet, to [t], the one reading of the clock its
    handler made. (For the time stamp variant [num] is the reading made when the
    packet was built: see [stepped].) *)
Theorem round_trip port num b :
  packet_with flags cntx st port num b -> 0 <= port < 65536 -> use_tcp flags = false -> payload_number flags = false ->
  exists hdr, mb_data b = hdr ++ payload_bytes (Z.to_nat (payload_length cntx)) num /\ 0 <= num < 2 ^ 64 /\
  forall b1 p1 now1 l1 (s1 : machine W), mb_data b1 = mb_data b ->
    heap_ok s1 -> heap s1 !! p1 = Some b1 -> room_ok b1 -> can_queue l1 ->
    wp (process_pkt sc now1 p1 l1)
      (fun l1' s1' => tx_buf l1' !! Z.to_nat (k l1) = Some p1 /\ k l1' = k l1 + 1 /\
        exists e, heap s1' !! p1 = Some e /\
        forall b2 p2 now2 l2 n (s2 : machine W), mb_data b2 = mb_data e ->
          heap_ok s2 -> heap s2 !! p2 = Some b2 -> room_ok b2 -> rx_inv cntx n l2 -> 1 <= n ->
          wp (receive_pkt log flags cntx now2 p2 l2)
            (fun l2' s2' => exists v t evs, r_total_received l2 !! 0%nat = Some v /\
              trace s2' = trace s2 ++ evs /\ clocks evs = [t] /\
              r_total_received l2' = <[0%nat := u64 (v + 1)]> (r_total_received l2) /\
              (if port =? base_port_number cntx then
                 exists h h', r_hist l2 !! 0%nat = Some h /\
                   add_number_to_p_hist log h (f32_of_Z (u64 ((t - num) * 1000000) / timer_hz)) = Some h' /\
                   r_hist l2' = <[0%nat := h']> (r_hist l2)
               else r_hist l2' = r_hist l2) /\ heap s2' = delete p2 (heap s2))
            (fun _ _ => False) s2)
      (fun _ _ => False) s1.
Proof.
  intros Hpk Hport Htcp Hnum. destruct (packet_frame flags cntx sc st port num b Hpe Hst Hpk) as (i & Hof & Hn & Hd).
  destruct Hd as [[_ Hd]|[? _]]; [|congruence]. exists (udp_header i).
  split; [by rewrite Hd, udp_frame|]. split; [done|]. intros b1 p1 now1 l1 s1 Hb1 Hs1 Hp1 Hr1 Hq1. rewrite Hd in Hb1.
  eapply wp_server_echo; [done..|]. intros l1' s1' Htx Hk He Hed. split; [done|]. split; [done|].
  exists (echo sc b1). split; [done|]. intros b2 p2 now2 l2 n s2 Hb2 Hs2 Hp2 Hr2 Hl2 H1n. rewrite Hed in Hb2.
  set (pl := payload_bytes _ num) in *.
  eapply wp_receive_echo; [exact Hof|exact Hport|exact Hb2| |done..|].
  { unfold udp_rest, pl, payload_bytes. rewrite !length_app, length_be_split, length_le_split. cbn. lia. }
  assert (Hts : le_combine (field 4 8 (udp_rest i pl)) = num).
  { change (field 4 8 (udp_rest i pl)) with (field 0 8 pl). unfold pl, payload_bytes.
    rewrite field_app_l by (by rewrite length_le_split). unfold field.
    rewrite drop_0, take_ge by (by rewrite length_le_split). rewrite le_combine_split.
    change (256 ^ Z.of_nat 8) with (2 ^ 64). by apply Z.mod_small. }
  rewrite Hts. intros l' s' v t evs Hv Htr Ht Htot Hh Hheap. by exists v, t, evs.
Qed.

(** C24: The TCP variant measures no latencies. The server echoes its packets as
    well, but the receiver reads the time stamp where the payload of a UDP packet
    starts; in the echo of a TCP packet these are bytes of the TCP header, one of
    two constants whatever the client wrote, and what is filed is the distance from
    that constant to [t], the one reading of the clock its handler made. *)
Theorem tcp_latency_meaningless b :
  packet_for flags cntx st (base_port_number cntx) b -> 0 <= base_port_number cntx < 65536 ->
  use_tcp flags = true -> payload_number flags = false ->
  exists stamp, (stamp = 0x0100185000000141 \/ stamp = 0x0100187000000141) /\
  forall b1 p1 now1 l1 (s1 : machine W), mb_data b1 = mb_data b ->
    heap_ok s1 -> heap s1 !! p1 = Some b1 -> room_ok b1 -> can_queue l1 ->
    wp (process_pkt sc now1 p1 l1)
      (fun l1' s1' => exists e, heap s1' !! p1 = Some e /\
        forall b2 p2 now2 l2 n (s2 : machine W), mb_data b2 = mb_data e ->
          heap_ok s2 -> heap s2 !! p2 = Some b2 -> room_ok b2 -> rx_inv cntx n l2 -> 1 <= n ->
          wp (receive_pkt log flags cntx now2 p2 l2)
            (fun l2' s2' => exists t evs h h', trace s2' = trace s2 ++ evs /\ clocks evs = [t] /\
                   r_hist l2 !! 0%nat = Some h /\
                   add_number_to_p_hist log h (f32_of_Z (u64 ((t - stamp) * 1000000) / timer_hz)) = Some h' /\
                   r_hist l2' = <[0%nat := h']> (r_hist l2))
            (fun _ _ => False) s2)
      (fun _ _ => False) s1.
Proof.
  intros [num Hpk] Hport Htcp Hnum. destruct (packet_frame flags cntx sc st _ num b Hpe Hst Hpk) as (i & Hof & Hn & Hd).
  destruct Hd as [[? _]|(_ & rows & opts & Hrows & Hd)]; [congruence|].
  set (rest := tcp_rest rows opts _) in *. exists (le_combine (field 4 8 rest)).
  split; [destruct Hrows as [->| ->]; [by left|by right]|]. intros b1 p1 now1 l1 s1 Hb1 Hs1 Hp1 Hr1 Hq1. rewrite Hd in Hb1.
  eapply wp_server_echo; [done..|]. intros l1' s1' _ _ He Hed.
  exists (echo sc b1). split; [done|]. intros b2 p2 now2 l2 n s2 Hb2 Hs2 Hp2 Hr2 Hl2 H1n. rewrite Hed in Hb2.
  eapply wp_receive_echo; [exact Hof|exact Hport|exact Hb2| |done..|].
  { unfold rest, tcp_rest. rewrite length_app. cbn. lia. }
  intros l' s' v t evs Hv Htr Ht Htot Hh Hheap. rewrite Z.eqb_refl in Hh. destruct Hh as (h & h' & Hh). by exists t, evs, h, h'.
Qed.
End round_trip_code.

(** ** Witnesses *)

(** The server [some_client] talks to. *)
Definition some_peer : context :=
  Context_ 2 0 0 0 0 0 mac_b 167772162 8080 1 0 1 0 0 0 [0] 0 [] 0 0 0 1 0 0 0 0 0 0 0.

Lemma some_peers : peers some_client some_peer some_setup.
Proof.
  constructor; try done.
  exists 167772162. do 2 (split; [done|]). by split; [apply Z.leb_le|apply Z.ltb_lt].
Qed.

Definition some_choice : choice := Choice 167772162 0 mac_b (get_tci 3 0 100) 0 4 0.
Definition some_packet (flags : variant) : mbuf :=
  let i := pkt_info some_client some_setup some_choice 8080 in
  let bytes := (if use_tcp flags then tcp_header i (katran_bytes 3) else udp_header i) ++ payload_bytes 64 12345 in
  Mbuf (bytes ++ replicate (2048 - length bytes) 0) (Z.of_nat (length bytes)) 14 20 0.

Lemma some_packet_ok flags : packet_with flags some_client some_setup 8080 12345 (some_packet flags).
Proof.
  exists some_choice, 3. do 4 (split; [reflexivity|]).
  exists (pkt_info some_client some_setup some_choice 8080).
  set (i := pkt_info some_client some_setup some_choice 8080).
  exists (if use_tcp flags then tcp_header i (katran_bytes 3) else udp_header i).
  split; [by left|]. split.
  - unfold header_for. destruct (use_tcp flags); [|done]. exists (katran_bytes 3). split; [done|]. right.
    split; [done|]. exists 3. split; [by split; apply Z.leb_le|done].
  - split; [by split; [apply Z.leb_le|apply Z.ltb_lt]|]. unfold some_packet. fold i. destruct (use_tcp flags); vm_compute; reflexivity.
Qed.

(** The packet as the server gets it. *)
Definition arrived (flags : variant) : machine sim := holding quiet (mb_data (some_packet flags)).

Lemma arrived_data flags : mb_data (packet (mb_data (some_packet flags))) = mb_data (some_packet flags).
Proof. destruct flags as [[] ?]; vm_compute; reflexivity. Qed.
Lemma some_queue : can_queue (initial_locals some_peer 0).
Proof. split; [by split; [apply Z.leb_le|apply Z.ltb_lt]|reflexivity]. Qed.

Lemma round_trip_witness :
  let f := Variant false false in
  wp (process_pkt some_peer 0 0 (initial_locals some_peer 0)) (fun l' _ => k l' = 1) (fun _ _ => False) (arrived f).
Proof.
  intros f. destruct (round_trip (W := sim) log_const log_const_ok f some_client some_peer some_setup some_peers
    (some_setup_ok f eq_refl) some_rx_ok ltac:(done) 8080 12345 (some_packet f)) as (hdr & _ & _ & Hrun);
    [apply some_packet_ok|by split; [apply Z.leb_le|apply Z.ltb_lt]|done|done|].
  eapply wp_mono; [apply (Hrun _ 0%nat 0 (initial_locals some_peer 0) (arrived f) (arrived_data f));
    [apply holding_ok|apply holding_lookup|apply packet_ok|apply some_queue]| |done].
  cbv beta. by intros l' s' (_ & Hk & _).
Defined.

Lemma tcp_latency_meaningless_witness :
  let f := Variant true false in
  wp (process_pkt some_peer 0 0 (initial_locals some_peer 0)) (fun _ s' => exists e, heap s' !! 0%nat = Some e)
    (fun _ _ => False) (arrived f).
Proof.
  intros f. destruct (tcp_latency_meaningless (W := sim) log_const log_const_ok f some_client some_peer some_setup
    some_peers (some_setup_ok f eq_refl) some_rx_ok ltac:(done) (some_packet f)) as (stamp & _ & Hrun);
    [exists 12345; apply some_packet_ok|by split; [apply Z.leb_le|apply Z.ltb_lt]|done|done|].
  eapply wp_mono; [apply (Hrun _ 0%nat 0 (initial_locals some_peer 0) (arrived f) (arrived_data f));
    [apply holding_ok|apply holding_lookup|apply packet_ok|apply some_queue]| |done].
  cbv beta. intros l' s' (e & He & _). by exists e.
Defined.
