(* ===== verification/Client.v ===== *)
(** * The load-generating client as two threads (client.c)

    The main thread and the receiver thread of [do_client] as a step relation: a
    step is one iteration of either loop, and they interleave in any order. The
    main thread leaves its loop when the experiment is over, clears the receiver's
    flag, joins it, and writes the report. *)
From S2P Require Import Prelude CInt CFloat Monad Zipf Percentile Dpdk Sim Arp Exp Config Packet TcpPacket Payload.
From S2P Require Import Server ClientTx ClientRx ClientSetup.

(** ** The report *)

(** The percentiles, [double] literals passed as [float]. *)
Definition percentiles : list spec_float :=
  f32_of_f64 <$> [f64_lit 1 100; f64_lit 50 100; f64_lit 90 100; f64_lit 95 100; f64_lit 99 100; f64_lit 999 1000;
    f64_lit 9999 10000].

(** The lines about one destination. *)
Record latency_lines := LatencyLines { ll_ip : list Z; ll_percentiles : list spec_float }.
Record count_lines := CountLines { cl_ip : list Z; cl_tx : Z; cl_rx : Z; cl_failed : Z; cl_warmup : Z }.

Section client.
Context `{DpdkLib} {W : Type} `{DpdkEnv W}.
Variable log : spec_float -> spec_float.
Variable pow : spec_float -> spec_float -> spec_float.
Variable flags : variant.
Variable cntx : context.

(** The bytes of an address in the order they are printed. *)
Definition ip_bytes (ip : Z) : list Z := le_split 4 (rte_be_to_cpu_32 ip).

Definition final_report (tx : tx_locals) (rx : rx_locals) : option (list latency_lines * list count_lines) :=
  let ks := seqZ 0 (count_dst_ip cntx) in
  lat ← (if bidi cntx =? 0 then Some [] else
    mapM (fun k =>
      ip ← lookupZ (dst_ips cntx) k;
      h ← lookupZ (r_hist rx) k;
      Some (LatencyLines (ip_bytes ip) (get_percentile pow h <$> percentiles))) ks);
  cnt ← mapM (fun k =>
      ip ← lookupZ (dst_ips cntx) k;
      sent ← lookupZ (l_total_sent_pkts tx) k;
      recv ← lookupZ (r_total_received rx) k;
      failed ← lookupZ (l_failed_to_push tx) k;
      Some (CountLines (ip_bytes ip) sent recv failed ignore_result_duration)) ks;
  Some (lat, cnt).

(** ** The two threads *)
Inductive phase :=
| Sending
| Joining                       (* recv_arg.running is cleared *)
| Finished (report : list latency_lines * list count_lines).

Record client_state := ClientState {
  cs_phase : phase;
  cs_tx : tx_locals;
  cs_rx : rx_locals;
  rx_alive : bool;              (* the receiver thread was created and has not returned *)
  rx_running : bool;            (* recv_arg.running *)
  cs_machine : machine W;
}.

(** After the set-up; the receiver is only started for bidirectional runs. *)
Definition client_begin (c : client_start) (s : machine W) : client_state :=
  ClientState Sending (c_tx c) (c_rx c) (negb (bidi cntx =? 0)) true s.

Inductive client_step (st : tx_setup) : client_state -> client_state -> Prop :=
| StepTx fuel tx rx alive run s tx' s' :
    tx_iter flags cntx fuel st tx s = (Ret (inl tx'), s') ->
    client_step st (ClientState Sending tx rx alive run s) (ClientState Sending tx' rx alive run s')
| StepTxEnd fuel tx rx alive run s tx' s' :
    tx_iter flags cntx fuel st tx s = (Ret (inr tx'), s') ->
    client_step st (ClientState Sending tx rx alive run s) (ClientState Joining tx' rx alive false s')
| StepRx ph tx rx s rx' s' :
    rx_iter log flags cntx rx s = (Ret rx', s') ->
    client_step st (ClientState ph tx rx true true s) (ClientState ph tx rx' true true s')
| StepRxEnd ph tx rx s :
    client_step st (ClientState ph tx rx true false s) (ClientState ph tx rx false false s)
| StepReport tx rx run s r :
    final_report tx rx = Some r ->
    client_step st (ClientState Joining tx rx false run s) (ClientState (Finished r) tx rx false run s).

(** An undefined operation, an assertion or an exit in either thread. *)
Inductive client_fails (st : tx_setup) : client_state -> Prop :=
| FailTx fuel tx rx alive run s k s' :
    tx_iter flags cntx fuel st tx s = (Stop k, s') -> k <> OutOfFuel ->
    client_fails st (ClientState Sending tx rx alive run s)
| FailRx ph tx rx s k s' :
    rx_iter log flags cntx rx s = (Stop k, s') -> client_fails st (ClientState ph tx rx true true s)
| FailReport tx rx run s :
    final_report tx rx = None -> client_fails st (ClientState Joining tx rx false run s).

(** The packets received since [s0]. *)
Definition since (s0 : machine W) (c : client_state) : list event := drop (length (trace s0)) (trace (cs_machine c)).
Definition received_count (s0 : machine W) (c : client_state) : Z := Z.of_nat (length (received (since s0 c))).

(** What the trace says the counters are: a look at the flag is followed by the
    reading of the clock that stands for its iteration, and what is offered to the
    card in the iteration counts once that reading is past [start]. ARP packets
    are no data. *)
Definition data_count (bs : list mbuf) : Z := Z.of_nat (length (filter is_data bs)).
Record tally := Tally { ty_polled : bool; ty_now : Z; ty_sent : Z; ty_failed : Z }.
Definition tally_event (start : Z) (ty : tally) (e : event) : tally :=
  match e with
  | EvPoll run => Tally run (ty_now ty) (ty_sent ty) (ty_failed ty)
  | EvClock now => if ty_polled ty then Tally false now (ty_sent ty) (ty_failed ty) else ty
  | EvTx _ _ taken refused =>
      if start <? ty_now ty then
        Tally (ty_polled ty) (ty_now ty) (ty_sent ty + data_count taken) (ty_failed ty + data_count refused)
      else ty
  | _ => ty
  end.
Definition tally_of (start : Z) (evs : list event) : tally := foldl (tally_event start) (Tally false 0 0 0) evs.

(** The runs in which the histograms, which count in [int], have room for
    another burst at every step. *)
Definition roomy (s0 : machine W) (c : client_state) : Prop := received_count s0 c + MAX_BURST_SIZE <= INT_MAX.
Definition client_runs (st : tx_setup) (s0 : machine W) : client_state -> client_state -> Prop :=
  rtc (fun c c' => client_step st c c' /\ roomy s0 c).
End client.

Section client_proofs.
Context `{DpdkLaws} {W : Type} `{EnvLaws W}.
Variable log : spec_float -> spec_float.
Hypothesis Hlog : log_ok log.
Variable pow : spec_float -> spec_float -> spec_float.
Variable flags : variant.
Variable cntx : context.
Implicit Types (s : machine W) (c : client_state (W := W)) (st : tx_setup).

(** The counters of the main thread are those of the trace, and [start] is the
    time the experiment began for as long as it sends. *)
Record tallied (start : Z) (evs : list event) (l : tx_locals) : Prop := {
  td_polled : ty_polled (tally_of start evs) = false;
  td_sent : l_total_sent_pkts l = [u64 (ty_sent (tally_of start evs))];
  td_failed : l_failed_to_push l = [u64 (ty_failed (tally_of start evs))];
  td_start : l_can_send l = true -> u64 (l_start_time l) = start;
}.

(** The invariant of a run that began at [start] and added [evs] to the trace of
    [s0]. *)
Record client_inv st start s0 (evs : list event) c : Prop := {
  ci_run : keeps s0 (cs_machine c) evs;
  ci_tx : tx_inv cntx (cs_tx c);
  ci_rx : rx_inv cntx (INT_MAX - Z.of_nat (length (received evs))) (cs_rx c);
  ci_sent : Forall (fun b => our_packet flags cntx st b \/ ~ is_data b) (sent evs);
  ci_total : r_total_received (cs_rx c) = [if payload_number flags then 0 else u64 (count_of cntx 0 (received evs))];
  ci_counter : tallied start evs (cs_tx c);
  ci_phase : match cs_phase c with
             | Sending => rx_running c = true
             | Joining => rx_running c = false
             | Finished r => rx_alive c = false /\ final_report pow cntx (cs_tx c) (cs_rx c) = Some r
             end;
}.

Lemma since_eq start s0 c evs st : client_inv st start s0 evs c -> since s0 c = evs.
Proof. intros Hi. destruct (ci_run _ _ _ _ _ Hi) as (_ & _ & _ & Ht). unfold since. rewrite Ht. by rewrite drop_app_length. Qed.

Lemma count_of_app k b1 b2 : count_of cntx k (b1 ++ b2) = count_of cntx k b1 + count_of cntx k b2.
Proof. unfold count_of. rewrite filter_app, length_app. lia. Qed.

(** The packets of the client are no ARP packets. *)
Lemma our_packet_data st b : tx_ok flags cntx st -> our_packet flags cntx st b -> is_data b.
Proof.
  intros Hst (port & _ & num & ch & pr & _ & Hmac & _ & _ & i & hdr & Hsrc & Hhdr & _ & Hd).
  destruct (to_eth _ _ _ Hst) as (mac & Hm & Hl). rewrite Hm in Hmac. injection Hmac as ->.
  assert (Hr : exists t, mb_room b = eth_bytes i ++ t).
  { assert (Hb : mb_room b = mb_data b ++ drop (Z.to_nat (data_len b)) (mb_room b)) by (unfold mb_data; by rewrite take_drop).
    rewrite Hd in Hb. rewrite Hb. unfold header_for in Hhdr. destruct (use_tcp flags); [destruct Hhdr as (bytes & -> & _)|subst hdr];
      eexists; unfold tcp_header, udp_header; by rewrite <- !app_assoc. }
  destruct Hr as [t Hr]. unfold is_data, is_arp. rewrite Hr. unfold eth_bytes.
  assert (Hs : length (pi_dst_mac i) = 6%nat /\ length (pi_src_mac i) = 6%nat).
  { pose proof (to_my_eth _ _ _ Hst). by destruct Hsrc as [->|(_ & ip & p & ->)]. }
  destruct Hs as [H6 H6']. rewrite <- !app_assoc. unfold be, field. change 12%nat with (6 + 6)%nat.
  rewrite <- drop_drop, !drop_app_length' by done. by destruct (pi_use_vlan i).
Qed.

Lemma data_count_all bs : Forall is_data bs -> data_count bs = Z.of_nat (length bs).
Proof. intros Hd. unfold data_count. by rewrite filter_all. Qed.
Lemma data_count_none bs : Forall (fun b => ~ is_data b) bs -> data_count bs = 0.
Proof. unfold data_count. induction 1 as [|b bs Hb _ IH]; [done|]. by rewrite filter_cons_False. Qed.

(** What is no burst of the main thread does not count. *)
Lemma tally_other start ty evs :
  ty_polled ty = false -> polls evs = [] -> Forall (fun b => ~ is_data b) (offered evs) ->
  foldl (tally_event start) ty evs = ty.
Proof.
  intros Hp. induction evs as [|e evs IH] using rev_ind; [done|]. rewrite foldl_app. autorewrite with cnet. intros Hpo Hof.
  apply Forall_app in Hof as [Hof He]. apply app_nil in Hpo as [Hpo Hpe]. rewrite IH by done.
  destruct e as [| port q taken refused|t|run| | | |]; cbn; try done; [|by rewrite Hp].
  apply Forall_app in He as [H1' H2']. rewrite !data_count_none by done. case_if; [|done]. destruct ty. cbn. by rewrite !Z.add_0_r.
Qed.
Lemma tally_app start e1 e2 : tally_of start (e1 ++ e2) = foldl (tally_event start) (tally_of start e1) e2.
Proof. apply foldl_app. Qed.

(** A sending iteration counts its burst, which is the only one, as the trace
    does. *)
Lemma iterated_tallied st start now l l' evs e2 :
  tx_ok flags cntx st -> tx_inv cntx l -> iterated flags cntx st now l l' e2 -> l_can_send l = true ->
  tallied start evs l -> tallied start (evs ++ EvPoll true :: EvClock now :: e2) l'.
Proof.
  intros Hst Hl Hit Hcan [Hp Hs Hf Hstart]. specialize (Hstart Hcan).
  destruct (report_lines_quiet cntx now l) as (_ & Ho & _ & _ & Hpo).
  set (ty := tally_of start evs) in *. set (ty2 := Tally false now (ty_sent ty) (ty_failed ty)).
  assert (Hl2 : forall l2, l2 = reported now (next_flow cntx l) -> l_total_sent_pkts l2 = l_total_sent_pkts l /\
    l_failed_to_push l2 = l_failed_to_push l /\ l_start_time l2 = l_start_time l /\ l_can_send l2 = l_can_send l).
  { intros l2 ->. unfold reported. by case_if. }
  destruct (Hl2 _ eq_refl) as (E1 & E2 & E3 & E4). set (l2 := reported _ _) in *.
  assert (Hlines : forall e3, tally_of start (evs ++ EvPoll true :: EvClock now :: report_lines cntx now l ++ e3) =
    foldl (tally_event start) ty2 e3).
  { intros e3. rewrite tally_app. cbn [foldl tally_event]. rewrite foldl_app. f_equal. apply tally_other; [done|done|by rewrite Ho]. }
  assert (Hsame : forall e3, foldl (tally_event start) ty2 e3 = ty2 ->
    tallied start (evs ++ EvPoll true :: EvClock now :: report_lines cntx now l ++ e3) l2).
  { intros e3 He3. constructor; rewrite ?Hlines, ?He3, ?E1, ?E2, ?E3; done. }
  destruct Hit as [_|burst _ _|q burst taken refused e3 _ _ _ Hpu].
  - rewrite <- (app_nil_r (report_lines _ _ _)). by apply Hsame.
  - by apply Hsame.
  - destruct (pushed_events _ _ _ _ _ _ _ _ _ (next_port_range cntx l Hl) Hpu) as (_ & _ & _ & Hall).
    assert (Hd : Forall is_data taken /\ Forall is_data refused).
    { apply Forall_app. eapply Forall_impl; [exact Hall|]. intros b. by apply our_packet_data. }
    destruct Hd as [Hd1 Hd2]. destruct (pu_packets _ _ _ _ _ _ _ _ _ Hpu) as (nums & _ & _ & ->).
    destruct (stamps_quiet flags nums) as (_ & Hso & _ & Hsp).
    assert (Hty : tally_of start (evs ++ EvPoll true :: EvClock now :: report_lines cntx now l ++
        stamps flags nums ++ [EvTx (dpdk_port_id cntx) q taken refused]) =
      if start <? now then Tally false now (ty_sent ty + Z.of_nat (length taken)) (ty_failed ty + Z.of_nat (length refused))
      else ty2).
    { rewrite Hlines, foldl_app, (tally_other _ ty2) by (done || by rewrite Hso). cbn. by rewrite !data_count_all. }
    fold l2. clearbody l2. constructor; cbn [accounted account l_total_sent_pkts l_failed_to_push l_start_time l_can_send]; rewrite ?Hty.
    + by case_if.
    + rewrite E1, Hs. unfold bump. rewrite E3, Hstart. cbn. case_if; [by rewrite u64_add_l|done].
    + rewrite E2, Hf. unfold bump. rewrite E3, Hstart. cbn. case_if; [by rewrite u64_add_l|done].
    + by rewrite E3.
Qed.

Lemma stepped_tallied st start l evs e2 r :
  tx_ok flags cntx st -> tx_inv cntx l -> stepped flags cntx st l e2 r -> tallied start evs l ->
  tallied start (evs ++ e2) (either r).
Proof.
  intros Hst Hl Hstep Ht. destruct Hstep as [|now _ Hcan|now t _ Hcan|now _ Hcan|now l' e2 _ Hcan Hit];
    [| | | |by eapply iterated_tallied].
  all: destruct Ht as [Hp Hs Hf Hstart]; constructor; rewrite ?tally_app; cbn; try done; intros; congruence.
Qed.

(** The start of a run. *)
Lemma client_inv_begin st s0 (b : client_start) :
  started flags cntx b -> rng_ok (rng s0) ->
  client_inv st (u64 (l_start_time (c_tx b))) s0 [] (client_begin cntx b s0).
Proof.
  intros [Htx Hl Hrx Htot [Hs Hf] _] Hr. constructor; cbn [client_begin cs_machine cs_tx cs_rx cs_phase rx_running].
  - by apply keeps_refl.
  - done.
  - cbn. by rewrite Z.sub_0_r.
  - done.
  - rewrite Htot. by destruct (payload_number flags).
  - by constructor.
  - done.
Qed.

(** The main thread keeps the invariant. *)
Lemma client_inv_tx st start s0 evs fuel tx rx alive run s r s' :
  tx_ok flags cntx st -> heap_ok s0 -> client_inv st start s0 evs (ClientState Sending tx rx alive run s) ->
  tx_iter flags cntx fuel st tx s = (Ret r, s') ->
  exists e2, received e2 = [] /\
    forall ph run', match ph with Sending => run' = true | Joining => run' = false | Finished _ => False end ->
    client_inv st start s0 (evs ++ e2) (ClientState ph (either r) rx alive run' s').
Proof.
  intros Hst Hs0 [Hrun Htx Hrx Hsent Htot Hcnt _] Hstep. cbn [cs_machine cs_tx cs_rx] in *.
  assert (Hwp : wp (tx_iter flags cntx fuel st tx)
    (fun r s' => exists e2, stepped flags cntx st tx e2 r /\ keeps s s' e2) (fun _ _ => True) s).
  { apply wp_tx_iter; [done|done|by eapply keeps_ok|apply Hrun| |done]. intros r1 s1 e2 ? ?. by exists e2. }
  unfold wp in Hwp. rewrite Hstep in Hwp. destruct Hwp as (e2 & Hstd & Hk).
  pose proof (stepped_events flags cntx st tx e2 r Htx Hstd) as [Hrc Hse].
  exists e2. split; [done|]. intros ph run' Hph.
  constructor; cbn [cs_machine cs_tx cs_rx cs_phase rx_running rx_alive]; rewrite ?received_app, ?sent_app, ?Hrc, ?app_nil_r.
  - by eapply keeps_trans.
  - by eapply stepped_inv.
  - done.
  - apply Forall_app. split; [done|]. eapply Forall_impl; [exact Hse|]. cbn. auto.
  - done.
  - by eapply stepped_tallied.
  - by destruct ph.
Qed.

(** So does the receiver, while the histograms have room. *)
Lemma client_inv_rx st start s0 evs ph tx rx s rx' s' :
  rx_ok cntx -> heap_ok s0 -> client_inv st start s0 evs (ClientState ph tx rx true true s) ->
  Z.of_nat (length (received evs)) + MAX_BURST_SIZE <= INT_MAX ->
  rx_iter log flags cntx rx s = (Ret rx', s') ->
  exists e2, client_inv st start s0 (evs ++ e2) (ClientState ph tx rx' true true s').
Proof.
  intros Hok Hs0 [Hrun Htx Hrx Hsent Htot Hcnt Hph] Hroom Hstep. cbn [cs_machine cs_tx cs_rx cs_phase rx_running rx_alive] in *.
  set (n := INT_MAX - Z.of_nat (length (received evs))) in *.
  assert (Hwp : wp (rx_iter log flags cntx rx) (fun rx' s' => exists e2, rx_effect log flags cntx rx rx' e2 /\
    rx_inv cntx (n - Z.of_nat (length (received e2))) rx' /\ frees_all s s' e2) (fun _ _ => False) s).
  { apply (wp_rx_iter log Hlog flags cntx n); [done|done|lia|by eapply keeps_ok|]. intros l' s1 e2 ? ? ?. by exists e2. }
  unfold wp in Hwp. rewrite Hstep in Hwp. destruct Hwp as (e2 & [(began & ts & _ & Hc) Hlen Hse Hof Hpo] & Hrx' & Hh & Hn & Hrg & Ht).
  exists e2. constructor; cbn [cs_machine cs_tx cs_rx cs_phase rx_running rx_alive]; rewrite ?received_app, ?sent_app.
  - eapply keeps_trans; [exact Hrun|]. unfold keeps. rewrite Hrg. split_and!; [done|done|apply Hrun|done].
  - done.
  - rewrite length_app, Nat2Z.inj_add. unfold n in Hrx'. by rewrite Z.sub_add_distr.
  - apply Forall_app. split; [done|]. eapply Forall_impl; [exact Hse|]. cbn. auto.
  - assert (Hk : r_total_received rx' !! 0%nat =
      Some (if payload_number flags then (if payload_number flags then 0 else u64 (count_of cntx 0 (received evs)))
            else u64 ((if payload_number flags then 0 else u64 (count_of cntx 0 (received evs))) + count_of cntx 0 (received e2)))).
    { eapply counts_all_total; [exact Hc|by rewrite Htot|]. destruct (payload_number flags); [lia|apply u64_range]. }
    assert (Hl1 : length (r_total_received rx') = 1%nat).
    { rewrite (ri_total _ _ _ Hrx'), <- (ri_total _ _ _ Hrx), Htot. done. }
    destruct (length_1 _ Hl1) as [x Hx]. rewrite Hx in Hk |- *. injection Hk as ->. f_equal.
    destruct (payload_number flags); [done|]. by rewrite u64_add_l, count_of_app.
  - destruct Hcnt as [Hp Hsn Hfl Hstart]. constructor; rewrite ?tally_app, ?tally_other by done; done.
  - destruct ph; [done|done|]. by destruct Hph.
Qed.

(** The report is always written. *)
Lemma final_report_total st start s0 evs c :
  tx_ok flags cntx st -> rx_ok cntx -> client_inv st start s0 evs c ->
  is_Some (final_report pow cntx (cs_tx c) (cs_rx c)).
Proof.
  intros Hst Hok [_ Htx Hrx _ Htot [_ Ev Ef _] _]. unfold final_report.
  destruct (to_ip _ _ _ Hst) as [ip Hip]. rewrite (to_dst _ _ _ Hst). change (seqZ 0 1) with [0]. cbn [mapM].
  rewrite Hip, Htot, Ev, Ef, !lookupZ_singleton.
  assert (Hh : exists h, lookupZ (r_hist (cs_rx c)) 0 = Some h).
  { apply lookupZ_is_Some. rewrite (ri_hist _ _ _ Hrx), <- (ro_dst _ Hok), (to_dst _ _ _ Hst). lia. }
  destruct Hh as [h ->]. destruct (bidi cntx =? 0); eexists; reflexivity.
Qed.

Lemma client_inv_step st start s0 evs c c' :
  tx_ok flags cntx st -> rx_ok cntx -> heap_ok s0 -> client_inv st start s0 evs c -> roomy s0 c ->
  client_step log pow flags cntx st c c' -> exists evs', client_inv st start s0 evs' c'.
Proof.
  intros Hst Hok Hs0 Hi Hroom Hstep. unfold roomy, received_count in Hroom. rewrite (since_eq _ _ _ _ _ Hi) in Hroom.
  destruct Hstep as [fuel tx rx alive run s tx' s' Hit|fuel tx rx alive run s tx' s' Hit|ph tx rx s rx' s' Hit
    |ph tx rx s|tx rx run s r Hr].
  - destruct (client_inv_tx _ _ _ _ _ _ _ _ _ _ _ _ Hst Hs0 Hi Hit) as (e2 & _ & Hn). exists (evs ++ e2).
    apply Hn. apply Hi.
  - destruct (client_inv_tx _ _ _ _ _ _ _ _ _ _ _ _ Hst Hs0 Hi Hit) as (e2 & _ & Hn). exists (evs ++ e2). by apply Hn.
  - destruct (client_inv_rx _ _ _ _ _ _ _ _ _ _ Hok Hs0 Hi Hroom Hit) as [e2 Hn]. by exists (evs ++ e2).
  - exists evs. destruct Hi as [? ? ? ? ? ? Hph]. constructor; try done. cbn in Hph |- *. destruct ph; [done|done|by destruct Hph].
  - exists evs. destruct Hi as [? ? ? ? ? ? Hph]. constructor; try done.
Qed.

Lemma client_runs_inv st s0 (b : client_start) c :
  started flags cntx b -> tx_ok flags cntx st -> rx_ok cntx -> heap_ok s0 -> rng_ok (rng s0) ->
  client_runs log pow flags cntx st s0 (client_begin cntx b s0) c ->
  exists evs, client_inv st (u64 (l_start_time (c_tx b))) s0 evs c.
Proof.
  intros Hb Hst Hok Hs0 Hr. unfold client_runs. revert c. apply rtc_ind_r.
  - exists []. by apply client_inv_begin.
  - intros c1 c2 _ [Hstep Hroom] [evs Hi]. by eapply client_inv_step.
Qed.

Lemma client_inv_safe st start s0 evs c :
  tx_ok flags cntx st -> rx_ok cntx -> heap_ok s0 -> client_inv st start s0 evs c -> roomy s0 c ->
  ~ client_fails log pow flags cntx st c.
Proof.
  intros Hst Hok Hs0 Hi Hroom Hf. unfold roomy, received_count in Hroom. rewrite (since_eq _ _ _ _ _ Hi) in Hroom.
  destruct Hf as [fuel tx rx alive run s k s' Hit Hk|ph tx rx s k s' Hit|tx rx run s Hr].
  - destruct Hi as [Hrun Htx _ _ _ _ _]. cbn in Hrun, Htx.
    assert (Hwp : wp (tx_iter flags cntx fuel st tx) (fun _ _ => True) (fun k _ => k = OutOfFuel) s).
    { apply wp_tx_iter; [done|done|by eapply keeps_ok|apply Hrun|done|done]. }
    unfold wp in Hwp. by rewrite Hit in Hwp.
  - destruct Hi as [Hrun _ Hrx _ _ _ _]. cbn in Hrun, Hrx.
    assert (Hwp : wp (rx_iter log flags cntx rx) (fun _ _ => True) (fun _ _ => False) s).
    { eapply (wp_rx_iter log Hlog flags cntx); [done|exact Hrx|lia|by eapply keeps_ok|done]. }
    unfold wp in Hwp. by rewrite Hit in Hwp.
  - destruct (final_report_total _ _ _ _ _ Hst Hok Hi) as [r Hr']. cbn in Hr'. congruence.
Qed.

(** From the moment the main thread left its loop there is one way to go on, to
    the report. *)
Lemma joining_ends st tx rx alive s r :
  final_report pow cntx tx rx = Some r ->
  let stp := client_step log pow flags cntx st in
  let c := ClientState Joining tx rx alive false s in let c' := ClientState (Finished r) tx rx false false s in
  bsteps stp 2 c c' /\ (forall c2, rtc stp c c2 -> bsteps stp 2 c2 c').
Proof.
  intros Hr stp c c'. set (c1 := ClientState Joining tx rx false false s).
  assert (H1c : bsteps stp 1 c1 c') by (eapply bsteps_l; [by apply StepReport|apply bsteps_refl]).
  assert (Hfin : forall c2, rtc stp c' c2 -> c2 = c').
  { intros c2 Hs. apply rtc_inv in Hs as [<-|(c3 & Hs & _)]; [done|]. by inversion Hs. }
  assert (Hone : forall c2, rtc stp c1 c2 -> bsteps stp 2 c2 c').
  { intros c2 Hs. apply rtc_inv in Hs as [<-|(c3 & Hs & Hs2)]; [by apply bsteps_S|].
    unfold stp, c1 in Hs. inversion Hs; subst. replace r0 with r in Hs2 by congruence.
    rewrite (Hfin _ Hs2). apply bsteps_refl. }
  assert (Hc : bsteps stp 2 c c').
  { destruct alive; [|by apply bsteps_S]. eapply bsteps_l; [apply StepRxEnd|exact H1c]. }
  split; [done|]. destruct alive; [|exact Hone]. intros c2 Hs.
  apply rtc_inv in Hs as [<-|(c3 & Hs & Hs2)]; [done|]. unfold stp, c in Hs. inversion Hs; subst. by apply Hone.
Qed.

(** What the report says. *)
Lemma report_lines_are st start s0 evs c lat cnt :
  tx_ok flags cntx st -> rx_ok cntx -> client_inv st start s0 evs c ->
  final_report pow cntx (cs_tx c) (cs_rx c) = Some (lat, cnt) ->
  exists ip h, dst_ips cntx = ip :: tail (dst_ips cntx) /\ r_hist (cs_rx c) = [h] /\
    lat = (if bidi cntx =? 0 then [] else [LatencyLines (be_split 4 ip) (get_percentile pow h <$> percentiles)]) /\
    cnt = [CountLines (be_split 4 ip) (u64 (ty_sent (tally_of start evs)))
             (if payload_number flags then 0 else u64 (count_of cntx 0 (received evs)))
             (u64 (ty_failed (tally_of start evs))) 0].
Proof.
  intros Hst Hok [_ Htx Hrx _ Htot [_ Ev Ef _] _] Hrep. destruct (to_ip _ _ _ Hst) as [ip Hip].
  assert (Hh : length (r_hist (cs_rx c)) = 1%nat).
  { rewrite (ri_hist _ _ _ Hrx). pose proof (ro_dst _ Hok) as Hd. rewrite (to_dst _ _ _ Hst) in Hd. lia. }
  apply length_1 in Hh as [h Hh]. exists ip, h. split.
  { apply lookupZ_Some in Hip as [_ Hip]. by destruct (dst_ips cntx); [|injection Hip as ->]. }
  split; [done|]. unfold final_report in Hrep. rewrite (to_dst _ _ _ Hst) in Hrep. change (seqZ 0 1) with [0] in Hrep.
  cbn [mapM] in Hrep. rewrite Hip, Htot, Ev, Ef, Hh, !lookupZ_singleton in Hrep.
  assert (Hb : ip_bytes ip = be_split 4 ip) by (unfold ip_bytes; by rewrite be_to_cpu_32_spec, le_split_bswap32).
  destruct (bidi cntx =? 0); cbn [mbind option_bind mret option_ret] in Hrep; injection Hrep as <- <-; by rewrite Hb.
Qed.

(** ** Properties *)
Section runs.
Context (b : client_start) (s0 : machine W) (c : client_state (W := W)).
Hypothesis Hb : started flags cntx b.
Hypothesis Hok : rx_ok cntx.
Hypothesis Hs0 : heap_ok s0.
Hypothesis Hr : rng_ok (rng s0).
Hypothesis Hruns : client_runs log pow flags cntx (c_setup b) s0 (client_begin cntx b s0) c.

Let Hinv := client_runs_inv _ _ _ _ Hb (st_tx _ _ _ Hb) Hok Hs0 Hr Hruns.

(** C1: The client is safe, and its counters are right, in every interleaving of
    its threads. However far it got, it owns no packet buffer beyond those it
    started with; every packet it sent is one of its own or an ARP reply; the
    receive counter equals the number of packets received from the destination
    (modulo 2^64, and 0 in the variant that sends numbers); the counters of packets
    sent and of packets refused equal, modulo 2^64, what the card took and refused of
    the bursts of iterations that began after the start of the experiment, as the
    trace of clock readings and bursts has it ([tally_of]); and neither thread can
    fail, until 2^31 packets have come back. *)
Theorem client_safe :
  let evs := since s0 c in
  let ty := tally_of (u64 (l_start_time (c_tx b))) evs in
  heap (cs_machine c) = heap s0 /\
  Forall (fun p => our_packet flags cntx (c_setup b) p \/ ~ is_data p) (sent evs) /\
  r_total_received (cs_rx c) = [if payload_number flags then 0 else u64 (count_of cntx 0 (received evs))] /\
  l_total_sent_pkts (cs_tx c) = [u64 (ty_sent ty)] /\ l_failed_to_push (cs_tx c) = [u64 (ty_failed ty)] /\
  (roomy s0 c -> ~ client_fails log pow flags cntx (c_setup b) c).
Proof.
  destruct Hinv as [evs Hi]. cbv zeta. rewrite (since_eq _ _ _ _ _ Hi). destruct (ci_counter _ _ _ _ _ Hi) as [_ Hs Hf _].
  split; [apply (ci_run _ _ _ _ _ Hi)|]. split; [apply Hi|]. split; [apply Hi|]. do 2 (split; [done|]).
  intros Hroom. eapply client_inv_safe; [apply Hb|done|done|exact Hi|done].
Qed.

(** C10: The client shuts down. Once the main thread has left its loop, the
    receiver does nothing more, and in at most two steps, whatever they are, the
    report is written. It has one line of latencies, for the destination (none in
    unidirectional runs), with the percentiles of its histogram, and one of
    counters: the bytes of its address in network order, the packets sent to it,
    the packets received from it and the packets the card refused, as the trace has
    them. *)
Theorem client_shuts_down :
  cs_phase c = Joining ->
  exists lat cnt c', bsteps (client_step log pow flags cntx (c_setup b)) 2 c c' /\
    (forall c2, rtc (client_step log pow flags cntx (c_setup b)) c c2 ->
      bsteps (client_step log pow flags cntx (c_setup b)) 2 c2 c') /\
    cs_phase c' = Finished (lat, cnt) /\ since s0 c' = since s0 c /\
    let evs := since s0 c in
    let ty := tally_of (u64 (l_start_time (c_tx b))) evs in
    exists ip h, dst_ips cntx = ip :: tail (dst_ips cntx) /\ r_hist (cs_rx c) = [h] /\
      lat = (if bidi cntx =? 0 then [] else [LatencyLines (be_split 4 ip) (get_percentile pow h <$> percentiles)]) /\
      cnt = [CountLines (be_split 4 ip) (u64 (ty_sent ty))
               (if payload_number flags then 0 else u64 (count_of cntx 0 (received evs))) (u64 (ty_failed ty)) 0].
Proof.
  intros Hph. destruct Hinv as [evs Hi]. pose proof (st_tx _ _ _ Hb) as Hst.
  destruct (final_report_total _ _ _ _ _ Hst Hok Hi) as [[lat cnt] Hrep]. cbv zeta.
  rewrite (since_eq _ _ _ _ _ Hi). destruct c as [ph tx rx alive run s]. cbn in Hph, Hrep. subst ph.
  exists lat, cnt, (ClientState (Finished (lat, cnt)) tx rx false false s).
  pose proof (ci_phase _ _ _ _ _ Hi) as Hrun. cbn in Hrun. subst run.
  destruct (joining_ends (c_setup b) tx rx alive s _ Hrep) as [Hend Hall].
  do 2 (split; [done|]). split; [done|]. split; [exact (since_eq _ _ _ _ _ Hi)|].
  by apply (report_lines_are (c_setup b) _ s0 evs (ClientState Joining tx rx alive false s)).
Qed.

(** C21: The client is never stuck: without a delay between bursts, a run that
    has not written its report has a next step. *)
Theorem client_progress :
  delay_cycles cntx = 0 -> roomy s0 c ->
  (exists r, cs_phase c = Finished r) \/ exists c', client_step log pow flags cntx (c_setup b) c c'.
Proof.
  intros Hd Hroom. destruct Hinv as [evs Hi]. pose proof (st_tx _ _ _ Hb) as Hst.
  destruct (cs_phase c) as [| |r] eqn:Hph; [| |by left; exists r]; right.
  - destruct c as [ph tx rx alive run s]. cbn in Hph. subst ph. destruct Hi as [Hrun Htx _ _ _ _ _]. cbn in Hrun, Htx.
    assert (Hwp : wp (tx_iter flags cntx 0 (c_setup b) tx) (fun _ _ => True) (fun _ _ => False) s).
    { apply wp_tx_iter; [done|done|by eapply keeps_ok|apply Hrun|done|lia]. }
    destruct (wp_result _ _ _ Hwp) as ([tx'|tx'] & s' & Hit & _); eexists; [by eapply StepTx|by eapply StepTxEnd].
  - destruct (final_report_total _ _ _ _ _ Hst Hok Hi) as [rep Hrep].
    destruct c as [ph tx rx alive run s]. cbn in Hph, Hrep. subst ph.
    pose proof (ci_phase _ _ _ _ _ Hi) as Hrun. cbn in Hrun. subst run.
    destruct alive; eexists; [apply StepRxEnd|by apply StepReport].
Qed.
End runs.
End client_proofs.

(** ** Witnesses *)
Definition hist0 : p_hist := {| count_bucket := 3; count_values := 0; buckets := [0; 0; 0] |}.
Definition some_start : client_start := ClientStart some_setup some_locals (RxLocals 0 0 [hist0] [0]).
Definition udp_numbers : variant := Variant false false.

Lemma some_started flags : payload_number flags = false -> started flags some_client some_start.
Proof.
  intros Hnum. constructor.
  - by apply some_setup_ok.
  - apply some_locals_ok.
  - constructor; [done|done|]. apply Forall_singleton. split; [|by apply Z.leb_le].
    constructor; [done|by apply Z.leb_le| |done]. repeat constructor; by apply Z.leb_le.
  - done.
  - by split.
  - split; [done|]. intros i Hi. change (count_flow some_client) with 2 in Hi.
    assert (i = 0 \/ i = 1) as [->| ->] by lia; reflexivity.
Qed.

Lemma list_1_inj {A} (x y : A) : [x] = [y] -> x = y.
Proof. by injection 1. Qed.

(** A set-up that draws no random numbers. *)
Definition plain_setup : tx_setup := {|
  flow_q := [0; 0]; server_eths := [mac_b]; prio := [3]; burst_sizes := [4]; dst_zipf := zipf3; queue_zipf := zipf3;
  select_client_addr_info := None; num_zgen := None; katran_opt := 0 |}.
Definition plain_start : client_start := ClientStart plain_setup some_locals (RxLocals 0 0 [hist0] [0]).
Lemma plain_started : started udp_numbers some_client plain_start.
Proof.
  destruct (some_started udp_numbers eq_refl) as [Htx]. constructor; try done.
  destruct Htx. by constructor.
Qed.

(** One burst, of which the card takes three packets; then the flag is cleared. *)
Definition busy : sim := Sim 10 1 [] [3] [true; false].
Definition tx_once (l : tx_locals) (s : machine sim) : tx_locals * machine sim :=
  match tx_iter udp_numbers some_client 50 plain_setup l s with
  | (Ret (inl l'), s') | (Ret (inr l'), s') => (l', s')
  | (Stop _, s') => (l, s')
  end.
Definition burst_sent : tx_locals * machine sim := tx_once some_locals (boot busy).
Definition loop_left : tx_locals * machine sim := tx_once burst_sent.1 burst_sent.2.
Definition busy_client : client_state :=
  ClientState Joining loop_left.1 (c_rx plain_start) true false loop_left.2.

Lemma busy_reached :
  client_runs log_const pow_iter udp_numbers some_client (c_setup plain_start) (boot busy)
    (client_begin some_client plain_start (boot busy)) busy_client.
Proof.
  eapply rtc_l; [|apply rtc_once].
  - split; [apply (StepTx _ _ _ _ _ 50 _ _ _ _ _ burst_sent.1 burst_sent.2); vm_compute; reflexivity|by apply Z.leb_le].
  - split; [apply (StepTxEnd _ _ _ _ _ 50); vm_compute; reflexivity|apply Z.leb_le; vm_compute; reflexivity].
Qed.
Lemma busy_counters :
  cs_phase busy_client = Joining /\ l_total_sent_pkts (cs_tx busy_client) = [3] /\ l_failed_to_push (cs_tx busy_client) = [1].
Proof. split; [done|]. split; vm_compute; reflexivity. Qed.

Lemma client_safe_witness :
  let ty := tally_of 0 (since (boot busy) busy_client) in
  heap (cs_machine busy_client) = heap (boot busy) /\ u64 (ty_sent ty) = 3 /\ u64 (ty_failed ty) = 1.
Proof.
  destruct (client_safe log_const log_const_ok pow_iter udp_numbers some_client plain_start (boot busy) busy_client)
    as (H1 & _ & _ & H4 & H5 & _); [apply plain_started|apply some_rx_ok|apply boot_ok|apply rng_init_ok
    |apply busy_reached|]. destruct busy_counters as (_ & E1 & E2). rewrite E1 in H4. rewrite E2 in H5.
  split; [exact H1|]. split; [exact (eq_sym (list_1_inj _ _ H4))|exact (eq_sym (list_1_inj _ _ H5))].
Defined.

Lemma client_shuts_down_witness :
  exists lat c' rx, bsteps (client_step log_const pow_iter udp_numbers some_client plain_setup) 2 busy_client c' /\
    cs_phase c' = Finished (lat, [CountLines [10; 0; 0; 2] 3 rx 1 0]).
Proof.
  destruct busy_counters as (Hph & E1 & E2).
  destruct (client_shuts_down log_const log_const_ok pow_iter udp_numbers some_client plain_start (boot busy)
    busy_client) as (lat & cnt & c' & H1 & _ & H2 & _ & H3); [apply plain_started|apply some_rx_ok|apply boot_ok
    |apply rng_init_ok|apply busy_reached|exact Hph|]. exists lat, c'.
  destruct (client_runs_inv log_const log_const_ok pow_iter udp_numbers some_client (c_setup plain_start) (boot busy)
    plain_start busy_client) as [evs Hi]; [apply plain_started|apply plain_started|apply some_rx_ok|apply boot_ok
    |apply rng_init_ok|apply busy_reached|].
  destruct (ci_counter _ _ _ _ _ _ _ _ Hi) as [_ F1 F2 _]. rewrite (since_eq _ _ _ _ _ _ _ _ Hi) in H3.
  rewrite E1 in F1. rewrite E2 in F2. destruct H3 as (ip & h & Hip & _ & _ & Hcnt). apply list_1_inj in F1, F2, Hip.
  rewrite <- F1, <- F2, <- Hip in Hcnt. rewrite Hcnt in H2. eexists. split; [exact H1|exact H2].
Defined.

(** As [some_client], without a delay. *)
Definition fast_client : context :=
  Context_ 1 0 0 0 0 0 mac_a 167772161 3000 1 0 1 0 0 0 [0] 10 [167772162] 1 0 64 1 2 8080 DIST_UNIFORM DIST_UNIFORM
    1 100 4.
Lemma fast_started : started udp_numbers fast_client some_start.
Proof.
  destruct (some_started udp_numbers eq_refl) as [[] [] [] ? ? ?]. constructor; try done; by constructor.
Qed.

Lemma client_progress_witness :
  exists c', client_step log_const pow_iter udp_numbers fast_client some_setup
    (client_begin fast_client some_start (boot quiet)) c'.
Proof.
  destruct (client_progress log_const log_const_ok pow_iter udp_numbers fast_client some_start (boot quiet)
    (client_begin fast_client some_start (boot quiet))) as [[r Hr]|Hstep];
    [apply fast_started|by split; [split; [apply Z.leb_le|apply Z.ltb_lt]|]|apply boot_ok|apply rng_init_ok
    |apply rtc_refl|reflexivity|by apply Z.leb_le|done|exact Hstep].
Defined.
