(* ===== verification/Latency.v ===== *)
(** * The latency client (latency_client.c)

    A burst of packets is sent, and the worker waits for as many answers before
    it sends the next. Each answer carries the time its request was built; the
    difference is a measurement. A second without an answer gives the burst up. *)
From S2P Require Import Prelude CInt Monad Dpdk Sim Arp Exp Config Packet Server.

(** This file has its own [BURST_SIZE]. *)
Definition LAT_BURST_SIZE : Z := 64.
Definition max_measure_size : Z := 1000000000.

(** The two flags of the file and what SIGINT does to them. In the loop the
    environment answers for [running] ([poll_running]). *)
Record sig_flags := SigFlags { in_the_loop : bool; sig_running : bool }.
Definition handle_int : M sig_flags unit :=
  _ ← modify (fun f => SigFlags (in_the_loop f) false);
  f ← get;
  guard_exit (in_the_loop f) EXIT_FAILURE.

(** The locals of the loop that live on: packets not yet answered, and the
    measurements stored so far; their index is how many there are. *)
Definition progress : Type := Z * list Z.

Section latency.
Context `{DpdkLib} {W : Type} `{DpdkEnv W}.
Variable config : app_config.
Variable cntx : context.
(** Whether [calloc] found room for the measurements: its result is not looked at. *)
Variable calloc_ok : bool.

Definition lat_payload_length : Z := u32 (payload_length cntx).
Definition hdr_size_delta : Z := u16 (hdr_encp_sz (client config)).

(** Headers up to UDP; the offsets of the IPv4 and the UDP header. *)
Definition lat_headers (server_eth : ether_addr) (dst_ip : Z) : M mbuf (Z * Z) :=
  (* ether header *)
  buf_ptr ← rte_pktmbuf_append RTE_ETHER_HDR_LEN;
  eth_hdr ← demand buf_ptr;
  _ ← mwrite (eth_hdr + eth_src) (my_eth cntx);
  _ ← mwrite (eth_hdr + eth_dst) server_eth;
  _ ← mstore 2 (eth_hdr + eth_type) (rte_cpu_to_be_16 RTE_ETHER_TYPE_IPV4);
  (* ipv4 header *)
  buf_ptr ← rte_pktmbuf_append sizeof_ipv4_hdr;
  ipv4_hdr ← demand buf_ptr;
  _ ← mstore 1 ipv4_hdr 0x45;
  _ ← mstore 1 (ipv4_hdr + 1) 0;
  _ ← mstore 2 (ipv4_hdr + ip_total_length)
    (rte_cpu_to_be_16 (u16 (u64 (sizeof_ipv4_hdr + sizeof_udp_hdr + lat_payload_length))));
  _ ← mstore 2 (ipv4_hdr + 4) 0;
  _ ← mstore 2 (ipv4_hdr + 6) 0;
  _ ← mstore 1 (ipv4_hdr + 8) 64;
  _ ← mstore 1 (ipv4_hdr + ip_proto) IPPROTO_UDP;
  _ ← mstore 2 (ipv4_hdr + ip_cksum) 0;
  _ ← mstore 4 (ipv4_hdr + ip_src) (rte_cpu_to_be_32 (src_ip cntx));
  _ ← mstore 4 (ipv4_hdr + ip_dst) (rte_cpu_to_be_32 dst_ip);
  (* udp header *)
  buf_ptr ← rte_pktmbuf_append (u16 (u64 (sizeof_udp_hdr + lat_payload_length)));
  udp_hdr ← demand buf_ptr;
  _ ← mstore 2 (udp_hdr + l4_src_port) (rte_cpu_to_be_16 (src_port cntx));
  _ ← mstore 2 (udp_hdr + l4_dst_port) (rte_cpu_to_be_16 (dst_port cntx));
  _ ← mstore 2 (udp_hdr + udp_len)
    (rte_cpu_to_be_16 (u16 (u64 (sizeof_udp_hdr + lat_payload_length))));
  _ ← mstore 2 (udp_hdr + udp_cksum) 0;
  mret (ipv4_hdr, udp_hdr).

(** [memset]; filling past the end of the buffer is undefined. *)
Definition memset (off c n : Z) : M mbuf unit :=
  b ← get;
  if off + n <=? Z.of_nat (length (mb_room b)) then mwrite off (replicate (Z.to_nat n) c)
  else stop Undef.

(** The time stamp, the filling, the flags and the checksums. *)
Definition lat_payload (ipv4_hdr udp_hdr timestamp : Z) : M mbuf unit :=
  _ ← mstore 8 (udp_hdr + sizeof_udp_hdr) timestamp;
  _ ← memset (udp_hdr + sizeof_udp_hdr + 8) 0xAB (u64 (lat_payload_length - 8));
  _ ← set_l2_len RTE_ETHER_HDR_LEN;
  _ ← set_l3_len sizeof_ipv4_hdr;
  _ ← set_ol_flags (Z.lor (Z.lor RTE_MBUF_F_TX_IP_CKSUM RTE_MBUF_F_TX_IPV4) RTE_MBUF_F_TX_UDP_CKSUM);
  ip ← mread ipv4_hdr sizeof_ipv4_hdr;
  _ ← mstore 2 (ipv4_hdr + ip_cksum) (rte_ipv4_cksum ip);
  ip ← mread ipv4_hdr sizeof_ipv4_hdr;
  udp ← mread udp_hdr (sizeof_udp_hdr + lat_payload_length);
  mstore 2 (udp_hdr + udp_cksum) (rte_ipv4_udptcp_cksum ip udp).

Definition lat_build (server_eth : ether_addr) (dst_ip : Z) (buf : nat) (_ : unit) : M (machine W) unit :=
  '(ipv4_hdr, udp_hdr) ← on_mbuf buf (lat_headers server_eth dst_ip);
  timestamp ← rte_get_timer_cycles;
  on_mbuf buf (lat_payload ipv4_hdr udp_hdr timestamp).

(** [while (running)] around the poll: a burst, or [None] after a second. What
    a poll brings when the second is over is dropped as it is. *)
Definition wait_response (fuel : nat) (start_since_sent : Z) : M (machine W) (option (list nat)) :=
  loop fuel (fun _ : unit =>
    run ← poll_running;
    if negb run then mret (inr (Some [])) else
    bufs ← rte_eth_rx_burst (dpdk_port_id cntx) (default_qid cntx) LAT_BURST_SIZE;
    now ← rte_get_timer_cycles;
    if rte_get_timer_hz <? u64 (now - start_since_sent) then mret (inr None)
    else if bool_decide (bufs = []) then mret (inl tt) else mret (inr (Some bufs))) tt.

(** In nanoseconds. *)
Definition latency_ns (now timestamp : Z) : option Z :=
  if rte_get_timer_hz =? 0 then None
  else Some (u64 (u64 (u64 (u64 (now - timestamp) * 1000) * 1000) * 1000) / rte_get_timer_hz).

(** The body of the loop over a received burst. *)
Definition lat_receive (resp_recv_time : Z) (buf : nat) : progress -> M (machine W) progress := fun '(nb_tx, m) =>
  valid_pkt ← check_eth_hdr (src_ip cntx) (my_eth cntx) buf (tx_mem_pool cntx) 0;
  if negb valid_pkt then _ ← printf "invalid packet" []; free_and buf (nb_tx, m) else
  let nb_tx := u32 (nb_tx - 1) in
  ether_type ← on_mbuf buf (mload 2 eth_type);
  if negb (rte_be_to_cpu_16 ether_type =? RTE_ETHER_TYPE_IPV4) then free_and buf (nb_tx, m) else
  let udp_hdr := RTE_ETHER_HDR_LEN + sizeof_ipv4_hdr in
  timestamp ← on_mbuf buf (mload 8 (udp_hdr + sizeof_udp_hdr + hdr_size_delta));
  latency ← demand (latency_ns resp_recv_time timestamp);
  _ ← rte_pktmbuf_free buf;
  _ ← demand (if calloc_ok then Some tt else None);
  let m := m ++ [latency] in
  _ ← c_assert (Z.of_nat (length m) <? max_measure_size);
  mret (nb_tx, m).

(** From the label [recv] until no answer is missing; [true] when the wait was
    given up. *)
Definition lat_recv (fuel : nat) : progress -> M (machine W) (bool * list Z) :=
  loop fuel (fun '(nb_tx, m) =>
    start_since_sent ← rte_get_timer_cycles;
    r ← wait_response fuel start_since_sent;
    match r with
    | None => mret (inr (true, m))
    | Some bufs =>
        resp_recv_time ← rte_get_timer_cycles;
        '(nb_tx, m) ← forM bufs (lat_receive resp_recv_time) (nb_tx, m);
        again ← (if 0 <? nb_tx then poll_running else mret false);
        mret (if (again : bool) then inl (nb_tx, m) else inr (false, m))
    end).

(** The body of the main loop, with the measurements so far. *)
Definition lat_iter (fuel : nat) (server_eth : ether_addr) (dst_ip : Z) (m : list Z) : M (machine W) (list Z) :=
  bufs ← rte_pktmbuf_alloc_bulk (tx_mem_pool cntx) (batch cntx);
  match bufs with
  | None => mret m
  | Some bufs =>
      _ ← forM bufs (lat_build server_eth dst_ip) tt;
      nb_tx ← rte_eth_tx_burst (dpdk_port_id cntx) (default_qid cntx) bufs;
      '(pkt_lost, m) ← lat_recv fuel (nb_tx, m);
      if (pkt_lost : bool) then mret m else
      let delay_cycles := cfg_delay_cycles (client config) in
      _ ← when (0 <? delay_cycles) (apply_delay_cycles fuel delay_cycles 1);
      mret m
  end.

Definition report_measurements (m : list Z) : M (machine W) unit :=
  _ ← printf "-------------------------------------" [];
  _ ← forM m (fun x _ => printf "%ld" [x]) tt;
  printf "-------------------------------------" [].

(** From the ARP request on. *)
Definition lat_session (fuel : nat) (dst_ip : Z) : M (machine W) Z :=
  _ ← printf "sending ARP requests" [];
  server_eth ← get_dst_mac fuel (dpdk_port_id cntx) (src_ip cntx) (my_eth cntx) dst_ip broadcast_mac
    (tx_mem_pool cntx) 0 1;
  _ ← printf "mac address for server %s received: " [dst_ip];
  _ ← printf "%x:%x:%x:%x:%x:%x" server_eth;
  _ ← printf "ARP requests finished" [];
  _ ← c_assert (count_queues cntx =? 1);
  m ← loop fuel (fun m =>
    run ← poll_running;
    if negb run then mret (inr m) else
    m ← lat_iter fuel server_eth dst_ip m; mret (inl m)) [];
  _ ← report_measurements m;
  mret 0.

Definition do_latency_client (fuel : nat) : M (machine W) Z :=
  _ ← guard_exit (count_dst_ip cntx =? 1) EXIT_FAILURE;
  dst_ip ← demand (lookupZ (dst_ips cntx) 0);
  if LAT_BURST_SIZE <? batch cntx then
    _ ← printf "maximum burst/batch size for latency client is %d" [LAT_BURST_SIZE]; mret 1
  else
  _ ← when (negb (hdr_size_delta =? 0))
    (printf "Expect the server to change the location of timestamp by %d bytes" [hdr_size_delta]);
  lat_session fuel dst_ip.
End latency.

(** ** Reference encoder *)
Definition with_cksum (off : nat) (c : Z) (l : list Z) : list Z := take off l ++ le_split 2 c ++ drop (off + 2) l.

Section lat_spec.
Context `{DpdkLib} {W : Type} `{DpdkEnv W}.
Variable config : app_config.
Variable cntx : context.

Definition lat_ip (dst_ip : Z) : list Z :=
  let ip := ipv4_bytes (28 + payload_length cntx) IPPROTO_UDP (src_ip cntx) dst_ip in
  with_cksum 10 (rte_ipv4_cksum ip) ip.
Definition lat_data (ts : Z) : list Z := le_split 8 ts ++ replicate (Z.to_nat (payload_length cntx - 8)) 0xAB.
Definition lat_udp (dst_ip ts : Z) : list Z :=
  let udp := udp_bytes (src_port cntx) (dst_port cntx) (8 + payload_length cntx) ++ lat_data ts in
  with_cksum 6 (rte_ipv4_udptcp_cksum (lat_ip dst_ip) udp) udp.
(** The packet built at time [ts]: checksums over headers whose checksum is 0. *)
Definition lat_frame (server_eth : ether_addr) (dst_ip ts : Z) : list Z :=
  server_eth ++ my_eth cntx ++ be_split 2 RTE_ETHER_TYPE_IPV4 ++ lat_ip dst_ip ++ lat_udp dst_ip ts.

(** What a received packet counts for: every packet that is for us takes one
    off the packets not yet answered, an IPv4 packet is a measurement. *)
Definition lat_valid (r : list Z) : bool := valid_eth (my_eth cntx) r.
Definition lat_answer (r : list Z) : bool := lat_valid r && (be 12 2 r =? RTE_ETHER_TYPE_IPV4).
Definition lat_stamp (r : list Z) : Z := le_combine (field (42 + Z.to_nat (hdr_size_delta config)) 8 r).
Definition lat_of (now : Z) (r : list Z) : Z := u64 ((now - lat_stamp r) * 1000000000) / timer_hz.
Definition valid_count (bs : list mbuf) : Z :=
  Z.of_nat (length (filter (fun b => lat_valid (mb_room b) = true) bs)).
Definition measures (now : Z) (bs : list mbuf) : list Z :=
  (fun b => lat_of now (mb_room b)) <$> filter (fun b => lat_answer (mb_room b) = true) bs.

(** Bursts with the times they were looked at. *)
Definition rounds : Type := list (Z * list mbuf).
Definition arrived (rs : rounds) : list mbuf := rs ≫= snd.
Definition measured (rs : rounds) : list Z := rs ≫= fun r => measures r.1 r.2.

(** What the worker relies on. *)
Record lat_ok : Prop := {
  lo_ip : 0 <= src_ip cntx < 2 ^ 32;
  lo_eth : length (my_eth cntx) = 6%nat;
  lo_payload : 8 <= payload_length cntx <= 2006;
  lo_delta : hdr_size_delta config <= 1998;
  lo_batch : 0 <= batch cntx <= LAT_BURST_SIZE;
}.
End lat_spec.

Section lat_proofs.
Context `{DpdkLaws} {W : Type} `{EnvLaws W}.
Variable config : app_config.
Variable cntx : context.
Implicit Types (s : machine W) (E : reason -> machine W -> Prop).
Hypothesis Hok : lat_ok config cntx.

Lemma lat_pl : lat_payload_length cntx = payload_length cntx.
Proof. destruct Hok. apply u32_small. lia. Qed.

(** The headers before the checksums are known. *)
Definition lat_hdr (server_eth : ether_addr) (dst_ip : Z) : list Z :=
  server_eth ++ my_eth cntx ++ be_split 2 RTE_ETHER_TYPE_IPV4 ++
  ipv4_bytes (28 + payload_length cntx) IPPROTO_UDP (src_ip cntx) dst_ip ++
  udp_bytes (src_port cntx) (dst_port cntx) (8 + payload_length cntx).

Lemma lat_headers_run server_eth dst_ip hd tl l2 l3 fl :
  length server_eth = 6%nat -> length hd = 42%nat -> payload_length cntx <= Z.of_nat (length tl) ->
  lat_headers cntx server_eth dst_ip (Mbuf (hd ++ tl) 0 l2 l3 fl) =
    (Ret (14, 34), Mbuf (lat_hdr server_eth dst_ip ++ tl) (42 + payload_length cntx) l2 l3 fl).
Proof.
  intros Hse Hhd Htl. pose proof (lo_eth _ _ Hok) as Hmy. pose proof (lo_payload _ _ Hok) as Hpl.
  unfold lat_headers, lat_hdr. rewrite lat_pl.
  replace (u16 (u64 (sizeof_ipv4_hdr + sizeof_udp_hdr + payload_length cntx))) with (28 + payload_length cntx)
    by (unfold sizeof_ipv4_hdr, sizeof_udp_hdr; rewrite u64_small, u16_small by lia; lia).
  replace (u16 (u64 (sizeof_udp_hdr + payload_length cntx))) with (8 + payload_length cntx)
    by (unfold sizeof_udp_hdr; rewrite u64_small, u16_small by lia; lia).
  set (my := my_eth cntx) in *. clearbody my. explode_list my. explode_list server_eth. explode_list hd. layout.
  replace (42 + payload_length cntx) with (14 + 20 + (8 + payload_length cntx)) by lia.
  repeat buf_step. reflexivity.
Qed.

Lemma bind_memset {A} pre n c m tl off (f : unit -> M mbuf A) b :
  mb_room b = pre ++ m ++ tl -> off = Z.of_nat (length pre) -> n = Z.of_nat (length m) ->
  (memset off c n ≫= f) b = f tt (set_room (pre ++ replicate (length m) c ++ tl) b).
Proof.
  intros Hr -> ->. unfold memset. run. rewrite Hr, !length_app. case_if; [|lia]. rewrite Nat2Z.id.
  apply (bind_mwrite_at pre m tl); [done|done|by rewrite length_replicate].
Qed.

(** The packet in its parts: around the two checksums, and the payload. *)
Lemma lat_payload_layout e ia ic ib ua uc d m tl ts dl l2 l3 fl :
  length e = 14%nat -> length ia = 10%nat -> length ic = 2%nat -> length ib = 8%nat ->
  length ua = 6%nat -> length uc = 2%nat -> length d = 8%nat -> payload_length cntx = 8 + Z.of_nat (length m) ->
  let ip := ia ++ le_split 2 (rte_ipv4_cksum (ia ++ ic ++ ib)) ++ ib in
  let data := le_split 8 ts ++ replicate (length m) 0xAB in
  lat_payload cntx 14 34 ts (Mbuf (e ++ (ia ++ ic ++ ib) ++ (ua ++ uc) ++ (d ++ m) ++ tl) dl l2 l3 fl) =
    (Ret tt, Mbuf (e ++ ip ++ (ua ++ le_split 2 (rte_ipv4_udptcp_cksum ip (ua ++ uc ++ data)) ++ data) ++ tl)
       dl 14 20 udp_flags).
Proof.
  intros He Hia Hic Hib Hua Huc Hd Hm ip data. pose proof (lo_payload _ _ Hok) as Hpl.
  unfold lat_payload, mstore. rewrite lat_pl, Hm, u64_small by lia. layout.
  rewrite (bind_mwrite_at (e ++ (ia ++ ic ++ ib) ++ ua ++ uc) d (m ++ tl));
    [|cbn [mb_room]; by rewrite <- !app_assoc|rewrite !length_app; lia|by rewrite length_le_split].
  change (Z.to_nat 8) with 8%nat.
  rewrite (bind_memset (e ++ (ia ++ ic ++ ib) ++ ua ++ uc ++ le_split 8 ts) _ _ m tl);
    [|cbn [mb_room set_room]; by rewrite <- !app_assoc|rewrite !length_app, length_le_split; lia|lia].
  unfold set_l2_len, set_l3_len, set_ol_flags. rewrite !bind_modify.
  cbn [mb_room set_room data_len l2_len l3_len ol_flags].
  rewrite (bind_mread_at e (ia ++ ic ++ ib) (ua ++ uc ++ data ++ tl));
    [|cbn [mb_room]; unfold data; by rewrite <- !app_assoc|lia|rewrite !length_app; lia].
  rewrite (bind_mwrite_at (e ++ ia) ic (ib ++ ua ++ uc ++ data ++ tl));
    [|cbn [mb_room]; unfold data; by rewrite <- !app_assoc|rewrite !length_app; lia|by rewrite length_le_split].
  change (Z.to_nat 2) with 2%nat.
  rewrite (bind_mread_at e ip (ua ++ uc ++ data ++ tl));
    [|cbn [mb_room set_room]; unfold ip; by rewrite <- !app_assoc|lia
     |unfold ip; rewrite !length_app, length_le_split; lia].
  rewrite (bind_mread_at (e ++ ip) (ua ++ uc ++ data) tl);
    [|cbn [mb_room set_room]; unfold ip; by rewrite <- !app_assoc
     |unfold ip; rewrite !length_app, length_le_split; lia
     |unfold data; rewrite !length_app, length_le_split, length_replicate; lia].
  rewrite run_tail, (bind_mwrite_at (e ++ ip ++ ua) uc (data ++ tl));
    [|cbn [mb_room set_room]; unfold ip; by rewrite <- !app_assoc
     |unfold ip; rewrite !length_app, length_le_split; lia|by rewrite length_le_split].
  run. cbn [set_room data_len l2_len l3_len ol_flags]. by rewrite <- !app_assoc.
Qed.

Lemma lat_payload_run server_eth dst_ip ts m tl dl l2 l3 fl :
  length server_eth = 6%nat -> payload_length cntx = Z.of_nat (length m) ->
  lat_payload cntx 14 34 ts (Mbuf (lat_hdr server_eth dst_ip ++ m ++ tl) dl l2 l3 fl) =
    (Ret tt, Mbuf (lat_frame cntx server_eth dst_ip ts ++ tl) dl 14 20 udp_flags).
Proof.
  intros Hse Hm. pose proof (lo_eth _ _ Hok) as Hmy. pose proof (lo_payload _ _ Hok) as Hpl.
  set (ip := ipv4_bytes (28 + payload_length cntx) IPPROTO_UDP (src_ip cntx) dst_ip).
  set (udp := udp_bytes (src_port cntx) (dst_port cntx) (8 + payload_length cntx)).
  pose proof (lat_payload_layout (server_eth ++ my_eth cntx ++ be_split 2 RTE_ETHER_TYPE_IPV4)
    (take 10 ip) [0; 0] (drop 12 ip) (take 6 udp) [0; 0] (take 8 m) (drop 8 m) tl ts dl l2 l3 fl) as Hrun.
  cbv zeta in Hrun. rewrite take_drop, length_drop in Hrun.
  change (take 10 ip ++ [0; 0] ++ drop 12 ip) with ip in Hrun. change (take 6 udp ++ [0; 0]) with udp in Hrun.
  change (take 6 udp ++ [0; 0] ++ ?l) with (udp ++ l) in Hrun.
  unfold lat_frame, lat_udp, lat_data, lat_ip, with_cksum, lat_hdr. fold ip udp.
  replace (Z.to_nat (payload_length cntx - 8)) with (length m - 8)%nat by lia.
  assert (Ht : forall l, take 6 (udp ++ l) = take 6 udp) by done.
  assert (Hd : forall l, drop (6 + 2) (udp ++ l) = l) by done.
  rewrite Ht, Hd. rewrite <- (take_drop 8 m) at 1. rewrite <- !app_assoc in Hrun |- *. rewrite Hrun; try done.
  - rewrite length_drop. change (10 + 2)%nat with 12%nat. by rewrite <- !app_assoc.
  - rewrite !length_app, Hmy, Hse. done.
  - rewrite length_take. lia.
  - rewrite length_drop. lia.
Qed.

Lemma lat_frame_length server_eth dst_ip ts :
  length server_eth = 6%nat -> Z.of_nat (length (lat_frame cntx server_eth dst_ip ts)) = 42 + payload_length cntx.
Proof.
  intros Hse. pose proof (lo_payload _ _ Hok). unfold lat_frame, lat_udp, lat_data, lat_ip, with_cksum.
  set (ip := ipv4_bytes _ _ _ _). change (length ip) with 20%nat. set (udp := udp_bytes _ _ _).
  rewrite !length_app, !length_take, !length_drop, !length_app, length_replicate, !length_le_split, length_be_split,
    Hse, (lo_eth _ _ Hok). change (length ip) with 20%nat. change (length udp) with 8%nat. lia.
Qed.

(** The packet is built in place. *)
Lemma wp_lat_build server_eth dst_ip p b (Q : unit -> machine W -> Prop) E s :
  length server_eth = 6%nat -> heap s !! p = Some b -> fresh_ok b ->
  (forall ts b' w, 0 <= ts < 2 ^ 64 -> mb_data b' = lat_frame cntx server_eth dst_ip ts ->
    Q tt (with_heap (<[p := b']> (heap s)) (log_event (EvClock ts) (with_world w s)))) ->
  wp (lat_build cntx server_eth dst_ip p tt) Q E s.
Proof.
  intros Hse Hp Hb HQ. pose proof (lo_payload _ _ Hok) as Hpl. unfold lat_build.
  destruct Hb as [[Hlen _] Hdl]. destruct b as [r dl l2 l3 fl]. cbn [mb_room data_len] in *. subst dl.
  unfold RTE_MBUF_DEFAULT_DATAROOM in Hlen.
  destruct (room_split 42 r) as (hd & r' & -> & Hhd & Hr'); [lia|].
  destruct (room_split (Z.to_nat (payload_length cntx)) r') as (m & tl & -> & Hm & _); [lia|].
  wp_step. eapply wp_on_mbuf; [exact Hp|apply lat_headers_run; [done|done|lia]|]. cbv beta iota.
  wp_step. apply wp_get_timer_cycles. intros ts w Hts _.
  eapply wp_on_mbuf; [apply lookup_insert_eq|apply lat_payload_run; [done|lia]|].
  cbn [heap with_heap with_world log_event log_events]. rewrite insert_insert_eq. eapply (HQ ts _ w Hts).
  unfold mb_data. cbn [data_len mb_room]. apply take_app_length'.
  pose proof (lat_frame_length server_eth dst_ip ts Hse). lia.
Qed.

(** The burst is built, each request with its own reading of the clock. *)
Lemma wp_lat_burst server_eth dst_ip bs k h0 (Q : unit -> machine W -> Prop) E s :
  let req ts b := 0 <= ts < 2 ^ 64 /\ mb_data b = lat_frame cntx server_eth dst_ip ts in
  length server_eth = 6%nat -> Forall fresh_ok bs -> heap s = insert_from k bs h0 ->
  (forall reqs stamps s', length reqs = length bs -> Forall2 req stamps reqs -> heap s' = insert_from k reqs h0 ->
    next s' = next s -> rng s' = rng s -> trace s' = trace s ++ (EvClock <$> stamps) -> Q tt s') ->
  wp (forM (seq k (length bs)) (lat_build cntx server_eth dst_ip) tt) Q E s.
Proof.
  intros req Hse Hbs Hheap HQ.
  apply (wp_forM (fun (ps : list nat) _ s1 => exists ready todo stamps,
    ps = seq (k + length ready) (length todo) /\ (length ready + length todo = length bs)%nat /\
    Forall2 req stamps ready /\ Forall fresh_ok todo /\ heap s1 = insert_from k (ready ++ todo) h0 /\
    next s1 = next s /\ rng s1 = rng s /\ trace s1 = trace s ++ (EvClock <$> stamps))).
  - exists [], bs, []. cbn [length app fmap list_fmap]. rewrite Nat.add_0_r, <- Hheap, app_nil_r. by split_and!.
  - intros p ps [] s1 (ready & [|b todo] & stamps & Hl & Hn & Hready & Htodo & Eh & En & Er & Et); [done|].
    cbn [length seq] in Hl. simplify_eq. inversion_clear Htodo as [|? ? Hb Htodo'].
    eapply (wp_lat_build _ _ _ b); [done| |done|].
    { rewrite Eh, lookup_insert_from. case_if; [|lia].
      replace (k + length ready - k)%nat with (length ready) by lia. by rewrite list_lookup_middle. }
    intros ts b' w' Hts Hb'. exists (ready ++ [b']), todo, (stamps ++ [ts]).
    rewrite length_app, Nat.add_1_r, Nat.add_succ_r, fmap_app. cbn [length] in Hn |- *. split; [done|]. split; [lia|].
    split; [by apply Forall2_app; [|constructor]|]. split; [done|].
    split; [|split_and!; [done|done|cbn; by rewrite Et, <- app_assoc]].
    cbn [heap with_heap with_world]. rewrite Eh, insert_from_update by (rewrite length_app; cbn; lia).
    rewrite <- (Nat.add_0_r (length ready)), insert_app_r. cbn. by rewrite <- app_assoc.
  - intros [] s1 (ready & [|b todo] & stamps & Hl & Hn & Hready & _ & Eh & En & Er & Et); [|done].
    rewrite app_nil_r in Eh. eapply (HQ ready stamps); try done. cbn in Hn. lia.
Qed.

(** *** Answers *)
Lemma latency_ns_eq now ts : latency_ns now ts = Some (u64 ((now - ts) * 1000000000) / timer_hz).
Proof.
  unfold latency_ns, rte_get_timer_hz. pose proof hz_pos. case_if; [lia|].
  rewrite u64_mul_l, <- Z.mul_assoc, u64_mul_l, <- Z.mul_assoc, u64_mul_l. done.
Qed.

(** The loop-carried values after a packet. *)
Definition lat_after (now : Z) (b : mbuf) (p : progress) : progress :=
  (if lat_valid cntx (mb_room b) then u32 (p.1 - 1) else p.1, p.2 ++ measures config cntx now [b]).

Lemma measures_app now bs bs' : measures config cntx now (bs ++ bs') = measures config cntx now bs ++ measures config cntx now bs'.
Proof. unfold measures. by rewrite filter_app, fmap_app. Qed.
Lemma measures_one now b :
  measures config cntx now [b] = if lat_answer cntx (mb_room b) then [lat_of config now (mb_room b)] else [].
Proof.
  unfold measures. destruct (lat_answer cntx (mb_room b)) eqn:Ea.
  - by rewrite filter_cons_True.
  - by rewrite filter_cons_False by congruence.
Qed.
Lemma length_measures now bs : (length (measures config cntx now bs) <= length bs)%nat.
Proof. unfold measures. rewrite length_fmap. apply length_filter. Qed.

Lemma wp_lat_receive now p b nb m (Q : progress -> machine W -> Prop) (E : reason -> machine W -> Prop) s :
  heap_ok s -> heap s !! p = Some b -> room_ok b ->
  (forall s' evs, heap s' = delete p (heap s) -> (next s <= next s')%nat -> rng s' = rng s ->
    trace s' = trace s ++ evs -> replies evs -> Q (lat_after now b (nb, m)) s') ->
  (forall s' evs, trace s' = trace s ++ evs -> replies evs -> max_measure_size <= Z.of_nat (length m) + 1 ->
    E Aborted s') ->
  wp (lat_receive config cntx true now p (nb, m)) Q E s.
Proof.
  intros Hs Hp Hb HQ HE. unfold lat_receive. unfold lat_after in HQ. cbn [fst snd] in HQ. rewrite measures_one in HQ.
  wp_step. eapply wp_check_eth_hdr; [done..|apply Hok|]. intros s1 e1 Hf1 Hev1.
  apply hdr_events_replies in Hev1; [|by apply field_length, Z.leb_le].
  destruct Hf1 as (Eh & En & Er & Et). assert (Hp1 : heap s1 !! p = Some b) by (by rewrite Eh).
  unfold lat_answer, lat_valid in HQ. destruct (valid_eth (my_eth cntx) (mb_room b)); cbn [negb andb] in HQ |- *.
  2:{ wp_step. apply wp_printf. eapply wp_free_and; [exact Hp1|]. rewrite app_nil_r in HQ.
      eapply (HQ _ (e1 ++ [_])); [cbn; by rewrite Eh|done|done|cbn; by rewrite Et, <- app_assoc|by apply replies_print]. }
  wp_step. read_field 12%nat 2%nat. rewrite be_to_cpu_16_field by (done || by apply Z.leb_le).
  destruct (be 12 2 (mb_room b) =? RTE_ETHER_TYPE_IPV4); cbn [negb].
  2:{ eapply wp_free_and; [exact Hp1|]. rewrite app_nil_r in HQ. eapply (HQ _ e1); try done. cbn. by rewrite Eh. }
  pose proof (lo_delta _ _ Hok) as Hd. pose proof (u16_range (hdr_encp_sz (client config))) as Hd0.
  fold (hdr_size_delta config) in Hd0.
  wp_step. eapply (wp_mload _ (42 + Z.to_nat (hdr_size_delta config)) 8); [exact Hp1|done
    |unfold RTE_ETHER_HDR_LEN, sizeof_ipv4_hdr, sizeof_udp_hdr; lia|done|unfold RTE_MBUF_DEFAULT_DATAROOM; lia|].
  fold (lat_stamp config (mb_room b)). wp_step. rewrite latency_ns_eq. fold (lat_of config now (mb_room b)).
  wp_step; [|done]. injection Hd1 as <-. wp_step. eapply wp_free; [exact Hp1|]. wp_step. wp_step; [|done].
  wp_step. wp_step.
  - wp_step. eapply (HQ _ e1); try done. cbn. by rewrite Eh.
  - eapply (HE _ e1); [done|done|]. rewrite length_app in *. cbn [length] in *. lia.
Qed.

Lemma valid_count_snoc bs b :
  valid_count cntx (bs ++ [b]) = valid_count cntx bs + (if lat_valid cntx (mb_room b) then 1 else 0).
Proof.
  unfold valid_count. rewrite filter_app, length_app. destruct (lat_valid cntx (mb_room b)) eqn:Ev.
  - rewrite filter_cons_True by done. cbn. lia.
  - rewrite filter_cons_False by congruence. cbn. lia.
Qed.
Lemma valid_count_app bs bs' : valid_count cntx (bs ++ bs') = valid_count cntx bs + valid_count cntx bs'.
Proof. unfold valid_count. rewrite filter_app, length_app. lia. Qed.

Lemma wp_lat_answers now bs k0 h0 nb m (Q : progress -> machine W -> Prop) (E : reason -> machine W -> Prop) s :
  Forall room_ok bs -> heap s = insert_from k0 bs h0 -> (forall p, is_Some (h0 !! p) -> (p < k0)%nat) ->
  (k0 + length bs <= next s)%nat ->
  (forall s' evs, heap s' = h0 -> (next s <= next s')%nat -> rng s' = rng s -> trace s' = trace s ++ evs ->
    replies evs -> Q (u32 (nb - valid_count cntx bs), m ++ measures config cntx now bs) s') ->
  (forall s' evs, trace s' = trace s ++ evs -> replies evs ->
    max_measure_size <= Z.of_nat (length m) + Z.of_nat (length bs) -> E Aborted s') ->
  wp (forM (seq k0 (length bs)) (lat_receive config cntx true now) (u32 nb, m)) Q E s.
Proof.
  intros Hrooms Hheap Hh0 Hnext HQ HE.
  eapply (wp_each_freed _ (fun pre evs p => replies evs /\
    p = (u32 (nb - valid_count cntx pre), m ++ measures config cntx now pre))); [done..| | |].
  - split; [done|]. unfold valid_count. cbn. by rewrite Z.sub_0_r, app_nil_r.
  - intros pre b post evs p x s1 -> Hs1 Hp Hb (Hrep & ->) Ht1. eapply wp_lat_receive; [done..| |].
    + intros s' e Eh En Er Et Hrep2. do 3 (split; [done|]). exists e. split; [done|].
      split; [by apply replies_app|]. unfold lat_after. cbn [fst snd]. rewrite measures_app, valid_count_snoc, app_assoc.
      f_equal. case_if; [rewrite <- Z.add_opp_r, u32_add_l|]; f_equal; lia.
    + intros s' e Et Hrep2 Hmax. eapply (HE _ (evs ++ e)); [by rewrite Et, Ht1, app_assoc|by apply replies_app|].
      pose proof (length_measures now pre). rewrite !length_app in *. cbn [length] in *. lia.
  - intros p s' evs (Hrep & ->) Hh Hn Hr Ht. by eapply HQ.
Qed.

Lemma arrived_snoc rs now bs : arrived (rs ++ [(now, bs)]) = arrived rs ++ bs.
Proof. unfold arrived. rewrite bind_app. cbn. by rewrite app_nil_r. Qed.
Lemma measured_snoc rs now bs : measured config cntx (rs ++ [(now, bs)]) = measured config cntx rs ++ measures config cntx now bs.
Proof. unfold measured. rewrite bind_app. cbn. by rewrite app_nil_r. Qed.
Lemma length_measured rs : (length (measured config cntx rs) <= length (arrived rs))%nat.
Proof.
  induction rs as [|[now bs] rs IH] using rev_ind; [done|].
  rewrite measured_snoc, arrived_snoc, !length_app. pose proof (length_measures now bs). lia.
Qed.

(** *** The trace of a wait

    A poll takes a burst and reads the clock; a wait that began at [start] goes on
    while the polls bring nothing and are in time. *)
Definition poll_events (bs : list mbuf) (now : Z) : list event :=
  [EvPoll true; EvRx (dpdk_port_id cntx) (default_qid cntx) bs; EvClock now].
Definition in_time (start now : Z) : Prop := u64 (now - start) <= timer_hz.

(** How it ends: the flag is cleared, a burst is there, or more than a second has
    gone by, and the burst of that poll is lost. *)
Inductive last_poll (start : Z) : list event -> option (list mbuf) -> list mbuf -> Prop :=
| LpStopped : last_poll start [EvPoll false] (Some []) []
| LpBurst now bs : bs <> [] -> in_time start now -> last_poll start (poll_events bs now) (Some bs) []
| LpLate now bs : ~ in_time start now -> last_poll start (poll_events bs now) None bs.
Definition polled (start : Z) (evs : list event) (r : option (list mbuf)) (lost : list mbuf) : Prop :=
  exists idle last, Forall (in_time start) idle /\ last_poll start last r lost /\
    evs = (idle ≫= poll_events []) ++ last.

(** A round: the burst that ended a wait is looked at, at the time read then. *)
Inductive round : Z * list mbuf -> list event -> Prop :=
| Round start e1 now bs e2 : polled start e1 (Some bs) [] -> replies e2 ->
    round (now, bs) (EvClock start :: e1 ++ EvClock now :: e2).

(** How many of [nb] answers are missing after some rounds. *)
Definition missing (nb : Z) (rs : rounds) : Z := u32 (nb - valid_count cntx (arrived rs)).

(** Rounds after which answers are missing and the flag is still set. *)
Inductive goes_on (nb : Z) : list event -> rounds -> Prop :=
| GoBegin : goes_on nb [] []
| GoRound evs rs r e : goes_on nb evs rs -> round r e -> 0 < missing nb (rs ++ [r]) ->
    goes_on nb (evs ++ e ++ [EvPoll true]) (rs ++ [r]).

(** The wait for [nb] answers: until none is missing, the flag is cleared, or a
    round takes too long. *)
Inductive waits (nb : Z) : list event -> rounds -> bool -> list mbuf -> Prop :=
| WaitAnswered evs rs r e : goes_on nb evs rs -> round r e -> missing nb (rs ++ [r]) = 0 ->
    waits nb (evs ++ e) (rs ++ [r]) false []
| WaitStopped evs rs r e : goes_on nb evs rs -> round r e -> 0 < missing nb (rs ++ [r]) ->
    waits nb (evs ++ e ++ [EvPoll false]) (rs ++ [r]) false []
| WaitGivenUp evs rs start e lost : goes_on nb evs rs -> polled start e None lost ->
    waits nb (evs ++ EvClock start :: e) rs true lost.

Lemma idle_events idle : received (idle ≫= poll_events []) = [] /\ sent (idle ≫= poll_events []) = [].
Proof. induction idle as [|t idle IH]; [done|exact IH]. Qed.
Lemma polled_events start evs r lost :
  polled start evs r lost -> received evs = default [] r ++ lost /\ sent evs = [].
Proof.
  intros (idle & last & _ & Hl & ->). autorewrite with cnet.
  destruct (idle_events idle) as [-> ->]. by destruct Hl; cbn; rewrite ?app_nil_r.
Qed.
Lemma round_events r e : round r e -> received e = r.2 /\ Forall (fun b => ~ is_data b) (sent e).
Proof.
  destruct 1 as [start e1 now bs e2 Hp (R2 & S2 & _)]. apply polled_events in Hp as [R1 S1]. cbn in R1.
  change (?a :: e1 ++ ?c :: e2) with ([a] ++ e1 ++ [c] ++ e2). autorewrite with cnet. rewrite R1, R2, S1, !app_nil_r. done.
Qed.
Lemma goes_on_events nb evs rs :
  goes_on nb evs rs -> received evs = arrived rs /\ Forall (fun b => ~ is_data b) (sent evs).
Proof.
  induction 1 as [|evs rs [now bs] e _ [R S] Hr _]; [done|]. apply round_events in Hr as [R2 S2].
  autorewrite with cnet. rewrite R, R2, arrived_snoc, !app_nil_r, Forall_app. done.
Qed.
Lemma waits_events nb evs rs g lost :
  waits nb evs rs g lost -> received evs = arrived rs ++ lost /\ Forall (fun b => ~ is_data b) (sent evs).
Proof.
  destruct 1 as [evs rs [now bs] e Hg Hr _|evs rs [now bs] e Hg Hr _|evs rs start e lost Hg Hp];
    apply goes_on_events in Hg as [R S]; first [apply round_events in Hr as [R2 S2]|apply polled_events in Hp as [R2 S2]].
  - autorewrite with cnet. by rewrite R, R2, arrived_snoc, app_nil_r, Forall_app.
  - autorewrite with cnet. by rewrite R, R2, arrived_snoc, !app_nil_r, Forall_app.
  - change (EvClock start :: e) with ([EvClock start] ++ e). autorewrite with cnet. cbn in R2. by rewrite R, R2, S2, !app_nil_r.
Qed.

Lemma wp_wait_response fuel start (Q : option (list nat) -> machine W -> Prop) (E : reason -> machine W -> Prop) s :
  (forall r bs s' evs, Forall room_ok bs -> heap s' = insert_from (next s) bs (heap s) ->
    next s' = (next s + length bs)%nat -> rng s' = rng s -> trace s' = trace s ++ evs ->
    (r = None /\ polled start evs None bs \/ r = Some (seq (next s) (length bs)) /\ polled start evs (Some bs) []) -> Q r s') ->
  (forall s' evs, trace s' = trace s ++ evs -> received evs = [] -> E OutOfFuel s') ->
  wp (wait_response cntx fuel start) Q E s.
Proof.
  intros HQ HE. unfold wait_response.
  apply (wp_loop (fun _ s1 => exists idle, Forall (in_time start) idle /\ heap s1 = heap s /\ next s1 = next s /\
    rng s1 = rng s /\ trace s1 = trace s ++ (idle ≫= poll_events []))).
  - exists []. cbn. rewrite app_nil_r. by split_and!.
  - intros [] s1 (idle & Hidle & Eh & En & Er & Et). wp_step. apply wp_poll_running. intros run w1 _.
    destruct run; cbn [negb].
    2:{ wp_step. eapply (HQ _ [] _ ((idle ≫= poll_events []) ++ [EvPoll false])); cbn; try done.
        - by rewrite En, Nat.add_0_r.
        - by rewrite Et, app_assoc.
        - right. split; [done|]. by exists idle, [EvPoll false]; split_and!; [|apply LpStopped|]. }
    wp_step. apply wp_rx. intros w2 bs _ Hrooms _. wp_step. apply wp_get_timer_cycles. intros now w3 _ _.
    cbn [next with_world log_event log_events]. set (s2 := log_event (EvClock now) _).
    assert (Et2 : trace s2 = trace s ++ (idle ≫= poll_events []) ++ poll_events bs now) by (cbn; by rewrite Et, <- !app_assoc).
    assert (Hgo : forall r, (r = None /\ last_poll start (poll_events bs now) None bs \/
        r = Some (seq (next s) (length bs)) /\ last_poll start (poll_events bs now) (Some bs) []) -> Q r s2).
    { intros r Hr. eapply (HQ r bs _ _ Hrooms); [| | |exact Et2|]; [cbn; by rewrite Eh, En|cbn; by rewrite En|done|].
      destruct Hr as [[-> Hl]|[-> Hl]]; [left|right]; (split; [done|]); by exists idle, (poll_events bs now). }
    change rte_get_timer_hz with timer_hz.
    case_if; [wp_step; apply Hgo; left; split; [done|]; apply LpLate; unfold in_time; lia|].
    assert (Hin : in_time start now) by (unfold in_time; lia). case_bool_decide as Hbs.
    + apply (f_equal length) in Hbs. rewrite length_seq in Hbs. apply nil_length_inv in Hbs. subst bs.
      wp_step. exists (idle ++ [now]). rewrite bind_app. cbn [mbind list_bind app].
      split_and!; [by apply Forall_app; split; [|apply Forall_singleton]|cbn; by rewrite Eh|cbn; lia|done|exact Et2].
    + wp_step. apply Hgo. right. split; [by rewrite En|]. apply LpBurst; [|done]. by intros ->.
  - intros [] s1 (idle & _ & _ & _ & _ & Et). eapply HE; [exact Et|]. apply idle_events.
Qed.

(** The measurements do not fit the array. *)
Definition array_full (m : list Z) (evs : list event) : Prop :=
  max_measure_size <= Z.of_nat (length m) + Z.of_nat (length (received evs)).

(** Between two polls of the wait that began in [s]. *)
Record receiving (nb : Z) s (evs : list event) (rs : rounds) s1 : Prop := {
  rc_goes : goes_on nb evs rs;
  rc_heap : heap s1 = heap s;
  rc_next : (next s <= next s1)%nat;
  rc_rng : rng s1 = rng s;
  rc_trace : trace s1 = trace s ++ evs;
}.

Lemma receiving_ok nb s evs rs s1 : heap_ok s -> receiving nb s evs rs s1 -> heap_ok s1.
Proof. intros Hs [_ Eh En _ _] p. rewrite Eh. intros Hp. specialize (Hs p Hp). lia. Qed.

(** A burst of the wait is looked at. *)
Lemma wp_recv_answers start now nb m evs rs bs e2 s s1 s2 (Q : progress -> machine W -> Prop) (E : reason -> machine W -> Prop) :
  heap_ok s -> receiving nb s evs rs s1 -> Forall room_ok bs -> polled start e2 (Some bs) [] ->
  heap s2 = insert_from (next s1) bs (heap s1) -> next s2 = (next s1 + length bs)%nat -> rng s2 = rng s1 ->
  trace s2 = trace s1 ++ EvClock start :: e2 ++ [EvClock now] ->
  (forall s3 e, round (now, bs) e -> heap s3 = heap s -> (next s <= next s3)%nat -> rng s3 = rng s ->
    trace s3 = trace s ++ evs ++ e ->
    Q (missing nb (rs ++ [(now, bs)]), m ++ measured config cntx (rs ++ [(now, bs)])) s3) ->
  (forall s3 evs', trace s3 = trace s ++ evs' -> array_full m evs' -> E Aborted s3) ->
  wp (forM (seq (next s1) (length bs)) (lat_receive config cntx true now) (missing nb rs, m ++ measured config cntx rs)) Q E s2.
Proof.
  intros Hs Hrec Hrooms Hp Eh2 En2 Er2 Et2 HQ HE. pose proof (receiving_ok _ _ _ _ _ Hs Hrec) as Hok1.
  destruct Hrec as [Hgo Eh En Er Et]. rewrite Et in Et2.
  eapply (wp_lat_answers now bs (next s1) (heap s1)); [done|exact Eh2|exact Hok1|lia| |].
  - intros s3 e3 Eh3 En3 Er3 Et3 Hrep. pose proof (Round start e2 now bs e3 Hp Hrep) as Hround.
    specialize (HQ s3 _ Hround). unfold missing in HQ.
    rewrite arrived_snoc, measured_snoc, valid_count_app, Z.sub_add_distr, (app_assoc m) in HQ.
    apply HQ; [congruence|lia|congruence|]. rewrite Et3, Et2. by rewrite <- !app_assoc; cbn; rewrite <- !app_assoc.
  - intros s3 e3 Et3 [Hrc3 _] Hmax. apply (HE s3 (evs ++ [EvClock start] ++ e2 ++ [EvClock now] ++ e3)).
    { rewrite Et3, Et2. by rewrite <- !app_assoc; cbn; rewrite <- !app_assoc. }
    apply goes_on_events in Hgo as [Hrc _]. apply polled_events in Hp as [Hrc2 _]. cbn in Hrc2. rewrite app_nil_r in Hrc2.
    unfold array_full. autorewrite with cnet. rewrite Hrc, Hrc2, Hrc3. cbn [app]. rewrite app_nil_r.
    rewrite !length_app in *. pose proof (length_measured rs). lia.
Qed.

Lemma wp_lat_recv fuel nb m (Q : bool * list Z -> machine W -> Prop) (E : reason -> machine W -> Prop) s :
  heap_ok s -> 0 <= nb < 2 ^ 32 ->
  (forall gave_up s' evs rs lost, waits nb evs rs gave_up lost ->
    (exists lp, holds lp lost (heap s') (heap s)) -> heap_ok s' -> (next s <= next s')%nat -> rng s' = rng s ->
    trace s' = trace s ++ evs -> Q (gave_up, m ++ measured config cntx rs) s') ->
  (forall k s' evs, k = OutOfFuel \/ k = Aborted /\ array_full m evs -> trace s' = trace s ++ evs -> E k s') ->
  wp (lat_recv config cntx true fuel (nb, m)) Q E s.
Proof.
  intros Hs Hnb HQ HE. unfold lat_recv.
  apply (wp_loop (fun p s1 => exists evs rs, receiving nb s evs rs s1 /\ p = (missing nb rs, m ++ measured config cntx rs))).
  - exists [], []. unfold missing, valid_count. cbn. rewrite Z.sub_0_r, u32_small, app_nil_r by done.
    split; [|done]. constructor; [constructor|done|done|done|by rewrite app_nil_r].
  - intros p s1 (evs & rs & Hrec & ->). pose proof (receiving_ok _ _ _ _ _ Hs Hrec) as Hok1.
    pose proof Hrec as [Hgo Eh En Er Et].
    wp_step. apply wp_get_timer_cycles. intros start w1 _ _. wp_step. apply wp_wait_response.
    2:{ intros s2 e2 Et2 _. eapply (HE OutOfFuel s2); [by left|]. rewrite Et2. cbn. by rewrite Et, <- !app_assoc. }
    intros r bs s2 e2 Hrooms Eh2 En2 Er2 Et2 Hr. cbn in Eh2, En2, Er2, Et2. rewrite <- app_assoc in Et2. cbn [app] in Et2.
    destruct Hr as [[-> Hp]|[-> Hp]]; cbv beta iota.
    + wp_step. eapply (HQ true s2 _ rs bs); [by eapply WaitGivenUp| | |lia|congruence|by rewrite Et2, Et, <- app_assoc].
      * eexists. rewrite Eh2, <- Eh. by apply holds_receive.
      * intros p. rewrite Eh2. by apply insert_from_bound; [|lia].
    + wp_step. apply wp_get_timer_cycles. intros now w2 _ _. wp_step.
      eapply (wp_recv_answers start now nb m evs rs bs e2 s s1); [done..|cbn; by rewrite Et2, <- app_assoc| |].
      2:{ intros s3 evs' Et3 Hfull. apply (HE _ s3 evs'); [by right|done]. }
      intros s3 e Hround Eh3 En3 Er3 Et3. cbv beta iota.
      assert (Hok3 : heap_ok s3) by (intros p; rewrite Eh3; intros Hp'; specialize (Hs p Hp'); lia).
      assert (Hnone : exists lp, holds lp [] (heap s3) (heap s)) by (exists []; rewrite Eh3; apply holds_nil).
      pose proof (u32_range (nb - valid_count cntx (arrived (rs ++ [(now, bs)])))) as Hu. fold (missing nb (rs ++ [(now, bs)])) in Hu.
      wp_step. case_if.
      * apply wp_poll_running. intros run w3 _. destruct run; wp_step.
        -- exists (evs ++ e ++ [EvPoll true]), (rs ++ [(now, bs)]). split; [|done].
           constructor; [by apply GoRound|done|done|done|]. cbn. by rewrite Et3, <- !app_assoc.
        -- eapply (HQ false _ _ _ []); [by eapply WaitStopped|done..|]. cbn. by rewrite Et3, <- !app_assoc.
      * wp_step. wp_step. eapply (HQ false _ _ _ []); [eapply WaitAnswered; [done|done|lia]|done..].
  - intros p s1 (evs & rs & Hrec & _). apply (HE _ s1 evs); [by left|apply Hrec].
Qed.

(** *** An iteration *)

(** What an iteration did: nothing for want of buffers; or it built requests, each
    with the time read then, offered them to the card, which took the first [n],
    and waited for as many answers. *)
Inductive lat_effect (server_eth : ether_addr) (dst_ip : Z) (m : list Z) :
    list Z -> list event -> list mbuf -> nat -> bool -> rounds -> list mbuf -> Prop :=
| LatNoMbufs :
    lat_effect server_eth dst_ip m m [EvNoMbufs (tx_mem_pool cntx) (batch cntx)] [] 0 false [] []
| LatSent stamps reqs n w gave_up rs lost :
    Forall2 (fun ts b => 0 <= ts < 2 ^ 64 /\ mb_data b = lat_frame cntx server_eth dst_ip ts) stamps reqs ->
    Z.of_nat (length reqs) = batch cntx -> (n <= length reqs)%nat ->
    waits (Z.of_nat n) w rs gave_up lost ->
    lat_effect server_eth dst_ip m (m ++ measured config cntx rs)
      ((EvClock <$> stamps) ++ EvTx (dpdk_port_id cntx) (default_qid cntx) (take n reqs) (drop n reqs) :: w)
      reqs n gave_up rs lost.

Lemma stamps_events stamps : received (EvClock <$> stamps) = [] /\ sent (EvClock <$> stamps) = [].
Proof. induction stamps as [|t stamps IH]; [done|exact IH]. Qed.

(** What it received, sent and measured. *)
Lemma lat_effect_events server_eth dst_ip m m' evs reqs n gave_up rs lost :
  lat_effect server_eth dst_ip m m' evs reqs n gave_up rs lost ->
  received evs = arrived rs ++ lost /\ (exists rp, sent evs = take n reqs ++ rp /\ Forall (fun b => ~ is_data b) rp) /\
  m' = m ++ measured config cntx rs.
Proof.
  destruct 1 as [|stamps reqs n w g rs lost _ _ _ Hw]; [split_and!; [done|by exists []|by rewrite app_nil_r]|].
  apply waits_events in Hw as [R S]. change (EvTx ?p ?q ?a ?b :: w) with ([EvTx p q a b] ++ w).
  destruct (stamps_events stamps) as [R1 S1]. autorewrite with cnet. rewrite R1, S1, R. split; [done|]. split; [by eexists|done].
Qed.

Lemma holds_app kp kb lp lb h h1 h0 :
  holds kp kb h1 h0 -> holds lp lb h h1 -> holds (kp ++ lp) (kb ++ lb) h h0.
Proof.
  intros Hk Hl. pose proof Hk as (Hk1 & Hk2 & Hk3). destruct Hl as (Hl1 & Hl2 & Hl3).
  assert (Hdisj : forall p, p ∈ kp -> p ∉ lp).
  { intros p Hp Hin. destruct (holds_lookup _ _ _ _ _ Hk Hp) as [b Hb]. rewrite <- Hl3, delete_all_lookup in Hb.
    by rewrite decide_True in Hb. }
  split_and!.
  - by apply list.NoDup_app.
  - apply Forall2_app; [|done]. eapply points_to_ext; [|exact Hk2]. intros p Hp.
    rewrite <- Hl3, delete_all_lookup. by rewrite decide_False by (by apply Hdisj).
  - by rewrite delete_all_app, Hl3.
Qed.

(** A wait that is not given up leaves no answer missing, or ends with the flag
    cleared. *)
Lemma lat_effect_answered server_eth dst_ip m m' evs reqs n rs lost :
  lat_effect server_eth dst_ip m m' evs reqs n false rs lost ->
  lost = [] /\ (missing (Z.of_nat n) rs = 0 \/ last evs = Some (EvPoll false)).
Proof.
  inversion 1 as [|stamps reqs' n' w g rs' lost' _ _ _ Hw]; subst; [split; [done|by left]|].
  inversion Hw; subst; (split; [done|]); [by left|right].
  match goal with |- last (?a ++ ?x :: ?b ++ ?c ++ [?y]) = _ => change (x :: b ++ c ++ [y]) with ([x] ++ b ++ c ++ [y]) end.
  rewrite !app_assoc. apply last_snoc.
Qed.

Lemma wp_lat_iter fuel server_eth dst_ip m (Q : list Z -> machine W -> Prop) (E : reason -> machine W -> Prop) s :
  heap_ok s -> length server_eth = 6%nat ->
  (forall m' s' evs reqs n gave_up rs lost, lat_effect server_eth dst_ip m m' evs reqs n gave_up rs lost ->
    (exists lp, holds lp (drop n reqs ++ lost) (heap s') (heap s)) -> heap_ok s' -> (next s <= next s')%nat ->
    rng s' = rng s -> trace s' = trace s ++ evs -> Q m' s') ->
  (forall k s' evs, k = OutOfFuel \/ k = Aborted /\ array_full m evs -> trace s' = trace s ++ evs -> E k s') ->
  wp (lat_iter config cntx true fuel server_eth dst_ip m) Q E s.
Proof.
  intros Hs Hse HQ HE. unfold lat_iter. pose proof (lo_batch _ _ Hok) as Hba. unfold LAT_BURST_SIZE in Hba.
  wp_step. apply wp_alloc_bulk.
  { intros w. wp_step. eapply HQ; [apply LatNoMbufs|exists []; apply holds_nil|done..]. }
  intros w bs Hbs Hfresh. cbv beta iota.
  wp_step. apply (wp_lat_burst server_eth dst_ip bs (next s) (heap s)); [done..|].
  intros reqs stamps s1 Hlen Hreqs Eh1 En1 Er1 Et1. cbn in En1, Er1, Et1.
  rewrite <- Hlen in *. pose proof (holds_receive (next s) reqs (heap s) Hs) as Hh. rewrite <- Eh1 in Hh.
  wp_step. eapply wp_tx; [eapply holds_mapM; exact Hh|]. intros w2 n Hn.
  apply (holds_drop (Z.to_nat n)) in Hh. set (h1 := delete_all _ _) in *.
  assert (Hok1 : forall p, is_Some (h1 !! p) -> (p < next s + length reqs)%nat).
  { intros p. unfold h1. rewrite delete_all_lookup, Eh1. case_decide; [by intros []|]. by apply insert_from_bound. }
  set (sending := (EvClock <$> stamps) ++ [EvTx (dpdk_port_id cntx) (default_qid cntx) (take (Z.to_nat n) reqs) (drop (Z.to_nat n) reqs)]).
  wp_step. set (s2 := log_event _ _).
  assert (Et2 : trace s2 = trace s ++ sending) by (cbn; unfold sending; by rewrite Et1, app_assoc).
  assert (Hrs : received sending = []) by (unfold sending; autorewrite with cnet; rewrite app_nil_r; apply stamps_events).
  eapply (wp_lat_recv fuel n m _ _ s2); [intros p Hp; specialize (Hok1 p Hp); cbn; lia|lia| |].
  2:{ intros k s' evs Hk Ht. eapply (HE k s' (sending ++ evs)); [|by rewrite Ht, Et2, app_assoc].
      destruct Hk as [->|[-> Hfull]]; [by left|right]. split; [done|]. unfold array_full. rewrite received_app, Hrs. exact Hfull. }
  intros gave_up s' evs rs lost Hw [lp Hlp] Hs' Hn' Hr' Ht'. cbv beta iota.
  assert (Hend : forall w, Q (m ++ measured config cntx rs) (with_world w s')).
  { intros w3. eapply (HQ _ _ _ reqs (Z.to_nat n) gave_up rs lost).
    - eapply LatSent; [exact Hreqs|done|lia|by rewrite Z2Nat.id by lia].
    - eexists. by eapply holds_app.
    - done.
    - cbn in Hn'. cbn. lia.
    - cbn. rewrite Hr'. cbn. by rewrite Er1.
    - cbn. rewrite Ht', Et2. unfold sending. by rewrite <- !app_assoc. }
  destruct gave_up; [wp_step; specialize (Hend (world s')); by destruct s'|].
  wp_step. wp_step.
  - apply wp_apply_delay; [intros w3; wp_step; apply Hend|]. intros w3.
    eapply (HE OutOfFuel _ (sending ++ evs)); [by left|]. cbn. by rewrite Ht', Et2, app_assoc.
  - wp_step. specialize (Hend (world s')). by destruct s'.
Qed.
(** *** A whole run *)

(** The iterations so far, each after a look at the flag: measurements, events, and
    the buffers leaked. *)
Inductive lat_run (server_eth : ether_addr) (dst_ip : Z) : list Z -> list event -> list mbuf -> Prop :=
| lat_run_nil : lat_run server_eth dst_ip [] [] []
| lat_run_iter m evs leaked m' e reqs n gave_up rs lost :
    lat_run server_eth dst_ip m evs leaked -> lat_effect server_eth dst_ip m m' e reqs n gave_up rs lost ->
    lat_run server_eth dst_ip m' (evs ++ EvPoll true :: e) (leaked ++ drop n reqs ++ lost).

Lemma lat_run_length server_eth dst_ip m evs leaked :
  lat_run server_eth dst_ip m evs leaked -> (length m <= length (received evs))%nat.
Proof.
  induction 1 as [|m evs leaked m' e reqs n g rs lost _ IH He]; [done|].
  apply lat_effect_events in He as (Hrc & _ & ->). change (EvPoll true :: e) with ([EvPoll true] ++ e).
  autorewrite with cnet. rewrite Hrc. cbn [app]. rewrite !length_app. pose proof (length_measured rs). lia.
Qed.

Definition report_events (m : list Z) : list event :=
  [EvPrint "-------------------------------------" []] ++ ((fun x => EvPrint "%ld" [x]) <$> m) ++
  [EvPrint "-------------------------------------" []].

Lemma wp_report_measurements m (Q : unit -> machine W -> Prop) E s :
  (forall s', heap s' = heap s -> trace s' = trace s ++ report_events m -> Q tt s') ->
  wp (report_measurements m) Q E s.
Proof.
  intros HQ. unfold report_measurements, report_events in *. wp_step. apply wp_printf. wp_step.
  apply (wp_forM (fun rest _ s1 => exists pre, m = pre ++ rest /\ heap s1 = heap s /\ trace s1 = trace s ++
    [EvPrint "-------------------------------------" []] ++ ((fun x => EvPrint "%ld" [x]) <$> pre))).
  - by exists [].
  - intros x rest [] s1 (pre & -> & Eh & Et). apply wp_printf. exists (pre ++ [x]).
    rewrite <- app_assoc, fmap_app. cbn in Et |- *. by rewrite Et, <- !app_assoc.
  - intros [] s1 (pre & -> & Eh & Et). rewrite app_nil_r in HQ. apply wp_printf, HQ; [done|].
    cbn in Et |- *. by rewrite Et, <- !app_assoc.
Qed.

Lemma wp_lat_loop fuel server_eth dst_ip (Q : list Z -> machine W -> Prop) (E : reason -> machine W -> Prop) s :
  heap_ok s -> length server_eth = 6%nat ->
  (forall m s' evs leaked, lat_run server_eth dst_ip m evs leaked ->
    (exists lp, holds lp leaked (heap s') (heap s)) -> trace s' = trace s ++ evs ++ [EvPoll false] -> Q m s') ->
  (forall k s' evs, k = OutOfFuel \/ k = Aborted /\ max_measure_size <= Z.of_nat (length (received evs)) ->
    trace s' = trace s ++ evs -> E k s') ->
  wp (loop fuel (fun m =>
    run ← poll_running;
    if negb run then mret (inr m) else
    m ← lat_iter config cntx true fuel server_eth dst_ip m; mret (inl m)) []) Q E s.
Proof.
  intros Hs Hse HQ HE.
  apply (wp_loop (fun m s1 => exists evs leaked, lat_run server_eth dst_ip m evs leaked /\
    (exists lp, holds lp leaked (heap s1) (heap s)) /\ heap_ok s1 /\ trace s1 = trace s ++ evs)).
  - exists [], []. rewrite app_nil_r. split_and!; [constructor|exists []; apply holds_nil|done|done].
  - intros m s1 (evs & leaked & Hrun & [kp Hkp] & Hs1 & Et). wp_step. apply wp_poll_running. intros run w _.
    destruct run; cbn [negb].
    2:{ wp_step. eapply (HQ m _ evs leaked); [done|by exists kp|]. cbn. by rewrite Et, <- app_assoc. }
    wp_step. apply wp_lat_iter; [done..| |].
    + intros m' s2 e reqs n g rs lost He [lp Hlp] Hs2 _ _ Et2. wp_step. exists (evs ++ EvPoll true :: e). eexists.
      split; [by eapply lat_run_iter|]. split; [eexists; by eapply holds_app|]. split; [done|].
      rewrite Et2. cbn. by rewrite Et, <- !app_assoc.
    + intros k s2 e Hk Et2. apply (HE k s2 (evs ++ [EvPoll true] ++ e)); [|rewrite Et2; cbn; by rewrite Et, <- !app_assoc].
      destruct Hk as [->|[-> Hfull]]; [by left|right; split; [done|]]. pose proof (lat_run_length _ _ _ _ _ Hrun).
      unfold array_full in Hfull. autorewrite with cnet. cbn [app]. rewrite length_app. lia.
  - intros m s1 (evs & leaked & _ & _ & _ & Et). apply (HE _ s1 evs); [by left|done].
Qed.

(** A session that came to its end, and one that did not. *)
Definition session_done (ip : Z) (s s' : machine W) : Prop :=
  exists evs0 evs m mac leaked, trace s' = trace s ++ evs0 ++ evs ++ [EvPoll false] ++ report_events m /\
    first_answer (src_ip cntx) (my_eth cntx) (received evs0) = Some mac /\
    lat_run mac ip m evs leaked /\ exists lp, holds lp leaked (heap s') (heap s).
Definition session_failed (s : machine W) (k : reason) (s' : machine W) : Prop :=
  k = OutOfFuel \/ k = Aborted /\ exists evs, trace s' = trace s ++ evs /\
    max_measure_size <= Z.of_nat (length (received evs)).

Lemma wp_lat_session fuel ip s0 s1 e1 :
  heap_ok s0 -> count_queues cntx = 1 -> frees_all s0 s1 e1 -> received e1 = [] ->
  wp (lat_session config cntx true fuel ip) (fun r s' => r = 0 /\ session_done ip s0 s') (session_failed s0) s1.
Proof.
  intros Hs Hcq Hf1 Hr1. unfold lat_session. wp_step. apply wp_printf. wp_step.
  pose proof (frees_all_trans _ _ _ _ _ Hf1 (frees_all_log _ (EvPrint "sending ARP requests" []))) as Hf2.
  pose proof (frees_all_ok _ _ _ Hs Hf2) as Hs2.
  apply wp_get_dst_mac; [done|apply Hok|done| |intros; by left].
  intros mac s3 e3 Hf3 [_ Hrooms] Ha. pose proof (first_answer_length _ _ _ _ Hrooms Ha) as Hmac.
  do 3 (wp_step; apply wp_printf). wp_step. rewrite Hcq. wp_step; [|done]. wp_step.
  pose proof (frees_all_trans _ _ _ _ _ Hf2 Hf3) as Hf4. pose proof (frees_all_ok _ _ _ Hs Hf4) as Hs4.
  destruct Hf4 as (Eh & _ & _ & Et).
  set (evs0 := ((e1 ++ [EvPrint "sending ARP requests" []]) ++ e3) ++
    [EvPrint "mac address for server %s received: " [ip]] ++ [EvPrint "%x:%x:%x:%x:%x:%x" mac] ++
    [EvPrint "ARP requests finished" []]).
  apply wp_lat_loop; [exact Hs4|done| |].
  - intros m s4 evs leaked Hrun [lp Hlp] Et4. wp_step. apply wp_report_measurements. intros s5 Eh5 Et5. wp_step.
    split; [done|]. exists evs0, evs, m, mac, leaked. unfold evs0.
    split_and!; [| |done|].
    + rewrite Et5, Et4. cbn. by rewrite Et, <- !app_assoc.
    + autorewrite with cnet. by rewrite Hr1, !app_nil_r.
    + exists lp. by rewrite Eh5, <- Eh.
  - intros k s4 evs [->|[-> Hfull]] Et4; [by left|right; split; [done|]].
    exists (evs0 ++ evs). unfold evs0. rewrite Et4. cbn. rewrite Et, <- !app_assoc. split; [done|].
    autorewrite with cnet. rewrite !length_app. lia.
Qed.

(** *** The wait ends *)

(** Each reading of the clock is later than the one before, whatever else is
    called in between. *)
Record clock_runs : Prop := {
  cr_timer : forall w, reading w < 2 ^ 63 -> reading w < reading (timer_cycles w).2;
  cr_run : forall w, reading w <= reading (still_running w).2;
  cr_rx : forall p q n w, reading w <= reading (rx_burst p q n w).2;
}.

Lemma wp_wait_ends fuel start (E : reason -> machine W -> Prop) s :
  clock_runs -> 0 <= start <= reading (world s) -> start + timer_hz < 2 ^ 63 ->
  (Z.to_nat (start + timer_hz + 1 - reading (world s)) < fuel)%nat ->
  wp (wait_response cntx fuel start) (fun _ _ => True) E s.
Proof.
  intros [Ctimer Crun Crx] Hstart Hend Hfuel. unfold wait_response. set (D := start + timer_hz) in *.
  apply (wp_loop_measure (fun _ s1 => start <= reading (world s1)) (fun _ s1 => Z.to_nat (D + 1 - reading (world s1))));
    [lia|done|].
  intros [] s1 Hs1. wp_step. apply wp_poll_running. intros run w1 Erun. pose proof (Crun (world s1)) as Hr1.
  rewrite Erun in Hr1. cbn [snd] in Hr1. destruct run; cbn [negb]; [|by wp_step].
  wp_step. apply wp_rx. intros w2 bs _ _ Hrx. pose proof (Crx (dpdk_port_id cntx) (default_qid cntx) LAT_BURST_SIZE w1) as Hr2.
  cbn [world with_world log_event log_events] in Hrx. rewrite Hrx in Hr2. cbn [snd] in Hr2.
  wp_step. apply wp_get_timer_cycles. intros now w3 Hnow Enow. cbn [world with_world log_event log_events receive_bufs] in Enow.
  change (2 ^ 64) with 18446744073709551616 in Hnow. change (2 ^ 63) with 9223372036854775808 in *.
  specialize (Ctimer w2). assert (Hrd : reading w2 = now) by (unfold reading; by rewrite Enow).
  rewrite Hrd in *. rewrite Enow in Ctimer. cbn [snd] in Ctimer.
  change rte_get_timer_hz with timer_hz. rewrite u64_small by lia. case_if; [by wp_step|].
  case_bool_decide; wp_step; [|done]. cbn. split; [lia|]. unfold D in *. lia.
Qed.

(** ** Properties *)

(** C8: An iteration of the latency client, whatever the card does, told by its
    trace ([lat_effect]). Without buffers nothing happens. Otherwise the clock is
    read once for each of the [batch] requests, which has the reference layout and
    carries that reading; the card takes the first [n]; then, round by round
    ([waits]), the clock is read, the card is polled until a burst comes, the flag
    is cleared or a second has gone by, the clock is read again, and each IPv4 packet
    for us of the burst is one measurement, from the stamp in it to that reading. A
    round is followed by another as long as answers are missing and the flag is set,
    so the iteration ends with every sent request answered, or interrupted, or given
    up after a second without a burst. The buffers still owned afterwards are exactly
    those owned before, the requests the card did not take, and the packets of the
    poll at which the wait was given up: these two are leaked. It can only fail by
    filling the array of measurements. *)
Theorem lat_iter_correct fuel server_eth dst_ip m s :
  heap_ok s -> length server_eth = 6%nat ->
  wp (lat_iter config cntx true fuel server_eth dst_ip m)
    (fun m' s' => exists evs reqs n gave_up rs lost, trace s' = trace s ++ evs /\
      lat_effect server_eth dst_ip m m' evs reqs n gave_up rs lost /\
      (received evs = arrived rs ++ lost /\
       (exists rp, sent evs = take n reqs ++ rp /\ Forall (fun b => ~ is_data b) rp) /\
       m' = m ++ measured config cntx rs) /\
      (gave_up = false -> lost = [] /\ (missing (Z.of_nat n) rs = 0 \/ last evs = Some (EvPoll false))) /\
      exists lp, holds lp (drop n reqs ++ lost) (heap s') (heap s))
    (fun k s' => k = OutOfFuel \/ k = Aborted /\ exists evs, trace s' = trace s ++ evs /\ array_full m evs) s.
Proof.
  intros Hs Hse. apply wp_lat_iter; [done..| |].
  - intros m' s' evs reqs n g rs lost He Hh _ _ _ Ht. exists evs, reqs, n, g, rs, lost. do 2 (split; [done|]).
    split; [by eapply lat_effect_events|]. split; [|done]. intros ->. by eapply lat_effect_answered.
  - intros k s' evs [->|[-> Hf]] Ht; [by left|right]. split; [done|]. by exists evs.
Qed.

Lemma wp_do_latency_client fuel ip s :
  heap_ok s -> count_queues cntx = 1 -> count_dst_ip cntx = 1 -> dst_ips cntx = [ip] ->
  wp (do_latency_client config cntx true fuel) (fun r s' => r = 0 /\ session_done ip s s') (session_failed s) s.
Proof.
  intros Hs Hcq Hc Hip. unfold do_latency_client. rewrite Hc, Hip. wp_step. wp_step; [|done].
  wp_step. wp_step; [|done]. injection Hd as <-.
  pose proof (lo_batch _ _ Hok) as Hba. case_if; [lia|].
  wp_step. wp_step.
  - apply wp_printf. by eapply wp_lat_session; [| |apply frees_all_log|].
  - by eapply (wp_lat_session _ _ s s []); [| |apply frees_all_refl|].
Qed.

(** C15: A run of the latency client. It exits at once unless it has one
    destination. With one it asks for the server's address, and from then on its
    trace is that of [lat_run] with the address of the first ARP reply: a look at the
    flag and an iteration ([lat_effect]: requests stamped with the clock, a wait that
    goes on until none is unanswered, measurements up to the clock) again and again.
    When the flag is found cleared it prints all its measurements, in order, and
    returns 0; what it leaks is what its iterations leaked. It can only fail by filling the array of
    measurements. *)
Theorem latency_client_correct fuel s :
  heap_ok s -> count_queues cntx = 1 ->
  (count_dst_ip cntx <> 1 -> do_latency_client config cntx true fuel s = (Stop (Exited EXIT_FAILURE), s)) /\
  (forall ip, count_dst_ip cntx = 1 -> dst_ips cntx = [ip] ->
    wp (do_latency_client config cntx true fuel)
      (fun r s' => r = 0 /\ session_done ip s s') (session_failed s) s).
Proof.
  intros Hs Hcq. split; [|intros; by apply wp_do_latency_client].
  intros Hne. unfold do_latency_client. apply Z.eqb_neq in Hne. by rewrite Hne.
Qed.

(** C17: The wait for answers ends: with a clock that runs, the loop comes back
    with a burst, because of the interrupt, or once more than a second has passed,
    after at most as many polls as there are cycles left of that second. *)
Theorem lat_wait_ends fuel start s :
  clock_runs -> 0 <= start <= reading (world s) -> start + timer_hz < 2 ^ 63 ->
  (Z.to_nat (start + timer_hz + 1 - reading (world s)) < fuel)%nat ->
  exists r s', wait_response cntx fuel start s = (Ret r, s').
Proof.
  intros. cut (wp (wait_response cntx fuel start) (fun _ _ => True) (fun _ _ => False) s).
  { intros (r & s' & Hrun & _)%wp_result. by exists r, s'. }
  by apply wp_wait_ends.
Qed.
End lat_proofs.

(** ** Through the echo server and back *)

(** What follows a packet in the buffer is not touched by the echo. *)
Lemma echo_room_app (o : nat) d t :
  o = 14%nat \/ o = 18%nat -> (42 <= length d)%nat -> echo_room o (d ++ t) = echo_room o d ++ t.
Proof.
  intros Ho Hlen. destruct (room_split 42 d) as (hd & tl & -> & Hhd & _); [lia|]. clear Hlen.
  explode_list hd. destruct Ho as [-> | ->]; unfold echo_room, field; cbn; by rewrite ?take_0, ?drop_0.
Qed.

Section latency_trip.
Context `{DpdkLaws} {W : Type} `{EnvLaws W}.
Variable config : app_config.
Variables (cntx sc : context).
Implicit Types (s : machine W).
Hypothesis Hok : lat_ok config cntx.

(** An echo server without VLAN, for which the requests are made. *)
Record lat_peers (server_eth : ether_addr) (dst_ip : Z) : Prop := {
  lp_ip : src_ip sc = dst_ip /\ 0 <= dst_ip < 2 ^ 32;
  lp_eth : my_eth sc = server_eth /\ length server_eth = 6%nat;
  lp_vlan : use_vlan sc = 0;
  lp_bidi : bidi sc <> 0;
  lp_delta : hdr_size_delta config = 0;
}.

Lemma echo_data_any b d :
  mb_data b = d -> (42 <= length d)%nat -> mb_data (echo sc b) = echo_room (ipo sc) d.
Proof.
  intros Hd Hlen. set (n := Z.to_nat (data_len b)). pose proof (ipo_cases sc) as Hipo.
  assert (Hr : mb_room b = d ++ drop n (mb_room b)) by (rewrite <- Hd; unfold mb_data; by rewrite take_drop).
  destruct (echo_room_spec (ipo sc) d Hipo Hlen) as [Hl _].
  unfold echo, mb_data. cbn [mb_room set_room data_len]. fold n. rewrite Hr, echo_room_app by done.
  assert (Hdl : length d = Nat.min n (length (mb_room b))) by (rewrite <- Hd; unfold mb_data; by rewrite length_take).
  destruct (Nat.le_gt_cases n (length (mb_room b))).
  - apply take_app_length'. lia.
  - rewrite (drop_ge (mb_room b)) by lia. rewrite app_nil_r. apply take_ge. lia.
Qed.

Lemma lat_frame_fields server_eth dst_ip ts t :
  length server_eth = 6%nat ->
  let r := lat_frame cntx server_eth dst_ip ts ++ t in
  field 0 6 r = server_eth /\ field 6 6 r = my_eth cntx /\ be 12 2 r = RTE_ETHER_TYPE_IPV4 /\
  be 30 4 r = dst_ip mod 2 ^ 32 /\ field 42 8 r = le_split 8 ts.
Proof.
  intros Hse. pose proof (lo_eth _ _ Hok) as Hmy. unfold be. change (2 ^ 32) with (256 ^ Z.of_nat 4).
  rewrite <- be_combine_split. unfold lat_frame, lat_udp, lat_data, lat_ip, with_cksum.
  set (my := my_eth cntx) in *. clearbody my. explode_list my. explode_list server_eth.
  split_and!; reflexivity.
Qed.

(** The server accepts a request, and its echo is an answer that carries the time
    of the request. *)
Lemma lat_request_accepted server_eth dst_ip ts b :
  lat_peers server_eth dst_ip -> mb_data b = lat_frame cntx server_eth dst_ip ts -> accepts sc (mb_room b) = true.
Proof.
  intros [[Hip Hr] [He1 He2] Hv _ _] Hd. unfold accepts, ipo, wanted_type, my_ip, valid_eth, for_us, is_arp.
  rewrite Hv, He1, Hip. change (0 =? 0) with true. cbv iota.
  assert (Hroom : mb_room b = lat_frame cntx server_eth dst_ip ts ++ drop (Z.to_nat (data_len b)) (mb_room b))
    by (rewrite <- Hd; unfold mb_data; by rewrite take_drop).
  destruct (lat_frame_fields server_eth dst_ip ts (drop (Z.to_nat (data_len b)) (mb_room b)) He2) as (F1 & _ & F3 & F4 & _).
  rewrite <- Hroom in F1, F3, F4. change (14 + 16)%nat with 30%nat. rewrite F1, F3, F4, bool_decide_true by done.
  rewrite Z.mod_small, !Z.eqb_refl by done. by rewrite orb_true_r.
Qed.

Lemma lat_echo_measured server_eth dst_ip ts now d b :
  lat_peers server_eth dst_ip -> d = lat_frame cntx server_eth dst_ip ts -> 0 <= ts < 2 ^ 64 ->
  mb_data b = echo_room 14 d ->
  lat_valid cntx (mb_room b) = true /\
  measures config cntx now [b] = [u64 ((now - ts) * 1000000000) / timer_hz].
Proof.
  intros [_ [_ He] _ _ Hdelta] -> Hts Hd. set (d := lat_frame cntx server_eth dst_ip ts) in *.
  assert (Hlen : (42 <= length d)%nat).
  { pose proof (lat_frame_length config cntx Hok server_eth dst_ip ts He). pose proof (lo_payload _ _ Hok). unfold d. lia. }
  assert (Hroom : mb_room b = echo_room 14 d ++ drop (Z.to_nat (data_len b)) (mb_room b))
    by (rewrite <- Hd; unfold mb_data; by rewrite take_drop).
  set (t := drop _ _) in Hroom. rewrite <- echo_room_app in Hroom by (by left || lia).
  destruct (lat_frame_fields server_eth dst_ip ts t He) as (F1 & F2 & F3 & _ & F5). fold d in F1, F2, F3, F5.
  destruct (echo_room_spec 14 (d ++ t)) as (_ & _ & G1 & _ & G3 & _ & _ & _ & _ & G8); [by left|rewrite length_app; lia|].
  rewrite <- Hroom in G1, G3, G8.
  assert (Ht : be 12 2 (mb_room b) = RTE_ETHER_TYPE_IPV4).
  { rewrite <- F3. unfold be. f_equal. apply (f_equal (take 2)) in G3. unfold field in *. by rewrite !take_take in G3. }
  assert (Hval : lat_valid cntx (mb_room b) = true).
  { unfold lat_valid, valid_eth, for_us, is_arp. rewrite G1, F2, bool_decide_true by done. by rewrite Ht. }
  split; [done|]. rewrite measures_one. unfold lat_answer. rewrite Hval, Ht. rewrite Z.eqb_refl. cbn [andb].
  unfold lat_of, lat_stamp. rewrite Hdelta. change (42 + Z.to_nat 0)%nat with 42%nat.
  assert (Hst : field 42 8 (mb_room b) = field 42 8 (d ++ t)).
  { unfold field. change 42%nat with (38 + 4)%nat. rewrite <- !(drop_drop _ 4 38). change 38%nat with (14 + 24)%nat. by rewrite G8. }
  rewrite Hst, F5, le_combine_split. change (256 ^ Z.of_nat 8) with (2 ^ 64). by rewrite Z.mod_small.
Qed.

(** C14: A request of the latency client makes the round trip through the echo
    server, and the measurement is right. Whatever buffer the server receives it
    into, its handler queues it for sending; whatever buffer the client receives
    the echo into, its handler frees it, takes one off the packets that are
    missing, and records the time in nanoseconds between the building of the
    request and now. *)
Theorem latency_round_trip server_eth dst_ip ts b1 p1 now1 l1 s1 :
  lat_peers server_eth dst_ip -> 0 <= ts < 2 ^ 64 -> mb_data b1 = lat_frame cntx server_eth dst_ip ts ->
  heap_ok s1 -> heap s1 !! p1 = Some b1 -> room_ok b1 -> 0 <= k l1 < 64 -> length (tx_buf l1) = 64%nat ->
  wp (process_pkt sc now1 p1 l1)
    (fun l1' s1' => tx_buf l1' !! Z.to_nat (k l1) = Some p1 /\ k l1' = k l1 + 1 /\
      exists e, heap s1' !! p1 = Some e /\
      forall b2 p2 now2 nb m s2, mb_data b2 = mb_data e ->
        heap_ok s2 -> heap s2 !! p2 = Some b2 -> room_ok b2 -> 1 <= nb < 2 ^ 32 ->
        Z.of_nat (length m) + 1 < max_measure_size ->
        wp (lat_receive config cntx true now2 p2 (nb, m))
          (fun r s2' => r = (nb - 1, m ++ [u64 ((now2 - ts) * 1000000000) / timer_hz]) /\
            heap s2' = delete p2 (heap s2))
          (fun _ _ => False) s2)
    (fun _ _ => False) s1.
Proof.
  intros Hpe Hts Hd Hs Hp Hb Hk Htb. pose proof (lat_request_accepted _ _ _ _ Hpe Hd) as Hacc.
  pose proof (lp_bidi _ _ Hpe) as Hbi. apply Z.eqb_neq in Hbi. pose proof Hpe as [[Hip Hr] [_ He] Hv _ _].
  apply (wp_process_pkt sc now1 p1 b1); try done; [unfold my_ip; by rewrite Hip|lia|].
  rewrite Hacc. split; [intros _ Hge; lia|]. intros s' evs _ Hh _ _ _ _. unfold heap_after, after_pkt, kept in *.
  rewrite Hbi in Hh |- *. cbn [andb negb] in Hh. split; [|split].
  - cbn [add_echo tx_buf]. apply list_lookup_insert_eq. lia.
  - cbn. apply u64_small. lia.
  - exists (echo sc b1). split; [rewrite Hh; apply lookup_insert_eq|].
    intros b2 p2 now2 nb m s2 Hd2 Hs2 Hp2 Hb2 Hnb Hm.
    rewrite (echo_data_any b1 _ Hd) in Hd2.
    2:{ pose proof (lat_frame_length config cntx Hok server_eth dst_ip ts He). pose proof (lo_payload _ _ Hok). lia. }
    unfold ipo in Hd2. rewrite Hv in Hd2.
    destruct (lat_echo_measured _ _ ts now2 _ b2 Hpe eq_refl Hts Hd2) as [Hval Hmeas].
    eapply wp_lat_receive; [done..| |intros; lia]. intros s'' e Hh2 _ _ _ _. split; [|done].
    unfold lat_after. cbn [fst snd]. rewrite Hval, Hmeas, u32_small by lia. done.
Qed.
End latency_trip.

(** ** Witnesses *)

(** Bursts of two requests to one server; the server is that of Server.v, whose
    address is 10.0.0.1. *)
Definition some_lat : context :=
  Context_ 3 0 0 0 0 0 mac_b 167772162 3000 1 0 1 1 0 0 [] 0 [167772161] 1 8080 64 1 1 8080 DIST_UNIFORM DIST_UNIFORM
    0 0 2.
Definition lat_world : sim := Sim 0 7 [[]; [datagram]] [1] [].

Lemma some_lat_ok : lat_ok default_config some_lat.
Proof. constructor; first [done|by apply Z.leb_le|split; first [by apply Z.leb_le|by apply Z.ltb_lt]]. Qed.

Lemma lat_iter_correct_witness :
  wp (lat_iter default_config some_lat true 500 mac_a 167772161 [5])
    (fun m' s' => exists evs reqs n gave_up rs lost, trace s' = trace (boot lat_world) ++ evs /\
      lat_effect default_config some_lat mac_a 167772161 [5] m' evs reqs n gave_up rs lost /\
      (received evs = arrived rs ++ lost /\
       (exists rp, sent evs = take n reqs ++ rp /\ Forall (fun b => ~ is_data b) rp) /\
       m' = [5] ++ measured default_config some_lat rs) /\
      (gave_up = false -> lost = [] /\ (missing some_lat (Z.of_nat n) rs = 0 \/ last evs = Some (EvPoll false))) /\
      exists lp, holds lp (drop n reqs ++ lost) (heap s') ∅)
    (fun k s' => k = OutOfFuel \/ k = Aborted /\ exists evs, trace s' = trace (boot lat_world) ++ evs /\
      array_full [5] evs) (boot lat_world).
Proof. apply (lat_iter_correct default_config some_lat); [apply some_lat_ok|apply boot_ok|reflexivity]. Defined.

Lemma latency_client_correct_witness :
  wp (do_latency_client default_config some_lat true 500)
    (fun r s' => r = 0 /\ session_done default_config some_lat 167772161 (boot lat_world) s')
    (session_failed (boot lat_world)) (boot lat_world).
Proof.
  exact (proj2 (latency_client_correct default_config some_lat some_lat_ok 500 (boot lat_world) (boot_ok lat_world)
    eq_refl) 167772161 eq_refl eq_refl).
Defined.

Lemma sim_clock_runs : clock_runs (W := sim).
Proof.
  constructor.
  - apply sim_tick_advances.
  - intros w. cbn. destruct (run_script w); cbn; lia.
  - intros p q n w. cbn. destruct (rx_script w); cbn; lia.
Qed.

Lemma lat_wait_ends_witness :
  exists r s', wait_response some_lat (Z.to_nat 1010) 0 (boot lat_world) = (Ret r, s').
Proof.
  apply (lat_wait_ends some_lat);
    [apply sim_clock_runs|split; by apply Z.leb_le|by apply Z.ltb_lt
    |apply Z2Nat.inj_lt; [by apply Z.leb_le|by apply Z.leb_le|by apply Z.ltb_lt]].
Defined.

(** The request of time 1000 and its way. *)
Definition some_request : mbuf := packet (lat_frame some_lat mac_a 167772161 1000).
Lemma some_lat_peers : lat_peers default_config server_cntx mac_a 167772161.
Proof. constructor; [split; [reflexivity|split; [by apply Z.leb_le|by apply Z.ltb_lt]]|done|done|done|done]. Qed.

Lemma latency_round_trip_witness :
  wp (process_pkt server_cntx 0 0 (initial_locals server_cntx 0))
    (fun l s' => k l = 1 /\ exists e, heap s' !! 0%nat = Some e)
    (fun _ _ => False) (holding quiet (lat_frame some_lat mac_a 167772161 1000)).
Proof.
  eapply wp_mono.
  - apply (latency_round_trip default_config some_lat server_cntx some_lat_ok mac_a 167772161 1000 some_request);
      [apply some_lat_peers|split; [by apply Z.leb_le|by apply Z.ltb_lt]|vm_compute; reflexivity|apply holding_ok
      |apply holding_lookup|apply packet_ok|split; [by apply Z.leb_le|by apply Z.ltb_lt]|reflexivity].
  - intros l s' (_ & Hk & e & He & _). split; [exact Hk|]. by exists e.
  - done.
Defined.
