(* ===== verification/FlowRules.v ===== *)
(** * Flow rules (utils/flow_rules.c, include/flow_rules.h)

    Two helpers that ask the card to steer packets to a receive queue: by VLAN
    number and IPv4 addresses, or by hardware addresses. No other file calls
    them. Items are in memory as the headers they describe, with a mask of the
    same size; the card compares a packet with them byte by byte. *)
From S2P Require Import Prelude CInt Monad Zipf Dpdk Sim.

Inductive rte_flow_item_type :=
  | RTE_FLOW_ITEM_TYPE_END
  | RTE_FLOW_ITEM_TYPE_ETH
  | RTE_FLOW_ITEM_TYPE_VLAN
  | RTE_FLOW_ITEM_TYPE_IPV4.
(** [None] is a pair of null pointers, and otherwise the bytes of spec and mask. *)
Record rte_flow_item := FlowItem {
  item_type : rte_flow_item_type;
  item_match : option (list Z * list Z);
}.
Inductive rte_flow_action :=
  | RTE_FLOW_ACTION_TYPE_QUEUE (index : Z)
  | RTE_FLOW_ACTION_TYPE_END.
Record rte_flow_attr := FlowAttr { attr_group : Z; attr_priority : Z; ingress : Z; egress : Z; transfer : Z }.

(** The part of DPDK that handles rules. *)
Class DpdkFlow (W : Type) := {
  RTE_BE16 : Z -> Z;
  flow_validate : Z -> rte_flow_attr -> list rte_flow_item -> list rte_flow_action -> W -> Z * W;
  flow_create : Z -> rte_flow_attr -> list rte_flow_item -> list rte_flow_action -> W -> option Z * W;
}.
Class FlowLaws W `{DpdkFlow W} : Prop := { RTE_BE16_spec : forall x, RTE_BE16 x = bswap16 x }.

(** The C library's, on this processor. *)
Definition htonl (x : Z) : Z := bswap32 x.

Definition full_mask : Z := 0xffffffff.
Definition no_mask : Z := 0.
Definition eth_addr_full_mask : ether_addr := replicate 6 0xff.
Definition eth_addr_no_mask : ether_addr := replicate 6 0.

Section rules.
Context {W : Type} `{DpdkFlow W}.

Definition vlan_item (tci inner_type : Z) : list Z := le_split 2 tci ++ le_split 2 inner_type.
(** The header with everything but the addresses zero. *)
Definition ipv4_item (src_addr dst_addr : Z) : list Z := replicate 12 0 ++ le_split 4 src_addr ++ le_split 4 dst_addr.
Definition eth_item (src dst : ether_addr) : list Z := dst ++ src ++ [0; 0].

Definition ipv4_pattern (src_ip src_mask dest_ip dest_mask : Z) : list rte_flow_item :=
  let vlan_spec := vlan_item (RTE_BE16 0x6064) (RTE_BE16 RTE_ETHER_TYPE_IPV4) in
  let vlan_mask := vlan_item 0x0fff 0x0 in
  let ip_spec := ipv4_item (htonl src_ip) (htonl dest_ip) in
  let ip_mask := ipv4_item (htonl src_mask) (htonl dest_mask) in
  [FlowItem RTE_FLOW_ITEM_TYPE_ETH None;
   FlowItem RTE_FLOW_ITEM_TYPE_VLAN (Some (vlan_spec, vlan_mask));
   FlowItem RTE_FLOW_ITEM_TYPE_IPV4 (Some (ip_spec, ip_mask));
   FlowItem RTE_FLOW_ITEM_TYPE_END None].

Definition eth_pattern (src src_mask dst dst_mask : ether_addr) : list rte_flow_item :=
  [FlowItem RTE_FLOW_ITEM_TYPE_ETH (Some (eth_item src dst, eth_item src_mask dst_mask));
   FlowItem RTE_FLOW_ITEM_TYPE_END None].

Definition flow_attr : rte_flow_attr := FlowAttr 0 0 1 0 0.
Definition queue_action (rx_q : Z) : list rte_flow_action := [RTE_FLOW_ACTION_TYPE_QUEUE rx_q; RTE_FLOW_ACTION_TYPE_END].

(** The end both functions share. *)
Definition add_flow (port_id rx_q : Z) (pattern : list rte_flow_item) : M (machine W) (option Z) :=
  res ← on_world (flow_validate port_id flow_attr pattern (queue_action rx_q));
  if res =? 0 then on_world (flow_create port_id flow_attr pattern (queue_action rx_q)) else mret None.

Definition generate_ipv4_flow (port_id rx_q src_ip src_mask dest_ip dest_mask : Z) : M (machine W) (option Z) :=
  add_flow port_id rx_q (ipv4_pattern src_ip src_mask dest_ip dest_mask).
Definition generate_eth_flow (port_id rx_q : Z) (src src_mask dst dst_mask : ether_addr) : M (machine W) (option Z) :=
  add_flow port_id rx_q (eth_pattern src src_mask dst dst_mask).
End rules.

(** ** What a rule selects

    The headers of a frame follow one another; each has to agree with its item
    in the bits of the mask. *)
Definition header_size (t : rte_flow_item_type) : nat :=
  match t with
  | RTE_FLOW_ITEM_TYPE_END => 0
  | RTE_FLOW_ITEM_TYPE_ETH => 14
  | RTE_FLOW_ITEM_TYPE_VLAN => 4
  | RTE_FLOW_ITEM_TYPE_IPV4 => 20
  end.
Definition masked (mask l : list Z) : list Z := zip_with Z.land mask l.
Definition item_matches (i : rte_flow_item) (header : list Z) : bool :=
  match item_match i with
  | Some (spec, mask) => bool_decide (masked mask header = masked mask spec)
  | None => true
  end.
Fixpoint pattern_matches (pattern : list rte_flow_item) (frame : list Z) : bool :=
  match pattern with
  | [] => true
  | i :: pattern =>
      item_matches i (take (header_size (item_type i)) frame) &&
      pattern_matches pattern (drop (header_size (item_type i)) frame)
  end.

(** A tagged IPv4 frame: [ip] is the header up to the addresses. *)
Definition tagged_frame (dst src : ether_addr) (tci : Z) (ip : list Z) (sip dip : Z) (rest : list Z) : list Z :=
  dst ++ src ++ be_split 2 RTE_ETHER_TYPE_VLAN ++ be_split 2 tci ++ be_split 2 RTE_ETHER_TYPE_IPV4 ++
  ip ++ be_split 4 sip ++ be_split 4 dip ++ rest.

Lemma masked_app m m' l l' : length m = length l -> masked (m ++ m') (l ++ l') = masked m l ++ masked m' l'.
Proof. intros. by apply zip_with_app. Qed.
Lemma masked_length m l : length m = length l -> length (masked m l) = length l.
Proof. intros Hl. unfold masked. rewrite length_zip_with. lia. Qed.
Lemma masked_zero n l : length l = n -> masked (replicate n 0) l = replicate n 0.
Proof. revert l. induction n as [|n IH]; intros [|x l] Hl; [done..|]. cbn. f_equal. apply IH. by injection Hl. Qed.
Lemma masked_full l : Forall byte_ok l -> masked (replicate (length l) 0xff) l = l.
Proof.
  induction 1 as [|x l Hx _ IH]; [done|]. cbn [length replicate]. unfold masked in *. cbn [zip_with]. rewrite IH. f_equal.
  change 255 with (Z.ones 8). rewrite Z.land_comm, Z.land_ones by done. by apply Z.mod_small.
Qed.

(** Masking a scalar masks its bytes, in either order. *)
Lemma masked_le_split n m x : masked (le_split n m) (le_split n x) = le_split n (Z.land m x).
Proof.
  revert m x. induction n as [|n IH]; intros m x; [done|]. cbn [le_split]. unfold masked in *. cbn [zip_with]. rewrite IH.
  change 256 with (2 ^ 8). rewrite <- !Z.land_ones, <- !Z.shiftr_div_pow2, Z.shiftr_land by done. f_equal.
  apply Z.bits_inj'. intros i _. rewrite !Z.land_spec. by destruct (Z.testbit m i), (Z.testbit x i), (Z.testbit (Z.ones 8) i).
Qed.
Lemma rev_zip {A B C} (f : A -> B -> C) l k :
  length l = length k -> rev (zip_with f l k) = zip_with f (rev l) (rev k).
Proof.
  revert k. induction l as [|x l IH]; intros [|y k] Hl; try done. injection Hl as Hl.
  cbn [zip_with rev]. rewrite zip_with_app by (by rewrite !length_rev). by rewrite IH.
Qed.
Lemma masked_be_split n m x : masked (be_split n m) (be_split n x) = be_split n (Z.land m x).
Proof.
  unfold be_split. rewrite <- masked_le_split. unfold masked. rewrite rev_zip; [done|]. by rewrite !length_le_split.
Qed.

Lemma be_split_inj n x y :
  0 <= x < 256 ^ Z.of_nat n -> 0 <= y < 256 ^ Z.of_nat n -> be_split n x = be_split n y <-> x = y.
Proof.
  intros Hx Hy. split; [|by intros ->]. intros E. apply (le_split_inj n); [done|done|].
  unfold be_split in E. apply (f_equal (@rev Z)) in E. by rewrite !rev_involutive in E.
Qed.
Lemma land_range m x n : 0 <= n -> 0 <= m -> 0 <= x < 2 ^ n -> 0 <= Z.land m x < 2 ^ n.
Proof.
  intros Hn Hm Hx. split; [apply Z.land_nonneg; lia|].
  replace x with (x mod 2 ^ n) by (by apply Z.mod_small). rewrite <- Z.land_ones, Z.land_assoc, Z.land_ones by lia.
  apply Z.mod_pos_bound. lia.
Qed.
Lemma masked_field n m x y :
  0 <= m -> 0 <= x < 256 ^ Z.of_nat n -> 0 <= y < 256 ^ Z.of_nat n ->
  masked (be_split n m) (be_split n x) = masked (be_split n m) (be_split n y) <-> Z.land m x = Z.land m y.
Proof.
  intros Hm Hx Hy. rewrite !masked_be_split. change 256 with (2 ^ 8) in *. rewrite <- Z.pow_mul_r in Hx, Hy by lia.
  apply be_split_inj; change 256 with (2 ^ 8); rewrite <- Z.pow_mul_r by lia; apply land_range; lia.
Qed.
Lemma app_eq_iff {A} (l1 l2 k1 k2 : list A) : length l1 = length k1 -> l1 ++ l2 = k1 ++ k2 <-> l1 = k1 /\ l2 = k2.
Proof. intros Hl. split; [by apply app_inj_1|by intros [-> ->]]. Qed.

Lemma tci_mask tci : 0 <= tci < 2 ^ 16 -> Z.land 0xff0f tci = 0x6004 <-> tci / 256 = 0x60 /\ tci mod 16 = 4.
Proof.
  intros Ht. pose proof (Z.div_mod (Z.land 0xff0f tci) 256 ltac:(done)) as Em.
  change 256 with (2 ^ 8) in Em. rewrite <- Z.shiftr_div_pow2, Z.shiftr_land in Em by done.
  rewrite <- (Z.land_ones (Z.land _ _)), <- (Z.land_assoc 0xff0f), (Z.land_comm tci), Z.land_assoc in Em by done.
  change (Z.shiftr 0xff0f 8) with (Z.ones 8) in Em. change (Z.land 0xff0f (Z.ones 8)) with (Z.ones 4) in Em.
  rewrite !(Z.land_comm (Z.ones _)), !Z.land_ones, Z.shiftr_div_pow2 in Em by done.
  change (2 ^ 8) with 256 in Em. change (2 ^ 4) with 16 in Em. rewrite Em, (Z.mod_small (tci / 256)) by
    (change 256 with (2 ^ 8) at 2; split; [by apply Z.div_pos; lia|by apply Z.div_lt_upper_bound; lia]).
  pose proof (Z.mod_pos_bound tci 16 ltac:(done)). lia.
Qed.

Section rules_proofs.
Context {W : Type} `{FlowLaws W}.
Implicit Types (s : machine W) (E : reason -> machine W -> Prop).

(** A rule is created only after it was found valid, and nothing but the card
    is touched. *)
Definition rule_added (port_id rx_q : Z) (pattern : list rte_flow_item) s (flow : option Z) s' : Prop :=
  let valid := flow_validate port_id flow_attr pattern (queue_action rx_q) (world s) in
  s' = with_world (world s') s /\
  if valid.1 =? 0 then flow_create port_id flow_attr pattern (queue_action rx_q) valid.2 = (flow, world s')
  else flow = None /\ world s' = valid.2.

Lemma wp_add_flow port_id rx_q pattern (Q : option Z -> machine W -> Prop) E s :
  (forall flow s', rule_added port_id rx_q pattern s flow s' -> Q flow s') -> wp (add_flow port_id rx_q pattern) Q E s.
Proof.
  intros HQ. unfold add_flow. wp_step. apply wp_on_world. unfold rule_added in HQ.
  destruct (_ =? 0); [apply wp_on_world|wp_step]; apply HQ; (split; [done|]); [by rewrite <- surjective_pairing|done].
Qed.

Lemma eth_item_selects dst src ty rest spec mask :
  length dst = 6%nat -> length src = 6%nat -> length ty = 2%nat ->
  pattern_matches [FlowItem RTE_FLOW_ITEM_TYPE_ETH (Some (spec, mask)); FlowItem RTE_FLOW_ITEM_TYPE_END None]
    (dst ++ src ++ ty ++ rest) = bool_decide (masked mask (dst ++ src ++ ty) = masked mask spec).
Proof.
  intros Hd Hs Ht. cbn [pattern_matches item_matches item_match item_type header_size]. rewrite !andb_true_r.
  by rewrite !app_assoc, take_app_length' by (rewrite !length_app; lia).
Qed.

(** What the IPv4 rule selects among tagged IPv4 frames. *)
Lemma ipv4_pattern_selects src_ip src_mask dest_ip dest_mask dst src tci ip sip dip rest :
  length dst = 6%nat -> length src = 6%nat -> length ip = 12%nat -> 0 <= tci < 2 ^ 16 ->
  0 <= src_mask -> 0 <= dest_mask -> 0 <= src_ip < 2 ^ 32 -> 0 <= dest_ip < 2 ^ 32 -> 0 <= sip < 2 ^ 32 -> 0 <= dip < 2 ^ 32 ->
  pattern_matches (ipv4_pattern (W := W) src_ip src_mask dest_ip dest_mask) (tagged_frame dst src tci ip sip dip rest) = true <->
  (tci / 256 = 0x60 /\ tci mod 16 = 4) /\ Z.land src_mask sip = Z.land src_mask src_ip /\ Z.land dest_mask dip = Z.land dest_mask dest_ip.
Proof.
  intros Hd Hs Hi Ht Hsm Hdm Hsi Hdi Hsip Hdip. unfold ipv4_pattern, tagged_frame, vlan_item, ipv4_item, htonl.
  rewrite !RTE_BE16_spec, !le_split_bswap16, !le_split_bswap32.
  cbn [pattern_matches item_matches item_match item_type header_size]. rewrite !andb_true_l, !andb_true_r.
  rewrite (app_assoc dst), (app_assoc (dst ++ src)), drop_app_length' by (rewrite !length_app, length_be_split; lia).
  rewrite (app_assoc (be_split 2 tci)), take_app_length', drop_app_length' by (by rewrite length_app, !length_be_split).
  rewrite (app_assoc ip), (app_assoc (ip ++ _)), take_app_length' by (rewrite !length_app, !length_be_split; lia).
  rewrite andb_true_iff, !bool_decide_eq_true.
  change (le_split 2 0xfff) with (be_split 2 0xff0f). change (le_split 2 0) with (replicate 2 0).
  rewrite <- !app_assoc, !masked_app by (rewrite ?length_replicate, ?length_be_split; done).
  rewrite !masked_zero by (rewrite ?length_replicate, ?length_be_split; done).
  rewrite !app_eq_iff by (rewrite ?length_replicate, ?masked_length; rewrite ?length_be_split; done).
  rewrite !masked_field by done. change (Z.land 0xff0f 0x6064) with 0x6004. rewrite tci_mask by done. naive_solver.
Qed.

(** C35: The IPv4 rule. If the card finds it valid it is created, otherwise
    nothing is; among the tagged IPv4 frames it selects those whose addresses agree
    with the given ones in the bits of the masks. As to the VLAN, only 12 bits are
    meant to count, but their mask is not put in network byte order: the rule
    selects priority 3 and the VLANs 4, 20, 36, ..., 244, instead of VLAN 100 at
    any priority. *)
Theorem ipv4_flow_selects port_id rx_q src_ip src_mask dest_ip dest_mask s :
  0 <= src_mask -> 0 <= dest_mask -> 0 <= src_ip < 2 ^ 32 -> 0 <= dest_ip < 2 ^ 32 ->
  wp (generate_ipv4_flow port_id rx_q src_ip src_mask dest_ip dest_mask)
    (fun flow s' => exists rule, rule_added port_id rx_q rule s flow s' /\
      forall dst src tci ip sip dip rest,
        length dst = 6%nat -> length src = 6%nat -> length ip = 12%nat ->
        0 <= tci < 2 ^ 16 -> 0 <= sip < 2 ^ 32 -> 0 <= dip < 2 ^ 32 ->
        pattern_matches rule (tagged_frame dst src tci ip sip dip rest) = true <->
        (tci / 256 = 0x60 /\ tci mod 16 = 4) /\
        Z.land src_mask sip = Z.land src_mask src_ip /\ Z.land dest_mask dip = Z.land dest_mask dest_ip)
    (fun _ _ => False) s.
Proof.
  intros. apply wp_add_flow. intros flow s' Hadd. eexists. split; [exact Hadd|]. intros. by apply ipv4_pattern_selects.
Qed.

(** The Ethernet rule. If the card finds it valid it is created, otherwise
    nothing is; it selects the frames whose addresses agree with the given ones in
    the bits of the masks: an address under the full mask has to be the same, one
    under the empty mask can be any. *)
Theorem eth_flow_selects port_id rx_q src src_mask dst dst_mask s :
  length src = 6%nat -> length src_mask = 6%nat -> length dst = 6%nat -> length dst_mask = 6%nat ->
  wp (generate_eth_flow port_id rx_q src src_mask dst dst_mask)
    (fun flow s' => exists rule, rule_added port_id rx_q rule s flow s' /\
      forall d a ty rest, length d = 6%nat -> length a = 6%nat -> length ty = 2%nat ->
        (pattern_matches rule (d ++ a ++ ty ++ rest) = true <->
         masked dst_mask d = masked dst_mask dst /\ masked src_mask a = masked src_mask src) /\
        (dst_mask = eth_addr_full_mask -> src_mask = eth_addr_no_mask -> Forall byte_ok d -> Forall byte_ok dst ->
         pattern_matches rule (d ++ a ++ ty ++ rest) = true <-> d = dst))
    (fun _ _ => False) s.
Proof.
  intros Hs Hsm Hd Hdm. apply wp_add_flow. intros flow s' Hadd. eexists. split; [exact Hadd|].
  intros d a ty rest Hd' Ha Hty.
  assert (Hsel : pattern_matches (eth_pattern src src_mask dst dst_mask) (d ++ a ++ ty ++ rest) = true <->
    masked dst_mask d = masked dst_mask dst /\ masked src_mask a = masked src_mask src).
  { unfold eth_pattern, eth_item. rewrite eth_item_selects, bool_decide_eq_true by done.
    change [0; 0] with (replicate 2 0). rewrite !masked_app, !masked_zero by congruence || done.
    rewrite !app_eq_iff by (rewrite ?masked_length; congruence). naive_solver. }
  split; [exact Hsel|]. intros -> -> Hb Hb'. rewrite Hsel. unfold eth_addr_full_mask, eth_addr_no_mask.
  rewrite !masked_zero by done. rewrite <- Hd' at 1. rewrite <- Hd at 1. rewrite !masked_full by done. naive_solver.
Qed.
End rules_proofs.

(** ** Witnesses *)

(** A card that takes every rule. *)
#[export] Instance sim_flow : DpdkFlow sim := {
  RTE_BE16 := bswap16;
  flow_validate _ _ _ _ w := (0, w);
  flow_create _ _ _ _ w := (Some 1, w);
}.
#[export] Instance sim_flow_laws : FlowLaws sim.
Proof. by constructor. Qed.

(** A frame of VLAN 100 at priority 0 is not selected, one of VLAN 4 at priority 3 is. *)
Lemma ipv4_flow_selects_witness :
  let frame tci := tagged_frame [] [] tci (replicate 12 0) 167772161 167772162 [] in
  wp (generate_ipv4_flow 0 1 167772161 full_mask 0 no_mask)
    (fun flow s' => exists rule, rule_added 0 1 rule (boot (Sim 0 1 [] [] [])) flow s' /\
      pattern_matches rule (replicate 12 0 ++ frame 100) = false /\
      pattern_matches rule (replicate 12 0 ++ frame 0x6004) = true)
    (fun _ _ => False) (boot (Sim 0 1 [] [] [])).
Proof.
  intros frame. eapply wp_mono.
  - apply (ipv4_flow_selects 0 1 167772161 full_mask 0 no_mask);
      first [by apply Z.leb_le|split; by apply Z.leb_le || by apply Z.ltb_lt].
  - intros flow s' (rule & Hadd & Hsel). exists rule. split; [exact Hadd|].
    assert (Hf : forall tci, 0 <= tci < 2 ^ 16 -> pattern_matches rule (replicate 12 0 ++ frame tci) = true <->
      tci / 256 = 0x60 /\ tci mod 16 = 4).
    { intros tci Ht. change (replicate 12 0 ++ frame tci) with
        (tagged_frame (replicate 6 0) (replicate 6 0) tci (replicate 12 0) 167772161 167772162 []).
      rewrite Hsel by (done || split; by apply Z.leb_le || by apply Z.ltb_lt). naive_solver. }
    split.
    + apply not_true_iff_false. rewrite Hf by (split; by apply Z.leb_le || by apply Z.ltb_lt). by intros [? _].
    + apply Hf; [split; by apply Z.leb_le || by apply Z.ltb_lt|done].
  - done.
Defined.

Lemma eth_flow_selects_witness :
  wp (generate_eth_flow 0 1 (replicate 6 1) eth_addr_no_mask (replicate 6 2) eth_addr_full_mask)
    (fun flow s' => exists rule, rule_added 0 1 rule (boot (Sim 0 1 [] [] [])) flow s' /\
      pattern_matches rule (replicate 6 2 ++ replicate 6 7 ++ [8; 0] ++ []) = true)
    (fun _ _ => False) (boot (Sim 0 1 [] [] [])).
Proof.
  eapply wp_mono.
  - by apply (eth_flow_selects 0 1 (replicate 6 1) eth_addr_no_mask (replicate 6 2) eth_addr_full_mask).
  - intros flow s' (rule & Hadd & Hsel). exists rule. split; [exact Hadd|].
    apply (proj1 (Hsel (replicate 6 2) (replicate 6 7) [8; 0] [] eq_refl eq_refl eq_refl)). done.
  - done.
Defined.
