(* ===== verification/Main.v ===== *)
(** * Program start (main.c)

    Creating the buffer pools, bringing up the port with its queues, dividing the
    queues among the cores, and starting a worker on each. The part of DPDK that
    only the start uses is the class [DpdkPort]. *)
From S2P Require Import Prelude CInt Monad Dpdk Sim Arp Exp Config Server.
From S2P Require Import Packet Latency.

Definition RX_RING_SIZE : Z := 512.
Definition TX_RING_SIZE : Z := 512.
Definition NUM_MBUFS : Z := 32768.
Definition MBUF_CACHE_SIZE : Z := 512.
Definition PRIV_SIZE : Z := 256.
Definition dpdk_port : Z := 0.
Definition MAX_CONTEXTS : Z := 20.

(** [struct rte_eth_conf], the fields that are set. *)
Record eth_conf := EthConf {
  max_lro_pkt_size : Z;
  rx_offloads : Z;
  mq_mode : Z;
  rss_hf : Z;
  tx_offloads : Z;
}.

Class DpdkPort (W : Type) := {
  rte_lcore_count : Z;
  worker_lcores : list Z;                            (* without the main core *)
  RTE_ETHER_MAX_LEN : Z;
  RTE_ETH_MQ_RX_NONE : Z;
  RTE_ETH_TX_OFFLOAD_IPV4_CKSUM : Z;
  RTE_ETH_TX_OFFLOAD_UDP_CKSUM : Z;
  RTE_MBUF_DEFAULT_BUF_SIZE : Z;
  pool_create : string -> list Z -> W -> option Z * W;   (* name; sizes *)
  dev_is_valid : Z -> W -> bool * W;
  dev_configure : Z -> Z -> Z -> eth_conf -> W -> Z * W;
  dev_adjust : Z -> Z -> Z -> W -> (Z * (Z * Z)) * W; (* result; descriptors *)
  rxq_setup : Z -> Z -> Z -> Z -> W -> Z * W;        (* port, queue, descriptors, pool *)
  txq_setup : Z -> Z -> Z -> W -> Z * W;             (* port, queue, descriptors *)
  dev_start : Z -> W -> Z * W;
  fmemopen_ok : W -> bool * W;
}.

(** What the documentation of the launch interface says. *)
Class PortLaws (W : Type) `{DpdkPort W} : Prop := {
  lcores : rte_lcore_count = 1 + Z.of_nat (length worker_lcores);
}.

Section main.
Context `{DpdkLib} {W : Type} `{DpdkEnv W} `{!DpdkPort W}.

(** A call that configures the card. *)
Definition port_call {A} (name : string) (args : list Z) (f : W -> A * W) : M (machine W) A :=
  _ ← modify (log_event (EvPort name args)); on_world f.

(** A loop over the queues that returns at the first failure. *)
Fixpoint setup_queues (qs : list Z) (f : Z -> M (machine W) Z) : M (machine W) bool :=
  match qs with
  | [] => mret true
  | q :: qs => retval ← f q; if retval =? 0 then setup_queues qs f else mret false
  end.

(** The return value, and [my_eth], which is only written at the end. *)
Definition dpdk_port_init (port mbuf_pool queues : Z) (my_eth : ether_addr) : M (machine W) (Z * ether_addr) :=
  let port_conf := EthConf RTE_ETHER_MAX_LEN 0 RTE_ETH_MQ_RX_NONE 0
    (Z.lor RTE_ETH_TX_OFFLOAD_IPV4_CKSUM RTE_ETH_TX_OFFLOAD_UDP_CKSUM) in
  _ ← printf "Connecting to port %u with %u queues" [port; queues];
  valid ← port_call "rte_eth_dev_is_valid_port" [port] (dev_is_valid port);
  if negb valid then mret (-1, my_eth) else
  retval ← port_call "rte_eth_dev_configure" [port; queues; queues] (dev_configure port queues queues port_conf);
  if negb (retval =? 0) then mret (-1, my_eth) else
  '(retval, (nb_rxd, nb_txd)) ← port_call "rte_eth_dev_adjust_nb_rx_tx_desc" [port]
    (dev_adjust port RX_RING_SIZE TX_RING_SIZE);
  if negb (retval =? 0) then mret (-1, my_eth) else
  rx_ok ← setup_queues (seqZ 0 queues) (fun q =>
    port_call "rte_eth_rx_queue_setup" [port; q; nb_rxd; mbuf_pool] (rxq_setup port q nb_rxd mbuf_pool));
  if negb rx_ok then mret (-1, my_eth) else
  tx_ok ← setup_queues (seqZ 0 queues) (fun q =>
    port_call "rte_eth_tx_queue_setup" [port; q; nb_txd] (txq_setup port q nb_txd));
  if negb tx_ok then mret (-1, my_eth) else
  retval ← port_call "rte_eth_dev_start" [port] (dev_start port);
  if retval <? 0 then mret (retval, my_eth) else
  mret (0, rte_eth_macaddr_get port).

(** The receive and the transmit pool; the process id in the names is left
    out. *)
Definition create_pools : M (machine W) (Z * Z) :=
  let sizes := [NUM_MBUFS; MBUF_CACHE_SIZE; PRIV_SIZE; RTE_MBUF_DEFAULT_BUF_SIZE] in
  rx ← on_world (pool_create "MUBF_RX_POOL_" sizes);
  rx ← match rx with Some p => mret p | None => stop (Exited EXIT_FAILURE) end;
  tx ← on_world (pool_create "MBUF_TX_POOL_" sizes);
  match tx with Some p => mret (rx, p) | None => stop (Exited EXIT_FAILURE) end.

(** [struct context c = {};] *)
Definition zero_context : context :=
  Context_ 0 0 0 0 0 0 (replicate 6 0) 0 0 0 0 0 0 0 0 [] 0 [] 0 0 0 0 0 0 0 0 0 0 0.

(** SIGINT and SIGHUP clear the flag of every worker; so does the end of the
    server on the main core. *)
Definition stop_context (c : context) : context := stopped c.
Definition handle_main_int (count_core : Z) (cntxs : list context) : option (list context) :=
  foldl (fun r i => cs ← r; c ← lookupZ cs i; insertZ i (stop_context c) cs) (Some cntxs) (seqZ 0 count_core).

Variable config : app_config.

(** What a server context gets. *)
Definition server_context (i rx tx : Z) (my_eth : ether_addr) (next_qid findex queue_per_core : Z) : context := {|
  mode := cfg_mode config; rx_mem_pool := rx; tx_mem_pool := tx; worker_id := u32 i; dpdk_port_id := u32 dpdk_port;
  default_qid := u16 next_qid; Exp.my_eth := my_eth; src_ip := source_ip config; src_port := server_port config;
  count_queues := u32 queue_per_core; use_vlan := u8 (cfg_use_vlan config); bidi := u8 (cfg_bidi config);
  do_arp := u8 (cfg_do_arp config); delay_us := server_delay config; delay_cycles := server_delay config;
  managed_queues := (fun q => u32 (findex * queue_per_core + q)) <$> seqZ 0 queue_per_core;
  duration := 0; dst_ips := []; count_dst_ip := 0; dst_port := 0; payload_length := 0; running := 1; count_flow := 0;
  base_port_number := 0; destination_distribution := 0; queue_selection_distribution := 0;
  rate_limit := cfg_rate_limit (client config); rate := cfg_rate (client config); batch := 0 |}.

(** What a client context gets, with the addresses of its destinations. *)
Definition client_context (i rx tx : Z) (my_eth : ether_addr) (next_qid queue_per_core : Z) (ips : list Z) : context := {|
  mode := cfg_mode config; rx_mem_pool := rx; tx_mem_pool := tx; worker_id := u32 i; dpdk_port_id := u32 dpdk_port;
  default_qid := u16 next_qid; Exp.my_eth := my_eth; src_ip := source_ip config; src_port := client_port (client config);
  count_queues := u32 queue_per_core; use_vlan := u8 (cfg_use_vlan config); bidi := u8 (cfg_bidi config);
  do_arp := u8 (cfg_do_arp config); delay_us := 0; delay_cycles := cfg_delay_cycles (client config);
  managed_queues := []; duration := cfg_duration (client config);
  dst_ips := ips; count_dst_ip := i32 (count_server_ips (client config)); dst_port := server_port config;
  payload_length := i32 (payload_size config); running := 1; count_flow := u32 (cfg_count_flow (client config));
  base_port_number := server_port config; destination_distribution := DIST_UNIFORM;
  queue_selection_distribution := DIST_UNIFORM;
  rate_limit := cfg_rate_limit (client config); rate := cfg_rate (client config); batch := cfg_batch (client config) |}.

(** Copying the addresses; one that was never set is indeterminate. *)
Definition copy_ips : M (machine W) (list Z) :=
  forM (seqZ 0 (i32 (count_server_ips (client config)))) (fun j ips =>
    ip ← demand (lookupZ (server_ips (client config)) j);
    ip ← demand ip;
    _ ← printf "ip: %s" [ip];
    mret (ips ++ [ip])) [].

(** The body of the loop that fills the contexts. *)
Definition fill_context (rx tx : Z) (my_eth : ether_addr) (queue_per_core i : Z)
    : Z * Z * list context -> M (machine W) (Z * Z * list context) := fun '(next_qid, findex, cntxs) =>
  _ ← demand (lookupZ cntxs i);
  let default_qid := next_qid in
  let next_qid := next_qid + queue_per_core in
  _ ← c_assert (next_qid - 1 <? num_queues config);
  opened ← on_world fmemopen_ok;
  _ ← c_assert opened;
  if cfg_mode config =? mode_server then
    let c := server_context i rx tx my_eth default_qid findex queue_per_core in
    _ ← printf "Server delay: %d" [server_delay config];
    cntxs ← demand (insertZ i c cntxs);
    mret (next_qid, findex + 1, cntxs)
  else
    ips ← copy_ips;
    _ ← printf "server port is %d" [server_port config];
    cntxs ← demand (insertZ i (client_context i rx tx my_eth default_qid queue_per_core ips) cntxs);
    mret (next_qid, findex, cntxs).

(** [main] up to the contexts. *)
Definition main_setup : M (machine W) (list context) :=
  let count_core := rte_lcore_count in
  _ ← printf "Count core: %d" [count_core];
  _ ← guard_exit (count_core <=? num_queues config) EXIT_FAILURE;
  _ ← printf "Number of queues: %d" [num_queues config];
  valid ← port_call "rte_eth_dev_is_valid_port" [dpdk_port] (dev_is_valid dpdk_port);
  _ ← guard_exit valid EXIT_FAILURE;
  '(rx, tx) ← create_pools;
  '(retval, my_eth) ← dpdk_port_init (u8 dpdk_port) rx (num_queues config) (replicate 6 0);
  _ ← guard_exit (retval =? 0) EXIT_FAILURE;
  _ ← demand (if count_core =? 0 then None else Some tt);
  _ ← c_assert (Z.rem (num_queues config) count_core =? 0);
  '(_, _, cntxs) ← forM (seqZ 0 count_core) (fill_context rx tx my_eth (Z.quot (num_queues config) count_core))
    (0, 0, replicate (Z.to_nat MAX_CONTEXTS) zero_context);
  mret cntxs.

(** A worker for each other core, with the contexts from 1 on. *)
Definition launch_workers : M (machine W) Z :=
  forM worker_lcores (fun lcore_id cntxIndex =>
    _ ← modify (log_event (EvPort "rte_eal_remote_launch" [cntxIndex; lcore_id]));
    mret (cntxIndex + 1)) 1.

Definition cleanup : M (machine W) unit :=
  forM (seqZ 0 (num_queues config)) (fun q _ =>
    modify (log_event (EvPort "rte_eth_tx_done_cleanup" [dpdk_port; q; 0]))) tt.

(** What each worker wrote, shown by its number in place of its text. *)
Definition print_outputs (banner : bool) : M (machine W) unit :=
  forM (seqZ 0 rte_lcore_count) (fun i _ =>
    _ ← when banner (printf "------ worker %d ------" [i]);
    _ ← printf "%s" [i];
    when banner (printf "------  end  ---------" [])) tt.

(** The main core: the workers run beside it, as part of its environment. The
    load-generating client, which starts a thread of its own, is passed in;
    [calloc_ok] says whether the latency client's [calloc] finds room. *)
Definition main (calloc_ok : bool) (fuel : nat) (do_client : context -> M (machine W) Z) : M (machine W) Z :=
  cntxs ← main_setup;
  c0 ← demand (lookupZ cntxs 0);
  _ ← launch_workers;
  _ ← (if cfg_mode config =? mode_server then
         '(_, _) ← do_server c0 fuel;
         _ ← demand (handle_main_int rte_lcore_count cntxs);
         mret tt
       else
         _ ← (if cfg_mode config =? mode_latency_clinet then do_latency_client config c0 calloc_ok fuel else do_client c0);
         mret tt);
  _ ← modify (log_event (EvPort "rte_eal_mp_wait_lcore" []));
  _ ← print_outputs (cfg_mode config =? mode_server);
  _ ← cleanup;
  mret 0.
End main.

(** ** The state the start leaves *)
Section main_spec.
Context `{DpdkLib} {W : Type} `{DpdkEnv W} `{!DpdkPort W}.
Variable config : app_config.

(** The calls that bring up a port with [n] queues, in order. *)
Definition port_calls (port pool n nb_rxd nb_txd : Z) : list event :=
  [EvPort "rte_eth_dev_is_valid_port" [port]; EvPort "rte_eth_dev_configure" [port; n; n];
   EvPort "rte_eth_dev_adjust_nb_rx_tx_desc" [port]] ++
  ((fun q => EvPort "rte_eth_rx_queue_setup" [port; q; nb_rxd; pool]) <$> seqZ 0 n) ++
  ((fun q => EvPort "rte_eth_tx_queue_setup" [port; q; nb_txd]) <$> seqZ 0 n) ++
  [EvPort "rte_eth_dev_start" [port]].

Definition queues_per_core : Z := num_queues config / rte_lcore_count.

(** The context of core [i], with all the destinations that were set. *)
Definition ips_of : list Z :=
  omap id (take (Z.to_nat (count_server_ips (client config))) (server_ips (client config))).
Definition context_of (rx tx : Z) (eth : ether_addr) (i : Z) : context :=
  if cfg_mode config =? mode_server
  then server_context config i rx tx eth (i * queues_per_core) i queues_per_core
  else client_context config i rx tx eth (i * queues_per_core) queues_per_core ips_of.
Definition filled (rx tx : Z) (eth : ether_addr) (n : Z) : list context :=
  (context_of rx tx eth <$> seqZ 0 n) ++ replicate (Z.to_nat (MAX_CONTEXTS - n)) zero_context.

End main_spec.

Section main_proofs.
Context `{DpdkLaws} {W : Type} `{EnvLaws W} `{!DpdkPort W, !PortLaws W}.
Implicit Types (s : machine W) (E : reason -> machine W -> Prop).

Lemma wp_port_call {A} name args (f : W -> A * W) (Q : A -> machine W -> Prop) E s :
  (forall a w, f (world s) = (a, w) -> Q a (with_world w (log_event (EvPort name args) s))) ->
  wp (port_call name args f) Q E s.
Proof.
  intros HQ. unfold port_call. wp_step. unfold wp at 1. cbn. apply wp_on_world. cbn [world log_event log_events].
  apply HQ. by destruct (f (world s)).
Qed.

(** Events of the start: calls and prints, no packets. *)
Definition quiet_events (evs : list event) : Prop := received evs = [] /\ sent evs = [].

Lemma quiet_app e1 e2 : quiet_events e1 -> quiet_events e2 -> quiet_events (e1 ++ e2).
Proof. intros [R1 S1] [R2 S2]. split; autorewrite with cnet; [by rewrite R1, R2|by rewrite S1, S2]. Qed.

Lemma frees_all_event s0 s evs w :
  frees_all s0 s evs -> forall e, frees_all s0 (with_world w (log_event e s)) (evs ++ [e]).
Proof. intros (? & ? & ? & Et) e. unfold frees_all. cbn. by rewrite Et, <- app_assoc. Qed.
Lemma frees_all_snoc s0 s evs e : frees_all s0 s evs -> frees_all s0 (log_event e s) (evs ++ [e]).
Proof. intros Hf. eapply frees_all_trans; [exact Hf|apply frees_all_log]. Qed.
Lemma frees_all_world s0 s evs w : frees_all s0 s evs -> frees_all s0 (with_world w s) evs.
Proof. done. Qed.

(** *** The port *)
Lemma wp_setup_queues name (args : Z -> list Z) (g : Z -> W -> Z * W) qs evs (Q : bool -> machine W -> Prop) E s0 s :
  frees_all s0 s evs ->
  (forall ok s' done, done `prefix_of` ((fun q => EvPort name (args q)) <$> qs) ->
    frees_all s0 s' (evs ++ done) -> (ok = true -> done = (fun q => EvPort name (args q)) <$> qs) -> Q ok s') ->
  wp (setup_queues qs (fun q => port_call name (args q) (g q))) Q E s.
Proof.
  revert evs s. induction qs as [|q qs IH]; intros evs s Hf HQ; cbn [setup_queues].
  - wp_step. apply (HQ true s []); [done|by rewrite app_nil_r|done].
  - wp_step. apply wp_port_call. intros r w _. pose proof (frees_all_event _ _ _ w Hf (EvPort name (args q))) as Hf1.
    case_if.
    + apply (IH _ _ Hf1). intros ok s' done Hd Hf' Hok. apply (HQ ok s' (EvPort name (args q) :: done)).
      * by apply prefix_cons.
      * by rewrite <- app_assoc in Hf'.
      * intros ->. cbn [fmap list_fmap]. by rewrite Hok.
    + wp_step. apply (HQ false _ [EvPort name (args q)]); [by exists ((fun q => EvPort name (args q)) <$> qs)|done|done].
Qed.

Lemma wp_dpdk_port_init port pool n eth (Q : Z * ether_addr -> machine W -> Prop) E s :
  (forall r eth' s' rxd txd calls, calls `prefix_of` port_calls port pool n rxd txd ->
    frees_all s s' (EvPrint "Connecting to port %u with %u queues" [port; n] :: calls) ->
    (r = 0 -> calls = port_calls port pool n rxd txd /\ eth' = macaddr port) -> (r <> 0 -> eth' = eth) ->
    Q (r, eth') s') ->
  wp (dpdk_port_init port pool n eth) Q E s.
Proof.
  intros HQ. unfold dpdk_port_init.
  pose proof (frees_all_log s (EvPrint "Connecting to port %u with %u queues" [port; n])) as Hf.
  wp_step. apply wp_printf. set (e0 := EvPrint _ _) in *.
  assert (Hfail : forall s' rxd txd calls, calls `prefix_of` port_calls port pool n rxd txd ->
    frees_all s s' (e0 :: calls) -> wp (mret (-1, eth)) Q E s').
  { intros s' rxd txd calls Hc Hf'. wp_step. by eapply HQ. }
  unfold port_calls in *. cbn [app] in *.
  wp_step. apply wp_port_call. intros valid w1 _. pose proof (frees_all_event _ _ _ w1 Hf) as Hf1. cbn [app] in Hf1.
  case_if; [by eapply (Hfail _ 0 0 [_]); [eexists|apply Hf1]|].
  wp_step. apply wp_port_call. intros r2 w2 _. pose proof (frees_all_event _ _ _ w2 (Hf1 (EvPort "rte_eth_dev_is_valid_port" [port]))) as Hf2. cbn [app] in Hf2.
  case_if; [by eapply (Hfail _ 0 0 [_; _]); [eexists|apply Hf2]|].
  wp_step. apply wp_port_call. intros [r3 [rxd txd]] w3 _. pose proof (frees_all_event _ _ _ w3 (Hf2 (EvPort "rte_eth_dev_configure" [port; n; n]))) as Hf3. cbn [app] in Hf3.
  cbv beta iota. case_if; [by eapply (Hfail _ rxd txd [_; _; _]); [eexists|apply Hf3]|].
  wp_step. eapply (wp_setup_queues "rte_eth_rx_queue_setup"); [apply Hf3|].
  intros ok s4 done Hd4 Hf4 Hok4. destruct ok; cbn [negb].
  2:{ eapply (Hfail _ rxd txd (_ :: _ :: _ :: done)); [|exact Hf4]. do 3 apply prefix_cons. by apply prefix_app_r. }
  rewrite (Hok4 eq_refl) in Hf4. clear Hok4 Hd4.
  wp_step. eapply (wp_setup_queues "rte_eth_tx_queue_setup"); [exact Hf4|].
  intros ok s5 done5 Hd5 Hf5 Hok5. rewrite <- app_assoc in Hf5. destruct ok; cbn [negb].
  2:{ eapply (Hfail _ rxd txd (_ :: _ :: _ :: _)); [|exact Hf5]. do 3 apply prefix_cons. apply prefix_app. by apply prefix_app_r. }
  rewrite (Hok5 eq_refl) in Hf5. clear Hok5 Hd5.
  wp_step. apply wp_port_call. intros r6 w6 _. pose proof (frees_all_event _ _ _ w6 Hf5 (EvPort "rte_eth_dev_start" [port])) as Hf6. clear Hf5.
  rewrite <- !app_assoc in Hf6. cbn [app] in Hf6.
  case_if; (wp_step; eapply (HQ _ _ _ rxd txd); [reflexivity|exact Hf6|first [lia|done]|done]).
Qed.

Lemma prefix_quiet port pool n rxd txd calls :
  calls `prefix_of` port_calls port pool n rxd txd -> quiet_events calls.
Proof.
  intros [rest Hc]. assert (Hall : quiet_events (port_calls port pool n rxd txd)).
  { unfold port_calls. repeat apply quiet_app; try done;
      (induction (seqZ 0 n) as [|q qs IH]; [done|]; cbn [fmap list_fmap]; by apply (quiet_app [_])). }
  rewrite Hc in Hall. destruct Hall as [Hr Hs]. autorewrite with cnet in Hr, Hs.
  apply app_nil in Hr as [? _]. by apply app_nil in Hs as [? _].
Qed.

Lemma wp_create_pools (Q : Z * Z -> machine W -> Prop) E s :
  (forall rx tx w, Q (rx, tx) (with_world w s)) -> (forall s', E (Exited EXIT_FAILURE) s') ->
  wp create_pools Q E s.
Proof.
  intros HQ HE. unfold create_pools. wp_step. apply wp_on_world. wp_step.
  destruct (pool_create _ _ _).1 as [rx|]; [|by wp_step]. wp_step. wp_step. apply wp_on_world.
  destruct (pool_create _ _ (world _)).1 as [tx|]; [|by wp_step]. wp_step. apply HQ.
Qed.

(** *** The contexts *)
Section contexts.
Variable config : app_config.
Hypothesis Hcfg : config_ok config.

Lemma copy_count : i32 (count_server_ips (client config)) = count_server_ips (client config).
Proof. pose proof (co_count _ (cg_client _ Hcfg)) as Hc. unfold MAX_SERVER_IP_DEST in Hc. apply i32_small. lia. Qed.

(** Every destination was set when the command line was accepted. *)
Lemma wp_copy_ips (Q : list Z -> machine W -> Prop) E s :
  (forall s' evs, frees_all s s' evs -> quiet_events evs -> Q (ips_of config) s') ->
  wp (copy_ips config) Q E s.
Proof.
  intros HQ. pose proof (co_count _ (cg_client _ Hcfg)) as Hc. pose proof (co_length _ (cg_client _ Hcfg)) as Hl.
  unfold MAX_SERVER_IP_DEST in Hc. unfold copy_ips. rewrite copy_count. set (n := count_server_ips _) in *.
  apply (wp_forM (fun js ips s1 => exists i evs, 0 <= i <= n /\ js = seqZ i (n - i) /\
    Some <$> ips = take (Z.to_nat i) (server_ips (client config)) /\ frees_all s s1 evs /\ quiet_events evs)).
  - exists 0, []. rewrite Z.sub_0_r. split_and!; try (done || lia). apply frees_all_refl.
  - intros j js ips s1 (i & e & Hi & Hjs & Hips & Hf1 & Hq1). destruct (Z.eq_dec i n) as [->|Hne].
    { by rewrite Z.sub_diag in Hjs. }
    rewrite seqZ_cons in Hjs by lia. injection Hjs as -> ->.
    destruct (co_ips _ (cg_client _ Hcfg) i ltac:(lia)) as (ip & Hip & _). rewrite Hip.
    wp_step. wp_step; [|done]. injection Hd as <-. wp_step. wp_step; [|done]. injection Hd as <-.
    wp_step. apply wp_printf. wp_step. exists (Z.succ i), (e ++ [EvPrint "ip: %s" [ip]]).
    split; [lia|]. split; [f_equal; lia|]. split.
    + apply lookupZ_Some in Hip as [_ Hip]. replace (Z.to_nat (Z.succ i)) with (S (Z.to_nat i)) by lia.
      by rewrite fmap_app, Hips, (take_S_r _ _ _ Hip).
    + split; [|by apply quiet_app]. eapply frees_all_trans; [done|apply frees_all_log].
  - intros ips s1 (i & e & Hi & Hjs & Hips & Hf1 & Hq1).
    assert (i = n) as -> by (destruct (Z.eq_dec i n); [done|by rewrite seqZ_cons in Hjs by lia]).
    assert (ips = ips_of config) as ->.
    { unfold ips_of. fold n. rewrite <- Hips. clear. induction ips as [|x xs IH]; [done|]. cbn. by f_equal. }
    by eapply HQ.
Qed.

Lemma filled_insert rx tx eth i :
  0 <= i < MAX_CONTEXTS ->
  insertZ i (context_of config rx tx eth i) (filled config rx tx eth i) = Some (filled config rx tx eth (i + 1)).
Proof.
  intros Hi. unfold filled. unfold MAX_CONTEXTS in *.
  assert (Hl : length (context_of config rx tx eth <$> seqZ 0 i) = Z.to_nat i) by (by rewrite length_fmap, length_seqZ).
  rewrite insertZ_is_Some by (rewrite length_app, Hl, length_replicate; lia).
  f_equal. rewrite insert_app_r_alt by lia. rewrite Hl, Nat.sub_diag.
  replace (Z.to_nat (20 - i)) with (S (Z.to_nat (20 - (i + 1)))) by lia. cbn [replicate insert list_insert].
  rewrite (seqZ_app 0 i 1), fmap_app, <- app_assoc by lia. cbn. by rewrite Z.add_0_l.
Qed.

Lemma wp_fill_context rx tx eth i nq fi cs (Q : Z * Z * list context -> machine W -> Prop)
    (E : reason -> machine W -> Prop) s :
  0 <= i -> 0 <= queues_per_core config ->
  (i + 1) * queues_per_core config <= num_queues config -> nq = i * queues_per_core config ->
  (cfg_mode config = mode_server -> fi = i) -> cs = filled config rx tx eth i ->
  (forall s' evs, i < MAX_CONTEXTS -> frees_all s s' evs -> quiet_events evs ->
    Q ((i + 1) * queues_per_core config, if cfg_mode config =? mode_server then fi + 1 else fi,
       filled config rx tx eth (i + 1)) s') ->
  (forall s', MAX_CONTEXTS <= i -> E Undef s') ->
  (forall s' w, (fmemopen_ok w).1 = false -> E Aborted s') ->
  wp (fill_context config rx tx eth (queues_per_core config) i (nq, fi, cs)) Q E s.
Proof.
  intros Hi Hqpc Hle -> Hfi -> HQ HU HA. unfold fill_context.
  assert (Hlen : Z.of_nat (length (filled config rx tx eth i)) = Z.max MAX_CONTEXTS i).
  { unfold filled, MAX_CONTEXTS. rewrite length_app, length_fmap, length_seqZ, length_replicate. lia. }
  wp_step. wp_step.
  2:{ apply HU. apply lookupZ_None in Hd. lia. }
  destruct (Z.le_gt_cases MAX_CONTEXTS i) as [Hge|Hlt]; [apply lookupZ_bound in Hd; lia|].
  wp_step. wp_step; [|nia]. wp_step. apply wp_on_world. wp_step. wp_step; [|by eapply HA].
  pose proof (filled_insert rx tx eth i ltac:(lia)) as Hins.
  replace (i * queues_per_core config + queues_per_core config) with ((i + 1) * queues_per_core config) in * by lia.
  unfold context_of in Hins. destruct (cfg_mode config =? mode_server) eqn:Em.
  - apply Z.eqb_eq in Em. rewrite (Hfi Em) in *. wp_step. apply wp_printf. rewrite Hins. wp_step. wp_step; [|done].
    injection Hd0 as <-. wp_step. eapply (HQ _ [EvPrint "Server delay: %d" [server_delay config]]); [done| |done].
    by split_and!.
  - wp_step. apply wp_copy_ips. intros s' evs' Hf' Hq'. wp_step. apply wp_printf.
    rewrite Hins. wp_step. wp_step; [|done]. injection Hd0 as <-. wp_step.
    eapply (HQ _ (evs' ++ [EvPrint "server port is %d" [server_port config]])); [done| |by apply quiet_app]. eapply frees_all_trans; [exact Hf'|apply frees_all_log].
Qed.

(** What [main_setup] may end with instead of a result. *)
Definition setup_fails (k : reason) : Prop :=
  k = Exited EXIT_FAILURE \/ k = Undef /\ MAX_CONTEXTS < rte_lcore_count \/
  k = Aborted /\ (num_queues config mod rte_lcore_count <> 0 \/ exists w, (fmemopen_ok w).1 = false).

Lemma wp_main_setup (Q : list context -> machine W -> Prop) (E : reason -> machine W -> Prop) s :
  (forall rx tx s' evs, rte_lcore_count <= num_queues config -> rte_lcore_count <= MAX_CONTEXTS ->
    num_queues config = rte_lcore_count * queues_per_core config -> frees_all s s' evs -> quiet_events evs ->
    (exists pre post rxd txd, evs = pre ++ port_calls dpdk_port rx (num_queues config) rxd txd ++ post) ->
    Q (filled config rx tx (macaddr dpdk_port) rte_lcore_count) s') ->
  (forall k s', setup_fails k -> E k s') ->
  wp (main_setup config) Q E s.
Proof.
  intros HQ HE. unfold main_setup. pose proof lcores as Hcores. set (cc := rte_lcore_count) in *.
  pose proof (frees_all_log s (EvPrint "Count core: %d" [cc])) as Hf.
  wp_step. apply wp_printf. wp_step. wp_step; [|apply HE; by left].
  pose proof (frees_all_trans _ _ _ _ _ Hf (frees_all_log _ (EvPrint "Number of queues: %d" [num_queues config]))) as Hf1.
  wp_step. apply wp_printf. wp_step. apply wp_port_call. intros valid w1 _.
  pose proof (frees_all_event _ _ _ w1 Hf1 (EvPort "rte_eth_dev_is_valid_port" [dpdk_port])) as Hf2.
  wp_step. wp_step; [|apply HE; by left]. wp_step. apply wp_create_pools; [|intros; apply HE; by left].
  intros rx tx w2. cbv beta iota. apply (frees_all_world _ _ _ w2) in Hf2.
  wp_step. change (u8 dpdk_port) with dpdk_port. apply wp_dpdk_port_init.
  intros r eth s3 rxd txd calls Hpre Hf3 Hr0 _. cbv beta iota. wp_step. wp_step; [|apply HE; by left].
  destruct (Hr0 ltac:(lia)) as [-> ->]. clear Hr0. apply prefix_quiet in Hpre.
  wp_step. destruct (Z.eqb_spec cc 0); [lia|]. wp_step; [|done]. clear Hd.
  pose proof (cg_queues _ Hcfg) as Hnq. unfold u16_ok in Hnq.
  wp_step. rewrite Z.rem_mod_nonneg by lia. wp_step; [|apply HE; right; right; split; [done|by left]].
  rewrite Z.quot_div_nonneg by lia. fold (queues_per_core config).
  assert (Hdiv : num_queues config = cc * queues_per_core config).
  { unfold queues_per_core. fold cc. pose proof (Z.div_mod (num_queues config) cc). lia. }
  pose proof (frees_all_trans _ _ _ _ _ Hf2 Hf3) as Hf4.
  assert (Hqpc : 0 <= queues_per_core config) by (apply Z.div_pos; lia).
  set (evs0 := _ ++ _ :: _) in Hf4. assert (Hq4 : quiet_events evs0)
    by (unfold evs0; apply quiet_app; [done|by apply (quiet_app [_])]).
  assert (Hcalls : exists pre, evs0 = pre ++ port_calls dpdk_port rx (num_queues config) rxd txd).
  { eexists (([EvPrint _ _] ++ [EvPrint _ _]) ++ [EvPort _ _] ++ [EvPrint _ _]). unfold evs0. reflexivity. }
  clearbody evs0. clear Hpre Hf Hf1 Hf2 Hf3.
  wp_step. apply (wp_forM (fun todo x s' => exists i post, 0 <= i <= cc /\ todo = seqZ i (cc - i) /\
    x = (i * queues_per_core config, x.1.2, filled config rx tx (macaddr dpdk_port) i) /\
    (cfg_mode config = mode_server -> x.1.2 = i) /\ (0 < i -> i <= MAX_CONTEXTS) /\
    frees_all s s' (evs0 ++ post) /\ quiet_events (evs0 ++ post))).
  - exists 0, []. rewrite Z.sub_0_r, app_nil_r. split_and!; first [done|lia].
  - intros j todo x s1 (i & post & Hi & His & Hx & Hfi & _ & Hf5 & Hq5). destruct (Z.eq_dec i cc) as [->|Hne].
    { by rewrite Z.sub_diag in His. }
    rewrite seqZ_cons in His by lia. injection His as -> ->. rewrite Hx.
    apply wp_fill_context; [lia|done|rewrite Hdiv; nia|done|done|done| | |].
    + intros s' e Hlt Hf6 Hq6. exists (i + 1), (post ++ e). cbn [fst snd].
      split; [lia|]. split; [f_equal; lia|]. split; [done|]. split; [intros Hm; rewrite Hm, (Hfi Hm); reflexivity|].
      split; [unfold MAX_CONTEXTS in *; lia|]. rewrite app_assoc. split; [by eapply frees_all_trans|by apply quiet_app].
    + intros s' Hge. apply HE. right; left. split; [done|]. unfold cc in *. lia.
    + intros s' w Hw. apply HE. right; right. split; [done|]. right. by exists w.
  - intros x s1 (i & post & Hi & His & Hx & Hfi & Hmax & Hf5 & Hq5).
    assert (i = cc) as -> by (destruct (Z.eq_dec i cc); [done|by rewrite seqZ_cons in His by lia]).
    rewrite Hx. wp_step. destruct Hcalls as [pre ->]. eapply (HQ rx tx _ _); [lia|apply Hmax; lia|done|exact Hf5|done|].
    by exists pre, post, rxd, txd; rewrite <- app_assoc.
Qed.

(** *** The workers of a server *)
Hypothesis Hserver : cfg_mode config = mode_server.

Lemma context_server rx tx eth i :
  context_of config rx tx eth i =
    server_context config i rx tx eth (i * queues_per_core config) i (queues_per_core config).
Proof. unfold context_of. by rewrite Hserver. Qed.

(** The queues of core [i] are the [i]th run of [queues_per_core] numbers. *)
Lemma context_queues rx tx eth i n :
  num_queues config = n * queues_per_core config -> 0 <= i < n -> 0 <= queues_per_core config ->
  managed_queues (context_of config rx tx eth i) = seqZ (i * queues_per_core config) (queues_per_core config) /\
  count_queues (context_of config rx tx eth i) = queues_per_core config /\
  default_qid (context_of config rx tx eth i) = i * queues_per_core config.
Proof.
  intros Hn Hi Hq. pose proof (cg_queues _ Hcfg) as Hr. unfold u16_ok in Hr. set (k := queues_per_core config) in *.
  assert (Hb : 0 <= i * k /\ i * k + k <= num_queues config) by nia.
  rewrite context_server. fold k. cbn [managed_queues count_queues default_qid server_context].
  rewrite u16_small, (u32_small k) by nia. split; [|done].
  replace (seqZ (i * k) k) with (seqZ (i * k + 0) k) by (f_equal; lia). rewrite <- fmap_add_seqZ. apply list_fmap_ext.
  intros j q Hq'. apply lookup_seqZ in Hq' as [-> Hj]. apply u32_small. lia.
Qed.

(** All queues are served, each by one worker. *)
Lemma queues_partition rx tx eth n m :
  0 <= n -> num_queues config = m * queues_per_core config -> n <= m -> 0 <= queues_per_core config ->
  concat (managed_queues <$> (context_of config rx tx eth <$> seqZ 0 n)) = seqZ 0 (n * queues_per_core config).
Proof.
  intros Hn Hm. revert n Hn. apply (natlike_ind (fun n => n <= m -> 0 <= queues_per_core config ->
    concat (managed_queues <$> (context_of config rx tx eth <$> seqZ 0 n)) = seqZ 0 (n * queues_per_core config))); [done|].
  intros n Hn IH Hle Hq. unfold Z.succ. rewrite (seqZ_app 0 n 1), !fmap_app, concat_app by lia.
  rewrite IH by lia. rewrite Z.add_0_l. change (seqZ n 1) with [n]. cbn [fmap list_fmap concat]. rewrite app_nil_r. destruct (context_queues rx tx eth n m) as (-> & _); [lia..|].
  rewrite Z.mul_add_distr_r, Z.mul_1_l, seqZ_app by nia. by rewrite Z.add_0_l.
Qed.

Lemma first_worker_ok rx tx eth :
  0 < queues_per_core config -> num_queues config = rte_lcore_count * queues_per_core config ->
  worker_ok (context_of config rx tx eth 0).
Proof.
  intros Hq Hn. pose proof lcores as Hc. pose proof (cg_queues _ Hcfg) as Hr. unfold u16_ok in Hr.
  destruct (context_queues rx tx eth 0 rte_lcore_count) as (Em & Ec & _); [done|lia..|].
  assert (queues_per_core config <= num_queues config) by nia.
  constructor; rewrite ?Ec, ?Em, ?length_seqZ; try lia.
  - rewrite context_server. apply Hcfg.
  - apply Forall_forall. intros q Hin%elem_of_seqZ. lia.
Qed.

(** A loop whose rounds only print and configure. *)
Lemma wp_quiet_loop {A X} (f : A -> X -> M (machine W) X) (l : list A) x (Q : X -> machine W -> Prop) E s :
  (forall a x s1 (Q' : X -> machine W -> Prop), (forall x' s' evs, frees_all s1 s' evs -> quiet_events evs -> Q' x' s') ->
    wp (f a x) Q' E s1) ->
  (forall x' s' evs, frees_all s s' evs -> quiet_events evs -> Q x' s') -> wp (forM l f x) Q E s.
Proof.
  intros Hf HQ. apply (wp_forM (fun _ _ s1 => exists evs, frees_all s s1 evs /\ quiet_events evs)).
  - exists []. split; [apply frees_all_refl|done].
  - intros a l' x1 s1 (evs & Hfr & Hq). apply Hf. intros x' s' evs' Hfr2 Hq'.
    exists (evs ++ evs'). split; [by eapply frees_all_trans|by apply quiet_app].
  - intros x' s1 (evs & Hfr & Hq). by eapply HQ.
Qed.

Lemma wp_launch (Q : Z -> machine W -> Prop) E s :
  (forall n s' evs, frees_all s s' evs -> quiet_events evs -> Q n s') -> wp (launch_workers (W := W)) Q E s.
Proof.
  apply wp_quiet_loop. intros id n s1 Q' HQ'. wp_step. eapply wp_run; [done|]. wp_step.
  by eapply HQ'; [apply frees_all_log|].
Qed.
Lemma wp_print_outputs banner (Q : unit -> machine W -> Prop) E s :
  (forall x s' evs, frees_all s s' evs -> quiet_events evs -> Q x s') -> wp (print_outputs (W := W) banner) Q E s.
Proof.
  apply wp_quiet_loop. intros i [] s1 Q' HQ'.
  destruct banner; cbn [when].
  - do 2 (wp_step; apply wp_printf). apply wp_printf. by eapply HQ'; [do 2 eapply frees_all_snoc; apply frees_all_log|].
  - wp_step. wp_step. wp_step. apply wp_printf. wp_step. by eapply HQ'; [apply frees_all_log|].
Qed.
Lemma wp_cleanup (Q : unit -> machine W -> Prop) E s :
  (forall x s' evs, frees_all s s' evs -> quiet_events evs -> Q x s') -> wp (cleanup (W := W) config) Q E s.
Proof.
  apply wp_quiet_loop. intros q [] s1 Q' HQ'. eapply wp_run; [done|]. by eapply HQ'; [apply frees_all_log|].
Qed.

Lemma filled_lookup rx tx eth i n :
  0 <= i < n -> lookupZ (filled config rx tx eth n) i = Some (context_of config rx tx eth i).
Proof.
  intros Hi. apply lookupZ_Some. split; [lia|]. unfold filled.
  rewrite lookup_app_l by (rewrite length_fmap, length_seqZ; lia).
  rewrite list_lookup_fmap, lookup_seqZ_lt by lia. cbn. f_equal. f_equal. lia.
Qed.
Lemma filled_length rx tx eth n : 0 <= n <= MAX_CONTEXTS -> Z.of_nat (length (filled config rx tx eth n)) = MAX_CONTEXTS.
Proof. intros Hn. unfold filled. rewrite length_app, length_fmap, length_seqZ, length_replicate. lia. Qed.

(** Stopping the workers clears the flag of each and nothing else. *)
Lemma handle_main_int_run n cs :
  0 <= n <= Z.of_nat (length cs) ->
  handle_main_int n cs = Some ((stop_context <$> take (Z.to_nat n) cs) ++ drop (Z.to_nat n) cs).
Proof.
  intros [Hn Hle]. unfold handle_main_int. revert n Hn Hle.
  apply (natlike_ind (fun n => n <= Z.of_nat (length cs) -> _)); [done|].
  intros n Hn IH Hle. unfold Z.succ. rewrite seqZ_app, foldl_app, IH by lia. rewrite Z.add_0_l.
  change (seqZ n 1) with [n]. cbn [foldl mbind option_bind].
  replace (Z.to_nat (n + 1)) with (S (Z.to_nat n)) by lia.
  destruct (lookup_lt_is_Some_2 cs (Z.to_nat n)) as [c Hc]; [lia|].
  assert (Hl : length (stop_context <$> take (Z.to_nat n) cs) = Z.to_nat n)
    by (rewrite length_fmap, length_take; lia).
  rewrite (drop_S _ _ _ Hc).
  assert (Hlook : lookupZ ((stop_context <$> take (Z.to_nat n) cs) ++ c :: drop (S (Z.to_nat n)) cs) n = Some c).
  { apply lookupZ_Some. split; [done|]. by apply list_lookup_middle. }
  rewrite Hlook. cbn [mbind option_bind]. rewrite insertZ_is_Some by (apply lookupZ_bound in Hlook; lia).
  f_equal. rewrite (take_S_r _ _ _ Hc), fmap_app, <- app_assoc. rewrite <- Hl at 1.
  rewrite <- (Nat.add_0_r (length _)), insert_app_r. done.
Qed.

(** ** Properties *)

(** Bringing up a port. Whatever the card answers, the calls that are made
    are a prefix of: check, configure, adjust the descriptors, set up the receive
    queues 0, 1, ..., then the transmit queues, start. The result is 0 only if all
    of them were made, and then the hardware address is the port's; otherwise the
    address is left as it was. *)
Theorem port_init_correct port pool n eth s :
  wp (dpdk_port_init port pool n eth)
    (fun '(r, eth') s' => exists rxd txd calls, calls `prefix_of` port_calls port pool n rxd txd /\
      frees_all s s' (EvPrint "Connecting to port %u with %u queues" [port; n] :: calls) /\
      (r = 0 -> calls = port_calls port pool n rxd txd /\ eth' = macaddr port) /\ (r <> 0 -> eth' = eth))
    (fun _ _ => False) s.
Proof. apply wp_dpdk_port_init. intros r eth' s' rxd txd calls Hc Hf H0' Hn. by exists rxd, txd, calls. Qed.

(** C13: Starting a server. If the start goes through, the port was brought up
    with all its queues before the first worker runs, there are at most 20 workers,
    their queues divide the configured queues without gap or overlap, each has the
    configured address and is running. Otherwise the program has exited, failed an
    assertion (queues that cannot be divided evenly), or, with more than 20 cores,
    written past the array of contexts. *)
Theorem main_setup_correct s :
  wp (main_setup config)
    (fun cs s' => let n := rte_lcore_count in
      1 <= n <= 20 /\ length cs = 20%nat /\
      concat (managed_queues <$> take (Z.to_nat n) cs) = seqZ 0 (num_queues config) /\
      (forall i, 0 <= i < n -> exists c, lookupZ cs i = Some c /\ worker_id c = i /\ running c = 1 /\
        src_ip c = source_ip config /\ my_eth c = macaddr 0 /\ n * count_queues c = num_queues config) /\
      exists pre post rx rxd txd, trace s' = trace s ++ pre ++ port_calls 0 rx (num_queues config) rxd txd ++ post)
    (fun k _ => setup_fails k) s.
Proof.
  pose proof lcores as Hc. pose proof (cg_queues _ Hcfg) as Hr. unfold u16_ok in Hr.
  apply wp_main_setup; [|done]. intros rx tx s' evs Hn Hmax Hdiv Hf _ (pre & post & rxd & txd & ->).
  set (n := rte_lcore_count) in *. unfold MAX_CONTEXTS in Hmax.
  assert (Hq : 0 <= queues_per_core config) by (apply Z.div_pos; lia).
  split; [lia|]. split; [pose proof (filled_length rx tx (macaddr 0) n) as Hl; unfold MAX_CONTEXTS in Hl; change dpdk_port with 0; lia|].
  split; [|split].
  - unfold filled. rewrite take_app_length' by (rewrite length_fmap, length_seqZ; lia).
    rewrite (queues_partition rx tx _ n n) by lia. by rewrite Hdiv.
  - intros i Hi. exists (context_of config rx tx (macaddr 0) i). split; [by apply filled_lookup|].
    destruct (context_queues rx tx (macaddr 0) i n) as (_ & Ec & _); [done|done|done|]. rewrite Ec.
    rewrite context_server. split; [apply u32_small; lia|]. done.
  - exists pre, post, rx, rxd, txd. apply Hf.
Qed.

(** C16: Only the first worker can serve. The queue numbers of any other are
    at or beyond its own number of queues, which is the length of the array
    [queue_status] it indexes with them: its first poll reads past the array,
    unless it is told to stop before. *)
Theorem second_worker_overrun fuel rx tx eth i exp_begin s :
  0 < queues_per_core config -> num_queues config = rte_lcore_count * queues_per_core config ->
  1 <= i < rte_lcore_count ->
  let c := context_of config rx tx eth i in
  wp (server_iter c fuel exp_begin (initial_locals c exp_begin))
    (fun r _ => exists l, r = inr l) (fun k _ => k = Undef) s.
Proof.
  intros Hq Hn Hi c. pose proof (cg_queues _ Hcfg) as Hr. unfold u16_ok in Hr. set (k := queues_per_core config) in *.
  destruct (context_queues rx tx eth i rte_lcore_count) as (Em & Ec & _); [done|lia|unfold k in *; lia|].
  fold c k in Em, Ec. assert (Hb : k <= i * k /\ i * k + k <= num_queues config) by nia.
  unfold server_iter. wp_step. apply wp_poll_running. intros run w1 _. case_if; [wp_step; by eexists|].
  rewrite Em, Ec. change (q_index (initial_locals c exp_begin)) with 0.
  assert (Hlook : lookupZ (seqZ (i * k) k) 0 = Some (i * k)).
  { apply lookupZ_Some. split; [done|]. rewrite lookup_seqZ_lt by lia. f_equal. lia. }
  rewrite Hlook. wp_step. wp_step; [|done]. injection Hd as <-. rewrite u16_small by lia.
  wp_step. destruct (Z.eqb_spec k 0); [lia|]. wp_step; [|done]. injection Hd as <-.
  wp_step. apply wp_get_timer_cycles. intros now w2 _ _. case_if; [wp_step; by eexists|].
  wp_step. apply wp_report_keeps. intros l' s' _ _ _ _ Eqs. wp_step. apply wp_over_limit. cbv beta iota.
  rewrite Eqs. cbn [queue_status next_queue initial_locals]. rewrite Ec. wp_step. wp_step; [|done].
  apply lookupZ_bound in Hd. rewrite length_replicate in Hd. lia.
Qed.

(** C5: From the command line to the echoes. With an accepted server
    configuration, whatever the other cores do, the main core either fails in the
    start (see [setup_fails]), or serves as the echo server of worker 0 and ends
    with every buffer given back and exactly the accepted packets echoed in order;
    while it runs, what was sent is a prefix of that. This holds under two
    conditions. The card hands out at most 64 packets at a time ([small_bursts]):
    the program asks for up to 1024, DPDK does not promise less, and a larger burst
    can overrun the 64 slots the answers are queued in (see [tx_buf_overrun]). And
    the run is short enough for its [int] counters: [fuel] iterations of at most 64
    packets do not exceed INT_MAX. *)
Theorem main_serves calloc_ok fuel do_client s :
  small_bursts -> 64 * Z.of_nat fuel <= INT_MAX -> heap_ok s ->
  let worker rx tx := context_of config rx tx (macaddr 0) 0 in
  wp (main config calloc_ok fuel do_client)
    (fun r s' => r = 0 /\ heap s' = heap s /\ exists rx tx evs, trace s' = trace s ++ evs /\
      filter is_data (sent evs) = answers (worker rx tx) (received evs))
    (fun k s' => setup_fails k \/ k = OutOfFuel /\ exists rx tx evs, trace s' = trace s ++ evs /\
      filter is_data (sent evs) `prefix_of` answers (worker rx tx) (received evs)) s.
Proof.
  intros Hsmall Hfuel Hs worker. pose proof lcores as Hc. pose proof (cg_queues _ Hcfg) as Hr. unfold u16_ok in Hr.
  unfold main. wp_step. apply wp_main_setup; [|intros; by left].
  intros rx tx s1 evs Hn Hmax Hdiv Hf [Hrc Hst] _. set (eth := macaddr dpdk_port) in *.
  wp_step. rewrite filled_lookup by lia. set (c := context_of config rx tx eth 0). wp_step; [|done]. injection Hd as <-.
  wp_step. apply wp_launch. intros n s2 e2 Hf2 [Hrc2 Hst2]. rewrite Hserver.
  change (mode_server =? mode_server) with true. cbv iota. wp_step. wp_step.
  pose proof (frees_all_trans _ _ _ _ _ Hf Hf2) as Hf3. pose proof (frees_all_ok _ _ _ Hs Hf3) as Hs2.
  destruct Hf3 as (Eh & _ & _ & Et).
  apply (wp_do_server c); [apply first_worker_ok; [nia|done]|done|done|done| |].
  - intros s3 (Eh3 & _ & _ & evs3 & Et3 & Hans). cbv beta iota. wp_step.
    rewrite handle_main_int_run by (rewrite filled_length; lia).
    wp_step; [|done]. wp_step. wp_step. eapply wp_run; [done|]. wp_step. apply wp_print_outputs. intros _ s5 e5 (Eh5 & _ & _ & Et5) [Hrc5 Hst5].
    wp_step. apply wp_cleanup. intros _ s4 e4 (Eh4 & _ & _ & Et4) [Hrc4 Hst4].
    wp_step. split; [done|]. split; [cbn in Eh5; congruence|]. exists rx, tx, ((evs ++ e2) ++ evs3 ++ [EvPort "rte_eal_mp_wait_lcore" []] ++ e5 ++ e4).
    split.
    + rewrite Et4, Et5. cbn. by rewrite Et3, Et, <- !app_assoc.
    + autorewrite with cnet. rewrite Hrc, Hrc2, Hrc5, Hrc4, Hst, Hst2, Hst5, Hst4. cbn [app]. by rewrite !app_nil_r.
  - intros s3 (evs3 & Et3 & Hans). right. split; [done|]. exists rx, tx, ((evs ++ e2) ++ evs3).
    rewrite Et3, Et, <- !app_assoc. split; [done|]. autorewrite with cnet. by rewrite Hrc, Hrc2, Hst, Hst2.
Qed.
End contexts.
(** What a context is in the modes other than the server's. *)
Lemma context_client config rx tx eth i :
  cfg_mode config <> mode_server ->
  context_of config rx tx eth i =
    client_context config i rx tx eth (i * queues_per_core config) (queues_per_core config) (ips_of config).
Proof. intros Hm. unfold context_of. by apply Z.eqb_neq in Hm as ->. Qed.
Lemma ips_of_one config ip :
  count_server_ips (client config) = 1 -> lookupZ (server_ips (client config)) 0 = Some (Some ip) -> ips_of config = [ip].
Proof.
  intros Hc Hip. unfold ips_of. rewrite Hc. apply lookupZ_Some in Hip as [_ Hip].
  destruct (server_ips (client config)) as [|x l]; [done|]. injection Hip as ->. by destruct l.
Qed.

(** The latency client needs a queue to itself, one destination, and packets and
    bursts of the sizes it can build. *)
Section latency_start.
Variable config : app_config.
Hypothesis Hcfg : config_ok config.
Hypothesis Hmode : cfg_mode config = mode_latency_clinet.
Variable ip : Z.
Record lat_config : Prop := {
  lc_queues : num_queues config = rte_lcore_count;
  lc_count : count_server_ips (client config) = 1;
  lc_ip : lookupZ (server_ips (client config)) 0 = Some (Some ip);
  lc_payload : 8 <= payload_size config <= 2006;
  lc_delta : Latency.hdr_size_delta config <= 1998;
  lc_batch : cfg_batch (client config) <= LAT_BURST_SIZE;
}.
Hypothesis Hlat : lat_config.

Lemma lat_context_ok rx tx :
  let c := context_of config rx tx (macaddr 0) 0 in
  lat_ok config c /\ count_queues c = 1 /\ count_dst_ip c = 1 /\ dst_ips c = [ip].
Proof.
  intros c. destruct Hlat as [Hq Hc Hip Hpl Hd Hb]. pose proof lcores as Hl. pose proof (cg_source _ Hcfg) as Hs.
  pose proof (co_batch _ (cg_client _ Hcfg)) as Hbr. unfold u16_ok in Hbr.
  assert (Ec : c = client_context config 0 rx tx (macaddr 0) 0 1 [ip]).
  { unfold c. rewrite context_client, (ips_of_one _ ip) by (done || by rewrite Hmode). f_equal.
    unfold queues_per_core. rewrite Hq, Z.div_same by lia. done. }
  rewrite Ec. cbn [count_queues count_dst_ip dst_ips client_context]. rewrite Hc. split; [|done].
  constructor; cbn [src_ip my_eth payload_length batch client_context]; try done; try lia.
  - apply macaddr_ok.
  - rewrite i32_small; lia.
Qed.

(** C7: From the command line to the measurements. With an accepted
    configuration that fits the latency client ([lat_config]: one queue per core,
    one destination, 8 to 2006 bytes of payload, at most 1998 bytes of encapsulation,
    bursts of at most 64) and memory for its measurements, the main core either fails in the start (see
    [setup_fails]), or runs a session as worker 0, between a start and a clean-up that
    touch no packet buffer: the trace in between is an ARP exchange, then iterations
    as described by [lat_run] (requests stamped with the clock, a wait that goes on
    until none is unanswered, one measurement per answer up to the clock), then the
    printed measurements. The session itself is still running or fails by filling
    the array of measurements. *)
Theorem main_measures fuel do_client s :
  heap_ok s ->
  let worker rx tx := context_of config rx tx (macaddr 0) 0 in
  wp (main config true fuel do_client)
    (fun r s' => r = 0 /\ exists rx tx s1 s2 pre post, frees_all s s1 pre /\ quiet_events pre /\
      session_done config (worker rx tx) ip s1 s2 /\ frees_all s2 s' post /\ quiet_events post)
    (fun k s' => setup_fails config k \/ exists s1 pre, frees_all s s1 pre /\ quiet_events pre /\
      session_failed s1 k s') s.
Proof.
  intros Hs worker. pose proof lcores as Hc. unfold main. wp_step. apply wp_main_setup; [done| |intros; by left].
  intros rx tx s1 evs Hn Hmax Hdiv Hf Hq _.
  wp_step. rewrite filled_lookup by lia. wp_step; [|done]. injection Hd as <-.
  wp_step. apply wp_launch. intros n s2 e2 Hf2 Hq2. rewrite Hmode.
  change (mode_latency_clinet =? mode_server) with false. change (mode_latency_clinet =? mode_latency_clinet) with true. cbv iota.
  pose proof (frees_all_trans _ _ _ _ _ Hf Hf2) as Hf3. pose proof (frees_all_ok _ _ _ Hs Hf3) as Hs2.
  destruct (lat_context_ok rx tx) as (Hok & Hcq & Hcd & Hip).
  wp_step. wp_step. eapply wp_mono; [by apply (wp_do_latency_client config _ Hok fuel ip)| |].
  - intros r s3 [-> Hdone]. wp_step. wp_step. eapply wp_run; [done|]. wp_step. apply wp_print_outputs. intros _ s4 e4 Hf4 Hq4.
    wp_step. apply wp_cleanup. intros _ s5 e5 Hf5 Hq5. wp_step.
    split; [done|]. exists rx, tx, s2, s3, (evs ++ e2), ([EvPort "rte_eal_mp_wait_lcore" []] ++ e4 ++ e5).
    split_and!; [done|by apply quiet_app|done| |by repeat apply quiet_app].
    eapply frees_all_trans; [apply frees_all_log|]. by eapply frees_all_trans.
  - intros k s3 Hfail. right. exists s2, (evs ++ e2). split_and!; [done|by apply quiet_app|done].
Qed.
End latency_start.
End main_proofs.

(** ** Witnesses *)

(** A card on which every call succeeds, with [n] cores besides the main one. *)
Definition cores (n : nat) : DpdkPort sim := {|
  rte_lcore_count := 1 + Z.of_nat n;
  worker_lcores := seqZ 1 (Z.of_nat n);
  RTE_ETHER_MAX_LEN := 1518;
  RTE_ETH_MQ_RX_NONE := 0;
  RTE_ETH_TX_OFFLOAD_IPV4_CKSUM := 2;
  RTE_ETH_TX_OFFLOAD_UDP_CKSUM := 4;
  RTE_MBUF_DEFAULT_BUF_SIZE := 2176;
  pool_create _ _ w := (Some 0, w);
  dev_is_valid _ w := (true, w);
  dev_configure _ _ _ _ w := (0, w);
  dev_adjust _ rxd txd w := ((0, (rxd, txd)), w);
  rxq_setup _ _ _ _ w := (0, w);
  txq_setup _ _ _ w := (0, w);
  dev_start _ w := (0, w);
  fmemopen_ok w := (true, w);
|}.
Lemma cores_laws n : PortLaws sim (H := cores n).
Proof. constructor. cbn [rte_lcore_count worker_lcores cores]. rewrite length_seqZ. lia. Qed.

(** A server on 10.0.0.1 with two queues. *)
Definition server_config : app_config :=
  set_mode mode_server (set_num_queues 2 (set_source_ip ip_a default_config)).
Lemma server_config_ok : config_ok server_config.
Proof.
  destruct default_config_ok. constructor; try done; cbn; split; by apply Z.leb_le || by apply Z.ltb_lt.
Qed.
Lemma server_config_server : cfg_mode server_config = mode_server.
Proof. done. Qed.

Lemma main_setup_correct_witness :
  exists cs s', main_setup (DpdkPort0 := cores 1) server_config (boot quiet) = (Ret cs, s') /\
    concat (managed_queues <$> take 2 cs) = [0; 1].
Proof.
  pose proof (main_setup_correct (DpdkPort0 := cores 1) (PortLaws0 := cores_laws 1) server_config
    server_config_ok server_config_server (boot quiet)) as Hw.
  destruct (main_setup (DpdkPort0 := cores 1) server_config (boot quiet)) as [o s'] eqn:E.
  assert (Eo : o = Ret (filled (DpdkPort0 := cores 1) server_config 0 0 (macaddr 0) 2)) by (apply (f_equal fst) in E; vm_compute in E; rewrite <- E; reflexivity).
  subst o. eexists _, s'. split; [reflexivity|]. by destruct Hw as (_ & _ & Hq & _).
Defined.

Lemma second_worker_overrun_witness :
  wp (server_iter (context_of (DpdkPort0 := cores 1) server_config 0 1 mac_a 1) 5 0
      (initial_locals (context_of (DpdkPort0 := cores 1) server_config 0 1 mac_a 1) 0))
    (fun r _ => exists l, r = inr l) (fun k _ => k = Undef) (boot quiet).
Proof.
  apply (second_worker_overrun (DpdkPort0 := cores 1) server_config
    server_config_ok server_config_server); [done|done|split; by apply Z.leb_le || by apply Z.ltb_lt].
Defined.

Lemma main_serves_witness :
  wp (main (DpdkPort0 := cores 0) server_config true 5 (fun _ => stop Aborted))
    (fun r s' => r = 0) (fun _ _ => True) (boot client_comes).
Proof.
  eapply wp_mono.
  - apply (main_serves (DpdkPort0 := cores 0) (PortLaws0 := cores_laws 0) server_config server_config_ok server_config_server);
      [apply sim_small_bursts|by apply Z.leb_le|apply boot_ok].
  - by intros r s' [-> _].
  - done.
Defined.

(** The latency client against 10.0.0.1, on one queue. *)
Definition lat_app_config : app_config :=
  set_client (set_ips 1 (Some ip_a :: replicate 31 None))
    (set_mode mode_latency_clinet (set_num_queues 1 (set_source_ip ip_b default_config))).
Lemma lat_app_config_ok : config_ok lat_app_config.
Proof.
  destruct default_config_ok as [? ? ? ? ? ? []].
  constructor; try done; try (by split; apply Z.leb_le || apply Z.ltb_lt).
  constructor; try done; try (by split; apply Z.leb_le).
  cbn. intros i Hi. assert (i = 0) as -> by lia. exists ip_a. by split; [|split; apply Z.leb_le || apply Z.ltb_lt].
Qed.
Lemma lat_app_config_fits : lat_config (DpdkPort0 := cores 0) lat_app_config ip_a.
Proof. constructor; try done; by apply Z.leb_le || split; apply Z.leb_le. Qed.

Lemma main_measures_witness :
  wp (main (DpdkPort0 := cores 0) lat_app_config true 500 (fun _ => stop Aborted))
    (fun r _ => r = 0) (fun _ _ => True) (boot lat_world).
Proof.
  eapply wp_mono.
  - apply (main_measures (DpdkPort0 := cores 0) (PortLaws0 := cores_laws 0) lat_app_config lat_app_config_ok eq_refl ip_a
      lat_app_config_fits). apply boot_ok.
  - by intros r s' [-> _].
  - done.
Defined.
