(* ===== verification/ClientMain.v ===== *)
(** * From the command line to the client's threads (main.c, client.c)

    The main core in client mode: the start of Main.v, the set-up of
    ClientSetup.v on the context of worker 0, and the runs of Client.v from
    there. What the set-up needs follows from an accepted command line, up to
    the limits of the client that the command line does not check. *)
From S2P Require Import Prelude CInt CFloat Monad Zipf Percentile Dpdk Sim Arp Exp Config Server ClientTx ClientRx ClientSetup.
From S2P Require Import Client Main.

Section client_main.
Context `{DpdkLib} {W : Type} `{DpdkEnv W} `{!DpdkPort W}.
Variable log : spec_float -> spec_float.
Variable pow : spec_float -> spec_float -> spec_float.
Variable flags : variant.
Variable config : app_config.

(** [main] up to the two threads of the client on the main core. *)
Definition client_main (fuel : nat) : M (machine W) (context * client_start) :=
  cntxs ← main_setup config;
  c0 ← demand (lookupZ cntxs 0);
  _ ← launch_workers;
  b ← client_setup log pow flags config c0 fuel;
  mret (c0, b).

(** What the command line leaves unchecked: one destination (the assertion of
    the second one fails), fewer flows than a 16-bit counter has values, ports for
    all of them, bursts that fit their array, payloads between a time stamp and
    the text; and tables that [pow] and [log] can build. *)
Record client_fits (ip : Z) : Prop := {
  cf_mode : cfg_mode config = mode_client;
  cf_count : count_server_ips (client config) = 1;
  cf_ip : lookupZ (server_ips (client config)) 0 = Some (Some ip);
  cf_flows : 1 <= cfg_count_flow (client config) < 65536;
  cf_ports : server_port config + cfg_count_flow (client config) <= 65536;
  cf_batch : cfg_batch (client config) <= MAX_BURST_SIZE;
  cf_payload : 8 <= payload_size config <= 1509;
  cf_hist : exists h, new_p_hist_from_max_value log (f32_of_Z MAX_EXPECTED_LATENCY) = Some h /\ 1 <= count_bucket h;
  cf_dst_zipf : is_Some (new_zipfgen pow 1 (f64_of_Z 2));
  cf_queue_zipf : is_Some (new_zipfgen pow (num_queues config / rte_lcore_count) (f64_of_Z 2));
  cf_select : select_src_ip (client config) = true -> 0 < unique_client_ports (client config) /\
    exists z, new_zipfgen pow (i32 (unique_client_addresses (client config)))
      (f64_of_f32 (zipf_arg (client config))) = Some z /\ full_table z;
  cf_num : payload_number flags = true ->
    exists z, new_zipfgen pow (max_num (client config)) (f64_of_Z 0) = Some z /\ full_table z;
}.
End client_main.

Section client_main_proofs.
Context `{DpdkLaws} {W : Type} `{EnvLaws W} `{!DpdkPort W, !PortLaws W}.
Variable log : spec_float -> spec_float.
Hypothesis Hlog : log_ok log.
Variable pow : spec_float -> spec_float -> spec_float.
Variable flags : variant.
Variable config : app_config.
Hypothesis Hcfg : config_ok config.
Variable ip : Z.
Hypothesis Hfits : client_fits log pow flags config ip.
Implicit Types (s : machine W) (E : reason -> machine W -> Prop).

(** The context of worker 0 is fit for the set-up and for the receiver. *)
Lemma client_context_ok rx tx :
  rte_lcore_count <= num_queues config ->
  let cntx := context_of config rx tx (macaddr 0) 0 in setup_ok log pow flags config cntx /\ rx_ok cntx.
Proof.
  intros Hn cntx. destruct Hfits as [Hm Hc Hip Hfl Hpo Hba Hpl Hh Hdz Hqz Hse Hnu]. pose proof lcores as Hl.
  pose proof (cg_queues _ Hcfg) as Hq. pose proof (cg_server_port _ Hcfg) as Hsp. unfold u16_ok in Hq, Hsp.
  pose proof (co_batch _ (cg_client _ Hcfg)) as Hb. unfold u16_ok in Hb.
  assert (Hk : 1 <= queues_per_core config <= num_queues config).
  { unfold queues_per_core. split; [apply Z.div_le_lower_bound; lia|apply Z.div_le_upper_bound; nia]. }
  assert (Ec : cntx = client_context config 0 rx tx (macaddr 0) 0 (queues_per_core config) [ip])
    by (unfold cntx; rewrite context_client, (ips_of_one _ ip) by (done || by rewrite Hm); done).
  rewrite Ec. clear Ec cntx. split; [|constructor; cbn; [apply Hcfg|by rewrite Hc]].
  assert (Ek : c_count_queues (client_context config 0 rx tx (macaddr 0) 0 (queues_per_core config) [ip]) =
    queues_per_core config) by (unfold c_count_queues; cbn; rewrite u32_small, u16_small by lia; done).
  constructor; rewrite ?Ek; try done; cbn [count_dst_ip src_ip count_flow base_port_number batch my_eth payload_length
    dst_ips client_context]; rewrite ?(u32_small (cfg_count_flow _)), ?(i32_small (payload_size _)) by lia; try done; try lia.
  - by rewrite Hc.
  - by eexists.
  - apply Hcfg.
  - apply macaddr_ok.
  - apply (cg_client _ Hcfg).
  - apply Hcfg.
Qed.

(** C6: From the command line to the client's threads. With an accepted
    configuration within the client's limits, the start and the set-up either
    fail in one of the ways of the start (see [setup_fails]), or wait for an ARP
    reply, or reach the threads. From there, in every interleaving: no packet
    buffer is leaked, what is sent comes from the configured address and is one of
    the client's packets or an ARP reply, and neither thread can fail until 2^31
    packets have come back. *)
Theorem client_from_command_line fuel s :
  heap_ok s -> rng_ok (rng s) -> 65536 < Z.of_nat fuel ->
  wp (client_main log pow flags config fuel)
    (fun '(cntx, b) s1 => src_ip cntx = source_ip config /\ dst_ips cntx = [ip] /\
      forall c, client_runs log pow flags cntx (c_setup b) s1 (client_begin cntx b s1) c ->
        heap (cs_machine c) = heap s /\
        Forall (fun p => our_packet flags cntx (c_setup b) p \/ ~ is_data p) (sent (since s1 c)) /\
        (roomy s1 c -> ~ client_fails log pow flags cntx (c_setup b) c))
    (fun k s' => setup_fails config k \/ k = OutOfFuel /\ cfg_do_arp config <> 0) s.
Proof.
  intros Hs Hr Hfuel. pose proof lcores as Hl. unfold client_main. wp_step.
  apply wp_main_setup; [done| |intros; by left]. intros rx tx s1 evs Hn Hmax _ Hf _ _.
  wp_step. rewrite filled_lookup by lia. wp_step; [|done]. injection Hd as <-.
  wp_step. apply wp_launch. intros _ s2 e2 Hf2 _. pose proof (frees_all_trans _ _ _ _ _ Hf Hf2) as Hf3.
  pose proof (frees_all_ok _ _ _ Hs Hf3) as Hs2. destruct (client_context_ok rx tx Hn) as [Hok Hrx].
  change dpdk_port with 0. set (cntx := context_of config rx tx (macaddr 0) 0) in *. destruct Hf3 as (Eh & _ & Er & _).
  assert (Ecntx : src_ip cntx = source_ip config /\ dst_ips cntx = [ip] /\ do_arp cntx = u8 (cfg_do_arp config)).
  { unfold cntx. destruct Hfits as [Hm Hc Hip]. by rewrite context_client, (ips_of_one _ ip) by (done || by rewrite Hm). }
  destruct Ecntx as (Esrc & Edst & Earp).
  wp_step. apply (wp_client_setup log pow flags config cntx); [done|done|by rewrite Er|done| |].
  - intros b s3 Hb (evs3 & Hf4 & _). pose proof (frees_all_ok _ _ _ Hs2 Hf4) as Hs3. destruct Hf4 as (Eh4 & _ & Er4 & _).
    wp_step. split; [done|]. split; [done|]. intros c Hruns.
    destruct (client_runs_inv log Hlog pow flags cntx _ _ _ _ Hb (st_tx _ _ _ Hb) Hrx Hs3 ltac:(by rewrite Er4, Er) Hruns) as [evs' Hi].
    rewrite (since_eq _ _ _ _ _ _ _ _ Hi). split; [|split; [apply Hi|]].
    + destruct (ci_run _ _ _ _ _ _ _ _ Hi) as (Eh5 & _). congruence.
    + intros Hroom. eapply client_inv_safe; [exact Hlog|apply Hb|done|done|exact Hi|done].
  - intros Ha s3 _. right. split; [done|]. intros E0. apply Ha. by rewrite Earp, E0.
Qed.
End client_main_proofs.

(** ** Witnesses *)

(** The client against 10.0.0.1, on one queue, with bursts of four packets. *)
Definition client_app_config : app_config :=
  set_client (fun c => set_batch 4 (set_ips 1 (Some ip_a :: replicate 31 None) c))
    (set_mode mode_client (set_num_queues 1 (set_source_ip ip_b default_config))).
Lemma client_app_config_ok : config_ok client_app_config.
Proof.
  destruct lat_app_config_ok as [? ? ? ? ? ? []].
  by constructor; [..|constructor].
Qed.
Lemma client_app_config_fits :
  client_fits (DpdkPort0 := cores 0) log_const pow_2 (Variant true false) client_app_config ip_a.
Proof.
  constructor; try done; try (by apply Z.leb_le); try (by split; apply Z.leb_le || apply Z.ltb_lt).
  - eexists. split; [vm_compute; reflexivity|by apply Z.leb_le].
Qed.

Lemma client_from_command_line_witness :
  let fuel := Z.to_nat 70000 in
  wp (client_main (DpdkPort0 := cores 0) log_const pow_2 (Variant true false) client_app_config fuel)
    (fun '(cntx, b) s1 => src_ip cntx = ip_b /\ heap (cs_machine (client_begin cntx b s1)) = heap (boot quiet))
    (fun _ _ => True) (boot quiet).
Proof.
  intros fuel. eapply wp_mono.
  - apply (client_from_command_line (DpdkPort0 := cores 0) (PortLaws0 := cores_laws 0) log_const log_const_ok pow_2
      (Variant true false) client_app_config client_app_config_ok ip_a client_app_config_fits fuel);
      [apply boot_ok|apply rng_init_ok|].
    unfold fuel. rewrite Z2Nat.id; [by apply Z.ltb_lt|by apply Z.leb_le].
  - intros [cntx b] s1 (Hsrc & _ & Hruns). split; [exact Hsrc|]. apply (Hruns (client_begin cntx b s1)). apply rtc_refl.
  - done.
Defined.
